(* ===== verification/_CoqProject ===== *)
-Q . S2P
Prelude.v
Text.v
Key.v
X509.v
Tls.v
Config.v
Ids.v
Ip.v
Node.v
Dns.v
Device.v
Frame.v
Codec.v
Tokio.v
Files.v
Futures.v
Hash.v
Metadata.v
MuxStream.v
MuxSession.v
MuxActor.v
MuxInvariant.v
MuxProtocol.v
TcpStream.v
QuicStream.v
Connection.v
Transport.v
Endpoints.v
Paths.v
Handles.v
Traits.v
Links.v
SessionLink.v
QuicLink.v
Transfer.v
Peers.v
Exchange.v
FileTransfer.v
Hello.v
Servers.v
Sizes.v
