(* ===== verification/Prelude.v ===== *)
(** * Verification of foctet

    foctet connects nodes that know each other by a public key.  It has four crates:
    foctet-core (frames, keys, identifiers, addresses, hashes), foctet-mux (many logical
    streams over one byte stream), foctet-net (TLS, QUIC and TCP transports, and the
    endpoint that a program uses), and foctet, which re-exports them.

    A program builds an [Endpoint].  Its actor listens on the configured addresses with a
    transport for each, and hands the connections that come in to the program; the program
    connects to other nodes through the endpoint's own transports.  Over QUIC a connection
    is one of the quinn library.  Over TCP it is a TLS stream that carries a session of
    foctet-mux: a task, the session actor, reads frames through the codec and distributes
    them to the logical streams, and writes the frames that the streams produce.  Peers
    authenticate each other with self-signed certificates that their Ed25519 key vouches
    for.  Four example programs use all this: a listener and a client that greets it, and a
    sender of files and its receiver, to whom a ticket tells the node and the content.

    ** Files, and the sources they model

    Paths are under src/.  A definition that models code has a comment with the lines it
    translates, and the name it has in the code where Rocq allows it; a Rust type with
    methods is a [Module] with a record [t].

    - [Prelude]: results with panics ([outcome]), machine integers, bytes, the errors of
      the sources, tactics and the hint database [foctet].
    - [Text], [Key], [Hash], [Metadata]: foctet-core/src/key.rs, hash.rs, metadata.rs,
      time.rs and utils/fs.rs, with the encodings (hexadecimal, base32, bincode) they use.
    - [Ids], [Ip], [Node]: foctet-core/src/stream.rs, connection.rs, transport.rs, ip.rs,
      id.rs, content.rs and addr/node.rs.
    - [Frame], [Codec]: foctet-core/src/frame.rs and codec.rs.
    - [Tokio], [Files]: what the sources use of tokio: bounded and oneshot channels, mutexes,
      futures as functions of a shared state ([async]), files and loops around [.await].
    - [MuxStream], [MuxSession]: foctet-mux/src/stream.rs and session.rs.  [World] is a
      session with all that it shares; [turn] is an iteration of the actor's loop that does
      not have to wait.
    - [MuxActor]: session.rs again, as the task with the places where it waits: at
      [select!], inside a handler, in the shutdown.  [poll_actor] lets it go on.
    - [MuxInvariant], [MuxProtocol]: no code, but the runs of one session, with its task, the
      tasks it spawns, the application and the network in any order, and of two sessions
      joined by a byte stream.
    - [X509], [Tls], [Config]: foctet-net/src/tls/cert.rs, verifier.rs, config.rs and
      upgrade.rs; config.rs and transport/quic/config.rs.
    - [Dns], [Device]: foctet-net/src/dns/mod.rs and device.rs.
    - [TcpStream], [QuicStream], [Connection], [Transport]: foctet-net/src/transport/;
      [Traits] has the traits of transport/stream.rs with all that implements them.
    - [Endpoints]: foctet-net/src/endpoint.rs.  [System] is the actor, the listening and
      forwarding tasks and the channels; [act] is one move of any of them.
    - [Paths], [Sizes]: the rest of foctet-core/src/utils/, which compresses directories,
      finds the data directory and formats sizes.
    - [Futures], [Handles]: a program as a tree of calls ([future]) that is suspended and
      resumed among others, and the operations of streams and connections that wait more
      than once in this form.
    - [Transfer], [Hello], [Servers]: foctet-net/examples/send_file.rs and receive_file.rs;
      listen.rs and connect.rs; and the loops of the two servers with their tasks.
    - [Links], [SessionLink], [QuicLink]: no code, but the interface [StreamLink] of two
      stream ends with what lies between them, and its laws for both transports.
    - [Peers], [Exchange], [FileTransfer]: no code, but two programs at the ends of a link
      with all their interleavings, the exchange of a file on any link, and on each of the
      two.

    ** Parts that are parameters

    Code of other packages is a type class, with what it is relied on for as a second class
    of laws: [Hex], [Base32], [Bincode], [Blake3], [Ed25519], [X509Lib], [TlsLib] (rustls),
    [QuinnLib], [ConnLib] and [NetLib] (quinn, raw streams, sockets, the clock), [StackAddrLib],
    [IpNetLib], [DnsLib], [MessageSink] and [MessageSource] (the length-delimited codec over
    QUIC streams), [QuicPipe] (what lies between such a sink and the source of the peer),
    [FileRead], [Disk] (directories), [TarGz] (the archive libraries).  The parsing of
    socket addresses and the test whether a path is a directory are arguments of the
    programs.  Interfaces inside the development are classes too: a stream runs over any
    [StreamHost], of which a session is one; sessions are joined by any [FramedLink], of
    which the codec over bytes cut anywhere is one; programs talk over any [StreamLink].
    Each theorem under such a class has a witness with concrete instances.

    ** What the theorems show

    - Frames and codec: both round trips of the byte representation, the result on every
      input, the decoder as a total function that returns well-formed frames, loses no byte
      and does not depend on how the bytes arrive, and the stream round trip.
    - Multiplexing: a session delivers to each stream the frames of that stream in order, and
      what is done on one stream leaves the others alone; the invariant of the registered
      streams wherever the session's task waits; that a reader who lags stops the session
      until it reads or goes; the opening handshake between two sessions, and the collision
      of identifiers that it allows; bytes from a writer to the reader on the other side;
      what closing, splitting and stopping do.
    - Streams: what sending and receiving a file do on every state of the channels of a TCP
      stream and on every state of a QUIC stream, buffers of no bytes and of too many
      included.
    - Programs: a file crosses TCP and QUIC as it is, in a bounded number of moves that come
      in any order, unless it is empty, in which case the receiver waits for ever; a ticket
      leads to the file that was offered; the receiver writes where the name in the metadata
      says, be it outside the directory it was given; a greeting is answered; what a server
      handles comes from authenticated connections.
    - Identity: a peer whose handshake succeeds has shown a certificate that its node key
      vouches for and has signed the transcript of this very handshake with the key of that
      certificate; the certificates of a node are accepted, and configurations show them.
    - Endpoint: every builder gives a well-formed endpoint; the connections that are accepted
      in any interleaving of the tasks are authenticated, by the handshake of the TLS stream
      or the QUIC connection that they run over; connecting to a node is the first
      success along the usable addresses in their order; listeners deliver, also after a
      shutdown, and are blocked by a peer that stays silent; what is advertised.

    ** Bounds and fuel

    Loops of the code that are not structural take fuel and return [None] without enough of
    it.  The decoder needs two turns ([decode_fuel]); the draining of a buffer as many as it
    has bytes, and two; the loops that send and receive need one turn for each chunk and one
    more, and the theorems on them state that this is enough.  An iteration of a session's
    loop that does not wait is over after at most ten polls.  Machine integers are [Z]
    with their wrap-around written out.  A program is a tree without fuel; the exchange of a
    file of [n] bytes takes at most [4 * (9 + 2 * n)] moves over TCP, and over QUIC [3 * (9
    + 2 * n)] and what the connection was about to do, as the theorems show.  Theorems have
    no bound on the number of streams, frames or bytes beyond those of the code.

    ** Abstractions

    Between two places where it can wait, a task is not interrupted.  The session's task has
    all these places in [MuxActor], over which the invariants of sessions and the blocking
    by a reader are proved; a session's [turn] is an iteration that does not wait once it
    has begun, as [turn_settles] shows, and the theorems about two sessions and about programs
    at the ends of a link are about runs of such turns.  The handshake that a listening task
    awaits is a state of its own; other turns of the endpoint's tasks are atomic, and
    connecting runs to its end as one task.  Dropping a session, which aborts its task, is
    not a step.  Log output is left out, and so are the texts that error messages format
    from their cause.

    ** Not modelled

    In the examples, the parsing of the command line by clap, logging and the measuring of
    speed.  Everywhere, formatting for display and debugging, derived traits, accessors that
    return a field, tests, module declarations and re-exports.  [RelayActor],
    which is empty, the enums [AddressFamily] and [ConnectionSide] and the constants of
    default.rs that no code uses. *)

From stdpp Require Export base tactics list numbers gmap strings pretty.
From Stdlib Require Export ZArith Lia.
From Stdlib Require Strings.Byte Strings.String.

#[export] Set Default Proof Using "Type".

(** ** Fallible code

    A Rust function that returns [Result<T, E>] and that may also panic is a
    value of [outcome E T]. *)

Inductive outcome (E A : Type) : Type :=
| Ok (a : A)
| Err (e : E)
| Panic.

Arguments Ok {E A} a.
Arguments Err {E A} e.
Arguments Panic {E A}.

(** The [?] operator: errors and panics leave the function at once. *)

Definition outcome_bind {E A B : Type} (k : A -> outcome E B) (m : outcome E A)
  : outcome E B :=
  match m with
  | Ok a => k a
  | Err e => Err e
  | Panic => Panic
  end.

(** [Result::map_err]. *)

Definition map_err {E F A : Type} (f : E -> F) (m : outcome E A) : outcome F A :=
  match m with
  | Ok a => Ok a
  | Err e => Err (f e)
  | Panic => Panic
  end.

(** [Option::ok_or]. *)

Definition ok_or {E A : Type} (e : E) (o : option A) : outcome E A :=
  match o with
  | Some a => Ok a
  | None => Err e
  end.

(** [Result::unwrap] and [Result::expect]. *)

Definition unwrap {E F A : Type} (m : outcome E A) : outcome F A :=
  match m with
  | Ok a => Ok a
  | Err _ => Panic
  | Panic => Panic
  end.

Definition is_ok {E A : Type} (m : outcome E A) : bool :=
  match m with
  | Ok _ => true
  | _ => false
  end.

Declare Scope outcome_scope.
Delimit Scope outcome_scope with outcome.

Notation "'let?' x := m 'in' k" := (outcome_bind (fun x => k) m)
  (at level 10, x pattern, m at level 100, k at level 200,
   format "'[v' 'let?'  x  :=  m  'in' '/' k ']'") : outcome_scope.

(** ** Machine integers

    An unsigned [w]-bit integer is a [Z] between [0] and [2 ^ w]. *)

Definition u8_max : Z := 255.
Definition u32_max : Z := 4294967295.
Definition u64_max : Z := 18446744073709551615.

Definition is_u8 (z : Z) : bool := ((0 <=? z) && (z <=? u8_max))%Z.
Definition is_u32 (z : Z) : bool := ((0 <=? z) && (z <=? u32_max))%Z.
Definition is_u64 (z : Z) : bool := ((0 <=? z) && (z <=? u64_max))%Z.

(** [as u32] and the wrap-around of [AtomicU32::fetch_add]. *)

Definition as_u8 (z : Z) : Z := (z mod 256)%Z.
Definition as_u32 (z : Z) : Z := (z mod 4294967296)%Z.

(** [u32::checked_add]. *)

Definition checked_add_u32 (a b : Z) : option Z :=
  if (a + b <=? u32_max)%Z then Some (a + b)%Z else None.

(** ** Bytes

    [Bytes], [BytesMut], [Vec<u8>] and [&[u8]] are lists of bytes. *)

Abbreviation byte := Corelib.Init.Byte.byte.
Abbreviation bytes := (list byte).

Definition byte_of (z : Z) : byte :=
  match Byte.of_N (Z.to_N (z mod 256)) with
  | Some b => b
  | None => Corelib.Init.Byte.x00
  end.

Definition byte_val (b : byte) : Z := Z.of_N (Byte.to_N b).

#[export] Instance byte_eq_dec : EqDecision byte := Byte.byte_eq_dec.

Definition len {A : Type} (l : list A) : Z := Z.of_nat (length l).

(** [BufMut::put_u8] and [BufMut::put_u32] append at the end of the buffer,
    the latter most significant byte first. *)

Definition put_u8 (buf : bytes) (x : Z) : bytes := buf ++ [byte_of x].

Definition put_u32 (buf : bytes) (x : Z) : bytes :=
  buf ++ [byte_of (Z.shiftr x 24); byte_of (Z.shiftr x 16);
          byte_of (Z.shiftr x 8); byte_of x].

(** The big-endian value of four bytes. *)

Definition be32 (a b c d : Z) : Z :=
  Z.lor (Z.shiftl a 24) (Z.lor (Z.shiftl b 16) (Z.lor (Z.shiftl c 8) d)).

(** [Buf::get_u8] and [Buf::get_u32] consume the front of the buffer and panic
    when it is too short. *)

Definition get_u8 {E : Type} (buf : bytes) : outcome E (Z * bytes) :=
  match buf with
  | b0 :: rest => Ok (byte_val b0, rest)
  | _ => Panic
  end.

Definition get_u32 {E : Type} (buf : bytes) : outcome E (Z * bytes) :=
  match buf with
  | b0 :: b1 :: b2 :: b3 :: rest =>
      Ok (be32 (byte_val b0) (byte_val b1) (byte_val b2) (byte_val b3), rest)
  | _ => Panic
  end.

(** [BytesMut::split_to] returns the first [n] bytes and leaves the others; it
    panics when there are fewer. *)

Definition split_to {E : Type} (buf : bytes) (n : Z) : outcome E (bytes * bytes) :=
  if (n <=? len buf)%Z
  then Ok (take (Z.to_nat n) buf, drop (Z.to_nat n) buf)
  else Panic.

(** [<[u8]>::copy_from_slice] into an array of [n] bytes panics unless the
    lengths agree. *)

Definition copy_from_slice {E : Type} (n : Z) (src : bytes) : outcome E bytes :=
  if (len src =? n)%Z then Ok src else Panic.

(** [&buf[a..b]] panics unless [a <= b <= buf.len()]. *)

Definition slice {E : Type} (buf : bytes) (a b : Z) : outcome E bytes :=
  if ((0 <=? a) && (a <=? b) && (b <=? len buf))%Z
  then Ok (take (Z.to_nat (b - a)) (drop (Z.to_nat a) buf))
  else Panic.

(** ** Errors

    An [anyhow::Error] is its message, the [io::Error] it wraps, or a message
    that ends with the rendering of another error. *)

Inductive ErrorKind : Type :=
| BrokenPipe
| OtherKind.

Inductive error : Type :=
| Anyhow (msg : string)
| IoError (kind : ErrorKind) (msg : string)
| Caused (msg : string) (cause : error).

#[export] Instance ErrorKind_eq_dec : EqDecision ErrorKind.
Proof. solve_decision. Defined.

#[export] Instance error_eq_dec : EqDecision error.
Proof. solve_decision. Defined.

(** ** Automation

    [foctet] holds the facts that close the side conditions of the components:
    ranges of bytes and of machine integers, and lengths of encodings. *)

Create HintDb foctet.
Create Rewrite HintDb foctet.

(** [case_match_all] splits on every [match] and [if] of the goal;
    [inv_outcome] reads equations between outcomes. *)

Ltac case_match_all := repeat (case_match; simplify_eq/=; try done).

Ltac inv_outcome :=
  repeat match goal with
    | H : Ok _ = Ok _ |- _ => injection H as H; subst
    | H : Err _ = Err _ |- _ => injection H as H; subst
    | H : Ok _ = Err _ |- _ => discriminate H
    | H : Err _ = Ok _ |- _ => discriminate H
    | H : Panic = Ok _ |- _ => discriminate H
    | H : Ok _ = Panic |- _ => discriminate H
    | H : Panic = Err _ |- _ => discriminate H
    | H : Err _ = Panic |- _ => discriminate H
    end.

(** [unfold_ints] exposes the bounds of machine integers to [lia]. *)

Ltac unfold_ints :=
  unfold is_u8, is_u32, is_u64, as_u8, as_u32, u8_max, u32_max, u64_max, len in *.

Ltac ints := unfold_ints; lia.

(** ** Lemmas on machine integers *)

Lemma is_u32_spec (z : Z) : is_u32 z = true <-> (0 <= z < 4294967296)%Z.
Proof. ints. Qed.

Lemma is_u8_spec (z : Z) : is_u8 z = true <-> (0 <= z < 256)%Z.
Proof. ints. Qed.

Lemma as_u32_id (z : Z) : is_u32 z = true -> as_u32 z = z.
Proof. intros H. apply Z.mod_small. ints. Qed.

Lemma as_u32_range (z : Z) : is_u32 (as_u32 z) = true.
Proof.
  apply is_u32_spec. unfold as_u32. apply Z.mod_pos_bound. lia.
Qed.

Lemma len_nonneg {A : Type} (l : list A) : (0 <= len l)%Z.
Proof. ints. Qed.

Lemma len_app {A : Type} (l k : list A) : len (l ++ k) = (len l + len k)%Z.
Proof. unfold len. rewrite length_app. lia. Qed.

Lemma len_cons {A : Type} (x : A) (l : list A) : len (x :: l) = (1 + len l)%Z.
Proof. unfold len. simpl. lia. Qed.

#[export] Hint Resolve as_u32_range len_nonneg : foctet.
#[export] Hint Rewrite @len_app @len_cons : foctet.

(** ** Lemmas on bytes *)

Lemma byte_val_range (b : byte) : (0 <= byte_val b < 256)%Z.
Proof.
  unfold byte_val. pose proof (Byte.to_N_bounded b). lia.
Qed.

Lemma byte_val_of (z : Z) : byte_val (byte_of z) = (z mod 256)%Z.
Proof.
  unfold byte_val, byte_of.
  pose proof (Z.mod_pos_bound z 256 ltac:(lia)) as Hb.
  destruct (Byte.of_N _) as [b|] eqn:E.
  - apply Byte.to_of_N in E. lia.
  - apply Byte.of_N_None_iff in E. lia.
Qed.

Lemma byte_of_val (b : byte) : byte_of (byte_val b) = b.
Proof.
  unfold byte_of, byte_val.
  pose proof (Byte.to_N_bounded b).
  rewrite Z.mod_small by lia. rewrite N2Z.id, Byte.of_to_N. done.
Qed.

Lemma byte_of_eq (z : Z) (b : byte) : (z mod 256 = byte_val b)%Z -> byte_of z = b.
Proof.
  intros H. rewrite <- (byte_of_val b). unfold byte_of. rewrite H.
  rewrite (Z.mod_small (byte_val b)) by apply byte_val_range. done.
Qed.

#[export] Hint Resolve byte_val_range : foctet.

(** A byte placed below a shifted number is an addition. *)

Lemma land_shiftl_low (x y n : Z) :
  (0 <= n)%Z -> (0 <= y < 2 ^ n)%Z -> Z.land (Z.shiftl x n) y = 0%Z.
Proof.
  intros Hn Hy. apply Z.bits_inj'. intros k Hk.
  rewrite Z.land_spec, Z.bits_0, Z.shiftl_spec by done.
  destruct (decide (k < n)%Z).
  - rewrite Z.testbit_neg_r by lia. done.
  - replace (Z.testbit y k) with false; [apply andb_false_r|].
    symmetry. apply Z.testbit_false; [done|]. rewrite Z.div_small; [done|].
    split; [lia|]. apply (Z.lt_le_trans _ (2 ^ n)); [lia|].
    apply Z.pow_le_mono_r; lia.
Qed.

Lemma lor_shiftl_add (x y n : Z) :
  (0 <= n)%Z -> (0 <= y < 2 ^ n)%Z ->
  Z.lor (Z.shiftl x n) y = (x * 2 ^ n + y)%Z.
Proof.
  intros Hn Hy. rewrite <- Z.shiftl_mul_pow2 by done.
  rewrite <- Z.add_lor_land, land_shiftl_low by done. lia.
Qed.

Lemma be32_add (a b c d : Z) :
  (0 <= b < 256)%Z -> (0 <= c < 256)%Z -> (0 <= d < 256)%Z ->
  be32 a b c d = (a * 16777216 + b * 65536 + c * 256 + d)%Z.
Proof.
  intros. unfold be32.
  rewrite (lor_shiftl_add c d 8) by lia.
  rewrite (lor_shiftl_add b _ 16) by lia.
  rewrite (lor_shiftl_add a _ 24) by lia. lia.
Qed.

Lemma be32_range (a b c d : byte) :
  is_u32 (be32 (byte_val a) (byte_val b) (byte_val c) (byte_val d)) = true.
Proof.
  pose proof (byte_val_range a). pose proof (byte_val_range b).
  pose proof (byte_val_range c). pose proof (byte_val_range d).
  apply is_u32_spec. rewrite be32_add by done. lia.
Qed.

Lemma get_u32_be {E : Type} (a b c d : byte) (rest : bytes) :
  get_u32 (E:=E) (a :: b :: c :: d :: rest) =
  Ok (be32 (byte_val a) (byte_val b) (byte_val c) (byte_val d), rest).
Proof. done. Qed.

Lemma get_put_u32 {E : Type} (x : Z) (rest : bytes) :
  get_u32 (E:=E) (put_u32 [] x ++ rest) = Ok (as_u32 x, rest).
Proof.
  unfold put_u32. cbn [app]. rewrite get_u32_be, !byte_val_of.
  rewrite be32_add by (apply Z.mod_pos_bound; lia).
  rewrite !Z.shiftr_div_pow2 by lia. do 2 f_equal.
  unfold as_u32. change (2 ^ 24)%Z with 16777216%Z.
  change (2 ^ 16)%Z with 65536%Z. change (2 ^ 8)%Z with 256%Z.
  Z.div_mod_to_equations. lia.
Qed.

Lemma put_be32 (a b c d : byte) :
  put_u32 [] (be32 (byte_val a) (byte_val b) (byte_val c) (byte_val d)) = [a; b; c; d].
Proof.
  pose proof (byte_val_range a). pose proof (byte_val_range b).
  pose proof (byte_val_range c). pose proof (byte_val_range d).
  unfold put_u32. rewrite be32_add by done.
  rewrite !Z.shiftr_div_pow2 by lia.
  change (2 ^ 24)%Z with 16777216%Z. change (2 ^ 16)%Z with 65536%Z.
  change (2 ^ 8)%Z with 256%Z.
  repeat (apply (f_equal2 cons);
          [apply byte_of_eq; Z.div_mod_to_equations; lia|]). done.
Qed.

Lemma put_u32_app (buf : bytes) (x : Z) : put_u32 buf x = buf ++ put_u32 [] x.
Proof. done. Qed.

Lemma put_u8_app (buf : bytes) (x : Z) : put_u8 buf x = buf ++ put_u8 [] x.
Proof. done. Qed.

Lemma get_put_u8 {E : Type} (x : Z) (rest : bytes) :
  get_u8 (E:=E) (put_u8 [] x ++ rest) = Ok (as_u8 x, rest).
Proof. unfold put_u8, get_u8. cbn [app]. rewrite byte_val_of. done. Qed.

Lemma len_put_u32 (x : Z) : len (put_u32 [] x) = 4%Z.
Proof. done. Qed.

Lemma split_to_app {E : Type} (a b : bytes) :
  split_to (E:=E) (a ++ b) (len a) = Ok (a, b).
Proof.
  unfold split_to. rewrite len_app.
  pose proof (len_nonneg b). rewrite (proj2 (Z.leb_le _ _)) by lia.
  unfold len. rewrite Nat2Z.id, take_app_length, drop_app_length. done.
Qed.

Lemma split_to_Ok {E : Type} (buf a b : bytes) (n : Z) :
  (0 <= n)%Z ->
  split_to (E:=E) buf n = Ok (a, b) <-> buf = a ++ b /\ len a = n.
Proof.
  intros Hn. split.
  - unfold split_to. case_match eqn:E1; [|done]. intros [= <- <-].
    rewrite take_drop. split; [done|].
    unfold len in *. rewrite length_take. lia.
  - intros [-> <-]. apply split_to_app.
Qed.

(** ** Lists *)

Lemma elem_of_delete_in {A : Type} (l : list A) (k : nat) (x : A) :
  x ∈ delete k l -> x ∈ l.
Proof.
  rewrite delete_take_drop, elem_of_app.
  intros [H|H]; [by eapply subseteq_take|by eapply subseteq_drop].
Qed.

Lemma elem_of_delete_other {A : Type} (l : list A) (k : nat) (x y : A) :
  l !! k = Some y -> x ∈ l -> x <> y -> x ∈ delete k l.
Proof.
  intros Hk. rewrite <- (take_drop_middle l k y Hk) at 1. rewrite delete_take_drop.
  rewrite !elem_of_app, elem_of_cons. intros [|[|]]; auto; done.
Qed.

(** ** Options *)

Lemma bind_Some_l {A B : Type} (f : A -> option B) (x : A) : (Some x ≫= f) = f x.
Proof. done. Qed.

(** ** Slices *)

Lemma slice_ok {E : Type} (buf : bytes) (a b : Z) :
  (0 <= a <= b)%Z -> (b <= len buf)%Z ->
  slice (E := E) buf a b = Ok (take (Z.to_nat (b - a)) (drop (Z.to_nat a) buf)).
Proof.
  intros Ha Hb. unfold slice. by rewrite !(proj2 (Z.leb_le _ _)) by lia.
Qed.

(** A list cut into pieces of [n] elements, the last one shorter. *)
Fixpoint chunks {A : Type} (fuel n : nat) (l : list A) : list (list A) :=
  match fuel, l with
  | S fuel, _ :: _ => take n l :: chunks fuel n (drop n l)
  | _, _ => []
  end.

Definition chunks_of {A : Type} (n : nat) (l : list A) : list (list A) := chunks (length l) n l.

Lemma chunks_concat {A : Type} (fuel n : nat) (l : list A) :
  (0 < n)%nat -> (length l <= fuel)%nat -> concat (chunks fuel n l) = l.
Proof.
  intros Hn. revert l. induction fuel as [|fuel IH]; intros [|x l] Hl; simpl in Hl; try done; [lia|].
  cbn [chunks concat]. rewrite IH; [by rewrite take_drop|].
  rewrite length_drop. simpl. lia.
Qed.

Lemma chunks_sizes {A : Type} (fuel n : nat) (l : list A) :
  (0 < n)%nat -> Forall (fun c => c <> [] /\ (length c <= n)%nat) (chunks fuel n l).
Proof.
  intros Hn. revert l. induction fuel as [|fuel IH]; intros [|x l]; simpl; constructor; try done.
  split; [|rewrite length_take; simpl; lia]. destruct n; [lia|done].
Qed.

Lemma chunks_fuel {A : Type} (f g n : nat) (l : list A) :
  (0 < n)%nat -> (length l <= f)%nat -> (length l <= g)%nat -> chunks f n l = chunks g n l.
Proof.
  intros Hn. revert g l. induction f as [|f IH]; intros [|g] [|x l] Hf Hg; simpl in Hf, Hg;
    try done; try lia.
  cbn [chunks]. f_equal. apply IH; rewrite length_drop; simpl; lia.
Qed.

Lemma take_min_length {A : Type} (n : nat) (l : list A) : take (n `min` length l) l = take n l.
Proof. by rewrite <- take_take, (take_ge l (length l)). Qed.

Lemma drop_length_take {A : Type} (n : nat) (l : list A) : drop (length (take n l)) l = drop n l.
Proof.
  rewrite length_take. destruct (decide (n <= length l)%nat); [by rewrite Nat.min_l|].
  by rewrite !drop_ge by lia.
Qed.

(** ** Successful computations *)

Lemma outcome_bind_Ok {E A B : Type} (k : A -> outcome E B) (m : outcome E A) (b : B) :
  outcome_bind k m = Ok b -> exists a, m = Ok a /\ k a = Ok b.
Proof. destruct m as [a| |]; try done. intros Hk. by exists a. Qed.

Lemma map_err_Ok {E F A : Type} (f : E -> F) (m : outcome E A) (a : A) :
  map_err f m = Ok a -> m = Ok a.
Proof. destruct m; [by intros [= ->]|done..]. Qed.

Lemma ok_or_Ok {E A : Type} (e : E) (o : option A) (a : A) : ok_or e o = Ok a -> o = Some a.
Proof. destruct o; [|done]. by intros [= ->]. Qed.

(** [read_ok H] turns a successful computation into the successes of its
    parts. *)
Ltac read_ok H :=
  let a := fresh "a" in let E := fresh "E" in
  apply outcome_bind_Ok in H; destruct H as (a & E & H);
  repeat first [apply map_err_Ok in E | apply ok_or_Ok in E].
