(* ===== verification/Text.v ===== *)
(** * Encodings

    The encodings that keys, identifiers, addresses and tickets are exchanged
    in come from libraries: [hex], [base32] and [bincode].  The classes are what
    the sources call of them; their laws say that decoding undoes encoding, which
    is what each library documents.  What a decoder makes of other input is left
    open. *)

From S2P Require Import Prelude.

Local Open Scope Z_scope.
Local Open Scope outcome_scope.

(** Strings of ASCII characters. *)
Fixpoint is_ascii (s : string) : bool :=
  match s with
  | "" => true
  | String c s' => (Ascii.N_of_ascii c <? 128)%N && is_ascii s'
  end.

(** [hex::encode] and [hex::decode]. *)
Class Hex : Type := {
  hex_encode : bytes -> string;
  hex_decode : string -> outcome error bytes;
  hex_decode_encode : forall bs, hex_decode (hex_encode bs) = Ok bs
}.

(** [base32::encode] and [base32::decode] with [Rfc4648 { padding: false }]. *)
Class Base32 : Type := {
  base32_encode : bytes -> string;
  base32_decode : string -> option bytes;
  base32_decode_encode : forall bs, base32_decode (base32_encode bs) = Some bs;
  base32_ascii : forall bs, is_ascii (base32_encode bs) = true
}.

(** [bincode::serde::encode_to_vec] and [decode_from_slice] in the standard
    configuration: the value and the number of bytes read. *)
Class Bincode (A : Type) : Type := {
  encode_to_vec : A -> outcome error bytes;
  decode_from_slice : bytes -> outcome error (A * Z);
  bincode_decode_encode : forall x bs rest,
    encode_to_vec x = Ok bs -> decode_from_slice (bs ++ rest) = Ok (x, len bs)
}.

(** The pair of functions that [UuidV4], [NodeAddr], [RelayAddr] and
    [TransferTicket] each have: the value in bincode, written in base32. *)
Section base32_bincode.

Context {A : Type} `{Base32} `{Bincode A}.

Definition base32_of (x : A) : outcome error string :=
  let? serialized := encode_to_vec x in Ok (base32_encode serialized).

Definition of_base32 (encoded : string) : outcome error A :=
  let? decoded := ok_or (Anyhow "Failed to decode base32 string") (base32_decode encoded) in
  match decode_from_slice decoded with
  | Ok (x, _) => Ok x
  | Err e => Err (Caused "Failed to decode base32 string: " e)
  | Panic => Panic
  end.

Lemma of_base32_of (x : A) (s : string) : base32_of x = Ok s -> of_base32 s = Ok x.
Proof.
  unfold base32_of, of_base32. destruct (encode_to_vec x) as [bs| |] eqn:E; try done.
  intros [= <-]. rewrite base32_decode_encode. cbn [ok_or outcome_bind].
  rewrite <- (app_nil_r bs). by rewrite (bincode_decode_encode _ _ _ E).
Qed.

End base32_bincode.

(** An encoding for witnesses: two letters from A to P for each byte. *)

Definition nibble (n : N) : Ascii.ascii := Ascii.ascii_of_N (65 + n).

Definition nibble_val (c : Ascii.ascii) : N := Ascii.N_of_ascii c - 65.

Fixpoint letters (bs : bytes) : string :=
  match bs with
  | [] => ""
  | b :: bs' =>
      String (nibble (Byte.to_N b / 16)) (String (nibble (Byte.to_N b mod 16)) (letters bs'))
  end.

Fixpoint of_letters (s : string) : option bytes :=
  match s with
  | "" => Some []
  | String _ "" => None
  | String c (String d s') =>
      match Byte.of_N (16 * nibble_val c + nibble_val d), of_letters s' with
      | Some b, Some bs => Some (b :: bs)
      | _, _ => None
      end
  end.

Lemma of_letters_letters (bs : bytes) : of_letters (letters bs) = Some bs.
Proof.
  induction bs as [|b bs IH]; [done|]. cbn [letters of_letters]. rewrite IH. by destruct b.
Qed.

Lemma letters_ascii (bs : bytes) : is_ascii (letters bs) = true.
Proof. induction bs as [|b bs IH]; [done|]. cbn [letters is_ascii]. rewrite IH. by destruct b. Qed.

Lemma of_letters_hex (bs : bytes) :
  ok_or (Anyhow "Odd number of digits") (of_letters (letters bs)) = Ok bs.
Proof. by rewrite of_letters_letters. Qed.

Definition letters_hex : Hex := {|
  hex_encode := letters;
  hex_decode := fun s => ok_or (Anyhow "Odd number of digits") (of_letters s);
  hex_decode_encode := of_letters_hex
|}.

Definition letters_base32 : Base32 := {|
  base32_encode := letters;
  base32_decode := of_letters;
  base32_decode_encode := of_letters_letters;
  base32_ascii := letters_ascii
|}.
