(* ===== verification/Key.v ===== *)
(** * Keys

    foctet-core/src/key.rs: Ed25519 keypairs, public keys and secret keys.  The
    public key of a node is its identity ([NodeId], id.rs).

    The cryptography is the [ed25519_dalek] library: [Ed25519] is what the
    sources call of it, and [Ed25519Laws] what it documents of keys that come
    from it, with no assumption on other bytes. *)

From S2P Require Import Prelude Text.

Local Open Scope Z_scope.
Local Open Scope outcome_scope.

Class Ed25519 : Type := {
  SigningKey : Type;
  VerifyingKey : Type;
  signing_from_bytes : bytes -> SigningKey;
  signing_to_bytes : SigningKey -> bytes;
  to_keypair_bytes : SigningKey -> bytes;
  from_keypair_bytes : bytes -> outcome error SigningKey;
  verifying_key : SigningKey -> VerifyingKey;
  verifying_to_bytes : VerifyingKey -> bytes;
  verifying_from_bytes : bytes -> outcome error VerifyingKey;
  sign_bytes : SigningKey -> bytes -> bytes;
  verify_bytes : VerifyingKey -> bytes -> bytes -> bool
}.

Class Ed25519Laws `{Ed25519} : Prop := {
  signing_to_bytes_len : forall k, len (signing_to_bytes k) = 32;
  signing_from_to : forall k, signing_from_bytes (signing_to_bytes k) = k;
  to_keypair_bytes_len : forall k, len (to_keypair_bytes k) = 64;
  keypair_from_to : forall k, from_keypair_bytes (to_keypair_bytes k) = Ok k;
  verifying_to_bytes_len : forall v, len (verifying_to_bytes v) = 32;
  verifying_from_to : forall v, verifying_from_bytes (verifying_to_bytes v) = Ok v;
  sign_bytes_len : forall k msg, len (sign_bytes k msg) = 64;
  verify_sign : forall k msg, verify_bytes (verifying_key k) msg (sign_bytes k msg) = true
}.

(** [<[u8; N]>::try_from] a slice, and [Zeroize::zeroize]. *)
Definition try_into_array (n : Z) (bs : bytes) : outcome error bytes :=
  if len bs =? n then Ok bs else Err (Anyhow "could not convert slice to array").

Definition zeroize (bs : bytes) : bytes := replicate (length bs) (byte_of 0).

Definition all_zero (bs : bytes) : bool := forallb (fun b => byte_val b =? 0) bs.

Module PublicKey.

(** foctet-core/src/key.rs:90-94, [PublicKey]. *)
Record t : Type := mk { public_key : bytes }.

#[global] Instance t_eq_dec : EqDecision t.
Proof. solve_decision. Defined.

(** A [PublicKey] holds an array of 32 bytes. *)
Definition wf (self : t) : bool := len (public_key self) =? 32.

(** foctet-core/src/key.rs:102-106, [PublicKey::zero]. *)
Definition zero : t := mk (replicate 32 (byte_of 0)).

(** foctet-core/src/key.rs:108-110, [PublicKey::is_zero]. *)
Definition is_zero (self : t) : bool := all_zero (public_key self).

(** foctet-core/src/key.rs:129-131, [PublicKey::to_bytes]. *)
Definition to_bytes (self : t) : bytes := public_key self.

Section operations.

Context `{Ed25519} `{Base32}.

(** foctet-core/src/key.rs:112-126, [PublicKey::verify]: a signature is 64
    bytes. *)
Definition verify (self : t) (msg sig : bytes) : bool :=
  match try_into_array 64 sig with
  | Ok sig =>
      match verifying_from_bytes (public_key self) with
      | Ok vkey => verify_bytes vkey msg sig
      | _ => false
      end
  | _ => false
  end.

(** foctet-core/src/key.rs:135-139, [PublicKey::try_from_bytes]. *)
Definition try_from_bytes (k : bytes) : outcome error t :=
  let? k := try_into_array 32 k in
  let? _vkey := verifying_from_bytes k in
  Ok (mk k).

(** foctet-core/src/key.rs:141-145, [PublicKey::from_base32]. *)
Definition from_base32 (encoded : string) : outcome error t :=
  let? decoded := ok_or (Anyhow "Invalid base32") (base32_decode encoded) in
  try_from_bytes decoded.

(** foctet-core/src/key.rs:147-149, [PublicKey::to_base32]. *)
Definition to_base32 (self : t) : string := base32_encode (to_bytes self).

(** foctet-core/src/key.rs:152-156, [PublicKey::fmt]. *)
Definition to_string (self : t) : string := to_base32 self.

(** foctet-core/src/key.rs:158-164, [PublicKey::from_str]. *)
Definition from_str (s : string) : outcome error t := from_base32 s.

End operations.

End PublicKey.

(** foctet-core/src/id.rs:11-13, [NodeId]. *)
Definition NodeId : Type := PublicKey.t.

Module SecretKey.

(** foctet-core/src/key.rs:166-170, [SecretKey]. *)
Record t : Type := mk { secret_key : bytes }.

(** foctet-core/src/key.rs:181-187, [SecretKey::generate]; [random] is what the
    operating system's generator gives. *)
Definition generate `{Ed25519} (random : SigningKey) : t := mk (signing_to_bytes random).

(** foctet-core/src/key.rs:192-197, [SecretKey::try_from_bytes]: the result, and
    the input as it is left. *)
Definition try_from_bytes (sk_bytes : bytes) : outcome error t * bytes :=
  match try_into_array 32 sk_bytes with
  | Ok secret => (Ok (mk secret), zeroize sk_bytes)
  | Err e => (Err e, sk_bytes)
  | Panic => (Panic, sk_bytes)
  end.

(** foctet-core/src/key.rs:199-201, [SecretKey::to_bytes]. *)
Definition to_bytes (self : t) : bytes := secret_key self.

End SecretKey.

Module Keypair.

Section operations.

Context `{Ed25519}.

(** foctet-core/src/key.rs:10-12, [Keypair]. *)
Record t : Type := mk { signing : SigningKey }.

(** foctet-core/src/key.rs:23-25, [Keypair::to_bytes]. *)
Definition to_bytes (self : t) : bytes := to_keypair_bytes (signing self).

(** foctet-core/src/key.rs:31-43, [Keypair::try_from_bytes]: the result, and the
    input as it is left. *)
Definition try_from_bytes (kp : bytes) : outcome error t * bytes :=
  match try_into_array 64 kp with
  | Ok bs =>
      match from_keypair_bytes bs with
      | Ok k => (Ok (mk k), zeroize kp)
      | Err e => (Err e, zeroize kp)
      | Panic => (Panic, kp)
      end
  | Err e => (Err e, kp)
  | Panic => (Panic, kp)
  end.

(** foctet-core/src/key.rs:46-48, [Keypair::sign]. *)
Definition sign (self : t) (msg : bytes) : bytes := sign_bytes (signing self) msg.

(** foctet-core/src/key.rs:51-55, [Keypair::public]. *)
Definition public (self : t) : PublicKey.t :=
  PublicKey.mk (verifying_to_bytes (verifying_key (signing self))).

(** foctet-core/src/key.rs:58-62, [Keypair::secret]. *)
Definition secret (self : t) : SecretKey.t := SecretKey.mk (signing_to_bytes (signing self)).

(** foctet-core/src/key.rs:74-80, [SecretKey::from]. *)
Definition into_secret (kp : t) : SecretKey.t := SecretKey.mk (signing_to_bytes (signing kp)).

(** foctet-core/src/key.rs:83-88, [Keypair::from]. *)
Definition from_secret (sk : SecretKey.t) : t := mk (signing_from_bytes (SecretKey.secret_key sk)).

(** foctet-core/src/key.rs:16-18, [Keypair::generate]. *)
Definition generate (random : SigningKey) : t := from_secret (SecretKey.generate random).

(** foctet-core/src/key.rs:98-100, [PublicKey::generate]. *)
Definition generate_public (random : SigningKey) : PublicKey.t := public (generate random).

End operations.

End Keypair.

(** ** Lemmas *)

Section key_lemmas.

Context `{Ed25519Laws} `{Base32} (kp : Keypair.t).

Lemma public_bytes :
  PublicKey.try_from_bytes (PublicKey.to_bytes (Keypair.public kp)) = Ok (Keypair.public kp).
Proof using All.
  unfold PublicKey.try_from_bytes, try_into_array, PublicKey.to_bytes, Keypair.public. simpl.
  rewrite verifying_to_bytes_len. simpl. by rewrite verifying_from_to.
Qed.

Lemma public_base32 :
  PublicKey.from_base32 (PublicKey.to_base32 (Keypair.public kp)) = Ok (Keypair.public kp).
Proof using All.
  unfold PublicKey.from_base32, PublicKey.to_base32. rewrite base32_decode_encode.
  apply public_bytes.
Qed.

Lemma public_verify_sign (msg : bytes) :
  PublicKey.verify (Keypair.public kp) msg (Keypair.sign kp msg) = true.
Proof using All.
  unfold PublicKey.verify, try_into_array, Keypair.sign, Keypair.public. simpl.
  rewrite sign_bytes_len. simpl. rewrite verifying_from_to. apply verify_sign.
Qed.

End key_lemmas.

(** ** Properties *)

(** What a node writes of its keys it reads back: the bytes of a keypair and
    of a secret key, the public key in bytes and in base32; and a signature made
    with a keypair is accepted by its public key.  [Keypair::try_from_bytes]
    leaves no key material behind: whether or not the 64 bytes are a keypair, the
    input is zeros afterwards; input of another length is refused and left as it
    is. *)
Theorem key_roundtrips `{Ed25519Laws} `{Base32} (kp : Keypair.t) (msg input : bytes) :
  Keypair.try_from_bytes (Keypair.to_bytes kp) = (Ok kp, replicate 64 (byte_of 0)) /\
  Keypair.from_secret (Keypair.secret kp) = kp /\
  PublicKey.try_from_bytes (PublicKey.to_bytes (Keypair.public kp)) = Ok (Keypair.public kp) /\
  PublicKey.from_str (PublicKey.to_string (Keypair.public kp)) = Ok (Keypair.public kp) /\
  PublicKey.verify (Keypair.public kp) msg (Keypair.sign kp msg) = true /\
  (from_keypair_bytes input <> Panic ->
   if len input =? 64 then (Keypair.try_from_bytes input).2 = replicate 64 (byte_of 0)
   else exists e, Keypair.try_from_bytes input = (Err e, input)).
Proof.
  split_and!; [| |apply public_bytes|apply public_base32|apply public_verify_sign|].
  - unfold Keypair.try_from_bytes, Keypair.to_bytes, try_into_array.
    rewrite to_keypair_bytes_len, Z.eqb_refl, keypair_from_to. destruct kp as [k]. f_equal.
    unfold zeroize. pose proof (to_keypair_bytes_len k) as Hl. unfold len in Hl. simpl.
    by replace (length (to_keypair_bytes k)) with 64%nat by lia.
  - destruct kp as [k]. unfold Keypair.from_secret, Keypair.secret. simpl.
    by rewrite signing_from_to.
  - intros Hp. unfold Keypair.try_from_bytes, try_into_array.
    destruct (Z.eqb_spec (len input) 64) as [E|E]; [|by eexists].
    unfold zeroize. unfold len in E. replace (length input) with 64%nat by lia.
    by destruct (from_keypair_bytes input).
Qed.

(** ** Witnesses: a scheme with two keys, whose bytes are all zeros or all
    ones, and that signs every message with them. *)

Definition two_bytes (k : bool) (n : nat) : bytes := replicate n (byte_of (Z.b2z k)).

Definition two_key (bs : bytes) : bool :=
  match bs with b :: _ => byte_val b =? 1 | [] => false end.

Definition two_keys : Ed25519 := {|
  SigningKey := bool;
  VerifyingKey := bool;
  signing_from_bytes := two_key;
  signing_to_bytes := fun k => two_bytes k 32;
  to_keypair_bytes := fun k => two_bytes k 64;
  from_keypair_bytes := fun bs =>
    if decide (bs = two_bytes (two_key bs) 64) then Ok (two_key bs) else Err (Anyhow "Mismatched");
  verifying_key := fun k => k;
  verifying_to_bytes := fun k => two_bytes k 32;
  verifying_from_bytes := fun bs => Ok (two_key bs);
  sign_bytes := fun k _ => two_bytes k 64;
  verify_bytes := fun v _ sig => bool_decide (sig = two_bytes v 64)
|}.

#[local] Existing Instance two_keys.
#[local] Existing Instance letters_base32.

#[local] Instance two_keys_laws : Ed25519Laws.
Proof. by split; intros []. Qed.

Definition demo_keypair : @Keypair.t two_keys := @Keypair.mk two_keys true.

Lemma key_roundtrips_witness :
  Keypair.try_from_bytes (Keypair.to_bytes demo_keypair) =
    (Ok demo_keypair, replicate 64 (byte_of 0)) /\
  (Keypair.try_from_bytes (two_bytes true 32 ++ two_bytes false 32)).2 = replicate 64 (byte_of 0) /\
  exists e, Keypair.try_from_bytes [byte_of 1] = (Err e, [byte_of 1]).
Proof.
  split; [exact (proj1 (key_roundtrips demo_keypair [] []))|]. split.
  - destruct (key_roundtrips demo_keypair [] (two_bytes true 32 ++ two_bytes false 32))
      as (_ & _ & _ & _ & _ & Hin). apply Hin. discriminate.
  - destruct (key_roundtrips demo_keypair [] [byte_of 1]) as (_ & _ & _ & _ & _ & Hin).
    apply Hin. discriminate.
Defined.
