(* ===== verification/X509.v ===== *)
(** * Certificates

    foctet-net/src/tls/cert.rs: a node presents a self-signed X.509 certificate
    whose foctet extension carries the node's public key and, made with the
    node's private key, a signature of the certificate's own public key.  The
    alternative name of the certificate carries the node's public key once more.

    Parsing and issuing X.509 certificates, DER sequences and the signatures of
    certificates are libraries ([x509_parser], [rcgen], [yasna], [ring]):
    [X509Lib] is what the sources call of them, [X509Laws] what they document of
    certificates that [rcgen] has issued. *)

From S2P Require Import Prelude Text Key.

Local Open Scope Z_scope.
Local Open Scope outcome_scope.

(** ** What the libraries provide *)

(** Object identifiers, and those of [oid_registry] that the sources name. *)
Abbreviation Oid := (list Z).

Definition OID_PKCS1_RSAENCRYPTION : Oid := [1; 2; 840; 113549; 1; 1; 1].
Definition OID_PKCS1_RSASSAPSS : Oid := [1; 2; 840; 113549; 1; 1; 10].
Definition OID_PKCS1_SHA256WITHRSA : Oid := [1; 2; 840; 113549; 1; 1; 11].
Definition OID_PKCS1_SHA384WITHRSA : Oid := [1; 2; 840; 113549; 1; 1; 12].
Definition OID_PKCS1_SHA512WITHRSA : Oid := [1; 2; 840; 113549; 1; 1; 13].
Definition OID_NIST_HASH_SHA256 : Oid := [2; 16; 840; 1; 101; 3; 4; 2; 1].
Definition OID_NIST_HASH_SHA384 : Oid := [2; 16; 840; 1; 101; 3; 4; 2; 2].
Definition OID_NIST_HASH_SHA512 : Oid := [2; 16; 840; 1; 101; 3; 4; 2; 3].
Definition OID_KEY_TYPE_EC_PUBLIC_KEY : Oid := [1; 2; 840; 10045; 2; 1].
Definition OID_EC_P256 : Oid := [1; 2; 840; 10045; 3; 1; 7].
Definition OID_NIST_EC_P384 : Oid := [1; 3; 132; 0; 34].
Definition OID_NIST_EC_P521 : Oid := [1; 3; 132; 0; 35].
Definition OID_SIG_ECDSA_WITH_SHA256 : Oid := [1; 2; 840; 10045; 4; 3; 2].
Definition OID_SIG_ECDSA_WITH_SHA384 : Oid := [1; 2; 840; 10045; 4; 3; 3].
Definition OID_SIG_ECDSA_WITH_SHA512 : Oid := [1; 2; 840; 10045; 4; 3; 4].
Definition OID_SIG_ED25519 : Oid := [1; 3; 101; 112].
Definition OID_SIG_ED448 : Oid := [1; 3; 101; 113].

(** [rustls::SignatureScheme]. *)
Module SignatureScheme.

Inductive t : Type :=
| RSA_PKCS1_SHA1
| ECDSA_SHA1_Legacy
| RSA_PKCS1_SHA256
| ECDSA_NISTP256_SHA256
| RSA_PKCS1_SHA384
| ECDSA_NISTP384_SHA384
| RSA_PKCS1_SHA512
| ECDSA_NISTP521_SHA512
| RSA_PSS_SHA256
| RSA_PSS_SHA384
| RSA_PSS_SHA512
| ED25519
| ED448
| Unknown (code : Z).

#[global] Instance t_eq_dec : EqDecision t.
Proof. solve_decision. Defined.

End SignatureScheme.

(** The verification algorithms of [ring::signature]. *)
Inductive VerificationAlgorithm : Type :=
| RSA_PKCS1_2048_8192_SHA256
| RSA_PKCS1_2048_8192_SHA384
| RSA_PKCS1_2048_8192_SHA512
| ECDSA_P256_SHA256_ASN1
| ECDSA_P384_SHA384_ASN1
| RSA_PSS_2048_8192_SHA256
| RSA_PSS_2048_8192_SHA384
| RSA_PSS_2048_8192_SHA512
| ED25519_ALG.

(** [webpki::Error], as far as the sources name it. *)
Module WebpkiError.

Inductive t : Type :=
| BadDer
| UnknownIssuer
| ExtensionValueInvalid
| InvalidCertValidity
| SignatureAlgorithmMismatch
| InvalidSignatureForPublicKey
| UnsupportedSignatureAlgorithm
| UnsupportedSignatureAlgorithmForPublicKey.

End WebpkiError.

(** What the sources read of an [X509Certificate].  The parameters of an
    algorithm are an object identifier or something else. *)
Module X509.

Inductive general_name : Type :=
| URI (uri : string)
| OtherName.

Inductive any : Type :=
| AnyOid (oid : Oid)
| AnyOther.

Record algorithm : Type := Algorithm {
  oid : Oid;
  parameters : option any
}.

Record t : Type := mk {
  tbs_certificate : bytes;
  signature_algorithm : algorithm;
  signature_value : bytes;
  pki_algorithm : algorithm;
  subject_public_key : bytes;
  subject_pki_raw : bytes;
  subject_alternative_name : outcome unit (option (list general_name));
  extensions : list (Oid * bytes);
  not_before : Z;
  not_after : Z
}.

(** [validity().is_valid()] at the time [now]. *)
Definition is_valid (now : Z) (x : t) : bool := (not_before x <=? now) && (now <=? not_after x).

End X509.

Class X509Lib : Type := {
  (** [x509_parser::parse_x509_certificate]. *)
  parse_x509_certificate : bytes -> option X509.t;
  (** The hash of [SignatureAlgorithm::RSASSA_PSS], if that is what it is. *)
  rsassa_pss_hash : X509.algorithm -> option Oid;
  (** [yasna::construct_der] and [decode_der] of a sequence of two byte strings. *)
  construct_der : bytes -> bytes -> bytes;
  decode_der : bytes -> option (bytes * bytes);
  (** [UnparsedPublicKey::verify]. *)
  ring_verify : VerificationAlgorithm -> bytes -> bytes -> bytes -> bool;
  (** An [rcgen::KeyPair], and [self_signed] of a certificate with one URI as
      alternative name and one custom extension; the names are IA5 strings. *)
  CertKey : Type;
  public_key_der : CertKey -> bytes;
  serialize_der : CertKey -> bytes;
  self_signed : CertKey -> string -> Oid * bytes -> outcome error bytes;
  (** [any_ecdsa_type]: whether a private key can be used to sign. *)
  any_ecdsa_type : bytes -> bool
}.

Section cert.

Context `{Ed25519} `{Base32} `{X509Lib}.

(** foctet-net/src/tls/cert.rs:9-11, [FOCTET_EXT_OID]. *)
Definition FOCTET_EXT_OID : Oid := [1; 3; 6; 1; 4; 1; 32473; 1; 1].

(** foctet-net/src/tls/cert.rs:13-18, [FOCTET_SIGNING_PREFIX]. *)
Definition FOCTET_SIGNING_PREFIX : bytes := String.list_byte_of_string "foctet-tls-handshake:".

(** foctet-net/src/tls/cert.rs:63-118, [generate]; [certificate_keypair] is what
    [KeyPair::generate_for] returns. *)
Definition generate (identity_keypair : Keypair.t) (certificate_keypair : outcome error CertKey) :
    outcome error (bytes * bytes) :=
  let node_id := Keypair.public identity_keypair in
  let node_id_base32 := PublicKey.to_base32 node_id in
  let node_id_uri := "foctet://" +:+ node_id_base32 in
  let? certificate_keypair := certificate_keypair in
  let rustls_key := serialize_der certificate_keypair in
  let signing_msg := FOCTET_SIGNING_PREFIX ++ public_key_der certificate_keypair in
  let signature := Keypair.sign identity_keypair signing_msg in
  let signed_extension := construct_der (PublicKey.to_bytes node_id) signature in
  let? certificate :=
    self_signed certificate_keypair node_id_uri (FOCTET_EXT_OID, signed_extension) in
  Ok (certificate, rustls_key).

(** foctet-net/src/tls/cert.rs:140-148, [FoctetExtension]. *)
Record FoctetExtension : Type := mk_FoctetExtension {
  public_key : PublicKey.t;
  signature : bytes
}.

(** foctet-net/src/tls/cert.rs:132-138, [FoctetCertificate]. *)
Record FoctetCertificate : Type := mk_FoctetCertificate {
  certificate : X509.t;
  extension : FoctetExtension
}.

(** [&s[n..]]: panics past the end of the string, or between the bytes of a
    character. *)
Definition str_from (n : nat) (s : string) : outcome WebpkiError.t string :=
  let rest := String.substring n (String.length s - n) s in
  if Nat.ltb (String.length s) n then Panic
  else
    match rest with
    | "" => Ok rest
    | String c _ => if ((128 <=? Ascii.N_of_ascii c) && (Ascii.N_of_ascii c <? 192))%N then Panic
                    else Ok rest
    end.

(** The [find_map] over the names: the first URI. *)
Fixpoint find_uri (names : list X509.general_name) : option string :=
  match names with
  | X509.URI uri :: _ => Some uri
  | _ :: names => find_uri names
  | [] => None
  end.

(** foctet-net/src/tls/cert.rs:170-193, [parse_unverified]: the node identifier
    of the alternative name. *)
Definition san_node_id (x509_cert : X509.t) : outcome WebpkiError.t NodeId :=
  match X509.subject_alternative_name x509_cert with
  | Ok san_opt =>
      let? san := ok_or WebpkiError.BadDer san_opt in
      let? uri := ok_or WebpkiError.UnknownIssuer (find_uri san) in
      let? encoded := str_from (String.length "foctet://") uri in
      map_err (fun _ => WebpkiError.UnknownIssuer) (PublicKey.from_base32 encoded)
  | _ => Err WebpkiError.UnknownIssuer
  end.

(** foctet-net/src/tls/cert.rs:198-208, [parse_unverified]: the loop over the
    extensions, with what it has extracted. *)
Fixpoint extract_extension (exts : list (Oid * bytes)) (extracted : option (bytes * bytes)) :
    outcome WebpkiError.t (option (bytes * bytes)) :=
  match exts with
  | [] => Ok extracted
  | (oid, value) :: exts =>
      if bool_decide (oid = FOCTET_EXT_OID) then
        let? decoded := ok_or WebpkiError.ExtensionValueInvalid (decode_der value) in
        extract_extension exts (Some decoded)
      else extract_extension exts extracted
  end.

(** foctet-net/src/tls/cert.rs:161-226, [parse_unverified]. *)
Definition parse_unverified (der_input : bytes) : outcome WebpkiError.t FoctetCertificate :=
  let? x509_cert := ok_or WebpkiError.BadDer (parse_x509_certificate der_input) in
  let? san_node_id := san_node_id x509_cert in
  let? extracted := extract_extension (X509.extensions x509_cert) None in
  let? (node_id_bytes, signature) := ok_or WebpkiError.UnknownIssuer extracted in
  let? ext_node_id :=
    map_err (fun _ => WebpkiError.UnknownIssuer) (PublicKey.try_from_bytes node_id_bytes) in
  if negb (bool_decide (san_node_id = ext_node_id)) then Err WebpkiError.UnknownIssuer
  else Ok (mk_FoctetCertificate x509_cert (mk_FoctetExtension ext_node_id signature)).

(** foctet-net/src/tls/cert.rs:342-428, [FoctetCertificate::signature_scheme]. *)
Definition signature_scheme (self : FoctetCertificate) : outcome WebpkiError.t SignatureScheme.t :=
  let signature_algorithm := X509.signature_algorithm (certificate self) in
  let pki_algorithm := X509.pki_algorithm (certificate self) in
  let has (a : X509.algorithm) (o : Oid) := bool_decide (X509.oid a = o) in
  let ec :=
    if has pki_algorithm OID_KEY_TYPE_EC_PUBLIC_KEY then
      match X509.parameters pki_algorithm with
      | Some (X509.AnyOid signature_param) =>
          let param_is o := bool_decide (signature_param = o) in
          if param_is OID_EC_P256 && has signature_algorithm OID_SIG_ECDSA_WITH_SHA256 then
            Ok SignatureScheme.ECDSA_NISTP256_SHA256
          else if param_is OID_NIST_EC_P384 && has signature_algorithm OID_SIG_ECDSA_WITH_SHA384 then
            Ok SignatureScheme.ECDSA_NISTP384_SHA384
          else if param_is OID_NIST_EC_P521 && has signature_algorithm OID_SIG_ECDSA_WITH_SHA512 then
            Ok SignatureScheme.ECDSA_NISTP521_SHA512
          else Err WebpkiError.UnsupportedSignatureAlgorithm
      | _ => Err WebpkiError.BadDer
      end
    else if has signature_algorithm OID_SIG_ED25519 then Ok SignatureScheme.ED25519
    else if has signature_algorithm OID_SIG_ED448 then Ok SignatureScheme.ED448
    else Err WebpkiError.UnsupportedSignatureAlgorithm in
  if has pki_algorithm OID_PKCS1_RSAENCRYPTION then
    if has signature_algorithm OID_PKCS1_SHA256WITHRSA then Ok SignatureScheme.RSA_PKCS1_SHA256
    else if has signature_algorithm OID_PKCS1_SHA384WITHRSA then Ok SignatureScheme.RSA_PKCS1_SHA384
    else if has signature_algorithm OID_PKCS1_SHA512WITHRSA then Ok SignatureScheme.RSA_PKCS1_SHA512
    else if has signature_algorithm OID_PKCS1_RSASSAPSS then
      match rsassa_pss_hash signature_algorithm with
      | Some hash_oid =>
          if bool_decide (hash_oid = OID_NIST_HASH_SHA256) then Ok SignatureScheme.RSA_PSS_SHA256
          else if bool_decide (hash_oid = OID_NIST_HASH_SHA384) then Ok SignatureScheme.RSA_PSS_SHA384
          else if bool_decide (hash_oid = OID_NIST_HASH_SHA512) then Ok SignatureScheme.RSA_PSS_SHA512
          else Err WebpkiError.UnsupportedSignatureAlgorithm
      | None => Err WebpkiError.UnsupportedSignatureAlgorithm
      end
    else ec
  else ec.

(** foctet-net/src/tls/cert.rs:264-288, [FoctetCertificate::public_key]: the
    algorithm for a scheme. *)
Definition verification_algorithm (s : SignatureScheme.t) :
    outcome WebpkiError.t VerificationAlgorithm :=
  match s with
  | SignatureScheme.RSA_PKCS1_SHA256 => Ok RSA_PKCS1_2048_8192_SHA256
  | SignatureScheme.RSA_PKCS1_SHA384 => Ok RSA_PKCS1_2048_8192_SHA384
  | SignatureScheme.RSA_PKCS1_SHA512 => Ok RSA_PKCS1_2048_8192_SHA512
  | SignatureScheme.ECDSA_NISTP256_SHA256 => Ok ECDSA_P256_SHA256_ASN1
  | SignatureScheme.ECDSA_NISTP384_SHA384 => Ok ECDSA_P384_SHA384_ASN1
  | SignatureScheme.ECDSA_NISTP521_SHA512 => Err WebpkiError.UnsupportedSignatureAlgorithm
  | SignatureScheme.RSA_PSS_SHA256 => Ok RSA_PSS_2048_8192_SHA256
  | SignatureScheme.RSA_PSS_SHA384 => Ok RSA_PSS_2048_8192_SHA384
  | SignatureScheme.RSA_PSS_SHA512 => Ok RSA_PSS_2048_8192_SHA512
  | SignatureScheme.ED25519 => Ok ED25519_ALG
  | SignatureScheme.ED448 => Err WebpkiError.UnsupportedSignatureAlgorithm
  | SignatureScheme.RSA_PKCS1_SHA1 => Err WebpkiError.UnsupportedSignatureAlgorithm
  | SignatureScheme.ECDSA_SHA1_Legacy => Err WebpkiError.UnsupportedSignatureAlgorithm
  | SignatureScheme.Unknown _ => Err WebpkiError.UnsupportedSignatureAlgorithm
  end.

(** foctet-net/src/tls/cert.rs:248-296, [FoctetCertificate::public_key]. *)
Definition cert_public_key (self : FoctetCertificate) (s : SignatureScheme.t) :
    outcome WebpkiError.t (VerificationAlgorithm * bytes) :=
  let? current_signature_scheme := signature_scheme self in
  if negb (bool_decide (s = current_signature_scheme)) then
    Err WebpkiError.UnsupportedSignatureAlgorithmForPublicKey
  else
    let? alg := verification_algorithm s in
    Ok (alg, X509.subject_public_key (certificate self)).

(** foctet-net/src/tls/cert.rs:234-247, [FoctetCertificate::verify_signature]. *)
Definition verify_signature (self : FoctetCertificate) (s : SignatureScheme.t)
    (message signature : bytes) : outcome WebpkiError.t unit :=
  let? (alg, key) := cert_public_key self s in
  if ring_verify alg key message signature then Ok tt
  else Err WebpkiError.InvalidSignatureForPublicKey.

(** foctet-net/src/tls/cert.rs:298-340, [FoctetCertificate::verify]; [now] is the
    time the certificate is received. *)
Definition verify (now : Z) (self : FoctetCertificate) : outcome WebpkiError.t unit :=
  if negb (X509.is_valid now (certificate self)) then Err WebpkiError.InvalidCertValidity
  else
    let? scheme := signature_scheme self in
    let raw_certificate := X509.tbs_certificate (certificate self) in
    let? _ := map_err (fun _ => WebpkiError.SignatureAlgorithmMismatch)
      (verify_signature self scheme raw_certificate (X509.signature_value (certificate self))) in
    let signing_msg := FOCTET_SIGNING_PREFIX ++ X509.subject_pki_raw (certificate self) in
    if negb (PublicKey.verify (public_key (extension self)) signing_msg (signature (extension self)))
    then Err WebpkiError.InvalidSignatureForPublicKey
    else Ok tt.

(** foctet-net/src/tls/cert.rs:120-130, [parse]. *)
Definition parse (now : Z) (cert : bytes) : outcome WebpkiError.t FoctetCertificate :=
  let? cert := parse_unverified cert in
  let? _ := verify now cert in
  Ok cert.

(** foctet-net/src/tls/cert.rs:229-232, [FoctetCertificate::node_id]. *)
Definition node_id (self : FoctetCertificate) : NodeId := public_key (extension self).

End cert.

(** A certificate that [rcgen] issues for a key with ECDSA on P-256: it names
    the URI and carries the extension once, its key is the key, it is signed with
    it, and it is valid from 1975 to 4096. *)
Record issued `{X509Lib} (k : CertKey) (uri : string) (ext : Oid * bytes) (x : X509.t) : Prop := {
  issued_san : X509.subject_alternative_name x = Ok (Some [X509.URI uri]);
  issued_ext : exists before after, X509.extensions x = before ++ ext :: after /\
    Forall (fun e => e.1 <> ext.1) (before ++ after);
  issued_pki : X509.subject_pki_raw x = public_key_der k;
  issued_pki_algorithm :
    X509.pki_algorithm x = X509.Algorithm OID_KEY_TYPE_EC_PUBLIC_KEY (Some (X509.AnyOid OID_EC_P256));
  issued_signature_algorithm : X509.oid (X509.signature_algorithm x) = OID_SIG_ECDSA_WITH_SHA256;
  issued_signature :
    ring_verify ECDSA_P256_SHA256_ASN1 (X509.subject_public_key x) (X509.tbs_certificate x)
      (X509.signature_value x) = true;
  issued_not_before : X509.not_before x = 157766400;
  issued_not_after : X509.not_after x = 67090118400
}.

Class X509Laws `{X509Lib} : Prop := {
  decode_construct_der : forall a b, decode_der (construct_der a b) = Some (a, b);
  self_signed_issued : forall k uri value, is_ascii uri = true ->
    exists der x, self_signed k uri (FOCTET_EXT_OID, value) = Ok der /\
      parse_x509_certificate der = Some x /\ issued k uri (FOCTET_EXT_OID, value) x;
  any_ecdsa_type_serialized : forall k, any_ecdsa_type (serialize_der k) = true
}.

(** ** Lemmas *)

Lemma substring_prefix (n : nat) (s t : string) :
  String.substring (String.length s) n (s +:+ t) = String.substring 0 n t.
Proof. induction s as [|c s IH]; [done|]. simpl. exact IH. Qed.

Lemma substring_full (s : string) : String.substring 0 (String.length s) s = s.
Proof. induction s as [|c s IH]; [done|]. simpl. by rewrite IH. Qed.

Lemma string_length_app (s t : string) :
  String.length (s +:+ t) = (String.length s + String.length t)%nat.
Proof. induction s as [|c s IH]; [done|]. simpl. by rewrite IH. Qed.

Lemma str_from_app (s t : string) :
  is_ascii t = true -> str_from (String.length s) (s +:+ t) = Ok t.
Proof.
  intros Ht. unfold str_from. rewrite string_length_app.
  rewrite (proj2 (Nat.ltb_ge _ _)) by lia.
  replace (String.length s + String.length t - String.length s)%nat with (String.length t) by lia.
  rewrite substring_prefix, substring_full. destruct t as [|c t]; [done|].
  simpl in Ht. apply andb_true_iff in Ht as [Hc _]. apply N.ltb_lt in Hc.
  by rewrite (proj2 (N.leb_gt _ _)) by done.
Qed.

Section cert_lemmas.

Context `{Ed25519} `{Base32} `{X509Lib}.

Lemma extract_extension_skip (exts : list (Oid * bytes)) (acc : option (bytes * bytes)) :
  Forall (fun e => e.1 <> FOCTET_EXT_OID) exts -> extract_extension exts acc = Ok acc.
Proof.
  induction 1 as [|[o v] exts Ho _ IH]; [done|]. simpl. by rewrite bool_decide_false.
Qed.

Lemma extract_extension_app (exts exts' : list (Oid * bytes)) (acc : option (bytes * bytes)) :
  extract_extension (exts ++ exts') acc =
  (let? acc' := extract_extension exts acc in extract_extension exts' acc').
Proof.
  revert acc. induction exts as [|[o v] exts IH]; intros acc; [done|]. simpl.
  case_bool_decide; [|apply IH]. destruct (decode_der v); [apply IH|done].
Qed.

(** What [extract_extension] returns is in one of the extensions. *)
Lemma extract_extension_in (exts : list (Oid * bytes)) (acc : option (bytes * bytes)) p :
  extract_extension exts acc = Ok (Some p) ->
  acc = Some p \/ exists v, (FOCTET_EXT_OID, v) ∈ exts /\ decode_der v = Some p.
Proof.
  revert acc. induction exts as [|[o v] exts IH]; intros acc; simpl; [intros [= ->]; by left|].
  case_bool_decide as Ho.
  - intros Hex. read_ok Hex. destruct (IH _ Hex) as [[= ->]|(v' & Hv & Hd)].
    + right. exists v. subst o. split; [apply list_elem_of_here|done].
    + right. exists v'. split; [by apply list_elem_of_further|done].
  - intros Hex. destruct (IH _ Hex) as [->|(v' & Hv & Hd)]; [by left|].
    right. exists v'. split; [by apply list_elem_of_further|done].
Qed.

(** What an accepted certificate [x] attests of the node [pk]: its names and its
    extension carry [pk]; it is valid at [now]; it is signed with its own key; and
    [pk] has signed that key. *)
Record attests (now : Z) (x : X509.t) (pk : NodeId) (s : SignatureScheme.t) : Prop := {
  attests_valid : X509.is_valid now x = true;
  attests_name : exists names uri encoded,
    X509.subject_alternative_name x = Ok (Some names) /\ find_uri names = Some uri /\
    str_from 9 uri = Ok encoded /\ PublicKey.from_base32 encoded = Ok pk;
  attests_self : exists alg, verification_algorithm s = Ok alg /\
    ring_verify alg (X509.subject_public_key x) (X509.tbs_certificate x)
      (X509.signature_value x) = true;
  attests_key : exists v sig, (FOCTET_EXT_OID, v) ∈ X509.extensions x /\
    decode_der v = Some (PublicKey.to_bytes pk, sig) /\
    PublicKey.verify pk (FOCTET_SIGNING_PREFIX ++ X509.subject_pki_raw x) sig = true
}.

Lemma verify_signature_Ok (c : FoctetCertificate) (s : SignatureScheme.t) (msg sig : bytes) :
  verify_signature c s msg sig = Ok tt ->
  signature_scheme c = Ok s /\ exists alg, verification_algorithm s = Ok alg /\
    ring_verify alg (X509.subject_public_key (certificate c)) msg sig = true.
Proof.
  unfold verify_signature, cert_public_key. intros Hv. read_ok Hv. destruct a as [alg key].
  read_ok E. case_bool_decide; [|done]. subst. simpl in E. read_ok E. simplify_eq.
  split; [done|]. eexists. split; [done|]. by destruct (ring_verify _ _ _ _).
Qed.

Lemma parse_unverified_Ok (der : bytes) (c : FoctetCertificate) :
  parse_unverified der = Ok c ->
  parse_x509_certificate der = Some (certificate c) /\
  san_node_id (certificate c) = Ok (node_id c) /\
  exists bs, extract_extension (X509.extensions (certificate c)) None =
      Ok (Some (bs, signature (extension c))) /\
    PublicKey.try_from_bytes bs = Ok (node_id c).
Proof.
  unfold parse_unverified. intros Hp. read_ok Hp. read_ok Hp. read_ok Hp. read_ok Hp.
  destruct a2 as [bs sig]. read_ok Hp. case_bool_decide; [|done]. simplify_eq/=.
  split_and!; [done|done|]. by exists bs.
Qed.

Lemma try_from_bytes_Ok (bs : bytes) (pk : PublicKey.t) :
  PublicKey.try_from_bytes bs = Ok pk -> bs = PublicKey.to_bytes pk.
Proof.
  unfold PublicKey.try_from_bytes, try_into_array. case_match; [|done]. simpl.
  destruct (verifying_from_bytes bs); [|done..]. by intros [= <-].
Qed.

Lemma parse_sound (now : Z) (der : bytes) (c : FoctetCertificate) :
  parse now der = Ok c ->
  parse_x509_certificate der = Some (certificate c) /\
  exists s, signature_scheme c = Ok s /\ attests now (certificate c) (node_id c) s.
Proof.
  unfold parse. intros Hp. read_ok Hp. read_ok Hp. simplify_eq. rename E0 into Hv.
  apply parse_unverified_Ok in E as (Hx & Hsan & bs & Hext & Hpk).
  split; [done|]. unfold verify in Hv. destruct (X509.is_valid now _) eqn:Hvalid; [|done].
  cbn [negb] in Hv. read_ok Hv. read_ok Hv. rename E into Hs, E0 into Hself.
  destruct (PublicKey.verify _ _ _) eqn:Hsig; [|done].
  destruct a1. exists a. split; [done|]. apply verify_signature_Ok in Hself as (_ & alg & Halg & Hring).
  split; [done| | |].
  - unfold san_node_id in Hsan. destruct (X509.subject_alternative_name _) as [o| |]; [|done..].
    read_ok Hsan. read_ok Hsan. read_ok Hsan. apply map_err_Ok in Hsan. subst o.
    eexists _, _, _. done.
  - by exists alg.
  - apply extract_extension_in in Hext as [|(v & Hv' & Hd)]; [done|].
    exists v, (signature (extension c)). apply try_from_bytes_Ok in Hpk as ->. done.
Qed.

End cert_lemmas.

Lemma is_ascii_app (s t : string) : is_ascii (s +:+ t) = is_ascii s && is_ascii t.
Proof. induction s as [|c s IH]; [done|]. simpl. by rewrite IH, andb_assoc. Qed.

Section generate_lemmas.

Context `{Ed25519Laws} `{Base32} `{X509Laws} (kp : Keypair.t) (ck : CertKey).

Lemma parse_unverified_issued (der : bytes) (x : X509.t) (sig : bytes) :
  parse_x509_certificate der = Some x ->
  issued ck ("foctet://" +:+ PublicKey.to_base32 (Keypair.public kp))
    (FOCTET_EXT_OID, construct_der (PublicKey.to_bytes (Keypair.public kp)) sig) x ->
  parse_unverified der =
    Ok (mk_FoctetCertificate x (mk_FoctetExtension (Keypair.public kp) sig)).
Proof using All.
  intros Hx Hi. unfold parse_unverified. rewrite Hx. cbn [ok_or outcome_bind].
  unfold san_node_id. rewrite (issued_san _ _ _ _ Hi). cbn [ok_or outcome_bind find_uri].
  rewrite str_from_app by apply base32_ascii. cbn [outcome_bind]. rewrite public_base32.
  cbn [map_err outcome_bind]. destruct (issued_ext _ _ _ _ Hi) as (before & after & -> & Hall).
  apply Forall_app in Hall as [Hb Ha]. rewrite extract_extension_app.
  rewrite extract_extension_skip by done. cbn [outcome_bind extract_extension].
  rewrite bool_decide_true by done. rewrite decode_construct_der. cbn [ok_or outcome_bind].
  rewrite extract_extension_skip by done. cbn [outcome_bind ok_or].
  rewrite public_bytes. cbn [map_err outcome_bind]. by rewrite bool_decide_true.
Qed.

Lemma issued_scheme (uri : string) (ext : Oid * bytes) (x : X509.t) (e : FoctetExtension) :
  issued ck uri ext x ->
  signature_scheme (mk_FoctetCertificate x e) = Ok SignatureScheme.ECDSA_NISTP256_SHA256.
Proof.
  intros Hi. unfold signature_scheme. cbn [certificate].
  rewrite (issued_pki_algorithm _ _ _ _ Hi), (issued_signature_algorithm _ _ _ _ Hi). done.
Qed.

Lemma generate_parse (now : Z) :
  157766400 <= now <= 67090118400 ->
  exists der c, generate kp (Ok ck) = Ok (der, serialize_der ck) /\ parse now der = Ok c /\
    node_id c = Keypair.public kp.
Proof using All.
  intros Hnow. unfold generate. cbn [outcome_bind].
  set (sig := Keypair.sign kp _). set (uri := _ +:+ _).
  destruct (self_signed_issued ck uri (construct_der (PublicKey.to_bytes (Keypair.public kp)) sig)) as (der & x & -> & Hx & Hi).
  { unfold uri. rewrite is_ascii_app. simpl. apply base32_ascii. }
  exists der. eexists. split; [done|]. unfold parse.
  rewrite (parse_unverified_issued der x sig Hx Hi). cbn [outcome_bind].
  unfold verify, X509.is_valid. cbn [certificate extension public_key signature].
  rewrite (issued_not_before _ _ _ _ Hi), (issued_not_after _ _ _ _ Hi).
  rewrite !(proj2 (Z.leb_le _ _)) by lia. cbn [negb andb].
  unfold verify_signature, cert_public_key. rewrite (issued_scheme _ _ _ _ Hi). cbn [outcome_bind].
  rewrite bool_decide_true by done. cbn [negb outcome_bind verification_algorithm certificate].
  rewrite (issued_signature _ _ _ _ Hi). cbn [map_err outcome_bind].
  rewrite (issued_pki _ _ _ _ Hi). fold sig. unfold sig. by rewrite public_verify_sign.
Qed.

End generate_lemmas.

(** ** Witnesses: certificates that are an encoding of their URI and their
    extension, signed by repeating what is signed. *)

#[local] Program Instance byte_countable : Countable byte :=
  inj_countable Byte.to_N Byte.of_N Byte.of_to_N.

Fixpoint pos_bits (p : positive) : bytes :=
  match p with
  | xH => []
  | xO p => byte_of 0 :: pos_bits p
  | xI p => byte_of 1 :: pos_bits p
  end.

Fixpoint of_bits (bs : bytes) : positive :=
  match bs with
  | [] => xH
  | b :: bs => if byte_val b =? 0 then xO (of_bits bs) else xI (of_bits bs)
  end.

Lemma of_pos_bits (p : positive) : of_bits (pos_bits p) = p.
Proof. induction p as [p IH|p IH|]; simpl; rewrite ?IH; done. Qed.

Definition demo_x509 (uri : string) (ext : Oid * bytes) : X509.t :=
  X509.mk [] (X509.Algorithm OID_SIG_ECDSA_WITH_SHA256 None) []
    (X509.Algorithm OID_KEY_TYPE_EC_PUBLIC_KEY (Some (X509.AnyOid OID_EC_P256))) [] []
    (Ok (Some [X509.URI uri])) [ext] 157766400 67090118400.

Definition demo_certs : X509Lib := {|
  parse_x509_certificate := fun der =>
    option_map (fun '(uri, ext) => demo_x509 uri ext) (decode (A := string * (Oid * bytes)) (of_bits der));
  rsassa_pss_hash := fun _ => None;
  construct_der := fun a b => pos_bits (encode (a, b));
  decode_der := fun bs => decode (of_bits bs);
  ring_verify := fun _ _ msg sig => bool_decide (sig = msg);
  CertKey := unit;
  public_key_der := fun _ => [];
  serialize_der := fun _ => [];
  self_signed := fun _ uri ext => Ok (pos_bits (encode (uri, ext)));
  any_ecdsa_type := fun _ => true
|}.

Lemma demo_certs_laws : X509Laws (H := demo_certs).
Proof.
  split.
  - intros a b. simpl. by rewrite of_pos_bits, decode_encode.
  - intros k uri value _. set (ext := (FOCTET_EXT_OID, value)).
    exists (pos_bits (encode (uri, ext))), (demo_x509 uri ext). split; [done|].
    split; [simpl; by rewrite of_pos_bits, decode_encode|].
    split; try done. exists [], []. split; [done|constructor].
  - done.
Qed.
