(* ===== verification/Tls.v ===== *)
(** * TLS

    foctet-net/src/tls/verifier.rs, config.rs and upgrade.rs: the certificate
    verifier that both sides of a connection install, the configurations that
    carry it, and the identity of the peer that a connection is given.

    The handshake is the [rustls] library: [TlsLib] is what the sources call of
    it, with the data that a handshake leaves behind, and [TlsLaws] what it
    documents: a handshake succeeds only if the installed verifier has accepted
    the certificates of the peer, and the signature that the peer has made of
    this very handshake. *)

From S2P Require Import Prelude Text Key X509.

Local Open Scope Z_scope.
Local Open Scope outcome_scope.

(** [rustls::Error], as far as the sources name it. *)
Inductive CertificateError : Type :=
| BadEncoding
| BadSignature
| ApplicationVerificationFailure
| OtherCertificateError (e : WebpkiError.t).

Inductive RustlsError : Type :=
| General (msg : string)
| InvalidCertificate (e : CertificateError).

(** Versions and cipher suites of [rustls]. *)
Inductive ProtocolVersion : Type := TLS12 | TLS13.

Inductive CipherSuite : Type :=
| TLS13_CHACHA20_POLY1305_SHA256
| TLS13_AES_256_GCM_SHA384
| TLS13_AES_128_GCM_SHA256
| OtherSuite (code : Z).

(** foctet-net/src/tls/verifier.rs:28-28, [PROTOCOL_VERSIONS]. *)
Definition PROTOCOL_VERSIONS : list ProtocolVersion := [TLS13].

(** foctet-net/src/tls/verifier.rs:32-37, [CIPHERSUITES]. *)
Definition CIPHERSUITES : list CipherSuite :=
  [TLS13_CHACHA20_POLY1305_SHA256; TLS13_AES_256_GCM_SHA384; TLS13_AES_128_GCM_SHA256].

(** foctet-net/src/tls/verifier.rs:232-242, [rustls::Error::from]. *)
Definition from_ParseError (e : WebpkiError.t) : RustlsError :=
  match e with
  | WebpkiError.BadDer => InvalidCertificate BadEncoding
  | e => InvalidCertificate (OtherCertificateError e)
  end.

(** foctet-net/src/tls/verifier.rs:243-255, [rustls::Error::from]. *)
Definition from_VerificationError (e : WebpkiError.t) : RustlsError :=
  match e with
  | WebpkiError.InvalidSignatureForPublicKey => InvalidCertificate BadSignature
  | other => InvalidCertificate (OtherCertificateError other)
  end.

Section verifier.

Context `{Ed25519} `{Base32} `{X509Lib}.

(** foctet-net/src/tls/verifier.rs:186-212, [verify_presented_certs]; [now] is the
    time, which parsing reads from the clock. *)
Definition verify_presented_certs (now : Z) (end_entity : bytes) (intermediates : list bytes) :
    outcome RustlsError NodeId :=
  if negb (bool_decide (intermediates = [])) then
    Err (General "foctet-tls requires exactly one certificate")
  else
    match parse now end_entity with
    | Ok cert => Ok (node_id cert)
    | Err _ => Err (InvalidCertificate BadEncoding)
    | Panic => Panic
    end.

(** foctet-net/src/tls/verifier.rs:214-230, [verify_tls13_signature]. *)
Definition verify_tls13_signature (now : Z) (cert : bytes) (s : SignatureScheme.t)
    (message signature : bytes) : outcome RustlsError unit :=
  let? cert := map_err from_ParseError (parse now cert) in
  match verify_signature cert s message signature with
  | Ok _ => Ok tt
  | Err _ => Err (InvalidCertificate BadSignature)
  | Panic => Panic
  end.

End verifier.

(** The traits of [rustls] for the verification of a peer, with the clock that the
    verification reads as their first argument. *)
Record ServerCertVerifier : Type := {
  server_cert : Z -> bytes -> list bytes -> outcome RustlsError unit;
  server_tls12_signature :
    Z -> bytes -> SignatureScheme.t -> bytes -> bytes -> outcome RustlsError unit;
  server_tls13_signature :
    Z -> bytes -> SignatureScheme.t -> bytes -> bytes -> outcome RustlsError unit;
  server_verify_schemes : list SignatureScheme.t
}.

Record ClientCertVerifier : Type := {
  offer_client_auth : bool;
  root_hint_subjects : list bytes;
  client_cert : Z -> bytes -> list bytes -> outcome RustlsError unit;
  client_tls12_signature :
    Z -> bytes -> SignatureScheme.t -> bytes -> bytes -> outcome RustlsError unit;
  client_tls13_signature :
    Z -> bytes -> SignatureScheme.t -> bytes -> bytes -> outcome RustlsError unit;
  client_verify_schemes : list SignatureScheme.t
}.

Module FoctetCertificateVerifier.

(** foctet-net/src/tls/verifier.rs:43-46, [FoctetCertificateVerifier]. *)
Record t : Type := mk { remote_node_id : option NodeId }.

(** foctet-net/src/tls/verifier.rs:55-59, [FoctetCertificateVerifier::new]. *)
Definition new : t := mk None.

(** foctet-net/src/tls/verifier.rs:60-62, [FoctetCertificateVerifier::with_remote_node_id]. *)
Definition with_remote_node_id (remote_node_id : option NodeId) : t := mk remote_node_id.

(** foctet-net/src/tls/verifier.rs:68-84, [FoctetCertificateVerifier::verification_schemes]. *)
Definition verification_schemes : list SignatureScheme.t :=
  [SignatureScheme.ECDSA_NISTP384_SHA384;
   SignatureScheme.ECDSA_NISTP256_SHA256;
   SignatureScheme.ED25519;
   SignatureScheme.RSA_PSS_SHA512;
   SignatureScheme.RSA_PSS_SHA384;
   SignatureScheme.RSA_PSS_SHA256;
   SignatureScheme.RSA_PKCS1_SHA512;
   SignatureScheme.RSA_PKCS1_SHA384;
   SignatureScheme.RSA_PKCS1_SHA256].

Section operations.

Context `{Ed25519} `{Base32} `{X509Lib} (self : t).

(** foctet-net/src/tls/verifier.rs:88-111, [FoctetCertificateVerifier::verify_server_cert]. *)
Definition verify_server_cert (now : Z) (end_entity : bytes) (intermediates : list bytes) :
    outcome RustlsError unit :=
  let? node_id := verify_presented_certs now end_entity intermediates in
  match remote_node_id self with
  | Some remote_node_id =>
      if negb (bool_decide (remote_node_id = node_id)) then
        Err (InvalidCertificate ApplicationVerificationFailure)
      else Ok tt
  | None => Ok tt
  end.

(** foctet-net/src/tls/verifier.rs:152-161, [FoctetCertificateVerifier::verify_client_cert]. *)
Definition verify_client_cert (now : Z) (end_entity : bytes) (intermediates : list bytes) :
    outcome RustlsError unit :=
  let? _ := verify_presented_certs now end_entity intermediates in
  Ok tt.

(** foctet-net/src/tls/verifier.rs:122-129, [FoctetCertificateVerifier::verify_tls13_signature]. *)
Definition verify_tls13_signature (now : Z) (cert : bytes) (s : SignatureScheme.t)
    (message signature : bytes) : outcome RustlsError unit :=
  verify_tls13_signature now cert s message signature.

(** foctet-net/src/tls/verifier.rs:87-134, [impl ServerCertVerifier]. *)
Definition server_cert_verifier : ServerCertVerifier := {|
  server_cert := verify_server_cert;
  server_tls12_signature := fun _ _ _ _ _ => Panic;
  server_tls13_signature := verify_tls13_signature;
  server_verify_schemes := verification_schemes
|}.

(** foctet-net/src/tls/verifier.rs:143-184, [impl ClientCertVerifier]. *)
Definition client_cert_verifier : ClientCertVerifier := {|
  offer_client_auth := true;
  root_hint_subjects := [];
  client_cert := verify_client_cert;
  client_tls12_signature := fun _ _ _ _ _ => Panic;
  client_tls13_signature := verify_tls13_signature;
  client_verify_schemes := verification_schemes
|}.

End operations.

End FoctetCertificateVerifier.

(** The verifier for tests, over the provider of signature algorithms of [rustls]. *)
Module SkipServerVerification.

Section operations.

(** [rustls::crypto::verify_tls12_signature] and [verify_tls13_signature] with the
    algorithms of a provider, and the schemes that it supports. *)
Context {Provider : Type} (default_provider : Provider).
Context (crypto_verify_tls12 crypto_verify_tls13 :
  Provider -> bytes -> bytes -> SignatureScheme.t -> bytes -> outcome RustlsError unit).
Context (supported_schemes : Provider -> list SignatureScheme.t).

(** foctet-net/src/tls/verifier.rs:259-267, [SkipServerVerification], and how it is made. *)
Record t : Type := mk { provider : Provider }.

Definition new : t := mk default_provider.

(** foctet-net/src/tls/verifier.rs:269-312, [impl ServerCertVerifier]. *)
Definition server_cert_verifier (self : t) : ServerCertVerifier := {|
  server_cert := fun _ _ _ => Ok tt;
  server_tls12_signature := fun _ cert s message signature =>
    crypto_verify_tls12 (provider self) message cert s signature;
  server_tls13_signature := fun _ cert s message signature =>
    crypto_verify_tls13 (provider self) message cert s signature;
  server_verify_schemes := supported_schemes (provider self)
|}.

End operations.

End SkipServerVerification.

(** foctet-net/src/tls/config.rs:9-9, [FOCTET_ALPN]. *)
Definition FOCTET_ALPN : bytes := String.list_byte_of_string "foctet".

Module AlwaysResolvesCert.

(** foctet-net/src/tls/cert.rs:24-25, [AlwaysResolvesCert]: the certificates and
    the private key. *)
Record t : Type := mk { certs : list bytes; key : bytes }.

(** foctet-net/src/tls/cert.rs:28-37, [AlwaysResolvesCert::new]. *)
Definition new `{X509Lib} (cert key : bytes) : outcome RustlsError t :=
  if any_ecdsa_type key then Ok (mk [cert] key) else Err (General "failed to parse private key").

(** foctet-net/src/tls/cert.rs:41-47, [AlwaysResolvesCert::resolve]. *)
Definition resolve (self : t) : option (list bytes * bytes) := Some (certs self, key self).

End AlwaysResolvesCert.

(** What the sources set of a [rustls::ClientConfig] and of a
    [rustls::ServerConfig]; the verifier of a server is that of client
    certificates. *)
Record TlsConfig : Type := mk_TlsConfig {
  cipher_suites : list CipherSuite;
  protocol_versions : list ProtocolVersion;
  verifier : FoctetCertificateVerifier.t;
  cert_resolver : AlwaysResolvesCert.t;
  alpn_protocols : list bytes
}.

Section config.

Context `{Ed25519} `{Base32} `{X509Lib}.

(** foctet-net/src/tls/config.rs:11-37, [make_client_config];
    [certificate_keypair] is what [KeyPair::generate_for] returns. *)
Definition make_client_config (keypair : Keypair.t) (remote_node_id : option NodeId)
    (certificate_keypair : outcome error CertKey) : outcome error TlsConfig :=
  let? (certificate, private_key) := generate keypair certificate_keypair in
  let? cert_resolver := unwrap (AlwaysResolvesCert.new certificate private_key) in
  Ok (mk_TlsConfig CIPHERSUITES PROTOCOL_VERSIONS
    (FoctetCertificateVerifier.with_remote_node_id remote_node_id) cert_resolver [FOCTET_ALPN]).

(** foctet-net/src/tls/config.rs:39-59, [make_server_config]. *)
Definition make_server_config (keypair : Keypair.t)
    (certificate_keypair : outcome error CertKey) : outcome error TlsConfig :=
  let? (certificate, private_key) := generate keypair certificate_keypair in
  let? cert_resolver := unwrap (AlwaysResolvesCert.new certificate private_key) in
  Ok (mk_TlsConfig CIPHERSUITES PROTOCOL_VERSIONS FoctetCertificateVerifier.new cert_resolver
    [FOCTET_ALPN]).

End config.

(** Our side of a handshake. *)
Inductive Role : Type :=
| Connector
| Acceptor.

(** What a TLS 1.3 handshake leaves behind of how the peer has signed it: the hash of
    its messages up to the certificate of the peer, which covers the random values of
    both sides, and the [CertificateVerify] message of the peer. *)
Record Handshake : Type := mk_Handshake {
  transcript_hash : bytes;
  verify_scheme : SignatureScheme.t;
  peer_signature : bytes
}.

#[export] Instance Handshake_eq_dec : EqDecision Handshake.
Proof. solve_decision. Defined.

(** What the peer signs in a handshake, by RFC 8446, section 4.4.3: the server signs when
    we connect, and the client when we accept. *)
Definition verify_context (role : Role) : string :=
  match role with
  | Connector => "TLS 1.3, server CertificateVerify"
  | Acceptor => "TLS 1.3, client CertificateVerify"
  end.

Definition verify_content (role : Role) (h : Handshake) : bytes :=
  replicate 64 (byte_of 32) ++ String.list_byte_of_string (verify_context role) ++ [byte_of 0] ++
  transcript_hash h.

(** [tokio_rustls::TlsConnector::connect] and [TlsAcceptor::accept] over a raw
    stream [Raw], and the certificates of the peer of a [TlsStream]. *)
Class TlsLib (Raw : Type) : Type := {
  TlsStream : Type;
  tls_connect : TlsConfig -> Raw -> outcome error TlsStream;
  tls_accept : TlsConfig -> Raw -> outcome error TlsStream;
  peer_certificates : TlsStream -> option (list bytes);
  handshake_of : TlsStream -> Handshake
}.

(** A handshake in either role, and the checks of the installed verifier in it. *)
Definition tls_handshake {Raw : Type} `{TlsLib Raw} (role : Role) (cfg : TlsConfig) (raw : Raw) :
    outcome error TlsStream :=
  match role with
  | Connector => tls_connect cfg raw
  | Acceptor => tls_accept cfg raw
  end.

Section checks.

Context `{Ed25519} `{Base32} `{X509Lib}.

Definition check_certs (role : Role) (cfg : TlsConfig) (now : Z) (end_entity : bytes)
    (intermediates : list bytes) : outcome RustlsError unit :=
  match role with
  | Connector =>
      server_cert (FoctetCertificateVerifier.server_cert_verifier (verifier cfg)) now end_entity
        intermediates
  | Acceptor =>
      client_cert FoctetCertificateVerifier.client_cert_verifier now end_entity intermediates
  end.

Definition check_signature (role : Role) (cfg : TlsConfig) (now : Z) (end_entity : bytes)
    (h : Handshake) : outcome RustlsError unit :=
  match role with
  | Connector =>
      server_tls13_signature (FoctetCertificateVerifier.server_cert_verifier (verifier cfg)) now
        end_entity (verify_scheme h) (verify_content role h) (peer_signature h)
  | Acceptor =>
      client_tls13_signature FoctetCertificateVerifier.client_cert_verifier now
        end_entity (verify_scheme h) (verify_content role h) (peer_signature h)
  end.

End checks.

Class TlsLaws (Raw : Type) `{Ed25519} `{Base32} `{X509Lib} `{TlsLib Raw} : Prop := {
  tls_handshake_verified : forall role cfg raw t,
    tls_handshake role cfg raw = Ok t ->
    exists end_entity intermediates now,
      peer_certificates t = Some (end_entity :: intermediates) /\
      check_certs role cfg now end_entity intermediates = Ok tt /\
      check_signature role cfg now end_entity (handshake_of t) = Ok tt
}.

Section extraction.

Context {Raw : Type} `{Ed25519} `{Base32} `{X509Lib} `{TlsLib Raw}.

(** foctet-net/src/transport/tcp/transport.rs:240-249, [extract_client_remote_node_id]. *)
Definition extract_client_remote_node_id (now : Z) (tls_stream : TlsStream) : outcome error NodeId :=
  let? certs := ok_or (Anyhow "No peer identity") (peer_certificates tls_stream) in
  let? cert := ok_or (Anyhow "No certificate found") (head certs) in
  let? foctet_cert := map_err (fun _ => Anyhow "Invalid certificate") (parse now cert) in
  Ok (node_id foctet_cert).

(** foctet-net/src/transport/tcp/transport.rs:229-238, [extract_server_remote_node_id]. *)
Definition extract_server_remote_node_id (now : Z) (tls_stream : TlsStream) : outcome error NodeId :=
  let? certs := ok_or (Anyhow "No peer identity") (peer_certificates tls_stream) in
  let? cert := ok_or (Anyhow "No certificate found") (head certs) in
  let? foctet_cert := map_err (fun _ => Anyhow "Invalid certificate") (parse now cert) in
  Ok (node_id foctet_cert).

(** foctet-net/src/tls/upgrade.rs:66-73, [extract_single_certificate]. *)
Definition extract_single_certificate (now : Z) (tls_stream : TlsStream) :
    outcome error FoctetCertificate :=
  match peer_certificates tls_stream with
  | Some [cert] => map_err (fun _ => Anyhow "Invalid certificate") (parse now cert)
  | _ => Panic
  end.

(** foctet-net/src/tls/upgrade.rs:17-21, [ConnectionUpgrader]. *)
Record ConnectionUpgrader : Type := mk_ConnectionUpgrader {
  tls_acceptor : TlsConfig;
  tls_connector : TlsConfig
}.

(** foctet-net/src/tls/upgrade.rs:24-31, [ConnectionUpgrader::new]. *)
Definition ConnectionUpgrader_new (identity : Keypair.t) (server_key client_key : outcome error CertKey) :
    outcome error ConnectionUpgrader :=
  let? server_config := make_server_config identity server_key in
  let? client_config := make_client_config identity None client_key in
  Ok (mk_ConnectionUpgrader server_config client_config).

(** foctet-net/src/tls/upgrade.rs:32-40, [ConnectionUpgrader::with_config]. *)
Definition ConnectionUpgrader_with_config (server_config client_config : TlsConfig) :
    ConnectionUpgrader :=
  mk_ConnectionUpgrader server_config client_config.

(** foctet-net/src/tls/upgrade.rs:41-48, [ConnectionUpgrader::upgrade_inbound]. *)
Definition upgrade_inbound (self : ConnectionUpgrader) (now : Z) (raw_stream : Raw) :
    outcome error (NodeId * TlsStream) :=
  let? tls_stream := tls_accept (tls_acceptor self) raw_stream in
  let? cert := extract_single_certificate now tls_stream in
  Ok (node_id cert, tls_stream).

(** foctet-net/src/tls/upgrade.rs:49-63, [ConnectionUpgrader::upgrade_outbound]. *)
Definition upgrade_outbound (self : ConnectionUpgrader) (now : Z) (raw_stream : Raw) :
    outcome error (NodeId * TlsStream) :=
  let? tls_stream := tls_connect (tls_connector self) raw_stream in
  let? cert := extract_single_certificate now tls_stream in
  Ok (node_id cert, tls_stream).

End extraction.

(** ** Lemmas *)

Section verifier_lemmas.

Context `{Ed25519} `{Base32} `{X509Lib}.

Lemma verification_algorithm_schemes (s : SignatureScheme.t) (alg : VerificationAlgorithm) :
  verification_algorithm s = Ok alg -> s ∈ FoctetCertificateVerifier.verification_schemes.
Proof. destruct s; try done; intros _; by apply list_elem_of_In; simpl; tauto. Qed.

Lemma verify_presented_certs_Ok (now : Z) (der : bytes) (ints : list bytes) (id : NodeId) :
  verify_presented_certs now der ints = Ok id ->
  ints = [] /\ exists c, parse now der = Ok c /\ node_id c = id.
Proof.
  unfold verify_presented_certs. case_bool_decide; [|done]. simpl.
  destruct (parse now der) as [c| |]; [|done..]. intros [= <-]. split; [done|]. by exists c.
Qed.

Lemma verify_server_cert_Ok (v : FoctetCertificateVerifier.t) (now : Z) (der : bytes)
    (ints : list bytes) :
  FoctetCertificateVerifier.verify_server_cert v now der ints = Ok tt ->
  ints = [] /\ exists c, parse now der = Ok c /\
    forall id, FoctetCertificateVerifier.remote_node_id v = Some id -> node_id c = id.
Proof.
  unfold FoctetCertificateVerifier.verify_server_cert. intros Hv. read_ok Hv.
  apply verify_presented_certs_Ok in E as (-> & c & Hc & <-). split; [done|].
  exists c. split; [done|]. intros id Hid. rewrite Hid in Hv. by case_bool_decide.
Qed.

(** What a certificate says does not depend on when it is read. *)
Lemma parse_unverified_of (now : Z) (der : bytes) (c : FoctetCertificate) :
  parse now der = Ok c -> parse_unverified der = Ok c.
Proof. unfold parse. intros Hp. read_ok Hp. read_ok Hp. by simplify_eq. Qed.

Lemma parse_agree (n1 n2 : Z) (der : bytes) (c1 c2 : FoctetCertificate) :
  parse n1 der = Ok c1 -> parse n2 der = Ok c2 -> c1 = c2.
Proof. intros Hp1%parse_unverified_of Hp2%parse_unverified_of. congruence. Qed.

Lemma verify_tls13_signature_Ok (now : Z) (der : bytes) (s : SignatureScheme.t) (msg sig : bytes) :
  verify_tls13_signature now der s msg sig = Ok tt ->
  exists c alg, parse now der = Ok c /\ verification_algorithm s = Ok alg /\
    ring_verify alg (X509.subject_public_key (certificate c)) msg sig = true.
Proof.
  unfold verify_tls13_signature. intros Hv. read_ok Hv. exists a.
  destruct (verify_signature a s msg sig) as [[]| |] eqn:Es; [|done..].
  apply verify_signature_Ok in Es as (_ & alg & Halg & Hring). by exists alg.
Qed.

End verifier_lemmas.

(** What a connected stream tells of the node [id] at the other end: it has shown
    one certificate, which attests [id] under a scheme that the verifier offers; and
    with the key of that certificate it has signed this handshake, in its role. *)
Record authenticated {Raw : Type} `{Ed25519} `{Base32} `{X509Lib} `{TlsLib Raw}
    (role : Role) (now : Z) (t : TlsStream) (id : NodeId) : Prop := {
  auth_cert : exists der x s, peer_certificates t = Some [der] /\
    parse_x509_certificate der = Some x /\
    attests now x id s /\ s ∈ FoctetCertificateVerifier.verification_schemes /\
    exists alg, verification_algorithm (verify_scheme (handshake_of t)) = Ok alg /\
      ring_verify alg (X509.subject_public_key x) (verify_content role (handshake_of t))
        (peer_signature (handshake_of t)) = true
}.

Section peer_lemmas.

Context {Raw : Type} `{TlsLaws Raw}.

(** The peer of a handshake that succeeded, in either role. *)
Lemma handshake_peer (role : Role) (cfg : TlsConfig) (raw : Raw) (t : TlsStream) :
  tls_handshake role cfg raw = Ok t ->
  exists der c now', peer_certificates t = Some [der] /\ parse now' der = Ok c /\
    verify_tls13_signature now' der (verify_scheme (handshake_of t))
      (verify_content role (handshake_of t)) (peer_signature (handshake_of t)) = Ok tt /\
    (role = Connector -> forall id,
       FoctetCertificateVerifier.remote_node_id (verifier cfg) = Some id -> node_id c = id).
Proof using All.
  intros (der & ints & n & Ht & Hv & Hs)%tls_handshake_verified. destruct role.
  - apply verify_server_cert_Ok in Hv as (-> & c & Hp & Hpin). exists der, c, n.
    by split_and!.
  - cbn in Hv. unfold FoctetCertificateVerifier.verify_client_cert in Hv. read_ok Hv.
    apply verify_presented_certs_Ok in E as (-> & c & Hp & _). exists der, c, n.
    by split_and!.
Qed.

Lemma extracted_authentic (role : Role) (cfg : TlsConfig) (raw : Raw) (t : TlsStream) (now : Z)
    (id : NodeId) :
  tls_handshake role cfg raw = Ok t ->
  extract_client_remote_node_id now t = Ok id -> authenticated role now t id.
Proof using All.
  intros (der & c' & n & Ht & Hp & Hs & _)%handshake_peer.
  unfold extract_client_remote_node_id. rewrite Ht. cbn [ok_or outcome_bind head]. intros Hid.
  read_ok Hid. injection Hid as <-.
  destruct (parse now der) as [c| |] eqn:Hc; try discriminate E. injection E as <-.
  destruct (parse_sound _ _ _ Hc) as (Hx & s0 & _ & Hatt).
  apply verify_tls13_signature_Ok in Hs as (c2 & alg & Hc2 & Halg & Hring).
  rewrite (parse_agree _ _ _ _ _ Hc Hc2) in *. split. exists der, (certificate c2), s0.
  split_and!; try done.
  - destruct (attests_self _ _ _ _ Hatt) as (alg0 & Halg0 & _).
    by eapply verification_algorithm_schemes.
  - by exists alg.
Qed.

End peer_lemmas.

(** ** Properties *)


(** C18: Every node can prove its identity: the certificate that [generate] makes
    for a keypair is accepted until the year 4096, by a connector that expects
    that node or any node and by a listener, and gives the public key of the
    keypair as the identity of the peer.  A connector that expects another node
    refuses it, and so does either side when it comes with a second
    certificate. *)
Theorem generated_cert_accepted `{Ed25519Laws} `{Base32} `{X509Laws} (kp : Keypair.t) (ck : CertKey)
    (now : Z) (Hnow : 157766400 <= now <= 67090118400) :
  exists der, generate kp (Ok ck) = Ok (der, serialize_der ck) /\
    verify_presented_certs now der [] = Ok (Keypair.public kp) /\
    FoctetCertificateVerifier.verify_client_cert now der [] = Ok tt /\
    (forall expected, FoctetCertificateVerifier.verify_server_cert
        (FoctetCertificateVerifier.with_remote_node_id expected) now der [] =
      match expected with
      | Some id => if bool_decide (id = Keypair.public kp) then Ok tt
                   else Err (InvalidCertificate ApplicationVerificationFailure)
      | None => Ok tt
      end) /\
    (forall v other, other <> [] -> exists msg,
      FoctetCertificateVerifier.verify_server_cert v now der other = Err (General msg) /\
      FoctetCertificateVerifier.verify_client_cert now der other = Err (General msg)).
Proof.
  destruct (generate_parse kp ck now Hnow) as (der & c & Hg & Hp & Hid).
  assert (Hv : verify_presented_certs now der [] = Ok (Keypair.public kp)).
  { unfold verify_presented_certs. simpl. by rewrite Hp, Hid. }
  exists der. unfold FoctetCertificateVerifier.verify_client_cert,
    FoctetCertificateVerifier.verify_server_cert. rewrite Hv. split_and!; try done.
  - intros [id|]; [|done]. simpl. by case_bool_decide.
  - intros v other Hne. unfold verify_presented_certs. rewrite bool_decide_false by done.
    by eexists.
Qed.

(** ** Witnesses: a handshake over the certificate of the peer, in the year
    2001. *)

#[local] Existing Instance two_keys.
#[local] Existing Instance two_keys_laws.
#[local] Existing Instance letters_base32.
#[local] Existing Instance demo_certs.
#[local] Existing Instance demo_certs_laws.

Definition demo_now : Z := 1000000000.

(** A handshake whose transcript is the certificate of the peer, which signs it. *)
Definition demo_handshake (role : Role) (der : bytes) : Handshake :=
  mk_Handshake der SignatureScheme.ECDSA_NISTP256_SHA256
    (verify_content role (mk_Handshake der SignatureScheme.ECDSA_NISTP256_SHA256 [])).

Definition demo_checked (role : Role) (cfg : TlsConfig) (der : bytes) : outcome error (Role * bytes) :=
  if is_ok (check_certs role cfg demo_now der []) &&
     is_ok (check_signature role cfg demo_now der (demo_handshake role der)) then Ok (role, der)
  else Err (Anyhow "handshake failed").

#[local] Instance demo_tls : TlsLib bytes := {|
  TlsStream := Role * bytes;
  tls_connect := demo_checked Connector;
  tls_accept := demo_checked Acceptor;
  peer_certificates := fun t => Some [t.2];
  handshake_of := fun t => demo_handshake t.1 t.2
|}.

Lemma is_ok_unit {E : Type} (m : outcome E unit) : is_ok m = true -> m = Ok tt.
Proof. by destruct m as [[]| |]. Qed.

#[local] Instance demo_tls_laws : TlsLaws bytes.
Proof.
  split. intros role cfg raw t Ht.
  assert (Hc : demo_checked role cfg raw = Ok t) by (by destruct role). unfold demo_checked in Hc.
  destruct (is_ok _ && is_ok _) eqn:E; [|done]. injection Hc as <-.
  apply andb_true_iff in E as [Hv%is_ok_unit Hs%is_ok_unit]. by exists raw, [], demo_now.
Qed.

Definition demo_cert : bytes :=
  match generate demo_keypair (Ok tt : outcome error (@CertKey demo_certs)) with Ok (der, _) => der | _ => [] end.

Definition demo_client (expected : option NodeId) : TlsConfig :=
  mk_TlsConfig CIPHERSUITES PROTOCOL_VERSIONS
    (FoctetCertificateVerifier.with_remote_node_id expected) (AlwaysResolvesCert.mk [] [])
    [FOCTET_ALPN].

Definition demo_stream : @TlsStream bytes demo_tls := (Connector, demo_cert).


Lemma generated_cert_accepted_witness :
  exists der, generate demo_keypair (Ok tt : outcome error (@CertKey demo_certs)) = Ok (der, []) /\
    verify_presented_certs demo_now der [] = Ok (Keypair.public demo_keypair).
Proof.
  destruct (generated_cert_accepted demo_keypair (tt : @CertKey demo_certs) demo_now ltac:(done))
    as (der & Hg & Hv & _).
  exists der. split; [exact Hg|exact Hv].
Defined.
