(* ===== verification/Config.v ===== *)
(** * Configuration

    foctet-net/src/config.rs and foctet-net/src/transport/quic/config.rs: the
    configuration of the transports.  [TransportConfig] holds the TLS
    configurations for the node's keypair; [QuicConfig] and [QuinnConfig] are what
    the QUIC transport makes of it.  Durations are in milliseconds.

    [QuinnLib] is what the sources call of the [quinn] library to check a TLS
    configuration. *)

From S2P Require Import Prelude Text Key X509 Tls.

Local Open Scope Z_scope.
Local Open Scope outcome_scope.

(** foctet-core/src/default.rs:12-12, [DEFAULT_WRITE_BUFFER_SIZE]. *)
Definition DEFAULT_WRITE_BUFFER_SIZE : Z := 16384.

(** foctet-core/src/default.rs:14-14, [MAX_WRITE_BUFFER_SIZE]. *)
Definition MAX_WRITE_BUFFER_SIZE : Z := 65536.

(** foctet-core/src/default.rs:19-19, [DEFAULT_READ_BUFFER_SIZE]. *)
Definition DEFAULT_READ_BUFFER_SIZE : Z := 16384.

(** foctet-core/src/default.rs:21-21, [MAX_READ_BUFFER_SIZE]. *)
Definition MAX_READ_BUFFER_SIZE : Z := 65536.

(** foctet-core/src/default.rs:27-27, [DEFAULT_CONNECTION_TIMEOUT]. *)
Definition DEFAULT_CONNECTION_TIMEOUT : Z := 30000.

(** foctet-core/src/default.rs:29-29, [DEFAULT_WRITE_TIMEOUT]. *)
Definition DEFAULT_WRITE_TIMEOUT : Z := 10000.

(** foctet-core/src/default.rs:31-31, [DEFAULT_READ_TIMEOUT]. *)
Definition DEFAULT_READ_TIMEOUT : Z := 10000.

(** foctet-core/src/default.rs:33-33, [DEFAULT_KEEP_ALIVE_INTERVAL]. *)
Definition DEFAULT_KEEP_ALIVE_INTERVAL : Z := 20000.

(** foctet-core/src/default.rs:36-36, [DEFAULT_MAX_CONCURRENT_STREAM]. *)
Definition DEFAULT_MAX_CONCURRENT_STREAM : Z := 256.

(** foctet-net/src/dns/mod.rs:29-37, [ResolverOption]; a custom configuration is
    the library's, here a name. *)
Inductive ResolverOption : Type :=
| DefaultResolver
| System
| Cloudflare
| Google
| Quad9
| Custom (cfg : string).

Module TransportConfig.

Section transport_config.

Context `{Ed25519} `{Base32} `{X509Lib}.

(** foctet-net/src/config.rs:14-30, [TransportConfig]. *)
Record t : Type := mk {
  connection_timeout : Z;
  read_timeout : Z;
  write_timeout : Z;
  read_buffer_size : Z;
  write_buffer_size : Z;
  mtu_upper_bound : option Z;
  enable_mtu_discovery : option bool;
  nodelay : option bool;
  max_concurrent_stream : Z;
  keep_alive_interval : option Z;
  dns_resolver_option : ResolverOption;
  client_tls_config : TlsConfig;
  server_tls_config : TlsConfig;
  keypair : Keypair.t
}.

(** foctet-net/src/config.rs:33-53, [TransportConfig::new]; the keys of the two
    certificates are drawn by [rcgen]. *)
Definition new (keypair : Keypair.t) (client_key server_key : outcome error CertKey) :
    outcome error t :=
  let? client_tls_config := make_client_config keypair None client_key in
  let? server_tls_config := make_server_config keypair server_key in
  Ok (mk DEFAULT_CONNECTION_TIMEOUT DEFAULT_READ_TIMEOUT DEFAULT_WRITE_TIMEOUT
    DEFAULT_READ_BUFFER_SIZE DEFAULT_WRITE_BUFFER_SIZE None None None
    DEFAULT_MAX_CONCURRENT_STREAM (Some DEFAULT_KEEP_ALIVE_INTERVAL) DefaultResolver
    client_tls_config server_tls_config keypair).

(** foctet-net/src/config.rs:63-70, [TransportConfig::set_keypair]. *)
Definition set_keypair (self : t) (keypair : Keypair.t) (client_key server_key : outcome error CertKey) :
    outcome error t :=
  let? client_tls_config := make_client_config keypair None client_key in
  let? server_tls_config := make_server_config keypair server_key in
  Ok (mk (connection_timeout self) (read_timeout self) (write_timeout self)
    (read_buffer_size self) (write_buffer_size self) (mtu_upper_bound self)
    (enable_mtu_discovery self) (nodelay self) (max_concurrent_stream self)
    (keep_alive_interval self) (dns_resolver_option self) client_tls_config server_tls_config
    keypair).

(** Assignments to the public fields. *)
Definition set_read_buffer_size (self : t) (size : Z) : t :=
  mk (connection_timeout self) (read_timeout self) (write_timeout self) size
    (write_buffer_size self) (mtu_upper_bound self) (enable_mtu_discovery self) (nodelay self)
    (max_concurrent_stream self) (keep_alive_interval self) (dns_resolver_option self)
    (client_tls_config self) (server_tls_config self) (keypair self).

Definition set_write_buffer_size (self : t) (size : Z) : t :=
  mk (connection_timeout self) (read_timeout self) (write_timeout self) (read_buffer_size self)
    size (mtu_upper_bound self) (enable_mtu_discovery self) (nodelay self)
    (max_concurrent_stream self) (keep_alive_interval self) (dns_resolver_option self)
    (client_tls_config self) (server_tls_config self) (keypair self).

End transport_config.

End TransportConfig.

(** [QuicClientConfig::try_from] and [QuicServerConfig::try_from]. *)
Class QuinnLib : Type := {
  quic_tls_try_from : TlsConfig -> outcome error TlsConfig
}.

(** They fail only without the suite that QUIC starts with. *)
Class QuinnLaws `{QuinnLib} : Prop := {
  quic_tls_initial_suite : forall cfg,
    TLS13_AES_128_GCM_SHA256 ∈ cipher_suites cfg -> quic_tls_try_from cfg = Ok cfg
}.

(** [quinn::MtuDiscoveryConfig]: the upper bound, if it has been set. *)
Record MtuDiscoveryConfig : Type := mk_Mtu { upper_bound : option Z }.

Module QuicConfig.

Section quic_config.

Context `{Ed25519} `{Base32} `{X509Lib} `{QuinnLib}.

(** foctet-net/src/transport/quic/config.rs:10-45, [QuicConfig]. *)
Record t : Type := mk {
  handshake_timeout : Z;
  max_idle_timeout : Z;
  keep_alive_interval : Z;
  max_concurrent_stream_limit : Z;
  max_stream_data : Z;
  max_connection_data : Z;
  client_tls_config : TlsConfig;
  server_tls_config : TlsConfig;
  keypair : Keypair.t;
  mtu_discovery_config : option MtuDiscoveryConfig
}.

(** foctet-net/src/transport/quic/config.rs:48-69, [QuicConfig::new]. *)
Definition new (keypair : Keypair.t) (client_key server_key : outcome error CertKey) :
    outcome error t :=
  let? client := unwrap (make_client_config keypair None client_key) in
  let? client_tls_config := unwrap (quic_tls_try_from client) in
  let? server := unwrap (make_server_config keypair server_key) in
  let? server_tls_config := unwrap (quic_tls_try_from server) in
  Ok (mk 5000 (10 * 1000) 5000 256 10000000 15000000 client_tls_config server_tls_config keypair
    (Some (mk_Mtu None))).

(** foctet-net/src/transport/quic/config.rs:70-75, [QuicConfig::set_mtu_upper_bound]. *)
Definition set_mtu_upper_bound (self : t) (value : Z) : t :=
  mk (handshake_timeout self) (max_idle_timeout self) (keep_alive_interval self)
    (max_concurrent_stream_limit self) (max_stream_data self) (max_connection_data self)
    (client_tls_config self) (server_tls_config self) (keypair self) (Some (mk_Mtu (Some value))).

(** foctet-net/src/transport/quic/config.rs:77-80, [QuicConfig::disable_path_mtu_discovery]. *)
Definition disable_path_mtu_discovery (self : t) : t :=
  mk (handshake_timeout self) (max_idle_timeout self) (keep_alive_interval self)
    (max_concurrent_stream_limit self) (max_stream_data self) (max_connection_data self)
    (client_tls_config self) (server_tls_config self) (keypair self) None.

(** foctet-net/src/transport/quic/config.rs:83-111, [QuicConfig::from]. *)
Definition from (config : TransportConfig.t) : outcome error t :=
  let? client_tls_config := unwrap (quic_tls_try_from (TransportConfig.client_tls_config config)) in
  let? server_tls_config := unwrap (quic_tls_try_from (TransportConfig.server_tls_config config)) in
  let quic_config :=
    mk (TransportConfig.connection_timeout config) (10 * 1000) 5000
      (TransportConfig.max_concurrent_stream config) 10000000 15000000 client_tls_config
      server_tls_config (TransportConfig.keypair config) (Some (mk_Mtu None)) in
  let quic_config :=
    match TransportConfig.mtu_upper_bound config with
    | Some mtu_upper_bound => set_mtu_upper_bound quic_config mtu_upper_bound
    | None => quic_config
    end in
  Ok (match TransportConfig.enable_mtu_discovery config with
      | Some false => disable_path_mtu_discovery quic_config
      | _ => quic_config
      end).

End quic_config.

End QuicConfig.

(** What the sources set of a [quinn::TransportConfig]. *)
Record QuinnTransport : Type := mk_QuinnTransport {
  max_concurrent_uni_streams : Z;
  max_concurrent_bidi_streams : Z;
  datagram_receive_buffer_size : option Z;
  quinn_keep_alive_interval : option Z;
  quinn_max_idle_timeout : option Z;
  allow_spin : bool;
  stream_receive_window : Z;
  receive_window : Z;
  quinn_mtu_discovery_config : option MtuDiscoveryConfig
}.

Module QuinnConfig.

(** foctet-net/src/transport/quic/config.rs:113-119, [QuinnConfig]: the crypto
    and transport settings of clients and of servers, whether servers follow a
    client that changes its address, and the key of reset tokens. *)
Record t : Type := mk {
  client_config : TlsConfig * QuinnTransport;
  server_config : TlsConfig * QuinnTransport;
  migration : bool;
  reset_key : bytes
}.

(** foctet-net/src/transport/quic/config.rs:121-168, [QuinnConfig::from]. *)
Definition from `{Ed25519} `{Base32} `{X509Lib} (config : QuicConfig.t) : t :=
  let transport := mk_QuinnTransport 0 (QuicConfig.max_concurrent_stream_limit config) None
    (Some (QuicConfig.keep_alive_interval config)) (Some (QuicConfig.max_idle_timeout config)) false
    (QuicConfig.max_stream_data config) (QuicConfig.max_connection_data config)
    (QuicConfig.mtu_discovery_config config) in
  mk (QuicConfig.client_tls_config config, transport) (QuicConfig.server_tls_config config, transport)
    false (SecretKey.to_bytes (Keypair.secret (QuicConfig.keypair config))).

End QuinnConfig.

(** ** Lemmas *)

(** A TLS configuration of a node [kp]: it shows a certificate that is accepted as
    that of [kp], offers the suite QUIC starts with, and expects no node in
    particular. *)
Record node_tls `{Ed25519} `{Base32} `{X509Lib} (kp : Keypair.t) (cfg : TlsConfig) : Prop := {
  node_tls_cert : exists der, AlwaysResolvesCert.certs (cert_resolver cfg) = [der] /\
    forall now, 157766400 <= now <= 67090118400 ->
      verify_presented_certs now der [] = Ok (Keypair.public kp);
  node_tls_any : FoctetCertificateVerifier.remote_node_id (verifier cfg) = None;
  node_tls_suite : TLS13_AES_128_GCM_SHA256 ∈ cipher_suites cfg;
  node_tls_versions : protocol_versions cfg = [TLS13]
}.

Section config_lemmas.

Context `{Ed25519Laws} `{Base32} `{X509Laws} (kp : Keypair.t) (ck : CertKey).

Lemma generate_presented :
  exists der, generate kp (Ok ck) = Ok (der, serialize_der ck) /\
    forall now, 157766400 <= now <= 67090118400 ->
      verify_presented_certs now der [] = Ok (Keypair.public kp).
Proof using All.
  destruct (generate_parse kp ck 157766400 ltac:(lia)) as (der & _ & Hg & _ & _).
  exists der. split; [done|]. intros now Hnow.
  destruct (generate_parse kp ck now Hnow) as (der' & c & Hg' & Hp & Hid).
  rewrite Hg in Hg'. injection Hg' as <-. unfold verify_presented_certs. simpl. by rewrite Hp, Hid.
Qed.

Lemma aes_128_offered : TLS13_AES_128_GCM_SHA256 ∈ CIPHERSUITES.
Proof. apply list_elem_of_In. simpl. tauto. Qed.

Lemma make_client_config_node :
  exists cfg, make_client_config kp None (Ok ck) = Ok cfg /\ node_tls kp cfg.
Proof using All.
  unfold make_client_config. destruct generate_presented as (der & -> & Hv). cbn [outcome_bind].
  unfold AlwaysResolvesCert.new. rewrite any_ecdsa_type_serialized. cbn [unwrap outcome_bind].
  eexists. split; [done|]. split; try done; [by exists der|apply aes_128_offered].
Qed.

Lemma make_server_config_node :
  exists cfg, make_server_config kp (Ok ck) = Ok cfg /\ node_tls kp cfg.
Proof using All.
  unfold make_server_config. destruct generate_presented as (der & -> & Hv). cbn [outcome_bind].
  unfold AlwaysResolvesCert.new. rewrite any_ecdsa_type_serialized. cbn [unwrap outcome_bind].
  eexists. split; [done|]. split; try done; [by exists der|apply aes_128_offered].
Qed.

End config_lemmas.

(** ** Properties *)

(** C28: A transport configuration proves the identity of its node and asks for
    none.  Whenever the keys of the certificates can be drawn, [new] and
    [set_keypair] succeed, the certificates that both TLS configurations show are
    accepted as those of the keypair, only TLS 1.3 is spoken, and turning the
    configuration into that of QUIC does not panic and keeps them.  The verifier
    of the connector expects no node in particular: a connection to any node that
    has a certificate of its own is accepted, whichever node was meant. *)
Theorem transport_config_identity `{Ed25519Laws} `{Base32} `{X509Laws} `{QuinnLaws}
    (kp : Keypair.t) (k1 k2 : CertKey) (old : TransportConfig.t) :
  let good cfg :=
    node_tls kp (TransportConfig.client_tls_config cfg) /\
    node_tls kp (TransportConfig.server_tls_config cfg) /\
    TransportConfig.keypair cfg = kp /\
    (exists q, QuicConfig.from cfg = Ok q /\
      QuicConfig.client_tls_config q = TransportConfig.client_tls_config cfg /\
      QuicConfig.server_tls_config q = TransportConfig.server_tls_config cfg) /\
    (forall other ck now, 157766400 <= now <= 67090118400 -> exists der key,
      generate other (Ok ck) = Ok (der, key) /\
      FoctetCertificateVerifier.verify_server_cert
        (verifier (TransportConfig.client_tls_config cfg)) now der [] = Ok tt) in
  (exists cfg, TransportConfig.new kp (Ok k1) (Ok k2) = Ok cfg /\ good cfg) /\
  (exists cfg, TransportConfig.set_keypair old kp (Ok k1) (Ok k2) = Ok cfg /\ good cfg).
Proof.
  intros good. destruct (make_client_config_node kp k1) as (cc & Hcc & Hc).
  destruct (make_server_config_node kp k2) as (sc & Hsc & Hs).
  assert (Hgood : forall cfg, TransportConfig.client_tls_config cfg = cc ->
    TransportConfig.server_tls_config cfg = sc -> TransportConfig.keypair cfg = kp -> good cfg).
  { intros cfg E1 E2 E3. unfold good. rewrite E1, E2. split_and!; try done.
    - unfold QuicConfig.from. rewrite E1, E2.
      rewrite !quic_tls_initial_suite by (eapply node_tls_suite; done). simpl.
      destruct (TransportConfig.mtu_upper_bound cfg), (TransportConfig.enable_mtu_discovery cfg)
        as [[]|]; by eexists.
    - intros other ck now Hnow. destruct (generate_presented other ck) as (der & Hg & Hv).
      exists der, (serialize_der ck). split; [done|].
      unfold FoctetCertificateVerifier.verify_server_cert. rewrite Hv by done. simpl.
      by rewrite (node_tls_any _ _ Hc). }
  unfold TransportConfig.new, TransportConfig.set_keypair. rewrite Hcc, Hsc. cbn [outcome_bind].
  split; eexists; (split; [reflexivity|]); by apply Hgood.
Qed.

(** ** Witnesses *)

#[local] Existing Instance two_keys.
#[local] Existing Instance two_keys_laws.
#[local] Existing Instance letters_base32.
#[local] Existing Instance demo_certs.
#[local] Existing Instance demo_certs_laws.

#[local] Instance demo_quinn : QuinnLib := {|
  quic_tls_try_from := fun cfg =>
    if existsb (fun s => match s with TLS13_AES_128_GCM_SHA256 => true | _ => false end)
         (cipher_suites cfg)
    then Ok cfg else Err (Anyhow "no initial cipher suite")
|}.

#[local] Instance demo_quinn_laws : QuinnLaws.
Proof.
  split. intros cfg Hin. simpl. rewrite (proj2 (existsb_exists _ _)); [done|].
  eexists. split; [by apply list_elem_of_In|done].
Qed.

Definition demo_config : TransportConfig.t :=
  TransportConfig.mk 0 0 0 0 0 (Some 1400) (Some false) None 1 None DefaultResolver
    (demo_client None) (demo_client None) demo_keypair.

Lemma transport_config_identity_witness :
  exists cfg, TransportConfig.new demo_keypair (Ok (tt : @CertKey demo_certs)) (Ok (tt : @CertKey demo_certs)) = Ok cfg /\
    TransportConfig.keypair cfg = demo_keypair.
Proof.
  destruct (transport_config_identity demo_keypair (tt : @CertKey demo_certs)
    (tt : @CertKey demo_certs) demo_config) as [(cfg & Hcfg & _ & _ & Hkp & _) _].
  exists cfg. split; [exact Hcfg|exact Hkp].
Defined.
