(* ===== verification/Ids.v ===== *)
(** * Identifiers

    The numeric identifiers of foctet-core: [StreamId] and [OperationId]
    (stream.rs), [SessionId] and [Direction] (connection.rs), [ListenerId]
    (transport.rs), and the reserved values of default.rs and of foctet-mux.  Each is a newtype over [u32]. *)

From S2P Require Import Prelude.

Local Open Scope Z_scope.

Module StreamId.

(** foctet-core/src/stream.rs:4-5, [StreamId]. *)
Record t : Type := mk { val : Z }.

(** foctet-core/src/stream.rs:8-10, [StreamId::new]. *)
Definition new (id : Z) : t := mk id.

(** foctet-core/src/stream.rs:11-13, [StreamId::id]. *)
Definition id (self : t) : Z := val self.

(** foctet-core/src/stream.rs:14-16, [StreamId::next]. *)
Definition next (self : t) : t :=
  mk (default 0 (checked_add_u32 (val self) 1)).

(** foctet-core/src/stream.rs:17-22, [StreamId::fetch_add]: the updated
    receiver and the returned previous value. *)
Definition fetch_add (self : t) (n : Z) : t * t :=
  let old := val self in
  (mk (default 0 (checked_add_u32 (val self) n)), mk old).

#[global] Instance t_eq_dec : EqDecision t.
Proof. solve_decision. Defined.

#[global] Program Instance t_countable : Countable t :=
  inj_countable' val mk _.
Next Obligation. by intros []. Qed.

(** A [StreamId] holds a [u32]. *)
Definition wf (self : t) : bool := is_u32 (val self).

End StreamId.

Module OperationId.

(** foctet-core/src/stream.rs:33-34, [OperationId]. *)
Record t : Type := mk { val : Z }.

(** foctet-core/src/stream.rs:37-39, [OperationId::new]. *)
Definition new (id : Z) : t := mk id.

(** foctet-core/src/stream.rs:40-42, [OperationId::id]. *)
Definition id (self : t) : Z := val self.

(** foctet-core/src/stream.rs:43-45, [OperationId::next]. *)
Definition next (self : t) : t :=
  mk (default 0 (checked_add_u32 (val self) 1)).

(** foctet-core/src/stream.rs:46-51, [OperationId::fetch_add]. *)
Definition fetch_add (self : t) (n : Z) : t * t :=
  let old := val self in
  (mk (default 0 (checked_add_u32 (val self) n)), mk old).

#[global] Instance t_eq_dec : EqDecision t.
Proof. solve_decision. Defined.

Definition wf (self : t) : bool := is_u32 (val self).

End OperationId.

Module SessionId.

(** foctet-core/src/connection.rs:3-4, [SessionId]. *)
Record t : Type := mk { val : Z }.

(** foctet-core/src/connection.rs:7-9, [SessionId::new]. *)
Definition new (id : Z) : t := mk id.

(** foctet-core/src/connection.rs:10-12, [SessionId::id]. *)
Definition id (self : t) : Z := val self.

#[global] Instance t_eq_dec : EqDecision t.
Proof. solve_decision. Defined.

End SessionId.

(** foctet-core/src/connection.rs:30-36, [Direction]. *)
Inductive Direction : Type :=
| Incoming
| Outgoing.

#[export] Instance Direction_eq_dec : EqDecision Direction.
Proof. solve_decision. Defined.

Module ListenerId.

(** foctet-core/src/transport.rs:11-13, [ListenerId]. *)
Record t : Type := mk { val : Z }.

(** foctet-core/src/transport.rs:9-9, [NEXT_LISTENER_ID]: the initial value
    of the process-wide counter. *)
Definition NEXT_LISTENER_ID : Z := 1.

(** foctet-core/src/transport.rs:16-18, [ListenerId::new]. *)
Definition new (id : Z) : t := mk id.

(** foctet-core/src/transport.rs:19-21, [ListenerId::id]. *)
Definition id (self : t) : Z := val self.

(** foctet-core/src/transport.rs:22-25, [ListenerId::next]: the counter after
    the atomic [fetch_add], which wraps around, and the identifier. *)
Definition next (counter : Z) : Z * t := (as_u32 (counter + 1), mk counter).

(** foctet-core/src/transport.rs:26-31, [ListenerId::fetch_add]. *)
Definition fetch_add (self : t) (n : Z) : t * t :=
  let old := val self in
  (mk (default 0 (checked_add_u32 (val self) n)), mk old).

#[global] Instance t_eq_dec : EqDecision t.
Proof. solve_decision. Defined.

End ListenerId.

(** foctet-mux/src/lib.rs:15-16, [RESERVED_STREAM_ID]. *)
Definition RESERVED_STREAM_ID : StreamId.t := StreamId.mk 0.

(** [k] successive allocations from a [StreamId] counter, and the identifier
    the [k]-th of them returns. *)
Fixpoint allocate (counter : StreamId.t) (k : nat) : StreamId.t :=
  match k with
  | O => counter
  | S k' => (StreamId.fetch_add (allocate counter k') 1).1
  end.

Definition allocated (counter : StreamId.t) (k : nat) : StreamId.t :=
  (StreamId.fetch_add (allocate counter k) 1).2.

(** ** Lemmas *)

Lemma fetch_add_returns (c : StreamId.t) (n : Z) :
  (StreamId.fetch_add c n).2 = c.
Proof. by destruct c. Qed.

Lemma fetch_add_wf (c : StreamId.t) (n : Z) :
  StreamId.wf c = true -> 0 <= n -> StreamId.wf (StreamId.fetch_add c n).1 = true.
Proof.
  unfold StreamId.wf, StreamId.fetch_add, checked_add_u32. simpl.
  intros. case_match; simpl; ints.
Qed.

Lemma fetch_add_step (c : StreamId.t) :
  StreamId.val c < u32_max ->
  StreamId.val (StreamId.fetch_add c 1).1 = StreamId.val c + 1.
Proof.
  intros. unfold StreamId.fetch_add, checked_add_u32. simpl.
  rewrite (proj2 (Z.leb_le _ _)) by lia. done.
Qed.

Lemma fetch_add_wrap (c : StreamId.t) :
  StreamId.val c = u32_max -> (StreamId.fetch_add c 1).1 = RESERVED_STREAM_ID.
Proof.
  intros H. unfold StreamId.fetch_add, checked_add_u32. rewrite H. done.
Qed.

Lemma allocate_val (c : StreamId.t) (k : nat) :
  StreamId.wf c = true ->
  StreamId.val c + Z.of_nat k <= u32_max ->
  StreamId.val (allocate c k) = StreamId.val c + Z.of_nat k.
Proof.
  intros Hc. induction k as [|k IH]; intros Hk; [simpl; lia|].
  cbn [allocate]. rewrite fetch_add_step; rewrite IH; lia.
Qed.

Lemma allocated_val (c : StreamId.t) (k : nat) :
  StreamId.wf c = true ->
  StreamId.val c + Z.of_nat k <= u32_max ->
  StreamId.val (allocated c k) = StreamId.val c + Z.of_nat k.
Proof.
  intros. unfold allocated. rewrite fetch_add_returns. by apply allocate_val.
Qed.

Lemma stream_id_inj (a b : StreamId.t) : StreamId.val a = StreamId.val b -> a = b.
Proof. destruct a as [x], b as [y]. simpl. by intros ->. Qed.

Lemma allocated_wrap (c : StreamId.t) (k : nat) :
  StreamId.wf c = true -> StreamId.val c + Z.of_nat k = u32_max ->
  allocated c (S k) = RESERVED_STREAM_ID.
Proof.
  intros Hc Hk. unfold allocated. rewrite fetch_add_returns. cbn [allocate].
  unfold StreamId.fetch_add. cbn [fst]. rewrite allocate_val by (done || lia). by rewrite Hk.
Qed.

(** ** Properties *)

(** C37: A counter that starts above the reserved identifier hands out distinct
    identifiers, none of them the reserved one, for as long as the 32 bits last;
    the next one after that is the reserved identifier 0. *)
Theorem stream_ids_fresh_until_wrap (c : StreamId.t)
    (Hwf : StreamId.wf c = true) (Hpos : 0 < StreamId.val c) :
  (forall j k : nat, StreamId.val c + Z.of_nat j <= u32_max ->
     StreamId.val c + Z.of_nat k <= u32_max ->
     allocated c j = allocated c k -> j = k) /\
  (forall k : nat, StreamId.val c + Z.of_nat k <= u32_max ->
     allocated c k <> RESERVED_STREAM_ID) /\
  (forall k : nat, StreamId.val c + Z.of_nat k = u32_max ->
     allocated c (S k) = RESERVED_STREAM_ID).
Proof.
  split_and!.
  - intros j k Hj Hk E. apply (f_equal StreamId.val) in E.
    rewrite !allocated_val in E by done. lia.
  - intros k Hk E. apply (f_equal StreamId.val) in E.
    rewrite allocated_val in E by done. simpl in E. lia.
  - intros k Hk. by apply allocated_wrap.
Qed.

Lemma stream_ids_fresh_until_wrap_witness :
  allocated (StreamId.mk 1) 3 <> allocated (StreamId.mk 1) 4 /\
  allocated (StreamId.mk (u32_max - 2)) 3 = RESERVED_STREAM_ID.
Proof.
  split.
  - intros E. discriminate (proj1 (stream_ids_fresh_until_wrap (StreamId.mk 1) eq_refl eq_refl)
      3%nat 4%nat ltac:(vm_compute; discriminate) ltac:(vm_compute; discriminate) E).
  - exact (proj2 (proj2 (stream_ids_fresh_until_wrap (StreamId.mk (u32_max - 2)) eq_refl eq_refl))
      2%nat eq_refl).
Defined.
