(* ===== verification/Ip.v ===== *)
(** * Addresses and their reachability class

    The address types of the standard library ([std::net]) with the predicates
    the code calls, and foctet-core/src/ip.rs, which classifies an address as
    globally routable. *)

From S2P Require Import Prelude.

Local Open Scope Z_scope.

Module Ipv4Addr.

(** The four octets. *)
Record t : Type := mk { o0 : Z; o1 : Z; o2 : Z; o3 : Z }.

Definition wf (ip : t) : bool :=
  is_u8 (o0 ip) && is_u8 (o1 ip) && is_u8 (o2 ip) && is_u8 (o3 ip).

Definition to_bits (ip : t) : Z :=
  o0 ip * 2 ^ 24 + o1 ip * 2 ^ 16 + o2 ip * 2 ^ 8 + o3 ip.

Definition UNSPECIFIED : t := mk 0 0 0 0.

Definition LOCALHOST : t := mk 127 0 0 1.

Definition is_unspecified (ip : t) : bool :=
  (o0 ip =? 0) && (o1 ip =? 0) && (o2 ip =? 0) && (o3 ip =? 0).

Definition is_loopback (ip : t) : bool := o0 ip =? 127.

Definition is_private (ip : t) : bool :=
  (o0 ip =? 10)
  || ((o0 ip =? 172) && (16 <=? o1 ip) && (o1 ip <=? 31))
  || ((o0 ip =? 192) && (o1 ip =? 168)).

Definition is_link_local (ip : t) : bool := (o0 ip =? 169) && (o1 ip =? 254).

Definition is_broadcast (ip : t) : bool :=
  (o0 ip =? 255) && (o1 ip =? 255) && (o2 ip =? 255) && (o3 ip =? 255).

Definition is_documentation (ip : t) : bool :=
  ((o0 ip =? 192) && (o1 ip =? 0) && (o2 ip =? 2))
  || ((o0 ip =? 198) && (o1 ip =? 51) && (o2 ip =? 100))
  || ((o0 ip =? 203) && (o1 ip =? 0) && (o2 ip =? 113)).

#[global] Instance t_eq_dec : EqDecision t.
Proof. solve_decision. Defined.

End Ipv4Addr.

Module Ipv6Addr.

(** The eight 16-bit segments. *)
Record t : Type := mk {
  s0 : Z; s1 : Z; s2 : Z; s3 : Z; s4 : Z; s5 : Z; s6 : Z; s7 : Z
}.

Definition is_u16 (n : Z) : bool := (0 <=? n) && (n <=? 65535).

Definition wf (ip : t) : bool :=
  is_u16 (s0 ip) && is_u16 (s1 ip) && is_u16 (s2 ip) && is_u16 (s3 ip)
  && is_u16 (s4 ip) && is_u16 (s5 ip) && is_u16 (s6 ip) && is_u16 (s7 ip).

(** [u128::from_be_bytes(ip.octets())]. *)
Definition to_bits (ip : t) : Z :=
  s0 ip * 2 ^ 112 + s1 ip * 2 ^ 96 + s2 ip * 2 ^ 80 + s3 ip * 2 ^ 64
  + s4 ip * 2 ^ 48 + s5 ip * 2 ^ 32 + s6 ip * 2 ^ 16 + s7 ip.

Definition UNSPECIFIED : t := mk 0 0 0 0 0 0 0 0.

Definition LOCALHOST : t := mk 0 0 0 0 0 0 0 1.

Definition is_unspecified (ip : t) : bool := to_bits ip =? 0.

Definition is_loopback (ip : t) : bool := to_bits ip =? 1.

Definition is_unique_local (ip : t) : bool := Z.land (s0 ip) 0xfe00 =? 0xfc00.

Definition is_unicast_link_local (ip : t) : bool := Z.land (s0 ip) 0xffc0 =? 0xfe80.

#[global] Instance t_eq_dec : EqDecision t.
Proof. solve_decision. Defined.

End Ipv6Addr.

Module IpAddr.

Inductive t : Type :=
| V4 (ip : Ipv4Addr.t)
| V6 (ip : Ipv6Addr.t).

Definition is_loopback (ip : t) : bool :=
  match ip with
  | V4 ip => Ipv4Addr.is_loopback ip
  | V6 ip => Ipv6Addr.is_loopback ip
  end.

Definition is_unspecified (ip : t) : bool :=
  match ip with
  | V4 ip => Ipv4Addr.is_unspecified ip
  | V6 ip => Ipv6Addr.is_unspecified ip
  end.

Definition wf (ip : t) : bool :=
  match ip with
  | V4 ip => Ipv4Addr.wf ip
  | V6 ip => Ipv6Addr.wf ip
  end.

#[global] Instance t_eq_dec : EqDecision t.
Proof. solve_decision. Defined.

End IpAddr.

Module SocketAddr.

(** A socket address; the flow information and scope of a V6 address are not
    used by the code. *)
Record t : Type := mk { ip : IpAddr.t; port : Z }.

Definition new (ip : IpAddr.t) (port : Z) : t := mk ip port.

#[global] Instance t_eq_dec : EqDecision t.
Proof. solve_decision. Defined.

End SocketAddr.

(** foctet-core/src/ip.rs:65-71, [is_shared_ipv4]. *)
Definition is_shared_ipv4 (ip : Ipv4Addr.t) : bool :=
  (Ipv4Addr.o0 ip =? 100) && (Z.land (Ipv4Addr.o1 ip) 192 =? 64).

(** foctet-core/src/ip.rs:73-77, [is_benchmarking_ipv4]. *)
Definition is_benchmarking_ipv4 (ip : Ipv4Addr.t) : bool :=
  (Ipv4Addr.o0 ip =? 198) && (Z.land (Ipv4Addr.o1 ip) 0xfe =? 18).

(** foctet-core/src/ip.rs:79-82, [is_reserved_ipv4]. *)
Definition is_reserved_ipv4 (ip : Ipv4Addr.t) : bool :=
  (Z.land (Ipv4Addr.o0 ip) 240 =? 240) && negb (Ipv4Addr.is_broadcast ip).

(** foctet-core/src/ip.rs:84-88, [is_documentation_ipv6]. *)
Definition is_documentation_ipv6 (ip : Ipv6Addr.t) : bool :=
  ((Ipv6Addr.s0 ip =? 0x2001) && (Ipv6Addr.s1 ip =? 0xdb8))
  || ((Ipv6Addr.s0 ip =? 0x3fff) && (0 <=? Ipv6Addr.s1 ip) && (Ipv6Addr.s1 ip <=? 0x0fff)).

(** foctet-core/src/ip.rs:11-29, [is_global_ipv4]. *)
Definition is_global_ipv4 (ip : Ipv4Addr.t) : bool :=
  negb ((Ipv4Addr.o0 ip =? 0)
    || Ipv4Addr.is_private ip
    || is_shared_ipv4 ip
    || Ipv4Addr.is_loopback ip
    || Ipv4Addr.is_link_local ip
    || ((Ipv4Addr.o0 ip =? 192) && (Ipv4Addr.o1 ip =? 0) && (Ipv4Addr.o2 ip =? 0)
        && negb (Ipv4Addr.o3 ip =? 9) && negb (Ipv4Addr.o3 ip =? 10))
    || Ipv4Addr.is_documentation ip
    || is_benchmarking_ipv4 ip
    || is_reserved_ipv4 ip
    || Ipv4Addr.is_broadcast ip).

(** foctet-core/src/ip.rs:31-63, [is_global_ipv6]. *)
Definition is_global_ipv6 (ip : Ipv6Addr.t) : bool :=
  let '(Ipv6Addr.mk a b c d e f g h) := ip in
  negb (Ipv6Addr.is_unspecified ip
    || Ipv6Addr.is_loopback ip
    || ((a =? 0) && (b =? 0) && (c =? 0) && (d =? 0) && (e =? 0) && (f =? 0xffff))
    || ((a =? 0x64) && (b =? 0xff9b) && (c =? 1))
    || ((a =? 0x100) && (b =? 0) && (c =? 0) && (d =? 0))
    || ((a =? 0x2001) && (b <? 0x200)
        && negb ((Ipv6Addr.to_bits ip =? 0x20010001000000000000000000000001)
            || (Ipv6Addr.to_bits ip =? 0x20010001000000000000000000000002)
            || ((a =? 0x2001) && (b =? 3))
            || ((a =? 0x2001) && (b =? 4) && (c =? 0x112))
            || ((a =? 0x2001) && (b >=? 0x20) && (b <=? 0x3f))))
    || (a =? 0x2002)
    || is_documentation_ipv6 ip
    || Ipv6Addr.is_unique_local ip
    || Ipv6Addr.is_unicast_link_local ip).

(** foctet-core/src/ip.rs:3-9, [is_global_ip]. *)
Definition is_global_ip (ip_addr : IpAddr.t) : bool :=
  match ip_addr with
  | IpAddr.V4 ip => is_global_ipv4 ip
  | IpAddr.V6 ip => is_global_ipv6 ip
  end.

(** ** Reference behaviour: address blocks *)

(** An address block: its first address and the length of its prefix. *)
Record block : Type := Block { network : Z; prefix : Z }.

Definition in_block (width : Z) (bits : Z) (b : block) : bool :=
  Z.shiftr bits (width - prefix b) =? Z.shiftr (network b) (width - prefix b).

Definition v4 (a b c d n : Z) : block := Block (Ipv4Addr.to_bits (Ipv4Addr.mk a b c d)) n.

(** The blocks of the IPv4 registry that are not globally reachable, and the
    addresses inside them that are. *)
Definition special_v4 : list block :=
  [v4 0 0 0 0 8; v4 10 0 0 0 8; v4 100 64 0 0 10; v4 127 0 0 0 8; v4 169 254 0 0 16;
   v4 172 16 0 0 12; v4 192 0 0 0 24; v4 192 0 2 0 24; v4 192 168 0 0 16; v4 198 18 0 0 15;
   v4 198 51 100 0 24; v4 203 0 113 0 24; v4 240 0 0 0 4].

Definition reachable_v4 : list block := [v4 192 0 0 9 32; v4 192 0 0 10 32].

Definition v6 (a b c d : Z) (n : Z) : block :=
  Block (Ipv6Addr.to_bits (Ipv6Addr.mk a b c d 0 0 0 0)) n.

(** The same for IPv6. *)
Definition special_v6 : list block :=
  [Block 0 128; Block 1 128; Block 0xffff00000000 96; v6 0x64 0xff9b 1 0 48; v6 0x100 0 0 0 64;
   v6 0x2001 0 0 0 23; v6 0x2001 0xdb8 0 0 32; v6 0x2002 0 0 0 16; v6 0x3fff 0 0 0 20;
   v6 0xfc00 0 0 0 7; v6 0xfe80 0 0 0 10].

Definition reachable_v6 : list block :=
  [Block 0x20010001000000000000000000000001 128; Block 0x20010001000000000000000000000002 128;
   v6 0x2001 3 0 0 32; v6 0x2001 4 0x112 0 48; v6 0x2001 0x20 0 0 28; v6 0x2001 0x30 0 0 28].

Definition in_blocks (width : Z) (special reachable : list block) (bits : Z) : bool :=
  existsb (in_block width bits) special && negb (existsb (in_block width bits) reachable).

(** Whether the registry, given as address blocks, has an address globally
    reachable. *)
Definition registry_global (ip : IpAddr.t) : bool :=
  match ip with
  | IpAddr.V4 ip => negb (in_blocks 32 special_v4 reachable_v4 (Ipv4Addr.to_bits ip))
  | IpAddr.V6 ip => negb (in_blocks 128 special_v6 reachable_v6 (Ipv6Addr.to_bits ip))
  end.

(** ** Lemmas *)

(** A predicate on bytes holds when it holds on each of the 256 values, and
    the same for segments. *)
Lemma u8_all (P : Z -> bool) (x : Z) :
  is_u8 x = true -> forallb (fun n => P (Z.of_nat n)) (seq 0 256) = true -> P x = true.
Proof.
  intros Hx HP. unfold is_u8, u8_max in Hx.
  rewrite forallb_forall in HP. specialize (HP (Z.to_nat x)).
  rewrite Z2Nat.id in HP by lia. apply HP, in_seq. lia.
Qed.

Lemma land_shared (x : Z) :
  is_u8 x = true -> (Z.land x 192 =? 64) = (64 <=? x) && (x <=? 127).
Proof.
  intros Hx. apply eqb_prop.
  apply (u8_all (fun x => eqb (Z.land x 192 =? 64) ((64 <=? x) && (x <=? 127))) x Hx).
  by vm_compute.
Qed.

Lemma land_benchmarking (x : Z) :
  is_u8 x = true -> (Z.land x 0xfe =? 18) = (18 <=? x) && (x <=? 19).
Proof.
  intros Hx. apply eqb_prop.
  apply (u8_all (fun x => eqb (Z.land x 0xfe =? 18) ((18 <=? x) && (x <=? 19))) x Hx).
  by vm_compute.
Qed.

Lemma land_reserved (x : Z) : is_u8 x = true -> (Z.land x 240 =? 240) = (240 <=? x).
Proof.
  intros Hx. apply eqb_prop.
  apply (u8_all (fun x => eqb (Z.land x 240 =? 240) (240 <=? x)) x Hx).
  by vm_compute.
Qed.

(** Membership in a block as a comparison of prefixes. *)
Lemma in_block_div (width bits net n : Z) :
  0 <= width - n ->
  in_block width bits (Block net n) =
  (bits / 2 ^ (width - n) =? net / 2 ^ (width - n)).
Proof. intros H. unfold in_block. simpl. by rewrite !Z.shiftr_div_pow2. Qed.

Lemma in_block_range (width bits net n : Z) :
  0 <= width - n -> net mod 2 ^ (width - n) = 0 ->
  in_block width bits (Block net n) =
  (net <=? bits) && (bits <? net + 2 ^ (width - n)).
Proof.
  intros H Hm. rewrite in_block_div by done.
  assert (0 < 2 ^ (width - n)) by (apply Z.pow_pos_nonneg; lia).
  set (k := 2 ^ (width - n)) in *.
  pose proof (Z.div_mod net k ltac:(lia)). pose proof (Z.div_mod bits k ltac:(lia)).
  pose proof (Z.mod_pos_bound bits k ltac:(lia)).
  apply eq_true_iff_eq. rewrite Z.eqb_eq, andb_true_iff, Z.leb_le, Z.ltb_lt. nia.
Qed.

Ltac block_range := rewrite in_block_range by (vm_compute; first [done | discriminate]).

(** Each IPv4 block in terms of the octets. *)
Ltac octets :=
  intros; unfold v4; block_range; unfold Ipv4Addr.to_bits, is_u8, u8_max in *; cbn in *; lia.

Section octets.

Variables a b c d : Z.
Hypothesis Ha : is_u8 a = true.
Hypothesis Hb : is_u8 b = true.
Hypothesis Hc : is_u8 c = true.
Hypothesis Hd : is_u8 d = true.

Lemma block_8 (n : Z) :
  in_block 32 (Ipv4Addr.to_bits (Ipv4Addr.mk a b c d)) (v4 n 0 0 0 8) = (a =? n).
Proof using All.
  unfold v4. rewrite in_block_div by done.
  unfold Ipv4Addr.to_bits, is_u8, u8_max in *; cbn in *. 
  Z.to_euclidean_division_equations. lia.
Qed.

Lemma block_16 (m n : Z) : is_u8 n = true ->
  in_block 32 (Ipv4Addr.to_bits (Ipv4Addr.mk a b c d)) (v4 m n 0 0 16) = (a =? m) && (b =? n).
Proof using All.
  intros. unfold v4. rewrite in_block_div by done.
  unfold Ipv4Addr.to_bits, is_u8, u8_max in *; cbn in *. 
  Z.to_euclidean_division_equations. lia.
Qed.

Lemma block_24 (m n o : Z) : is_u8 n = true -> is_u8 o = true ->
  in_block 32 (Ipv4Addr.to_bits (Ipv4Addr.mk a b c d)) (v4 m n o 0 24) =
  (a =? m) && (b =? n) && (c =? o).
Proof using All.
  intros. unfold v4. rewrite in_block_div by done.
  unfold Ipv4Addr.to_bits, is_u8, u8_max in *; cbn in *. 
  Z.to_euclidean_division_equations. lia.
Qed.

Lemma block_32 (m n o p : Z) : is_u8 n = true -> is_u8 o = true -> is_u8 p = true ->
  in_block 32 (Ipv4Addr.to_bits (Ipv4Addr.mk a b c d)) (v4 m n o p 32) =
  (a =? m) && (b =? n) && (c =? o) && (d =? p).
Proof using All.
  intros. unfold v4. rewrite in_block_div by done.
  unfold Ipv4Addr.to_bits, is_u8, u8_max in *; cbn in *. rewrite !Z.div_1_r. lia.
Qed.

(** The blocks that end inside an octet. *)
Lemma block_shared :
  in_block 32 (Ipv4Addr.to_bits (Ipv4Addr.mk a b c d)) (v4 100 64 0 0 10) =
  (a =? 100) && ((64 <=? b) && (b <=? 127)).
Proof using All. octets. Qed.

Lemma block_private :
  in_block 32 (Ipv4Addr.to_bits (Ipv4Addr.mk a b c d)) (v4 172 16 0 0 12) =
  (a =? 172) && (16 <=? b) && (b <=? 31).
Proof using All. octets. Qed.

Lemma block_benchmarking :
  in_block 32 (Ipv4Addr.to_bits (Ipv4Addr.mk a b c d)) (v4 198 18 0 0 15) =
  (a =? 198) && ((18 <=? b) && (b <=? 19)).
Proof using All. octets. Qed.

Lemma block_4 :
  in_block 32 (Ipv4Addr.to_bits (Ipv4Addr.mk a b c d)) (v4 240 0 0 0 4) = (240 <=? a).
Proof using All. octets. Qed.

End octets.

(** Case analysis on the first octet or segment. *)
Ltac first_is x k := destruct (Z.eqb_spec x k) as [->|?]; [cbn; lia|cbn].

Lemma special_v4_octets (ip : Ipv4Addr.t) :
  Ipv4Addr.wf ip = true ->
  negb (is_global_ipv4 ip) = in_blocks 32 special_v4 reachable_v4 (Ipv4Addr.to_bits ip).
Proof.
  destruct ip as [a b c d]. unfold Ipv4Addr.wf. cbn [Ipv4Addr.o0 Ipv4Addr.o1 Ipv4Addr.o2 Ipv4Addr.o3].
  rewrite !andb_true_iff. intros [[[Ha Hb] Hc] Hd].
  unfold in_blocks, special_v4, reachable_v4. cbn [existsb].
  rewrite !block_8, !block_16, !block_24, !block_32, block_shared, block_private,
    block_benchmarking, block_4 by done.
  unfold is_global_ipv4, is_shared_ipv4, is_benchmarking_ipv4, is_reserved_ipv4. cbn.
  rewrite land_shared, land_benchmarking, land_reserved by done.
  unfold Ipv4Addr.is_private, Ipv4Addr.is_loopback, Ipv4Addr.is_link_local,
    Ipv4Addr.is_documentation, Ipv4Addr.is_broadcast. cbn.
  first_is a 0. first_is a 10. first_is a 100. first_is a 127. first_is a 169. first_is a 172.
  first_is a 192. first_is a 198. first_is a 203. lia.
Qed.

(** The leading bits of a segment. *)
Lemma land_leading (x m n : Z) :
  Ipv6Addr.is_u16 x = true -> 0 <= n -> m = Z.ldiff (Z.ones 16) (Z.ones n) ->
  Z.land x m = x / 2 ^ n * 2 ^ n.
Proof.
  unfold Ipv6Addr.is_u16. intros Hx Hn ->.
  rewrite <- Z.shiftl_mul_pow2, <- Z.shiftr_div_pow2, <- Z.ldiff_ones_r by done.
  rewrite !Z.ldiff_land, Z.land_assoc. f_equal.
  rewrite Z.land_ones by done. apply Z.mod_small. lia.
Qed.

Lemma land_unique_local (x : Z) :
  Ipv6Addr.is_u16 x = true -> (Z.land x 0xfe00 =? 0xfc00) = (0xfc00 <=? x) && (x <=? 0xfdff).
Proof.
  intros Hx. rewrite (land_leading x _ 9) by done. unfold Ipv6Addr.is_u16 in Hx.
  change (2 ^ 9) with 512. Z.to_euclidean_division_equations. lia.
Qed.

Lemma land_link_local (x : Z) :
  Ipv6Addr.is_u16 x = true -> (Z.land x 0xffc0 =? 0xfe80) = (0xfe80 <=? x) && (x <=? 0xfebf).
Proof.
  intros Hx. rewrite (land_leading x _ 6) by done. unfold Ipv6Addr.is_u16 in Hx.
  change (2 ^ 6) with 64. Z.to_euclidean_division_equations. lia.
Qed.

(** Each IPv6 block in terms of the segments. *)
Ltac segments :=
  unfold v6; block_range; unfold Ipv6Addr.to_bits, Ipv6Addr.is_u16 in *; cbn in *; lia.

Section segments.

Variables a b c d e f g h : Z.
Hypothesis Ha : Ipv6Addr.is_u16 a = true.
Hypothesis Hb : Ipv6Addr.is_u16 b = true.
Hypothesis Hc : Ipv6Addr.is_u16 c = true.
Hypothesis Hd : Ipv6Addr.is_u16 d = true.
Hypothesis He : Ipv6Addr.is_u16 e = true.
Hypothesis Hf : Ipv6Addr.is_u16 f = true.
Hypothesis Hg : Ipv6Addr.is_u16 g = true.
Hypothesis Hh : Ipv6Addr.is_u16 h = true.

Let bits := Ipv6Addr.to_bits (Ipv6Addr.mk a b c d e f g h).

Lemma block_128 (n : Z) : in_block 128 bits (Block n 128) = (bits =? n).
Proof. rewrite in_block_div by done. by rewrite !Z.div_1_r. Qed.

Lemma block_mapped :
  in_block 128 bits (Block 0xffff00000000 96) =
  ((a =? 0) && (b =? 0) && (c =? 0) && (d =? 0) && (e =? 0) && (f =? 0xffff)).
Proof using All. unfold bits. segments. Qed.

Lemma block_translat :
  in_block 128 bits (v6 0x64 0xff9b 1 0 48) =
  ((a =? 0x64) && (b =? 0xff9b) && (c =? 1)).
Proof using All. unfold bits. segments. Qed.

Lemma block_discard :
  in_block 128 bits (v6 0x100 0 0 0 64) =
  ((a =? 0x100) && (b =? 0) && (c =? 0) && (d =? 0)).
Proof using All. unfold bits. segments. Qed.

Lemma block_ietf :
  in_block 128 bits (v6 0x2001 0 0 0 23) =
  ((a =? 0x2001) && (b <? 0x200)).
Proof using All. unfold bits. segments. Qed.

Lemma block_db8 :
  in_block 128 bits (v6 0x2001 0xdb8 0 0 32) =
  ((a =? 0x2001) && (b =? 0xdb8)).
Proof using All. unfold bits. segments. Qed.

Lemma block_sixtofour :
  in_block 128 bits (v6 0x2002 0 0 0 16) =
  (a =? 0x2002).
Proof using All. unfold bits. segments. Qed.

Lemma block_fff :
  in_block 128 bits (v6 0x3fff 0 0 0 20) =
  ((a =? 0x3fff) && (0 <=? b) && (b <=? 0x0fff)).
Proof using All. unfold bits. segments. Qed.

Lemma block_unique_local :
  in_block 128 bits (v6 0xfc00 0 0 0 7) =
  ((0xfc00 <=? a) && (a <=? 0xfdff)).
Proof using All. unfold bits. segments. Qed.

Lemma block_link_local :
  in_block 128 bits (v6 0xfe80 0 0 0 10) =
  ((0xfe80 <=? a) && (a <=? 0xfebf)).
Proof using All. unfold bits. segments. Qed.

Lemma block_amt :
  in_block 128 bits (v6 0x2001 3 0 0 32) =
  ((a =? 0x2001) && (b =? 3)).
Proof using All. unfold bits. segments. Qed.

Lemma block_as112 :
  in_block 128 bits (v6 0x2001 4 0x112 0 48) =
  ((a =? 0x2001) && (b =? 4) && (c =? 0x112)).
Proof using All. unfold bits. segments. Qed.

Lemma block_orchid :
  in_block 128 bits (v6 0x2001 0x20 0 0 28) =
  ((a =? 0x2001) && (0x20 <=? b) && (b <=? 0x2f)).
Proof using All. unfold bits. segments. Qed.

Lemma block_drone :
  in_block 128 bits (v6 0x2001 0x30 0 0 28) =
  ((a =? 0x2001) && (0x30 <=? b) && (b <=? 0x3f)).
Proof using All. unfold bits. segments. Qed.

Lemma bits_pcp :
  (bits =? 0x20010001000000000000000000000001) =
  (a =? 0x2001) && (b =? 1) && (c =? 0) && (d =? 0) && (e =? 0) && (f =? 0) && (g =? 0) && (h =? 1).
Proof using All. unfold bits, Ipv6Addr.to_bits, Ipv6Addr.is_u16 in *; cbn in *; lia. Qed.

Lemma bits_turn :
  (bits =? 0x20010001000000000000000000000002) =
  (a =? 0x2001) && (b =? 1) && (c =? 0) && (d =? 0) && (e =? 0) && (f =? 0) && (g =? 0) && (h =? 2).
Proof using All. unfold bits, Ipv6Addr.to_bits, Ipv6Addr.is_u16 in *; cbn in *; lia. Qed.

Lemma bits_zero :
  (bits =? 0) =
  (a =? 0) && (b =? 0) && (c =? 0) && (d =? 0) && (e =? 0) && (f =? 0) && (g =? 0) && (h =? 0).
Proof using All. unfold bits, Ipv6Addr.to_bits, Ipv6Addr.is_u16 in *; cbn in *; lia. Qed.

Lemma bits_one :
  (bits =? 1) =
  (a =? 0) && (b =? 0) && (c =? 0) && (d =? 0) && (e =? 0) && (f =? 0) && (g =? 0) && (h =? 1).
Proof using All. unfold bits, Ipv6Addr.to_bits, Ipv6Addr.is_u16 in *; cbn in *; lia. Qed.

End segments.

Lemma special_v6_segments (ip : Ipv6Addr.t) :
  Ipv6Addr.wf ip = true ->
  negb (is_global_ipv6 ip) = in_blocks 128 special_v6 reachable_v6 (Ipv6Addr.to_bits ip).
Proof.
  destruct ip as [a b c d e f g h]. unfold Ipv6Addr.wf.
  cbn [Ipv6Addr.s0 Ipv6Addr.s1 Ipv6Addr.s2 Ipv6Addr.s3 Ipv6Addr.s4 Ipv6Addr.s5 Ipv6Addr.s6 Ipv6Addr.s7].
  rewrite !andb_true_iff. intros [[[[[[[Ha Hb] Hc] Hd] He] Hf] Hg] Hh].
  unfold in_blocks, special_v6, reachable_v6. cbn [existsb].
  rewrite !block_128, block_mapped, block_translat, block_discard, block_ietf, block_db8, block_sixtofour, block_fff, block_unique_local, block_link_local, block_amt, block_as112, block_orchid, block_drone by done.
  unfold is_global_ipv6, is_documentation_ipv6, Ipv6Addr.is_unspecified,
    Ipv6Addr.is_loopback, Ipv6Addr.is_unique_local, Ipv6Addr.is_unicast_link_local.
  cbn [Ipv6Addr.s0 Ipv6Addr.s1]. rewrite land_unique_local, land_link_local by done.
  rewrite !bits_zero, !bits_one, !bits_pcp, !bits_turn by done.
  unfold Ipv6Addr.is_u16 in *.
  first_is a 0. 
  first_is a 0x64. first_is a 0x100. first_is a 0x2001. first_is a 0x2002.
  first_is a 0x3fff. lia.
Qed.

(** ** Properties *)

(** C38: The octet and segment tests of [is_global_ip] decide exactly the
    special-purpose address blocks: an address is global unless it lies in one
    of the listed blocks and in none of the globally reachable blocks inside
    them. *)
Theorem is_global_ip_registry (ip : IpAddr.t) (Hwf : IpAddr.wf ip = true) :
  is_global_ip ip = registry_global ip.
Proof.
  destruct ip as [ip|ip]; cbn in *;
    rewrite <- ?special_v4_octets, <- ?special_v6_segments, negb_involutive by done; done.
Qed.

Lemma is_global_ip_registry_witness :
  is_global_ip (IpAddr.V4 (Ipv4Addr.mk 192 0 0 9)) = true /\
  is_global_ip (IpAddr.V6 (Ipv6Addr.mk 0x2001 0x1ff 0 0 0 0 0 1)) = false.
Proof.
  split.
  - exact (is_global_ip_registry (IpAddr.V4 (Ipv4Addr.mk 192 0 0 9)) eq_refl).
  - exact (is_global_ip_registry (IpAddr.V6 (Ipv6Addr.mk 0x2001 0x1ff 0 0 0 0 0 1)) eq_refl).
Defined.
