(* ===== verification/Node.v ===== *)
(** * Node addresses

    foctet-core/src/addr/node.rs, content.rs, id.rs and the transport kinds of
    transport.rs: what a node publishes to be reached.  An address of a node is
    a [StackAddr] of the [stackaddr] library, a stack of protocols such as
    IPv4/UDP/QUIC; [StackAddrLib] is what the sources call of that library.

    A [BTreeSet] of addresses is the list of them in the order of the set, and a
    [HashSet] the list of them in the order it is iterated in; neither has
    duplicates. *)

From stdpp Require Import sorting.
From S2P Require Import Prelude Text Key Ip.

Local Open Scope Z_scope.
Local Open Scope outcome_scope.

(** [stackaddr::Protocol] and [stackaddr::segment::protocol::TransportProtocol],
    with one constructor for the variants that the sources do not name. *)
Module Protocol.

Inductive t : Type :=
| Ip4 (ip : Ipv4Addr.t)
| Ip6 (ip : Ipv6Addr.t)
| Dns (name : string)
| Dns4 (name : string)
| Dns6 (name : string)
| Tcp (port : Z)
| Udp (port : Z)
| Tls
| Quic
| Other (name : string).

#[global] Instance t_eq_dec : EqDecision t.
Proof. solve_decision. Defined.

End Protocol.

Module TransportProtocol.

Inductive t : Type :=
| Tcp (port : Z)
| Udp (port : Z)
| TlsOverTcp (port : Z)
| Quic (port : Z)
| Other (name : string).

End TransportProtocol.

(** [stackaddr::StackAddr].  [addr_resolved] tells whether the address has an IP
    address rather than a name, and [addr_resolve] puts one in place of the
    name. *)
Class StackAddrLib : Type := {
  StackAddr : Type;
  StackAddr_eq_dec :: EqDecision StackAddr;
  StackAddr_le : StackAddr -> StackAddr -> Prop;
  StackAddr_le_dec :: RelDecision StackAddr_le;
  addr_empty : StackAddr;
  with_protocol : StackAddr -> Protocol.t -> StackAddr;
  with_node_id : StackAddr -> bytes -> StackAddr;
  addr_ip : StackAddr -> option IpAddr.t;
  addr_transport : StackAddr -> option TransportProtocol.t;
  addr_socket_addr : StackAddr -> option SocketAddr.t;
  addr_resolved : StackAddr -> bool;
  addr_name : StackAddr -> option string;
  addr_dns : StackAddr -> option Protocol.t;
  addr_resolve : StackAddr -> IpAddr.t -> StackAddr
}.

(** The protocol of an IP address. *)
Definition ip_protocol (ip : IpAddr.t) : Protocol.t :=
  match ip with
  | IpAddr.V4 ip => Protocol.Ip4 ip
  | IpAddr.V6 ip => Protocol.Ip6 ip
  end.

Section stacks.

Context `{StackAddrLib}.

(** [StackAddr::with_ip]. *)
Definition with_ip (a : StackAddr) (ip : IpAddr.t) : StackAddr := with_protocol a (ip_protocol ip).

(** The stacks that foctet builds: an IP address, then UDP and QUIC, or TCP and
    TLS. *)
Definition quic_stack (ip : IpAddr.t) (port : Z) : StackAddr :=
  with_protocol (with_protocol (with_ip addr_empty ip) (Protocol.Udp port)) Protocol.Quic.

Definition tls_stack (ip : IpAddr.t) (port : Z) : StackAddr :=
  with_protocol (with_protocol (with_ip addr_empty ip) (Protocol.Tcp port)) Protocol.Tls.

(** Collecting addresses into a [BTreeSet]: each once, in their order. *)
Definition btree_set (l : list StackAddr) : list StackAddr :=
  merge_sort StackAddr_le (remove_dups l).

Lemma elem_of_btree_set (l : list StackAddr) (a : StackAddr) : a ∈ btree_set l <-> a ∈ l.
Proof. unfold btree_set. by rewrite merge_sort_Permutation, elem_of_remove_dups. Qed.

End stacks.

(** What [stackaddr] documents of the accessors, on the stacks above. *)
Class StackAddrLaws `{StackAddrLib} : Prop := {
  quic_stack_ip : forall ip port, addr_ip (quic_stack ip port) = Some ip;
  quic_stack_transport : forall ip port,
    addr_transport (quic_stack ip port) = Some (TransportProtocol.Quic port);
  tls_stack_ip : forall ip port, addr_ip (tls_stack ip port) = Some ip;
  tls_stack_transport : forall ip port,
    addr_transport (tls_stack ip port) = Some (TransportProtocol.TlsOverTcp port);
  with_node_id_transport : forall a id, addr_transport (with_node_id a id) = addr_transport a;
  quic_stack_socket_addr : forall ip port,
    addr_socket_addr (quic_stack ip port) = Some (SocketAddr.new ip port);
  tls_stack_socket_addr : forall ip port,
    addr_socket_addr (tls_stack ip port) = Some (SocketAddr.new ip port)
}.

Module TransportKind.

(** foctet-core/src/transport.rs:40-45, [TransportKind]. *)
Inductive t : Type :=
| Quic
| TlsOverTcp.

#[global] Instance t_eq_dec : EqDecision t.
Proof. solve_decision. Defined.

#[global] Program Instance t_countable : Countable t :=
  inj_countable' (fun k => match k with Quic => true | TlsOverTcp => false end)
    (fun b : bool => if b then Quic else TlsOverTcp) _.
Next Obligation. by intros []. Qed.

(** foctet-core/src/transport.rs:48-56, [TransportKind::from_protocol]. *)
Definition from_protocol (proto : TransportProtocol.t) : outcome error t :=
  match proto with
  | TransportProtocol.Udp _ => Ok Quic
  | TransportProtocol.Quic _ => Ok Quic
  | TransportProtocol.Tcp _ => Ok TlsOverTcp
  | TransportProtocol.TlsOverTcp _ => Ok TlsOverTcp
  | TransportProtocol.Other _ => Err (Anyhow "Unsupported transport protocol")
  end.

End TransportKind.

Module UuidV4.

(** foctet-core/src/id.rs:9-9, [UUID_V4_BYTES_LEN]. *)
Definition UUID_V4_BYTES_LEN : Z := 16.

(** foctet-core/src/id.rs:15-18, [UuidV4]. *)
Record t : Type := mk { val : bytes }.

(** A [UuidV4] holds an array of 16 bytes. *)
Definition wf (self : t) : bool := len (val self) =? UUID_V4_BYTES_LEN.

(** foctet-core/src/id.rs:22-27, [UuidV4::new]; [unique_id] is the 16 bytes of
    the identifier that the [uuid] library draws. *)
Definition new (unique_id : bytes) : outcome error t :=
  let? id := copy_from_slice UUID_V4_BYTES_LEN unique_id in Ok (mk id).

(** foctet-core/src/id.rs:29-31, [UuidV4::zero]. *)
Definition zero : t := mk (replicate (Z.to_nat UUID_V4_BYTES_LEN) (byte_of 0)).

(** foctet-core/src/id.rs:36-47, [UuidV4::from_bytes]. *)
Definition from_bytes (bs : bytes) : outcome error t :=
  if negb (len bs =? UUID_V4_BYTES_LEN) then
    Err (Anyhow ("Invalid length for UuidV4: expected " +:+ pretty UUID_V4_BYTES_LEN +:+
      ", got " +:+ pretty (len bs)))
  else let? id := copy_from_slice UUID_V4_BYTES_LEN bs in Ok (mk id).

(** foctet-core/src/id.rs:48-50, [UuidV4::to_bytes]. *)
Definition to_bytes (self : t) : bytes := val self.

(** foctet-core/src/id.rs:52-57, [UuidV4::from_hex]. *)
Definition from_hex `{Hex} (encoded : string) : outcome error t :=
  let? bs := hex_decode encoded in
  let? id := copy_from_slice UUID_V4_BYTES_LEN bs in
  Ok (mk id).

(** foctet-core/src/id.rs:59-61, [UuidV4::to_hex]. *)
Definition to_hex `{Hex} (self : t) : string := hex_encode (val self).

(** foctet-core/src/id.rs:63-65, [UuidV4::is_zero]. *)
Definition is_zero (self : t) : bool := all_zero (val self).

(** foctet-core/src/id.rs:67-74, [UuidV4::from_base32]. *)
Definition from_base32 `{Base32} `{Bincode t} (encoded : string) : outcome error t :=
  of_base32 encoded.

(** foctet-core/src/id.rs:76-82, [UuidV4::to_base32]. *)
Definition to_base32 `{Base32} `{Bincode t} (self : t) : outcome error string := base32_of self.

End UuidV4.

Module RelayAddr.

(** foctet-core/src/addr/node.rs:78-84, [RelayAddr]. *)
Record t `{StackAddrLib} : Type := mk {
  node_id : NodeId;
  addresses : list StackAddr
}.

(** foctet-core/src/addr/node.rs:88-98, [RelayAddr::from_base32]. *)
Definition from_base32 `{StackAddrLib} `{Base32} `{Bincode t} (encoded : string) : outcome error t :=
  of_base32 encoded.

(** foctet-core/src/addr/node.rs:100-103, [RelayAddr::to_base32]. *)
Definition to_base32 `{StackAddrLib} `{Base32} `{Bincode t} (self : t) : outcome error string :=
  base32_of self.

End RelayAddr.

Module NodeAddr.

(** foctet-core/src/addr/node.rs:10-20, [NodeAddr]. *)
Record t `{StackAddrLib} : Type := mk {
  node_id : NodeId;
  addresses : list StackAddr;
  relay_addr : option RelayAddr.t
}.

(** foctet-core/src/addr/node.rs:24-34, [NodeAddr::from_base32]. *)
Definition from_base32 `{StackAddrLib} `{Base32} `{Bincode t} (encoded : string) : outcome error t :=
  of_base32 encoded.

(** foctet-core/src/addr/node.rs:36-39, [NodeAddr::to_base32]. *)
Definition to_base32 `{StackAddrLib} `{Base32} `{Bincode t} (self : t) : outcome error string :=
  base32_of self.

Section addresses.

Context `{StackAddrLib}.

(** foctet-core/src/addr/node.rs:43-73, [NodeAddr::get_direct_addrs]: the loop. *)
Fixpoint direct_addrs_loop (transport_id : TransportKind.t) (allow_loopback : bool)
    (addresses : list StackAddr) (addrs : list StackAddr) : list StackAddr :=
  match addresses with
  | [] => addrs
  | addr :: rest =>
      let continue := direct_addrs_loop transport_id allow_loopback rest in
      match addr_ip addr with
      | Some ip =>
          if negb allow_loopback && IpAddr.is_loopback ip then continue addrs
          else
            match transport_id with
            | TransportKind.Quic =>
                match addr_transport addr with
                | Some (TransportProtocol.Quic _) | Some (TransportProtocol.Udp _) =>
                    continue (addrs ++ [addr])
                | _ => continue addrs
                end
            | TransportKind.TlsOverTcp =>
                match addr_transport addr with
                | Some (TransportProtocol.Tcp _) | Some (TransportProtocol.TlsOverTcp _) =>
                    continue (addrs ++ [addr])
                | _ => continue addrs
                end
            end
      | None => continue addrs
      end
  end.

(** foctet-core/src/addr/node.rs:41-74, [NodeAddr::get_direct_addrs]. *)
Definition get_direct_addrs (self : t) (transport_id : TransportKind.t) (allow_loopback : bool) :
    list StackAddr :=
  direct_addrs_loop transport_id allow_loopback (addresses self) [].

End addresses.

End NodeAddr.

Module NodePair.

(** foctet-core/src/addr/node.rs:106-110, [NodePair]. *)
Record t : Type := mk { src : NodeId; dst : NodeId }.

(** foctet-core/src/addr/node.rs:113-115, [NodePair::new]. *)
Definition new (src dst : NodeId) : t := mk src dst.

End NodePair.

(** foctet-core/src/content.rs:7-9, [ContentId]. *)
Definition ContentId : Type := UuidV4.t.

Module TransferTicket.

(** foctet-core/src/content.rs:11-15, [TransferTicket]. *)
Record t `{StackAddrLib} : Type := mk {
  node_addr : NodeAddr.t;
  content_id : ContentId
}.

(** foctet-core/src/content.rs:19-24, [TransferTicket::new]. *)
Definition new `{StackAddrLib} (node_addr : NodeAddr.t) (content_id : UuidV4.t) : t :=
  mk _ node_addr content_id.

(** foctet-core/src/content.rs:26-33, [TransferTicket::from_base32]. *)
Definition from_base32 `{StackAddrLib} `{Base32} `{Bincode t} (encoded : string) : outcome error t :=
  of_base32 encoded.

(** foctet-core/src/content.rs:35-41, [TransferTicket::to_base32]. *)
Definition to_base32 `{StackAddrLib} `{Base32} `{Bincode t} (self : t) : outcome error string :=
  base32_of self.

End TransferTicket.

(** ** Lemmas *)

(** The addresses that a transport can use. *)
Definition usable `{StackAddrLib} (kind : TransportKind.t) (allow_loopback : bool) (a : StackAddr) : bool :=
  match addr_ip a, addr_transport a with
  | Some ip, Some p =>
      (allow_loopback || negb (IpAddr.is_loopback ip)) &&
      match TransportKind.from_protocol p with Ok k => bool_decide (k = kind) | _ => false end
  | _, _ => false
  end.

Lemma direct_addrs_loop_filter `{StackAddrLib} (kind : TransportKind.t) (lo : bool)
    (l acc : list StackAddr) :
  NodeAddr.direct_addrs_loop kind lo l acc = acc ++ filter (fun a => usable kind lo a = true) l.
Proof.
  revert acc. induction l as [|a l IH]; intros acc; [by rewrite app_nil_r|].
  cbn [NodeAddr.direct_addrs_loop]. rewrite filter_cons, !IH, <- app_assoc.
  case_decide as Hu; unfold usable in Hu.
  - destruct (addr_ip a) as [ip|]; [|done]. destruct (addr_transport a) as [p|]; [|done].
    by destruct lo, (IpAddr.is_loopback ip), kind, p.
  - destruct (addr_ip a) as [ip|]; [|done].
    destruct (addr_transport a) as [p|]; destruct lo, (IpAddr.is_loopback ip), kind; try done;
      by destruct p.
Qed.

Lemma get_direct_addrs_filter `{StackAddrLib} (self : NodeAddr.t) (kind : TransportKind.t) (lo : bool) :
  NodeAddr.get_direct_addrs self kind lo =
  filter (fun a => usable kind lo a = true) (NodeAddr.addresses self).
Proof. unfold NodeAddr.get_direct_addrs. by rewrite direct_addrs_loop_filter. Qed.

(** ** Addresses as lists of protocols, with a node identifier *)

Definition protocol_ip (p : Protocol.t) : option IpAddr.t :=
  match p with
  | Protocol.Ip4 ip => Some (IpAddr.V4 ip)
  | Protocol.Ip6 ip => Some (IpAddr.V6 ip)
  | _ => None
  end.

Definition protocol_port (p : Protocol.t) : option Z :=
  match p with Protocol.Tcp port | Protocol.Udp port => Some port | _ => None end.

Definition protocol_dns (p : Protocol.t) : option string :=
  match p with
  | Protocol.Dns name | Protocol.Dns4 name | Protocol.Dns6 name => Some name
  | _ => None
  end.

Definition list_transport (l : list Protocol.t) : option TransportProtocol.t :=
  match last l with
  | Some Protocol.Quic => TransportProtocol.Quic <$> head (omap protocol_port l)
  | Some Protocol.Tls => TransportProtocol.TlsOverTcp <$> head (omap protocol_port l)
  | Some (Protocol.Udp port) => Some (TransportProtocol.Udp port)
  | Some (Protocol.Tcp port) => Some (TransportProtocol.Tcp port)
  | _ => None
  end.

Definition list_stacks : StackAddrLib := {|
  StackAddr := list Protocol.t * option bytes;
  StackAddr_eq_dec := _;
  StackAddr_le := fun _ _ => True;
  StackAddr_le_dec := fun _ _ => left I;
  addr_empty := ([], None);
  with_protocol := fun a p => (a.1 ++ [p], a.2);
  with_node_id := fun a id => (a.1, Some id);
  addr_ip := fun a => head (omap protocol_ip a.1);
  addr_transport := fun a => list_transport a.1;
  addr_socket_addr := fun a =>
    ip ← head (omap protocol_ip a.1);
    port ← head (omap protocol_port a.1);
    Some (SocketAddr.new ip port);
  addr_resolved := fun a => bool_decide (omap protocol_ip a.1 <> []);
  addr_name := fun a => head (omap protocol_dns a.1);
  addr_dns := fun a => head (filter (fun p => protocol_dns p <> None) a.1);
  addr_resolve := fun a ip =>
    (map (fun p => if protocol_dns p then ip_protocol ip else p) a.1, a.2)
|}.

#[local] Existing Instance list_stacks.

Lemma list_stacks_laws : StackAddrLaws.
Proof. split; try (by intros [ip|ip] port). done. Qed.
