(* ===== verification/Dns.v ===== *)
(** * Name resolution

    foctet-net/src/dns/mod.rs: [Resolver] looks up the names of addresses before
    they are used, and the node identifiers that a name publishes.

    The lookups are the [hickory_resolver] library: [DnsLib] is what the sources
    call of it, one answer for each name, and addresses are as in [StackAddrLib].
    [DnsAddrLaws] is what [stackaddr] documents of putting an IP address in place
    of a name. *)

From S2P Require Import Prelude Text Key Ip X509 Tls Config Node.

Local Open Scope Z_scope.
Local Open Scope outcome_scope.

(** [std::str::from_utf8]: well-formed UTF-8 has no overlong forms, no
    surrogates and nothing above U+10FFFF. *)
Definition is_cont (b : byte) : bool := (128 <=? byte_val b) && (byte_val b <? 192).

Fixpoint utf8_ok (bs : bytes) : bool :=
  match bs with
  | [] => true
  | a :: r =>
      let v := byte_val a in
      if v <? 128 then utf8_ok r
      else
        match r with
        | b :: r1 =>
            let w := byte_val b in
            if (194 <=? v) && (v <=? 223) then is_cont b && utf8_ok r1
            else
              match r1 with
              | c :: r2 =>
                  let second :=
                    if v =? 224 then (160 <=? w) && (w <=? 191)
                    else if v =? 237 then (128 <=? w) && (w <=? 159)
                    else is_cont b in
                  if (224 <=? v) && (v <=? 239) then second && is_cont c && utf8_ok r2
                  else
                    match r2 with
                    | d :: r3 =>
                        let second :=
                          if v =? 240 then (144 <=? w) && (w <=? 191)
                          else if v =? 244 then (128 <=? w) && (w <=? 143)
                          else is_cont b in
                        (240 <=? v) && (v <=? 244) && second && is_cont c && is_cont d && utf8_ok r3
                    | [] => false
                    end
              | [] => false
              end
        | [] => false
        end
  end.

Definition from_utf8 (bs : bytes) : option string :=
  if utf8_ok bs then Some (String.string_of_list_byte bs) else None.

(** foctet-core/src/id.rs:33-35, [UuidV4::as_str]: nothing unless the bytes are UTF-8. *)
Definition uuid_as_str (self : UuidV4.t) : string := default "" (from_utf8 (UuidV4.val self)).

(** foctet-net/src/dns/mod.rs:15-16, [DNS_NODEID_PREFIX]. *)
Definition DNS_NODEID_PREFIX : string := "_nodeid.".

(** foctet-net/src/dns/mod.rs:18-27, [Resolved]. *)
Inductive Resolved : Type :=
| One (ip : IpAddr.t)
| Many (ips : list IpAddr.t)
| NodeIds (ids : list NodeId).

(** The resolver configurations of [hickory_resolver], and its lookups; a TXT
    record is the list of its strings. *)
Class DnsLib : Type := {
  ResolverConfig : Type;
  cloudflare : ResolverConfig;
  google : ResolverConfig;
  quad9 : ResolverConfig;
  custom_config : string -> ResolverConfig;
  read_system_conf : outcome error ResolverConfig;
  hickory_lookup_ip : ResolverConfig -> string -> outcome error (list IpAddr.t);
  hickory_ipv4_lookup : ResolverConfig -> string -> outcome error (list Ipv4Addr.t);
  hickory_ipv6_lookup : ResolverConfig -> string -> outcome error (list Ipv6Addr.t);
  hickory_txt_lookup : ResolverConfig -> string -> outcome error (list (list bytes))
}.

Module Resolver.

Section resolver.

Context `{DnsLib}.

(** foctet-net/src/dns/mod.rs:39-41, [Resolver]. *)
Record t : Type := mk { resolver : ResolverConfig }.

(** foctet-net/src/dns/mod.rs:44-52, [Resolver::new]. *)
Definition new : outcome error t := Ok (mk cloudflare).

(** foctet-net/src/dns/mod.rs:54-58, [Resolver::custom]. *)
Definition custom (cfg : ResolverConfig) : t := mk cfg.

(** foctet-net/src/dns/mod.rs:60-63, [Resolver::system]. *)
Definition system : outcome error t :=
  let? cfg := read_system_conf in Ok (custom cfg).

(** foctet-net/src/dns/mod.rs:65-83, [Resolver::from_option]. *)
Definition from_option (option : ResolverOption) : outcome error t :=
  match option with
  | DefaultResolver => new
  | System => system
  | Cloudflare => Ok (custom cloudflare)
  | Google => Ok (custom google)
  | Quad9 => Ok (custom quad9)
  | Custom cfg => Ok (custom (custom_config cfg))
  end.

(** foctet-net/src/dns/mod.rs:85-92, [Resolver::lookup_ip]. *)
Definition lookup_ip (self : t) (name : string) : outcome error (list IpAddr.t) :=
  hickory_lookup_ip (resolver self) name.

(** foctet-net/src/dns/mod.rs:94-101, [Resolver::ipv4_lookup]. *)
Definition ipv4_lookup (self : t) (name : string) : outcome error (list Ipv4Addr.t) :=
  hickory_ipv4_lookup (resolver self) name.

(** foctet-net/src/dns/mod.rs:103-110, [Resolver::ipv6_lookup]. *)
Definition ipv6_lookup (self : t) (name : string) : outcome error (list Ipv6Addr.t) :=
  hickory_ipv6_lookup (resolver self) name.

(** foctet-net/src/dns/mod.rs:112-114, [Resolver::txt_lookup]. *)
Definition txt_lookup (self : t) (name : string) : outcome error (list (list bytes)) :=
  hickory_txt_lookup (resolver self) name.

(** foctet-net/src/dns/mod.rs:127-143, [Resolver::resolve]: the node identifiers
    among the records. *)
Definition txt_node_ids `{Ed25519} `{Base32} (txts : list (list bytes)) : list NodeId :=
  omap (fun txt =>
    chars ← head txt;
    s ← from_utf8 chars;
    match PublicKey.from_base32 s with Ok node_id => Some node_id | _ => None end) txts.

(** foctet-net/src/dns/mod.rs:116-145, [Resolver::resolve]. *)
Definition resolve `{Ed25519} `{Base32} (self : t) (name : string) : outcome error Resolved :=
  let? ips := lookup_ip self name in
  match ips with
  | [ip] => Ok (One ip)
  | _ :: _ :: _ => Ok (Many ips)
  | [] =>
      let name := DNS_NODEID_PREFIX +:+ name in
      let? txts := txt_lookup self name in
      Ok (NodeIds (txt_node_ids txts))
  end.

Context `{StackAddrLib}.

(** The loop that takes the first address of an answer. *)
Definition resolve_first (addr : StackAddr) (ips : list IpAddr.t) : StackAddr :=
  match ips with
  | ip :: _ => addr_resolve addr ip
  | [] => addr
  end.

(** foctet-net/src/dns/mod.rs:147-187, [Resolver::resolve_addr]: the address as it
    is left. *)
Definition resolve_addr (self : t) (addr : StackAddr) : outcome error StackAddr :=
  if addr_resolved addr then Ok addr
  else
    let? dns := ok_or (Anyhow "Invalid address(No DNS)") (addr_dns addr) in
    let? addr :=
      match dns with
      | Protocol.Dns name =>
          let? ips := lookup_ip self name in Ok (resolve_first addr ips)
      | Protocol.Dns4 name =>
          let? ips := ipv4_lookup self name in Ok (resolve_first addr (map IpAddr.V4 ips))
      | Protocol.Dns6 name =>
          let? ips := ipv6_lookup self name in Ok (resolve_first addr (map IpAddr.V6 ips))
      | _ => Err (Anyhow "Invalid address. Not supported")
      end in
    if addr_resolved addr then Ok addr else Err (Anyhow "Invalid address. Not resolved").

End resolver.

End Resolver.

(** [StackAddr::resolve] puts an IP address in place of a name, and keeps the
    transport. *)
Class DnsAddrLaws `{StackAddrLib} : Prop := {
  addr_resolve_ip : forall a ip, is_Some (addr_dns a) -> addr_ip (addr_resolve a ip) = Some ip;
  addr_resolve_transport : forall a ip, addr_transport (addr_resolve a ip) = addr_transport a
}.

(** ** Lemmas *)

(** An address that has been resolved has an IP address, and its transport; one that was
    resolved before is not looked up. *)
Lemma resolve_addr_resolved `{DnsLib} `{DnsAddrLaws} (self : Resolver.t) (addr addr' : StackAddr) :
  Resolver.resolve_addr self addr = Ok addr' ->
  addr_resolved addr' = true /\ addr_transport addr' = addr_transport addr /\
  (addr_resolved addr = true -> addr' = addr).
Proof.
  unfold Resolver.resolve_addr. destruct (addr_resolved addr) eqn:Er; [by intros [= <-]|].
  intros Ha. read_ok Ha. read_ok Ha. destruct (addr_resolved a0) eqn:Er'; [|done].
  injection Ha as <-. split; [done|]. split; [|done].
  assert (Hf : forall ips, addr_transport (Resolver.resolve_first addr ips) = addr_transport addr).
  { intros [|ip ips]; [done|]. apply addr_resolve_transport. }
  destruct a; try done; read_ok E0; injection E0 as <-; apply Hf.
Qed.

(** A name with several addresses in the answer is resolved to the first of the family asked
    for. *)
Lemma resolve_addr_first `{DnsLib} `{DnsAddrLaws} (self : Resolver.t) (addr addr' : StackAddr)
    (name : string) (ip : Ipv4Addr.t) (ips : list Ipv4Addr.t) :
  addr_resolved addr = false -> addr_dns addr = Some (Protocol.Dns4 name) ->
  Resolver.ipv4_lookup self name = Ok (ip :: ips) -> Resolver.resolve_addr self addr = Ok addr' ->
  addr_ip addr' = Some (IpAddr.V4 ip).
Proof.
  intros Hr Hd Hl. unfold Resolver.resolve_addr. rewrite Hr, Hd. cbn. rewrite Hl. cbn.
  case_match; [|done]. intros [= <-]. apply addr_resolve_ip. by rewrite Hd.
Qed.
