(* ===== verification/Device.v ===== *)
(** * Reachability

    foctet-net/src/device.rs: the addresses a node can listen on, from its
    default network interface, and the order in which the addresses of a peer
    are tried, by the rank of their IP address.

    The interface is what the [netdev] library reports, with networks of the
    [ipnet] library: [IpNetLib]. *)

From stdpp Require Import sorting.
From S2P Require Import Prelude Key Ip Node.

Local Open Scope Z_scope.

(** ** The standard library's sorting *)

(** [slice::sort_by_key], which is stable. *)
Section sort_by_key.

Context {A : Type} (key : A -> Z).

Fixpoint insert_by_key (x : A) (l : list A) : list A :=
  match l with
  | [] => [x]
  | y :: l' => if key x <=? key y then x :: l else y :: insert_by_key x l'
  end.

Definition sort_by_key (l : list A) : list A := foldr insert_by_key [] l.

(** [Iterator::max_by_key]: the last of several maxima. *)
Definition max_step (best : option A) (x : A) : option A :=
  match best with
  | Some y => if key x <? key y then Some y else Some x
  | None => Some x
  end.

Definition max_by_key (l : list A) : option A := foldl max_step None l.

End sort_by_key.

(** ** device.rs *)

(** [ipnet::Ipv4Net] and [Ipv6Net]. *)
Class IpNetLib : Type := {
  Ipv4Net : Type;
  Ipv6Net : Type;
  v4net_new : Ipv4Addr.t -> Z -> option Ipv4Net;
  v4net_addr : Ipv4Net -> Ipv4Addr.t;
  v4net_prefix_len : Ipv4Net -> Z;
  v4net_contains : Ipv4Net -> Ipv4Addr.t -> bool;
  v6net_new : Ipv6Addr.t -> Z -> option Ipv6Net;
  v6net_addr : Ipv6Net -> Ipv6Addr.t;
  v6net_prefix_len : Ipv6Net -> Z;
  v6net_contains : Ipv6Net -> Ipv6Addr.t -> bool
}.

(** What the sources read of a [netdev::Interface]. *)
Module Interface.

Record t `{IpNetLib} : Type := mk { ipv4 : list Ipv4Net; ipv6 : list Ipv6Net }.

End Interface.

(** foctet-core/src/default.rs:41-41, [DEFAULT_BIND_PORT]. *)
Definition DEFAULT_BIND_PORT : Z := 0.

(** foctet-core/src/default.rs:43-44, [DEFAULT_BIND_V4_ADDR]. *)
Definition DEFAULT_BIND_V4_ADDR : SocketAddr.t :=
  SocketAddr.new (IpAddr.V4 Ipv4Addr.UNSPECIFIED) DEFAULT_BIND_PORT.

(** foctet-core/src/default.rs:46-47, [DEFAULT_BIND_V6_ADDR]. *)
Definition DEFAULT_BIND_V6_ADDR : SocketAddr.t :=
  SocketAddr.new (IpAddr.V6 Ipv6Addr.UNSPECIFIED) DEFAULT_BIND_PORT.

(** foctet-core/src/default.rs:48-48, [DEFAULT_SERVER_PORT]. *)
Definition DEFAULT_SERVER_PORT : Z := 4432.

(** foctet-core/src/default.rs:51-52, [DEFAULT_SERVER_V4_ADDR]. *)
Definition DEFAULT_SERVER_V4_ADDR : SocketAddr.t :=
  SocketAddr.new (IpAddr.V4 Ipv4Addr.UNSPECIFIED) DEFAULT_SERVER_PORT.

(** foctet-core/src/default.rs:55-56, [DEFAULT_SERVER_V6_ADDR]. *)
Definition DEFAULT_SERVER_V6_ADDR : SocketAddr.t :=
  SocketAddr.new (IpAddr.V6 Ipv6Addr.UNSPECIFIED) DEFAULT_SERVER_PORT.

Section device.

Context `{IpNetLib}.

(** foctet-net/src/device.rs:11-21, [get_unspecified_bind_addr];
    [get_default_interface] is what [netdev] answers. *)
Definition get_unspecified_bind_addr (get_default_interface : outcome error Interface.t) :
    SocketAddr.t :=
  match get_default_interface with
  | Ok interface =>
      if 0 <? len (Interface.ipv6 interface) then DEFAULT_BIND_V6_ADDR else DEFAULT_BIND_V4_ADDR
  | _ => DEFAULT_BIND_V4_ADDR
  end.

(** foctet-net/src/device.rs:26-36, [get_unspecified_server_addr]. *)
Definition get_unspecified_server_addr (get_default_interface : outcome error Interface.t) :
    SocketAddr.t :=
  match get_default_interface with
  | Ok interface =>
      if 0 <? len (Interface.ipv6 interface) then DEFAULT_SERVER_V6_ADDR else DEFAULT_SERVER_V4_ADDR
  | _ => DEFAULT_SERVER_V4_ADDR
  end.

(** foctet-net/src/device.rs:38-57, [get_default_server_addrs]. *)
Definition get_default_server_addrs (get_default_interface : outcome error Interface.t)
    (port : Z) (include_loopback : bool) : list SocketAddr.t :=
  match get_default_interface with
  | Ok interface =>
      (if include_loopback then [SocketAddr.new (IpAddr.V4 Ipv4Addr.LOCALHOST) port] else []) ++
      map (fun net => SocketAddr.new (IpAddr.V4 (v4net_addr net)) port) (Interface.ipv4 interface) ++
      (if include_loopback then [SocketAddr.new (IpAddr.V6 Ipv6Addr.LOCALHOST) port] else []) ++
      map (fun net => SocketAddr.new (IpAddr.V6 (v6net_addr net)) port) (Interface.ipv6 interface)
  | _ => []
  end.

(** foctet-net/src/device.rs:60-73, [get_default_ipv4_server_addrs]. *)
Definition get_default_ipv4_server_addrs (get_default_interface : outcome error Interface.t)
    (port : Z) (include_loopback : bool) : list SocketAddr.t :=
  match get_default_interface with
  | Ok interface =>
      (if include_loopback then [SocketAddr.new (IpAddr.V4 Ipv4Addr.LOCALHOST) port] else []) ++
      map (fun net => SocketAddr.new (IpAddr.V4 (v4net_addr net)) port) (Interface.ipv4 interface)
  | _ => []
  end.

(** foctet-net/src/device.rs:76-89, [get_default_ipv6_server_addrs]. *)
Definition get_default_ipv6_server_addrs (get_default_interface : outcome error Interface.t)
    (port : Z) (include_loopback : bool) : list SocketAddr.t :=
  match get_default_interface with
  | Ok interface =>
      (if include_loopback then [SocketAddr.new (IpAddr.V6 Ipv6Addr.LOCALHOST) port] else []) ++
      map (fun net => SocketAddr.new (IpAddr.V6 (v6net_addr net)) port) (Interface.ipv6 interface)
  | _ => []
  end.

(** foctet-net/src/device.rs:91-118, [in_same_net]: the loops skip the networks
    that [ipnet] refuses. *)
Definition in_same_net (target_ip : IpAddr.t) (iface : Interface.t) : bool :=
  match target_ip with
  | IpAddr.V4 target_v4 =>
      existsb (fun ipv4net =>
        match v4net_new (v4net_addr ipv4net) (v4net_prefix_len ipv4net) with
        | Some net => v4net_contains net target_v4
        | None => false
        end) (Interface.ipv4 iface)
  | IpAddr.V6 target_v6 =>
      existsb (fun ipv6net =>
        match v6net_new (v6net_addr ipv6net) (v6net_prefix_len ipv6net) with
        | Some net => v6net_contains net target_v6
        | None => false
        end) (Interface.ipv6 iface)
  end.

(** foctet-net/src/device.rs:126-136, [rank_ip]. *)
Definition rank_ip (ip : IpAddr.t) (iface : Interface.t) : Z :=
  if IpAddr.is_loopback ip then 3
  else if in_same_net ip iface then 2
  else if is_global_ip ip then 1
  else 0.

Context `{StackAddrLib}.

(** The [filter_map] with which the two functions below start. *)
Definition ranked (addrs : list StackAddr) (iface : Interface.t) : list (StackAddr * Z) :=
  omap (fun addr => (fun ip => (addr, rank_ip ip iface)) <$> addr_ip addr) addrs.

(** foctet-net/src/device.rs:143-148, [pick_best_addr]. *)
Definition pick_best_addr (addrs : list StackAddr) (iface : Interface.t) : option StackAddr :=
  fst <$> max_by_key snd (ranked addrs iface).

(** foctet-net/src/device.rs:159-171, [sort_addrs_by_reachability]. *)
Definition sort_addrs_by_reachability (addrs : list StackAddr) (iface : Interface.t) :
    list StackAddr :=
  map fst (sort_by_key (fun '(_, rank) => - rank) (ranked addrs iface)).

End device.

(** ** Lemmas *)

Section sort_lemmas.

Context {A : Type} (key : A -> Z).

Lemma insert_by_key_perm (x : A) (l : list A) : insert_by_key key x l ≡ₚ x :: l.
Proof.
  induction l as [|y l IH]; [done|]. simpl. case_match; [done|]. rewrite IH. apply Permutation_swap.
Qed.

Lemma sort_by_key_perm (l : list A) : sort_by_key key l ≡ₚ l.
Proof. induction l as [|x l IH]; [done|]. simpl. by rewrite insert_by_key_perm, IH. Qed.

Lemma insert_by_key_sorted (x : A) (l : list A) :
  StronglySorted (fun a b => key a <= key b) l ->
  StronglySorted (fun a b => key a <= key b) (insert_by_key key x l).
Proof.
  induction 1 as [|y l Hl IH Hall]; simpl; [by repeat constructor|].
  destruct (Z.leb_spec (key x) (key y)) as [E|E].
  - constructor; [by constructor|]. constructor; [done|].
    eapply Forall_impl; [exact Hall|]. intros z; simpl. lia.
  - constructor; [done|]. rewrite insert_by_key_perm. constructor; [lia|done].
Qed.

Lemma sort_by_key_sorted (l : list A) :
  StronglySorted (fun a b => key a <= key b) (sort_by_key key l).
Proof. induction l; simpl; [constructor|by apply insert_by_key_sorted]. Qed.

(** Elements with the same key keep their order. *)
Lemma insert_by_key_stable (k : Z) (x : A) (l : list A) :
  filter (fun a => key a = k) (insert_by_key key x l) = filter (fun a => key a = k) (x :: l).
Proof.
  induction l as [|y l IH]; [done|]. simpl. destruct (Z.leb_spec (key x) (key y)) as [E|E]; [done|].
  rewrite filter_cons, IH, !filter_cons. do 2 case_decide; try done. lia.
Qed.

Lemma sort_by_key_stable (k : Z) (l : list A) :
  filter (fun a => key a = k) (sort_by_key key l) = filter (fun a => key a = k) l.
Proof.
  induction l as [|x l IH]; [done|]. simpl. rewrite insert_by_key_stable, !filter_cons.
  by rewrite IH.
Qed.

Lemma max_by_key_snoc (l : list A) (x : A) :
  max_by_key key (l ++ [x]) = max_step key (max_by_key key l) x.
Proof. unfold max_by_key. by rewrite foldl_app. Qed.

Lemma max_by_key_last (l : list A) :
  match max_by_key key l with
  | None => l = []
  | Some x => exists l1 l2, l = l1 ++ x :: l2 /\ Forall (fun y => key y <= key x) l1 /\
      Forall (fun y => key y < key x) l2
  end.
Proof.
  induction l as [|x l IH] using rev_ind; [done|]. rewrite max_by_key_snoc.
  destruct (max_by_key key l) as [y|]; simpl.
  - destruct IH as (l1 & l2 & -> & H1 & H2). destruct (Z.ltb_spec (key x) (key y)) as [E|E].
    + exists l1, (l2 ++ [x]). rewrite <- app_assoc. split_and!; try done.
      apply Forall_app. split; [done|]. by constructor.
    + exists (l1 ++ y :: l2), []. split_and!; try done. apply Forall_app. split.
      * eapply Forall_impl; [exact H1|]. intros z; simpl. lia.
      * constructor; [lia|]. eapply Forall_impl; [exact H2|]. intros z; simpl. lia.
  - subst l. exists [], []. by split_and!.
Qed.

End sort_lemmas.

Section rank_lemmas.

Context `{IpNetLib} `{StackAddrLib} (iface : Interface.t).

(** The rank of an address, if it has an IP address. *)
Definition addr_rank (a : StackAddr) : option Z := (fun ip => rank_ip ip iface) <$> addr_ip a.

Lemma ranked_rank (addrs : list StackAddr) :
  Forall (fun p => addr_rank p.1 = Some p.2) (ranked addrs iface).
Proof.
  unfold ranked. apply Forall_forall. intros [a r] (b & Hb & E)%list_elem_of_omap.
  destruct (addr_ip b) as [ip|] eqn:Eb; simplify_eq/=. unfold addr_rank. by rewrite Eb.
Qed.

Lemma ranked_cons (a : StackAddr) (addrs : list StackAddr) :
  ranked (a :: addrs) iface =
  match addr_ip a with
  | Some ip => (a, rank_ip ip iface) :: ranked addrs iface
  | None => ranked addrs iface
  end.
Proof. unfold ranked. simpl. by destruct (addr_ip a). Qed.

Lemma ranked_fst (addrs : list StackAddr) :
  map fst (ranked addrs iface) = filter (fun a => is_Some (addr_ip a)) addrs.
Proof.
  induction addrs as [|a l IH]; [done|]. rewrite filter_cons, ranked_cons, <- IH.
  case_decide as Hs; destruct (addr_ip a) as [ip|] eqn:E; try done; by destruct Hs.
Qed.

Lemma filter_rank_fst (r : Z) (L : list (StackAddr * Z)) :
  Forall (fun p => addr_rank p.1 = Some p.2) L ->
  filter (fun a => addr_rank a = Some r) (map fst L) =
  map fst (filter (fun p => (fun '(_, rank) => - rank) p = - r) L).
Proof.
  induction 1 as [|[a s] L Ha _ IH]; [done|]. simpl in *. rewrite !filter_cons. simpl.
  rewrite Ha. destruct (decide (s = r)) as [->|Hne].
  - rewrite !decide_True by done. simpl. by rewrite IH.
  - rewrite !decide_False by (first [congruence|lia]). done.
Qed.

Lemma filter_rank_ip (r : Z) (addrs : list StackAddr) :
  filter (fun a => addr_rank a = Some r) (filter (fun a => is_Some (addr_ip a)) addrs) =
  filter (fun a => addr_rank a = Some r) addrs.
Proof.
  rewrite list_filter_filter. apply list_filter_iff. intros a. unfold addr_rank.
  destruct (addr_ip a); simpl; [|naive_solver]. split; [by intros []|done].
Qed.

Lemma sorted_rank (L : list (StackAddr * Z)) :
  Forall (fun p => addr_rank p.1 = Some p.2) L ->
  StronglySorted (fun a b => (fun '(_, rank) => - rank) a <= (fun '(_, rank) => - rank) b) L ->
  StronglySorted (fun a b => default 0 (addr_rank b) <= default 0 (addr_rank a)) (map fst L).
Proof.
  intros HL. induction 1 as [|[a r] L _ IH Hall]; [constructor|]. simpl.
  apply Forall_cons in HL as [Ha HL]. constructor; [by apply IH|].
  apply Forall_map. rewrite Forall_forall in *. intros [b s] Hb.
  specialize (Hall _ Hb). specialize (HL _ Hb). simpl in *. rewrite Ha, HL. simpl. lia.
Qed.

End rank_lemmas.

Lemma omap_split {A B : Type} (f : A -> option B) (l : list A) (l1 l2 : list B) (y : B) :
  omap f l = l1 ++ y :: l2 ->
  exists k1 x k2, l = k1 ++ x :: k2 /\ f x = Some y /\ omap f k1 = l1 /\ omap f k2 = l2.
Proof.
  revert l1. induction l as [|a l IH]; intros l1; simpl; [by destruct l1|].
  destruct (f a) as [b|] eqn:E.
  - destruct l1 as [|b' l1]; intros [= -> Hl].
    + by exists [], a, l.
    + destruct (IH _ Hl) as (k1 & x & k2 & -> & Hx & <- & <-).
      exists (a :: k1), x, k2. split_and!; try done. simpl. by rewrite E.
  - intros Hl. destruct (IH _ Hl) as (k1 & x & k2 & -> & Hx & <- & <-).
    exists (a :: k1), x, k2. split_and!; try done. simpl. by rewrite E.
Qed.

Lemma ranked_Forall `{IpNetLib} `{StackAddrLib} (iface : Interface.t) (P : Z -> Prop)
    (addrs : list StackAddr) :
  Forall (fun p => P p.2) (ranked addrs iface) ->
  Forall (fun a => forall r, addr_rank iface a = Some r -> P r) addrs.
Proof.
  rewrite !Forall_forall. intros HP a Ha r Hr. unfold addr_rank in Hr.
  apply (HP (a, r)). unfold ranked. apply list_elem_of_omap. exists a. split; [done|].
  by destruct (addr_ip a); simplify_eq/=.
Qed.

(** ** Properties *)

(** C29: The addresses of a peer are tried from the best reachable to the worst.
    Sorting loses and adds nothing but the addresses without an IP address; the
    ranks never increase along the result; addresses of the same rank stay in the
    order they were given in, whatever their IP addresses are.  [pick_best_addr]
    picks an address of the highest rank, and of several the last. *)
Theorem reachability_order `{IpNetLib} `{StackAddrLib} (addrs : list StackAddr)
    (iface : Interface.t) :
  let sorted := sort_addrs_by_reachability addrs iface in
  sorted ≡ₚ filter (fun a => is_Some (addr_ip a)) addrs /\
  StronglySorted (fun a b => default 0 (addr_rank iface b) <= default 0 (addr_rank iface a)) sorted /\
  (forall r, filter (fun a => addr_rank iface a = Some r) sorted =
             filter (fun a => addr_rank iface a = Some r) addrs) /\
  match pick_best_addr addrs iface with
  | None => Forall (fun a => addr_ip a = None) addrs
  | Some a => exists r before after,
      addrs = before ++ a :: after /\ addr_rank iface a = Some r /\
      Forall (fun b => forall s, addr_rank iface b = Some s -> s <= r) before /\
      Forall (fun b => forall s, addr_rank iface b = Some s -> s < r) after
  end.
Proof.
  intros sorted. unfold sorted, sort_addrs_by_reachability.
  set (key := fun '(_, rank) => - rank).
  assert (HL : Forall (fun p => addr_rank iface p.1 = Some p.2) (sort_by_key key (ranked addrs iface)))
    by (rewrite sort_by_key_perm; apply ranked_rank).
  split_and!.
  - rewrite sort_by_key_perm. by rewrite ranked_fst.
  - apply sorted_rank; [done|]. apply sort_by_key_sorted.
  - intros r. rewrite (filter_rank_fst iface) by done. fold key. rewrite (sort_by_key_stable key).
    unfold key. rewrite <- (filter_rank_fst iface) by apply ranked_rank.
    by rewrite ranked_fst, filter_rank_ip.
  - unfold pick_best_addr. pose proof (max_by_key_last snd (ranked addrs iface)) as Hm.
    destruct (max_by_key snd (ranked addrs iface)) as [[a r]|]; simpl in *.
    + destruct Hm as (l1 & l2 & Hl & H1 & H2).
      apply omap_split in Hl as (k1 & x & k2 & -> & Hx & <- & <-).
      destruct (addr_ip x) as [ip|] eqn:Ex; simplify_eq/=.
      exists (rank_ip ip iface), k1, k2. split_and!; [done| | |].
      * unfold addr_rank. by rewrite Ex.
      * by apply (ranked_Forall iface (fun s => s <= rank_ip ip iface)).
      * by apply (ranked_Forall iface (fun s => s < rank_ip ip iface)).
    + apply (f_equal (map fst)) in Hm. rewrite ranked_fst in Hm. apply Forall_forall.
      intros a Ha. destruct (addr_ip a) as [ip|] eqn:E; [|done]. exfalso.
      apply (filter_nil_not_elem_of _ _ a Hm); [by rewrite E|done].
Qed.
