(* ===== verification/Frame.v ===== *)
(** * Frames

    foctet-core/src/frame.rs: the frame flags, the frame types, the frame
    header, the frame with its byte representation ([to_bytes] and
    [from_bytes]), and the frame builder.

    [FrameFlags] is declared with the [bitflags!] macro over a [u8]; a value is
    its bits, and the methods the macro generates are the bit operations its
    documentation gives. *)

From S2P Require Import Prelude Ids.

Local Open Scope Z_scope.
Local Open Scope outcome_scope.

Module FrameFlags.

(** foctet-core/src/frame.rs:16-20, [FrameFlags]. *)
Record t : Type := mk { bits : Z }.

(** foctet-core/src/frame.rs:21-22, [FrameFlags::EMPTY]. *)
Definition EMPTY : t := mk 0.

(** foctet-core/src/frame.rs:23-25, [FrameFlags::REQUEST]. *)
Definition REQUEST : t := mk 1.

(** foctet-core/src/frame.rs:26-27, [FrameFlags::RESPONSE]. *)
Definition RESPONSE : t := mk 2.

(** foctet-core/src/frame.rs:28-30, [FrameFlags::FRAGMENTED]. *)
Definition FRAGMENTED : t := mk 4.

(** foctet-core/src/frame.rs:31-33, [FrameFlags::FIN]. *)
Definition FIN : t := mk 8.

(** foctet-core/src/frame.rs:34-36, [FrameFlags::OPEN]. *)
Definition OPEN : t := mk 16.

(** foctet-core/src/frame.rs:37-39, [FrameFlags::RESET]. *)
Definition RESET : t := mk 32.

(** foctet-core/src/frame.rs:40-43, [FrameFlags::CLOSE]. *)
Definition CLOSE : t := mk 64.

(** The generated methods: union, difference, inclusion, and the conversions
    from raw bits that drop or refuse the bits no flag names. *)
Definition union (a b : t) : t := mk (Z.lor (bits a) (bits b)).

Definition all : t :=
  union EMPTY (union REQUEST (union RESPONSE (union FRAGMENTED
    (union FIN (union OPEN (union RESET CLOSE)))))).

Definition insert (a b : t) : t := union a b.

Definition remove (a b : t) : t := mk (Z.ldiff (bits a) (bits b)).

Definition contains (a b : t) : bool := Z.land (bits a) (bits b) =? bits b.

Definition is_empty (a : t) : bool := bits a =? 0.

Definition from_bits_truncate (value : Z) : t := mk (Z.land value (bits all)).

Definition from_bits (value : Z) : option t :=
  if Z.land value (bits all) =? value then Some (mk value) else None.

Definition eqb (a b : t) : bool := bits a =? bits b.

(** foctet-core/src/frame.rs:135-138, [FrameFlags::set_flag]. *)
Definition set_flag (self flag : t) : t := insert self flag.

(** foctet-core/src/frame.rs:139-142, [FrameFlags::unset_flag]. *)
Definition unset_flag (self flag : t) : t := remove self flag.

(** foctet-core/src/frame.rs:47-50, [FrameFlags::new]. *)
Definition new : t := from_bits_truncate (bits EMPTY).

(** foctet-core/src/frame.rs:51-57, [FrameFlags::open_request]. *)
Definition open_request : t :=
  let flags := new in
  let flags := set_flag flags REQUEST in
  let flags := set_flag flags OPEN in
  flags.

(** foctet-core/src/frame.rs:58-64, [FrameFlags::open_response]. *)
Definition open_response : t :=
  let flags := new in
  let flags := set_flag flags RESPONSE in
  let flags := set_flag flags OPEN in
  flags.

(** foctet-core/src/frame.rs:65-72, [FrameFlags::open_reset]. *)
Definition open_reset : t :=
  let flags := new in
  let flags := set_flag flags RESPONSE in
  let flags := set_flag flags OPEN in
  let flags := set_flag flags RESET in
  flags.

(** foctet-core/src/frame.rs:73-79, [FrameFlags::close_request]. *)
Definition close_request : t :=
  let flags := new in
  let flags := set_flag flags REQUEST in
  let flags := set_flag flags CLOSE in
  flags.

(** foctet-core/src/frame.rs:80-86, [FrameFlags::close_response]. *)
Definition close_response : t :=
  let flags := new in
  let flags := set_flag flags RESPONSE in
  let flags := set_flag flags CLOSE in
  flags.

(** foctet-core/src/frame.rs:87-90, [FrameFlags::is_none]. *)
Definition is_none (self : t) : bool := is_empty self.

(** foctet-core/src/frame.rs:91-94, [FrameFlags::is_request]. *)
Definition is_request (self : t) : bool := contains self REQUEST.

(** foctet-core/src/frame.rs:95-98, [FrameFlags::is_response]. *)
Definition is_response (self : t) : bool := contains self RESPONSE.

(** foctet-core/src/frame.rs:99-102, [FrameFlags::is_fragmented]. *)
Definition is_fragmented (self : t) : bool := contains self FRAGMENTED.

(** foctet-core/src/frame.rs:103-106, [FrameFlags::is_open]. *)
Definition is_open (self : t) : bool := contains self OPEN.

(** foctet-core/src/frame.rs:107-110, [FrameFlags::is_fin]. *)
Definition is_fin (self : t) : bool := contains self FIN.

(** foctet-core/src/frame.rs:111-114, [FrameFlags::is_reset]. *)
Definition is_reset (self : t) : bool := contains self RESET.

(** foctet-core/src/frame.rs:115-118, [FrameFlags::is_open_request]. *)
Definition is_open_request (self : t) : bool := eqb self (union REQUEST OPEN).

(** foctet-core/src/frame.rs:119-122, [FrameFlags::is_open_response]. *)
Definition is_open_response (self : t) : bool := eqb self (union RESPONSE OPEN).

(** foctet-core/src/frame.rs:123-126, [FrameFlags::is_open_reset]. *)
Definition is_open_reset (self : t) : bool :=
  eqb self (union (union RESPONSE OPEN) RESET).

(** foctet-core/src/frame.rs:127-130, [FrameFlags::is_close_request]. *)
Definition is_close_request (self : t) : bool := eqb self (union REQUEST CLOSE).

(** foctet-core/src/frame.rs:131-134, [FrameFlags::is_close_response]. *)
Definition is_close_response (self : t) : bool := eqb self (union RESPONSE CLOSE).

(** foctet-core/src/frame.rs:143-146, [FrameFlags::from_u8]: the receiver after
    the call.  The value [from_bits_truncate] returns is discarded. *)
Definition from_u8 (self : t) (value : Z) : t :=
  let _ := from_bits_truncate value in self.

(** foctet-core/src/frame.rs:147-150, [FrameFlags::as_u8]. *)
Definition as_u8 (self : t) : Z := bits self.

(** foctet-core/src/frame.rs:153-161, [FrameFlags::serialize]: the [u8] given
    to the serializer. *)
Definition serialize (self : t) : Z := bits self.

(** foctet-core/src/frame.rs:163-173, [FrameFlags::deserialize], from the
    [u8] the deserializer gives. *)
Definition deserialize (value : Z) : outcome error t :=
  ok_or (Anyhow "Invalid FrameFlags bits") (from_bits value).

#[global] Instance t_eq_dec : EqDecision t.
Proof. solve_decision. Defined.

(** Only named bits are set. *)
Definition wf (self : t) : bool := Z.land (bits self) (bits all) =? bits self.

End FrameFlags.

Module FrameType.

(** foctet-core/src/frame.rs:175-185, [FrameType]. *)
Inductive t : Type :=
| Control
| Data
| Meta
| FileMeta
| FileData
| ContentRequest
| Reserved (other : Z).

(** foctet-core/src/frame.rs:187-199, [From<u8> for FrameType]. *)
Definition from_u8 (value : Z) : t :=
  match value with
  | 0 => Control
  | 1 => Data
  | 2 => Meta
  | 3 => FileMeta
  | 4 => FileData
  | 5 => ContentRequest
  | other => Reserved other
  end.

(** foctet-core/src/frame.rs:201-213, [From<FrameType> for u8]. *)
Definition into_u8 (ft : t) : Z :=
  match ft with
  | Control => 0
  | Data => 1
  | Meta => 2
  | FileMeta => 3
  | FileData => 4
  | ContentRequest => 5
  | Reserved other => other
  end.

#[global] Instance t_eq_dec : EqDecision t.
Proof. solve_decision. Defined.

(** A reserved type carries a [u8] that no other type stands for. *)
Definition wf (ft : t) : bool :=
  match ft with
  | Reserved n => (6 <=? n) && (n <=? 255)
  | _ => true
  end.

End FrameType.

Module FrameHeader.

(** foctet-core/src/frame.rs:215-228, [FrameHeader]. *)
Record t : Type := mk {
  stream_id : StreamId.t;
  operation_id : OperationId.t;
  flags : FrameFlags.t;
  frame_type : FrameType.t;
  payload_len : Z
}.

(** foctet-core/src/frame.rs:231-240, [FrameHeader::new]. *)
Definition new (stream_id : StreamId.t) (operation_id : OperationId.t)
    (flags : FrameFlags.t) (frame_type : FrameType.t) : t :=
  mk stream_id operation_id flags frame_type 0.

(** foctet-core/src/frame.rs:241-249, [FrameHeader::empty]. *)
Definition empty : t :=
  mk (StreamId.mk 0) (OperationId.mk 0) FrameFlags.EMPTY FrameType.Data 0.

Definition with_flags (self : t) (f : FrameFlags.t) : t :=
  mk (stream_id self) (operation_id self) f (frame_type self) (payload_len self).

(** foctet-core/src/frame.rs:250-253, [FrameHeader::set_flag]. *)
Definition set_flag (self : t) (flag : FrameFlags.t) : t :=
  with_flags self (FrameFlags.set_flag (flags self) flag).

(** foctet-core/src/frame.rs:254-257, [FrameHeader::unset_flag]. *)
Definition unset_flag (self : t) (flag : FrameFlags.t) : t :=
  with_flags self (FrameFlags.unset_flag (flags self) flag).

(** foctet-core/src/frame.rs:258-261, [FrameHeader::has_flag]. *)
Definition has_flag (self : t) (flag : FrameFlags.t) : bool :=
  FrameFlags.contains (flags self) flag.

(** foctet-core/src/frame.rs:262-265, [FrameHeader::is_fin]. *)
Definition is_fin (self : t) : bool := FrameFlags.is_fin (flags self).

(** foctet-core/src/frame.rs:266-269, [FrameHeader::is_request]. *)
Definition is_request (self : t) : bool := FrameFlags.is_request (flags self).

(** foctet-core/src/frame.rs:270-273, [FrameHeader::is_response]. *)
Definition is_response (self : t) : bool := FrameFlags.is_response (flags self).

(** foctet-core/src/frame.rs:274-277, [FrameHeader::is_fragmented]. *)
Definition is_fragmented (self : t) : bool := FrameFlags.is_fragmented (flags self).

(** foctet-core/src/frame.rs:278-281, [FrameHeader::set_request]. *)
Definition set_request (self : t) : t :=
  with_flags self (FrameFlags.set_flag (flags self) FrameFlags.REQUEST).

(** foctet-core/src/frame.rs:282-285, [FrameHeader::set_response]. *)
Definition set_response (self : t) : t :=
  with_flags self (FrameFlags.set_flag (flags self) FrameFlags.RESPONSE).

(** foctet-core/src/frame.rs:286-289, [FrameHeader::set_fragmented]. *)
Definition set_fragmented (self : t) : t :=
  with_flags self (FrameFlags.set_flag (flags self) FrameFlags.FRAGMENTED).

#[global] Instance t_eq_dec : EqDecision t.
Proof. solve_decision. Defined.

(** The values the Rust types allow, with named flags and types only. *)
Definition wf (self : t) : bool :=
  StreamId.wf (stream_id self) && OperationId.wf (operation_id self)
  && FrameFlags.wf (flags self) && FrameType.wf (frame_type self)
  && is_u32 (payload_len self).

End FrameHeader.

(** foctet-core/src/frame.rs:14-14, [FRAME_HEADER_LEN]. *)
Definition FRAME_HEADER_LEN : Z := 14.

Module Frame.

(** foctet-core/src/frame.rs:292-299, [Frame]. *)
Record t : Type := mk {
  header : FrameHeader.t;
  payload : bytes
}.

(** foctet-core/src/frame.rs:302-308, [Frame::empty]. *)
Definition empty : t := mk FrameHeader.empty [].

(** foctet-core/src/frame.rs:313-323, [Frame::to_bytes]. *)
Definition to_bytes (self : t) : outcome error bytes :=
  let buf := [] in
  let buf := put_u32 buf (StreamId.val (FrameHeader.stream_id (header self))) in
  let buf := put_u32 buf (OperationId.val (FrameHeader.operation_id (header self))) in
  let buf := put_u8 buf (FrameFlags.bits (FrameHeader.flags (header self))) in
  let buf := put_u8 buf (FrameType.into_u8 (FrameHeader.frame_type (header self))) in
  let buf := put_u32 buf (as_u32 (len (payload self))) in
  let buf := buf ++ payload self in
  Ok buf.

(** foctet-core/src/frame.rs:324-338, [Frame::from_bytes]. *)
Definition from_bytes (bytes : bytes) : outcome error t :=
  if len bytes <? FRAME_HEADER_LEN
  then Err (Anyhow "Not enough bytes to read frame header")
  else
    let? (v, bytes) := get_u32 bytes in
    let stream_id := StreamId.mk v in
    let? (v, bytes) := get_u32 bytes in
    let operation_id := OperationId.mk v in
    let? (v, bytes) := get_u8 bytes in
    let flags := FrameFlags.from_bits_truncate v in
    let? (v, bytes) := get_u8 bytes in
    let frame_type := FrameType.from_u8 v in
    let? (payload_len, bytes) := get_u32 bytes in
    Ok (mk (FrameHeader.mk stream_id operation_id flags frame_type payload_len) bytes).

(** foctet-core/src/frame.rs:339-344, [Frame::to_byte_array]. *)
Definition to_byte_array (self : t) : outcome error bytes :=
  let? bytes := to_bytes self in Ok bytes.

(** foctet-core/src/frame.rs:345-350, [Frame::from_byte_array]. *)
Definition from_byte_array (bytes : bytes) : outcome error t := from_bytes bytes.

(** foctet-core/src/frame.rs:351-354, [Frame::len]. *)
Definition frame_len (self : t) : Z := FRAME_HEADER_LEN + len (payload self).

(** foctet-core/src/frame.rs:355-358, [Frame::payload_len]. *)
Definition payload_len (self : t) : Z := len (payload self).

#[global] Instance t_eq_dec : EqDecision t.
Proof. solve_decision. Defined.

(** A frame the wire format can carry: its header is well formed and the
    length of its payload fits the [u32] length field. *)
Definition wf (self : t) : bool :=
  FrameHeader.wf (header self) && is_u32 (len (payload self)).

(** The frame with its length field recomputed: what a peer reads back. *)
Definition normal (self : t) : t :=
  let h := header self in
  mk (FrameHeader.mk (FrameHeader.stream_id h) (FrameHeader.operation_id h)
        (FrameHeader.flags h) (FrameHeader.frame_type h) (as_u32 (len (payload self))))
     (payload self).

End Frame.

Module FrameBuilder.

(** foctet-core/src/frame.rs:361-366, [FrameBuilder]. *)
Record t : Type := mk {
  header : FrameHeader.t;
  payload : bytes
}.

(** foctet-core/src/frame.rs:369-375, [FrameBuilder::new]. *)
Definition new : t := mk FrameHeader.empty [].

(** foctet-core/src/frame.rs:376-384, [FrameBuilder::with_fin]. *)
Definition with_fin (self : t) (fin : bool) : t :=
  if fin
  then mk (FrameHeader.with_flags (header self)
             (FrameFlags.set_flag (FrameHeader.flags (header self)) FrameFlags.FIN))
          (payload self)
  else mk (FrameHeader.with_flags (header self)
             (FrameFlags.unset_flag (FrameHeader.flags (header self)) FrameFlags.FIN))
          (payload self).

(** foctet-core/src/frame.rs:385-389, [FrameBuilder::with_stream_id]. *)
Definition with_stream_id (self : t) (stream_id : StreamId.t) : t :=
  let h := header self in
  mk (FrameHeader.mk stream_id (FrameHeader.operation_id h) (FrameHeader.flags h)
        (FrameHeader.frame_type h) (FrameHeader.payload_len h)) (payload self).

(** foctet-core/src/frame.rs:390-394, [FrameBuilder::with_operation_id]. *)
Definition with_operation_id (self : t) (operation_id : OperationId.t) : t :=
  let h := header self in
  mk (FrameHeader.mk (FrameHeader.stream_id h) operation_id (FrameHeader.flags h)
        (FrameHeader.frame_type h) (FrameHeader.payload_len h)) (payload self).

(** foctet-core/src/frame.rs:395-399, [FrameBuilder::with_flags]. *)
Definition with_flags (self : t) (flags : FrameFlags.t) : t :=
  mk (FrameHeader.with_flags (header self) flags) (payload self).

(** foctet-core/src/frame.rs:400-404, [FrameBuilder::with_frame_type]. *)
Definition with_frame_type (self : t) (frame_type : FrameType.t) : t :=
  let h := header self in
  mk (FrameHeader.mk (FrameHeader.stream_id h) (FrameHeader.operation_id h)
        (FrameHeader.flags h) frame_type (FrameHeader.payload_len h)) (payload self).

(** foctet-core/src/frame.rs:405-409, [FrameBuilder::as_request]. *)
Definition as_request (self : t) : t :=
  mk (FrameHeader.with_flags (header self)
        (FrameFlags.set_flag (FrameHeader.flags (header self)) FrameFlags.REQUEST))
     (payload self).

(** foctet-core/src/frame.rs:410-414, [FrameBuilder::as_response]. *)
Definition as_response (self : t) : t :=
  mk (FrameHeader.with_flags (header self)
        (FrameFlags.set_flag (FrameHeader.flags (header self)) FrameFlags.RESPONSE))
     (payload self).

(** foctet-core/src/frame.rs:415-419, [FrameBuilder::as_fragmented]. *)
Definition as_fragmented (self : t) : t :=
  mk (FrameHeader.with_flags (header self)
        (FrameFlags.set_flag (FrameHeader.flags (header self)) FrameFlags.FRAGMENTED))
     (payload self).

(** foctet-core/src/frame.rs:420-424, [FrameBuilder::with_payload]. *)
Definition with_payload (self : t) (payload : bytes) : t := mk (header self) payload.

(** foctet-core/src/frame.rs:425-431, [FrameBuilder::build]. *)
Definition build (self : t) : Frame.t := Frame.mk (header self) (payload self).

End FrameBuilder.

(** foctet-core/src/frame.rs:309-312, [Frame::builder]. *)
Definition builder : FrameBuilder.t := FrameBuilder.new.

(** ** Reference definitions

    The fourteen bytes of a header, how they are read back, and the frame of
    the repository's own round-trip test. *)

Definition header_bytes (h : FrameHeader.t) (n : Z) : bytes :=
  put_u32 [] (StreamId.val (FrameHeader.stream_id h))
  ++ put_u32 [] (OperationId.val (FrameHeader.operation_id h))
  ++ put_u8 [] (FrameFlags.bits (FrameHeader.flags h))
  ++ put_u8 [] (FrameType.into_u8 (FrameHeader.frame_type h))
  ++ put_u32 [] (as_u32 n).

Definition read_header (bs : bytes) : outcome error (FrameHeader.t * bytes) :=
  let? (sid, bs) := get_u32 bs in
  let? (op, bs) := get_u32 bs in
  let? (fl, bs) := get_u8 bs in
  let? (ty, bs) := get_u8 bs in
  let? (n, bs) := get_u32 bs in
  Ok (FrameHeader.mk (StreamId.mk sid) (OperationId.mk op)
        (FrameFlags.from_bits_truncate fl) (FrameType.from_u8 ty) n, bs).

(** Byte 8 of an encoded frame carries the flags. *)
Definition clear_unnamed (bs : bytes) : bytes :=
  alter (fun b => byte_of (Z.land (byte_val b) 127)) 8%nat bs.

Definition sample_frame : Frame.t :=
  FrameBuilder.build
    (FrameBuilder.with_payload
       (FrameBuilder.with_frame_type
          (FrameBuilder.with_flags
             (FrameBuilder.with_operation_id
                (FrameBuilder.with_stream_id builder (StreamId.mk 123))
                (OperationId.mk 456))
             FrameFlags.FIN)
          FrameType.Data)
       (map byte_of [116; 101; 115; 116])).

(** ** Lemmas on flags and types *)

Lemma flags_all_bits : FrameFlags.bits FrameFlags.all = 127.
Proof. done. Qed.

Lemma flags_eqb_eq (a b : FrameFlags.t) : FrameFlags.eqb a b = true <-> a = b.
Proof.
  destruct a, b. unfold FrameFlags.eqb. simpl. rewrite Z.eqb_eq.
  split; [by intros ->|by intros [=]].
Qed.

Lemma land_127_range (v : Z) : 0 <= Z.land v 127 < 128.
Proof.
  change 127 with (Z.ones 7). rewrite Z.land_ones by lia.
  apply Z.mod_pos_bound. lia.
Qed.

Lemma from_bits_truncate_wf (v : Z) :
  FrameFlags.wf (FrameFlags.from_bits_truncate v) = true.
Proof.
  unfold FrameFlags.wf, FrameFlags.from_bits_truncate. cbn [FrameFlags.bits].
  rewrite <- Z.land_assoc, Z.land_diag. apply Z.eqb_refl.
Qed.

Lemma from_bits_truncate_id (f : FrameFlags.t) :
  FrameFlags.wf f = true -> FrameFlags.from_bits_truncate (FrameFlags.bits f) = f.
Proof.
  destruct f as [b]. unfold FrameFlags.wf, FrameFlags.from_bits_truncate. simpl.
  intros H. apply Z.eqb_eq in H. by rewrite H.
Qed.

Lemma flags_wf_u8 (f : FrameFlags.t) :
  FrameFlags.wf f = true -> 0 <= FrameFlags.bits f < 128.
Proof.
  unfold FrameFlags.wf. rewrite flags_all_bits. intros H. apply Z.eqb_eq in H.
  rewrite <- H. apply land_127_range.
Qed.

Lemma frame_type_reserved (v : Z) :
  6 <= v -> FrameType.from_u8 v = FrameType.Reserved v.
Proof.
  intros H. unfold FrameType.from_u8. destruct v as [|p|p]; [lia| |lia].
  do 3 (destruct p as [p|p|]; try lia; try done).
Qed.

Lemma frame_type_from_into (ft : FrameType.t) :
  FrameType.wf ft = true -> FrameType.from_u8 (FrameType.into_u8 ft) = ft.
Proof.
  destruct ft; try done. simpl. intros H. apply frame_type_reserved. lia.
Qed.

Lemma frame_type_into_from (v : Z) : FrameType.into_u8 (FrameType.from_u8 v) = v.
Proof.
  unfold FrameType.from_u8. destruct v as [|p|p]; try done.
  do 3 (destruct p as [p|p|]; try done).
Qed.

Lemma frame_type_from_wf (v : Z) :
  0 <= v < 256 -> FrameType.wf (FrameType.from_u8 v) = true.
Proof.
  intros H. destruct (decide (6 <= v)).
  - rewrite frame_type_reserved by done. simpl. lia.
  - assert (v = 0 \/ v = 1 \/ v = 2 \/ v = 3 \/ v = 4 \/ v = 5) as Hv by lia.
    by destruct Hv as [->|[->|[->|[->|[->| ->]]]]].
Qed.

Lemma frame_type_wf_u8 (ft : FrameType.t) :
  FrameType.wf ft = true -> 0 <= FrameType.into_u8 ft < 256.
Proof. destruct ft; simpl; lia. Qed.

#[export] Hint Resolve from_bits_truncate_wf frame_type_from_wf flags_wf_u8
  frame_type_wf_u8 : foctet.

(** A one-bit flag is contained exactly when its bit is set. *)
Lemma contains_bit (a k : Z) :
  0 <= k ->
  FrameFlags.contains (FrameFlags.mk a) (FrameFlags.mk (2 ^ k)) = Z.testbit a k.
Proof.
  intros Hk. unfold FrameFlags.contains. simpl.
  apply Bool.eq_true_iff_eq. rewrite Z.eqb_eq. split.
  - intros H. apply (f_equal (fun z => Z.testbit z k)) in H.
    rewrite Z.land_spec, Z.pow2_bits_true in H by done.
    by rewrite andb_true_r in H.
  - intros H. apply Z.bits_inj'. intros i Hi.
    rewrite Z.land_spec, Z.pow2_bits_eqb by done.
    destruct (Z.eqb_spec k i) as [<-|]; [by rewrite H|apply andb_false_r].
Qed.

Lemma contains_set (f : FrameFlags.t) (i k : Z) :
  0 <= i -> 0 <= k ->
  FrameFlags.contains (FrameFlags.set_flag f (FrameFlags.mk (2 ^ i))) (FrameFlags.mk (2 ^ k))
  = (i =? k) || FrameFlags.contains f (FrameFlags.mk (2 ^ k)).
Proof.
  intros. destruct f as [b]. unfold FrameFlags.set_flag, FrameFlags.insert, FrameFlags.union.
  rewrite !contains_bit by done. cbn [FrameFlags.bits].
  rewrite Z.lor_spec, Z.pow2_bits_eqb by done. apply orb_comm.
Qed.

Lemma contains_unset (f : FrameFlags.t) (i k : Z) :
  0 <= i -> 0 <= k ->
  FrameFlags.contains (FrameFlags.unset_flag f (FrameFlags.mk (2 ^ i))) (FrameFlags.mk (2 ^ k))
  = negb (i =? k) && FrameFlags.contains f (FrameFlags.mk (2 ^ k)).
Proof.
  intros. destruct f as [b]. unfold FrameFlags.unset_flag, FrameFlags.remove.
  rewrite !contains_bit by done. cbn [FrameFlags.bits].
  rewrite Z.ldiff_spec, Z.pow2_bits_eqb by done. apply andb_comm.
Qed.

(** ** Lemmas on headers *)

(** [split_gets] runs the reads of a buffer one after the other. *)
Ltac split_gets :=
  repeat match goal with
    | |- context [get_u32 ?b] => destruct (get_u32 b) as [[? ?]|?|]; simpl; try done
    | |- context [get_u8 ?b] => destruct (get_u8 b) as [[? ?]|?|]; simpl; try done
    end.

Lemma header_wf_elim (h : FrameHeader.t) :
  FrameHeader.wf h = true ->
  StreamId.wf (FrameHeader.stream_id h) = true /\
  OperationId.wf (FrameHeader.operation_id h) = true /\
  FrameFlags.wf (FrameHeader.flags h) = true /\
  FrameType.wf (FrameHeader.frame_type h) = true /\
  is_u32 (FrameHeader.payload_len h) = true.
Proof. unfold FrameHeader.wf. rewrite !andb_true_iff. tauto. Qed.

Lemma len_header_bytes (h : FrameHeader.t) (n : Z) :
  len (header_bytes h n) = FRAME_HEADER_LEN.
Proof. done. Qed.

Lemma to_bytes_header (f : Frame.t) :
  Frame.to_bytes f = Ok (header_bytes (Frame.header f) (len (Frame.payload f))
                           ++ Frame.payload f).
Proof. done. Qed.

Lemma from_bytes_read (bs : bytes) :
  FRAME_HEADER_LEN <= len bs ->
  Frame.from_bytes bs =
  (let? (h, rest) := read_header bs in Ok (Frame.mk h rest)).
Proof.
  intros H. unfold Frame.from_bytes. rewrite (proj2 (Z.ltb_ge _ _)) by done.
  unfold read_header. split_gets.
Qed.

Lemma read_header_bytes (h : FrameHeader.t) (n : Z) (rest : bytes) :
  FrameHeader.wf h = true ->
  read_header (header_bytes h n ++ rest) =
  Ok (FrameHeader.mk (FrameHeader.stream_id h) (FrameHeader.operation_id h)
        (FrameHeader.flags h) (FrameHeader.frame_type h) (as_u32 n), rest).
Proof.
  intros (Hs & Ho & Hf & Ht & _)%header_wf_elim.
  unfold read_header, header_bytes. rewrite <- !app_assoc.
  rewrite get_put_u32. cbn [outcome_bind]. rewrite get_put_u32. cbn [outcome_bind].
  rewrite get_put_u8. cbn [outcome_bind]. rewrite get_put_u8. cbn [outcome_bind].
  rewrite get_put_u32. cbn [outcome_bind].
  rewrite !(as_u32_id (StreamId.val _)), !(as_u32_id (OperationId.val _)) by done.
  rewrite (as_u32_id (as_u32 n)) by auto with foctet.
  unfold Prelude.as_u8.
  pose proof (flags_wf_u8 _ Hf). pose proof (frame_type_wf_u8 _ Ht).
  rewrite !Z.mod_small by lia.
  rewrite from_bits_truncate_id, frame_type_from_into by done.
  by destruct h as [[] [] ? ? ?].
Qed.

(** Reading a header always succeeds on fourteen bytes, yields a well-formed
    header, and forgets only the unnamed flag bit of byte 8. *)
Lemma read_header_spec (hd : bytes) :
  len hd = FRAME_HEADER_LEN ->
  exists h, (forall rest, read_header (hd ++ rest) = Ok (h, rest)) /\
    FrameHeader.wf h = true /\
    header_bytes h (FrameHeader.payload_len h) = clear_unnamed hd.
Proof.
  intros Hlen. unfold len, FRAME_HEADER_LEN in Hlen.
  do 14 (destruct hd as [|? hd]; [simpl in Hlen; lia|]).
  destruct hd; [|simpl in Hlen; lia].
  eexists. split; [reflexivity|]. split.
  - unfold FrameHeader.wf, StreamId.wf, OperationId.wf. simpl.
    rewrite !be32_range, from_bits_truncate_wf, frame_type_from_wf; [done|].
    apply byte_val_range.
  - unfold header_bytes. cbn [FrameHeader.stream_id FrameHeader.operation_id
      FrameHeader.flags FrameHeader.frame_type FrameHeader.payload_len
      StreamId.val OperationId.val FrameFlags.bits FrameFlags.from_bits_truncate].
    rewrite as_u32_id by apply be32_range. rewrite !put_be32, frame_type_into_from.
    unfold put_u8. rewrite byte_of_val. done.
Qed.

Lemma frame_wf_elim (f : Frame.t) :
  Frame.wf f = true ->
  FrameHeader.wf (Frame.header f) = true /\ is_u32 (len (Frame.payload f)) = true.
Proof. unfold Frame.wf. by rewrite andb_true_iff. Qed.

Lemma header_wf_intro (h : FrameHeader.t) :
  StreamId.wf (FrameHeader.stream_id h) = true ->
  OperationId.wf (FrameHeader.operation_id h) = true ->
  FrameFlags.wf (FrameHeader.flags h) = true ->
  FrameType.wf (FrameHeader.frame_type h) = true ->
  is_u32 (FrameHeader.payload_len h) = true -> FrameHeader.wf h = true.
Proof. intros. unfold FrameHeader.wf. rewrite !andb_true_iff. tauto. Qed.

Lemma normal_wf (f : Frame.t) : Frame.wf f = true -> Frame.wf (Frame.normal f) = true.
Proof.
  intros [Hh Hp]%frame_wf_elim. apply header_wf_elim in Hh as (? & ? & ? & ? & _).
  unfold Frame.wf. change (Frame.payload (Frame.normal f)) with (Frame.payload f).
  rewrite Hp, andb_true_r.
  apply header_wf_intro; simpl; auto with foctet.
Qed.

Lemma normal_idem (f : Frame.t) : Frame.normal (Frame.normal f) = Frame.normal f.
Proof. done. Qed.

(** Fourteen bytes and more split into a header and a payload. *)
Lemma split_header (bs : bytes) :
  FRAME_HEADER_LEN <= len bs ->
  exists hd rest, bs = hd ++ rest /\ len hd = FRAME_HEADER_LEN.
Proof.
  intros H. exists (take 14 bs), (drop 14 bs). rewrite take_drop. split; [done|].
  unfold len, FRAME_HEADER_LEN in *. rewrite length_take. lia.
Qed.

Lemma clear_unnamed_app (hd rest : bytes) :
  len hd = FRAME_HEADER_LEN ->
  clear_unnamed (hd ++ rest) = clear_unnamed hd ++ rest.
Proof.
  intros H. unfold clear_unnamed. apply alter_app_l.
  unfold len, FRAME_HEADER_LEN in H. lia.
Qed.

Lemma from_bytes_encoded (f : Frame.t) :
  Frame.wf f = true ->
  Frame.from_bytes (header_bytes (Frame.header f) (len (Frame.payload f)) ++ Frame.payload f) =
  Ok (Frame.normal f).
Proof.
  intros [Hh Hp]%frame_wf_elim. rewrite from_bytes_read.
  - rewrite read_header_bytes by done. done.
  - rewrite len_app, len_header_bytes. pose proof (len_nonneg (Frame.payload f)). lia.
Qed.

(** ** Properties *)

(** C24: a well-formed frame survives its byte representation: parsing what
    [to_bytes] writes gives back the stream and operation ids, the flags, the
    type and the payload, with the length field set to the payload's length. *)
Theorem frame_to_from_bytes (f : Frame.t) :
  Frame.wf f = true ->
  (let? bs := Frame.to_bytes f in Frame.from_bytes bs) = Ok (Frame.normal f).
Proof.
  intros Hf. rewrite to_bytes_header. cbn [outcome_bind]. by apply from_bytes_encoded.
Qed.

Lemma frame_to_from_bytes_witness :
  Frame.wf sample_frame = true /\
  (let? bs := Frame.to_bytes sample_frame in Frame.from_bytes bs)
  = Ok (Frame.normal sample_frame).
Proof.
  split; [reflexivity|]. apply (frame_to_from_bytes sample_frame). reflexivity.
Defined.

(** [from_bytes] never panics.  It fails exactly on fewer than fourteen
    bytes; otherwise it returns a frame with a well-formed header whose payload
    is everything after the header, whatever the length field says. *)
Theorem frame_from_bytes_result (bs : bytes) :
  if len bs <? FRAME_HEADER_LEN
  then Frame.from_bytes bs = Err (Anyhow "Not enough bytes to read frame header")
  else exists h, Frame.from_bytes bs = Ok (Frame.mk h (drop 14 bs)) /\
         FrameHeader.wf h = true.
Proof.
  destruct (Z.ltb_spec (len bs) FRAME_HEADER_LEN) as [H|H].
  - unfold Frame.from_bytes. by rewrite (proj2 (Z.ltb_lt _ _)).
  - destruct (split_header bs H) as (hd & rest & -> & Hlen).
    destruct (read_header_spec hd Hlen) as (h & Hr & Hwf & _).
    exists h. rewrite from_bytes_read, Hr by done. split; [|done].
    cbn [outcome_bind]. rewrite drop_app_length'; [done|].
    unfold len, FRAME_HEADER_LEN in Hlen. lia.
Qed.

(** C25: parsing loses only the unnamed flag bit: a parsed frame whose length
    field agrees with its payload is written back as the very bytes it came
    from, with bit 7 of the flags byte cleared. *)
Theorem frame_from_to_bytes (bs : bytes) (f : Frame.t) :
  Frame.from_bytes bs = Ok f ->
  FrameHeader.payload_len (Frame.header f) = len (Frame.payload f) ->
  Frame.to_bytes f = Ok (clear_unnamed bs).
Proof.
  intros Hf Hlen. destruct (Z.ltb_spec (len bs) FRAME_HEADER_LEN) as [H|H].
  - unfold Frame.from_bytes in Hf. rewrite (proj2 (Z.ltb_lt _ _)) in Hf by done. done.
  - destruct (split_header bs H) as (hd & rest & -> & Hhd).
    destruct (read_header_spec hd Hhd) as (h & Hr & Hwf & Hb).
    rewrite from_bytes_read, Hr in Hf by done. cbn in Hf. inv_outcome. simpl in Hlen.
    rewrite to_bytes_header. cbn [Frame.header Frame.payload].
    rewrite <- Hlen, Hb, clear_unnamed_app by done. done.
Qed.

Lemma frame_from_to_bytes_witness :
  exists bs f, Frame.from_bytes bs = Ok f /\ Frame.to_bytes f = Ok (clear_unnamed bs).
Proof.
  exists (map byte_of [0; 0; 0; 1; 0; 0; 0; 2; 136; 1; 0; 0; 0; 2; 65; 66]).
  eexists. split; [reflexivity|]. apply frame_from_to_bytes; reflexivity.
Defined.

(** The five handshake predicates are exact: each holds of the value its
    constructor builds and of no other value, so no flags value is classified
    twice, and a value with an extra bit such as FIN is classified by none. *)
Theorem handshake_flags_exact (f : FrameFlags.t) :
  (FrameFlags.is_open_request f = true <-> f = FrameFlags.open_request) /\
  (FrameFlags.is_open_response f = true <-> f = FrameFlags.open_response) /\
  (FrameFlags.is_open_reset f = true <-> f = FrameFlags.open_reset) /\
  (FrameFlags.is_close_request f = true <-> f = FrameFlags.close_request) /\
  (FrameFlags.is_close_response f = true <-> f = FrameFlags.close_response) /\
  NoDup [FrameFlags.open_request; FrameFlags.open_response; FrameFlags.open_reset;
         FrameFlags.close_request; FrameFlags.close_response].
Proof.
  unfold FrameFlags.is_open_request, FrameFlags.is_open_response,
    FrameFlags.is_open_reset, FrameFlags.is_close_request,
    FrameFlags.is_close_response.
  rewrite !flags_eqb_eq. repeat (split; [done|]).
  apply (bool_decide_unpack _). vm_compute. done.
Qed.

(** [with_fin] sets FIN to the given value and changes no other flag, and
    nothing else of the header or the payload. *)
Theorem builder_with_fin_exact (b : FrameBuilder.t) (fin : bool) (k : Z) :
  0 <= k ->
  let b' := FrameBuilder.with_fin b fin in
  FrameFlags.contains (FrameHeader.flags (FrameBuilder.header b')) (FrameFlags.mk (2 ^ k))
  = (if k =? 3 then fin
     else FrameFlags.contains (FrameHeader.flags (FrameBuilder.header b))
            (FrameFlags.mk (2 ^ k))) /\
  FrameBuilder.header b'
  = FrameHeader.with_flags (FrameBuilder.header b)
      (FrameHeader.flags (FrameBuilder.header b')) /\
  FrameBuilder.payload b' = FrameBuilder.payload b.
Proof.
  intros Hk. split; [|by destruct fin].
  rewrite (Z.eqb_sym k 3). unfold FrameBuilder.with_fin.
  change FrameFlags.FIN with (FrameFlags.mk (2 ^ 3)).
  destruct fin; cbn [FrameBuilder.header FrameHeader.flags FrameHeader.with_flags].
  - rewrite contains_set by done. by destruct (3 =? k).
  - rewrite contains_unset by done. by destruct (3 =? k).
Qed.

Lemma builder_with_fin_exact_witness :
  let b := FrameBuilder.with_flags builder (FrameFlags.union FrameFlags.FIN FrameFlags.OPEN) in
  FrameFlags.contains
    (FrameHeader.flags (FrameBuilder.header (FrameBuilder.with_fin b false)))
    (FrameFlags.mk (2 ^ 4)) = true.
Proof.
  exact (proj1 (builder_with_fin_exact
    (FrameBuilder.with_flags builder (FrameFlags.union FrameFlags.FIN FrameFlags.OPEN))
    false 4 ltac:(lia))).
Defined.
