(* ===== verification/Codec.v ===== *)
(** * The frame codec

    foctet-core/src/codec.rs: the incremental decoder and the encoder that the
    multiplexer runs over the raw connection.  [decode] is the loop of
    [Decoder::decode] with its two states; it returns [None] when the loop runs
    out of fuel, which [decode_total] excludes.

    [drain] and [run_chunks] are the calls that a framed reader makes: it
    appends what arrives to its buffer and decodes until no frame is ready. *)

From S2P Require Import Prelude Ids Frame.

Local Open Scope Z_scope.
Local Open Scope outcome_scope.

Module DecodeState.

(** foctet-core/src/codec.rs:11-17, [DecodeState]. *)
Inductive t : Type :=
| ReadingHeader
| ReadingPayload (header : FrameHeader.t) (remaining : Z).

#[global] Instance t_eq_dec : EqDecision t.
Proof. solve_decision. Defined.

(** While a payload is awaited, what remains to be read is what the header
    announces. *)
Definition wf (s : t) : bool :=
  match s with
  | ReadingHeader => true
  | ReadingPayload h n => FrameHeader.wf h && (n =? FrameHeader.payload_len h)
  end.

(** The bytes the decoder has taken from the buffer and not yet returned. *)
Definition held (s : t) : Z :=
  match s with
  | ReadingHeader => 0
  | ReadingPayload _ _ => FRAME_HEADER_LEN
  end.

End DecodeState.

Module FrameCodec.

(** foctet-core/src/codec.rs:6-9, [FrameCodec]. *)
Record t : Type := mk { state : DecodeState.t }.

(** foctet-core/src/codec.rs:20-24, [FrameCodec::new]. *)
Definition new : t := mk DecodeState.ReadingHeader.

(** One turn of the loop: either it goes on in a new state, or the function
    returns.  Both leave the buffer. *)
Inductive turn : Type :=
| Continue (s : DecodeState.t) (src : bytes)
| Return (s : DecodeState.t) (src : bytes) (r : option Frame.t).

(** foctet-core/src/codec.rs:33-74, [FrameCodec::decode], the body of the
    loop. *)
Definition decode_turn (state : DecodeState.t) (src : bytes) : outcome error turn :=
  match state with
  | DecodeState.ReadingHeader =>
      if len src <? FRAME_HEADER_LEN
      then Ok (Return state src None)
      else
        let? (header_bytes, src) := split_to src FRAME_HEADER_LEN in
        let? (stream_id, header_bytes) := get_u32 header_bytes in
        let? (operation_id, header_bytes) := get_u32 header_bytes in
        let? (v, header_bytes) := get_u8 header_bytes in
        let flags := FrameFlags.from_bits_truncate v in
        let? (v, header_bytes) := get_u8 header_bytes in
        let frame_type := FrameType.from_u8 v in
        let? (payload_len, header_bytes) := get_u32 header_bytes in
        let header :=
          FrameHeader.mk (StreamId.mk stream_id) (OperationId.mk operation_id)
            flags frame_type (as_u32 payload_len) in
        Ok (Continue (DecodeState.ReadingPayload header payload_len) src)
  | DecodeState.ReadingPayload header remaining =>
      if len src <? remaining
      then Ok (Return state src None)
      else
        let? (payload, src) := split_to src remaining in
        let frame := Frame.mk header payload in
        Ok (Return DecodeState.ReadingHeader src (Some frame))
  end.

(** foctet-core/src/codec.rs:32-76, [FrameCodec::decode], the loop. *)
Fixpoint decode_loop (fuel : nat) (state : DecodeState.t) (src : bytes)
    : option (outcome error (t * bytes * option Frame.t)) :=
  match fuel with
  | O => None
  | S fuel' =>
      match decode_turn state src with
      | Ok (Continue s src') => decode_loop fuel' s src'
      | Ok (Return s src' r) => Some (Ok (mk s, src', r))
      | Err e => Some (Err e)
      | Panic => Some Panic
      end
  end.

(** Two turns are enough: a turn that goes on leaves [ReadingPayload], where
    every turn returns. *)
Definition decode_fuel : nat := 2.

(** foctet-core/src/codec.rs:27-77, [FrameCodec::decode]. *)
Definition decode (self : t) (src : bytes)
    : option (outcome error (t * bytes * option Frame.t)) :=
  decode_loop decode_fuel (state self) src.

(** foctet-core/src/codec.rs:79-95, [FrameCodec::encode]. *)
Definition encode (self : t) (frame : Frame.t) (dst : bytes) : outcome error (t * bytes) :=
  let dst := put_u32 dst (StreamId.val (FrameHeader.stream_id (Frame.header frame))) in
  let dst := put_u32 dst (OperationId.val (FrameHeader.operation_id (Frame.header frame))) in
  let dst := put_u8 dst (FrameFlags.bits (FrameHeader.flags (Frame.header frame))) in
  let dst := put_u8 dst (FrameType.into_u8 (FrameHeader.frame_type (Frame.header frame))) in
  let dst := put_u32 dst (as_u32 (len (Frame.payload frame))) in
  let dst := dst ++ Frame.payload frame in
  Ok (self, dst).

Definition wf (self : t) : bool := DecodeState.wf (state self).

(** ** The framed reader and writer *)

(** Decode until no frame is ready. *)
Fixpoint drain_loop (fuel : nat) (self : t) (buf : bytes)
    : option (list Frame.t * t * bytes) :=
  match fuel with
  | O => None
  | S fuel' =>
      match decode self buf with
      | Some (Ok (self', buf', None)) => Some ([], self', buf')
      | Some (Ok (self', buf', Some f)) =>
          match drain_loop fuel' self' buf' with
          | Some (fs, self'', buf'') => Some (f :: fs, self'', buf'')
          | None => None
          end
      | _ => None
      end
  end.

(** A frame takes at least its header from the buffer, except one whose header
    was taken by an earlier call: the length of the buffer and two bounds the
    calls. *)
Definition drain (self : t) (buf : bytes) : option (list Frame.t * t * bytes) :=
  drain_loop (S (S (length buf))) self buf.

(** Chunks of bytes arrive one after the other. *)
Fixpoint run_chunks (self : t) (buf : bytes) (chunks : list bytes)
    : option (list Frame.t * t * bytes) :=
  match chunks with
  | [] => Some ([], self, buf)
  | c :: cs =>
      match drain self (buf ++ c) with
      | Some (fs, self', buf') =>
          match run_chunks self' buf' cs with
          | Some (gs, self'', buf'') => Some (fs ++ gs, self'', buf'')
          | None => None
          end
      | None => None
      end
  end.

(** The writer encodes frames one after the other into one buffer. *)
Fixpoint encode_all (self : t) (frames : list Frame.t) (dst : bytes) : outcome error (t * bytes) :=
  match frames with
  | [] => Ok (self, dst)
  | f :: fs => let? (self', dst') := encode self f dst in encode_all self' fs dst'
  end.

End FrameCodec.

(** The bytes of a frame on the wire. *)
Definition frame_bytes (f : Frame.t) : bytes :=
  header_bytes (Frame.header f) (len (Frame.payload f)) ++ Frame.payload f.

(** The decoder [c] with buffer [src] knows the header [h], read now from the
    buffer or by an earlier call, and [rest] follows it. *)
Inductive starts : FrameCodec.t -> bytes -> FrameHeader.t -> bytes -> Prop :=
| starts_header (hd : bytes) (h : FrameHeader.t) (rest : bytes) :
    len hd = FRAME_HEADER_LEN ->
    header_bytes h (FrameHeader.payload_len h) = clear_unnamed hd ->
    (forall r, FrameCodec.decode FrameCodec.new (hd ++ r)
     = FrameCodec.decode (FrameCodec.mk
         (DecodeState.ReadingPayload h (FrameHeader.payload_len h))) r) ->
    starts FrameCodec.new (hd ++ rest) h rest
| starts_payload (h : FrameHeader.t) (rest : bytes) :
    starts (FrameCodec.mk (DecodeState.ReadingPayload h (FrameHeader.payload_len h)))
      rest h rest.

Import FrameCodec.

Abbreviation awaiting h :=
  (mk (DecodeState.ReadingPayload h (FrameHeader.payload_len h))).

(** [drains c buf fs c' buf']: decoding until no frame is ready returns [fs]. *)
Inductive drains : t -> bytes -> list Frame.t -> t -> bytes -> Prop :=
| drains_stop (c c' : t) (buf buf' : bytes) :
    decode c buf = Some (Ok (c', buf', None)) -> drains c buf [] c' buf'
| drains_more (c c1 c' : t) (buf buf1 buf' : bytes) (f : Frame.t) (fs : list Frame.t) :
    decode c buf = Some (Ok (c1, buf1, Some f)) ->
    drains c1 buf1 fs c' buf' -> drains c buf (f :: fs) c' buf'.

(** The measure that bounds the number of calls. *)
Definition drain_measure (c : t) (buf : bytes) : nat :=
  (length buf + match state c with DecodeState.ReadingHeader => 0 | _ => 1 end)%nat.

(** ** Lemmas on single calls *)

Lemma encode_bytes (c : t) (f : Frame.t) (dst : bytes) :
  encode c f dst = Ok (c, dst ++ frame_bytes f).
Proof.
  unfold encode, frame_bytes, header_bytes, put_u32, put_u8.
  rewrite <- !app_assoc. done.
Qed.

Lemma encode_all_bytes (c : t) (fs : list Frame.t) (dst : bytes) :
  encode_all c fs dst = Ok (c, dst ++ concat (map frame_bytes fs)).
Proof.
  revert dst. induction fs as [|f fs IH]; intros dst;
    cbn [encode_all map concat].
  - by rewrite app_nil_r.
  - rewrite encode_bytes. cbn [outcome_bind]. by rewrite IH, <- app_assoc.
Qed.

Lemma len_frame_bytes (f : Frame.t) :
  len (frame_bytes f) = FRAME_HEADER_LEN + len (Frame.payload f).
Proof. unfold frame_bytes. by rewrite len_app, len_header_bytes. Qed.

(** The four ways a call of [decode] ends. *)
Lemma decode_header_short (src : bytes) :
  len src < FRAME_HEADER_LEN -> decode new src = Some (Ok (new, src, None)).
Proof.
  intros H. unfold decode, decode_loop. simpl.
  by rewrite (proj2 (Z.ltb_lt _ _)).
Qed.

Lemma decode_payload_short (h : FrameHeader.t) (n : Z) (src : bytes) :
  len src < n ->
  decode (mk (DecodeState.ReadingPayload h n)) src
  = Some (Ok (mk (DecodeState.ReadingPayload h n), src, None)).
Proof.
  intros H. unfold decode, decode_loop. simpl.
  by rewrite (proj2 (Z.ltb_lt _ _)).
Qed.

Lemma decode_payload_done (h : FrameHeader.t) (p rest : bytes) :
  decode (mk (DecodeState.ReadingPayload h (len p))) (p ++ rest)
  = Some (Ok (new, rest, Some (Frame.mk h p))).
Proof.
  unfold decode, decode_loop. simpl. pose proof (len_nonneg rest).
  rewrite (proj2 (Z.ltb_ge _ _)) by (rewrite len_app; lia).
  by rewrite split_to_app.
Qed.

Lemma decode_turn_header (hd rest : bytes) (h : FrameHeader.t) (r : bytes) :
  len hd = FRAME_HEADER_LEN ->
  read_header hd = Ok (h, r) ->
  is_u32 (FrameHeader.payload_len h) = true ->
  decode_turn DecodeState.ReadingHeader (hd ++ rest)
  = Ok (Continue (DecodeState.ReadingPayload h (FrameHeader.payload_len h)) rest).
Proof.
  intros Hlen Hr Hn. unfold decode_turn. pose proof (len_nonneg rest).
  rewrite (proj2 (Z.ltb_ge _ _)) by (rewrite len_app; lia).
  rewrite <- Hlen, split_to_app. cbn [outcome_bind].
  revert Hr. unfold read_header. split_gets.
  intros [= <- <-]. simpl in *. by rewrite as_u32_id.
Qed.

Lemma decode_loop_S (fuel : nat) (s : DecodeState.t) (src : bytes) :
  decode_loop (S fuel) s src =
  match decode_turn s src with
  | Ok (Continue s' src') => decode_loop fuel s' src'
  | Ok (Return s' src' r) => Some (Ok (mk s', src', r))
  | Err e => Some (Err e)
  | Panic => Some Panic
  end.
Proof. done. Qed.

Lemma decode_payload_turn (h : FrameHeader.t) (n : Z) (src : bytes) (fuel : nat) :
  0 <= n ->
  decode_loop (S fuel) (DecodeState.ReadingPayload h n) src
  = decode (mk (DecodeState.ReadingPayload h n)) src.
Proof.
  intros Hn. unfold decode, decode_fuel. cbn [decode_loop state].
  unfold decode_turn. destruct (len src <? n) eqn:E; [done|].
  unfold split_to. by rewrite (proj2 (Z.leb_le _ _)) by lia.
Qed.

(** With a whole header in the buffer, decoding goes on to its payload. *)
Lemma decode_header_full (hd : bytes) :
  len hd = FRAME_HEADER_LEN ->
  exists h, (forall rest, read_header (hd ++ rest) = Ok (h, rest)) /\
    FrameHeader.wf h = true /\
    header_bytes h (FrameHeader.payload_len h) = clear_unnamed hd /\
    forall rest, decode new (hd ++ rest)
      = decode (mk (DecodeState.ReadingPayload h (FrameHeader.payload_len h))) rest.
Proof.
  intros Hlen. destruct (read_header_spec hd Hlen) as (h & Hr & Hwf & Hb).
  exists h. do 3 (split; [done|]). intros rest.
  apply header_wf_elim in Hwf as (_ & _ & _ & _ & Hn).
  pose proof (Hr []) as Hr'. rewrite app_nil_r in Hr'.
  change (decode new (hd ++ rest))
    with (decode_loop 2 DecodeState.ReadingHeader (hd ++ rest)).
  rewrite decode_loop_S, (decode_turn_header _ _ _ _ Hlen Hr' Hn).
  apply decode_payload_turn. apply is_u32_spec in Hn. lia.
Qed.

Lemma codec_wf_payload (h : FrameHeader.t) (n : Z) :
  wf (mk (DecodeState.ReadingPayload h n)) = true ->
  FrameHeader.wf h = true /\ n = FrameHeader.payload_len h /\ 0 <= n < 4294967296.
Proof.
  unfold wf. simpl. intros [Hh Hn%Z.eqb_eq]%andb_prop. split; [done|]. split; [done|].
  apply header_wf_elim in Hh as (_ & _ & _ & _ & Hu). apply is_u32_spec in Hu. lia.
Qed.

Lemma starts_app (c : t) (src rest y : bytes) (h : FrameHeader.t) :
  starts c src h rest -> starts c (src ++ y) h (rest ++ y).
Proof.
  destruct 1; [rewrite <- app_assoc|]; by constructor.
Qed.

Lemma starts_decode (c : t) (src rest : bytes) (h : FrameHeader.t) :
  starts c src h rest -> decode c src = decode (awaiting h) rest.
Proof. by destruct 1. Qed.

Lemma starts_len (c : t) (src rest : bytes) (h : FrameHeader.t) :
  starts c src h rest ->
  DecodeState.held (state c) + len src = FRAME_HEADER_LEN + len rest.
Proof. destruct 1; simpl; rewrite ?len_app; lia. Qed.

Lemma starts_split (c : t) (src rest : bytes) (h : FrameHeader.t) :
  starts c src h rest ->
  exists pending, src = pending ++ rest /\
    DecodeState.held (state c) + len pending = FRAME_HEADER_LEN.
Proof. destruct 1 as [hd|]; [by exists hd|by exists []]. Qed.

Lemma decode_known (c : t) (src : bytes) :
  wf c = true ->
  (c = new /\ len src < FRAME_HEADER_LEN) \/
  exists h rest, starts c src h rest /\ FrameHeader.wf h = true.
Proof.
  destruct c as [[|h n]]; intros Hwf.
  - destruct (decide (len src < FRAME_HEADER_LEN)) as [H|H]; [by left|right].
    destruct (split_header src ltac:(lia)) as (hd & rest & -> & Hhd).
    destruct (decode_header_full hd Hhd) as (h & _ & Hh & Hb & Hd).
    exists h, rest. split; [by constructor|done].
  - right. apply codec_wf_payload in Hwf as (Hh & -> & _).
    exists h, src. split; [constructor|done].
Qed.

(** Once the header is known, a call waits for the payload or returns it. *)
Lemma decode_awaiting (h : FrameHeader.t) (src : bytes) :
  FrameHeader.wf h = true ->
  (len src < FrameHeader.payload_len h /\
   decode (awaiting h) src = Some (Ok (awaiting h, src, None))) \/
  exists p rest, src = p ++ rest /\ len p = FrameHeader.payload_len h /\
    decode (awaiting h) src = Some (Ok (new, rest, Some (Frame.mk h p))).
Proof.
  intros (_ & _ & _ & _ & Hn)%header_wf_elim. apply is_u32_spec in Hn.
  destruct (decide (len src < FrameHeader.payload_len h)) as [H|H].
  - left. split; [done|]. by apply decode_payload_short.
  - right. exists (take (Z.to_nat (FrameHeader.payload_len h)) src),
      (drop (Z.to_nat (FrameHeader.payload_len h)) src).
    assert (len (take (Z.to_nat (FrameHeader.payload_len h)) src)
            = FrameHeader.payload_len h) as Hlen.
    { unfold len in *. rewrite length_take. lia. }
    split; [by rewrite take_drop|]. split; [done|].
    rewrite <- (take_drop (Z.to_nat (FrameHeader.payload_len h)) src) at 1.
    rewrite <- Hlen at 1. apply decode_payload_done.
Qed.

Lemma wf_awaiting (h : FrameHeader.t) : FrameHeader.wf h = true -> wf (awaiting h) = true.
Proof. intros H. unfold wf. simpl. by rewrite H, Z.eqb_refl. Qed.

(** What a call guarantees, whatever the buffer: it returns, it keeps the
    invariant, and what it does not depend on what arrives later. *)
Lemma decode_spec (c : t) (src : bytes) :
  wf c = true ->
  exists c' src' r, decode c src = Some (Ok (c', src', r)) /\ wf c' = true /\
    match r with
    | None =>
        (exists pending, src = pending ++ src' /\
           DecodeState.held (state c) + len pending = DecodeState.held (state c')) /\
        forall y, decode c (src ++ y) = decode c' (src' ++ y)
    | Some f =>
        c' = new /\ starts c src (Frame.header f) (Frame.payload f ++ src') /\
        FrameHeader.wf (Frame.header f) = true /\
        len (Frame.payload f) = FrameHeader.payload_len (Frame.header f) /\
        forall y, decode c (src ++ y) = Some (Ok (c', src' ++ y, Some f))
    end.
Proof.
  intros Hwf. destruct (decode_known c src Hwf) as [[-> H]|(h & rest & Hs & Hh)].
  - exists new, src, None. rewrite decode_header_short by done.
    do 2 (split; [done|]). split; [by exists []|done].
  - rewrite (starts_decode _ _ _ _ Hs).
    destruct (decode_awaiting h rest Hh) as [[Hl Hd]|(p & rest' & -> & Hp & Hd)];
      rewrite Hd.
    + exists (awaiting h), rest, None. split; [done|]. split; [by apply wf_awaiting|].
      split; [exact (starts_split _ _ _ _ Hs)|].
      intros y. apply starts_decode. by apply starts_app.
    + exists new, rest', (Some (Frame.mk h p)). do 6 (split; [done|]).
      intros y. pose proof (starts_app _ _ _ y _ Hs) as Hs'.
      rewrite (starts_decode _ _ _ _ Hs'), <- app_assoc.
      cbn [Frame.payload Frame.header] in *. rewrite <- Hp. apply decode_payload_done.
Qed.

(** ** Lemmas on sequences of calls *)

Lemma drain_loop_drains (fuel : nat) (c c' : t) (buf buf' : bytes) (fs : list Frame.t) :
  drain_loop fuel c buf = Some (fs, c', buf') -> drains c buf fs c' buf'.
Proof.
  revert c buf fs. induction fuel as [|fuel IH]; intros c buf fs; [done|].
  cbn [drain_loop]. destruct (decode c buf) as [[[[c1 b1] [f|]]| |]|] eqn:Hd; try done.
  - destruct (drain_loop fuel c1 b1) as [[[gs c2] b2]|] eqn:Hl; [|done].
    intros [= <- <- <-]. eapply drains_more; eauto.
  - intros [= <- <- <-]. by apply drains_stop.
Qed.

Lemma drains_det (c c1 c2 : t) (buf b1 b2 : bytes) (fs gs : list Frame.t) :
  drains c buf fs c1 b1 -> drains c buf gs c2 b2 -> fs = gs /\ c1 = c2 /\ b1 = b2.
Proof.
  intros H. revert gs c2 b2.
  induction H as [c c' buf buf' Hd|c cm c' buf bm buf' f fs Hd H IH];
    intros gs c2 b2 H2; inversion H2; simplify_eq; [done|].
  by edestruct IH as (-> & -> & ->); [eassumption|].
Qed.

Lemma drain_loop_total (fuel : nat) (c : t) (buf : bytes) :
  wf c = true -> (drain_measure c buf < fuel)%nat ->
  exists fs c' buf', drain_loop fuel c buf = Some (fs, c', buf') /\ wf c' = true.
Proof.
  revert c buf. induction fuel as [|fuel IH]; intros c buf Hwf Hm; [lia|].
  cbn [drain_loop]. destruct (decode_spec c buf Hwf) as (c1 & b1 & r & -> & Hwf1 & Hr).
  destruct r as [f|]; [|by eauto 10].
  destruct Hr as (-> & Hs & _ & Hp & _).
  destruct (IH new b1) as (fs & c' & b' & -> & Hwf'); [done| |by eauto 10].
  pose proof (starts_len _ _ _ _ Hs) as Hl. rewrite len_app in Hl.
  unfold drain_measure in *.
  destruct c as [[|h n]]; simpl in *; unfold len, FRAME_HEADER_LEN in *; lia.
Qed.

Lemma drain_drains (c : t) (buf : bytes) :
  wf c = true ->
  exists fs c' buf', drain c buf = Some (fs, c', buf') /\ drains c buf fs c' buf' /\
    wf c' = true.
Proof.
  intros Hwf.
  destruct (drain_loop_total (S (S (length buf))) c buf Hwf) as (fs & c' & b' & Hd & Hwf').
  - unfold drain_measure. destruct (state c); lia.
  - exists fs, c', b'. split; [done|]. split; [|done]. by eapply drain_loop_drains.
Qed.

(** Draining what has arrived and then what arrives next is draining both. *)
Lemma drains_app (c c1 c2 : t) (x y b1 b2 : bytes) (fs gs : list Frame.t) :
  wf c = true -> drains c x fs c1 b1 -> drains c1 (b1 ++ y) gs c2 b2 ->
  drains c (x ++ y) (fs ++ gs) c2 b2.
Proof.
  intros Hwf H. revert Hwf gs c2 b2.
  induction H as [c c' buf buf' Hd|c cm c' buf bm buf' f fs Hd H IH];
    intros Hwf gs c2 b2 H2;
    destruct (decode_spec c buf Hwf) as (cx & bx & r & Hd' & Hwf' & Hr);
    rewrite Hd in Hd'; simplify_eq.
  - destruct Hr as [_ Hy]. specialize (Hy y).
    inversion H2; simplify_eq; rewrite <- Hy in *;
      [by apply drains_stop|eapply drains_more; eauto].
  - destruct Hr as (-> & _ & _ & _ & Hy). simpl.
    eapply drains_more; [apply Hy|]. by apply IH.
Qed.

(** After draining, the decoder has nothing to return. *)
Lemma drains_quiet (c c' : t) (buf buf' : bytes) (fs : list Frame.t) :
  wf c = true -> drains c buf fs c' buf' -> drains c' buf' [] c' buf'.
Proof.
  intros Hwf H. revert Hwf.
  induction H as [c c' buf buf' Hd|c cm c' buf bm buf' f fs Hd H IH]; intros Hwf;
    destruct (decode_spec c buf Hwf) as (cx & bx & r & Hd' & Hwf' & Hr);
    rewrite Hd in Hd'; simplify_eq.
  - destruct Hr as [_ Hy]. specialize (Hy []). rewrite !app_nil_r in Hy.
    apply drains_stop. by rewrite <- Hy.
  - by apply IH.
Qed.

Lemma run_chunks_spec (c : t) (buf : bytes) (chunks : list bytes) :
  wf c = true -> drains c buf [] c buf ->
  exists fs c' buf', run_chunks c buf chunks = Some (fs, c', buf') /\
    drains c (buf ++ concat chunks) fs c' buf'.
Proof.
  revert c buf. induction chunks as [|x chunks IH]; intros c buf Hwf Hq;
    cbn [run_chunks concat].
  - exists [], c, buf. by rewrite app_nil_r.
  - destruct (drain_drains c (buf ++ x) Hwf) as (fs & c1 & b1 & -> & Hd & Hwf1).
    destruct (IH c1 b1 Hwf1) as (gs & c2 & b2 & -> & Hd2).
    { exact (drains_quiet _ _ _ _ _ Hwf Hd). }
    exists (fs ++ gs), c2, b2. split; [done|]. rewrite app_assoc.
    exact (drains_app _ _ _ _ _ _ _ _ _ Hwf Hd Hd2).
Qed.

Lemma drains_new_nil : drains new [] [] new [].
Proof. apply drains_stop. by rewrite decode_header_short. Qed.

Lemma drains_drain (c c' : t) (buf buf' : bytes) (fs : list Frame.t) :
  wf c = true -> drains c buf fs c' buf' -> drain c buf = Some (fs, c', buf').
Proof.
  intros Hwf H. destruct (drain_drains c buf Hwf) as (gs & c1 & b1 & -> & Hd & _).
  by destruct (drains_det _ _ _ _ _ _ _ _ H Hd) as (-> & -> & ->).
Qed.

(** A well-formed frame in front of the buffer is the next to be returned. *)
Lemma decode_frame_bytes (f : Frame.t) (rest : bytes) :
  Frame.wf f = true ->
  decode new (frame_bytes f ++ rest) = Some (Ok (new, rest, Some (Frame.normal f))).
Proof.
  intros [Hh Hp]%frame_wf_elim. unfold frame_bytes. rewrite <- app_assoc.
  destruct (decode_header_full _ (len_header_bytes (Frame.header f) (len (Frame.payload f))))
    as (h & Hr & _ & _ & ->).
  specialize (Hr []). rewrite read_header_bytes in Hr by done. simplify_eq.
  cbn [FrameHeader.payload_len]. rewrite as_u32_id by done.
  rewrite decode_payload_done. unfold Frame.normal. by rewrite as_u32_id.
Qed.

Lemma drains_frames (fs : list Frame.t) :
  Forall (fun f => Frame.wf f = true) fs ->
  drains new (concat (map frame_bytes fs)) (map Frame.normal fs) new [].
Proof.
  induction 1 as [|f fs Hf Hfs IH]; cbn [map concat].
  - apply drains_new_nil.
  - eapply drains_more; [by apply decode_frame_bytes|done].
Qed.

(** Frames on the wire, cut anywhere, are read back. *)
Lemma run_chunks_frames (fs : list Frame.t) (chunks : list bytes) :
  Forall (fun f => Frame.wf f = true) fs ->
  concat chunks = concat (map frame_bytes fs) ->
  run_chunks new [] chunks = Some (map Frame.normal fs, new, []).
Proof.
  intros Hfs Hc.
  destruct (run_chunks_spec new [] chunks eq_refl drains_new_nil)
    as (gs & c' & b' & -> & Hd).
  simpl in Hd. rewrite Hc in Hd.
  by destruct (drains_det _ _ _ _ _ _ _ _ (drains_frames fs Hfs) Hd) as (-> & -> & ->).
Qed.

(** A frame assembled from a well-formed header and the payload it announces. *)
Lemma frame_of_header (f : Frame.t) :
  FrameHeader.wf (Frame.header f) = true ->
  len (Frame.payload f) = FrameHeader.payload_len (Frame.header f) ->
  Frame.wf f = true /\ Frame.normal f = f.
Proof.
  intros Hh Hp. pose proof Hh as (_ & _ & _ & _ & Hn)%header_wf_elim.
  split.
  - unfold Frame.wf. by rewrite Hh, Hp, Hn.
  - unfold Frame.normal. rewrite Hp, as_u32_id by done. by destruct f as [[] ?].
Qed.

Lemma decode_more_fuel (c : t) (src : bytes) (fuel : nat) :
  is_Some (decode c src) -> decode c src = decode_loop (decode_fuel + fuel) (state c) src.
Proof.
  unfold decode, decode_fuel. cbn [Nat.add]. rewrite !decode_loop_S.
  destruct (decode_turn (state c) src) as [[s' src'|]| |]; try done.
  rewrite !decode_loop_S.
  destruct (decode_turn s' src') as [[s2 src2|]| |]; try done.
  by intros [].
Qed.

Lemma starts_to_bytes (bs rest : bytes) (f : Frame.t) :
  starts new bs (Frame.header f) (Frame.payload f ++ rest) ->
  len (Frame.payload f) = FrameHeader.payload_len (Frame.header f) ->
  exists front, bs = front ++ rest /\ Frame.to_bytes f = Ok (clear_unnamed front).
Proof.
  inversion 1 as [hd h r Hhd Hb Hd|]; subst. intros Hp.
  exists (hd ++ Frame.payload f). rewrite app_assoc. split; [done|].
  by rewrite to_bytes_header, Hp, Hb, clear_unnamed_app.
Qed.

Lemma drains_conserves (bs rest : bytes) (fs : list Frame.t) (c : t) :
  drains new bs fs c rest ->
  exists fronts pending,
    bs = concat fronts ++ pending ++ rest /\
    Forall2 (fun f front => Frame.to_bytes f = Ok (clear_unnamed front)) fs fronts /\
    len pending = DecodeState.held (state c).
Proof.
  intros H. remember new as c0 eqn:Hc0. revert Hc0.
  induction H as [c0 c' buf buf' Hd|c0 cm c' buf bm buf' f fs Hd H IH]; intros ->;
    destruct (decode_spec new buf eq_refl) as (cx & bx & r & Hd' & Hwf' & Hr);
    rewrite Hd in Hd'; simplify_eq.
  - destruct Hr as [(pending & -> & Hl) _].
    by exists [], pending.
  - destruct Hr as (-> & Hs & _ & Hp & _).
    destruct (starts_to_bytes _ _ _ Hs Hp) as (front & -> & Hf).
    destruct (IH eq_refl) as (fronts & pending & -> & Hfs & Hl).
    exists (front :: fronts), pending. simpl. rewrite <- app_assoc. auto.
Qed.

(** ** Properties *)

(** C9: the encoder and the incremental decoder are inverse on streams: however
    the bytes written for a list of well-formed frames are cut into chunks on
    their way, the reader returns exactly those frames, in order, and is left
    with an empty buffer. *)
Theorem codec_stream_roundtrip (fs : list Frame.t) (chunks : list bytes) (c : t)
    (wire : bytes) :
  Forall (fun f => Frame.wf f = true) fs ->
  encode_all new fs [] = Ok (c, wire) ->
  concat chunks = wire ->
  run_chunks new [] chunks = Some (map Frame.normal fs, new, []).
Proof.
  intros Hfs He Hc. rewrite encode_all_bytes in He.
  injection He as <- Hw. simpl in Hw. subst wire. by apply run_chunks_frames.
Qed.

Lemma codec_stream_roundtrip_witness :
  exists chunks, length chunks = 3%nat /\
    run_chunks new [] chunks
    = Some (map Frame.normal [sample_frame; Frame.empty], new, []).
Proof.
  exists [take 3 (frame_bytes sample_frame); drop 3 (frame_bytes sample_frame);
     frame_bytes Frame.empty]. split; [reflexivity|].
  eapply (codec_stream_roundtrip [sample_frame; Frame.empty]).
  - repeat constructor.
  - reflexivity.
  - reflexivity.
Defined.

(** C21: decoding does not depend on how the input is cut: for any bytes,
    also malformed ones, feeding them in chunks or at once gives the same frames,
    the same state and the same unread bytes, and always terminates. *)
Theorem decode_chunking_irrelevant (chunks : list bytes) :
  run_chunks new [] chunks = drain new (concat chunks) /\
  is_Some (drain new (concat chunks)).
Proof.
  destruct (run_chunks_spec new [] chunks eq_refl drains_new_nil)
    as (gs & c' & b' & -> & Hd).
  simpl in Hd. rewrite (drains_drain new _ _ _ _ eq_refl Hd). split; [done|by eexists].
Qed.

(** C22: [decode] always returns: two turns of its loop are enough for any
    state and buffer, more change nothing, and neither an error nor a panic of the
    buffer reads is possible.  It keeps the invariant that the payload awaited is
    the one the header announces, and the frames it returns are well formed with a
    length field equal to their payload's length. *)
Theorem decode_total (c : t) (src : bytes) (fuel : nat) :
  wf c = true ->
  exists c' src' r,
    decode c src = Some (Ok (c', src', r)) /\
    decode_loop (decode_fuel + fuel) (state c) src = Some (Ok (c', src', r)) /\
    wf c' = true /\
    match r with
    | None => True
    | Some f => c' = new /\ Frame.wf f = true /\ Frame.normal f = f
    end.
Proof.
  intros Hwf. destruct (decode_spec c src Hwf) as (c' & src' & r & Hd & Hwf' & Hr).
  exists c', src', r. split; [done|]. split; [|split; [done|]].
  - rewrite <- Hd. symmetry. apply decode_more_fuel. by rewrite Hd.
  - destruct r as [f|]; [|done]. destruct Hr as (-> & _ & Hh & Hp & _).
    split; [done|]. by apply frame_of_header.
Qed.

Lemma decode_total_witness :
  exists c' src' r, decode new (frame_bytes sample_frame) = Some (Ok (c', src', r)) /\
    wf c' = true.
Proof.
  destruct (decode_total new (frame_bytes sample_frame) 5 eq_refl)
    as (c' & src' & r & H & _ & Hwf & _).
  exact (ex_intro _ c' (ex_intro _ src' (ex_intro _ r (conj H Hwf)))).
Defined.

(** C23: no byte is lost or invented: the input splits into the frames
    returned, the header held while its payload is awaited, and the unread rest;
    each frame, written again, gives its own piece of the input back (with the
    unnamed flag bit cleared). *)
Theorem decode_conserves_bytes (bs rest : bytes) (fs : list Frame.t) (c : t) :
  drain new bs = Some (fs, c, rest) ->
  exists fronts pending,
    bs = concat fronts ++ pending ++ rest /\
    Forall2 (fun f front => Frame.to_bytes f = Ok (clear_unnamed front)) fs fronts /\
    len pending = DecodeState.held (state c).
Proof.
  intros H%drain_loop_drains. by apply drains_conserves.
Qed.

Lemma decode_conserves_bytes_witness :
  exists fronts pending,
    (frame_bytes sample_frame ++ take 15 (frame_bytes sample_frame))
    = concat fronts ++ pending ++ take 1 (Frame.payload sample_frame) /\
    len pending = FRAME_HEADER_LEN.
Proof.
  destruct (decode_conserves_bytes
    (frame_bytes sample_frame ++ take 15 (frame_bytes sample_frame))
    (take 1 (Frame.payload sample_frame)) [Frame.normal sample_frame]
    (awaiting (Frame.header (Frame.normal sample_frame))) eq_refl)
    as (fronts & pending & H & _ & Hl).
  exact (ex_intro _ fronts (ex_intro _ pending (conj H Hl))).
Defined.

(** The codec and [Frame::to_bytes] write the same representation, so a
    frame sent as one message over QUIC and a frame sent through the multiplexer
    over TCP have the same bytes; the encoder appends them and keeps its state. *)
Theorem encode_agrees_to_bytes (c : t) (f : Frame.t) (dst : bytes) :
  encode c f dst = (let? bs := Frame.to_bytes f in Ok (c, dst ++ bs)).
Proof. rewrite encode_bytes, to_bytes_header. done. Qed.

(** C39: The length field has 32 bits, and the encoder does not refuse what does not
    fit.  Encoding a frame succeeds whatever the length of its payload, and what a reader
    makes of the bytes is a frame with the first (length mod 2^32) bytes of the payload
    only; it takes the others for the start of the next frame.  So a payload of 4 GiB or
    more never arrives as it was sent. *)
Theorem decode_length_truncated (c : t) (f : Frame.t) (dst rest : bytes)
    (Hf : FrameHeader.wf (Frame.header f) = true) :
  let n := Z.to_nat (len (Frame.payload f) mod 4294967296) in
  exists bs, encode c f dst = Ok (c, dst ++ bs) /\
    decode new (bs ++ rest) =
      Some (Ok (new, drop n (Frame.payload f) ++ rest,
                Some (Frame.mk (Frame.header (Frame.normal f)) (take n (Frame.payload f))))) /\
    (4294967296 <= len (Frame.payload f) -> take n (Frame.payload f) <> Frame.payload f).
Proof.
  intros n. exists (frame_bytes f). split; [apply encode_bytes|].
  assert (Hn : len (take n (Frame.payload f)) = len (Frame.payload f) mod 4294967296).
  { unfold n, len. rewrite length_take.
    pose proof (Z.mod_le (Z.of_nat (length (Frame.payload f))) 4294967296).
    pose proof (Z.mod_pos_bound (Z.of_nat (length (Frame.payload f))) 4294967296). lia. }
  split.
  - unfold frame_bytes. rewrite <- app_assoc.
    destruct (decode_header_full _ (len_header_bytes (Frame.header f) (len (Frame.payload f))))
      as (h & Hr & _ & _ & ->).
    specialize (Hr []). rewrite read_header_bytes in Hr by done. simplify_eq.
    pose proof (decode_payload_done (Frame.header (Frame.normal f))
      (take n (Frame.payload f)) (drop n (Frame.payload f) ++ rest)) as H.
    rewrite app_assoc, take_drop, Hn in H. exact H.
  - intros Hlong E. rewrite E in Hn.
    pose proof (Z.mod_pos_bound (len (Frame.payload f)) 4294967296). lia.
Qed.

(** A payload of [n] bytes, which is not to be evaluated. *)
Definition long_payload (n : Z) : bytes := replicate (Z.to_nat n) (byte_of 7).

Lemma len_long_payload (n : Z) : 0 <= n -> len (long_payload n) = n.
Proof. intros Hn. unfold len, long_payload. rewrite length_replicate. by apply Z2Nat.id. Qed.

Lemma take_long_payload (n : Z) : 1 <= n -> take 1 (long_payload n) = [byte_of 7].
Proof. intros Hn. unfold long_payload. rewrite take_replicate, Nat.min_l by lia. done. Qed.

Lemma decode_length_truncated_witness :
  exists p bs, len p = 4294967297 /\
    encode new (Frame.mk (Frame.header sample_frame) p) [] = Ok (new, bs) /\
    decode new bs = Some (Ok (new, drop 1 p,
      Some (Frame.mk (Frame.header (Frame.normal (Frame.mk (Frame.header sample_frame) p)))
        [byte_of 7]))) /\
    [byte_of 7] <> p.
Proof.
  enough (H : forall p, len p = 4294967297 -> take 1 p = [byte_of 7] -> exists p bs,
    len p = 4294967297 /\ encode new (Frame.mk (Frame.header sample_frame) p) [] = Ok (new, bs) /\
    decode new bs = Some (Ok (new, drop 1 p,
      Some (Frame.mk (Frame.header (Frame.normal (Frame.mk (Frame.header sample_frame) p)))
        [byte_of 7]))) /\ [byte_of 7] <> p)
    by exact (H (long_payload 4294967297) (len_long_payload 4294967297 ltac:(lia))
      (take_long_payload 4294967297 ltac:(lia))).
  intros p Hp Ht. destruct (decode_length_truncated new (Frame.mk (Frame.header sample_frame) p) [] []
    eq_refl) as (bs & He & Hd & Hne).
  cbn [Frame.payload] in Hd, Hne. rewrite Hp in Hd, Hne.
  change (Z.to_nat (4294967297 mod 4294967296)) with 1%nat in Hd, Hne.
  rewrite !app_nil_r, Ht in Hd. rewrite Ht in Hne.
  exists p, bs. split; [exact Hp|]. split; [exact He|]. split; [exact Hd|]. exact (Hne ltac:(lia)).
Defined.
