(* ===== verification/Tokio.v ===== *)
(** * Asynchronous primitives

    The multiplexer is written against tokio: bounded [mpsc] channels,
    [oneshot] channels, a mutex, and futures that are polled.  A channel is its
    queue, its capacity and which of its ends are alive; a call that would wait
    is [Pending].

    [async S A] is a future run from its start over the state [S] that its task
    owns or shares.  It stops at the first [await] that cannot complete, with
    the state as it is at that point, which is also what remains when the
    future is dropped there. *)

From S2P Require Import Prelude.

Inductive poll (A : Type) : Type :=
| Ready (a : A)
| Pending.

Arguments Ready {A} a.
Arguments Pending {A}.

Module Mpsc.

Record t (A : Type) : Type := mk {
  queue : list A;
  capacity : nat;
  tx_alive : bool;
  rx_alive : bool
}.

Arguments mk {A} queue capacity tx_alive rx_alive.
Arguments queue {A} t.
Arguments capacity {A} t.
Arguments tx_alive {A} t.
Arguments rx_alive {A} t.

(** [mpsc::channel(n)]. *)
Definition channel {A : Type} (n : nat) : t A := mk [] n true true.

Inductive sent (A : Type) : Type :=
| Sent (ch : t A)
| Full
| Closed.

Arguments Sent {A} ch.
Arguments Full {A}.
Arguments Closed {A}.

Definition push {A : Type} (ch : t A) (x : A) : t A :=
  mk (queue ch ++ [x]) (capacity ch) (tx_alive ch) (rx_alive ch).

(** [Sender::try_send]: an error when the receiver is gone or the queue is
    full. *)
Definition try_send {A : Type} (ch : t A) (x : A) : sent A :=
  if negb (rx_alive ch) then Closed
  else if Nat.ltb (length (queue ch)) (capacity ch) then Sent (push ch x) else Full.

Inductive received (A : Type) : Type :=
| Received (x : A) (ch : t A)
| Empty
| Disconnected.

Arguments Received {A} x ch.
Arguments Empty {A}.
Arguments Disconnected {A}.

(** [Receiver::try_recv]: the oldest message; without one, [Disconnected] once
    every sender is gone. *)
Definition try_recv {A : Type} (ch : t A) : received A :=
  match queue ch with
  | x :: q => Received x (mk q (capacity ch) (tx_alive ch) (rx_alive ch))
  | [] => if tx_alive ch then Empty else Disconnected
  end.

(** Dropping the last sender, or the receiver with what is queued. *)
Definition drop_tx {A : Type} (ch : t A) : t A :=
  mk (queue ch) (capacity ch) false (rx_alive ch).

Definition drop_rx {A : Type} (ch : t A) : t A :=
  mk [] (capacity ch) (tx_alive ch) false.

(** [Receiver::is_closed]. *)
Definition is_closed {A : Type} (ch : t A) : bool := negb (tx_alive ch && rx_alive ch).

(** The queue never outgrows the capacity. *)
Definition wf {A : Type} (ch : t A) : bool := Nat.leb (length (queue ch)) (capacity ch).

End Mpsc.

Module Oneshot.

Record t (A : Type) : Type := mk {
  value : option A;
  tx_alive : bool;
  rx_alive : bool
}.

Arguments mk {A} value tx_alive rx_alive.
Arguments value {A} t.
Arguments tx_alive {A} t.
Arguments rx_alive {A} t.

Definition channel {A : Type} : t A := mk None true true.

(** [Sender::send] consumes the sender; the value comes back when the receiver
    is gone. *)
Definition send {A : Type} (ch : t A) (x : A) : t A * bool :=
  if rx_alive ch then (mk (Some x) false true, true) else (mk None false false, false).

Definition drop_tx {A : Type} (ch : t A) : t A := mk (value ch) false (rx_alive ch).

Definition drop_rx {A : Type} (ch : t A) : t A := mk None (tx_alive ch) false.

(** Awaiting the receiver: the value, an error once the sender is gone without
    one. *)
Definition recv {A : Type} (ch : t A) : poll (option A) :=
  match value ch with
  | Some x => Ready (Some x)
  | None => if tx_alive ch then Pending else Ready None
  end.

End Oneshot.

Module Mutex.

(** A [std::sync::Mutex]: locking fails once a holder has panicked. *)
Record t (A : Type) : Type := mk { value : A; poisoned : bool }.

Arguments mk {A} value poisoned.
Arguments value {A} t.
Arguments poisoned {A} t.

Definition new {A : Type} (x : A) : t A := mk x false.

Definition lock {A : Type} (m : t A) : option A :=
  if poisoned m then None else Some (value m).

End Mutex.

Definition async (S A : Type) : Type := S -> S * poll (outcome error A).

Definition aret {S A : Type} (a : A) : async S A := fun s => (s, Ready (Ok a)).

Definition afail {S A : Type} (e : error) : async S A := fun s => (s, Ready (Err e)).

Definition apanic {S A : Type} : async S A := fun s => (s, Ready Panic).

Definition abind {S A B : Type} (k : A -> async S B) (m : async S A) : async S B :=
  fun s =>
    match m s with
    | (s', Ready (Ok a)) => k a s'
    | (s', Ready (Err e)) => (s', Ready (Err e))
    | (s', Ready Panic) => (s', Ready Panic)
    | (s', Pending) => (s', Pending)
    end.

Definition aget {S : Type} : async S S := fun s => (s, Ready (Ok s)).

Definition amodify {S : Type} (f : S -> S) : async S unit := fun s => (f s, Ready (Ok tt)).

Declare Scope async_scope.
Delimit Scope async_scope with async.

Notation "'await' x := m 'in' k" := (abind (fun x => k) m)
  (at level 10, x pattern, m at level 100, k at level 200,
   format "'[v' 'await'  x  :=  m  'in' '/' k ']'") : async_scope.

Notation "m ;;; k" := (abind (fun _ => k) m)
  (at level 90, right associativity) : async_scope.

(** A future that preserves a property of its state wherever it stops. *)
Definition keeps {S A : Type} (P : S -> Prop) (m : async S A) : Prop :=
  forall s, P s -> P (m s).1.

(** ** Lemmas *)

Lemma keeps_ret {S A : Type} (P : S -> Prop) (a : A) : keeps P (aret a).
Proof. by intros s. Qed.

Lemma keeps_fail {S A : Type} (P : S -> Prop) (e : error) : keeps P (@afail S A e).
Proof. by intros s. Qed.

Lemma keeps_get {S : Type} (P : S -> Prop) : keeps P aget.
Proof. by intros s. Qed.

Lemma keeps_bind {S A B : Type} (P : S -> Prop) (k : A -> async S B) (m : async S A) :
  keeps P m -> (forall a, keeps P (k a)) -> keeps P (abind k m).
Proof.
  intros Hm Hk s Hs. specialize (Hm s Hs). unfold abind.
  destruct (m s) as [s' [[a|e|]|]]; [by apply Hk|done..].
Qed.

Lemma try_send_room {A : Type} (ch : Mpsc.t A) (x : A) :
  Mpsc.rx_alive ch = true -> (length (Mpsc.queue ch) < Mpsc.capacity ch)%nat ->
  Mpsc.try_send ch x = Mpsc.Sent (Mpsc.push ch x).
Proof.
  intros Hr Hl. unfold Mpsc.try_send. rewrite Hr. simpl.
  by rewrite (proj2 (Nat.ltb_lt _ _)).
Qed.

Lemma try_send_Sent {A : Type} (ch ch' : Mpsc.t A) (x : A) :
  Mpsc.try_send ch x = Mpsc.Sent ch' ->
  ch' = Mpsc.push ch x /\ Mpsc.rx_alive ch = true /\
  (length (Mpsc.queue ch) < Mpsc.capacity ch)%nat.
Proof.
  unfold Mpsc.try_send. destruct (Mpsc.rx_alive ch); simpl; [|done].
  case_match eqn:E; [|done]. intros [= <-]. apply Nat.ltb_lt in E. done.
Qed.

Lemma try_send_Closed {A : Type} (ch : Mpsc.t A) (x : A) :
  Mpsc.try_send ch x = Mpsc.Closed <-> Mpsc.rx_alive ch = false.
Proof.
  unfold Mpsc.try_send. destruct (Mpsc.rx_alive ch); simpl; [|done].
  by case_match.
Qed.

Lemma try_send_wf {A : Type} (ch ch' : Mpsc.t A) (x : A) :
  Mpsc.try_send ch x = Mpsc.Sent ch' -> Mpsc.wf ch' = true.
Proof.
  intros (-> & _ & H)%try_send_Sent. unfold Mpsc.wf, Mpsc.push. simpl.
  apply Nat.leb_le. rewrite length_app. simpl. lia.
Qed.

Lemma abind_ok {S A B : Type} (k : A -> async S B) (m : async S A) (s s' : S) (a : A) :
  m s = (s', Ready (Ok a)) -> abind k m s = k a s'.
Proof. intros H. unfold abind. by rewrite H. Qed.

Lemma try_recv_rx {A : Type} (ch ch' : Mpsc.t A) (x : A) :
  Mpsc.try_recv ch = Mpsc.Received x ch' ->
  Mpsc.queue ch = x :: Mpsc.queue ch' /\ Mpsc.rx_alive ch' = Mpsc.rx_alive ch /\
  Mpsc.tx_alive ch' = Mpsc.tx_alive ch.
Proof.
  unfold Mpsc.try_recv. destruct ch as [[|y q] k tx rx]; simpl; [by destruct tx|].
  by intros [= -> <-].
Qed.

Lemma try_recv_ends {A : Type} (ch ch' : Mpsc.t A) (x : A) :
  Mpsc.try_recv ch = Mpsc.Received x ch' ->
  Mpsc.queue ch = x :: Mpsc.queue ch' /\ Mpsc.rx_alive ch' = Mpsc.rx_alive ch /\
  Mpsc.capacity ch' = Mpsc.capacity ch.
Proof.
  unfold Mpsc.try_recv. destruct ch as [[|y q] k tx rx]; simpl; [by destruct tx|].
  by intros [= -> <-].
Qed.
