(* ===== verification/Files.v ===== *)
(** * Files and loops

    What the sources use of [tokio::fs] and of loops around [.await]: files by
    path, reads of as many bytes as the operating system returns, and loops
    whose iterations may wait. *)

From S2P Require Import Prelude Tokio.

Local Open Scope Z_scope.
Local Open Scope async_scope.

(** The files by path. *)
Abbreviation Fs := (gmap string bytes).

(** [AsyncReadExt::read] of a file: from a file with [rest] bytes left and a
    buffer of [size] bytes it takes at least one byte and at most what fits,
    unless the end is reached or the buffer is empty. *)
Class FileRead : Type := {
  read_len : Z -> bytes -> nat;
  read_len_pos : forall size rest, 0 < size -> rest <> [] -> (0 < read_len size rest)%nat;
  read_len_fits : forall size rest, Z.of_nat (read_len size rest) <= Z.max 0 size
}.

(** What a read returns, and what is left. *)
Definition file_read `{FileRead} (size : Z) (rest : bytes) : bytes * bytes :=
  (take (read_len size rest) rest, drop (read_len size rest) rest).

(** Running an operation on the first part of a larger state. *)
Definition on_first {S T A : Type} (m : async S A) : async (S * T) A :=
  fun '(s, t) => let '(s', r) := m s in ((s', t), r).

(** [File::open] and [File::create]. *)
Definition open_file {S : Type} (path : string) : async (S * Fs) bytes :=
  fun '(s, fs) =>
    match fs !! path with
    | Some content => ((s, fs), Ready (Ok content))
    | None => ((s, fs), Ready (Err (IoError OtherKind "No such file")))
    end.

Definition create_file {S : Type} (path : string) : async (S * Fs) unit :=
  fun '(s, fs) => ((s, <[path := []]> fs), Ready (Ok tt)).

(** [write_all] to a file that has been created. *)
Definition write_all_file {S : Type} (path : string) (data : bytes) : async (S * Fs) unit :=
  fun '(s, fs) => ((s, alter (fun content => content ++ data) path fs), Ready (Ok tt)).

(** A step of a loop: go on with the loop's variables, or leave it. *)
Inductive control (A B : Type) : Type :=
| Continue (a : A)
| Break (b : B).

Arguments Continue {A B} a.
Arguments Break {A B} b.

(** [loop], with as many iterations as there is fuel; [None] when it runs
    out. *)
Fixpoint loop {S A B : Type} (body : A -> async S (control A B)) (fuel : nat) (a : A) :
    async S (option B) :=
  match fuel with
  | O => aret None
  | S fuel' =>
      await c := body a in
      match c with
      | Continue a' => loop body fuel' a'
      | Break b => aret (Some b)
      end
  end.

(** Reads that fill the buffer when they can. *)

Lemma full_read_pos (size : Z) (rest : bytes) : 0 < size -> rest <> [] -> (0 < Z.to_nat size)%nat.
Proof. lia. Qed.

Lemma full_read_fits (size : Z) (rest : bytes) : Z.of_nat (Z.to_nat size) <= Z.max 0 size.
Proof. lia. Qed.

Definition full_reads : FileRead := {|
  read_len := fun size _ => Z.to_nat size;
  read_len_pos := full_read_pos;
  read_len_fits := full_read_fits
|}.
