(* ===== verification/Futures.v ===== *)
(** * Futures

    [async] is a future that runs from its start and stops where it has to wait.
    A program of several steps that is suspended and resumed among other tasks is
    a [future]: a tree of calls, each with what follows it, and of loops.  A call
    is an [async] operation that waits at most once, before it has had an effect
    that others can see; polling it again is starting it again. *)

From S2P Require Import Prelude Tokio Files.

Inductive future (S A : Type) : Type :=
| Done (o : outcome error A)
| Await {X : Type} (m : async S X) (k : outcome error X -> future S A)
| Loop {X B : Type} (body : X -> future S (control X B)) (x : X)
    (k : outcome error B -> future S A).

Arguments Done {S A} o.
Arguments Await {S A X} m k.
Arguments Loop {S A X B} body x k.

(** What comes after a future, whatever its result. *)
Fixpoint fthen {S A B : Type} (k : outcome error A -> future S B) (p : future S A) : future S B :=
  match p with
  | Done o => k o
  | Await m k' => Await m (fun o => fthen k (k' o))
  | Loop body x k' => Loop body x (fun o => fthen k (k' o))
  end.

(** [p.await?] and [p.await]: an error ends the caller, or is a value. *)
Definition fbind {S A B : Type} (k : A -> future S B) : future S A -> future S B :=
  fthen (fun o =>
    match o with
    | Ok a => k a
    | Err e => Done (Err e)
    | Panic => Done Panic
    end).

Definition attempt {S A B : Type} (k : outcome error A -> future S B) : future S A -> future S B :=
  fthen (fun o =>
    match o with
    | Panic => Done Panic
    | _ => k o
    end).

Definition fret {S A : Type} (a : A) : future S A := Done (Ok a).

Definition call {S A : Type} (m : async S A) : future S A := Await m Done.

Definition floop {S X B : Type} (body : X -> future S (control X B)) (x : X) : future S B :=
  Loop body x Done.

Declare Scope future_scope.
Delimit Scope future_scope with future.

Notation "'let*' x := m 'in' k" := (fbind (fun x => k) m)
  (at level 10, x pattern, m at level 100, k at level 200,
   format "'[v' 'let*'  x  :=  m  'in' '/' k ']'") : future_scope.

Notation "'try*' x := m 'in' k" := (attempt (fun x => k) m)
  (at level 10, x pattern, m at level 100, k at level 200,
   format "'[v' 'try*'  x  :=  m  'in' '/' k ']'") : future_scope.

(** A future over a part of a larger state: [f] runs the calls there. *)
Fixpoint within_state {S T : Type} (f : forall X, async S X -> async T X) {A : Type}
    (p : future S A) : future T A :=
  match p with
  | Done o => Done o
  | Await m k => Await (f _ m) (fun o => within_state f (k o))
  | Loop body x k =>
      Loop (fun y => within_state f (body y)) x (fun o => within_state f (k o))
  end.

(** A loop enters its next iteration. *)
Definition again {S A X B : Type} (body : X -> future S (control X B))
    (k : outcome error B -> future S A) (o : outcome error (control X B)) : future S A :=
  match o with
  | Ok (Continue x) => Loop body x k
  | Ok (Break b) => k (Ok b)
  | Err e => k (Err e)
  | Panic => k Panic
  end.

Definition unroll {S A : Type} (p : future S A) : future S A :=
  match p with
  | Loop body x k => fthen (again body k) (body x)
  | _ => p
  end.

(** One poll, up to the next call that completes: what is left of the future, or
    nothing when it is done or has to wait. *)
Definition resume {S A : Type} (p : future S A) (s : S) : option (future S A * S) :=
  match unroll p with
  | Done o => match p with Done _ => None | _ => Some (Done o, s) end
  | Await m k =>
      match m s with
      | (s', Ready o) => Some (k o, s')
      | (_, Pending) => None
      end
  | Loop body x k => Some (Loop body x k, s)
  end.

(** A future that is alone with its state, polled until it is done. *)
Fixpoint run_future {S A : Type} (fuel : nat) (p : future S A) (s : S) :
    option (outcome error A * S) :=
  match fuel with
  | O => None
  | S fuel' =>
      match p with
      | Done o => Some (o, s)
      | _ =>
          match resume p s with
          | Some (p', s') => run_future fuel' p' s'
          | None => None
          end
      end
  end.

Definition is_done {S A : Type} (p : future S A) : option (outcome error A) :=
  match p with
  | Done o => Some o
  | _ => None
  end.

(** ** Lemmas *)

Lemma resume_await {S A X : Type} (m : async S X) (k : outcome error X -> future S A) (s : S) :
  resume (Await m k) s =
  match m s with (s', Ready o) => Some (k o, s') | (_, Pending) => None end.
Proof. done. Qed.

(** A call of the body is the first step of an iteration. *)
Lemma resume_loop_call {S A X Y B : Type} (body : X -> future S (control X B)) (x : X)
    (k : outcome error B -> future S A) (m : async S Y) (k' : outcome error Y -> _) (s : S) :
  body x = Await m k' ->
  resume (Loop body x k) s =
  match m s with
  | (s', Ready o) => Some (fthen (again body k) (k' o), s')
  | (_, Pending) => None
  end.
Proof. intros E. unfold resume, unroll. by rewrite E. Qed.

Lemma run_future_more {S A : Type} (n m : nat) (p : future S A) (s : S) r :
  run_future n p s = Some r -> n <= m -> run_future m p s = Some r.
Proof.
  revert m p s. induction n as [|n IH]; intros [|m] p s Hr Hle; try done; [lia|]. cbn in *.
  destruct p; [done|..]; destruct (resume _ s) as [[p' s']|]; try done; apply IH; auto with lia.
Qed.

(** The loop of calls as one operation, with fuel, and as a future that is left
    alone, do the same. *)
Lemma run_floop {T X B : Type} (body : X -> async T (control X B)) (fuel : nat) (x : X) (s s' : T)
    (b : B) :
  loop body fuel x s = (s', Ready (Ok (Some b))) ->
  run_future (2 * fuel) (floop (fun x => call (body x)) x) s = Some (Ok b, s').
Proof.
  revert x s. induction fuel as [|fuel IH]; intros x s; [done|]. cbn [loop].
  unfold abind. destruct (body x s) as [s1 [[c| |]|]] eqn:E; try done.
  replace (2 * S fuel) with (S (S (2 * fuel))) by lia. unfold floop at 1. cbn [run_future].
  rewrite (resume_loop_call _ _ _ (body x) Done) by done. rewrite E. cbn [fthen again].
  destruct c as [x'|b'].
  - intros Hl. apply (run_future_more (2 * fuel) (S (2 * fuel)) (floop (fun x => call (body x)) x'));
      [by apply IH|lia].
  - by intros [= <- <-].
Qed.
