(* ===== verification/Hash.v ===== *)
(** * Hashes

    foctet-core/src/hash.rs: [Blake3Hash], and [Blake3Hasher], which hashes
    bytes in one call or in chunks, and files through a reader or a memory map,
    by their size.

    The hash function is the [blake3] library.  [Blake3] is what the sources call
    of it; its laws are what it documents: feeding a hasher twice is feeding it
    the concatenation, and reading a file into a hasher, by whatever means, is
    feeding it the content. *)

From S2P Require Import Prelude Text Tokio Files.

Local Open Scope Z_scope.
Local Open Scope outcome_scope.

(** foctet-core/src/default.rs:67-67, [DEFAULT_HASH_LEN]. *)
Definition DEFAULT_HASH_LEN : Z := 32.

(** foctet-core/src/default.rs:24-24, [DEFAULT_HASH_BUFFER_SIZE]. *)
Definition DEFAULT_HASH_BUFFER_SIZE : Z := 16384.

(** foctet-core/src/hash.rs:10-10, [CHUNK_THRESHOLD]. *)
Definition CHUNK_THRESHOLD : Z := 1 * 1024 * 1024.

(** foctet-core/src/hash.rs:11-11, [MMAP_THRESHOLD]. *)
Definition MMAP_THRESHOLD : Z := 64 * 1024 * 1024.

(** [blake3::Hasher]; a [blake3::Hash] is its bytes. *)
Class Blake3 : Type := {
  Hasher : Type;
  Hasher_new : Hasher;
  update : Hasher -> bytes -> Hasher;
  update_reader : Hasher -> bytes -> Hasher;
  update_mmap : Hasher -> bytes -> Hasher;
  update_mmap_rayon : Hasher -> bytes -> Hasher;
  finalize : Hasher -> bytes;
  update_app : forall h a b, update (update h a) b = update h (a ++ b);
  update_reader_spec : forall h content, update_reader h content = update h content;
  update_mmap_spec : forall h content, update_mmap h content = update h content;
  update_mmap_rayon_spec : forall h content, update_mmap_rayon h content = update h content;
  finalize_len : forall h, len (finalize h) = DEFAULT_HASH_LEN
}.

Module Blake3Hash.

(** foctet-core/src/hash.rs:13-14, [Blake3Hash]. *)
Record t : Type := mk { val : bytes }.

(** foctet-core/src/hash.rs:17-19, [Blake3Hash::new]. *)
Definition new (hash : bytes) : t := mk hash.

(** foctet-core/src/hash.rs:20-22, [Blake3Hash::from_blake3_hash]. *)
Definition from_blake3_hash (hash : bytes) : t := mk hash.

(** foctet-core/src/hash.rs:23-28, [Blake3Hash::from_hex]. *)
Definition from_hex `{Hex} (hex : string) : outcome error t :=
  let bs := match hex_decode hex with Ok bs => bs | _ => [] end in
  let? hash := copy_from_slice DEFAULT_HASH_LEN bs in
  Ok (mk hash).

(** foctet-core/src/hash.rs:29-31, [Blake3Hash::to_hex]. *)
Definition to_hex `{Hex} (self : t) : string := hex_encode (val self).

(** foctet-core/src/hash.rs:32-34, [Blake3Hash::to_bytes]. *)
Definition to_bytes (self : t) : bytes := val self.

(** foctet-core/src/hash.rs:35-37, [Blake3Hash::zero]. *)
Definition zero : t := mk (replicate (Z.to_nat DEFAULT_HASH_LEN) (byte_of 0)).

(** foctet-core/src/hash.rs:38-40, [Blake3Hash::is_zero]. *)
Definition is_zero (self : t) : bool := forallb (fun x => byte_val x =? 0) (val self).

(** foctet-core/src/hash.rs:41-43, [Blake3Hash::len]. *)
Definition len (self : t) : Z := Prelude.len (val self).

#[global] Instance t_eq_dec : EqDecision t.
Proof. solve_decision. Defined.

(** A [Blake3Hash] holds an array of 32 bytes. *)
Definition wf (self : t) : bool := len self =? DEFAULT_HASH_LEN.

End Blake3Hash.

Module Blake3Hasher.

(** foctet-core/src/hash.rs:47-50, [Blake3Hasher]. *)
Record t : Type := mk { buffer_size : Z; mmap_threshold : Z }.

(** foctet-core/src/hash.rs:53-59, [Blake3Hasher::new]. *)
Definition new : t := mk DEFAULT_HASH_BUFFER_SIZE MMAP_THRESHOLD.

(** foctet-core/src/hash.rs:61-67, [Blake3Hasher::with_settings]. *)
Definition with_settings (buffer_size mmap_threshold : Z) : t := mk buffer_size mmap_threshold.

Section operations.

Context `{Blake3} (self : t).

(** foctet-core/src/hash.rs:97-102, [Blake3Hasher::calc_bytes_hash]. *)
Definition calc_bytes_hash (data : bytes) : outcome error bytes :=
  let hasher := Hasher_new in
  let hasher := update hasher data in
  Ok (finalize hasher).

(** [offset + buffer_size] on [usize]: an overflow panics. *)
Definition add_usize (a b : Z) : outcome error Z :=
  if is_u64 (a + b) then Ok (a + b) else Panic.

(** foctet-core/src/hash.rs:109-113, [Blake3Hasher::calc_bytes_hash_chunk]: the
    loop; [None] when the fuel runs out. *)
Fixpoint chunk_loop (fuel : nat) (data : bytes) (hasher : Hasher) (offset : Z) :
    outcome error (option Hasher) :=
  match fuel with
  | O => Ok None
  | S fuel' =>
      if offset <? len data then
        let? sum := add_usize offset (buffer_size self) in
        let end_ := Z.min sum (len data) in
        let? chunk := slice data offset end_ in
        chunk_loop fuel' data (update hasher chunk) end_
      else Ok (Some hasher)
  end.

(** foctet-core/src/hash.rs:104-115, [Blake3Hasher::calc_bytes_hash_chunk]. *)
Definition calc_bytes_hash_chunk (fuel : nat) (data : bytes) : outcome error (option bytes) :=
  let? hasher := chunk_loop fuel data Hasher_new 0 in
  Ok (option_map finalize hasher).

(** foctet-core/src/hash.rs:69-77, [Blake3Hasher::calculate_hash]. *)
Definition calculate_hash (fuel : nat) (data : bytes) : outcome error (option Blake3Hash.t) :=
  let? hash :=
    (if CHUNK_THRESHOLD <? len data then calc_bytes_hash_chunk fuel data
     else let? h := calc_bytes_hash data in Ok (Some h)) in
  Ok (option_map Blake3Hash.from_blake3_hash hash).

(** Opening a file, or asking for its metadata. *)
Definition file_content (fs : Fs) (file_path : string) : outcome error bytes :=
  ok_or (IoError OtherKind "No such file") (fs !! file_path).

(** foctet-core/src/hash.rs:117-123, [Blake3Hasher::calc_file_hash]. *)
Definition calc_file_hash (fs : Fs) (file_path : string) : outcome error bytes :=
  let? file := file_content fs file_path in
  let hasher := update_reader Hasher_new file in
  Ok (finalize hasher).

(** foctet-core/src/hash.rs:125-130, [Blake3Hasher::calc_file_hash_mmap]. *)
Definition calc_file_hash_mmap (fs : Fs) (file_path : string) : outcome error bytes :=
  let? file := file_content fs file_path in
  let hasher := update_mmap Hasher_new file in
  Ok (finalize hasher).

(** foctet-core/src/hash.rs:132-137, [Blake3Hasher::calc_file_hash_mmap_multithread]. *)
Definition calc_file_hash_mmap_multithread (fs : Fs) (file_path : string) : outcome error bytes :=
  let? file := file_content fs file_path in
  let hasher := update_mmap_rayon Hasher_new file in
  Ok (finalize hasher).

(** foctet-core/src/hash.rs:79-95, [Blake3Hasher::calculate_file_hash];
    [parallelism] is what [thread::available_parallelism] returns. *)
Definition calculate_file_hash (parallelism : outcome error Z) (fs : Fs) (file_path : string) :
    outcome error Blake3Hash.t :=
  let? content := file_content fs file_path in
  let file_size := len content in
  let? hash :=
    (if mmap_threshold self <? file_size then
       let? parallelism := parallelism in
       if 1 <? parallelism then calc_file_hash_mmap_multithread fs file_path
       else calc_file_hash_mmap fs file_path
     else calc_file_hash fs file_path) in
  Ok (Blake3Hash.from_blake3_hash hash).

End operations.

End Blake3Hasher.

(** ** Lemmas *)

Section hasher_lemmas.

Context `{Blake3} (self : Blake3Hasher.t) (data : bytes)
  (Hbuf : 0 < Blake3Hasher.buffer_size self <= u64_max) (Hdata : len data <= 2 ^ 63 - 1).

Lemma chunk_loop_rest (fuel : nat) (h : Hasher) (k : Z) :
  0 <= k <= len data -> (k = 0 \/ k = len data \/ Blake3Hasher.buffer_size self < len data) ->
  (Z.to_nat (len data - k) < fuel)%nat ->
  exists h', Blake3Hasher.chunk_loop self fuel data h k = Ok (Some h') /\
    (k < len data -> h' = update h (drop (Z.to_nat k) data)) /\ (k = len data -> h' = h).
Proof using Hbuf Hdata.
  revert h k. induction fuel as [|fuel IH]; intros h k Hk Hover Hf; [lia|].
  cbn [Blake3Hasher.chunk_loop]. destruct (Z.ltb_spec k (len data)) as [Hlt|Hge].
  - unfold Blake3Hasher.add_usize.
    assert (Hsum : is_u64 (k + Blake3Hasher.buffer_size self) = true).
    { unfold is_u64. apply andb_true_intro. split; apply Z.leb_le; unfold u64_max in *; lia. }
    rewrite Hsum. cbn [outcome_bind].
    set (e := Z.min _ _). rewrite slice_ok by lia. cbn [outcome_bind].
    destruct (IH (update h (take (Z.to_nat (e - k)) (drop (Z.to_nat k) data))) e)
      as (h' & E & Hrest & Hend); [lia|lia|lia|].
    exists h'. split; [exact E|]. split; [intros _|lia].
    destruct (decide (e < len data)) as [He|He].
    + rewrite Hrest, update_app by done. f_equal.
      replace (drop (Z.to_nat e) data) with (drop (Z.to_nat (e - k)) (drop (Z.to_nat k) data))
        by (rewrite drop_drop; f_equal; lia).
      apply take_drop.
    + rewrite Hend by lia. f_equal. apply take_ge. rewrite length_drop. unfold len in *. lia.
  - exists h. split_and!; [done|lia|done].
Qed.

End hasher_lemmas.

Lemma chunk_loop_zero `{Blake3} (t fuel : _) (data : bytes) (h : Hasher) :
  data <> [] ->
  Blake3Hasher.chunk_loop (Blake3Hasher.with_settings 0 t) fuel data h 0 = Ok None.
Proof.
  intros Hd. revert h. induction fuel as [|fuel IH]; intros h; [done|].
  destruct data as [|b data]; [done|]. cbn [Blake3Hasher.chunk_loop].
  pose proof (len_nonneg data) as Hl.
  rewrite (proj2 (Z.ltb_lt _ _)) by (rewrite len_cons; lia).
  change (Blake3Hasher.add_usize _ _) with (Ok 0 : outcome error Z). cbn [outcome_bind].
  rewrite Z.min_l by (rewrite len_cons; lia). rewrite slice_ok by (rewrite ?len_cons; lia).
  apply IH.
Qed.

(** ** Properties *)

(** The hash does not depend on how it is computed.  For every buffer size
    greater than zero, [calculate_hash] is BLAKE3 of the data, whether it is fed
    whole or in chunks, without an overflow or a panic.  For every threshold and
    number of processors, [calculate_file_hash] of a file is BLAKE3 of its
    content, so the same hash, and an error for a missing file.  With a buffer
    of zero bytes, which [with_settings] accepts, hashing more than 1 MiB of
    data never ends. *)
Theorem blake3_settings_irrelevant `{Blake3} (self : Blake3Hasher.t) (fs : Fs) (path : string)
    (data : bytes) (fuel : nat) (p : Z)
    (Hbuf : 0 <= Blake3Hasher.buffer_size self <= u64_max) (Hdata : len data <= 2 ^ 63 - 1)
    (Hfuel : (length data < fuel)%nat) :
  let blake3 := Blake3Hash.mk (finalize (update Hasher_new data)) in
  (0 < Blake3Hasher.buffer_size self \/ len data <= CHUNK_THRESHOLD ->
   Blake3Hasher.calculate_hash self fuel data = Ok (Some blake3)) /\
  (Blake3Hasher.buffer_size self = 0 -> CHUNK_THRESHOLD < len data ->
   forall fuel', Blake3Hasher.calculate_hash self fuel' data = Ok None) /\
  Blake3Hasher.calculate_file_hash self (Ok p) fs path =
    match fs !! path with
    | Some content => Ok (Blake3Hash.mk (finalize (update Hasher_new content)))
    | None => Err (IoError OtherKind "No such file")
    end.
Proof.
  intros blake3. split_and!.
  - intros Hor. unfold Blake3Hasher.calculate_hash.
    destruct (Z.ltb_spec CHUNK_THRESHOLD (len data)) as [Hlt|]; [|done].
    destruct Hor as [Hpos|]; [|lia]. unfold Blake3Hasher.calc_bytes_hash_chunk.
    pose proof (eq_refl : CHUNK_THRESHOLD = 1048576) as Hct.
    destruct (chunk_loop_rest self data ltac:(lia) Hdata fuel Hasher_new 0) as (h & -> & Hh & _);
      [lia|by left|unfold len; lia|].
    simpl. by rewrite Hh, drop_0 by lia.
  - intros H0 Hlt fuel'. unfold Blake3Hasher.calculate_hash, Blake3Hasher.calc_bytes_hash_chunk.
    rewrite (proj2 (Z.ltb_lt _ _)) by done. destruct self as [bs th]. simpl in H0. subst bs.
    rewrite (chunk_loop_zero th); [done|]. intros ->. done.
  - unfold Blake3Hasher.calculate_file_hash, Blake3Hasher.file_content,
      Blake3Hasher.calc_file_hash_mmap_multithread, Blake3Hasher.calc_file_hash_mmap,
      Blake3Hasher.calc_file_hash, Blake3Hasher.file_content.
    destruct (fs !! path) as [content|]; [|done]. cbn [ok_or outcome_bind].
    rewrite update_reader_spec, update_mmap_spec, update_mmap_rayon_spec.
    by destruct (_ <? _), (1 <? p).
Qed.

(** [from_hex] gives back the hash that [to_hex] wrote, and panics on every
    string that does not decode to 32 bytes, invalid ones included. *)
Theorem blake3_hex_roundtrip `{Hex} (h : Blake3Hash.t) (s : string) :
  (Blake3Hash.wf h = true -> Blake3Hash.from_hex (Blake3Hash.to_hex h) = Ok h) /\
  (Blake3Hash.from_hex s = Panic <->
   forall bs, hex_decode s = Ok bs -> len bs <> DEFAULT_HASH_LEN) /\
  (forall e, Blake3Hash.from_hex s <> Err e).
Proof.
  unfold Blake3Hash.from_hex, Blake3Hash.to_hex, copy_from_slice. split_and!.
  - unfold Blake3Hash.wf, Blake3Hash.len. intros Hw. rewrite hex_decode_encode, Hw. by destruct h.
  - destruct (hex_decode s) as [bs| |].
    + destruct (Z.eqb_spec (len bs) DEFAULT_HASH_LEN) as [E|E].
      * split; [done|]. intros Hne. by destruct (Hne bs).
      * split; [|done]. intros _ bs' [= <-]. done.
    + by split.
    + by split.
  - intros e. by destruct (_ =? _).
Qed.

(** ** Witnesses: a hasher that keeps what it is fed, and the first 32 bytes of
    it as the hash. *)

Definition first_bytes (h : bytes) : bytes := take 32 (h ++ replicate 32 (byte_of 0)).

Lemma first_bytes_len (h : bytes) : len (first_bytes h) = DEFAULT_HASH_LEN.
Proof.
  unfold len, first_bytes. rewrite length_take, length_app, length_replicate.
  unfold DEFAULT_HASH_LEN. lia.
Qed.

Definition plain_hasher : Blake3 := {|
  Hasher := bytes;
  Hasher_new := [];
  update := fun h bs => h ++ bs;
  update_reader := fun h bs => h ++ bs;
  update_mmap := fun h bs => h ++ bs;
  update_mmap_rayon := fun h bs => h ++ bs;
  finalize := first_bytes;
  update_app := fun h a b => eq_sym (app_assoc h a b);
  update_reader_spec := fun _ _ => eq_refl;
  update_mmap_spec := fun _ _ => eq_refl;
  update_mmap_rayon_spec := fun _ _ => eq_refl;
  finalize_len := first_bytes_len
|}.

Lemma blake3_settings_irrelevant_witness :
  Blake3Hasher.calculate_hash (H := plain_hasher) Blake3Hasher.new 2 [byte_of 7] =
    Ok (Some (Blake3Hash.mk (first_bytes [byte_of 7]))) /\
  Blake3Hasher.calculate_file_hash (H := plain_hasher) Blake3Hasher.new (Ok 4)
    {[ "f" := [byte_of 7] ]} "f" = Ok (Blake3Hash.mk (first_bytes [byte_of 7])).
Proof.
  destruct (blake3_settings_irrelevant (H := plain_hasher) Blake3Hasher.new {[ "f" := [byte_of 7] ]}
    "f" [byte_of 7] 2 4 ltac:(done) ltac:(done) ltac:(simpl; lia)) as (Hd & _ & Hf).
  split; [apply Hd; left; done|exact Hf].
Defined.

Lemma blake3_hex_roundtrip_witness :
  Blake3Hash.from_hex (H := letters_hex) (Blake3Hash.to_hex (H := letters_hex) Blake3Hash.zero) =
    Ok Blake3Hash.zero /\
  Blake3Hash.from_hex (H := letters_hex) "ab" = Panic.
Proof.
  destruct (blake3_hex_roundtrip (H := letters_hex) Blake3Hash.zero "ab") as (Hz & Hp & _).
  split; [apply Hz; reflexivity|]. apply Hp. intros bs Hbs. vm_compute in Hbs. discriminate.
Defined.
