(* ===== verification/Metadata.v ===== *)
(** * Metadata

    The description of a file that the peers exchange before its bytes:
    [FileMetadata] (foctet-core/src/metadata.rs), filled in by
    [get_file_metadata] (utils/fs.rs), and [UnixTimestamp] (time.rs). *)

From S2P Require Import Prelude Text Tokio Files Hash.

Local Open Scope Z_scope.
Local Open Scope outcome_scope.

(** [Path::file_name]: the last component of a path, unless it is [..].  The
    components are what lies between slashes, without empty ones and [.]. *)
Fixpoint split_slash (s : string) (acc : string) : list string :=
  match s with
  | "" => [acc]
  | String c s' =>
      if Ascii.eqb c (Ascii.ascii_of_nat 47) then acc :: split_slash s' ""
      else split_slash s' (acc +:+ String c "")
  end.

Definition components (path : string) : list string :=
  filter (fun c => c <> "" /\ c <> ".") (split_slash path "").

Definition file_name (path : string) : option string :=
  match last (components path) with
  | Some ".." => None
  | o => o
  end.

(** foctet-core/src/metadata.rs:9-14, [Metadata]. *)
Record Metadata : Type := mk_Metadata {
  metadata_name : string;
  metadata_size : Z;
  metadata_hash : string
}.

(** foctet-core/src/metadata.rs:16-24, [ChunkMetadata]. *)
Record ChunkMetadata : Type := mk_ChunkMetadata {
  chunk_id : Z;
  total_chunks : Z;
  chunk_size : Z;
  total_size : Z;
  offset : Z;
  chunk_name : string
}.

Module FileMetadata.

(** foctet-core/src/metadata.rs:26-32, [FileMetadata]. *)
Record t : Type := mk {
  name : string;
  size : Z;
  hash : Blake3Hash.t
}.

(** foctet-core/src/metadata.rs:35-40, [FileMetadata::from_bytes]. *)
Definition from_bytes `{Bincode t} (bs : bytes) : outcome error t :=
  match decode_from_slice bs with
  | Ok (file_metadata, _) => Ok file_metadata
  | Err e => Err (Caused "Failed to decode file metadata: " e)
  | Panic => Panic
  end.

(** foctet-core/src/metadata.rs:41-44, [FileMetadata::to_bytes]. *)
Definition to_bytes `{Bincode t} (self : t) : outcome error bytes :=
  let? serialized := encode_to_vec self in Ok serialized.

End FileMetadata.

Module UnixTimestamp.

(** foctet-core/src/time.rs:4-5, [UnixTimestamp]: seconds since the epoch. *)
Record t : Type := mk { val : Z }.

(** A [SystemTime] is the number of nanoseconds since the epoch, negative
    before it; its seconds fit an [i64]. *)
Definition SystemTime : Type := Z.

Definition nanos : Z := 1000000000.

(** foctet-core/src/time.rs:17-22, [UnixTimestamp::from_system_time]. *)
Definition from_system_time (time : SystemTime) : outcome error t :=
  if time <? 0 then Panic else Ok (mk (time / nanos)).

(** foctet-core/src/time.rs:9-14, [UnixTimestamp::now]; [now] is the clock. *)
Definition now (now : SystemTime) : outcome error t :=
  if now <? 0 then Panic else Ok (mk (now / nanos)).

(** foctet-core/src/time.rs:25-27, [UnixTimestamp::to_system_time]: the addition
    panics when the result is out of range. *)
Definition to_system_time (self : t) : outcome error SystemTime :=
  if val self <=? 2 ^ 63 - 1 then Ok (val self * nanos) else Panic.

(** foctet-core/src/time.rs:30-32, [UnixTimestamp::from_u64]. *)
Definition from_u64 (timestamp : Z) : t := mk timestamp.

(** foctet-core/src/time.rs:40-44, [UnixTimestamp::default]. *)
Definition default : t := mk 0.

End UnixTimestamp.

(** foctet-core/src/metadata.rs:47-61, [LocalFileMetadata]. *)
Record LocalFileMetadata : Type := mk_LocalFileMetadata {
  local_name : string;
  local_path : string;
  local_size : Z;
  local_hash : Blake3Hash.t;
  is_directory : bool;
  created : UnixTimestamp.t;
  modified : UnixTimestamp.t;
  accessed : UnixTimestamp.t
}.

(** foctet-core/src/utils/fs.rs:31-55, [get_file_metadata]; [parallelism] is what
    [thread::available_parallelism] returns. *)
Definition get_file_metadata `{Blake3} (parallelism : outcome error Z) (fs : Fs) (path : string) :
    outcome error FileMetadata.t :=
  match fs !! path with
  | None => Err (Anyhow "Path is not a file")
  | Some content =>
      let name := default "" (file_name path) in
      let hasher := Blake3Hasher.new in
      let? hash := Blake3Hasher.calculate_file_hash hasher parallelism fs path in
      Ok (FileMetadata.mk name (len content) hash)
  end.
