(* ===== verification/MuxStream.v ===== *)
(** * Logical streams

    foctet-mux/src/stream.rs: the state of a logical stream, the stream before
    and after [split], and the operations of both.

    A stream owns neither end of its channels alone: its [frame_sender] is a
    clone of the session's event sender and the sender of its [frame_receiver]
    is held by the session actor.  The class [StreamHost] is what a session
    gives its streams, and the operations run over any host.  After [split] the
    two halves share the [Arc<Mutex<StreamState>>], the field [state] of
    [Halves]. *)

From S2P Require Import Prelude Ids Frame Tokio.

Local Open Scope Z_scope.
Local Open Scope async_scope.

(** foctet-mux/src/stream.rs:13-32, [StreamState]. *)
Inductive StreamState : Type :=
| Init
| OpenSent
| OpenReceived
| Established
| LocalClosing
| RemoteClosing
| Closed
| Reset.

#[export] Instance StreamState_eq_dec : EqDecision StreamState.
Proof. solve_decision. Defined.

Module StreamEvent.

(** foctet-mux/src/stream.rs:34-40, [StreamEvent]. *)
Inductive t : Type :=
| Frame (frame : Frame.t)
| Closed (stream_id : StreamId.t)
| Error.

End StreamEvent.

(** The name of a stream's frame channel in its session. *)
Definition ChanId : Type := nat.

(** What a session gives its streams: the event channel that all of them send
    on, and the frame channel that each of them receives from. *)
Class StreamHost (W : Type) : Type := {
  events : W -> Mpsc.t StreamEvent.t;
  set_events : W -> Mpsc.t StreamEvent.t -> W;
  frames : W -> ChanId -> Mpsc.t Frame.t;
  set_frames : W -> ChanId -> Mpsc.t Frame.t -> W
}.

Class StreamHostLaws (W : Type) `{StreamHost W} : Prop := {
  events_set_events : forall w ch, events (set_events w ch) = ch;
  set_events_twice : forall w ch ch', set_events (set_events w ch) ch' = set_events w ch';
  set_events_id : forall w, set_events w (events w) = w;
  frames_set_events : forall w ch c, frames (set_events w ch) c = frames w c;
  frames_set_frames : forall w c ch, frames (set_frames w c ch) c = ch;
  frames_set_frames_ne : forall w c c' ch, c <> c' -> frames (set_frames w c ch) c' = frames w c';
  events_set_frames : forall w c ch, events (set_frames w c ch) = events w
}.

(** [frame_sender.send(event).await], the error mapped to a broken pipe. *)
Definition send_or (H : Type) {W : Type} `{StreamHost W} (msg : string)
    (event : StreamEvent.t) : async (H * W) unit :=
  fun '(h, w) =>
    match Mpsc.try_send (events w) event with
    | Mpsc.Sent ch => ((h, set_events w ch), Ready (Ok tt))
    | Mpsc.Full => ((h, w), Pending)
    | Mpsc.Closed => ((h, w), Ready (Err (IoError BrokenPipe msg)))
    end.

(** [frame_receiver.recv().await] on the channel [c]. *)
Definition recv_on (H : Type) {W : Type} `{StreamHost W} (c : ChanId) :
    async (H * W) (option Frame.t) :=
  fun '(h, w) =>
    match Mpsc.try_recv (frames w c) with
    | Mpsc.Received x ch => ((h, set_frames w c ch), Ready (Ok (Some x)))
    | Mpsc.Empty => ((h, w), Pending)
    | Mpsc.Disconnected => ((h, w), Ready (Ok None))
    end.

Arguments send_or : simpl never.

(** The receiver of the method and an update of it. *)
Definition this {H W : Type} : async (H * W) H := fun s => (s, Ready (Ok s.1)).

Definition update {H W : Type} (f : H -> H) : async (H * W) unit :=
  fun s => ((f s.1, s.2), Ready (Ok tt)).

Module LogicalStream.

(** foctet-mux/src/stream.rs:290-303, [LogicalStream].  Every [frame_sender]
    is a clone of the host's one event sender. *)
Record t : Type := mk {
  session_id : SessionId.t;
  stream_id : StreamId.t;
  state : StreamState;
  frame_receiver : ChanId
}.

(** foctet-mux/src/stream.rs:306-320, [LogicalStream::new]. *)
Definition new (session_id : SessionId.t) (stream_id : StreamId.t) (state : StreamState)
    (frame_receiver : ChanId) : t :=
  mk session_id stream_id state frame_receiver.

(** foctet-mux/src/stream.rs:436-438, [LogicalStream::set_state]. *)
Definition set_state (self : t) (state : StreamState) : t :=
  mk (session_id self) (stream_id self) state (frame_receiver self).

(** foctet-mux/src/stream.rs:404-416, [LogicalStream::set_state_from_flags]. *)
Definition set_state_from_flags (self : t) (flags : FrameFlags.t) : t :=
  if FrameFlags.is_open_request flags then set_state self OpenReceived
  else if FrameFlags.is_open_response flags then set_state self Established
  else if FrameFlags.is_open_reset flags then set_state self Reset
  else if FrameFlags.is_close_request flags then set_state self RemoteClosing
  else if FrameFlags.is_close_response flags then set_state self Closed
  else self.

Section operations.

Context {W : Type} `{StreamHost W}.

(** foctet-mux/src/stream.rs:322-330, [LogicalStream::send_frame]. *)
Definition send_frame (frame : Frame.t) : async (t * W) unit :=
  send_or t "Failed to send frame" (StreamEvent.Frame frame).

(** foctet-mux/src/stream.rs:332-343, [LogicalStream::recv_frame]. *)
Definition recv_frame : async (t * W) Frame.t :=
  await self := this in
  await received := recv_on t (frame_receiver self) in
  match received with
  | Some frame =>
      update (fun self => set_state_from_flags self (FrameHeader.flags (Frame.header frame)));;;
      aret frame
  | None => afail (IoError BrokenPipe "Failed to receive frame")
  end.

(** foctet-mux/src/stream.rs:345-353, [LogicalStream::send_event]. *)
Definition send_event (event : StreamEvent.t) : async (t * W) unit :=
  send_or t "Failed to send event" event.

(** foctet-mux/src/stream.rs:355-372, [LogicalStream::send_close_request]. *)
Definition send_close_request : async (t * W) unit :=
  await self := this in
  let frame_flags := FrameFlags.close_request in
  let close_frame :=
    FrameBuilder.build (FrameBuilder.with_flags
      (FrameBuilder.with_stream_id builder (stream_id self)) frame_flags) in
  send_or t "Failed to send close frame" (StreamEvent.Frame close_frame).

(** foctet-mux/src/stream.rs:374-402, [LogicalStream::close]. *)
Definition close : async (t * W) unit :=
  await self := this in
  match state self with
  | OpenSent | OpenReceived | Established | Init =>
      update (fun self => set_state self LocalClosing);;;
      send_close_request
  | RemoteClosing =>
      update (fun self => set_state self Closed);;;
      send_close_request;;;
      send_event (StreamEvent.Closed (stream_id self))
  | Reset | Closed =>
      update (fun self => set_state self Closed);;;
      send_event (StreamEvent.Closed (stream_id self))
  | LocalClosing =>
      update (fun self => set_state self Closed);;;
      send_event (StreamEvent.Closed (stream_id self))
  end.

End operations.

End LogicalStream.

Module LogicalStreamWriter.

(** foctet-mux/src/stream.rs:42-49, [LogicalStreamWriter], without the shared
    state, which is in [Halves]. *)
Record t : Type := mk {
  session_id : SessionId.t;
  stream_id : StreamId.t
}.

End LogicalStreamWriter.

Module LogicalStreamReader.

(** foctet-mux/src/stream.rs:198-205, [LogicalStreamReader], without the
    shared state, which is in [Halves]. *)
Record t : Type := mk {
  session_id : SessionId.t;
  stream_id : StreamId.t;
  frame_receiver : ChanId
}.

End LogicalStreamReader.

(** The two halves of a stream and the state they share. *)
Module Halves.

Record t : Type := mk {
  writer : LogicalStreamWriter.t;
  reader : LogicalStreamReader.t;
  state : Mutex.t StreamState
}.

End Halves.

(** foctet-mux/src/stream.rs:418-434, [LogicalStream::split]. *)
Definition split (self : LogicalStream.t) : Halves.t :=
  let state := Mutex.new (LogicalStream.state self) in
  Halves.mk
    (LogicalStreamWriter.mk (LogicalStream.session_id self) (LogicalStream.stream_id self))
    (LogicalStreamReader.mk (LogicalStream.session_id self) (LogicalStream.stream_id self)
       (LogicalStream.frame_receiver self))
    state.

Module Writer.

(** foctet-mux/src/stream.rs:52-59, [LogicalStreamWriter::set_state]. *)
Definition set_state (h : Halves.t) (state : StreamState) : Halves.t :=
  match Mutex.lock (Halves.state h) with
  | Some _ => Halves.mk (Halves.writer h) (Halves.reader h) (Mutex.mk state false)
  | None => h
  end.

(** foctet-mux/src/stream.rs:68-74, [LogicalStreamWriter::state]. *)
Definition state (h : Halves.t) : StreamState :=
  match Mutex.lock (Halves.state h) with
  | Some state_guard => state_guard
  | None => Closed
  end.

(** foctet-mux/src/stream.rs:64-67, [LogicalStreamWriter::stream_id]. *)
Definition stream_id (h : Halves.t) : StreamId.t :=
  LogicalStreamWriter.stream_id (Halves.writer h).

Section operations.

Context {W : Type} `{StreamHost W}.

(** foctet-mux/src/stream.rs:75-83, [LogicalStreamWriter::send_event]. *)
Definition send_event (event : StreamEvent.t) : async (Halves.t * W) unit :=
  send_or Halves.t "Failed to send event" event.

(** foctet-mux/src/stream.rs:84-95, [LogicalStreamWriter::send_frame]. *)
Definition send_frame (frame : Frame.t) : async (Halves.t * W) unit :=
  send_or Halves.t "Failed to send frame" (StreamEvent.Frame frame).

(** foctet-mux/src/stream.rs:97-105, [LogicalStreamWriter::send_bytes]. *)
Definition send_bytes (bytes : bytes) : async (Halves.t * W) unit :=
  await self := this in
  let frame :=
    FrameBuilder.build (FrameBuilder.with_payload (FrameBuilder.with_frame_type
      (FrameBuilder.with_stream_id FrameBuilder.new (stream_id self)) FrameType.Data) bytes) in
  send_frame frame.

(** foctet-mux/src/stream.rs:107-124, [LogicalStreamWriter::send_close_request]. *)
Definition send_close_request : async (Halves.t * W) unit :=
  await self := this in
  let frame_flags := FrameFlags.close_request in
  let close_frame :=
    FrameBuilder.build (FrameBuilder.with_flags
      (FrameBuilder.with_stream_id builder (stream_id self)) frame_flags) in
  send_or Halves.t "Failed to send close frame" (StreamEvent.Frame close_frame).

(** foctet-mux/src/stream.rs:126-158, [LogicalStreamWriter::close]. *)
Definition close : async (Halves.t * W) unit :=
  await self := this in
  let st :=
    match Mutex.lock (Halves.state self) with
    | Some state_guard => state_guard
    | None => Closed
    end in
  match st with
  | OpenSent | OpenReceived | Established | Init =>
      update (fun self => set_state self LocalClosing);;;
      send_close_request
  | RemoteClosing =>
      update (fun self => set_state self Closed);;;
      send_close_request;;;
      send_event (StreamEvent.Closed (stream_id self))
  | Reset | Closed =>
      update (fun self => set_state self Closed);;;
      send_event (StreamEvent.Closed (stream_id self))
  | LocalClosing =>
      update (fun self => set_state self Closed);;;
      send_event (StreamEvent.Closed (stream_id self))
  end.

(** foctet-mux/src/stream.rs:162-186, [LogicalStreamWriter::poll_write].  It
    never waits: a full channel is an error like a closed one. *)
Definition poll_write (buf : bytes) : async (Halves.t * W) Z :=
  fun '(self, w) =>
    let payload := buf in
    let frame :=
      FrameBuilder.build (FrameBuilder.with_payload (FrameBuilder.with_frame_type
        (FrameBuilder.with_stream_id FrameBuilder.new (stream_id self)) FrameType.Data)
        payload) in
    match Mpsc.try_send (events w) (StreamEvent.Frame frame) with
    | Mpsc.Sent ch => ((self, set_events w ch), Ready (Ok (len buf)))
    | Mpsc.Full | Mpsc.Closed =>
        ((self, w), Ready (Err (IoError BrokenPipe "Failed to send frame")))
    end.

(** foctet-mux/src/stream.rs:188-190, [LogicalStreamWriter::poll_flush]. *)
Definition poll_flush : async (Halves.t * W) unit := aret tt.

(** foctet-mux/src/stream.rs:192-195, [LogicalStreamWriter::poll_shutdown]. *)
Definition poll_shutdown : async (Halves.t * W) unit := aret tt.

End operations.

End Writer.

(** A [tokio::io::ReadBuf]: what has been filled in, and its total size. *)
Module ReadBuf.

Record t : Type := mk { filled : bytes; size : Z }.

Definition remaining (self : t) : Z := size self - len (filled self).

(** [ReadBuf::put_slice] panics when the slice does not fit. *)
Definition put_slice (self : t) (buf : bytes) : option t :=
  if len buf <=? remaining self then Some (mk (filled self ++ buf) (size self)) else None.

End ReadBuf.

Module Reader.

(** foctet-mux/src/stream.rs:208-215, [LogicalStreamReader::set_state]. *)
Definition set_state (h : Halves.t) (state : StreamState) : Halves.t :=
  match Mutex.lock (Halves.state h) with
  | Some _ => Halves.mk (Halves.writer h) (Halves.reader h) (Mutex.mk state false)
  | None => h
  end.

(** foctet-mux/src/stream.rs:224-230, [LogicalStreamReader::state]. *)
Definition state (h : Halves.t) : StreamState :=
  match Mutex.lock (Halves.state h) with
  | Some state_guard => state_guard
  | None => Closed
  end.

(** foctet-mux/src/stream.rs:257-265, [LogicalStreamReader::set_state_from_flags]. *)
Definition set_state_from_flags (h : Halves.t) (flags : FrameFlags.t) : Halves.t :=
  if FrameFlags.is_open_request flags then set_state h OpenReceived
  else if FrameFlags.is_open_response flags then set_state h Established
  else if FrameFlags.is_open_reset flags then set_state h Reset
  else h.

Section operations.

Context {W : Type} `{StreamHost W}.

Definition receiver (h : Halves.t) : ChanId :=
  LogicalStreamReader.frame_receiver (Halves.reader h).

(** foctet-mux/src/stream.rs:231-249, [LogicalStreamReader::recv_frame]. *)
Definition recv_frame : async (Halves.t * W) Frame.t :=
  await self := this in
  await received := recv_on Halves.t (receiver self) in
  match received with
  | Some frame =>
      update (fun self => set_state_from_flags self (FrameHeader.flags (Frame.header frame)));;;
      aret frame
  | None =>
      await s := aget in
      if Mpsc.is_closed (frames s.2 (receiver self))
      then afail (IoError BrokenPipe "Channel closed")
      else afail (IoError BrokenPipe "Failed to receive frame")
  end.

(** foctet-mux/src/stream.rs:251-255, [LogicalStreamReader::recv_bytes]. *)
Definition recv_bytes : async (Halves.t * W) bytes :=
  await frame := recv_frame in
  aret (Frame.payload frame).

(** foctet-mux/src/stream.rs:269-287, [LogicalStreamReader::poll_read], with
    the buffer among the state.  The frame is taken and the state is set before
    [put_slice] can panic. *)
Definition poll_read : async (Halves.t * W * ReadBuf.t) unit :=
  fun '(self, w, buf) =>
    match Mpsc.try_recv (frames w (receiver self)) with
    | Mpsc.Received frame ch =>
        let self := set_state_from_flags self (FrameHeader.flags (Frame.header frame)) in
        let w := set_frames w (receiver self) ch in
        match ReadBuf.put_slice buf (Frame.payload frame) with
        | Some buf => ((self, w, buf), Ready (Ok tt))
        | None => ((self, w, buf), Ready Panic)
        end
    | Mpsc.Empty => ((self, w, buf), Pending)
    | Mpsc.Disconnected =>
        ((set_state self Closed, w, buf), Ready (Ok tt))
    end.

End operations.

End Reader.

Arguments Reader.poll_read : simpl never.

(** ** Reference behaviour *)

(** A host with nothing but its channels; a name it does not know is a channel
    with both ends gone. *)
Definition dead {A : Type} : Mpsc.t A := Mpsc.mk [] 0 false false.

Module Ports.

Record t : Type := mk {
  events : Mpsc.t StreamEvent.t;
  chans : gmap ChanId (Mpsc.t Frame.t)
}.

#[global] Instance host : StreamHost t := {|
  MuxStream.events := events;
  set_events := fun w ch => mk ch (chans w);
  frames := fun w c => default dead (chans w !! c);
  set_frames := fun w c ch => mk (events w) (<[c := ch]> (chans w))
|}.

#[global] Instance host_laws : StreamHostLaws t.
Proof.
  split; try done; simpl.
  - by intros [].
  - intros w c ch. by rewrite lookup_insert_eq.
  - intros w c c' ch ?. by rewrite lookup_insert_ne.
Qed.

End Ports.

(** The frames the streams build: flags alone, and data. *)
Definition control_frame (id : StreamId.t) (flags : FrameFlags.t) : Frame.t :=
  Frame.mk (FrameHeader.mk id (OperationId.mk 0) flags FrameType.Data 0) [].

Definition data_frame (id : StreamId.t) (payload : bytes) : Frame.t :=
  Frame.mk (FrameHeader.mk id (OperationId.mk 0) FrameFlags.EMPTY FrameType.Data 0) payload.

(** The state that closing leads to, and the events it sends. *)
Definition close_state (st : StreamState) : StreamState :=
  match st with
  | Init | OpenSent | OpenReceived | Established => LocalClosing
  | LocalClosing | RemoteClosing | Closed | Reset => Closed
  end.

Definition close_events (id : StreamId.t) (st : StreamState) : list StreamEvent.t :=
  match st with
  | Init | OpenSent | OpenReceived | Established =>
      [StreamEvent.Frame (control_frame id FrameFlags.close_request)]
  | RemoteClosing =>
      [StreamEvent.Frame (control_frame id FrameFlags.close_request); StreamEvent.Closed id]
  | LocalClosing | Closed | Reset => [StreamEvent.Closed id]
  end.

(** A channel after several messages, and how many more it takes. *)
Definition push_all {A : Type} (ch : Mpsc.t A) (xs : list A) : Mpsc.t A :=
  Mpsc.mk (Mpsc.queue ch ++ xs) (Mpsc.capacity ch) (Mpsc.tx_alive ch) (Mpsc.rx_alive ch).

Definition room {A : Type} (ch : Mpsc.t A) : nat :=
  if Mpsc.rx_alive ch then Mpsc.capacity ch - length (Mpsc.queue ch) else 0.

(** Writes one after the other, with the result of each. *)
Fixpoint write_all {W : Type} `{StreamHost W} (bufs : list bytes) (s : Halves.t * W) :
    (Halves.t * W) * list (poll (outcome error Z)) :=
  match bufs with
  | [] => (s, [])
  | buf :: bufs' =>
      let '(s', r) := Writer.poll_write buf s in
      let '(s'', rs) := write_all bufs' s' in (s'', r :: rs)
  end.

(** Reads one after the other until one does not complete. *)
Fixpoint read_all {W : Type} `{StreamHost W} (n : nat) (s : Halves.t * W * ReadBuf.t) :
    (Halves.t * W * ReadBuf.t) * poll (outcome error unit) :=
  match n with
  | O => (s, Ready (Ok tt))
  | S n' =>
      match Reader.poll_read s with
      | (s', Ready (Ok _)) => read_all n' s'
      | (s', r) => (s', r)
      end
  end.

(** The payload bytes queued for a stream. *)
Definition payloads (fs : list Frame.t) : bytes := concat (map Frame.payload fs).

Definition broken_pipe : poll (outcome error Z) :=
  Ready (Err (IoError BrokenPipe "Failed to send frame")).

(** ** Lemmas *)

Lemma try_send_room_case {A : Type} (ch : Mpsc.t A) (x : A) :
  Mpsc.try_send ch x =
  match room ch with
  | O => if Mpsc.rx_alive ch then Mpsc.Full else Mpsc.Closed
  | S _ => Mpsc.Sent (push_all ch [x])
  end.
Proof.
  unfold Mpsc.try_send, room. destruct (Mpsc.rx_alive ch); simpl; [|done].
  destruct (Nat.ltb_spec (length (Mpsc.queue ch)) (Mpsc.capacity ch)) as [Hlt|Hge].
  - by destruct (Mpsc.capacity ch - length (Mpsc.queue ch))%nat eqn:E; [lia|].
  - by replace (Mpsc.capacity ch - length (Mpsc.queue ch))%nat with O by lia.
Qed.

Lemma room_push_all {A : Type} (ch : Mpsc.t A) (xs : list A) :
  room (push_all ch xs) = (room ch - length xs)%nat.
Proof.
  unfold room, push_all. simpl. rewrite length_app.
  destruct (Mpsc.rx_alive ch); lia.
Qed.

Lemma push_all_nil {A : Type} (ch : Mpsc.t A) : push_all ch [] = ch.
Proof. destruct ch. unfold push_all. simpl. by rewrite app_nil_r. Qed.

Lemma push_all_app {A : Type} (ch : Mpsc.t A) (xs ys : list A) :
  push_all (push_all ch xs) ys = push_all ch (xs ++ ys).
Proof. unfold push_all. simpl. by rewrite app_assoc. Qed.

Section host_lemmas.

Context {W : Type} `{StreamHostLaws W}.

Lemma send_or_room {Hd : Type} (h : Hd) (w : W) (msg : string) (ev : StreamEvent.t) :
  (0 < room (events w))%nat ->
  send_or Hd msg ev (h, w) = ((h, set_events w (push_all (events w) [ev])), Ready (Ok tt)).
Proof.
  intros Hr. unfold send_or. rewrite try_send_room_case.
  by destruct (room (events w)); [lia|].
Qed.

Lemma poll_write_case (h : Halves.t) (w : W) (buf : bytes) :
  Writer.poll_write buf (h, w) =
  match room (events w) with
  | O => ((h, w), broken_pipe)
  | S _ => ((h, set_events w (push_all (events w)
              [StreamEvent.Frame (data_frame (Writer.stream_id h) buf)])), Ready (Ok (len buf)))
  end.
Proof.
  unfold Writer.poll_write. rewrite try_send_room_case.
  destruct (room (events w)); [|done]. by destruct (Mpsc.rx_alive (events w)).
Qed.

Lemma set_state_from_flags_receiver (h : Halves.t) (fl : FrameFlags.t) :
  Halves.reader (Reader.set_state_from_flags h fl) = Halves.reader h.
Proof. unfold Reader.set_state_from_flags, Reader.set_state. by repeat case_match. Qed.

Lemma poll_read_frame (h : Halves.t) (w : W) (f : Frame.t) (ch : Mpsc.t Frame.t)
    (buf : ReadBuf.t) :
  Mpsc.try_recv (frames w (Reader.receiver h)) = Mpsc.Received f ch ->
  Reader.poll_read (h, w, buf) =
  let h' := Reader.set_state_from_flags h (FrameHeader.flags (Frame.header f)) in
  let w' := set_frames w (Reader.receiver h) ch in
  match ReadBuf.put_slice buf (Frame.payload f) with
  | Some buf' => ((h', w', buf'), Ready (Ok tt))
  | None => ((h', w', buf), Ready Panic)
  end.
Proof.
  intros Hr. unfold Reader.poll_read. rewrite Hr.
  unfold Reader.receiver. rewrite !set_state_from_flags_receiver. done.
Qed.

Lemma read_all_queue (n : nat) (h : Halves.t) (w : W) (buf : ReadBuf.t) :
  let q := Mpsc.queue (frames w (Reader.receiver h)) in
  (n <= length q)%nat -> len (payloads (take n q)) <= ReadBuf.remaining buf ->
  exists h' w',
    read_all n (h, w, buf) =
      ((h', w', ReadBuf.mk (ReadBuf.filled buf ++ payloads (take n q)) (ReadBuf.size buf)),
       Ready (Ok tt)) /\
    Reader.receiver h' = Reader.receiver h /\
    Mpsc.queue (frames w' (Reader.receiver h)) = drop n q.
Proof using All.
  cbn zeta. revert h w buf.
  induction n as [|n IH]; intros h w buf Hn Hfit; simpl.
  - rewrite drop_0, app_nil_r. exists h, w. by destruct buf.
  - destruct (frames w (Reader.receiver h)) as [q k tx rx] eqn:Eq. cbn in *.
    destruct q as [|f q]; cbn in *; [lia|].
    rewrite (poll_read_frame h w f (Mpsc.mk q k tx rx)) by (by rewrite Eq). cbn zeta.
    unfold payloads in Hfit |- *. cbn in Hfit |- *. rewrite len_app in Hfit.
    unfold ReadBuf.put_slice.
    assert (Hb : (len (Frame.payload f) <=? ReadBuf.remaining buf) = true).
    { apply Z.leb_le. unfold len in *. lia. }
    rewrite Hb. set (h1 := Reader.set_state_from_flags h _).
    assert (Hh1 : Reader.receiver h1 = Reader.receiver h).
    { unfold Reader.receiver, h1. by rewrite set_state_from_flags_receiver. }
    destruct (IH h1 (set_frames w (Reader.receiver h) (Mpsc.mk q k tx rx))
      (ReadBuf.mk (ReadBuf.filled buf ++ Frame.payload f) (ReadBuf.size buf)))
      as (h' & w' & Hr & Hc & Hq); [..|exists h', w'].
    + rewrite Hh1, frames_set_frames. cbn. lia.
    + rewrite Hh1, frames_set_frames. cbn. unfold ReadBuf.remaining in *. cbn.
      rewrite len_app. unfold payloads. lia.
    + rewrite Hr, Hh1, frames_set_frames. cbn. rewrite <- app_assoc.
      split; [done|]. split; [congruence|]. rewrite Hh1 in Hq.
      by rewrite Hq, frames_set_frames.
Qed.

Lemma write_all_burst (bufs : list bytes) (h : Halves.t) (w : W) :
  let fit := take (room (events w)) bufs in
  write_all bufs (h, w) =
  ((h, set_events w (push_all (events w)
         (map (fun buf => StreamEvent.Frame (data_frame (Writer.stream_id h) buf)) fit))),
   map (fun buf => Ready (Ok (len buf))) fit ++
   replicate (length bufs - length fit) broken_pipe).
Proof using All.
  cbn zeta. revert w.
  induction bufs as [|buf bufs IH]; intros w; cbn [write_all].
  - rewrite take_nil. simpl. by rewrite push_all_nil, set_events_id.
  - rewrite poll_write_case. destruct (room (events w)) as [|k] eqn:Ek.
    + rewrite (IH w), Ek, take_0. simpl. by rewrite Nat.sub_0_r.
    + rewrite IH, events_set_events, room_push_all, Ek, set_events_twice, push_all_app.
      simpl. by rewrite Nat.sub_0_r.
Qed.

End host_lemmas.

(** ** Properties *)

Section stream_properties.

Context {W : Type} `{StreamHostLaws W}.

(** Closing a stream whose session still takes events: from every state
    the call completes, moves to the state of [close_state], and queues exactly
    the events of [close_events], in that order; the frame channels are
    untouched. *)
Theorem close_effect (ls : LogicalStream.t) (w : W)
    (Hroom : (length (close_events (LogicalStream.stream_id ls) (LogicalStream.state ls))
              <= room (events w))%nat) :
  LogicalStream.close (ls, w) =
  ((LogicalStream.set_state ls (close_state (LogicalStream.state ls)),
    set_events w (push_all (events w)
      (close_events (LogicalStream.stream_id ls) (LogicalStream.state ls)))),
   Ready (Ok tt)).
Proof using All.
  destruct ls as [sid id st c].
  destruct st; cbn in Hroom; unfold LogicalStream.close, abind, this, update; cbn;
    unfold LogicalStream.send_close_request, LogicalStream.send_event, abind, this; cbn;
    rewrite ?send_or_room by lia; try done; cbn.
  rewrite send_or_room by (rewrite events_set_events, room_push_all; cbn; lia).
  by rewrite set_events_twice, events_set_events, push_all_app.
Qed.

(** C33: Splitting is transparent to closing: the writer half of a split stream
    closes exactly as the whole stream does, on every state and whatever the
    condition of the event channel, full and closed included: same result,
    same events, and the shared state ends as the stream's own. *)
Theorem split_close_refines (ls : LogicalStream.t) (w : W) :
  Writer.close (split ls, w) =
  let '((ls', w'), r) := LogicalStream.close (ls, w) in ((split ls', w'), r).
Proof.
  destruct ls as [sid id st c].
  destruct st; unfold Writer.close, LogicalStream.close, abind, this, update; cbn;
    unfold Writer.send_close_request, Writer.send_event, LogicalStream.send_close_request,
      LogicalStream.send_event, abind, this, send_or; cbn;
    repeat (case_match; simplify_eq; try done).
Qed.

(** C34: Receiving through the reader half of a split stream takes the same
    frame from the same channel as the whole stream, and sets the same state,
    except that a close request or a close response leaves the shared state as
    it was. *)
Theorem split_recv_frame (ls : LogicalStream.t) (w : W) (f : Frame.t) (ch : Mpsc.t Frame.t)
    (Hrecv : Mpsc.try_recv (frames w (LogicalStream.frame_receiver ls)) = Mpsc.Received f ch) :
  let fl := FrameHeader.flags (Frame.header f) in
  let ls' := LogicalStream.set_state_from_flags ls fl in
  let w' := set_frames w (LogicalStream.frame_receiver ls) ch in
  LogicalStream.recv_frame (ls, w) = ((ls', w'), Ready (Ok f)) /\
  Reader.recv_frame (split ls, w) =
    ((split (if FrameFlags.is_close_request fl || FrameFlags.is_close_response fl
             then ls else ls'), w'), Ready (Ok f)).
Proof.
  destruct ls as [sid id st c]. cbn in *.
  unfold LogicalStream.recv_frame, Reader.recv_frame, abind, this, recv_on, update; cbn.
  rewrite Hrecv. split; [done|]. do 2 f_equal.
  unfold LogicalStream.set_state_from_flags, Reader.set_state_from_flags, Reader.set_state; cbn.
  unfold FrameFlags.is_open_request, FrameFlags.is_open_response, FrameFlags.is_open_reset,
    FrameFlags.is_close_request, FrameFlags.is_close_response.
  destruct (FrameHeader.flags (Frame.header f)) as [b]. unfold FrameFlags.eqb. cbn.
  do 2 f_equal.
  repeat case_match; simplify_eq; try done; rewrite ?Z.eqb_eq in *; simplify_eq; done.
Qed.

(** C35: Writing in a burst while the session does not run: the writes that fit
    into the event channel succeed with the length of their buffer and are
    queued in order as data frames of the stream; every later one fails with a
    broken pipe, on a channel that is only full as on a closed one, and queues
    nothing. *)
Theorem poll_write_burst (bufs : list bytes) (h : Halves.t) (w : W) :
  let fit := take (room (events w)) bufs in
  write_all bufs (h, w) =
  ((h, set_events w (push_all (events w)
         (map (fun buf => StreamEvent.Frame (data_frame (Writer.stream_id h) buf)) fit))),
   map (fun buf => Ready (Ok (len buf))) fit ++
   replicate (length bufs - length fit) broken_pipe).
Proof using All. apply write_all_burst. Qed.

(** Reading a stream as bytes: with a buffer that holds what the first
    [n] queued frames carry, [n] reads complete, fill the buffer with exactly
    their payloads in the order of the queue, and take exactly those frames. *)
Theorem poll_read_drains (n : nat) (h : Halves.t) (w : W) (buf : ReadBuf.t)
    (Hn : (n <= length (Mpsc.queue (frames w (Reader.receiver h))))%nat)
    (Hfit : len (payloads (take n (Mpsc.queue (frames w (Reader.receiver h)))))
            <= ReadBuf.remaining buf) :
  exists h' w',
    read_all n (h, w, buf) =
      ((h', w', ReadBuf.mk (ReadBuf.filled buf ++
                  payloads (take n (Mpsc.queue (frames w (Reader.receiver h)))))
                (ReadBuf.size buf)), Ready (Ok tt)) /\
    Mpsc.queue (frames w' (Reader.receiver h')) =
      drop n (Mpsc.queue (frames w (Reader.receiver h))).
Proof using All.
  destruct (read_all_queue n h w buf Hn Hfit) as (h' & w' & Hr & Hc & Hq).
  exists h', w'. by rewrite Hc.
Qed.

(** C40: A frame longer than what is left of the caller's buffer makes the read
    panic, and the frame is gone from the stream's queue. *)
Theorem poll_read_overflow_panics (h : Halves.t) (w : W) (f : Frame.t) (q : list Frame.t)
    (buf : ReadBuf.t)
    (Hq : Mpsc.queue (frames w (Reader.receiver h)) = f :: q)
    (Hover : ReadBuf.remaining buf < len (Frame.payload f)) :
  exists h' w', Reader.poll_read (h, w, buf) = ((h', w', buf), Ready Panic) /\
    Mpsc.queue (frames w' (Reader.receiver h)) = q.
Proof using All.
  destruct (frames w (Reader.receiver h)) as [q' k tx rx] eqn:E. cbn in Hq. subst q'.
  rewrite (poll_read_frame h w f (Mpsc.mk q k tx rx)) by (by rewrite E). cbn zeta.
  unfold ReadBuf.put_slice. rewrite (proj2 (Z.leb_gt _ _)) by lia.
  do 2 eexists. split; [done|]. by rewrite frames_set_frames.
Qed.

End stream_properties.

(** ** Witnesses: a host whose only stream has two frames queued. *)

Definition sample_stream : LogicalStream.t :=
  LogicalStream.new (SessionId.mk 1) (StreamId.mk 3) RemoteClosing 0%nat.

Definition sample_ports : Ports.t :=
  Ports.mk (Mpsc.channel 2)
    {[ 0%nat := Mpsc.mk [data_frame (StreamId.mk 3) [byte_of 7; byte_of 8];
                         control_frame (StreamId.mk 3) FrameFlags.close_request] 32 true true ]}.

Lemma close_effect_witness :
  LogicalStream.close (sample_stream, sample_ports) =
  ((LogicalStream.set_state sample_stream Closed,
    set_events sample_ports (push_all (events sample_ports)
      [StreamEvent.Frame (control_frame (StreamId.mk 3) FrameFlags.close_request);
       StreamEvent.Closed (StreamId.mk 3)])), Ready (Ok tt)).
Proof. apply (close_effect sample_stream sample_ports). vm_compute. lia. Defined.

Lemma split_recv_frame_witness :
  Reader.recv_frame (split sample_stream, sample_ports) =
  ((split sample_stream,
    set_frames sample_ports 0%nat
      (Mpsc.mk [control_frame (StreamId.mk 3) FrameFlags.close_request] 32 true true)),
   Ready (Ok (data_frame (StreamId.mk 3) [byte_of 7; byte_of 8]))).
Proof.
  refine (proj2 (split_recv_frame sample_stream sample_ports
    (data_frame (StreamId.mk 3) [byte_of 7; byte_of 8]) _ _)).
  reflexivity.
Defined.

Lemma poll_write_burst_witness :
  (write_all [[byte_of 1]; [byte_of 2]; [byte_of 3; byte_of 4]]
     (split sample_stream, sample_ports)).2 =
  [Ready (Ok 1); Ready (Ok 1); broken_pipe].
Proof.
  exact (f_equal snd (poll_write_burst [[byte_of 1]; [byte_of 2]; [byte_of 3; byte_of 4]]
    (split sample_stream) sample_ports)).
Defined.

Lemma poll_read_drains_witness :
  exists h' w',
    read_all 2 (split sample_stream, sample_ports, ReadBuf.mk [] 10) =
      ((h', w', ReadBuf.mk [byte_of 7; byte_of 8] 10), Ready (Ok tt)) /\
    Mpsc.queue (frames w' (Reader.receiver h')) = [].
Proof.
  destruct (poll_read_drains 2 (split sample_stream) sample_ports (ReadBuf.mk [] 10))
    as (h' & w' & Hr & Hq); [vm_compute; lia | vm_compute; discriminate |].
  exists h', w'. split; [exact Hr | exact Hq].
Defined.

Lemma poll_read_overflow_panics_witness :
  exists h' w',
    Reader.poll_read (split sample_stream, sample_ports, ReadBuf.mk [] 1) =
      ((h', w', ReadBuf.mk [] 1), Ready Panic) /\
    Mpsc.queue (frames w' 0%nat) = [control_frame (StreamId.mk 3) FrameFlags.close_request].
Proof.
  exact (poll_read_overflow_panics (split sample_stream) sample_ports
    (data_frame (StreamId.mk 3) [byte_of 7; byte_of 8]) _ (ReadBuf.mk [] 1) eq_refl eq_refl).
Defined.
