(* ===== verification/MuxSession.v ===== *)
(** * Sessions

    foctet-mux/src/session.rs: the session actor with its handlers and its
    loop, the task that forwards the answer to an open request, and the
    operations of the session handle.

    The actor, the session handle and the logical streams run in different
    tasks that share channels.  [World] is all of it for one session: the
    actor's own fields, the channels, and the tasks spawned to forward
    answers.  A channel end is held by name: the actor's [streams] holds the
    only sender of each stream's frame channel, so removing an entry drops it.

    The handlers and [turn] here run from their start to their end, as they do when they
    do not have to wait; otherwise [turn] is not taken.  [MuxActor] has the same task with
    the places where it waits, in which no other branch can be taken. *)

From S2P Require Import Prelude Ids Ip Frame Tokio MuxStream.

Local Open Scope Z_scope.
Local Open Scope async_scope.

(** foctet-mux/src/session.rs:23-30, [SessionSide]. *)
Inductive SessionSide : Type :=
| Client
| Server.

#[export] Instance SessionSide_eq_dec : EqDecision SessionSide.
Proof. solve_decision. Defined.

(** foctet-mux/src/session.rs:33-36, [SessionSide::is_client]. *)
Definition is_client (self : SessionSide) : bool := bool_decide (self = Client).

(** foctet-mux/src/session.rs:38-41, [SessionSide::is_server]. *)
Definition is_server (self : SessionSide) : bool := bool_decide (self = Server).

(** The name of a oneshot channel. *)
Definition OneshotId : Type := nat.

(** foctet-mux/src/session.rs:44-48, [Command]. *)
Inductive Command : Type :=
| OpenStream (reply_tx : OneshotId)
| Shutdown (reply_tx : OneshotId).

(** The [FramedWrite] over the raw stream: the frames given to the encoder and
    flushed, and the condition of the raw stream. *)
Module FramedWriter.

Inductive link : Type :=
| Open
| Stalled
| Broken (e : error).

Record t : Type := mk {
  written : list Frame.t;
  state : link;
  closed : bool
}.

Definition send (self : t) (frame : Frame.t) : poll (t * outcome error unit) :=
  match state self with
  | Open => Ready (mk (written self ++ [frame]) (state self) (closed self), Ok tt)
  | Stalled => Pending
  | Broken e => Ready (self, Err e)
  end.

Definition close (self : t) : poll (t * outcome error unit) :=
  match state self with
  | Open => Ready (mk (written self) (state self) true, Ok tt)
  | Stalled => Pending
  | Broken e => Ready (self, Err e)
  end.

End FramedWriter.

Module SessionActor.

(** foctet-mux/src/session.rs:50-83, [SessionActor]: the fields that are not
    ends of a channel or of the raw stream, which are in [World]. *)
Record t : Type := mk {
  session_id : SessionId.t;
  next_stream_id : StreamId.t;
  remote_closed : bool;
  local_closed : bool;
  pending_streams : gmap StreamId.t OneshotId;
  streams : gmap StreamId.t ChanId;
  keepalive : option Z
}.

Definition set_next_stream_id (w : t) (x : StreamId.t) : t :=
  mk (session_id w) x (remote_closed w) (local_closed w) (pending_streams w) (streams w)
    (keepalive w).

Definition set_remote_closed (w : t) (x : bool) : t :=
  mk (session_id w) (next_stream_id w) x (local_closed w) (pending_streams w) (streams w)
    (keepalive w).

Definition set_local_closed (w : t) (x : bool) : t :=
  mk (session_id w) (next_stream_id w) (remote_closed w) x (pending_streams w) (streams w)
    (keepalive w).

Definition set_pending_streams (w : t) (x : gmap StreamId.t OneshotId) : t :=
  mk (session_id w) (next_stream_id w) (remote_closed w) (local_closed w) x (streams w)
    (keepalive w).

Definition set_streams (w : t) (x : gmap StreamId.t ChanId) : t :=
  mk (session_id w) (next_stream_id w) (remote_closed w) (local_closed w) (pending_streams w)
    x (keepalive w).

End SessionActor.

(** A session and everything it shares. *)
Module World.

Record t : Type := mk {
  actor : SessionActor.t;
  framed_writer : FramedWriter.t;
  incoming : list (outcome error Frame.t);
  events : Mpsc.t StreamEvent.t;
  control : Mpsc.t Command;
  accepts : Mpsc.t LogicalStream.t;
  chans : gmap ChanId (Mpsc.t Frame.t);
  responses : gmap OneshotId (Oneshot.t (outcome error LogicalStream.t));
  replies : gmap OneshotId (Oneshot.t (outcome error LogicalStream.t));
  acks : gmap OneshotId (Oneshot.t unit);
  tasks : list (OneshotId * OneshotId);
  fresh : nat;
  cancelled : bool;
  running : bool
}.

Definition set_actor (w : t) (x : SessionActor.t) : t :=
  mk x (framed_writer w) (incoming w) (events w) (control w) (accepts w) (chans w)
    (responses w) (replies w) (acks w) (tasks w) (fresh w) (cancelled w) (running w).

Definition set_framed_writer (w : t) (x : FramedWriter.t) : t :=
  mk (actor w) x (incoming w) (events w) (control w) (accepts w) (chans w) (responses w)
    (replies w) (acks w) (tasks w) (fresh w) (cancelled w) (running w).

Definition set_incoming (w : t) (x : list (outcome error Frame.t)) : t :=
  mk (actor w) (framed_writer w) x (events w) (control w) (accepts w) (chans w) (responses w)
    (replies w) (acks w) (tasks w) (fresh w) (cancelled w) (running w).

Definition set_events (w : t) (x : Mpsc.t StreamEvent.t) : t :=
  mk (actor w) (framed_writer w) (incoming w) x (control w) (accepts w) (chans w)
    (responses w) (replies w) (acks w) (tasks w) (fresh w) (cancelled w) (running w).

Definition set_control (w : t) (x : Mpsc.t Command) : t :=
  mk (actor w) (framed_writer w) (incoming w) (events w) x (accepts w) (chans w) (responses w)
    (replies w) (acks w) (tasks w) (fresh w) (cancelled w) (running w).

Definition set_accepts (w : t) (x : Mpsc.t LogicalStream.t) : t :=
  mk (actor w) (framed_writer w) (incoming w) (events w) (control w) x (chans w) (responses w)
    (replies w) (acks w) (tasks w) (fresh w) (cancelled w) (running w).

Definition set_chans (w : t) (x : gmap ChanId (Mpsc.t Frame.t)) : t :=
  mk (actor w) (framed_writer w) (incoming w) (events w) (control w) (accepts w) x
    (responses w) (replies w) (acks w) (tasks w) (fresh w) (cancelled w) (running w).

Definition set_responses (w : t) (x : gmap OneshotId (Oneshot.t (outcome error
    LogicalStream.t))) : t :=
  mk (actor w) (framed_writer w) (incoming w) (events w) (control w) (accepts w) (chans w) x
    (replies w) (acks w) (tasks w) (fresh w) (cancelled w) (running w).

Definition set_replies (w : t) (x : gmap OneshotId (Oneshot.t (outcome error LogicalStream.t)))
    : t :=
  mk (actor w) (framed_writer w) (incoming w) (events w) (control w) (accepts w) (chans w)
    (responses w) x (acks w) (tasks w) (fresh w) (cancelled w) (running w).

Definition set_acks (w : t) (x : gmap OneshotId (Oneshot.t unit)) : t :=
  mk (actor w) (framed_writer w) (incoming w) (events w) (control w) (accepts w) (chans w)
    (responses w) (replies w) x (tasks w) (fresh w) (cancelled w) (running w).

Definition set_tasks (w : t) (x : list (OneshotId * OneshotId)) : t :=
  mk (actor w) (framed_writer w) (incoming w) (events w) (control w) (accepts w) (chans w)
    (responses w) (replies w) (acks w) x (fresh w) (cancelled w) (running w).

Definition set_fresh (w : t) (x : nat) : t :=
  mk (actor w) (framed_writer w) (incoming w) (events w) (control w) (accepts w) (chans w)
    (responses w) (replies w) (acks w) (tasks w) x (cancelled w) (running w).

Definition set_cancelled (w : t) (x : bool) : t :=
  mk (actor w) (framed_writer w) (incoming w) (events w) (control w) (accepts w) (chans w)
    (responses w) (replies w) (acks w) (tasks w) (fresh w) x (running w).

Definition set_running (w : t) (x : bool) : t :=
  mk (actor w) (framed_writer w) (incoming w) (events w) (control w) (accepts w) (chans w)
    (responses w) (replies w) (acks w) (tasks w) (fresh w) (cancelled w) x.

Definition set_streams (w : t) (x : gmap StreamId.t ChanId) : t :=
  set_actor w (SessionActor.set_streams (actor w) x).

Definition set_pending (w : t) (x : gmap StreamId.t OneshotId) : t :=
  set_actor w (SessionActor.set_pending_streams (actor w) x).

Definition streams (w : t) : gmap StreamId.t ChanId := SessionActor.streams (actor w).

Definition pending (w : t) : gmap StreamId.t OneshotId :=
  SessionActor.pending_streams (actor w).

#[global] Instance host : StreamHost t := {|
  MuxStream.events := events;
  MuxStream.set_events := set_events;
  frames := fun w c => default dead (chans w !! c);
  set_frames := fun w c ch => set_chans w (<[c := ch]> (chans w))
|}.

#[global] Instance host_laws : StreamHostLaws t.
Proof.
  split; try done; simpl.
  - by intros [].
  - intros w c ch. by rewrite lookup_insert_eq.
  - intros w c c' ch ?. by rewrite lookup_insert_ne.
Qed.

End World.

Import World.

(** ** Operations on the shared channels *)

(** [mpsc::channel(32)] for the frames of a stream, and [oneshot::channel()]
    for an answer. *)
Definition new_chan : async World.t ChanId :=
  fun w =>
    let c := fresh w in
    (set_fresh (set_chans w (<[c := Mpsc.channel 32]> (chans w))) (S c), Ready (Ok c)).

Definition new_response : async World.t OneshotId :=
  fun w =>
    let o := fresh w in
    (set_fresh (set_responses w (<[o := Oneshot.channel]> (responses w))) (S o), Ready (Ok o)).

Definition new_reply : async World.t OneshotId :=
  fun w =>
    let o := fresh w in
    (set_fresh (set_replies w (<[o := Oneshot.channel]> (replies w))) (S o), Ready (Ok o)).

(** Dropping a logical stream drops its receiver. *)
Definition drop_stream (w : World.t) (ls : LogicalStream.t) : World.t :=
  set_chans w (alter Mpsc.drop_rx (LogicalStream.frame_receiver ls) (chans w)).

(** [streams.remove(&id)], dropping the sender, and [streams.insert(id, c)]. *)
Definition remove_stream (w : World.t) (id : StreamId.t) : World.t :=
  match streams w !! id with
  | Some c => set_streams (set_chans w (alter Mpsc.drop_tx c (chans w))) (delete id (streams w))
  | None => w
  end.

Definition insert_stream (w : World.t) (id : StreamId.t) (c : ChanId) : World.t :=
  let w := remove_stream w id in
  set_streams w (<[id := c]> (streams w)).

(** [pending_streams.insert(id, o)], dropping a sender it replaces. *)
Definition insert_pending (w : World.t) (id : StreamId.t) (o : OneshotId) : World.t :=
  let w :=
    match pending w !! id with
    | Some o' => set_responses w (alter Oneshot.drop_tx o' (responses w))
    | None => w
    end in
  set_pending w (<[id := o]> (pending w)).

(** [sender.send(frame).await] of a stream's sender: whether it was sent. *)
Definition chan_send (c : ChanId) (frame : Frame.t) : async World.t bool :=
  fun w =>
    match Mpsc.try_send (default dead (chans w !! c)) frame with
    | Mpsc.Sent ch => (set_chans w (<[c := ch]> (chans w)), Ready (Ok true))
    | Mpsc.Full => (w, Pending)
    | Mpsc.Closed => (w, Ready (Ok false))
    end.

(** [stream_sender.send(stream).await]; a stream that cannot be sent is
    dropped with the error. *)
Definition accept_send (ls : LogicalStream.t) : async World.t bool :=
  fun w =>
    match Mpsc.try_send (accepts w) ls with
    | Mpsc.Sent ch => (set_accepts w ch, Ready (Ok true))
    | Mpsc.Full => (w, Pending)
    | Mpsc.Closed => (drop_stream w ls, Ready (Ok false))
    end.

(** [sender.send(r)] of an answer: the channel, and the answer when nobody
    waits for it. *)
Definition answer (m : gmap OneshotId (Oneshot.t (outcome error LogicalStream.t)))
    (o : OneshotId) (r : outcome error LogicalStream.t) :
    gmap OneshotId (Oneshot.t (outcome error LogicalStream.t)) * bool :=
  match m !! o with
  | Some ch => let '(ch', sent) := Oneshot.send ch r in (<[o := ch']> m, sent)
  | None => (m, true)
  end.

(** An answer that is not sent is dropped, with the stream in it. *)
Definition drop_answer (w : World.t) (r : outcome error LogicalStream.t) : World.t :=
  match r with
  | Ok ls => drop_stream w ls
  | _ => w
  end.

Definition response_send (w : World.t) (o : OneshotId) (r : outcome error LogicalStream.t) :
    World.t :=
  let '(m, sent) := answer (responses w) o r in
  if sent : bool then set_responses w m else drop_answer (set_responses w m) r.

Definition reply_send (w : World.t) (o : OneshotId) (r : outcome error LogicalStream.t) :
    World.t :=
  let '(m, sent) := answer (replies w) o r in
  if sent : bool then set_replies w m else drop_answer (set_replies w m) r.

Definition ack_send (w : World.t) (o : OneshotId) : World.t :=
  set_acks w (alter (fun ch => (Oneshot.send ch tt).1) o (acks w)).

(** [framed_writer.send(frame).await]: its result. *)
Definition writer_send (frame : Frame.t) : async World.t (outcome error unit) :=
  fun w =>
    match FramedWriter.send (framed_writer w) frame with
    | Ready (fw, r) => (set_framed_writer w fw, Ready (Ok r))
    | Pending => (w, Pending)
    end.

(** ** The actor *)

(** foctet-mux/src/session.rs:130-209, [SessionActor::handle_incoming_frame]. *)
Definition handle_incoming_frame (frame : Frame.t) : async World.t unit :=
  await w := aget in
  let stream_id := FrameHeader.stream_id (Frame.header frame) in
  let flags := FrameHeader.flags (Frame.header frame) in
  match streams w !! stream_id with
  | Some sender =>
      await sent := chan_send sender frame in
      if sent : bool then aret tt
      else amodify (fun w => remove_stream w stream_id)
  | None =>
      if FrameFlags.is_open_request flags then
        await c := new_chan in
        let logical_stream :=
          LogicalStream.new (SessionActor.session_id (actor w)) stream_id Established c in
        amodify (fun w => insert_stream w stream_id c);;;
        await sent := accept_send logical_stream in
        (if sent : bool then aret tt
         else amodify (fun w => remove_stream w stream_id));;;
        let open_response_frame :=
          FrameBuilder.build (FrameBuilder.with_flags
            (FrameBuilder.with_stream_id builder stream_id) FrameFlags.open_response) in
        await _ := writer_send open_response_frame in
        aret tt
      else if FrameFlags.is_open_response flags then
        match pending w !! stream_id with
        | Some sender =>
            amodify (fun w => set_pending w (delete stream_id (pending w)));;;
            await c := new_chan in
            amodify (fun w => insert_stream w stream_id c);;;
            amodify (fun w => response_send w sender
              (Ok (LogicalStream.new (SessionActor.session_id (actor w)) stream_id
                     Established c)))
        | None => aret tt
        end
      else if FrameFlags.is_open_reset flags then
        match pending w !! stream_id with
        | Some sender =>
            amodify (fun w => set_pending w (delete stream_id (pending w)));;;
            amodify (fun w => response_send w sender
              (Err (Anyhow ("Stream " +:+ pretty (StreamId.val stream_id)
                            +:+ " rejected by remote"))))
        | None => aret tt
        end
      else aret tt
  end.

(** foctet-mux/src/session.rs:211-254, [SessionActor::handle_control_command].
    When the open request cannot be written, the answer's receiver and the
    caller's sender are dropped with the error. *)
Definition handle_control_command (cmd : Command) : async World.t unit :=
  match cmd with
  | OpenStream reply_tx =>
      await w := aget in
      let '(next, stream_id) := StreamId.fetch_add (SessionActor.next_stream_id (actor w)) 1 in
      amodify (fun w => set_actor w (SessionActor.set_next_stream_id (actor w) next));;;
      await resp := new_response in
      amodify (fun w => insert_pending w stream_id resp);;;
      let open_frame :=
        FrameBuilder.build (FrameBuilder.with_flags
          (FrameBuilder.with_stream_id builder stream_id) FrameFlags.open_request) in
      await r := writer_send open_frame in
      match r with
      | Ok _ => amodify (fun w => set_tasks w (tasks w ++ [(resp, reply_tx)]))
      | Err e =>
          amodify (fun w => set_responses w (alter Oneshot.drop_rx resp (responses w)));;;
          amodify (fun w => set_replies w (alter Oneshot.drop_tx reply_tx (replies w)));;;
          afail e
      | Panic => apanic
      end
  | Shutdown reply_tx =>
      amodify (fun w => set_actor w (SessionActor.set_local_closed (actor w) true));;;
      amodify (fun w => ack_send w reply_tx)
  end.

(** foctet-mux/src/session.rs:256-278, [SessionActor::handle_stream_event]. *)
Definition handle_stream_event (event : StreamEvent.t) : async World.t unit :=
  match event with
  | StreamEvent.Frame frame =>
      await r := writer_send frame in
      match r with
      | Ok _ => aret tt
      | Err e => afail (Caused "Failed to send frame to writer: " e)
      | Panic => apanic
      end
  | StreamEvent.Closed stream_id => amodify (fun w => remove_stream w stream_id)
  | StreamEvent.Error => aret tt
  end.

(** Applying [f] to the entries of a map that are named in [ids]. *)
Definition alter_all {A : Type} (f : A -> A) (ids : list nat) (m : gmap nat A) : gmap nat A :=
  map_imap (fun i x => Some (if bool_decide (i ∈ ids) then f x else x)) m.

(** foctet-mux/src/session.rs:280-293, [SessionActor::shutdown]. *)
Definition shutdown : async World.t unit :=
  amodify (fun w => set_streams
    (set_chans w (alter_all Mpsc.drop_tx (map_to_list (streams w)).*2 (chans w))) ∅);;;
  fun w =>
    match FramedWriter.close (framed_writer w) with
    | Ready (fw, _) => (set_framed_writer w fw, Ready (Ok tt))
    | Pending => (w, Pending)
    end.

(** foctet-mux/src/session.rs:295-299, [SessionActor::keepalive_tick]: it does nothing,
    with an interval or without. *)
Definition keepalive_tick : async World.t unit := aret tt.

(** The senders of answers inside commands. *)
Definition open_replies (cmds : list Command) : list OneshotId :=
  omap (fun cmd => match cmd with OpenStream o => Some o | Shutdown _ => None end) cmds.

Definition shutdown_acks (cmds : list Command) : list OneshotId :=
  omap (fun cmd => match cmd with OpenStream _ => None | Shutdown o => Some o end) cmds.

(** What the end of the actor's task drops: its maps, the event receiver, the
    control receiver with the commands still queued, and the sender of accepted
    streams. *)
Definition drop_actor (w : World.t) : World.t :=
  let w := set_chans w (alter_all Mpsc.drop_tx (map_to_list (streams w)).*2 (chans w)) in
  let w := set_responses w
    (alter_all Oneshot.drop_tx (map_to_list (pending w)).*2 (responses w)) in
  let w := set_pending (set_streams w ∅) ∅ in
  let w := set_replies w
    (alter_all Oneshot.drop_tx (open_replies (Mpsc.queue (control w))) (replies w)) in
  let w := set_acks w
    (alter_all Oneshot.drop_tx (shutdown_acks (Mpsc.queue (control w))) (acks w)) in
  let w := set_events w (Mpsc.drop_rx (events w)) in
  let w := set_control w (Mpsc.drop_rx (control w)) in
  let w := set_accepts w (Mpsc.drop_tx (accepts w)) in
  set_running w false.

(** The end of [run]: [shutdown], then the task is over. *)
Definition finish (w : World.t) : option World.t :=
  match shutdown w with
  | (w', Pending) => None
  | (w', Ready _) => Some (drop_actor w')
  end.

(** What the loop does with the result of a handler; [None] while the handler
    waits. *)
Definition conclude (result : World.t * poll (outcome error unit)) : option World.t :=
  match result with
  | (w, Ready (Ok _)) => Some w
  | (w, Ready (Err _)) => finish w
  | (w, Ready Panic) => Some (drop_actor w)
  | (_, Pending) => None
  end.

(** The branches of [select!]. *)
Inductive branch : Type :=
| Cancelled
| NextFrame
| NextCommand
| NextEvent.

(** foctet-mux/src/session.rs:89-128, [SessionActor::run]: one iteration that does not
    have to wait once it has begun, with the branch that is taken; [None] when that branch is
    not ready, or when its handler would wait, which [poll_actor] of [MuxActor] goes
    into. *)
Definition turn (b : branch) (w : World.t) : option World.t :=
  if negb (running w) then None
  else
    match b with
    | Cancelled => if cancelled w then finish w else None
    | NextFrame =>
        match incoming w with
        | [] => None
        | Ok frame :: rest => conclude (handle_incoming_frame frame (set_incoming w rest))
        | _ :: rest =>
            finish (set_actor (set_incoming w rest)
                      (SessionActor.set_remote_closed (actor w) true))
        end
    | NextCommand =>
        match Mpsc.try_recv (control w) with
        | Mpsc.Received cmd ch => conclude (handle_control_command cmd (set_control w ch))
        | _ => None
        end
    | NextEvent =>
        match Mpsc.try_recv (events w) with
        | Mpsc.Received event ch => conclude (handle_stream_event event (set_events w ch))
        | _ => None
        end
    end.

(** foctet-mux/src/session.rs:229-242, [SessionActor::handle_control_command]:
    the spawned task, from the answer [resp_rx] to the caller's [reply_tx];
    [None] while it waits. *)
Definition forward (w : World.t) (resp_rx reply_tx : OneshotId) : option World.t :=
  match responses w !! resp_rx with
  | Some ch =>
      let taken := set_responses w (<[resp_rx := Oneshot.mk None false false]> (responses w)) in
      match Oneshot.recv ch with
      | Ready (Some (Ok stream)) => Some (reply_send taken reply_tx (Ok stream))
      | Ready (Some (Err e)) => Some (reply_send taken reply_tx (Err e))
      | Ready (Some Panic) => Some (reply_send taken reply_tx Panic)
      | Ready None => Some (reply_send taken reply_tx (Err (Anyhow "No response received")))
      | Pending => None
      end
  | None => None
  end.

(** The [k]-th spawned task runs to its end. *)
Definition run_task (k : nat) (w : World.t) : option World.t :=
  match tasks w !! k with
  | Some (resp_rx, reply_tx) =>
      match forward w resp_rx reply_tx with
      | Some w' => Some (set_tasks w' (delete k (tasks w')))
      | None => None
      end
  | None => None
  end.

(** ** The session handle *)

Module Session.

(** foctet-mux/src/session.rs:303-322, [Session]: the fields that are not ends
    of a channel, and the raw stream, which [spawn] moves into the actor that the
    handle stands for. *)
Record t (T : Type) : Type := mk {
  raw_stream : T;
  session_id : SessionId.t;
  side : SessionSide;
  local_addr : option SocketAddr.t;
  remote_addr : option SocketAddr.t
}.

Arguments mk {T} raw_stream session_id side local_addr remote_addr.
Arguments raw_stream {T} t.
Arguments session_id {T} t.
Arguments side {T} t.
Arguments local_addr {T} t.
Arguments remote_addr {T} t.

(** foctet-mux/src/session.rs:328-385, [Session::spawn]: the handle and the
    world of the actor's task, before its first turn. *)
Definition spawn {T : Type} (stream : T) (side : SessionSide) (session_id : SessionId.t)
    (local_addr remote_addr : option SocketAddr.t) : t T * World.t :=
  let next_stream_id :=
    match side with
    | Client => StreamId.mk 1
    | Server => StreamId.mk 2
    end in
  let actor := SessionActor.mk session_id next_stream_id false false ∅ ∅ None in
  (mk stream session_id side local_addr remote_addr,
   World.mk actor (FramedWriter.mk [] FramedWriter.Open false) []
     (Mpsc.channel 32) (Mpsc.channel 8) (Mpsc.channel 32) ∅ ∅ ∅ ∅ [] 0 false true).

(** foctet-mux/src/session.rs:386-388, [Session::new_client]. *)
Definition new_client {T : Type} (raw_stream : T) (session_id : SessionId.t) : t T * World.t :=
  spawn raw_stream Client session_id None None.

(** foctet-mux/src/session.rs:389-391, [Session::new_server]. *)
Definition new_server {T : Type} (raw_stream : T) (session_id : SessionId.t) : t T * World.t :=
  spawn raw_stream Server session_id None None.

(** Dropping a command drops the sender of its answer. *)
Definition drop_command (w : World.t) (cmd : Command) : World.t :=
  match cmd with
  | OpenStream o => set_replies w (alter Oneshot.drop_tx o (replies w))
  | Shutdown o => set_acks w (alter Oneshot.drop_tx o (acks w))
  end.

(** [control_sender.send(cmd).await]. *)
Definition control_send (msg : string) (cmd : Command) : async World.t unit :=
  fun w =>
    match Mpsc.try_send (control w) cmd with
    | Mpsc.Sent ch => (set_control w ch, Ready (Ok tt))
    | Mpsc.Full => (w, Pending)
    | Mpsc.Closed => (drop_command w cmd, Ready (Err (Anyhow msg)))
    end.

(** Awaiting an answer takes it. *)
Definition await_reply (o : OneshotId) : async World.t (option (outcome error LogicalStream.t)) :=
  fun w =>
    match Oneshot.recv (default (Oneshot.mk None false false) (replies w !! o)) with
    | Ready r =>
        (set_replies w (<[o := Oneshot.mk None false false]> (replies w)), Ready (Ok r))
    | Pending => (w, Pending)
    end.

Definition await_ack (o : OneshotId) : async World.t unit :=
  fun w =>
    match Oneshot.recv (default (Oneshot.mk None false false) (acks w !! o)) with
    | Ready _ => (w, Ready (Ok tt))
    | Pending => (w, Pending)
    end.

(** foctet-mux/src/session.rs:392-397, [Session::open_stream]: up to the
    first suspension, with the receiver of the answer. *)
Definition open_stream_request : async World.t OneshotId :=
  await reply := new_reply in
  control_send "Failed to send OpenStream command" (OpenStream reply);;;
  aret reply.

(** foctet-mux/src/session.rs:399-404, [Session::open_stream]: from the
    answer on. *)
Definition open_stream_reply (reply : OneshotId) : async World.t LogicalStream.t :=
  await r := await_reply reply in
  match r with
  | Some (Ok stream) => aret stream
  | Some (Err e) => afail (Caused "Stream open failed: " e)
  | Some Panic => apanic
  | None => afail (Anyhow "Stream open response failed")
  end.

(** foctet-mux/src/session.rs:406-411, [Session::accept_stream]. *)
Definition accept_stream : async World.t LogicalStream.t :=
  fun w =>
    match Mpsc.try_recv (accepts w) with
    | Mpsc.Received stream ch => (set_accepts w ch, Ready (Ok stream))
    | Mpsc.Empty => (w, Pending)
    | Mpsc.Disconnected => (w, Ready (Err (Anyhow "Session closed")))
    end.

(** foctet-mux/src/session.rs:413-418, [Session::shutdown]: up to the first
    suspension. *)
Definition shutdown_request : async World.t OneshotId :=
  await reply := (fun w =>
    let o := fresh w in
    (set_fresh (set_acks w (<[o := Oneshot.channel]> (acks w))) (S o), Ready (Ok o))) in
  control_send "Failed to send Shutdown command" (Shutdown reply);;;
  aret reply.

(** foctet-mux/src/session.rs:420-423, [Session::shutdown]: from the answer
    on, whether it came or was dropped. *)
Definition shutdown_reply (reply : OneshotId) : async World.t unit :=
  await_ack reply;;;
  amodify (fun w => set_cancelled w true).

(** foctet-mux/src/session.rs:432-434, [Session::is_active]. *)
Definition is_active (w : World.t) : bool := running w.

(** foctet-mux/src/session.rs:436-438, [Session::set_local_addr]. *)
Definition set_local_addr {T : Type} (self : t T) (addr : SocketAddr.t) : t T :=
  mk (raw_stream self) (session_id self) (side self) (Some addr) (remote_addr self).

(** foctet-mux/src/session.rs:440-442, [Session::set_remote_addr]. *)
Definition set_remote_addr {T : Type} (self : t T) (addr : SocketAddr.t) : t T :=
  mk (raw_stream self) (session_id self) (side self) (local_addr self) (Some addr).

End Session.

Arguments handle_incoming_frame : simpl never.
Arguments handle_control_command : simpl never.
Arguments handle_stream_event : simpl never.
Arguments shutdown : simpl never.
Arguments drop_actor : simpl never.
