(* ===== verification/MuxActor.v ===== *)
(** * The session's task

    foctet-mux/src/session.rs: the task that runs a session's actor, with the
    places where it can be suspended.  [MuxSession] has the handlers as
    operations that run from their start; here each is the [future] of its calls,
    so that others can move while a handler waits in the middle, and nothing but
    that handler can go on then: [select!] is only reached again when it is done.

    [turn] of [MuxSession] is an iteration of the loop that nothing interrupts
    ([turn_settles]).  The invariants of [MuxInvariant] are about every
    interleaving of the task of this file with the others. *)

From S2P Require Import Prelude Ids Frame Tokio Futures MuxStream MuxSession.
Import MuxSession.World.

Local Open Scope future_scope.

(** ** The handlers, up to the calls that can wait *)

(** foctet-mux/src/session.rs:130-209, [SessionActor::handle_incoming_frame]. *)
Definition frame_task (frame : Frame.t) : future World.t unit :=
  let stream_id := FrameHeader.stream_id (Frame.header frame) in
  let flags := FrameHeader.flags (Frame.header frame) in
  let* w := call aget in
  match streams w !! stream_id with
  | Some sender =>
      let* sent := call (chan_send sender frame) in
      if sent : bool then fret tt
      else call (amodify (fun w => remove_stream w stream_id))
  | None =>
      if FrameFlags.is_open_request flags then
        let* logical_stream := call (
          await c := new_chan in
          amodify (fun w => insert_stream w stream_id c);;;
          aret (LogicalStream.new (SessionActor.session_id (actor w)) stream_id Established c))%async in
        let* sent := call (accept_send logical_stream) in
        let* _ := (if sent : bool then fret tt
                   else call (amodify (fun w => remove_stream w stream_id))) in
        let open_response_frame :=
          FrameBuilder.build (FrameBuilder.with_flags
            (FrameBuilder.with_stream_id builder stream_id) FrameFlags.open_response) in
        let* _ := call (writer_send open_response_frame) in
        fret tt
      else if FrameFlags.is_open_response flags then
        match pending w !! stream_id with
        | Some sender => call (
            amodify (fun w => set_pending w (delete stream_id (pending w)));;;
            await c := new_chan in
            amodify (fun w => insert_stream w stream_id c);;;
            amodify (fun w => response_send w sender
              (Ok (LogicalStream.new (SessionActor.session_id (actor w)) stream_id
                     Established c))))%async
        | None => fret tt
        end
      else if FrameFlags.is_open_reset flags then
        match pending w !! stream_id with
        | Some sender => call (
            amodify (fun w => set_pending w (delete stream_id (pending w)));;;
            amodify (fun w => response_send w sender
              (Err (Anyhow ("Stream " +:+ pretty (StreamId.val stream_id)
                            +:+ " rejected by remote")))))%async
        | None => fret tt
        end
      else fret tt
  end.

(** The beginning of an open request, which nothing interrupts: its identifier and the
    channel of its answer. *)
Definition open_begin : async World.t (StreamId.t * OneshotId) :=
  (await w := aget in
   let '(next, stream_id) := StreamId.fetch_add (SessionActor.next_stream_id (actor w)) 1 in
   amodify (fun w => set_actor w (SessionActor.set_next_stream_id (actor w) next));;;
   await resp := new_response in
   amodify (fun w => insert_pending w stream_id resp);;;
   aret (stream_id, resp))%async.

(** foctet-mux/src/session.rs:211-254, [SessionActor::handle_control_command]. *)
Definition command_task (cmd : Command) : future World.t unit :=
  match cmd with
  | OpenStream reply_tx =>
      let* opened := call open_begin in
      let '(stream_id, resp) := opened in
      let open_frame :=
        FrameBuilder.build (FrameBuilder.with_flags
          (FrameBuilder.with_stream_id builder stream_id) FrameFlags.open_request) in
      let* r := call (writer_send open_frame) in
      match r with
      | Ok _ => call (amodify (fun w => set_tasks w (tasks w ++ [(resp, reply_tx)])))
      | Err e => call (
          amodify (fun w => set_responses w (alter Oneshot.drop_rx resp (responses w)));;;
          amodify (fun w => set_replies w (alter Oneshot.drop_tx reply_tx (replies w)));;;
          afail e)%async
      | Panic => Done Panic
      end
  | Shutdown reply_tx => call (
      amodify (fun w => set_actor w (SessionActor.set_local_closed (actor w) true));;;
      amodify (fun w => ack_send w reply_tx))%async
  end.

(** foctet-mux/src/session.rs:256-278, [SessionActor::handle_stream_event]. *)
Definition event_task (event : StreamEvent.t) : future World.t unit :=
  match event with
  | StreamEvent.Frame frame =>
      let* r := call (writer_send frame) in
      match r with
      | Ok _ => fret tt
      | Err e => Done (Err (Caused "Failed to send frame to writer: " e))
      | Panic => Done Panic
      end
  | StreamEvent.Closed stream_id => call (amodify (fun w => remove_stream w stream_id))
  | StreamEvent.Error => fret tt
  end.

(** foctet-mux/src/session.rs:280-293, [SessionActor::shutdown]. *)
Definition shutdown_task : future World.t unit :=
  let* _ := call (amodify (fun w => set_streams
    (set_chans w (alter_all Mpsc.drop_tx (map_to_list (streams w)).*2 (chans w))) ∅)) in
  call (fun w =>
    match FramedWriter.close (framed_writer w) with
    | Ready (fw, _) => (set_framed_writer w fw, Ready (Ok tt))
    | Pending => (w, Pending)
    end).

(** ** The task *)

(** Where the task is: at [select!], in a handler, in the shutdown after the loop, or
    at its end. *)
Inductive place : Type :=
| Selecting
| Handling (p : future World.t unit)
| Closing (p : future World.t unit)
| Over.

(** foctet-mux/src/session.rs:91-126, [SessionActor::run]: the branch that [select!]
    takes, with what follows it; nothing when that branch is not ready. *)
Definition select (b : branch) (w : World.t) : option (place * World.t) :=
  match b with
  | Cancelled => if cancelled w then Some (Closing shutdown_task, w) else None
  | NextFrame =>
      match incoming w with
      | [] => None
      | Ok frame :: rest => Some (Handling (frame_task frame), set_incoming w rest)
      | _ :: rest =>
          Some (Closing shutdown_task, set_actor (set_incoming w rest)
                  (SessionActor.set_remote_closed (actor w) true))
      end
  | NextCommand =>
      match Mpsc.try_recv (control w) with
      | Mpsc.Received cmd ch => Some (Handling (command_task cmd), set_control w ch)
      | _ => None
      end
  | NextEvent =>
      match Mpsc.try_recv (events w) with
      | Mpsc.Received event ch => Some (Handling (event_task event), set_events w ch)
      | _ => None
      end
  end.

(** What is left of a future when its first call does not have to wait. *)
Definition start (p : future World.t unit) (w : World.t) : future World.t unit * World.t :=
  default (p, w) (resume p w).

(** foctet-mux/src/session.rs:89-128, [SessionActor::run]: the task goes on, up to its
    next call that completes, nothing when it has to wait.  The branch only matters at
    [select!], and the handler of the branch starts at once. *)
Definition poll_actor (b : branch) (s : place * World.t) : option (place * World.t) :=
  let '(pl, w) := s in
  match pl with
  | Selecting =>
      match select b w with
      | Some (Handling p, w') => let '(p', w'') := start p w' in Some (Handling p', w'')
      | r => r
      end
  | Handling (Done (Ok _)) => Some (Selecting, w)
  | Handling (Done (Err _)) => Some (Closing shutdown_task, w)
  | Handling (Done Panic) => Some (Over, drop_actor w)
  | Handling p =>
      match resume p w with
      | Some (p', w') => Some (Handling p', w')
      | None => None
      end
  | Closing (Done _) => Some (Over, drop_actor w)
  | Closing p =>
      match resume p w with
      | Some (p', w') => Some (Closing p', w')
      | None => None
      end
  | Over => None
  end.

(** The task goes on alone until it is at [select!] again, or at its end. *)
Fixpoint settle (fuel : nat) (s : place * World.t) : option (place * World.t) :=
  match s.1, fuel with
  | (Selecting | Over), _ => Some s
  | _, O => None
  | _, S fuel' =>
      match poll_actor Cancelled s with
      | Some s' => settle fuel' s'
      | None => None
      end
  end.

(** An iteration of the loop, with the branch that is taken. *)
Definition iteration (b : branch) (w : World.t) : option (place * World.t) :=
  match poll_actor b (Selecting, w) with
  | Some s => settle 9 s
  | None => None
  end.

(** ** An iteration that nothing interrupts *)

Lemma finish_settles (n : nat) (w : World.t) :
  finish w = snd <$> settle (3 + n) (Closing shutdown_task, w).
Proof.
  unfold finish, shutdown, abind, amodify, shutdown_task. cbn.
  destruct (FramedWriter.close _) as [[fw r]|]; [|done]. by destruct n.
Qed.

(** What the loop makes of a handler that is done. *)
Lemma conclude_settles (n : nat) (o : outcome error unit) (w : World.t) :
  conclude (w, Ready o) = snd <$> settle (4 + n) (Handling (Done o), w).
Proof. destruct o as [u|e|]; [by destruct n|apply (finish_settles n)|by destruct n]. Qed.

Lemma settle_call {X : Type} (m : async World.t X) (k : outcome error X -> future World.t unit)
    (n : nat) (w : World.t) :
  settle (S n) (Handling (Await m k), w) =
  match m w with
  | (w', Ready o) => settle n (Handling (k o), w')
  | (_, Pending) => None
  end.
Proof. cbn. by destruct (m w) as [w' [o|]]. Qed.

Section settles.

#[local] Arguments settle : simpl never.
#[local] Arguments chan_send : simpl never.
#[local] Arguments accept_send : simpl never.
#[local] Arguments writer_send : simpl never.
#[local] Arguments conclude : simpl never.

Ltac settling :=
  repeat first [ done | apply conclude_settles
    | progress unfold call, fret, aret, amodify, afail, apanic | rewrite settle_call | progress cbn | case_match; simplify_eq ].

Lemma frame_settles (f : Frame.t) (w : World.t) :
  conclude (handle_incoming_frame f w) =
  snd <$> settle 9 (let '(p, w') := start (frame_task f) w in (Handling p, w')).
Proof.
  unfold handle_incoming_frame, frame_task, start, abind, aget. settling.
Qed.

Lemma command_settles (cmd : Command) (w : World.t) :
  conclude (handle_control_command cmd w) =
  snd <$> settle 9 (let '(p, w') := start (command_task cmd) w in (Handling p, w')).
Proof.
  unfold handle_control_command, command_task, start, open_begin, abind, aget. settling.
Qed.

Lemma event_settles (ev : StreamEvent.t) (w : World.t) :
  conclude (handle_stream_event ev w) =
  snd <$> settle 9 (let '(p, w') := start (event_task ev) w in (Handling p, w')).
Proof.
  unfold handle_stream_event, event_task, start, abind. settling.
Qed.

(** [turn] is an iteration of the task that is left alone: it is not taken when the branch
    is not ready or its handler has to wait. *)
Lemma turn_settles (b : branch) (w : World.t) :
  running w = true ->
  turn b w = snd <$> iteration b w.
Proof.
  intros Hrun. unfold turn, iteration. rewrite Hrun. cbn. destruct b; cbn.
  - destruct (cancelled w); [apply finish_settles|done].
  - destruct (incoming w) as [|[f|e|] rest]; [done| |apply finish_settles..].
    rewrite frame_settles. by destruct (start _ _).
  - destruct (Mpsc.try_recv (control w)) as [cmd ch| |]; [|done..].
    rewrite command_settles. by destruct (start _ _).
  - destruct (Mpsc.try_recv (events w)) as [ev ch| |]; [|done..].
    rewrite event_settles. by destruct (start _ _).
Qed.

End settles.
