(* ===== verification/MuxInvariant.v ===== *)
(** * Invariants of a session

    The runs of a session: its task, which goes from one call that can wait to
    the next, among the tasks it spawned, the calls of the session handle and of
    the streams, and the network, in any order.  Two invariants hold in every
    reachable world, also while a handler waits:

    - [streams_inv]: every frame channel belongs to one stream identifier and
      holds frames of that stream only; the actor's map, the accepted streams
      and the answers agree about who owns which channel; a frame channel has a
      sender exactly while its stream is registered;
    - [answers_inv]: whoever waits for the answer to an open request has a
      counterpart that will give it, and none is left once the actor is gone. *)

From S2P Require Import Prelude Ids Frame Tokio Futures MuxStream MuxSession MuxActor.
Import MuxSession.World.

(** The stream identifier of a frame. *)
Definition frame_stream (f : Frame.t) : StreamId.t := FrameHeader.stream_id (Frame.header f).

(** ** Steps *)

(** A call of a stream runs to its end. *)
Inductive stream_move : World.t -> World.t -> Prop :=
| step_send_frame (f : Frame.t) (ls ls' : LogicalStream.t) (w w' : World.t)
    (r : outcome error unit) :
    LogicalStream.send_frame f (ls, w) = ((ls', w'), Ready r) -> stream_move w w'
| step_recv_frame (ls ls' : LogicalStream.t) (w w' : World.t) (r : outcome error Frame.t) :
    LogicalStream.recv_frame (ls, w) = ((ls', w'), Ready r) -> stream_move w w'
| step_close (ls ls' : LogicalStream.t) (w w' : World.t) (r : outcome error unit) :
    LogicalStream.close (ls, w) = ((ls', w'), Ready r) -> stream_move w w'
| step_poll_write (buf : bytes) (h h' : Halves.t) (w w' : World.t) (r : outcome error Z) :
    Writer.poll_write buf (h, w) = ((h', w'), Ready r) -> stream_move w w'
| step_poll_read (buf buf' : ReadBuf.t) (h h' : Halves.t) (w w' : World.t)
    (r : outcome error unit) :
    Reader.poll_read (h, w, buf) = ((h', w', buf'), Ready r) -> stream_move w w'
| step_writer_close (h h' : Halves.t) (w w' : World.t) (r : outcome error unit) :
    Writer.close (h, w) = ((h', w'), Ready r) -> stream_move w w'
| step_reader_recv (h h' : Halves.t) (w w' : World.t) (r : outcome error Frame.t) :
    Reader.recv_frame (h, w) = ((h', w'), Ready r) -> stream_move w w'.

(** Changes of the application's and the network's side: the network delivers
    a frame or an error, the raw stream changes its condition, a stream is
    dropped; a spawned task, or a call of the session or of a stream, runs to its end. *)
Inductive outside : World.t -> World.t -> Prop :=
| step_task (k : nat) (w w' : World.t) :
    run_task k w = Some w' -> outside w w'
| step_network (x : outcome error Frame.t) (w : World.t) :
    outside w (set_incoming w (incoming w ++ [x]))
| step_link (l : FramedWriter.link) (w : World.t) :
    outside w (set_framed_writer w (FramedWriter.mk (FramedWriter.written (framed_writer w)) l
      (FramedWriter.closed (framed_writer w))))
| step_open_request (w w' : World.t) (r : outcome error OneshotId) :
    Session.open_stream_request w = (w', Ready r) -> outside w w'
| step_open_reply (o : OneshotId) (w w' : World.t) (r : outcome error LogicalStream.t) :
    Session.open_stream_reply o w = (w', Ready r) -> outside w w'
| step_accept (w w' : World.t) (r : outcome error LogicalStream.t) :
    Session.accept_stream w = (w', Ready r) -> outside w w'
| step_shutdown_request (w w' : World.t) (r : outcome error OneshotId) :
    Session.shutdown_request w = (w', Ready r) -> outside w w'
| step_shutdown_reply (o : OneshotId) (w w' : World.t) (r : outcome error unit) :
    Session.shutdown_reply o w = (w', Ready r) -> outside w w'
| step_stream (w w' : World.t) :
    stream_move w w' -> outside w w'
| step_drop (ls : LogicalStream.t) (w : World.t) :
    outside w (drop_stream w ls).

(** The session's task goes on, or something else moves and leaves it where it is. *)
Inductive step : place * World.t -> place * World.t -> Prop :=
| step_actor (b : branch) (s s' : place * World.t) :
    poll_actor b s = Some s' -> step s s'
| step_outside (pl : place) (w w' : World.t) :
    outside w w' -> step (pl, w) (pl, w').

(** The states a session reaches from its creation. *)
Inductive steps : place * World.t -> place * World.t -> Prop :=
| steps_refl (s : place * World.t) : steps s s
| steps_step (s1 s2 s3 : place * World.t) : steps s1 s2 -> step s2 s3 -> steps s1 s3.

Definition reachable (side : SessionSide) (sid : SessionId.t) (s : place * World.t) : Prop :=
  steps (Selecting, (Session.spawn tt side sid None None).2) s.

(** A call that gives the application a logical stream. *)
Inductive obtained (w : World.t) (ls : LogicalStream.t) (w' : World.t) : Prop :=
| by_accept :
    Session.accept_stream w = (w', Ready (Ok ls)) -> obtained w ls w'
| by_open (o : OneshotId) :
    Session.open_stream_reply o w = (w', Ready (Ok ls)) -> obtained w ls w'.

(** The spawned tasks run one after the other. *)
Fixpoint run_tasks (n : nat) (w : World.t) : option World.t :=
  match n with
  | O => Some w
  | S n' =>
      match run_task 0 w with
      | Some w' => run_tasks n' w'
      | None => None
      end
  end.

(** ** The invariants *)

(** A logical stream that holds the receiver of the channel of its own
    identifier. *)
Definition owned (owner : gmap ChanId StreamId.t) (ls : LogicalStream.t) : Prop :=
  owner !! LogicalStream.frame_receiver ls = Some (LogicalStream.stream_id ls).

Definition owned_answer (owner : gmap ChanId StreamId.t)
    (r : outcome error LogicalStream.t) : Prop :=
  match r with
  | Ok ls => owned owner ls
  | _ => True
  end.

Definition owned_oneshot (owner : gmap ChanId StreamId.t)
    (ch : Oneshot.t (outcome error LogicalStream.t)) : Prop :=
  match Oneshot.value ch with
  | Some r => owned_answer owner r
  | None => True
  end.

(** A frame channel: its owner, what is queued, its capacity, and that its
    sender is the one registered for the owner. *)
Definition chan_ok (owner : gmap ChanId StreamId.t) (m : gmap StreamId.t ChanId)
    (c : ChanId) (ch : Mpsc.t Frame.t) : Prop :=
  exists id, owner !! c = Some id /\
    Forall (fun f => frame_stream f = id) (Mpsc.queue ch) /\
    (length (Mpsc.queue ch) <= Mpsc.capacity ch)%nat /\
    (Mpsc.tx_alive ch = true -> m !! id = Some c).

Record streams_inv (owner : gmap ChanId StreamId.t) (w : World.t) : Prop := {
  si_streams : forall id c, streams w !! id = Some c ->
    owner !! c = Some id /\ exists ch, chans w !! c = Some ch /\ Mpsc.tx_alive ch = true;
  si_chans : map_Forall (chan_ok owner (streams w)) (chans w);
  si_fresh : forall c, (fresh w <= c)%nat -> owner !! c = None;
  si_accepts : Forall (owned owner) (Mpsc.queue (accepts w));
  si_responses : map_Forall (fun _ => owned_oneshot owner) (responses w);
  si_replies : map_Forall (fun _ => owned_oneshot owner) (replies w)
}.

(** ** The operations of streams *)

(** Calls of a stream change a session by adding events and by taking frames. *)
Section stream_moves.

Context (P : World.t -> Prop).
Context (Hpush : forall w ev ch, P w -> Mpsc.try_send (events w) ev = Mpsc.Sent ch ->
  P (set_events w ch)).
Context (Hpull : forall w c f ch, P w -> Mpsc.try_recv (frames w c) = Mpsc.Received f ch ->
  P (set_frames w c ch)).

Local Definition safe {H : Type} (s : H * World.t) : Prop := P s.2.

Lemma keeps_update {H : Type} (f : H -> H) : keeps safe (update f).
Proof. by intros [h w]. Qed.

Lemma keeps_this {H : Type} : keeps safe (this (H := H)).
Proof. by intros [h w]. Qed.

Lemma keeps_send_or {H : Type} (msg : string) (ev : StreamEvent.t) : keeps safe (send_or H msg ev).
Proof using Hpush.
  intros [h w] Hw. unfold send_or.
  destruct (Mpsc.try_send (MuxStream.events w) ev) as [ch| |] eqn:E; try done. by eapply Hpush.
Qed.

Lemma keeps_recv_on {H : Type} (c : ChanId) : keeps safe (recv_on H c).
Proof using Hpull.
  intros [h w] Hw. unfold recv_on.
  destruct (Mpsc.try_recv (frames w c)) as [f ch| |] eqn:E; try done. by eapply Hpull.
Qed.

Create HintDb keeps.

#[local] Hint Resolve keeps_ret keeps_fail keeps_get keeps_update keeps_this keeps_send_or
  keeps_recv_on : keeps.

Ltac keep :=
  repeat first [ apply keeps_bind; [|intros ?] | case_match | progress simpl ];
  auto with keeps.

Lemma keeps_close : keeps safe LogicalStream.close.
Proof using Hpush.
  unfold LogicalStream.close, LogicalStream.send_close_request, LogicalStream.send_event. keep.
Qed.

Lemma keeps_recv_frame : keeps safe LogicalStream.recv_frame.
Proof using Hpull. unfold LogicalStream.recv_frame. keep. Qed.

Lemma keeps_writer_close : keeps safe Writer.close.
Proof using Hpush. unfold Writer.close, Writer.send_close_request, Writer.send_event. keep. Qed.

Lemma keeps_reader_recv : keeps safe Reader.recv_frame.
Proof using Hpull. unfold Reader.recv_frame. keep. Qed.

Lemma stream_move_keeps (w w' : World.t) : stream_move w w' -> P w -> P w'.
Proof using Hpush Hpull.
  intros Hm Hw. destruct Hm as [f ls ls' w w' r E|ls ls' w w' r E|ls ls' w w' r E|buf h h' w w' r E
    |buf buf' h h' w w' r E|h h' w w' r E|h h' w w' r E].
  - pose proof (keeps_send_or "Failed to send frame" (StreamEvent.Frame f) (ls, w) Hw) as Hk.
    unfold LogicalStream.send_frame in E. by rewrite E in Hk.
  - pose proof (keeps_recv_frame (ls, w) Hw) as Hk. by rewrite E in Hk.
  - pose proof (keeps_close (ls, w) Hw) as Hk. by rewrite E in Hk.
  - revert E. unfold Writer.poll_write.
    destruct (Mpsc.try_send (MuxStream.events w) _) as [ch| |] eqn:Es; intros E; simplify_eq; try done.
    by eapply Hpush.
  - destruct (Mpsc.try_recv (frames w (Reader.receiver h))) as [f ch| |] eqn:Er.
    + rewrite (poll_read_frame h w f ch buf Er) in E.
      destruct (ReadBuf.put_slice _ _); cbv zeta in E; simplify_eq; by eapply Hpull.
    + revert E. unfold Reader.poll_read. by rewrite Er.
    + revert E. unfold Reader.poll_read. rewrite Er. by intros [= <- <- <- <-].
  - pose proof (keeps_writer_close (h, w) Hw) as Hk. by rewrite E in Hk.
  - pose proof (keeps_reader_recv (h, w) Hw) as Hk. by rewrite E in Hk.
Qed.

End stream_moves.

(** A new frame channel registered for a stream. *)
Definition register (w : World.t) (id : StreamId.t) : World.t :=
  insert_stream (new_chan w).1 id (fresh w).

Arguments register : simpl never.

(** Reading a field through the updates of others. *)
Ltac world :=
  unfold streams, pending, set_streams, set_pending in *; simpl in *.

Section answers.

(** The senders of answers that the session's task has in hand. *)
Context (hand : list OneshotId).

(** An answer that is not there yet has somebody to give it. *)
Record answers_inv (w : World.t) : Prop := {
  ai_responses : forall o ch, responses w !! o = Some ch -> Oneshot.tx_alive ch = true ->
    exists id, pending w !! id = Some o;
  ai_replies : forall o ch, replies w !! o = Some ch -> Oneshot.tx_alive ch = true ->
    o ∈ open_replies (Mpsc.queue (control w)) \/ o ∈ (tasks w).*2 \/ o ∈ hand;
  ai_tasks : forall t, t ∈ tasks w -> is_Some (responses w !! t.1);
  ai_stopped : running w = false ->
    pending w = ∅ /\ streams w = ∅ /\ Mpsc.queue (control w) = [] /\
    Mpsc.rx_alive (control w) = false /\ Mpsc.tx_alive (accepts w) = false /\
    Mpsc.rx_alive (events w) = false
}.

(** The ownership of channels only grows. *)
Definition inv (owner : gmap ChanId StreamId.t) (w : World.t) : Prop :=
  streams_inv owner w /\ answers_inv w.

(** ** Frame channels *)

Lemma owned_mono (owner owner' : gmap ChanId StreamId.t) (ls : LogicalStream.t) :
  owner ⊆ owner' -> owned owner ls -> owned owner' ls.
Proof. unfold owned. eauto using lookup_weaken. Qed.

Lemma owned_oneshot_mono (owner owner' : gmap ChanId StreamId.t) ch :
  owner ⊆ owner' -> owned_oneshot owner ch -> owned_oneshot owner' ch.
Proof.
  unfold owned_oneshot, owned_answer. repeat case_match; eauto using owned_mono.
Qed.

Lemma si_fresh_owner (owner : gmap ChanId StreamId.t) (w : World.t) (id : StreamId.t) :
  streams_inv owner w -> owner ⊆ <[fresh w := id]> owner.
Proof. intros H. apply insert_subseteq, (si_fresh _ _ H). lia. Qed.

Section stream_lemmas.

Context (owner : gmap ChanId StreamId.t) (w : World.t) (Hinv : streams_inv owner w).

(** Updating one channel without touching its sender. *)
Lemma si_update_chan (c : ChanId) (ch ch' : Mpsc.t Frame.t) :
  chans w !! c = Some ch -> Mpsc.tx_alive ch' = Mpsc.tx_alive ch ->
  chan_ok owner (streams w) c ch' ->
  streams_inv owner (set_chans w (<[c := ch']> (chans w))).
Proof using Hinv.
  intros Hc Htx Hok. destruct Hinv as [Hs Hch Hf Ha Hr Hp]. split; try done; simpl.
  - intros id c0 Hid. destruct (Hs id c0 Hid) as (Ho & ch0 & Hc0 & Ht). split; [done|].
    destruct (decide (c = c0)) as [->|].
    + exists ch'. rewrite lookup_insert_eq. split; [done|]. rewrite Htx. congruence.
    + exists ch0. by rewrite lookup_insert_ne.
  - by apply map_Forall_insert_2.
Qed.

Lemma si_drop_stream (ls : LogicalStream.t) : streams_inv owner (drop_stream w ls).
Proof using Hinv.
  unfold drop_stream. set (c := LogicalStream.frame_receiver ls).
  destruct (chans w !! c) as [ch|] eqn:Hc.
  - replace (alter Mpsc.drop_rx c (chans w)) with (<[c := Mpsc.drop_rx ch]> (chans w)).
    + apply (si_update_chan c ch); [done..|].
      destruct (si_chans _ _ Hinv c ch Hc) as (id & Ho & _ & _ & Ht).
      exists id. simpl. repeat split; [done|constructor|lia|done].
    + apply map_eq. intros i. destruct (decide (i = c)) as [->|].
      * by rewrite lookup_insert_eq, lookup_alter_eq, Hc.
      * by rewrite lookup_insert_ne, lookup_alter_ne.
  - assert (E : alter Mpsc.drop_rx c (chans w) = chans w).
    { apply map_eq. intros i. destruct (decide (i = c)) as [->|].
      - by rewrite lookup_alter_eq, Hc.
      - by rewrite lookup_alter_ne. }
    rewrite E. destruct Hinv. by split.
Qed.

Lemma si_remove_stream (id : StreamId.t) : streams_inv owner (remove_stream w id).
Proof using Hinv.
  unfold remove_stream. destruct (streams w !! id) as [c|] eqn:Hid; [|done].
  destruct Hinv as [Hs Hch Hf Ha Hr Hp].
  destruct (Hs id c Hid) as (Ho & ch & Hc & Ht). split; try done; world.
  - intros id' c' [Hne Hid']%lookup_delete_Some.
    destruct (Hs id' c' Hid') as (Ho' & ch' & Hc' & Ht'). split; [done|].
    exists ch'. rewrite lookup_alter_ne by congruence. done.
  - intros c' ch' [[-> [ch0 [E ->]]]|[Hne Hc']]%lookup_alter_Some.
    + destruct (Hch _ _ E) as (id0 & ? & ? & ? & _). exists id0. simpl. done.
    + destruct (Hch c' ch' Hc') as (id0 & Ho0 & ? & ? & Ht0). exists id0.
      repeat split; [done..|]. intros Halive.
      apply lookup_delete_Some. split; [|by apply Ht0].
      intros ->. specialize (Ht0 Halive). congruence.
Qed.

(** Registering a new channel for a stream that has none. *)
Lemma si_register (id : StreamId.t) :
  streams w !! id = None ->
  streams_inv (<[fresh w := id]> owner)
    (insert_stream (new_chan w).1 id (fresh w)).
Proof using Hinv.
  intros Hid. pose proof (si_fresh_owner owner w id Hinv) as Hsub.
  unfold insert_stream, remove_stream. world. rewrite Hid.
  destruct Hinv as [Hs Hch Hf Ha Hr Hp]. split; world.
  - intros id' c' [[-> <-]|[Hne Hid']]%lookup_insert_Some.
    + rewrite !lookup_insert_eq. eauto.
    + destruct (Hs id' c' Hid') as (Ho' & ch' & Hc' & Ht').
      assert (fresh w <> c'). { intros <-. rewrite Hf in Ho'; [done|lia]. }
      rewrite !lookup_insert_ne by done. eauto.
  - intros c' ch' [[-> <-]|[Hne Hc']]%lookup_insert_Some.
    + exists id. rewrite !lookup_insert_eq. split_and!; [done|exact (Forall_nil_2 _)|simpl; lia|done].
    + destruct (Hch c' ch' Hc') as (id0 & Ho0 & ? & ? & Ht0). exists id0.
      rewrite lookup_insert_ne by done. repeat split; [done..|]. intros Halive.
      specialize (Ht0 Halive). rewrite lookup_insert_ne; [done|congruence].
  - intros c' Hc'. rewrite lookup_insert_ne by lia. apply Hf. lia.
  - eapply Forall_impl; [exact Ha|]. eauto using owned_mono.
  - eapply map_Forall_impl; [exact Hr|]. eauto using owned_oneshot_mono.
  - eapply map_Forall_impl; [exact Hp|]. eauto using owned_oneshot_mono.
Qed.

(** Delivering a frame to the stream it names. *)
Lemma si_deliver (id : StreamId.t) (c : ChanId) (f : Frame.t) (ch' : Mpsc.t Frame.t) :
  streams w !! id = Some c -> frame_stream f = id ->
  Mpsc.try_send (default dead (chans w !! c)) f = Mpsc.Sent ch' ->
  streams_inv owner (set_chans w (<[c := ch']> (chans w))).
Proof using Hinv.
  intros Hid Hf. destruct (si_streams _ _ Hinv id c Hid) as (Ho & ch & Hc & Ht).
  rewrite Hc. simpl. intros (-> & Hr & Hl)%try_send_Sent.
  apply (si_update_chan c ch); [done..|].
  destruct (si_chans _ _ Hinv c ch Hc) as (id' & Ho' & Hq & _ & Ht').
  exists id'. simpl. rewrite length_app. simpl. repeat split; [done| |lia|done].
  apply Forall_app. split; [done|]. constructor; [congruence|constructor].
Qed.

(** Receiving from a channel. *)
Lemma si_receive (c : ChanId) (f : Frame.t) (ch' : Mpsc.t Frame.t) :
  Mpsc.try_recv (default dead (chans w !! c)) = Mpsc.Received f ch' ->
  streams_inv owner (set_chans w (<[c := ch']> (chans w))) /\
  owner !! c = Some (frame_stream f).
Proof using Hinv.
  destruct (chans w !! c) as [ch|] eqn:Hc; simpl; [|done].
  destruct (si_chans _ _ Hinv c ch Hc) as (id & Ho & Hq & Hl & Ht).
  unfold Mpsc.try_recv. destruct ch as [q k tx rx]; simpl in *.
  destruct q as [|x q]; [by destruct tx|]. intros [= -> <-].
  apply Forall_cons in Hq as [Hx Hq]. split; [|by rewrite Hx].
  apply (si_update_chan c _ _ Hc); [done|]. exists id. simpl in *. repeat split; [done..|lia|done].
Qed.

End stream_lemmas.

(** ** Answers *)

Lemma lookup_alter_all {A : Type} (f : A -> A) (ids : list nat) (m : gmap nat A) (i : nat) :
  alter_all f ids m !! i = (fun x => if bool_decide (i ∈ ids) then f x else x) <$> m !! i.
Proof. unfold alter_all. rewrite map_lookup_imap. by destruct (m !! i). Qed.

Lemma elem_of_range {K : Type} `{Countable K} (m : gmap K nat) (i : nat) :
  i ∈ (map_to_list m).*2 <-> exists k, m !! k = Some i.
Proof.
  rewrite list_elem_of_fmap. split.
  - intros ([k x] & -> & Hk%elem_of_map_to_list). by exists k.
  - intros (k & Hk). exists (k, i). by rewrite elem_of_map_to_list.
Qed.

(** A channel from which the sender has gone has no sender. *)
Lemma dropped_alive (m : gmap nat (Oneshot.t (outcome error LogicalStream.t)))
    (ids : list nat) (o : nat) ch :
  alter_all Oneshot.drop_tx ids m !! o = Some ch -> Oneshot.tx_alive ch = true ->
  (o ∉ ids) /\ exists ch', m !! o = Some ch' /\ Oneshot.tx_alive ch' = true.
Proof.
  rewrite lookup_alter_all. intros (ch' & Hm & ->)%fmap_Some Ht.
  simpl in Ht. case_bool_decide; [done|]. eauto.
Qed.

Lemma owned_alter_all (owner : gmap ChanId StreamId.t) (ids : list nat)
    (m : gmap nat (Oneshot.t (outcome error LogicalStream.t))) :
  map_Forall (fun _ => owned_oneshot owner) m ->
  map_Forall (fun _ => owned_oneshot owner) (alter_all Oneshot.drop_tx ids m).
Proof.
  intros Hm o ch. rewrite lookup_alter_all. intros (ch' & Ho & ->)%fmap_Some.
  specialize (Hm o ch' Ho). by case_bool_decide.
Qed.

Lemma owned_alter (owner : gmap ChanId StreamId.t) (f : _ -> _) (o : nat)
    (m : gmap nat (Oneshot.t (outcome error LogicalStream.t))) :
  (forall ch, owned_oneshot owner ch -> owned_oneshot owner (f ch)) ->
  map_Forall (fun _ => owned_oneshot owner) m ->
  map_Forall (fun _ => owned_oneshot owner) (alter f o m).
Proof.
  intros Hf Hm o' ch [[-> (ch' & Hc & ->)]|[_ Hc]]%lookup_alter_Some; eauto.
Qed.

(** Sending an answer leaves no sender, and what is sent is owned. *)
Lemma answer_alive m (o o' : OneshotId) (r : outcome error LogicalStream.t) ch :
  (answer m o r).1 !! o' = Some ch -> Oneshot.tx_alive ch = true ->
  o' <> o /\ m !! o' = Some ch.
Proof.
  unfold answer. destruct (m !! o) as [c0|] eqn:E; simpl.
  - unfold Oneshot.send. destruct (Oneshot.rx_alive c0); simpl;
      intros [[-> <-]|[]]%lookup_insert_Some ?; simpl in *; done.
  - intros H Ht. split; [congruence|done].
Qed.

Lemma answer_is_Some m (o o' : OneshotId) (r : outcome error LogicalStream.t) :
  is_Some (m !! o') -> is_Some ((answer m o r).1 !! o').
Proof.
  unfold answer. destruct (m !! o) as [c0|] eqn:E; [|done].
  destruct (Oneshot.send c0 r). simpl. intros. rewrite lookup_insert. by case_decide.
Qed.

Lemma answer_owned (owner : gmap ChanId StreamId.t) m (o : OneshotId)
    (r : outcome error LogicalStream.t) :
  owned_answer owner r -> map_Forall (fun _ => owned_oneshot owner) m ->
  map_Forall (fun _ => owned_oneshot owner) (answer m o r).1.
Proof.
  intros Hr Hm. unfold answer. destruct (m !! o) as [c0|] eqn:E; [|done].
  unfold Oneshot.send. by destruct (Oneshot.rx_alive c0); apply map_Forall_insert_2.
Qed.

(** Unsent answers only drop a stream. *)
Lemma response_send_case (w : World.t) (o : OneshotId) (r : outcome error LogicalStream.t) :
  let w1 := set_responses w (answer (responses w) o r).1 in
  response_send w o r = w1 \/ response_send w o r = drop_answer w1 r.
Proof.
  unfold response_send. destruct (answer (responses w) o r) as [m []]; auto.
Qed.

Lemma reply_send_case (w : World.t) (o : OneshotId) (r : outcome error LogicalStream.t) :
  let w1 := set_replies w (answer (replies w) o r).1 in
  reply_send w o r = w1 \/ reply_send w o r = drop_answer w1 r.
Proof.
  unfold reply_send. destruct (answer (replies w) o r) as [m []]; auto.
Qed.

(** While the actor runs, the invariant on answers is its first three parts. *)
Lemma answers_running (w : World.t) :
  running w = true ->
  (forall o ch, responses w !! o = Some ch -> Oneshot.tx_alive ch = true ->
    exists id, pending w !! id = Some o) ->
  (forall o ch, replies w !! o = Some ch -> Oneshot.tx_alive ch = true ->
    o ∈ open_replies (Mpsc.queue (control w)) \/ o ∈ (tasks w).*2 \/ o ∈ hand) ->
  (forall t, t ∈ tasks w -> is_Some (responses w !! t.1)) ->
  answers_inv w.
Proof. intros Hr H1 H2 H3. split; [done..|]. congruence. Qed.

Lemma inv_drop_answer (owner : gmap ChanId StreamId.t) (w : World.t)
    (r : outcome error LogicalStream.t) :
  inv owner w -> inv owner (drop_answer w r).
Proof.
  intros [Hs Ha]. destruct r; try done. split; [by apply si_drop_stream|].
  destruct Ha. by split.
Qed.

(** ** Handlers *)

Lemma remove_stream_rest (w : World.t) (id : StreamId.t) :
  let w' := remove_stream w id in
  responses w' = responses w /\ replies w' = replies w /\ pending w' = pending w /\
  tasks w' = tasks w /\ control w' = control w /\ running w' = running w /\
  accepts w' = accepts w /\ events w' = events w.
Proof. unfold remove_stream. by destruct (streams w !! id). Qed.

Lemma inv_remove_stream (owner : gmap ChanId StreamId.t) (w : World.t) (id : StreamId.t) :
  inv owner w -> inv owner (remove_stream w id).
Proof.
  intros [Hs [A1 A2 A3 A4]]. split; [by apply si_remove_stream|].
  destruct (remove_stream_rest w id) as (E1 & E2 & E3 & E4 & E5 & E6 & E7 & E8).
  split; rewrite ?E1, ?E2, ?E3, ?E4, ?E5, ?E6, ?E7, ?E8; try done.
  intros Hr. destruct (A4 Hr) as (? & Hst & ? & ? & ? & ?). split_and!; try done.
  unfold remove_stream. by rewrite Hst, lookup_empty.
Qed.

Lemma inv_writer (owner : gmap ChanId StreamId.t) (w : World.t) (fw : FramedWriter.t) :
  inv owner w -> inv owner (set_framed_writer w fw).
Proof. intros [[] []]. split; by split. Qed.

Lemma inv_incoming (owner : gmap ChanId StreamId.t) (w : World.t) l :
  inv owner w -> inv owner (set_incoming w l).
Proof. intros [[] []]. split; by split. Qed.

Lemma writer_send_inv (owner : gmap ChanId StreamId.t) (w w' : World.t) (f : Frame.t) p :
  writer_send f w = (w', p) -> inv owner w -> inv owner w' /\ running w' = running w.
Proof.
  unfold writer_send. destruct (FramedWriter.send (framed_writer w) f) as [[fw r]|];
    intros [= <- <-] H; split; try done. by apply inv_writer.
Qed.

(** The answer to a pending open request. *)
Lemma inv_resolve (owner : gmap ChanId StreamId.t) (w : World.t) (o : OneshotId)
    (r : outcome error LogicalStream.t) :
  streams_inv owner w -> running w = true -> owned_answer owner r ->
  (forall o' ch, responses w !! o' = Some ch -> Oneshot.tx_alive ch = true -> o' <> o ->
    exists id', pending w !! id' = Some o') ->
  (forall o' ch, replies w !! o' = Some ch -> Oneshot.tx_alive ch = true ->
    o' ∈ open_replies (Mpsc.queue (control w)) \/ o' ∈ (tasks w).*2 \/ o' ∈ hand) ->
  (forall t, t ∈ tasks w -> is_Some (responses w !! t.1)) ->
  inv owner (response_send w o r).
Proof.
  intros Hs Hr Ho A1 A2 A3.
  assert (H1 : inv owner (set_responses w (answer (responses w) o r).1)).
  { split.
    - destruct Hs. split; try done. by apply answer_owned.
    - apply answers_running; try done.
      + intros o' ch Hc Ht. destruct (answer_alive _ _ _ _ _ Hc Ht). by eauto.
      + intros t Ht. by apply answer_is_Some, A3. }
  destruct (response_send_case w o r) as [->| ->]; [done|by apply inv_drop_answer].
Qed.

Lemma register_rest (w : World.t) (id : StreamId.t) :
  streams w !! id = None ->
  let w' := register w id in
  responses w' = responses w /\ replies w' = replies w /\ pending w' = pending w /\
  tasks w' = tasks w /\ control w' = control w /\ running w' = running w /\
  accepts w' = accepts w.
Proof.
  intros Hid. unfold register, insert_stream, remove_stream. world. by rewrite Hid.
Qed.

Lemma inv_register (owner : gmap ChanId StreamId.t) (w : World.t) (id : StreamId.t) :
  inv owner w -> running w = true -> streams w !! id = None ->
  inv (<[fresh w := id]> owner) (register w id).
Proof.
  intros [Hs [A1 A2 A3 A4]] Hrun Hid. split; [by apply si_register|].
  destruct (register_rest w id Hid) as (E1 & E2 & E3 & E4 & E5 & E6 & E7).
  apply answers_running; by rewrite ?E1, ?E2, ?E3, ?E4, ?E5, ?E6.
Qed.

Lemma accept_send_inv (owner : gmap ChanId StreamId.t) (w w' : World.t) (ls : LogicalStream.t) p :
  accept_send ls w = (w', p) -> inv owner w -> running w = true -> owned owner ls ->
  inv owner w' /\ running w' = true.
Proof.
  unfold accept_send. intros E Hinv Hrun Ho.
  destruct (Mpsc.try_send (accepts w) ls) as [ch| |] eqn:Hs; simplify_eq.
  - apply try_send_Sent in Hs as (-> & _ & _). destruct Hinv as [[] []].
    split; [|done]. split; [split; try done|apply answers_running; done].
    simpl. apply Forall_app. split; [done|]. by constructor.
  - done.
  - split; [|done]. by apply (inv_drop_answer _ _ (Ok ls)).
Qed.

Lemma inv_open_response (owner : gmap ChanId StreamId.t) (w : World.t) (id : StreamId.t)
    (o : OneshotId) (sid : SessionId.t) :
  inv owner w -> running w = true -> streams w !! id = None -> pending w !! id = Some o ->
  inv (<[fresh w := id]> owner)
    (response_send (register (set_pending w (delete id (pending w))) id) o
      (Ok (LogicalStream.new sid id Established (fresh w)))).
Proof.
  intros [Hs [A1 A2 A3 A4]] Hrun Hid Hp.
  set (w1 := set_pending w (delete id (pending w))).
  assert (Hs1 : streams_inv owner w1). { destruct Hs. by split. }
  destruct (register_rest w1 id Hid) as (E1 & E2 & E3 & E4 & E5 & E6 & E7).
  apply inv_resolve; rewrite ?E1, ?E2, ?E3, ?E4, ?E5, ?E6; try done.
  - by apply (si_register owner w1 Hs1).
  - by apply lookup_insert_eq.
  - intros o' ch Hc Ht Hne. destruct (A1 o' ch Hc Ht) as (id' & Hid'). exists id'.
    unfold w1. world. rewrite lookup_delete_ne; [done|congruence].
Qed.

(** A new response registered as pending. *)
Section new_pending.

Context (w : World.t) (id : StreamId.t).
Let w1 := insert_pending (new_response w).1 id (fresh w).

Lemma new_pending_rest :
  replies w1 = replies w /\ tasks w1 = tasks w /\ control w1 = control w /\
  running w1 = running w.
Proof. unfold w1, insert_pending. world. by case_match. Qed.

Lemma new_pending_streams (owner : gmap ChanId StreamId.t) :
  streams_inv owner w -> streams_inv owner w1.
Proof.
  intros [Hs Hch Hf Ha Hr Hp].
  assert (Hr' : map_Forall (fun _ => owned_oneshot owner)
    (<[fresh w := Oneshot.channel]> (responses w))) by (by apply map_Forall_insert_2).
  unfold w1, insert_pending. world.
  case_match; split; world; try done; try (by apply owned_alter);
    intros; apply Hf; lia.
Qed.

Lemma new_pending_is_Some (o : OneshotId) :
  o = fresh w \/ is_Some (responses w !! o) -> is_Some (responses w1 !! o).
Proof.
  intros Ho. unfold w1, insert_pending. world.
  assert (H : is_Some (<[fresh w := Oneshot.channel]> (responses w) !! o)).
  { rewrite lookup_insert. case_decide; [done|]. by destruct Ho as [->|]. }
  case_match; world; [|done]. by rewrite lookup_alter_is_Some.
Qed.

Lemma new_pending_alive :
  (forall o ch, responses w !! o = Some ch -> Oneshot.tx_alive ch = true ->
    exists id, pending w !! id = Some o) ->
  forall o ch, responses w1 !! o = Some ch -> Oneshot.tx_alive ch = true ->
    exists id, pending w1 !! id = Some o.
Proof.
  intros A1 o ch. unfold w1, insert_pending. world.
  assert (H : <[fresh w := Oneshot.channel]> (responses w) !! o = Some ch ->
    Oneshot.tx_alive ch = true -> pending w !! id <> Some o ->
    exists id', <[id := fresh w]> (pending w) !! id' = Some o).
  { intros [[-> _]|[_ Hc]]%lookup_insert_Some Ht Hne.
    - exists id. by rewrite lookup_insert_eq.
    - destruct (A1 o ch Hc Ht) as (id' & Hid'). exists id'.
      rewrite lookup_insert_ne; [done|]. intros ->. done. }
  case_match eqn:E; world.
  - intros [[-> (c' & _ & ->)]|[Hne Hc]]%lookup_alter_Some Ht; [done|].
    apply H; [done..|]. congruence.
  - intros Hc Ht. apply H; [done..|]. congruence.
Qed.

End new_pending.

(** ** The end of the actor *)

(** Dropping every registered sender leaves no frame channel with one. *)
Lemma si_clear (owner : gmap ChanId StreamId.t) (w : World.t) :
  streams_inv owner w ->
  streams_inv owner (set_streams
    (set_chans w (alter_all Mpsc.drop_tx (map_to_list (streams w)).*2 (chans w))) ∅).
Proof.
  intros [Hs Hch Hf Ha Hr Hp]. split; world; try done.
  intros c ch. rewrite lookup_alter_all. intros (ch' & Hc & ->)%fmap_Some.
  destruct (Hch c ch' Hc) as (id & Ho & Hq & Hl & Ht). exists id.
  case_bool_decide as Hin; simpl; [done|]. split_and!; [done..|].
  intros Halive. destruct Hin. apply elem_of_range. by exists id; apply Ht.
Qed.

(** ** Steps preserve the invariants *)

Lemma inv_events (owner : gmap ChanId StreamId.t) (w : World.t) (ch : Mpsc.t StreamEvent.t) :
  inv owner w -> Mpsc.rx_alive ch = Mpsc.rx_alive (events w) -> inv owner (set_events w ch).
Proof.
  intros [Hs [A1 A2 A3 A4]] Hrx. split; [destruct Hs; by split|]. split; try done.
  intros Hr. destruct (A4 Hr) as (? & ? & ? & ? & ? & ?). split_and!; try done.
  simpl. by rewrite Hrx.
Qed.

(** A forwarding task that gives its answer. *)
Lemma inv_forward (owner : gmap ChanId StreamId.t) (k : nat) (w : World.t)
    (resp reply : OneshotId) (r : outcome error LogicalStream.t) :
  inv owner w -> tasks w !! k = Some (resp, reply) -> owned_answer owner r ->
  let w1 := set_responses w (<[resp := Oneshot.mk None false false]> (responses w)) in
  let w2 := reply_send w1 reply r in
  inv owner (set_tasks w2 (delete k (tasks w2))).
Proof.
  intros [Hs [A1 A2 A3 A4]] Hk Ho w1 w2.
  set (w3 := set_tasks (set_replies w1 (answer (replies w1) reply r).1) (delete k (tasks w))).
  assert (H3 : inv owner w3).
  { split; [destruct Hs; split; try done; simpl|split; simpl; try done].
    - by apply map_Forall_insert_2.
    - by apply answer_owned.
    - intros o ch [[-> <-]|[Hne Hc]]%lookup_insert_Some Ht; [done|by eauto].
    - intros o ch Hc Ht. destruct (answer_alive _ _ _ _ _ Hc Ht) as [Hne Hc'].
      destruct (A2 o ch Hc' Ht) as [|[Hin|]]; [by left| |by auto]. right. left.
      apply list_elem_of_fmap in Hin as ([r' o'] & -> & Hin). apply list_elem_of_fmap.
      exists (r', o'). split; [done|]. eapply elem_of_delete_other; [done..|].
      by intros [= -> ->].
    - intros t Ht. rewrite lookup_insert. case_decide; [done|]. apply A3.
      by eapply elem_of_delete_in. }
  destruct (reply_send_case w1 reply r) as [E|E]; unfold w2; rewrite E; [done|].
  replace (set_tasks (drop_answer _ r) _) with (drop_answer w3 r); [by apply inv_drop_answer|].
  by destruct r.
Qed.

Lemma inv_task (owner : gmap ChanId StreamId.t) (k : nat) (w w' : World.t) :
  inv owner w -> run_task k w = Some w' -> inv owner w'.
Proof.
  intros Hinv. unfold run_task. destruct (tasks w !! k) as [[resp reply]|] eqn:Hk; [|done].
  unfold forward. destruct (responses w !! resp) as [ch|] eqn:Hr; [|done].
  pose proof (si_responses _ _ (proj1 Hinv) resp ch Hr) as Ho. unfold owned_oneshot in Ho.
  unfold Oneshot.recv. destruct (Oneshot.value ch) as [[ls|e|]|]; [..|destruct (Oneshot.tx_alive ch); [done|]];
    intros [= <-]; by apply (inv_forward owner k w resp reply).
Qed.

Lemma inv_receive (owner : gmap ChanId StreamId.t) (w : World.t) (c : ChanId) (f : Frame.t)
    (ch : Mpsc.t Frame.t) :
  inv owner w -> Mpsc.try_recv (frames w c) = Mpsc.Received f ch ->
  inv owner (set_frames w c ch).
Proof.
  intros [Hs Ha] E. destruct (si_receive owner w Hs c f ch E) as [H1 _].
  split; [done|]. destruct Ha. by split.
Qed.

(** The operations of the session handle. *)
Lemma open_replies_app (xs ys : list Command) :
  open_replies (xs ++ ys) = open_replies xs ++ open_replies ys.
Proof. apply omap_app. Qed.

Lemma inv_take_reply (owner : gmap ChanId StreamId.t) (w : World.t) (o : OneshotId) :
  inv owner w -> inv owner (set_replies w (<[o := Oneshot.mk None false false]> (replies w))).
Proof.
  intros [Hs [A1 A2 A3 A4]]. split.
  - destruct Hs. split; try done. by apply map_Forall_insert_2.
  - split; try done. simpl. intros o' ch [[-> <-]|[_ Hc]]%lookup_insert_Some Ht; [done|eauto].
Qed.

Lemma inv_open_request_call (owner : gmap ChanId StreamId.t) (w w' : World.t) r :
  inv owner w -> Session.open_stream_request w = (w', Ready r) -> inv owner w'.
Proof.
  intros [Hs [A1 A2 A3 A4]].
  assert (Hs' : map_Forall (fun _ => owned_oneshot owner)
    (<[fresh w := Oneshot.channel]> (replies w))) by (apply map_Forall_insert_2; [done|apply Hs]).
  unfold Session.open_stream_request, abind, new_reply, Session.control_send. simpl.
  destruct (Mpsc.try_send (control w) (OpenStream (fresh w))) as [ch| |] eqn:E; intros [= <- <-].
  - apply try_send_Sent in E as (-> & Hrx & _). split.
    + destruct Hs. split; try done. simpl. intros. apply si_fresh0. lia.
    + split; try done; simpl.
      * intros o c. rewrite open_replies_app, elem_of_app.
        intros [[-> <-]|[_ Hc]]%lookup_insert_Some Ht; [left; right; by constructor|].
        destruct (A2 o c Hc Ht); auto.
      * intros Hr. destruct (A4 Hr) as (_ & _ & _ & Hf & _). congruence.
  - split.
    + destruct Hs. split; try done; simpl; [|by apply owned_alter].
      intros. apply si_fresh0. lia.
    + split; try done; simpl.
      intros o c [[-> (c' & _ & ->)]|[Hne Hc]]%lookup_alter_Some Ht; [done|].
      rewrite lookup_insert_ne in Hc by done. eauto.
Qed.

Lemma inv_shutdown_request_call (owner : gmap ChanId StreamId.t) (w w' : World.t) r :
  inv owner w -> Session.shutdown_request w = (w', Ready r) -> inv owner w'.
Proof.
  intros [Hs [A1 A2 A3 A4]].
  unfold Session.shutdown_request, abind, Session.control_send. simpl.
  destruct (Mpsc.try_send (control w) (Shutdown (fresh w))) as [ch| |] eqn:E; intros [= <- <-].
  - apply try_send_Sent in E as (-> & Hrx & _). split.
    + destruct Hs. split; try done. simpl. intros. apply si_fresh0. lia.
    + split; try done; simpl.
      * intros o c Hc Ht. rewrite open_replies_app, elem_of_app.
        destruct (A2 o c Hc Ht); auto.
      * intros Hr. destruct (A4 Hr) as (_ & _ & _ & Hf & _). congruence.
  - split; [|by split]. destruct Hs. split; try done. simpl. intros. apply si_fresh0. lia.
Qed.

Lemma inv_accept (owner : gmap ChanId StreamId.t) (w w' : World.t) r :
  inv owner w -> Session.accept_stream w = (w', Ready r) ->
  inv owner w' /\ owned_answer owner r.
Proof.
  intros Hinv. unfold Session.accept_stream.
  destruct (Mpsc.try_recv (accepts w)) as [ls ch| |] eqn:E; intros [= <- <-]; [|done].
  apply try_recv_rx in E as (Hq & Hrx & Htx). destruct Hinv as [Hs [A1 A2 A3 A4]].
  pose proof (si_accepts _ _ Hs) as Ha. rewrite Hq in Ha. apply Forall_cons in Ha as [Hls Ha].
  split; [|done]. split; [destruct Hs; by split|]. split; try done.
  intros Hr. destruct (A4 Hr) as (? & ? & ? & ? & ? & ?). split_and!; try done.
  simpl. by rewrite Htx.
Qed.

Lemma inv_open_reply (owner : gmap ChanId StreamId.t) (w w' : World.t) (o : OneshotId) r :
  inv owner w -> Session.open_stream_reply o w = (w', Ready r) ->
  inv owner w' /\ owned_answer owner r.
Proof.
  intros Hinv. unfold Session.open_stream_reply, abind, Session.await_reply.
  destruct (replies w !! o) as [ch|] eqn:E; simpl.
  - pose proof (si_replies _ _ (proj1 Hinv) o ch E) as Ho. unfold owned_oneshot in Ho.
    unfold Oneshot.recv.
    destruct (Oneshot.value ch) as [[ls|e|]|]; [..|destruct (Oneshot.tx_alive ch)];
      intros [= <- <-]; (split; [by apply inv_take_reply|done]).
  - intros [= <- <-]. split; [by apply inv_take_reply|done].
Qed.

Lemma outside_inv (owner : gmap ChanId StreamId.t) (w w' : World.t) :
  outside w w' -> inv owner w -> inv owner w'.
Proof.
  intros Hstep Hinv.
  destruct Hstep as [k w w' E|x w|l w|w w' r E|o w w' r E|w w' r E|w w' r E|o w w' r E|w w' E|ls w].
  - by eapply inv_task.
  - by apply inv_incoming.
  - by apply inv_writer.
  - by eapply inv_open_request_call.
  - by eapply inv_open_reply.
  - by eapply inv_accept.
  - by eapply inv_shutdown_request_call.
  - revert E. unfold Session.shutdown_reply, abind, Session.await_ack.
    destruct (Oneshot.recv _); intros [= <- <-]. destruct Hinv as [[] []]. split; by split.
  - revert E Hinv. apply (stream_move_keeps (inv owner)).
    + intros v ev ch Hv E. apply try_send_Sent in E as (-> & _). by apply inv_events.
    + intros v c f ch Hv. by apply inv_receive.
  - by apply (inv_drop_answer _ _ (Ok ls)).
Qed.

End answers.

(** ** What the others leave alone *)

(** The reader of a frame channel takes a frame, or goes. *)
Definition reads (ch ch' : Mpsc.t Frame.t) : Prop :=
  ch' = Mpsc.drop_rx ch \/ exists f, Mpsc.try_recv ch = Mpsc.Received f ch'.

Record untouched (w w' : World.t) : Prop := {
  un_actor : actor w' = actor w;
  un_running : running w' = running w;
  un_written : FramedWriter.written (framed_writer w') = FramedWriter.written (framed_writer w);
  un_incoming : incoming w `prefix_of` incoming w';
  un_control : Mpsc.queue (control w) `prefix_of` Mpsc.queue (control w');
  un_events : Mpsc.queue (events w) `prefix_of` Mpsc.queue (events w');
  un_responses : forall o, is_Some (responses w !! o) -> is_Some (responses w' !! o);
  un_chans : forall c ch, chans w !! c = Some ch ->
    exists ch', chans w' !! c = Some ch' /\ rtc reads ch ch'
}.

Lemma untouched_refl (w : World.t) : untouched w w.
Proof. split; try done. intros c ch Hc. by exists ch. Qed.

Lemma untouched_trans (w1 w2 w3 : World.t) :
  untouched w1 w2 -> untouched w2 w3 -> untouched w1 w3.
Proof.
  intros [A1 A2 A3 A4 A5 A6 A7 A8] [B1 B2 B3 B4 B5 B6 B7 B8]. split; try congruence; eauto.
  - by etrans.
  - by etrans.
  - by etrans.
  - intros c ch Hc. destruct (A8 c ch Hc) as (ch' & Hc' & Hr).
    destruct (B8 c ch' Hc') as (ch'' & Hc'' & Hr'). exists ch''. split; [done|by etrans].
Qed.

Lemma untouched_drop_stream (w : World.t) (ls : LogicalStream.t) : untouched w (drop_stream w ls).
Proof.
  split; try done. intros c ch Hc. simpl. rewrite lookup_alter. case_decide as E.
  - rewrite E, Hc. eexists. split; [reflexivity|]. apply rtc_once. by left.
  - exists ch. split; [done|apply rtc_refl].
Qed.

Lemma untouched_drop_answer (w : World.t) (r : outcome error LogicalStream.t) :
  untouched w (drop_answer w r).
Proof. destruct r; [apply untouched_drop_stream|apply untouched_refl..]. Qed.

Lemma untouched_task (k : nat) (w w' : World.t) : run_task k w = Some w' -> untouched w w'.
Proof.
  unfold run_task. destruct (tasks w !! k) as [[resp reply]|]; [|done].
  unfold forward. destruct (responses w !! resp) as [ch|] eqn:Hr; [|done].
  set (w1 := set_responses w _).
  assert (H1 : untouched w w1).
  { split; try done; [|intros c ch' Hc; by exists ch'].
    intros o Ho. simpl. rewrite lookup_insert. by case_decide. }
  assert (Hs : forall r, untouched w
    (set_tasks (reply_send w1 reply r) (delete k (tasks (reply_send w1 reply r))))).
  { intros r. eapply untouched_trans; [exact H1|].
    destruct (reply_send_case w1 reply r) as [->| ->].
    - split; try done. intros c ch' Hc; by exists ch'.
    - destruct (untouched_drop_answer (set_replies w1 (answer (replies w1) reply r).1) r). by split. }
  destruct (Oneshot.recv ch) as [[[ls|e|]|]|]; [..|done]; intros [= <-]; apply Hs.
Qed.

Lemma untouched_stream_move (w w' : World.t) : stream_move w w' -> untouched w w'.
Proof.
  intros Hm. apply (stream_move_keeps (untouched w)) in Hm; [done|..|apply untouched_refl].
  - intros v ev ch Hv (-> & _)%try_send_Sent. eapply untouched_trans; [done|].
    split; try done; [by apply prefix_app_r|]. intros c ch Hc. by exists ch.
  - intros v c f ch Hv E. eapply untouched_trans; [done|]. split; try done. simpl in *.
    intros c' ch' Hc'. rewrite lookup_insert. case_decide; [|by exists ch']. subst c'.
    exists ch. split; [done|]. apply rtc_once. right. exists f. by rewrite Hc' in E.
Qed.

Lemma outside_untouched (w w' : World.t) : outside w w' -> untouched w w'.
Proof.
  assert (Hsame : forall v v' : World.t, actor v' = actor v -> running v' = running v ->
    framed_writer v' = framed_writer v -> incoming v' = incoming v -> events v' = events v ->
    responses v' = responses v -> chans v' = chans v ->
    Mpsc.queue (control v) `prefix_of` Mpsc.queue (control v') -> untouched v v').
  { intros v v' E1 E2 E3 E4 E5 E6 E7 E8. split; rewrite ?E1, ?E2, ?E3, ?E4, ?E5, ?E6, ?E7; try done.
    intros c ch Hc. by exists ch. }
  intros [k v v' E|x v|l v|v v' r E|o v v' r E|v v' r E|v v' r E|o v v' r E|v v' E|ls v].
  - by eapply untouched_task.
  - split; try done; [by apply prefix_app_r|]. intros c ch Hc. by exists ch.
  - split; try done. intros c ch Hc. by exists ch.
  - revert E. unfold Session.open_stream_request, abind, new_reply, Session.control_send. simpl.
    destruct (Mpsc.try_send _ _) as [ch| |] eqn:E; intros [= <- <-]; apply Hsame; try done.
    apply try_send_Sent in E as (-> & _). simpl. by apply prefix_app_r.
  - revert E. unfold Session.open_stream_reply, abind, Session.await_reply.
    destruct (Oneshot.recv _) as [[[ls|e|]|]|]; intros [= <- <-]; by apply Hsame.
  - revert E. unfold Session.accept_stream.
    destruct (Mpsc.try_recv _); intros [= <- <-]; by apply Hsame.
  - revert E. unfold Session.shutdown_request, abind, Session.control_send. simpl.
    destruct (Mpsc.try_send _ _) as [ch| |] eqn:E; intros [= <- <-]; apply Hsame; try done.
    apply try_send_Sent in E as (-> & _). simpl. by apply prefix_app_r.
  - revert E. unfold Session.shutdown_reply, abind, Session.await_ack.
    destruct (Oneshot.recv _); intros [= <- <-]; by apply Hsame.
  - by apply untouched_stream_move.
  - apply untouched_drop_stream.
Qed.

(** ** The task keeps the invariants wherever it waits *)

(** What is known while the task is suspended: the channels are sound, and the others keep
    it. *)
Definition assertion : Type := gmap ChanId StreamId.t -> World.t -> Prop.

Record stable (A : assertion) : Prop := {
  st_sound : forall owner w, A owner w -> streams_inv owner w /\ running w = true;
  st_outside : forall owner w w', outside w w' -> A owner w -> A owner w'
}.

(** Each call of a future, when it completes, gives what is known where the next one may
    wait; the ownership of channels only grows. *)
Fixpoint kept {X : Type} (A : assertion) (p : future World.t X) : Prop :=
  match p with
  | Done _ => forall owner w, A owner w -> inv [] owner w
  | Await m k => forall owner w w' o, A owner w -> m w = (w', Ready o) ->
      exists owner' A', owner ⊆ owner' /\ stable A' /\ A' owner' w' /\ kept A' (k o)
  | Loop _ _ _ => False
  end.

Definition live (hand : list OneshotId) : assertion := fun owner w =>
  inv hand owner w /\ running w = true.

Definition live_as (v : World.t) : assertion := fun owner w =>
  live [] owner w /\ actor w = actor v.

Definition holding (ls : LogicalStream.t) : assertion := fun owner w =>
  live [] owner w /\ owned owner ls.

Definition opening (resp reply : OneshotId) : assertion := fun owner w =>
  live [reply] owner w /\ is_Some (responses w !! resp).

Lemma stable_live (hand : list OneshotId) : stable (live hand).
Proof.
  split; [by intros owner w [[Hs _] Hr]|]. intros owner w w' Ho [Hinv Hr]. split.
  - by eapply outside_inv.
  - by rewrite (un_running _ _ (outside_untouched _ _ Ho)).
Qed.

Lemma stable_and (A : assertion) (Q : assertion) :
  stable A -> (forall owner w w', untouched w w' -> Q owner w -> Q owner w') ->
  stable (fun owner w => A owner w /\ Q owner w).
Proof.
  intros [S1 S2] HQ. split; [intros owner w [Ha _]; eauto|].
  intros owner w w' Ho [Ha Hq]. split; [by eapply S2|]. eapply HQ; [|done].
  by apply outside_untouched.
Qed.

Lemma stable_live_as (v : World.t) : stable (live_as v).
Proof. apply stable_and; [apply stable_live|]. intros _ w w' [] E. congruence. Qed.

Lemma stable_holding (ls : LogicalStream.t) : stable (holding ls).
Proof. by apply stable_and; [apply stable_live|]. Qed.

Lemma stable_opening (resp reply : OneshotId) : stable (opening resp reply).
Proof. apply stable_and; [apply stable_live|]. intros _ w w' []; eauto. Qed.

#[local] Hint Resolve stable_live stable_live_as stable_holding stable_opening : core.

Lemma kept_live_done {X : Type} (o : outcome error X) : kept (live []) (Done o).
Proof. by intros owner w []. Qed.

(** The last call of a handler. *)
Lemma kept_call {X : Type} (A : assertion) (m : async World.t X) :
  (forall owner w w' o, A owner w -> m w = (w', Ready o) ->
    exists owner', owner ⊆ owner' /\ live [] owner' w') ->
  kept A (call m).
Proof.
  intros H owner w w' o Ha E. destruct (H owner w w' o Ha E) as (owner' & Hsub & Hl).
  exists owner', (live []). split_and!; auto. apply kept_live_done.
Qed.

Lemma kept_remove (id : StreamId.t) :
  kept (live []) (call (amodify (fun w => remove_stream w id))).
Proof.
  apply kept_call. intros owner w w' o [Hinv Hr] [= <- <-]. exists owner. split; [done|].
  split; [by apply inv_remove_stream|].
  destruct (remove_stream_rest w id) as (_ & _ & _ & _ & _ & E6 & _). congruence.
Qed.

Lemma writer_send_live (hand : list OneshotId) (owner : gmap ChanId StreamId.t) (w w' : World.t)
    (f : Frame.t) p :
  live hand owner w -> writer_send f w = (w', p) ->
  live hand owner w' /\ responses w' = responses w.
Proof.
  intros [Hinv Hr] E. destruct (writer_send_inv hand _ _ _ _ _ E Hinv) as [H1 H2].
  split; [split; [done|congruence]|]. revert E. unfold writer_send.
  by destruct (FramedWriter.send _ _) as [[fw r]|]; intros [= <- <-].
Qed.

(** A stream is accepted. *)
Lemma kept_accept (ls : LogicalStream.t) (id : StreamId.t) (g : Frame.t) :
  kept (holding ls) (let* sent := call (accept_send ls) in
    let* _ := (if sent : bool then fret tt
               else call (amodify (fun w => remove_stream w id))) in
    let* _ := call (writer_send g) in
    fret tt)%future.
Proof.
  assert (Hw : kept (live []) (let* _ := call (writer_send g) in fret tt)%future).
  { intros owner w w' o Hl E. cbn in E. apply (writer_send_live [] owner) in E as [H1 _]; [|done].
    exists owner, (live []). split_and!; auto. destruct o; apply kept_live_done. }
  intros owner w w' o [[Hinv Hr] Ho] E.
  destruct (accept_send_inv [] owner w w' ls _ E Hinv Hr Ho) as [H1 H2].
  exists owner, (live []). split_and!; auto; [by split|].
  destruct o as [[]| |]; [exact Hw| |apply (kept_live_done (X := unit) (Err _))
    |apply (kept_live_done (X := unit) Panic)].
  intros owner' v v' o [Hv Hrv] [= <- <-]. exists owner', (live []). split_and!; auto.
  split; [by apply inv_remove_stream|].
  destruct (remove_stream_rest v id) as (_ & _ & _ & _ & _ & E6 & _). congruence.
Qed.

(** A frame for a registered stream, and one that answers an open request. *)
Lemma kept_deliver (f : Frame.t) (c : ChanId) (v : World.t) :
  streams v !! frame_stream f = Some c ->
  kept (live_as v) (let* sent := call (chan_send c f) in
    if sent : bool then fret tt
    else call (amodify (fun w => remove_stream w (frame_stream f))))%future.
Proof.
  intros Hc owner w w' o [[Hinv Hr] Ea] E. exists owner, (live []).
  revert E. unfold chan_send.
  destruct (Mpsc.try_send (default dead (chans w !! c)) f) eqn:Hs; intros [= <- <-].
  - split_and!; auto; [|apply (kept_live_done (Ok tt))]. split; [|done].
    destruct Hinv as [Hst Ha]. split; [|destruct Ha; by split].
    eapply si_deliver; [done| |done|done]. unfold streams. by rewrite Ea.
  - split_and!; auto; [done|]. apply kept_remove.
Qed.

Lemma kept_answer (id : StreamId.t) (o : OneshotId) (v : World.t) (m : async World.t unit) :
  pending v !! id = Some o -> streams v !! id = None ->
  (m = (amodify (fun w => set_pending w (delete id (pending w)));;;
        await c := new_chan in
        amodify (fun w => insert_stream w id c);;;
        amodify (fun w => response_send w o
          (Ok (LogicalStream.new (SessionActor.session_id (actor w)) id Established c))))%async \/
   exists e, m = (amodify (fun w => set_pending w (delete id (pending w)));;;
        amodify (fun w => response_send w o (Err e)))%async) ->
  kept (live_as v) (call m).
Proof.
  intros Hp Hid Hm. apply kept_call. intros owner w w' r [[Hinv Hr] Ea] E.
  assert (Hp' : pending w !! id = Some o) by (unfold pending; by rewrite Ea).
  assert (Hid' : streams w !! id = None) by (unfold streams; by rewrite Ea).
  assert (Hrs : forall w1 r1, running (response_send w1 o r1) = running w1).
  { intros w1 r1. destruct (response_send_case w1 o r1) as [->| ->]; [done|]. by destruct r1. }
  destruct Hm as [->|[e ->]].
  - injection E as <- <-. exists (<[fresh w := id]> owner). split; [apply si_fresh_owner, Hinv|].
    split; [by apply inv_open_response|]. rewrite Hrs.
    destruct (register_rest (set_pending w (delete id (pending w))) id Hid')
      as (_ & _ & _ & _ & _ & E6 & _). exact (eq_trans E6 Hr).
  - injection E as <- <-. exists owner. split; [done|]. split; [|by rewrite Hrs].
    destruct Hinv as [Hs [A1 A2 A3 A4]]. apply inv_resolve; try done.
    + destruct Hs. by split.
    + intros o' ch Hc Ht Hne. destruct (A1 o' ch Hc Ht) as (id' & Hid2). exists id'. world.
      rewrite lookup_delete_ne; [done|congruence].
Qed.

Lemma kept_frame (f : Frame.t) : kept (live []) (frame_task f).
Proof.
  intros owner v v' o Hl [= <- <-]. exists owner, (live_as v). split_and!; auto; [done|]. cbn.
  assert (Hdone : kept (live_as v) (fret tt)) by by intros ?? [[] _].
  change (FrameHeader.stream_id (Frame.header f)) with (frame_stream f).
  destruct (streams v !! frame_stream f) as [c|] eqn:Hid; [by apply kept_deliver|].
  destruct (FrameFlags.is_open_request _).
  { intros owner1 w w' o [[Hinv Hr] Ea] E.
    assert (Hid' : streams w !! frame_stream f = None) by (unfold streams; by rewrite Ea).
    injection E as <- <-. exists (<[fresh w := frame_stream f]> owner1).
    eexists (holding (LogicalStream.new _ (frame_stream f) Established (fresh w))).
    split_and!; auto; [apply si_fresh_owner, Hinv| |apply kept_accept].
    split; [|by apply lookup_insert_eq]. split; [by apply (inv_register [])|].
    destruct (register_rest w _ Hid') as (_ & _ & _ & _ & _ & E6 & _).
    exact (eq_trans E6 Hr). }
  destruct (FrameFlags.is_open_response _).
  { destruct (pending v !! frame_stream f) as [o|] eqn:Hp; [|done]. eapply kept_answer; eauto. }
  destruct (FrameFlags.is_open_reset _); [|done].
  destruct (pending v !! frame_stream f) as [o|] eqn:Hp; [|done]. eapply kept_answer; eauto.
Qed.

Lemma kept_event (ev : StreamEvent.t) : kept (live []) (event_task ev).
Proof.
  destruct ev as [f|id|]; [|apply kept_remove|apply (kept_live_done (Ok tt))].
  intros owner w w' o Hl E. destruct (writer_send_live _ _ _ _ _ _ Hl E) as [H1 _].
  exists owner, (live []). split_and!; auto. destruct o as [[]| |]; by intros ?? [].
Qed.

(** A command: the sender of its answer is in hand until the task that forwards the answer
    is spawned. *)
Lemma live_command (owner : gmap ChanId StreamId.t) (w : World.t) (cmd : Command)
    (ch : Mpsc.t Command) :
  live [] owner w -> Mpsc.queue (control w) = cmd :: Mpsc.queue ch ->
  live (open_replies [cmd]) owner (set_control w ch).
Proof.
  intros [[Hs [A1 A2 A3 A4]] Hr] Hq. split; [|done]. split; [destruct Hs; by split|].
  apply answers_running; try done. intros o c Hc Ht. simpl.
  destruct (A2 o c Hc Ht) as [Ho|[Ho|Ho]]; [|by auto|by apply elem_of_nil in Ho].
  rewrite Hq in Ho. change (cmd :: Mpsc.queue ch) with ([cmd] ++ Mpsc.queue ch) in Ho.
  rewrite open_replies_app in Ho. apply elem_of_app in Ho as [Ho|Ho]; auto.
Qed.

Lemma open_begin_live (owner : gmap ChanId StreamId.t) (w w' : World.t) (reply : OneshotId) o :
  live [reply] owner w -> open_begin w = (w', Ready o) ->
  exists id resp, o = Ok (id, resp) /\ opening resp reply owner w'.
Proof.
  intros [[Hs [A1 A2 A3 A4]] Hr]. unfold open_begin. rewrite (abind_ok _ aget _ _ _ eq_refl).
  destruct (StreamId.fetch_add _ 1) as [next id].
  set (w0 := set_actor w (SessionActor.set_next_stream_id (actor w) next)).
  rewrite (abind_ok _ (amodify _) _ w0 tt) by done.
  rewrite (abind_ok _ new_response _ (new_response w0).1 (fresh w0)) by done.
  set (w1 := insert_pending (new_response w0).1 id (fresh w0)).
  rewrite (abind_ok _ (amodify _) _ w1 tt) by done. intros [= <- <-]. exists id, (fresh w0).
  assert (Hs0 : streams_inv owner w0) by (destruct Hs; by split).
  destruct (new_pending_rest w0 id) as (E1 & E2 & E3 & E4). fold w1 in E1, E2, E3, E4.
  pose proof (new_pending_is_Some w0 id) as P3. fold w1 in P3.
  split; [done|]. split; [|by apply P3, or_introl]. split; [|by rewrite E4].
  split; [by apply new_pending_streams|]. apply answers_running; [by rewrite E4| |..].
  - by apply new_pending_alive.
  - by rewrite E1, E2, E3.
  - rewrite E2. intros t Ht. by apply P3, or_intror, A3.
Qed.

Lemma kept_open_end (resp reply : OneshotId) (r : outcome error unit) :
  r <> Panic ->
  kept (opening resp reply) (match r with
    | Ok _ => call (amodify (fun w => set_tasks w (tasks w ++ [(resp, reply)])))
    | Err e => call (
        amodify (fun w => set_responses w (alter Oneshot.drop_rx resp (responses w)));;;
        amodify (fun w => set_replies w (alter Oneshot.drop_tx reply (replies w)));;;
        afail e)%async
    | Panic => Done (A := unit) Panic
    end).
Proof.
  intros Hp. destruct r as [u|e|]; [| |done]; apply kept_call;
    intros owner w w' o [[[Hs [A1 A2 A3 A4]] Hr] Hresp] [= <- <-]; exists owner; (split; [done|]);
    (split; [|done]).
  - split; [destruct Hs; by split|]. apply answers_running; simpl; try done.
    + intros o c Hc Ht. rewrite fmap_app, elem_of_app. simpl. rewrite list_elem_of_singleton.
      destruct (A2 o c Hc Ht) as [|[|Ho%list_elem_of_singleton]]; by auto.
    + intros t [Ht|Ht%list_elem_of_singleton]%elem_of_app; [by apply A3|by subst t].
  - split; [destruct Hs; split; try done; simpl; by apply owned_alter|].
    apply answers_running; simpl; try done.
    + intros o c [[-> (c' & Hc' & ->)]|[Hne Hc]]%lookup_alter_Some Ht; by eauto.
    + intros o c [[-> (c' & Hc' & ->)]|[Hne Hc]]%lookup_alter_Some Ht; [done|].
      destruct (A2 o c Hc Ht) as [|[|Ho%list_elem_of_singleton]]; by auto.
    + intros t Ht. rewrite lookup_alter_is_Some. by apply A3.
Qed.

Lemma kept_command (cmd : Command) : kept (live (open_replies [cmd])) (command_task cmd).
Proof.
  destruct cmd as [reply|reply].
  - intros owner w w' o Hl E. destruct (open_begin_live owner w w' reply o Hl E) as (id & resp & -> & H1).
    exists owner, (opening resp reply). split_and!; auto.
    clear E. intros owner1 v v' o [Hv Hresp] E. destruct (writer_send_live _ _ _ _ _ _ Hv E) as [H2 H3].
    exists owner1, (opening resp reply). split_and!; auto; [split; [done|by rewrite H3]|].
    revert E. unfold writer_send. destruct (FramedWriter.send _ _) as [[fw r]|] eqn:Es; intros [= <- <-].
    apply kept_open_end. intros ->. revert Es. unfold FramedWriter.send. by case_match.
  - apply kept_call. intros owner w w' o [[Hs [A1 A2 A3 A4]] Hr] [= <- <-]. exists owner.
    split; [done|]. split; [|done]. split; [destruct Hs; by split|]. by apply answers_running.
Qed.

(** The end of the task. *)
Lemma inv_drop_actor (owner : gmap ChanId StreamId.t) (w : World.t) :
  inv [] owner w -> inv [] owner (drop_actor w) /\ running (drop_actor w) = false.
Proof.
  intros [Hs [A1 A2 A3 A4]]. split; [|done]. pose proof (si_clear _ _ Hs) as [B1 B2 B3 B4 B5 B6].
  split; split; world; try done; try (by repeat apply owned_alter_all).
  - intros o ch Hc Ht. destruct (dropped_alive _ _ _ _ Hc Ht) as (Hn & ch' & Hc' & Ht').
    destruct Hn. apply elem_of_range. by eapply A1.
  - intros o ch Hc Ht. destruct (dropped_alive _ _ _ _ Hc Ht) as (Hn & ch' & Hc' & Ht').
    destruct (A2 o ch' Hc' Ht'); [done|by right].
  - intros t Ht. rewrite lookup_alter_all, fmap_is_Some. by apply A3.
Qed.

Lemma kept_shutdown : kept (live []) shutdown_task.
Proof.
  intros owner w w' o [[Hs [A1 A2 A3 A4]] Hr] [= <- <-]. exists owner, (live []).
  split_and!; auto.
  - split; [|done]. split; [by apply si_clear|]. by apply answers_running.
  - apply (kept_call (live [])). intros owner1 v v' o [Hv Hrv].
    destruct (FramedWriter.close (framed_writer v)) as [[fw r]|]; intros [= <- <-].
    exists owner1. split; [done|]. split; [by apply inv_writer|done].
Qed.

(** The invariant of a state of the session. *)
Definition place_inv (owner : gmap ChanId StreamId.t) (s : place * World.t) : Prop :=
  match s.1 with
  | Selecting => live [] owner s.2
  | Handling p | Closing p => exists A, stable A /\ A owner s.2 /\ kept A p
  | Over => inv [] owner s.2 /\ running s.2 = false
  end.

Definition place_inv_after (owner : gmap ChanId StreamId.t) (s : place * World.t) : Prop :=
  exists owner', owner ⊆ owner' /\ place_inv owner' s.

Lemma place_streams (owner : gmap ChanId StreamId.t) (s : place * World.t) :
  place_inv owner s -> streams_inv owner s.2.
Proof.
  destruct s as [[|p|p|] w]; [by intros [[]]| | |by intros [[]]];
    intros (A & HA & Ha & _); by apply (st_sound A HA).
Qed.

Lemma place_stopped (owner : gmap ChanId StreamId.t) (s : place * World.t) :
  place_inv owner s -> running s.2 = false -> inv [] owner s.2.
Proof.
  destruct s as [[|p|p|] w]; [by intros []| | |by intros []];
    intros (A & HA & Ha & _) Hr; destruct (st_sound A HA _ _ Ha); congruence.
Qed.

Lemma place_outside (owner : gmap ChanId StreamId.t) (pl : place) (w w' : World.t) :
  outside w w' -> place_inv owner (pl, w) -> place_inv owner (pl, w').
Proof.
  intros Ho. destruct pl as [|p|p|]; cbn.
  - by apply (st_outside _ (stable_live [])).
  - intros (A & HA & Ha & Hk). exists A. split_and!; try done. by eapply st_outside.
  - intros (A & HA & Ha & Hk). exists A. split_and!; try done. by eapply st_outside.
  - intros [Hinv Hr]. split; [by eapply outside_inv|].
    by rewrite (un_running _ _ (outside_untouched _ _ Ho)).
Qed.

(** A future that goes on. *)
Lemma resume_kept (owner : gmap ChanId StreamId.t) (A : assertion) (p p' : future World.t unit)
    (w w' : World.t) :
  A owner w -> kept A p -> resume p w = Some (p', w') ->
  exists owner' A', owner ⊆ owner' /\ stable A' /\ A' owner' w' /\ kept A' p'.
Proof.
  intros Ha Hk. destruct p as [o|X m k|X B body x k]; [done| |done].
  rewrite resume_await. destruct (m w) as [w1 [o|]] eqn:E; [|done]. intros [= <- <-]. by eapply Hk.
Qed.

Lemma start_kept (owner : gmap ChanId StreamId.t) (A : assertion) (p : future World.t unit)
    (w : World.t) :
  stable A -> A owner w -> kept A p ->
  place_inv_after owner (let '(p', w') := start p w in (Handling p', w')).
Proof.
  intros HA Ha Hk. unfold start. destruct (resume p w) as [[p' w']|] eqn:E; cbn.
  - destruct (resume_kept _ _ _ _ _ _ Ha Hk E) as (owner' & A' & Hsub & H1). exists owner'.
    split; [done|]. by exists A'.
  - exists owner. split; [done|]. by exists A.
Qed.

Lemma closing_inv (owner : gmap ChanId StreamId.t) (w : World.t) :
  live [] owner w -> place_inv_after owner (Closing shutdown_task, w).
Proof. intros Hw. exists owner. split; [done|]. exists (live []). auto using kept_shutdown. Qed.

Lemma select_inv (owner : gmap ChanId StreamId.t) (b : branch) (w : World.t) (s' : place * World.t) :
  poll_actor b (Selecting, w) = Some s' -> live [] owner w -> place_inv_after owner s'.
Proof.
  cbn [poll_actor]. intros E Hl. destruct b; cbn in E.
  - destruct (cancelled w); simplify_eq. by apply closing_inv.
  - destruct Hl as [Hinv Hr]. destruct (incoming w) as [|[f|e|] rest]; simplify_eq.
    + apply (inv_incoming [] _ _ rest) in Hinv.
      pose proof (start_kept owner (live []) (frame_task f) (set_incoming w rest)) as Hs.
      destruct (start _ _). simplify_eq. apply Hs; auto using kept_frame. by split.
    + apply closing_inv. split; [|done]. destruct Hinv as [[] []]. split; by split.
    + apply closing_inv. split; [|done]. destruct Hinv as [[] []]. split; by split.
  - destruct (Mpsc.try_recv (control w)) as [cmd ch| |] eqn:Hq; try done.
    apply try_recv_rx in Hq as (Hq & _ & _).
    pose proof (start_kept owner _ (command_task cmd) (set_control w ch) (stable_live _)
      (live_command owner w cmd ch Hl Hq) (kept_command cmd)) as Hs.
    destruct (start _ _). by simplify_eq.
  - destruct (Mpsc.try_recv (events w)) as [ev ch| |] eqn:Hq; try done.
    apply try_recv_rx in Hq as (Hq & Hrx & _). destruct Hl as [Hinv Hr].
    pose proof (start_kept owner (live []) (event_task ev) (set_events w ch)) as Hs.
    destruct (start _ _). simplify_eq. apply Hs; auto using kept_event. split; [|done].
    by apply inv_events.
Qed.

Lemma poll_inv (owner : gmap ChanId StreamId.t) (b : branch) (s s' : place * World.t) :
  poll_actor b s = Some s' -> place_inv owner s -> place_inv_after owner s'.
Proof.
  destruct s as [[|p|p|] w]; [apply select_inv|..|done]; intros E (A & HA & Ha & Hk).
  - destruct p as [o|X m k|X B body x k]; [| |done].
    + assert (Hl : live [] owner w) by (split; [by apply Hk|by apply (st_sound A HA _ _ Ha)]).
      destruct o as [u|e|]; cbn in E; simplify_eq; [by exists owner|by apply closing_inv|].
      exists owner. split; [done|]. by apply inv_drop_actor, Hl.
    + cbn [poll_actor] in E. destruct (resume _ w) as [[p' w']|] eqn:Er; simplify_eq.
      destruct (resume_kept _ _ _ _ _ _ Ha Hk Er) as (owner' & A' & Hsub & H1).
      exists owner'. split; [done|]. by exists A'.
  - destruct p as [o|X m k|X B body x k]; [| |done]; cbn [poll_actor] in E.
    + simplify_eq. exists owner. split; [done|]. by apply inv_drop_actor, (Hk owner).
    + destruct (resume _ w) as [[p' w']|] eqn:Er; simplify_eq.
      destruct (resume_kept _ _ _ _ _ _ Ha Hk Er) as (owner' & A' & Hsub & H1).
      exists owner'. split; [done|]. by exists A'.
Qed.

Lemma steps_inv (owner : gmap ChanId StreamId.t) (s s' : place * World.t) :
  steps s s' -> place_inv owner s -> place_inv_after owner s'.
Proof.
  induction 1 as [s|s1 s2 s3 _ IH Hstep]; intros Hinv; [by exists owner|].
  destruct (IH Hinv) as (owner2 & Hsub & H2). clear IH Hinv.
  destruct Hstep as [b s2 s3 E|pl w w' E].
  - destruct (poll_inv owner2 b s2 s3 E H2) as (owner3 & Hsub3 & H3). exists owner3.
    split; [by trans owner2|done].
  - exists owner2. split; [done|]. by eapply place_outside.
Qed.

Lemma inv_spawn (side : SessionSide) (sid : SessionId.t) (l r : option Ip.SocketAddr.t) :
  inv [] ∅ (Session.spawn tt side sid l r).2.
Proof.
  split; split; simpl; try done; try (by apply map_Forall_empty); intros *; world;
    try (by rewrite lookup_empty); try set_solver.
Qed.

Lemma reachable_inv (side : SessionSide) (sid : SessionId.t) (s : place * World.t) :
  reachable side sid s -> exists owner, place_inv owner s.
Proof.
  intros H. destruct (steps_inv ∅ _ _ H) as (owner & _ & Hinv); [|by exists owner].
  split; [apply inv_spawn|done].
Qed.

(** An iteration of the loop that nothing interrupts. *)
Lemma settle_steps (n : nat) (s0 s s' : place * World.t) :
  settle n s = Some s' -> steps s0 s -> steps s0 s'.
Proof.
  revert s. induction n as [|n IH]; intros [pl w] E Hs.
  - destruct pl; try done; by injection E as <-.
  - change (match pl with
      | Selecting | Over => Some (pl, w)
      | _ => match poll_actor Cancelled (pl, w) with Some s1 => settle n s1 | None => None end
      end = Some s') in E.
    destruct (poll_actor Cancelled (pl, w)) as [s1|] eqn:Ep; destruct pl; simplify_eq; try done;
      (eapply IH; [exact E|]; eapply steps_step; [exact Hs|by eapply step_actor]).
Qed.

Lemma iteration_steps (b : branch) (s0 s : place * World.t) (w : World.t) :
  iteration b w = Some s -> steps s0 (Selecting, w) -> steps s0 s.
Proof.
  unfold iteration. destruct (poll_actor b (Selecting, w)) as [s1|] eqn:Ep; [|done].
  intros E Hs. eapply settle_steps; [exact E|]. eapply steps_step; [exact Hs|by eapply step_actor].
Qed.

(** A stopped session. *)
Lemma stopped_task (owner : gmap ChanId StreamId.t) (w : World.t) (t : OneshotId * OneshotId)
    (ts : list (OneshotId * OneshotId)) :
  inv [] owner w -> running w = false -> tasks w = t :: ts ->
  exists w', run_task 0 w = Some w' /\ running w' = false /\ tasks w' = ts.
Proof.
  intros [_ [A1 A2 A3 A4]] Hrun Ht. destruct t as [resp reply].
  destruct (A3 (resp, reply)) as [ch Hch]; [rewrite Ht; by constructor|]. simpl in Hch.
  destruct (A4 Hrun) as (Hp & _).
  unfold run_task, forward. rewrite Ht. simpl. rewrite Hch.
  assert (Hr : exists r, Oneshot.recv ch = Ready r).
  { unfold Oneshot.recv. destruct (Oneshot.value ch); [by eexists|].
    destruct (Oneshot.tx_alive ch) eqn:Htx; [|by eexists].
    destruct (A1 resp ch Hch Htx) as (id & Hid). by rewrite Hp, lookup_empty in Hid. }
  destruct Hr as [r ->].
  set (w1 := set_responses w _).
  assert (Hsend : forall a, running (reply_send w1 reply a) = running w /\
    tasks (reply_send w1 reply a) = tasks w).
  { intros a. destruct (reply_send_case w1 reply a) as [->| ->]; [done|]. by destruct a. }
  destruct r as [[ls|e|]|]; eexists; (split; [done|]); simpl;
    rewrite (proj1 (Hsend _)), (proj2 (Hsend _)), Ht; done.
Qed.

Lemma stopped_tasks (n : nat) (owner : gmap ChanId StreamId.t) (w : World.t) :
  inv [] owner w -> running w = false -> length (tasks w) = n ->
  exists w', run_tasks n w = Some w' /\ running w' = false /\ tasks w' = [] /\ inv [] owner w'.
Proof.
  revert w. induction n as [|n IH]; intros w Hinv Hrun Hn; simpl.
  - exists w. split_and!; try done. by destruct (tasks w).
  - destruct (tasks w) as [|t ts] eqn:Ht; [done|].
    destruct (stopped_task owner w t ts Hinv Hrun Ht) as (w1 & H1 & Hr1 & Ht1). rewrite H1.
    apply IH; [by eapply inv_task|done|]. rewrite Ht1. by simpl in Hn; lia.
Qed.

(** What a call that gives a stream does. *)
Lemma obtained_outside (w : World.t) (ls : LogicalStream.t) (w' : World.t) :
  obtained w ls w' -> outside w w'.
Proof. intros [E|o E]; [by eapply step_accept|by eapply step_open_reply]. Qed.

Lemma obtained_owned (owner : gmap ChanId StreamId.t) (w : World.t) (ls : LogicalStream.t)
    (w' : World.t) :
  streams_inv owner w -> obtained w ls w' -> owned owner ls.
Proof.
  intros Hs [E|o E].
  - revert E. unfold Session.accept_stream.
    destruct (Mpsc.try_recv (accepts w)) as [ls' ch| |] eqn:E; intros [= <- <-].
    apply try_recv_rx in E as (Hq & _). pose proof (si_accepts _ _ Hs) as Ha. rewrite Hq in Ha.
    by apply Forall_cons in Ha as [Ha _].
  - revert E. unfold Session.open_stream_reply, abind, Session.await_reply.
    destruct (replies w !! o) as [ch|] eqn:E; simpl; [|done].
    pose proof (si_replies _ _ Hs o ch E) as Ho. unfold owned_oneshot in Ho. unfold Oneshot.recv.
    destruct (Oneshot.value ch) as [[ls'|e|]|]; [..|by destruct (Oneshot.tx_alive ch)];
      by intros [= <- <-].
Qed.

(** ** Properties *)

(** C5: Stream isolation.  A logical stream obtained from a session by
    accepting or by opening only ever receives frames that carry its own
    stream identifier, whatever the session, the peer, and the application do
    before and after, and wherever the session's task waits. *)
Theorem stream_isolation (side : SessionSide) (sid : SessionId.t) (pl pl' : place)
    (w1 w2 w3 w4 : World.t) (ls ls' ls'' : LogicalStream.t) (f : Frame.t)
    (Hreach : reachable side sid (pl, w1)) (Hget : obtained w1 ls w2)
    (Hsteps : steps (pl, w2) (pl', w3))
    (Hsame : LogicalStream.frame_receiver ls' = LogicalStream.frame_receiver ls)
    (Hrecv : LogicalStream.recv_frame (ls', w3) = ((ls'', w4), Ready (Ok f))) :
  frame_stream f = LogicalStream.stream_id ls.
Proof.
  destruct (reachable_inv side sid _ Hreach) as (owner & Hinv).
  pose proof (obtained_owned owner w1 ls w2 (place_streams _ _ Hinv) Hget) as Ho.
  apply (place_outside owner pl w1 w2 (obtained_outside _ _ _ Hget)) in Hinv.
  destruct (steps_inv owner _ _ Hsteps Hinv) as (owner' & Hsub & H3%place_streams).
  revert Hrecv. unfold LogicalStream.recv_frame, abind, this, recv_on. simpl.
  destruct (Mpsc.try_recv _) as [f' ch| |] eqn:E; try done. intros [= _ _ <-].
  destruct (si_receive owner' w3 H3 _ _ _ E) as [_ Hc]. rewrite Hsame in Hc.
  pose proof (lookup_weaken _ _ _ _ Ho Hsub). congruence.
Qed.

(** C20: Nobody is left waiting for a session whose actor has ended.  In every
    reachable world where it has, the spawned tasks all run to their end, and
    then every answer to an open request is there or known not to come,
    accepting does not wait, every stream read gets a frame or the end of the
    stream, and every send fails with a broken pipe. *)
Theorem stopped_session_releases (side : SessionSide) (sid : SessionId.t) (pl : place) (w : World.t)
    (Hreach : reachable side sid (pl, w)) (Hstop : running w = false) :
  exists w', run_tasks (length (tasks w)) w = Some w' /\ tasks w' = [] /\
    (forall o ch, replies w' !! o = Some ch -> Oneshot.recv ch <> Pending) /\
    (Session.accept_stream w').2 <> Pending /\
    (forall ls, (LogicalStream.recv_frame (ls, w')).2 <> Pending) /\
    (forall ls f, LogicalStream.send_frame f (ls, w') =
       ((ls, w'), Ready (Err (IoError BrokenPipe "Failed to send frame")))).
Proof.
  destruct (reachable_inv side sid _ Hreach) as (owner & Hinv).
  apply place_stopped in Hinv; [|done]. simpl in Hinv.
  destruct (stopped_tasks _ owner w Hinv Hstop eq_refl) as (w' & Hrun & Hstop' & Ht & [Hs Ha]).
  destruct Ha as [A1 A2 A3 A4].
  destruct (A4 Hstop') as (Hp & Hst & Hq & Hrx & Htx & Hev).
  exists w'. split_and!; try done.
  - intros o ch Hc. unfold Oneshot.recv. destruct (Oneshot.value ch); [done|].
    destruct (Oneshot.tx_alive ch) eqn:Halive; [|done].
    destruct (A2 o ch Hc Halive) as [H|[H|H]]; [rewrite Hq in H|rewrite Ht in H|];
      by apply elem_of_nil in H.
  - unfold Session.accept_stream, Mpsc.try_recv. rewrite Htx.
    by destruct (Mpsc.queue (accepts w')); simpl.
  - intros ls. unfold LogicalStream.recv_frame, abind, this, recv_on. simpl.
    set (c := LogicalStream.frame_receiver ls).
    assert (Hd : Mpsc.tx_alive (default dead (chans w' !! c)) = false).
    { destruct (chans w' !! c) as [ch|] eqn:Hc; [|done]. simpl.
      destruct (Mpsc.tx_alive ch) eqn:Halive; [|done].
      destruct (si_chans _ _ Hs c ch Hc) as (id & _ & _ & _ & Hreg).
      specialize (Hreg Halive). by rewrite Hst, lookup_empty in Hreg. }
    unfold Mpsc.try_recv. rewrite Hd.
    by destruct (Mpsc.queue (default dead (chans w' !! c))).
  - intros ls f. unfold LogicalStream.send_frame, send_or. simpl.
    by rewrite (proj2 (try_send_Closed _ _) Hev).
Qed.

(** C13: In every reachable world, also while the session's task waits in a handler, the registered streams are exactly the frame
    channels that still have a sender, no two streams share a channel, every
    queued frame belongs to the stream that its channel is registered for, and
    no queue is longer than the capacity of its channel. *)
Theorem registered_streams_sound (side : SessionSide) (sid : SessionId.t) (pl : place) (w : World.t)
    (Hreach : reachable side sid (pl, w)) :
  (forall id c, streams w !! id = Some c ->
     exists ch, chans w !! c = Some ch /\ Mpsc.tx_alive ch = true /\
       Forall (fun f => frame_stream f = id) (Mpsc.queue ch)) /\
  (forall c ch, chans w !! c = Some ch -> Mpsc.tx_alive ch = true ->
     exists id, streams w !! id = Some c) /\
  (forall id id' c, streams w !! id = Some c -> streams w !! id' = Some c -> id = id') /\
  (forall c ch, chans w !! c = Some ch -> Mpsc.wf ch = true).
Proof.
  destruct (reachable_inv side sid _ Hreach) as (owner & Hs%place_streams). simpl in Hs. split_and!.
  - intros id c Hid. destruct (si_streams _ _ Hs id c Hid) as (Ho & ch & Hc & Ht).
    destruct (si_chans _ _ Hs c ch Hc) as (id' & Ho' & Hq & _). exists ch.
    by simplify_eq.
  - intros c ch Hc Ht. destruct (si_chans _ _ Hs c ch Hc) as (id & _ & _ & _ & Hreg). eauto.
  - intros id id' c H1 H2. destruct (si_streams _ _ Hs id c H1) as [Ho _].
    destruct (si_streams _ _ Hs id' c H2) as [Ho' _]. congruence.
  - intros c ch Hc. destruct (si_chans _ _ Hs c ch Hc) as (id & _ & _ & Hl & _).
    by apply Nat.leb_le.
Qed.

(** ** Witnesses *)

(** A server that accepts stream 5 and gets a data frame for it. *)
Definition demo_server : World.t := (Session.spawn tt Server (SessionId.mk 1) None None).2.

Definition receive (f : Frame.t) (w : World.t) : World.t :=
  let w := set_incoming w (incoming w ++ [Ok f]) in default w (turn NextFrame w).

Definition demo_opened : World.t :=
  receive (control_frame (StreamId.mk 5) FrameFlags.open_request) demo_server.

Definition demo_accepted : World.t := (Session.accept_stream demo_opened).1.

Definition demo_delivered : World.t :=
  receive (data_frame (StreamId.mk 5) [byte_of 9]) demo_accepted.

Definition demo_stream : LogicalStream.t :=
  LogicalStream.new (SessionId.mk 1) (StreamId.mk 5) Established 0.

Lemma receive_steps (f : Frame.t) (s0 : place * World.t) (w : World.t) :
  steps s0 (Selecting, w) ->
  iteration NextFrame (set_incoming w (incoming w ++ [Ok f])) = Some (Selecting, receive f w) ->
  steps s0 (Selecting, receive f w).
Proof.
  intros H Ht. eapply iteration_steps; [exact Ht|]. eapply steps_step; [exact H|].
  apply step_outside, (step_network (Ok f)).
Qed.

Lemma stream_isolation_witness :
  frame_stream (data_frame (StreamId.mk 5) [byte_of 9]) = LogicalStream.stream_id demo_stream.
Proof.
  refine (stream_isolation Server (SessionId.mk 1) Selecting Selecting demo_opened demo_accepted demo_delivered _
    demo_stream demo_stream _ _ _ _ _ _ _).
  - eapply receive_steps; [apply steps_refl|vm_compute; reflexivity].
  - apply by_accept. vm_compute. reflexivity.
  - eapply receive_steps; [apply steps_refl|vm_compute; reflexivity].
  - reflexivity.
  - vm_compute. reflexivity.
Defined.

Lemma registered_streams_sound_witness :
  exists ch, chans demo_opened !! 0 = Some ch /\ Mpsc.tx_alive ch = true /\
    Forall (fun f => frame_stream f = StreamId.mk 5) (Mpsc.queue ch).
Proof.
  assert (H : reachable Server (SessionId.mk 1) (Selecting, demo_opened)).
  { eapply receive_steps; [apply steps_refl|vm_compute; reflexivity]. }
  apply (proj1 (registered_streams_sound Server (SessionId.mk 1) Selecting demo_opened H)).
  vm_compute. reflexivity.
Defined.

(** A client that opens a stream, gets no answer, and is shut down. *)
Definition demo_asking : World.t :=
  (Session.open_stream_request (Session.spawn tt Client (SessionId.mk 2) None None).2).1.

Definition demo_asked : World.t := default demo_asking (turn NextCommand demo_asking).

Definition demo_leaving : World.t := (Session.shutdown_request demo_asked).1.

Definition demo_left : World.t := default demo_leaving (turn NextCommand demo_leaving).

Definition demo_closing : World.t := (Session.shutdown_reply 2 demo_left).1.

Definition demo_stopped : World.t := default demo_closing (turn Cancelled demo_closing).

Lemma demo_stopped_reachable : reachable Client (SessionId.mk 2) (Over, demo_stopped).
Proof.
  apply (iteration_steps Cancelled _ _ demo_closing); [vm_compute; reflexivity|].
  apply (steps_step _ (Selecting, demo_left));
    [|eapply step_outside, (step_shutdown_reply 2); vm_compute; reflexivity].
  apply (iteration_steps NextCommand _ _ demo_leaving); [vm_compute; reflexivity|].
  apply (steps_step _ (Selecting, demo_asked));
    [|eapply step_outside, step_shutdown_request; vm_compute; reflexivity].
  apply (iteration_steps NextCommand _ _ demo_asking); [vm_compute; reflexivity|].
  eapply steps_step; [apply steps_refl|]. eapply step_outside, step_open_request. vm_compute.
  reflexivity.
Qed.

Lemma stopped_session_releases_witness :
  exists w', run_tasks 1 demo_stopped = Some w' /\
    (Session.open_stream_reply 0 w').2 =
    Ready (Err (Caused "Stream open failed: " (Anyhow "No response received"))).
Proof.
  destruct (stopped_session_releases Client (SessionId.mk 2) Over demo_stopped)
    as (w' & Hrun & _); [exact demo_stopped_reachable|vm_compute; reflexivity|].
  exists w'. split; [exact Hrun|]. vm_compute in Hrun. injection Hrun as <-.
  vm_compute. reflexivity.
Defined.
