(* ===== verification/MuxProtocol.v ===== *)
(** * The multiplexing protocol between two sessions

    Two sessions joined by a raw stream: what one writes, encoded, cut anywhere
    and decoded by the other's framed reader, becomes the other's input.  The
    class [FramedLink] is what the sessions rely on; the frame codec is its
    instance.  Over it: how incoming frames are distributed to the streams,
    the handshake that opens a stream on both sides, the bytes that go from a
    writer on one side to the reader on the other, and what happens when both
    sides use the same stream identifier. *)

From S2P Require Import Prelude Ids Frame Codec Tokio Futures MuxStream MuxSession MuxActor.
From S2P Require Import MuxInvariant.
Import MuxSession.World.

(** ** The link between two sessions *)

(** A link carries well-formed frames in order and unchanged, up to the length
    field that the receiver recomputes. *)
Class FramedLink (L : Type) : Type := {
  transmit : L -> list Frame.t -> option (list Frame.t);
  transmit_frames : forall (l : L) (fs : list Frame.t),
    Forall (fun f => Frame.wf f = true) fs -> transmit l fs = Some (map Frame.normal fs)
}.

(** The encoder on one side, the incremental decoder on the other, and a
    network that cuts the bytes into chunks. *)
Record cutting : Type := Cutting {
  cut : bytes -> list bytes;
  cut_concat : forall bs, concat (cut bs) = bs
}.

Definition codec_transmit (l : cutting) (fs : list Frame.t) : option (list Frame.t) :=
  match FrameCodec.encode_all FrameCodec.new fs [] with
  | Ok (_, wire) =>
      match FrameCodec.run_chunks FrameCodec.new [] (cut l wire) with
      | Some (gs, _, _) => Some gs
      | None => None
      end
  | _ => None
  end.

#[export, program] Instance codec_link : FramedLink cutting := {|
  transmit := codec_transmit
|}.
Next Obligation.
  intros l fs Hfs. unfold codec_transmit. rewrite encode_all_bytes. simpl.
  by rewrite (run_chunks_frames fs _ Hfs (cut_concat l _)).
Qed.

(** ** Runs of a session *)

(** [n] turns of the actor that take the same branch. *)
Fixpoint turns (b : branch) (n : nat) (w : World.t) : option World.t :=
  match n with
  | O => Some w
  | S n' =>
      match turn b w with
      | Some w' => turns b n' w'
      | None => None
      end
  end.

(** The frames written after the first [n]. *)
Definition written_after (n : nat) (w : World.t) : list Frame.t :=
  drop n (FramedWriter.written (framed_writer w)).

Definition written_count (w : World.t) : nat := length (FramedWriter.written (framed_writer w)).

(** What [w] has written after its first [n] frames arrives at [v]. *)
Definition carry {L : Type} `{FramedLink L} (l : L) (n : nat) (w v : World.t) : option World.t :=
  match transmit l (written_after n w) with
  | Some fs => Some (set_incoming v (incoming v ++ map Ok fs))
  | None => None
  end.

(** The frames that go to the channel [c]. *)
Definition frames_for (w : World.t) (c : ChanId) (fs : list Frame.t) : list Frame.t :=
  filter (fun f => streams w !! frame_stream f = Some c) fs.

(** Every frame appended to the channel of its stream, in order. *)
Definition distribute (w : World.t) (fs : list Frame.t) : World.t :=
  set_chans w (map_imap (fun c ch => Some (push_all ch (frames_for w c fs))) (chans w)).

(** The opening of a stream by [w] towards [v], every task taking its turn. *)
Definition open_handshake {L : Type} `{FramedLink L} (l : L) (w v : World.t) :
    option (World.t * World.t * LogicalStream.t * LogicalStream.t) :=
  match Session.open_stream_request w with
  | (w1, Ready (Ok reply)) =>
      w2 ← turn NextCommand w1;
      v1 ← carry l (written_count w) w2 v;
      v2 ← turn NextFrame v1;
      w3 ← carry l (written_count v) v2 w2;
      w4 ← turn NextFrame w3;
      w5 ← run_task (length (tasks w)) w4;
      match Session.accept_stream v2, Session.open_stream_reply reply w5 with
      | (v3, Ready (Ok theirs)), (w6, Ready (Ok ours)) => Some (w6, v3, ours, theirs)
      | _, _ => None
      end
  | _ => None
  end.

(** ** Distribution of incoming frames *)

Lemma handle_known_stream (w : World.t) (f : Frame.t) (c : ChanId) (ch : Mpsc.t Frame.t) :
  streams w !! frame_stream f = Some c -> chans w !! c = Some ch -> 0 < room ch ->
  handle_incoming_frame f w =
  (set_chans w (<[c := push_all ch [f]]> (chans w)), Ready (Ok tt)).
Proof.
  intros Hid Hc Hr. unfold handle_incoming_frame. rewrite (abind_ok _ aget w w w) by done.
  change (FrameHeader.stream_id (Frame.header f)) with (frame_stream f). rewrite Hid.
  unfold abind, chan_send. rewrite Hc. simpl. rewrite try_send_room_case.
  by destruct (room ch); [lia|].
Qed.

(** A frame for a full channel has to wait. *)
Lemma handle_full_stream (w : World.t) (f : Frame.t) (c : ChanId) (ch : Mpsc.t Frame.t) :
  streams w !! frame_stream f = Some c -> chans w !! c = Some ch ->
  Mpsc.rx_alive ch = true -> Mpsc.capacity ch <= length (Mpsc.queue ch) ->
  handle_incoming_frame f w = (w, Pending).
Proof.
  intros Hid Hc Halive Hfull. unfold handle_incoming_frame.
  rewrite (abind_ok _ aget _ _ _ eq_refl).
  change (FrameHeader.stream_id (Frame.header f)) with (frame_stream f). rewrite Hid.
  unfold abind, chan_send. rewrite Hc.
  cbn [default from_option id]. rewrite try_send_room_case. unfold room. rewrite Halive.
  by replace (Mpsc.capacity ch - length (Mpsc.queue ch)) with 0 by lia.
Qed.

Lemma full_turn_waits (w : World.t) (f : Frame.t) rest (c : ChanId) (ch : Mpsc.t Frame.t) :
  incoming w = Ok f :: rest -> streams w !! frame_stream f = Some c -> chans w !! c = Some ch ->
  Mpsc.rx_alive ch = true -> Mpsc.capacity ch <= length (Mpsc.queue ch) ->
  turn NextFrame w = None.
Proof.
  intros Hin Hid Hc Halive Hfull. unfold turn. rewrite Hin.
  rewrite (handle_full_stream (set_incoming w rest) f c ch) by done. by destruct (running w).
Qed.

Lemma distribute_nil (w : World.t) : distribute w [] = w.
Proof.
  unfold distribute. replace (map_imap _ (chans w)) with (chans w); [by destruct w|].
  apply map_eq. intros c. rewrite map_lookup_imap. destruct (chans w !! c); [|done].
  unfold frames_for. rewrite filter_nil. simpl. by rewrite push_all_nil.
Qed.

Lemma distribute_cons (w : World.t) (f : Frame.t) (fs : list Frame.t) (c : ChanId)
    (ch : Mpsc.t Frame.t) :
  streams w !! frame_stream f = Some c -> chans w !! c = Some ch ->
  distribute (set_chans w (<[c := push_all ch [f]]> (chans w))) fs = distribute w (f :: fs).
Proof.
  intros Hid Hc. unfold distribute.
  match goal with |- set_chans _ ?y = _ => transitivity (set_chans w y); [done|] end.
  f_equal. apply map_eq. intros c'. rewrite !map_lookup_imap.
  unfold frames_for. rewrite filter_cons. world.
  destruct (decide (c = c')) as [<-|Hne].
  - rewrite lookup_insert_eq, Hc, Hid. simpl. rewrite decide_True by done.
    by rewrite push_all_app.
  - rewrite lookup_insert_ne by done. destruct (chans w !! c'); [|done]. simpl.
    rewrite decide_False; [done|]. congruence.
Qed.

(** Every frame has a registered stream, and every channel has room for its
    frames. *)
Definition deliverable (w : World.t) (fs : list Frame.t) : Prop :=
  Forall (fun f => exists c, streams w !! frame_stream f = Some c /\ is_Some (chans w !! c)) fs /\
  forall c ch, chans w !! c = Some ch -> length (frames_for w c fs) <= room ch.

Lemma deliverable_cons (w : World.t) (f : Frame.t) (fs : list Frame.t) (c : ChanId)
    (ch : Mpsc.t Frame.t) :
  streams w !! frame_stream f = Some c -> chans w !! c = Some ch ->
  deliverable w (f :: fs) ->
  0 < room ch /\ deliverable (set_chans w (<[c := push_all ch [f]]> (chans w))) fs.
Proof.
  intros Hid Hc [Hall Hroom].
  assert (Hcons : frames_for w c (f :: fs) = f :: frames_for w c fs).
  { unfold frames_for. by rewrite filter_cons, decide_True. }
  split; [pose proof (Hroom c ch Hc) as Hr; rewrite Hcons in Hr; simpl in Hr; lia|split].
  - apply Forall_cons in Hall as [_ Hall]. eapply Forall_impl; [exact Hall|].
    intros f' (c' & Hid' & Hc'). exists c'. split; [done|]. simpl. rewrite lookup_insert.
    by case_decide.
  - intros c' ch'. simpl. change (frames_for (set_chans w _) c' fs) with (frames_for w c' fs).
    intros [[<- <-]|[Hne Hc']]%lookup_insert_Some.
    + pose proof (Hroom c ch Hc) as Hr. rewrite Hcons in Hr. simpl in Hr.
      rewrite room_push_all. simpl. lia.
    + pose proof (Hroom c' ch' Hc') as Hr. unfold frames_for in Hr.
      rewrite filter_cons, decide_False in Hr by congruence. done.
Qed.

Lemma turns_deliver (fs : list Frame.t) (w : World.t) (rest : list (outcome error Frame.t)) :
  running w = true -> incoming w = map Ok fs ++ rest -> deliverable w fs ->
  turns NextFrame (length fs) w = Some (set_incoming (distribute w fs) rest).
Proof.
  revert w. induction fs as [|f fs IH]; intros w Hrun Hin Hd; simpl in *.
  - rewrite distribute_nil. f_equal. rewrite <- Hin. by destruct w.
  - unfold turn. rewrite Hrun, Hin. simpl.
    destruct Hd as [Hall Hroom]. pose proof Hall as Hall'.
    apply Forall_cons in Hall' as [(c & Hid & ch & Hc) _].
    destruct (deliverable_cons w f fs c ch Hid Hc (conj Hall Hroom)) as [Hr Hd].
    rewrite (handle_known_stream (set_incoming w _) f c ch Hid Hc Hr). simpl.
    etransitivity; [apply (IH (set_chans (set_incoming w (map Ok fs ++ rest)) _)); [done..|exact Hd]|].
    by rewrite <- (distribute_cons w f fs c ch Hid Hc).
Qed.

(** The events queued by streams reach the raw stream in order. *)
Lemma turns_flush (fs : list Frame.t) (w : World.t) (q : list StreamEvent.t) :
  running w = true -> FramedWriter.state (framed_writer w) = FramedWriter.Open ->
  Mpsc.queue (events w) = map StreamEvent.Frame fs ++ q ->
  exists w', turns NextEvent (length fs) w = Some w' /\
    w' = set_framed_writer (set_events w (Mpsc.mk q (Mpsc.capacity (events w))
           (Mpsc.tx_alive (events w)) (Mpsc.rx_alive (events w))))
         (FramedWriter.mk (FramedWriter.written (framed_writer w) ++ fs) FramedWriter.Open
           (FramedWriter.closed (framed_writer w))).
Proof.
  revert w. induction fs as [|f fs IH]; intros w Hrun Hopen Hq; simpl in *.
  - exists w. split; [done|]. rewrite app_nil_r, <- Hopen, <- Hq.
    destruct w as [? [] ? [] ? ? ? ? ? ? ? ? ? ?]. done.
  - unfold turn, Mpsc.try_recv. rewrite Hrun, Hq. simpl.
    unfold handle_stream_event, abind, writer_send, FramedWriter.send. simpl. rewrite Hopen. simpl.
    match goal with |- exists _, turns _ _ ?w1 = _ /\ _ =>
      destruct (IH w1) as (w' & Ht & ->); [done..|] end.
    eexists. split; [exact Ht|]. simpl. by rewrite <- app_assoc.
Qed.

(** ** Properties of a run *)

(** C10: Demultiplexing.  When every incoming frame belongs to a registered
    stream and the queues have room, the actor's turns hand each stream exactly
    its own frames, in the order of the wire, behind what was queued before;
    nothing else of the session changes. *)
Theorem demux_refines_filter (fs : list Frame.t) (w : World.t)
    (rest : list (outcome error Frame.t))
    (Hrun : running w = true) (Hin : incoming w = map Ok fs ++ rest)
    (Hd : deliverable w fs) :
  exists w', turns NextFrame (length fs) w = Some w' /\
    (forall c ch, chans w !! c = Some ch ->
       chans w' !! c = Some (push_all ch
         (filter (fun f => streams w !! frame_stream f = Some c) fs))) /\
    w' = set_incoming (set_chans w (chans w')) rest.
Proof.
  exists (set_incoming (distribute w fs) rest).
  split_and!; [by apply turns_deliver| |done].
  intros c ch Hc. simpl. by rewrite map_lookup_imap, Hc.
Qed.

(** ** Opening a stream *)

Lemma control_frame_wf (id : StreamId.t) (fl : FrameFlags.t) :
  StreamId.wf id = true -> FrameFlags.wf fl = true -> Frame.wf (control_frame id fl) = true.
Proof.
  intros Hid Hfl. unfold Frame.wf. rewrite header_wf_intro by done. done.
Qed.

Lemma handle_open_request (w : World.t) (f : Frame.t) :
  let id := frame_stream f in
  FrameFlags.is_open_request (FrameHeader.flags (Frame.header f)) = true ->
  streams w !! id = None -> 0 < room (accepts w) ->
  FramedWriter.state (framed_writer w) = FramedWriter.Open ->
  handle_incoming_frame f w =
  (set_framed_writer
     (set_accepts (register w id) (push_all (accepts w)
        [LogicalStream.new (SessionActor.session_id (actor w)) id Established (fresh w)]))
     (FramedWriter.mk (FramedWriter.written (framed_writer w) ++
        [control_frame id FrameFlags.open_response]) FramedWriter.Open
        (FramedWriter.closed (framed_writer w))), Ready (Ok tt)).
Proof.
  intros id Hfl Hid Hr Hopen. unfold handle_incoming_frame.
  rewrite (abind_ok _ aget w w w) by done.
  change (FrameHeader.stream_id (Frame.header f)) with (frame_stream f).
  fold id. rewrite Hid, Hfl.
  rewrite (abind_ok _ new_chan w (new_chan w).1 (fresh w)) by done.
  rewrite (abind_ok _ (amodify _) _ (register w id) tt) by done.
  assert (Ea : accepts (register w id) = accepts w /\ framed_writer (register w id) = framed_writer w).
  { unfold register, insert_stream, remove_stream. world. by rewrite Hid. }
  destruct Ea as [Ea Ew]. generalize dependent (register w id). intros w1 Ea Ew.
  unfold abind at 1, accept_send. rewrite Ea, try_send_room_case.
  destruct (room (accepts w)); [lia|].
  unfold abind, aret, writer_send, FramedWriter.send. simpl. rewrite Ew, Hopen. done.
Qed.

Lemma handle_open_response (w : World.t) (f : Frame.t) (o : OneshotId) :
  let id := frame_stream f in
  FrameFlags.is_open_response (FrameHeader.flags (Frame.header f)) = true ->
  streams w !! id = None -> pending w !! id = Some o ->
  handle_incoming_frame f w =
  (response_send (register (set_pending w (delete id (pending w))) id) o
     (Ok (LogicalStream.new (SessionActor.session_id (actor w)) id Established (fresh w))),
   Ready (Ok tt)).
Proof.
  intros id Hfl Hid Hp. unfold handle_incoming_frame.
  rewrite (abind_ok _ aget w w w) by done.
  change (FrameHeader.stream_id (Frame.header f)) with (frame_stream f).
  fold id. rewrite Hid, Hp.
  destruct (FrameFlags.is_open_request _) eqn:Hq.
  { exfalso. unfold FrameFlags.is_open_request, FrameFlags.is_open_response, FrameFlags.eqb in *.
    apply Z.eqb_eq in Hfl, Hq. rewrite Hfl in Hq. discriminate. }
  rewrite Hfl.
  set (w1 := set_pending w (delete id (pending w))).
  rewrite (abind_ok _ (amodify _) w w1 tt) by done.
  rewrite (abind_ok _ new_chan w1 (new_chan w1).1 (fresh w)) by done.
  rewrite (abind_ok _ (amodify _) _ (register w1 id) tt) by done.
  unfold amodify. do 3 f_equal. unfold register, insert_stream, remove_stream. world.
  by rewrite Hid.
Qed.

Lemma handle_open_stream (w : World.t) (reply : OneshotId) :
  let id := SessionActor.next_stream_id (actor w) in
  pending w !! id = None -> FramedWriter.state (framed_writer w) = FramedWriter.Open ->
  handle_control_command (OpenStream reply) w =
  (set_tasks
    (set_framed_writer
      (set_pending
        (set_fresh
          (set_responses
            (set_actor w (SessionActor.set_next_stream_id (actor w) (StreamId.fetch_add id 1).1))
            (<[fresh w := Oneshot.channel]> (responses w)))
          (S (fresh w)))
        (<[id := fresh w]> (pending w)))
      (FramedWriter.mk (FramedWriter.written (framed_writer w) ++
         [control_frame id FrameFlags.open_request]) FramedWriter.Open
         (FramedWriter.closed (framed_writer w))))
    (tasks w ++ [(fresh w, reply)]), Ready (Ok tt)).
Proof.
  intros id Hp Hopen. unfold handle_control_command.
  rewrite (abind_ok _ aget w w w) by done. fold id.
  pose proof (fetch_add_returns id 1) as Hold.
  destruct (StreamId.fetch_add id 1) as [next old]. simpl in Hold. subst old.
  unfold abind, amodify, new_response, insert_pending, writer_send, FramedWriter.send.
  world. rewrite Hp. world. rewrite Hopen. done.
Qed.

(** [w] is idle and waits for no answer under its next identifier. *)
Record can_ask (w : World.t) : Prop := {
  ca_running : running w = true;
  ca_incoming : incoming w = [];
  ca_control : Mpsc.queue (control w) = [];
  ca_control_room : 0 < room (control w);
  ca_writer : FramedWriter.state (framed_writer w) = FramedWriter.Open;
  ca_id : StreamId.wf (SessionActor.next_stream_id (actor w)) = true;
  ca_pending : pending w !! SessionActor.next_stream_id (actor w) = None
}.

(** The two sessions are idle, and the next identifier of [w] is unused on both
    sides. *)
Record can_open (w v : World.t) : Prop := {
  co_ask : can_ask w;
  co_mine : streams w !! SessionActor.next_stream_id (actor w) = None;
  co_running : running v = true;
  co_incoming : incoming v = [];
  co_accepts : Mpsc.queue (accepts v) = [];
  co_accepts_room : 0 < room (accepts v);
  co_writer : FramedWriter.state (framed_writer v) = FramedWriter.Open;
  co_streams : streams v !! SessionActor.next_stream_id (actor w) = None
}.

(** [w] after the open request has been written. *)
Definition requested (w : World.t) : World.t :=
  let id := SessionActor.next_stream_id (actor w) in
  let n := fresh w in
  set_tasks
    (set_framed_writer
      (set_pending
        (set_fresh
          (set_responses
            (set_replies
              (set_actor w
                (SessionActor.set_next_stream_id (actor w) (StreamId.fetch_add id 1).1))
              (<[n := Oneshot.channel]> (replies w)))
            (<[S n := Oneshot.channel]> (responses w)))
          (S (S n)))
        (<[id := S n]> (pending w)))
      (FramedWriter.mk (FramedWriter.written (framed_writer w) ++
         [control_frame id FrameFlags.open_request]) FramedWriter.Open
         (FramedWriter.closed (framed_writer w))))
    (tasks w ++ [(S n, n)]).

Lemma request_turn (w : World.t) :
  can_ask w ->
  exists w1, Session.open_stream_request w = (w1, Ready (Ok (fresh w))) /\
    turn NextCommand w1 = Some (requested w).
Proof.
  intros H. unfold Session.open_stream_request, abind, new_reply, Session.control_send. simpl.
  rewrite try_send_room_case. pose proof (ca_control_room _ H).
  destruct (room (control w)); [lia|]. eexists. split; [done|].
  unfold turn. simpl. rewrite (ca_running _ H). simpl. unfold Mpsc.try_recv. simpl.
  rewrite (ca_control _ H). simpl.
  rewrite handle_open_stream; [|exact (ca_pending _ H)|exact (ca_writer _ H)]. simpl.
  f_equal. unfold requested, set_pending. simpl. destruct w as [a fw i e c]. simpl in *.
  f_equal. destruct c. simpl. pose proof (ca_control _ H) as E. simpl in E. by rewrite E.
Qed.

(** A single control frame crosses the link unchanged. *)
Lemma carry_control {L : Type} `{FramedLink L} (l : L) (w v : World.t) (fs : list Frame.t)
    (id : StreamId.t) (fl : FrameFlags.t) :
  FramedWriter.written (framed_writer w) = fs ++ [control_frame id fl] ->
  StreamId.wf id = true -> FrameFlags.wf fl = true -> incoming v = [] ->
  carry l (length fs) w v = Some (set_incoming v [Ok (control_frame id fl)]).
Proof.
  intros Hw Hid Hfl Hin. unfold carry, written_after. rewrite Hw, drop_app_length.
  rewrite transmit_frames; [by rewrite Hin|].
  repeat constructor. by apply control_frame_wf.
Qed.

(** [v] after it has accepted the stream [id] and answered. *)
Definition accepted (v : World.t) (id : StreamId.t) : World.t :=
  set_framed_writer
    (set_accepts (register v id) (push_all (accepts v)
       [LogicalStream.new (SessionActor.session_id (actor v)) id Established (fresh v)]))
    (FramedWriter.mk (FramedWriter.written (framed_writer v) ++
       [control_frame id FrameFlags.open_response]) FramedWriter.Open
       (FramedWriter.closed (framed_writer v))).

Lemma accept_turn (w v : World.t) :
  can_open w v ->
  let id := SessionActor.next_stream_id (actor w) in
  turn NextFrame (set_incoming v [Ok (control_frame id FrameFlags.open_request)]) =
  Some (accepted v id).
Proof.
  intros H id. unfold turn. cbn [running set_incoming incoming].
  rewrite (co_running _ _ H). cbn [negb].
  rewrite handle_open_request; [|done|apply H|apply H|apply H]. cbn [conclude]. f_equal.
  pose proof (co_incoming _ _ H) as Hi. destruct v. simpl in Hi. by rewrite Hi.
Qed.

(** [w] after the answer has come, and after it has been forwarded. *)
Definition answered (w : World.t) : World.t :=
  let id := SessionActor.next_stream_id (actor w) in
  response_send
    (register (set_pending (requested w) (delete id (pending (requested w)))) id) (S (fresh w))
    (Ok (LogicalStream.new (SessionActor.session_id (actor w)) id Established (S (S (fresh w))))).

Lemma response_turn (w : World.t) :
  can_ask w -> streams w !! SessionActor.next_stream_id (actor w) = None ->
  let id := SessionActor.next_stream_id (actor w) in
  turn NextFrame (set_incoming (requested w) [Ok (control_frame id FrameFlags.open_response)]) =
  Some (answered w).
Proof.
  intros H Hs id. unfold turn. cbn [running set_incoming incoming].
  change (running (requested w)) with (running w).
  rewrite (ca_running _ H). cbn [negb].
  rewrite (handle_open_response _ _ (S (fresh w))); [|done|exact Hs|apply lookup_insert_eq].
  cbn [conclude]. f_equal. unfold answered. f_equal. f_equal.
  pose proof (ca_incoming _ H) as Hi. unfold requested. world.
  destruct w. simpl in Hi. by rewrite Hi.
Qed.

Lemma register_new (w : World.t) (id : StreamId.t) :
  streams w !! id = None ->
  register w id =
  set_streams (set_fresh (set_chans w (<[fresh w := Mpsc.channel 32]> (chans w))) (S (fresh w)))
    (<[id := fresh w]> (streams w)).
Proof.
  intros Hid. unfold register, insert_stream, remove_stream.
  change (streams (new_chan w).1) with (streams w). by rewrite Hid.
Qed.

Lemma response_send_waiting (w : World.t) (o : OneshotId) (r : outcome error LogicalStream.t) ch :
  responses w !! o = Some ch -> Oneshot.rx_alive ch = true ->
  response_send w o r =
  set_responses w (<[o := Oneshot.mk (Some r) false true]> (responses w)).
Proof.
  intros Ho Hrx. unfold response_send, answer, Oneshot.send. by rewrite Ho, Hrx.
Qed.

Lemma answered_fields (w : World.t) :
  can_ask w -> streams w !! SessionActor.next_stream_id (actor w) = None ->
  let id := SessionActor.next_stream_id (actor w) in
  let n := fresh w in
  tasks (answered w) = tasks w ++ [(S n, n)] /\
  responses (answered w) !! S n =
    Some (Oneshot.mk (Some (Ok (LogicalStream.new (SessionActor.session_id (actor w)) id
      Established (S (S n))))) false true) /\
  replies (answered w) = <[n := Oneshot.channel]> (replies w) /\
  streams (answered w) = <[id := S (S n)]> (streams w) /\
  chans (answered w) !! S (S n) = Some (Mpsc.channel 32) /\
  pending (answered w) = pending w /\
  SessionActor.next_stream_id (actor (answered w)) = (StreamId.fetch_add id 1).1.
Proof.
  intros H Hs id n. pose proof (ca_pending _ H) as Hp.
  unfold answered. rewrite register_new by exact Hs.
  rewrite (response_send_waiting _ _ _ Oneshot.channel) by (done || apply lookup_insert_eq).
  split_and!; [reflexivity|apply lookup_insert_eq|reflexivity|reflexivity|apply lookup_insert_eq| |
    reflexivity].
  exact (delete_insert_id _ _ _ Hp).
Qed.

(** The forwarding task and the caller that waits for it. *)
Lemma forwarded (w : World.t) (k : nat) (resp reply : OneshotId) (ls : LogicalStream.t) m :
  tasks w !! k = Some (resp, reply) ->
  responses w !! resp = Some (Oneshot.mk (Some (Ok ls)) false true) ->
  replies w = <[reply := Oneshot.channel]> m ->
  exists w1 w2, run_task k w = Some w1 /\
    Session.open_stream_reply reply w1 = (w2, Ready (Ok ls)) /\
    actor w2 = actor w /\ chans w2 = chans w.
Proof.
  intros Hk Hr Hm. unfold run_task, forward. rewrite Hk, Hr. simpl.
  unfold reply_send, answer. simpl. rewrite Hm, lookup_insert_eq. simpl.
  do 2 eexists. split; [done|].
  unfold Session.open_stream_reply, abind, Session.await_reply. simpl.
  rewrite lookup_insert_eq. done.
Qed.

Lemma accept_accepted (w v : World.t) (id : StreamId.t) :
  can_open w v -> streams v !! id = None ->
  exists v', Session.accept_stream (accepted v id) =
      (v', Ready (Ok (LogicalStream.new (SessionActor.session_id (actor v)) id Established
         (fresh v)))) /\
    streams v' = <[id := fresh v]> (streams v) /\
    chans v' !! fresh v = Some (Mpsc.channel 32).
Proof.
  intros H Hs. unfold Session.accept_stream, accepted, Mpsc.try_recv. simpl.
  rewrite (co_accepts _ _ H). simpl. eexists. split; [done|].
  unfold register, insert_stream, remove_stream. world. rewrite Hs. world.
  by rewrite lookup_insert_eq.
Qed.

(** The open request and its answer cross the link. *)
Lemma request_carried {L : Type} `{FramedLink L} (l : L) (w v : World.t) :
  can_ask w -> incoming v = [] ->
  carry l (written_count w) (requested w) v =
  Some (set_incoming v
    [Ok (control_frame (SessionActor.next_stream_id (actor w)) FrameFlags.open_request)]).
Proof. intros Hc Hv. apply carry_control; [reflexivity|apply Hc|reflexivity|done]. Qed.

Lemma response_carried {L : Type} `{FramedLink L} (l : L) (w v : World.t) (id : StreamId.t) :
  can_ask w -> StreamId.wf id = true ->
  carry l (written_count v) (accepted v id) (requested w) =
  Some (set_incoming (requested w) [Ok (control_frame id FrameFlags.open_response)]).
Proof.
  intros Hc Hid. apply carry_control; [reflexivity|done|reflexivity|].
  exact (ca_incoming _ Hc).
Qed.

(** C8: The opening handshake.  Over any link that carries frames faithfully,
    when both sessions are idle and the opener's next identifier is free on both
    sides, opening a stream succeeds: both applications get an established
    stream with that identifier, both actors have it registered with a fresh,
    empty frame channel of 32 frames, nothing stays pending, and the opener's
    identifier counter has moved on. *)
Theorem open_handshake_establishes {L : Type} `{FramedLink L} (l : L) (w v : World.t)
    (Hcan : can_open w v) :
  let id := SessionActor.next_stream_id (actor w) in
  exists w' v' c c',
    open_handshake l w v =
      Some (w', v', LogicalStream.new (SessionActor.session_id (actor w)) id Established c,
            LogicalStream.new (SessionActor.session_id (actor v)) id Established c') /\
    streams w' = <[id := c]> (streams w) /\ streams v' = <[id := c']> (streams v) /\
    chans w' !! c = Some (Mpsc.channel 32) /\ chans v' !! c' = Some (Mpsc.channel 32) /\
    pending w' = pending w /\
    SessionActor.next_stream_id (actor w') = (StreamId.fetch_add id 1).1.
Proof.
  cbv zeta. pose proof (co_ask _ _ Hcan) as Hask. destruct (request_turn w Hask) as (w1 & E1 & E2).
  destruct (answered_fields w Hask (co_mine _ _ Hcan)) as (Et & Er & Ep & Es & Ec & Epd & En).
  destruct (accept_accepted w v _ Hcan (co_streams _ _ Hcan)) as (v3 & Hv & Hsv & Hcv).
  destruct (forwarded (answered w) (length (tasks w)) (S (fresh w)) (fresh w) _ _
    ltac:(rewrite Et; by apply list_lookup_middle) Er Ep) as (w5 & w6 & H5 & H6 & Ha & Hc).
  exists w6, v3, (S (S (fresh w))), (fresh v). split.
  - unfold open_handshake. rewrite E1, E2, bind_Some_l.
    rewrite (request_carried l w v Hask (co_incoming _ _ Hcan)), bind_Some_l.
    rewrite (accept_turn w v Hcan), bind_Some_l.
    rewrite (response_carried l w v _ Hask (ca_id _ Hask)), bind_Some_l.
    rewrite (response_turn w Hask (co_mine _ _ Hcan)), bind_Some_l, H5, bind_Some_l, Hv, H6. reflexivity.
  - assert (Hst : streams w6 = streams (answered w)) by (unfold streams; rewrite Ha; reflexivity).
    assert (Hpd : pending w6 = pending (answered w)) by (unfold pending; rewrite Ha; reflexivity).
    split; [rewrite Hst; exact Es|]. split; [exact Hsv|].
    split; [rewrite Hc; exact Ec|]. split; [exact Hcv|].
    split; [rewrite Hpd; exact Epd|rewrite Ha; exact En].
Qed.

(** ** Bytes from a writer to the reader on the other side *)

(** The writes of one side, the turns of both actors, and the reads of the
    other side: the buffer after the last read, if everything completes. *)
Definition pipe {L : Type} `{FramedLink L} (l : L) (bufs : list bytes)
    (writer : Halves.t) (w : World.t) (reader : Halves.t) (v : World.t) (buf : ReadBuf.t) :
    option ReadBuf.t :=
  let n := length bufs in
  let '((_, w1), _) := write_all bufs (writer, w) in
  w2 ← turns NextEvent n w1;
  v1 ← carry l (written_count w) w2 v;
  v2 ← turns NextFrame n v1;
  match read_all n (reader, v2, buf) with
  | ((_, _, buf'), Ready (Ok _)) => Some buf'
  | _ => None
  end.

(** The two ends of an open stream [id], with room for [n] more frames. *)
Record joined (id : StreamId.t) (n : nat) (writer : Halves.t) (w : World.t)
    (reader : Halves.t) (v : World.t) : Prop := {
  jo_running_w : running w = true;
  jo_running_v : running v = true;
  jo_writer : FramedWriter.state (framed_writer w) = FramedWriter.Open;
  jo_id : StreamId.wf id = true;
  jo_writer_id : Writer.stream_id writer = id;
  jo_events : Mpsc.queue (events w) = [];
  jo_events_room : n <= room (events w);
  jo_incoming : incoming v = [];
  jo_stream : streams v !! id = Some (Reader.receiver reader);
  jo_chan : exists ch, chans v !! Reader.receiver reader = Some ch /\
    Mpsc.queue ch = [] /\ n <= room ch
}.

Lemma data_frame_wf (id : StreamId.t) (buf : bytes) :
  StreamId.wf id = true -> is_u32 (len buf) = true -> Frame.wf (data_frame id buf) = true.
Proof. intros Hid Hb. unfold Frame.wf. by rewrite header_wf_intro. Qed.

(** The frames a reader gets for the buffers written. *)
Definition data_frames (id : StreamId.t) (bufs : list bytes) : list Frame.t :=
  map Frame.normal (map (data_frame id) bufs).

Lemma payloads_data_frames (id : StreamId.t) (bufs : list bytes) :
  payloads (data_frames id bufs) = concat bufs.
Proof.
  unfold payloads, data_frames. rewrite !map_map. simpl. f_equal. apply map_id.
Qed.

(** The frames of one stream all go to its channel. *)
Lemma frames_for_stream (v : World.t) (id : StreamId.t) (bufs : list bytes) (c c' : ChanId) :
  streams v !! id = Some c ->
  frames_for v c' (data_frames id bufs) = if decide (c = c') then data_frames id bufs else [].
Proof.
  intros Hid. induction bufs as [|b bufs IH]; [by case_decide|].
  unfold data_frames, frames_for in *. simpl. rewrite filter_cons, IH.
  change (frame_stream (Frame.normal (data_frame id b))) with id. rewrite Hid.
  by destruct (decide (c = c')) as [->|]; [rewrite decide_True|rewrite decide_False by congruence].
Qed.

Section joined_lemmas.

Context {L : Type} `{FramedLink L} (l : L).
Context (id : StreamId.t) (bufs : list bytes) (writer reader : Halves.t) (w v : World.t).
Context (Hj : joined id (length bufs) writer w reader v).
Context (Hbufs : Forall (fun b => is_u32 (len b) = true) bufs).

Lemma joined_write :
  exists w1, write_all bufs (writer, w) = ((writer, w1), map (fun b => Ready (Ok (len b))) bufs) /\
    exists w2, turns NextEvent (length bufs) w1 = Some w2 /\
    written_after (written_count w) w2 = map (data_frame id) bufs.
Proof using Hj.
  destruct Hj as [Hrw Hrv Hop Hid Hwid Hev Hroom Hin Hst Hch].
  rewrite write_all_burst. rewrite take_ge by exact Hroom.
  rewrite Nat.sub_diag, app_nil_r. eexists. split; [done|].
  match goal with |- exists w2, turns _ _ ?w1 = _ /\ _ =>
    destruct (turns_flush (map (data_frame id) bufs) w1 []) as (w2 & Ht & ->) end;
    [done..| |].
  - simpl. rewrite Hev, Hwid, app_nil_r. simpl. by rewrite map_map.
  - rewrite length_map in Ht. eexists. split; [exact Ht|].
    unfold written_after, written_count. simpl. by rewrite drop_app_length.
Qed.

Lemma joined_deliver (w2 : World.t) :
  written_after (written_count w) w2 = map (data_frame id) bufs ->
  exists v1 v2, carry l (written_count w) w2 v = Some v1 /\
    turns NextFrame (length bufs) v1 = Some v2 /\
    Mpsc.queue (frames v2 (Reader.receiver reader)) = data_frames id bufs.
Proof using Hj Hbufs.
  destruct Hj as [Hrw Hrv Hop Hid Hwid Hev Hroom Hin Hst (ch & Hc & Hq & Hr)].
  intros Hw. unfold carry. rewrite Hw, transmit_frames.
  2:{ apply Forall_map. eapply Forall_impl; [exact Hbufs|]. intros b Hb. by apply data_frame_wf. }
  rewrite Hin. simpl. fold (data_frames id bufs).
  assert (Hlen : length (data_frames id bufs) = length bufs).
  { unfold data_frames. by rewrite !length_map. }
  eexists. eexists. split; [done|].
  rewrite <- Hlen. rewrite (turns_deliver _ _ []); [split; [done|]|done|by rewrite app_nil_r|].
  - simpl. rewrite map_lookup_imap, Hc. simpl. rewrite Hq. simpl.
    rewrite (frames_for_stream _ id bufs (Reader.receiver reader)) by done.
    by rewrite decide_True.
  - split.
    + unfold data_frames at 1. apply Forall_map, Forall_map, Forall_forall. intros b _.
      exists (Reader.receiver reader). split; [exact Hst|]. by exists ch.
    + intros c' ch' Hc'. rewrite (frames_for_stream _ id bufs (Reader.receiver reader)) by done.
      case_decide as E; [|simpl; lia]. subst c'. simpl in Hc'. rewrite Hlen. congruence.
Qed.

End joined_lemmas.

(** C2: End to end.  The bytes written to one end of an open stream are exactly
    the bytes read at the other end, in order and without loss, however the
    network cuts them: the writes, the turns of both session actors, the codec
    on both sides and the reads compose to the identity, as long as the queues
    have room for the frames and the reader's buffer for the bytes. *)
Theorem bytes_end_to_end {L : Type} `{FramedLink L} (l : L) (id : StreamId.t)
    (bufs : list bytes) (writer reader : Halves.t) (w v : World.t) (buf : ReadBuf.t)
    (Hj : joined id (length bufs) writer w reader v)
    (Hbufs : Forall (fun b => is_u32 (len b) = true) bufs)
    (Hfit : (len (concat bufs) <= ReadBuf.remaining buf)%Z) :
  pipe l bufs writer w reader v buf =
  Some (ReadBuf.mk (ReadBuf.filled buf ++ concat bufs) (ReadBuf.size buf)).
Proof.
  destruct (joined_write id bufs writer reader w v Hj) as (w1 & Hwr & w2 & Ht & Hw).
  destruct (joined_deliver l id bufs writer reader w v Hj Hbufs w2 Hw)
    as (v1 & v2 & Hc & Hd & Hq).
  unfold pipe. rewrite Hwr, Ht, bind_Some_l, Hc, bind_Some_l, Hd, bind_Some_l.
  assert (Hlen : length (data_frames id bufs) = length bufs).
  { unfold data_frames. by rewrite !length_map. }
  destruct (read_all_queue (length bufs) reader v2 buf) as (h' & v3 & Hr & _ & _).
  - rewrite Hq. lia.
  - rewrite Hq, <- Hlen, take_ge, payloads_data_frames by lia. done.
  - rewrite Hr, Hq, <- Hlen, take_ge, payloads_data_frames by lia. done.
Qed.

(** ** Both sides use the same identifiers *)

(** The opener asks for a stream whose identifier the other side already uses:
    the exchange up to the other actor's turn. *)
Definition ask_used {L : Type} `{FramedLink L} (l : L) (w v : World.t) :
    option (World.t * World.t * OneshotId) :=
  match Session.open_stream_request w with
  | (w1, Ready (Ok reply)) =>
      w2 ← turn NextCommand w1;
      v1 ← carry l (written_count w) w2 v;
      v2 ← turn NextFrame v1;
      Some (w2, v2, reply)
  | _ => None
  end.

Lemma set_incoming_id (w : World.t) l : incoming w = l -> set_incoming w l = w.
Proof. destruct w. by intros <-. Qed.

Lemma known_turn (v : World.t) (f : Frame.t) rest (c : ChanId) (ch : Mpsc.t Frame.t) :
  running v = true -> incoming v = Ok f :: rest ->
  streams v !! frame_stream f = Some c -> chans v !! c = Some ch -> 0 < room ch ->
  turn NextFrame v =
  Some (set_chans (set_incoming v rest) (<[c := push_all ch [f]]> (chans v))).
Proof.
  intros Hrun Hin Hid Hc Hr. unfold turn. rewrite Hrun, Hin. cbn [negb].
  by rewrite (handle_known_stream (set_incoming v rest) f c ch Hid Hc Hr).
Qed.

(** C27: An open request for an identifier that the receiving session already
    has registered is not answered: it is queued as data for the existing
    stream, the session writes nothing, and the opener's call keeps waiting
    although both sessions are idle again. *)
Theorem open_request_collision {L : Type} `{FramedLink L} (l : L) (w v : World.t)
    (c : ChanId) (ch : Mpsc.t Frame.t)
    (Hask : can_ask w) (Hrun : running v = true) (Hin : incoming v = [])
    (Hused : streams v !! SessionActor.next_stream_id (actor w) = Some c)
    (Hch : chans v !! c = Some ch) (Hroom : 0 < room ch) :
  let id := SessionActor.next_stream_id (actor w) in
  exists w' v' reply,
    ask_used l w v = Some (w', v', reply) /\
    v' = set_chans v (<[c := push_all ch [control_frame id FrameFlags.open_request]]> (chans v)) /\
    incoming w' = [] /\ is_Some (pending w' !! id) /\
    Session.open_stream_reply reply w' = (w', Pending).
Proof.
  cbv zeta. destruct (request_turn w Hask) as (w1 & E1 & E2).
  set (f := control_frame (SessionActor.next_stream_id (actor w)) FrameFlags.open_request).
  exists (requested w). eexists. exists (fresh w).
  split; [|split; [reflexivity|]].
  - unfold ask_used. rewrite E1, E2, bind_Some_l.
    rewrite (request_carried l w v Hask Hin), bind_Some_l. fold f.
    assert (Ht : turn NextFrame (set_incoming v [Ok f]) =
      Some (set_chans v (<[c := push_all ch [f]]> (chans v)))).
    { rewrite (known_turn (set_incoming v [Ok f]) f [] c ch Hrun eq_refl Hused Hch Hroom).
      change (set_incoming (set_incoming v [Ok f]) []) with (set_incoming v []).
      rewrite (set_incoming_id v [] Hin). reflexivity. }
    rewrite Ht, bind_Some_l. reflexivity.
  - split; [exact (ca_incoming _ Hask)|]. split.
    + assert (Hp : pending (requested w) =
        <[SessionActor.next_stream_id (actor w) := S (fresh w)]> (pending w)) by reflexivity.
      rewrite Hp, lookup_insert_eq. by eexists.
    + unfold Session.open_stream_reply, abind, Session.await_reply.
      assert (Hr : replies (requested w) = <[fresh w := Oneshot.channel]> (replies w))
        by reflexivity.
      rewrite Hr, lookup_insert_eq. reflexivity.
Qed.

(** The identifiers of the two sides are not kept apart: the [k]-th
    identifier a server allocates is the one its client allocates next after
    its own [k]-th. *)
Theorem side_ids_overlap (sid sid' : SessionId.t) (k : nat)
    (Hk : (Z.of_nat k < 2 ^ 32 - 3)%Z) :
  allocated (SessionActor.next_stream_id (actor (Session.new_server tt sid).2)) k =
  allocated (SessionActor.next_stream_id (actor (Session.new_client tt sid').2)) (S k).
Proof.
  apply stream_id_inj.
  rewrite !allocated_val; [|done|simpl; unfold u32_max; lia|done|simpl; unfold u32_max; lia].
  cbn [Session.new_server Session.new_client Session.spawn snd actor SessionActor.next_stream_id
    StreamId.val]. lia.
Qed.

(** The reader of a channel is there, and the channel is full. *)
Definition lagging (c : ChanId) (w : World.t) : Prop :=
  exists ch, chans w !! c = Some ch /\ Mpsc.rx_alive ch = true /\
    Mpsc.capacity ch <= length (Mpsc.queue ch).

(** Runs of a session in which a property of the world holds all the time. *)
Inductive steps_while (P : World.t -> Prop) : place * World.t -> place * World.t -> Prop :=
| while_refl (s : place * World.t) : P s.2 -> steps_while P s s
| while_step (s1 s2 s3 : place * World.t) :
    steps_while P s1 s2 -> step s2 s3 -> P s3.2 -> steps_while P s1 s3.

(** The task where it waits for room in the channel of a stream. *)
Definition delivering (f : Frame.t) (c : ChanId) : future World.t unit :=
  (let* sent := call (chan_send c f) in
   if sent : bool then fret tt
   else call (amodify (fun w => remove_stream w (frame_stream f))))%future.

Lemma delivering_poll (f : Frame.t) (c : ChanId) (b : branch) (w : World.t) :
  lagging c w -> poll_actor b (Handling (delivering f c), w) = None.
Proof.
  intros (ch & Hc & Halive & Hfull). cbn. unfold chan_send. rewrite Hc. cbn [default from_option id].
  rewrite try_send_room_case. unfold room. rewrite Halive.
  by replace (Mpsc.capacity ch - length (Mpsc.queue ch)) with 0 by lia.
Qed.

(** C36: Head-of-line blocking.  Once the session's task has taken a frame for a stream
    whose reader lags, with a full queue, the whole session stands still: in every run of
    the peer, the network, the application and the spawned tasks that leaves the queue full,
    cancellation and other streams included, the task does not move on any branch, writes
    nothing, takes no frame, command or event, and registers and removes no stream.  Only
    that reader ends it, by taking a frame or by going: then the frame is delivered, or
    dropped with the stream, and the task is back at its [select!].  (Dropping the session,
    which aborts the task, is not a step here.) *)
Theorem full_stream_blocks (w : World.t) (f : Frame.t) (rest : list (outcome error Frame.t))
    (c : ChanId) (Hin : incoming w = Ok f :: rest)
    (Hid : streams w !! frame_stream f = Some c) (Hlag : lagging c w) :
  exists p, poll_actor NextFrame (Selecting, w) = Some (Handling p, set_incoming w rest) /\
    (forall pl v, steps_while (lagging c) (Handling p, set_incoming w rest) (pl, v) ->
       pl = Handling p /\ (forall b, poll_actor b (pl, v) = None) /\
       untouched (set_incoming w rest) v) /\
    (forall s v ch, step (Handling p, v) s -> lagging c v -> ~ lagging c s.2 ->
       chans v !! c = Some ch ->
       exists ch', chans s.2 !! c = Some ch' /\ rtc reads ch ch' /\ ch' <> ch) /\
    (forall v ch, chans v !! c = Some ch -> Mpsc.rx_alive ch = true ->
       length (Mpsc.queue ch) < Mpsc.capacity ch ->
       settle 2 (Handling p, v) =
         Some (Selecting, set_chans v (<[c := Mpsc.push ch f]> (chans v)))) /\
    (forall v ch, chans v !! c = Some ch -> Mpsc.rx_alive ch = false ->
       settle 3 (Handling p, v) = Some (Selecting, remove_stream v (frame_stream f))).
Proof.
  exists (delivering f c). split_and!.
  - cbn [poll_actor select]. rewrite Hin. unfold start, frame_task. cbn.
    change (FrameHeader.stream_id (Frame.header f)) with (frame_stream f).
    by replace (streams (set_incoming w rest) !! frame_stream f) with (Some c).
  - intros pl v Hrun. remember (Handling (delivering f c), set_incoming w rest) as s0 eqn:E0.
    remember (pl, v) as s eqn:Es. revert pl v Es.
    induction Hrun as [s HP|s1 s2 s3 Hrun IH Hstep HP]; intros pl v ->; subst.
    + injection E0 as -> ->. split_and!; [done| |apply untouched_refl].
      intros b. by apply delivering_poll.
    + destruct s2 as [pl2 v2]. destruct (IH eq_refl pl2 v2 eq_refl) as (-> & Hno & Hun).
      inversion Hstep as [b s s' E|pl' v1 v1' Ho]; subst; [by rewrite Hno in E|].
      split_and!; [done| |by eapply untouched_trans; [exact Hun|apply outside_untouched]].
      intros b. by apply delivering_poll.
  - intros s v ch Hstep Hl Hnl Hc. inversion Hstep as [b s1 s1' E|pl' v1 v1' Ho]; subst.
    { by rewrite delivering_poll in E. }
    destruct (un_chans _ _ (outside_untouched _ _ Ho) c ch Hc) as (ch' & Hc' & Hr).
    exists ch'. split_and!; try done. intros ->. apply Hnl. destruct Hl as (ch2 & Hc2 & Hl).
    exists ch. split; [done|]. by simplify_eq.
  - intros v ch Hc Halive Hroom. unfold delivering. cbn. unfold chan_send. rewrite Hc. cbn.
    by rewrite try_send_room.
  - intros v ch Hc Hdead. unfold delivering. cbn. unfold chan_send. rewrite Hc. cbn.
    by rewrite (proj2 (try_send_Closed ch f) Hdead).
Qed.

(** ** Witnesses: a client and a server over a network that delivers single
    bytes. *)

Lemma concat_singletons (bs : bytes) : concat (map (fun b => [b]) bs) = bs.
Proof. induction bs as [|b bs IH]; [done|]. simpl. by rewrite IH. Qed.

Definition bytewise : cutting := Cutting (map (fun b => [b])) concat_singletons.

Definition client0 : World.t := (Session.new_client tt (SessionId.mk 1)).2.

Definition server0 : World.t := (Session.new_server tt (SessionId.mk 2)).2.

(** The worlds and streams after the first has opened a stream to the second. *)
Definition opened (w v : World.t) : World.t * World.t * LogicalStream.t * LogicalStream.t :=
  default (w, v, LogicalStream.new (SessionId.mk 0) (StreamId.mk 0) Init 0,
           LogicalStream.new (SessionId.mk 0) (StreamId.mk 0) Init 0)
    (open_handshake bytewise w v).

Definition client1 : World.t := let '(w, _, _, _) := opened client0 server0 in w.

Definition server1 : World.t := let '(_, v, _, _) := opened client0 server0 in v.

Definition ours1 : LogicalStream.t := let '(_, _, ls, _) := opened client0 server0 in ls.

Definition theirs1 : LogicalStream.t := let '(_, _, _, ls) := opened client0 server0 in ls.

(** The server opens a stream of its own, which takes the identifier 2. *)
Definition server2 : World.t := let '(w, _, _, _) := opened server1 client1 in w.

Definition client2 : World.t := let '(_, v, _, _) := opened server1 client1 in v.

Lemma can_ask_client0 : can_ask client0.
Proof. split; vm_compute; first [reflexivity | lia]. Qed.

Lemma open_handshake_establishes_witness :
  exists w' v' c c',
    open_handshake bytewise client0 server0 =
      Some (w', v', LogicalStream.new (SessionId.mk 1) (StreamId.mk 1) Established c,
            LogicalStream.new (SessionId.mk 2) (StreamId.mk 1) Established c') /\
    streams w' !! StreamId.mk 1 = Some c /\ streams v' !! StreamId.mk 1 = Some c'.
Proof.
  destruct (open_handshake_establishes bytewise client0 server0)
    as (w' & v' & c & c' & H & Hw & Hv & _).
  { split; [apply can_ask_client0|..]; vm_compute; first [reflexivity | lia]. }
  exists w', v', c, c'. split; [exact H|]. rewrite Hw, Hv. split; apply lookup_insert_eq.
Defined.

Lemma demux_refines_filter_witness :
  exists w',
    turns NextFrame 2 (set_incoming server1
      [Ok (data_frame (StreamId.mk 1) [byte_of 5]); Ok (data_frame (StreamId.mk 1) [])]) = Some w' /\
    chans w' !! 0 = Some (Mpsc.mk
      [data_frame (StreamId.mk 1) [byte_of 5]; data_frame (StreamId.mk 1) []] 32 true true).
Proof.
  destruct (demux_refines_filter
    [data_frame (StreamId.mk 1) [byte_of 5]; data_frame (StreamId.mk 1) []]
    (set_incoming server1
      [Ok (data_frame (StreamId.mk 1) [byte_of 5]); Ok (data_frame (StreamId.mk 1) [])]) [])
    as (w' & Ht & Hc & _).
  - vm_compute. reflexivity.
  - reflexivity.
  - split.
    + repeat constructor; exists 0; vm_compute; eauto.
    + intros c ch Hc. transitivity 2; [apply length_filter|].
      assert (E : chans server1 = {[ 0 := Mpsc.channel 32 ]}) by (vm_compute; reflexivity).
      cbn [chans set_incoming] in Hc. rewrite E in Hc.
      apply lookup_singleton_Some in Hc as [_ <-]. vm_compute. lia.
  - exists w'. split; [exact Ht|].
    refine (eq_trans (Hc 0 (Mpsc.channel 32) _) _); vm_compute; reflexivity.
Defined.

Lemma bytes_end_to_end_witness :
  pipe bytewise [[byte_of 1; byte_of 2]; []; [byte_of 3]] (split ours1) client1 (split theirs1)
    server1 (ReadBuf.mk [] 8) =
  Some (ReadBuf.mk [byte_of 1; byte_of 2; byte_of 3] 8).
Proof.
  apply (bytes_end_to_end bytewise (StreamId.mk 1)).
  - split; try (vm_compute; first [reflexivity | lia]).
    exists (Mpsc.channel 32). vm_compute. split_and!; first [reflexivity | lia].
  - repeat constructor.
  - vm_compute. discriminate.
Defined.

Lemma open_request_collision_witness :
  exists w' v' reply,
    ask_used bytewise client2 server2 = Some (w', v', reply) /\
    FramedWriter.written (framed_writer v') = FramedWriter.written (framed_writer server2) /\
    Session.open_stream_reply reply w' = (w', Pending).
Proof.
  destruct (open_request_collision bytewise client2 server2 3 (Mpsc.channel 32))
    as (w' & v' & reply & H & Hv & _ & _ & Hp);
    [split; vm_compute; first [reflexivity | lia]|vm_compute; first [reflexivity | lia]..|].
  exists w', v', reply. split; [exact H|]. split; [|exact Hp].
  rewrite Hv. cbv [set_chans framed_writer]. reflexivity.
Defined.

Lemma side_ids_overlap_witness :
  allocated (StreamId.mk 2) 4 = allocated (StreamId.mk 1) 5.
Proof. apply (side_ids_overlap (SessionId.mk 1) (SessionId.mk 2) 4). lia. Defined.

(** The server's stream has 32 frames queued and one more comes. *)
Definition lagging1 : World.t :=
  set_incoming (set_chans server1
    {[ 0 := Mpsc.mk (replicate 32 (data_frame (StreamId.mk 1) [])) 32 true true ]})
    [Ok (data_frame (StreamId.mk 1) [])].

Lemma full_stream_blocks_witness :
  lagging 0 lagging1 /\
  exists p, forall v, steps_while (lagging 0) (Handling p, set_incoming lagging1 []) (Handling p, v) ->
    poll_actor NextEvent (Handling p, v) = None.
Proof.
  assert (Hl : lagging 0 lagging1).
  { eexists. split; [vm_compute; reflexivity|]. split; [reflexivity|]. vm_compute. lia. }
  destruct (full_stream_blocks lagging1 (data_frame (StreamId.mk 1) []) [] 0 eq_refl
    ltac:(vm_compute; reflexivity) Hl) as (p & _ & Hrun & _).
  split; [exact Hl|]. exists p. intros v Hv. exact (proj1 (proj2 (Hrun _ v Hv)) NextEvent).
Defined.
