(* ===== verification/TcpStream.v ===== *)
(** * Streams over TCP

    foctet-net/src/transport/tcp/stream.rs: a stream over a TLS connection is a
    logical stream of the multiplexing session with a stream identifier and
    buffer sizes.  [LogicalTcpStream] is the whole stream;
    [LogicalTcpSendStream] and [LogicalTcpRecvStream] are what [split] makes of
    it.  They own the halves of the logical stream, whose shared state is in
    [Halves]. *)

From S2P Require Import Prelude Ids Frame Tokio Files MuxStream.

Local Open Scope Z_scope.
Local Open Scope async_scope.

(** The iterations of the file loops, which [LogicalTcpSendStream],
    [LogicalTcpRecvStream] and [LogicalTcpStream] have in common. *)
Section file_loops.

Context {W : Type} `{StreamHost W} `{FileRead}.

(** foctet-net/src/transport/tcp/stream.rs:278-291, [LogicalTcpStream::send_file]:
    one iteration, from what is left of the file. *)
Definition send_file_turn (stream_id : StreamId.t) (write_buffer_size : Z) (file : bytes) :
    async (Halves.t * W) (control bytes unit) :=
  let '(chunk, file') := file_read write_buffer_size file in
  let n := len chunk in
  if n =? 0 then aret (Break tt)
  else
    let frame :=
      FrameBuilder.build (FrameBuilder.with_payload (FrameBuilder.with_frame_type
        (FrameBuilder.with_fin (FrameBuilder.with_stream_id builder stream_id) false)
        FrameType.Data) chunk) in
    Writer.send_frame frame;;;
    aret (Continue file').

(** foctet-net/src/transport/tcp/stream.rs:300-307, [LogicalTcpStream::receive_file]:
    one iteration, from the number of bytes received. *)
Definition receive_file_turn (file_path : string) (len : Z) (total_bytes : Z) :
    async (Halves.t * W * Fs) (control Z Z) :=
  await frame := on_first Reader.recv_frame in
  write_all_file file_path (Frame.payload frame);;;
  let total_bytes := total_bytes + Prelude.len (Frame.payload frame) in
  if total_bytes =? len then aret (Break total_bytes) else aret (Continue total_bytes).

End file_loops.

Module LogicalTcpSendStream.

(** foctet-net/src/transport/tcp/stream.rs:13-18, [LogicalTcpSendStream]. *)
Record t : Type := mk {
  stream_id : StreamId.t;
  write_buffer_size : Z
}.

(** foctet-net/src/transport/tcp/stream.rs:21-31, [LogicalTcpSendStream::new]. *)
Definition new (stream_id : StreamId.t) (write_buffer_size : Z) : t :=
  mk stream_id write_buffer_size.

Section operations.

Context {W : Type} `{StreamHost W} `{FileRead} (self : t).

(** foctet-net/src/transport/tcp/stream.rs:35-41, [LogicalTcpSendStream::poll_write]. *)
Definition poll_write (buf : bytes) : async (Halves.t * W) Z := Writer.poll_write buf.

(** foctet-net/src/transport/tcp/stream.rs:43-45, [LogicalTcpSendStream::poll_flush]. *)
Definition poll_flush : async (Halves.t * W) unit := Writer.poll_flush.

(** foctet-net/src/transport/tcp/stream.rs:47-49, [LogicalTcpSendStream::poll_shutdown]. *)
Definition poll_shutdown : async (Halves.t * W) unit := Writer.poll_shutdown.

(** foctet-net/src/transport/tcp/stream.rs:56-59, [LogicalTcpSendStream::send]. *)
Definition send (data : bytes) : async (Halves.t * W) unit := Writer.send_bytes data.

(** foctet-net/src/transport/tcp/stream.rs:60-63, [LogicalTcpSendStream::send_frame]. *)
Definition send_frame (frame : Frame.t) : async (Halves.t * W) unit := Writer.send_frame frame.

(** foctet-net/src/transport/tcp/stream.rs:64-83, [LogicalTcpSendStream::send_file]. *)
Definition send_file (fuel : nat) (file_path : string) : async (Halves.t * W * Fs) (option unit) :=
  await file := open_file file_path in
  on_first (loop (send_file_turn (stream_id self) (write_buffer_size self)) fuel file).

(** foctet-net/src/transport/tcp/stream.rs:84-87, [LogicalTcpSendStream::close]. *)
Definition close : async (Halves.t * W) unit := Writer.close.

End operations.

End LogicalTcpSendStream.

Module LogicalTcpRecvStream.

(** foctet-net/src/transport/tcp/stream.rs:90-95, [LogicalTcpRecvStream]. *)
Record t : Type := mk {
  stream_id : StreamId.t;
  read_buffer_size : Z
}.

(** foctet-net/src/transport/tcp/stream.rs:98-108, [LogicalTcpRecvStream::new]. *)
Definition new (stream_id : StreamId.t) (read_buffer_size : Z) : t :=
  mk stream_id read_buffer_size.

Section operations.

Context {W : Type} `{StreamHost W}.

(** foctet-net/src/transport/tcp/stream.rs:112-118, [LogicalTcpRecvStream::poll_read]. *)
Definition poll_read : async (Halves.t * W * ReadBuf.t) unit := Reader.poll_read.

(** foctet-net/src/transport/tcp/stream.rs:125-130, [LogicalTcpRecvStream::receive]. *)
Definition receive : async (Halves.t * W) bytes := Reader.recv_bytes.

(** foctet-net/src/transport/tcp/stream.rs:131-136, [LogicalTcpRecvStream::receive_frame]. *)
Definition receive_frame : async (Halves.t * W) Frame.t := Reader.recv_frame.

(** foctet-net/src/transport/tcp/stream.rs:138-153, [LogicalTcpRecvStream::receive_file]. *)
Definition receive_file (fuel : nat) (file_path : string) (len : Z) :
    async (Halves.t * W * Fs) (option Z) :=
  let total_bytes := 0 in
  create_file file_path;;;
  loop (receive_file_turn file_path len) fuel total_bytes.

(** foctet-net/src/transport/tcp/stream.rs:155-157, [LogicalTcpRecvStream::close]. *)
Definition close : async (Halves.t * W) unit := aret tt.

End operations.

End LogicalTcpRecvStream.

Module LogicalTcpStream.

(** foctet-net/src/transport/tcp/stream.rs:160-167, [LogicalTcpStream]. *)
Record t : Type := mk {
  stream_id : StreamId.t;
  write_buffer_size : Z;
  read_buffer_size : Z
}.

(** foctet-net/src/transport/tcp/stream.rs:170-185, [LogicalTcpStream::new]. *)
Definition new (stream_id : StreamId.t) (write_buffer_size read_buffer_size : Z) : t :=
  mk stream_id write_buffer_size read_buffer_size.

(** foctet-net/src/transport/tcp/stream.rs:187-190, [LogicalTcpStream::set_write_buffer_size]. *)
Definition set_write_buffer_size (self : t) (size : Z) : t :=
  mk (stream_id self) size (read_buffer_size self).

(** foctet-net/src/transport/tcp/stream.rs:192-195, [LogicalTcpStream::set_read_buffer_size]. *)
Definition set_read_buffer_size (self : t) (size : Z) : t :=
  mk (stream_id self) (write_buffer_size self) size.

(** foctet-net/src/transport/tcp/stream.rs:197-204, [LogicalTcpStream::split]. *)
Definition split (self : t) : LogicalTcpSendStream.t * LogicalTcpRecvStream.t :=
  (LogicalTcpSendStream.new (stream_id self) (write_buffer_size self),
   LogicalTcpRecvStream.new (stream_id self) (read_buffer_size self)).

(** foctet-net/src/transport/tcp/stream.rs:206-215, [LogicalTcpStream::merge]. *)
Definition merge (send_stream : LogicalTcpSendStream.t) (recv_stream : LogicalTcpRecvStream.t) : t :=
  mk (LogicalTcpSendStream.stream_id send_stream)
    (LogicalTcpSendStream.write_buffer_size send_stream)
    (LogicalTcpRecvStream.read_buffer_size recv_stream).

Section operations.

Context {W : Type} `{StreamHost W} `{FileRead} (self : t).

(** foctet-net/src/transport/tcp/stream.rs:219-225, [LogicalTcpStream::poll_read]. *)
Definition poll_read : async (Halves.t * W * ReadBuf.t) unit := Reader.poll_read.

(** foctet-net/src/transport/tcp/stream.rs:229-235, [LogicalTcpStream::poll_write]. *)
Definition poll_write (buf : bytes) : async (Halves.t * W) Z := Writer.poll_write buf.

(** foctet-net/src/transport/tcp/stream.rs:237-239, [LogicalTcpStream::poll_flush]. *)
Definition poll_flush : async (Halves.t * W) unit := Writer.poll_flush.

(** foctet-net/src/transport/tcp/stream.rs:241-243, [LogicalTcpStream::poll_shutdown]. *)
Definition poll_shutdown : async (Halves.t * W) unit := Writer.poll_shutdown.

(** foctet-net/src/transport/tcp/stream.rs:250-253, [LogicalTcpStream::send]. *)
Definition send (data : bytes) : async (Halves.t * W) unit := Writer.send_bytes data.

(** foctet-net/src/transport/tcp/stream.rs:255-260, [LogicalTcpStream::receive]. *)
Definition receive : async (Halves.t * W) bytes := Reader.recv_bytes.

(** foctet-net/src/transport/tcp/stream.rs:262-265, [LogicalTcpStream::send_frame]. *)
Definition send_frame (frame : Frame.t) : async (Halves.t * W) unit := Writer.send_frame frame.

(** foctet-net/src/transport/tcp/stream.rs:267-272, [LogicalTcpStream::receive_frame]. *)
Definition receive_frame : async (Halves.t * W) Frame.t := Reader.recv_frame.

(** foctet-net/src/transport/tcp/stream.rs:274-293, [LogicalTcpStream::send_file]. *)
Definition send_file (fuel : nat) (file_path : string) : async (Halves.t * W * Fs) (option unit) :=
  await file := open_file file_path in
  on_first (loop (send_file_turn (stream_id self) (write_buffer_size self)) fuel file).

(** foctet-net/src/transport/tcp/stream.rs:295-310, [LogicalTcpStream::receive_file]. *)
Definition receive_file (fuel : nat) (file_path : string) (len : Z) :
    async (Halves.t * W * Fs) (option Z) :=
  let total_bytes := 0 in
  create_file file_path;;;
  loop (receive_file_turn file_path len) fuel total_bytes.

(** foctet-net/src/transport/tcp/stream.rs:312-315, [LogicalTcpStream::close]. *)
Definition close : async (Halves.t * W) unit := Writer.close.

End operations.

End LogicalTcpStream.

(** ** Lemmas *)

(** How many of the messages make up exactly [n] bytes, at least one and with the [total]
    bytes before them. *)
Fixpoint reaches (n total : Z) (ms : list bytes) : option nat :=
  match ms with
  | [] => None
  | m :: ms => if total + len m =? n then Some 1%nat else S <$> reaches n (total + len m) ms
  end.

Lemma reaches_exactly (ms more : list bytes) (total : Z) :
  ms <> [] -> Forall (fun m => m <> []) ms ->
  reaches (total + len (concat ms)) total (ms ++ more) = Some (length ms).
Proof.
  revert total. induction ms as [|m ms IH]; intros total Hms Hne; [done|]. clear Hms.
  apply Forall_cons in Hne as [_ Hne]. cbn. rewrite len_app.
  destruct ms as [|m' ms].
  - cbn. by rewrite Z.add_0_r, Z.eqb_refl.
  - assert (Hpos : 0 < len (concat (m' :: ms))).
    { apply Forall_cons in Hne as [Hm _]. cbn. rewrite len_app.
      pose proof (len_nonneg (concat ms)). destruct m' as [|b m']; [done|]. rewrite len_cons.
      pose proof (len_nonneg m'). lia. }
    rewrite (proj2 (Z.eqb_neq _ _)) by lia. rewrite Z.add_assoc, IH by done. done.
Qed.

Section file_lemmas.

Context {W : Type} `{StreamHostLaws W} `{FileRead}.
Context (id : StreamId.t) (size : Z).

Lemma send_turn_eof (h : Halves.t) (w : W) :
  send_file_turn id size [] (h, w) = ((h, w), Ready (Ok (Break tt))).
Proof. unfold send_file_turn, file_read. by rewrite take_nil. Qed.

(** What the loop of the sender leaves of the events, and its result, when the pieces [ms]
    are to be sent. *)
Definition file_event (m : bytes) : StreamEvent.t := StreamEvent.Frame (data_frame id m).

Definition send_result (ms : list bytes) (ch : Mpsc.t StreamEvent.t) :
    poll (outcome error (option unit)) :=
  if decide (length ms <= room ch)%nat then Ready (Ok (Some tt))
  else if Mpsc.rx_alive ch then Pending else Ready (Err (IoError BrokenPipe "Failed to send frame")).

Lemma send_file_loop_tcp (fuel : nat) (file : bytes) :
  0 < size -> (length file < fuel)%nat ->
  exists ms, concat ms = file /\ Forall (fun m => m <> [] /\ len m <= size) ms /\
    forall (h : Halves.t) (w : W), loop (send_file_turn id size) fuel file (h, w) =
      ((h, set_events w (push_all (events w) (map file_event (take (room (events w)) ms)))),
       send_result ms (events w)).
Proof using All.
  intros Hs. revert file. induction fuel as [|fuel IH]; intros file Hf; [lia|].
  pose proof (read_len_fits size file) as Hfit. set (n := read_len size file) in *.
  destruct (Z.eqb_spec (len (take n file)) 0) as [E|E].
  - exists []. split; [|split; [done|]].
    { destruct file as [|b file]; [done|]. exfalso.
      assert (Hp : (0 < n)%nat) by (apply read_len_pos; done).
      unfold len in E. rewrite length_take in E. simpl in E. lia. }
    intros h w. cbn [loop]. rewrite (abind_ok _ _ (h, w) (h, w) (Break tt)).
    + rewrite take_nil. cbn. by rewrite push_all_nil, set_events_id.
    + unfold send_file_turn, file_read. fold n. by rewrite E.
  - assert (Hl : (0 < length (take n file) <= n)%nat)
      by (unfold len in E; rewrite length_take in *; lia).
    destruct (IH (drop n file)) as (ms & Hms & Hne & Hloop).
    { rewrite length_drop. rewrite length_take in Hl. lia. }
    exists (take n file :: ms). split_and!.
    + cbn. by rewrite Hms, take_drop.
    + constructor; [|done]. split; [intros Hnil; by rewrite Hnil in E|]. unfold len. lia.
    + intros h w. cbn [loop]. unfold abind, send_file_turn, file_read. fold n.
      rewrite (proj2 (Z.eqb_neq _ _) E). unfold abind, Writer.send_frame, send_or.
      rewrite try_send_room_case. destruct (room (events w)) as [|k] eqn:Er.
      * unfold send_result. rewrite Er. cbn [take map]. rewrite push_all_nil, set_events_id.
        rewrite decide_False by (cbn; lia). by destruct (Mpsc.rx_alive (events w)).
      * match goal with |- context [push_all (events w) [?e]] =>
          change e with (file_event (take n file)) end.
        unfold aret. cbn beta iota.
        rewrite Hloop, events_set_events, room_push_all, Er, set_events_twice, push_all_app.
        unfold send_result. rewrite room_push_all, Er. cbn [length]. rewrite Nat.sub_succ, Nat.sub_0_r.
        cbn [take map app]. do 2 f_equal. do 2 (case_decide; try lia); done.
Qed.

(** An empty buffer reads nothing, which the loop takes for the end of the file. *)
Lemma send_file_loop_empty (fuel : nat) (file : bytes) (h : Halves.t) (w : W) :
  size = 0 -> (0 < fuel)%nat ->
  loop (send_file_turn id size) fuel file (h, w) = ((h, w), Ready (Ok (Some tt))).
Proof using Type.
  intros Hs Hf. destruct fuel as [|fuel]; [lia|]. cbn [loop].
  pose proof (read_len_fits size file) as Hfit.
  rewrite (abind_ok _ _ (h, w) (h, w) (Break tt)); [done|].
  unfold send_file_turn, file_read. replace (read_len size file) with 0%nat by lia. done.
Qed.

End file_lemmas.

Section receive_lemmas.

Context {W : Type} `{StreamHostLaws W}.

(** What the receiver of a file makes of what is queued for it. *)
Lemma receive_turn_frame (path : string) (n total : Z) (h : Halves.t) (v : W) (fs : Fs) (f : Frame.t)
    (ch : Mpsc.t Frame.t) :
  Mpsc.try_recv (frames v (Reader.receiver h)) = Mpsc.Received f ch ->
  exists h', Reader.receiver h' = Reader.receiver h /\
    receive_file_turn path n total (h, v, fs) =
      ((h', set_frames v (Reader.receiver h) ch,
        alter (fun content => content ++ Frame.payload f) path fs), Ready (Ok
        (if total + len (Frame.payload f) =? n then Break (total + len (Frame.payload f))
         else Continue (total + len (Frame.payload f))))).
Proof using Type.
  intros E. eexists.
  split; [|unfold receive_file_turn, abind, on_first, Reader.recv_frame, abind, this, recv_on; cbn;
    rewrite E; cbn; by destruct (_ =? n)].
  unfold Reader.receiver. by rewrite set_state_from_flags_receiver.
Qed.

(** What the receiver leaves queued, what it writes, and what it returns. *)
Definition receive_rest (n total : Z) (q : list Frame.t) : list Frame.t :=
  match reaches n total (map Frame.payload q) with Some k => drop k q | None => [] end.

Definition receive_written (n total : Z) (q : list Frame.t) : bytes :=
  match reaches n total (map Frame.payload q) with
  | Some k => payloads (take k q)
  | None => payloads q
  end.

Definition receive_result (n total : Z) (ch : Mpsc.t Frame.t) : poll (outcome error (option Z)) :=
  match reaches n total (map Frame.payload (Mpsc.queue ch)) with
  | Some _ => Ready (Ok (Some n))
  | None =>
      if Mpsc.tx_alive ch then Pending else Ready (Err (IoError BrokenPipe "Channel closed"))
  end.

Lemma receive_file_loop_tcp (path : string) (n : Z) (fuel : nat) (total : Z) (h : Halves.t) (v : W)
    (fs : Fs) (content : bytes) (q : list Frame.t) :
  let ch := frames v (Reader.receiver h) in
  Mpsc.queue ch = q -> fs !! path = Some content -> (length q < fuel)%nat ->
  exists h' v',
    loop (receive_file_turn path n) fuel total (h, v, fs) =
      ((h', v', <[path := content ++ receive_written n total q]> fs), receive_result n total ch) /\
    Reader.receiver h' = Reader.receiver h /\
    frames v' (Reader.receiver h) =
      Mpsc.mk (receive_rest n total q) (Mpsc.capacity ch) (Mpsc.tx_alive ch) (Mpsc.rx_alive ch).
Proof using All.
  revert total h v fs content q. induction fuel as [|fuel IH]; intros total h v fs content q ch Hq Hfs Hf;
    [lia|]. cbn [loop]. unfold receive_result. rewrite Hq. destruct q as [|f q].
  - exists h, v. unfold receive_written, receive_rest. cbn. rewrite app_nil_r, insert_id by done.
    split; [|split; [done|fold ch; by destruct ch; cbn in *; subst]].
    unfold abind, receive_file_turn, abind, on_first, Reader.recv_frame, abind, this, recv_on. cbn.
    fold ch. unfold Mpsc.try_recv. rewrite Hq. destruct (Mpsc.tx_alive ch) eqn:Etx; [done|]. cbn.
    fold ch. unfold Mpsc.is_closed. by rewrite Etx.
  - assert (E : Mpsc.try_recv ch = Mpsc.Received f
      (Mpsc.mk q (Mpsc.capacity ch) (Mpsc.tx_alive ch) (Mpsc.rx_alive ch)))
      by (unfold Mpsc.try_recv; by rewrite Hq).
    destruct (receive_turn_frame path n total h v fs f _ E) as (h1 & Hh1 & Et).
    rewrite (abind_ok _ _ _ _ _ Et). set (v1 := set_frames v _ _).
    set (fs1 := alter (fun c => c ++ Frame.payload f) path fs).
    assert (Hfs1 : fs1 = <[path := content ++ Frame.payload f]> fs).
    { apply map_eq. intros p. destruct (decide (p = path)) as [->|Hp]; unfold fs1.
      - by rewrite lookup_alter_eq, lookup_insert_eq, Hfs.
      - by rewrite lookup_alter_ne, lookup_insert_ne. }
    assert (Hv1 : frames v1 (Reader.receiver h) = _) by apply frames_set_frames.
    unfold receive_written, receive_rest. cbn [map reaches].
    destruct (Z.eqb_spec (total + len (Frame.payload f)) n) as [En|En].
    + exists h1, v1. rewrite Hfs1, Hv1, En. unfold payloads. cbn. by rewrite ?take_0, app_nil_r, ?drop_0.
    + rewrite <- Hh1 in Hv1.
      destruct (IH (total + len (Frame.payload f)) h1 v1 fs1 (content ++ Frame.payload f) q)
        as (h2 & v2 & El & Hh2 & Hv2); [by rewrite Hv1|by rewrite Hfs1, lookup_insert_eq|cbn in Hf; lia|].
      exists h2, v2. rewrite El, Hfs1, insert_insert_eq, <- app_assoc. rewrite <- Hh1, Hv2, Hv1.
      unfold receive_result, receive_written, receive_rest, payloads. cbn.
      by destruct (reaches n _ _).
Qed.

End receive_lemmas.

(** ** Properties *)

(** C11: What sending and receiving a file over TCP do on every state of the channels,
    whatever amounts the file reads return.  [send_file] queues data frames for the session
    with pieces of at most the size of the write buffer, which together are the file (a
    buffer of no bytes reads none, and nothing is sent): all of them if they fit, and then it succeeds; as many as fit and then it
    waits, or it fails with a broken pipe when the session is gone.  [receive_file] of [n]
    bytes takes frames as long as they have not made up exactly [n] bytes, at least one:
    then it returns [n], has written their payloads and leaves the other frames; if what
    is queued does not, it has written all of it, and waits, or fails when no more can come.
    So what a sender queues for a file that is not empty is what a receiver of its length
    needs to write that file, and for an empty file it queues nothing. *)
Theorem tcp_file_calls {W V : Type} `{StreamHostLaws W} `{StreamHostLaws V} `{FileRead}
    (self : LogicalTcpStream.t) (fs : Fs) (path : string) (file : bytes) (fuel : nat)
    (Hsize : 0 <= LogicalTcpStream.write_buffer_size self)
    (Hfile : fs !! path = Some file) (Hfuel : (length file < fuel)%nat) :
  let id := LogicalTcpStream.stream_id self in
  let size := LogicalTcpStream.write_buffer_size self in
  exists ms, concat ms = (if size =? 0 then [] else file) /\
    Forall (fun m => m <> [] /\ len m <= size) ms /\
    (forall (h : Halves.t) (w : W),
       LogicalTcpStream.send_file self fuel path (h, w, fs) =
         ((h, set_events w (push_all (events w) (map (file_event id) (take (room (events w)) ms))), fs),
          send_result ms (events w))) /\
    (forall (h : Halves.t) (v : V) (fs2 : Fs) (path2 : string) (n : Z) (fuel2 : nat),
       let ch := frames v (Reader.receiver h) in
       (length (Mpsc.queue ch) < fuel2)%nat -> exists h' v',
       LogicalTcpStream.receive_file fuel2 path2 n (h, v, fs2) =
         ((h', v', <[path2 := receive_written n 0 (Mpsc.queue ch)]> fs2), receive_result n 0 ch) /\
       Mpsc.queue (frames v' (Reader.receiver h)) = receive_rest n 0 (Mpsc.queue ch)) /\
    (forall more, 0 < size -> file <> [] ->
       receive_written (len file) 0 (map (data_frame id) ms ++ more) = file /\
       receive_rest (len file) 0 (map (data_frame id) ms ++ more) = more) /\
    (file = [] -> ms = []).
Proof.
  intros id size.
  assert (exists ms, concat ms = (if size =? 0 then [] else file) /\
    Forall (fun m => m <> [] /\ len m <= size) ms /\
    forall (h : Halves.t) (w : W), loop (send_file_turn id size) fuel file (h, w) =
      ((h, set_events w (push_all (events w) (map (file_event id) (take (room (events w)) ms)))),
       send_result ms (events w))) as (ms & Hms & Hne & Hloop).
  { destruct (Z.eqb_spec size 0) as [E|E].
    - exists []. split_and!; [done..|]. intros h w.
      rewrite send_file_loop_empty, take_nil by (done || lia). cbn.
      by rewrite push_all_nil, set_events_id.
    - apply send_file_loop_tcp; [lia|done]. }
  assert (Hn : Forall (fun m => m <> []) ms) by (eapply Forall_impl; [exact Hne|naive_solver]).
  exists ms. split_and!; try done.
  - intros h w. unfold LogicalTcpStream.send_file, abind, open_file. rewrite Hfile.
    unfold on_first. fold id size. by rewrite Hloop.
  - intros h v fs2 path2 n fuel2 ch Hf2.
    destruct (receive_file_loop_tcp path2 n fuel2 0 h v (<[path2 := []]> fs2) [] (Mpsc.queue ch))
      as (h' & v' & E & _ & Hv'); [done|by rewrite lookup_insert_eq|done|].
    exists h', v'. rewrite Hv'. split; [|done]. unfold LogicalTcpStream.receive_file.
    rewrite (abind_ok _ _ (h, v, fs2) (h, v, <[path2 := []]> fs2) tt) by done.
    by rewrite E, insert_insert_eq.
  - intros more Hs Hf. rewrite (proj2 (Z.eqb_neq _ _)) in Hms by lia.
    assert (Hr : reaches (len file) 0 (map Frame.payload (map (data_frame id) ms ++ more)) =
      Some (length ms)).
    { rewrite map_app, map_map. cbn. rewrite map_id, <- Hms.
      apply (reaches_exactly ms _ 0); [by intros ->|done]. }
    unfold receive_written, receive_rest. rewrite Hr.
    rewrite <- (length_map (data_frame id) ms), take_app_length, drop_app_length.
    split; [|done]. unfold payloads. rewrite map_map. cbn. by rewrite map_id.
  - intros ->. assert (Hnil : concat ms = []) by (rewrite Hms; by destruct (size =? 0)).
    destruct Hn as [|m ms Hm _]; [done|]. by apply app_nil in Hnil as [-> _].
Qed.

(** ** Witness: reads that fill the buffer, and a queue of one frame. *)

#[local] Existing Instance full_reads.

Definition small_ports : Ports.t := Ports.mk (Mpsc.channel 1) {[ 0%nat := Mpsc.channel 1 ]}.

Definition demo_halves : Halves.t :=
  split (LogicalStream.new (SessionId.mk 1) (StreamId.mk 3) Established 0%nat).

Definition demo_bytes : bytes := [byte_of 1; byte_of 2; byte_of 3].

(** The sender of three bytes in pieces of two has to wait after the first. *)
Lemma tcp_file_calls_witness :
  exists m, (LogicalTcpStream.send_file (LogicalTcpStream.new (StreamId.mk 3) 2 2) 4 "in"
      (demo_halves, small_ports, {["in" := demo_bytes]})).2 = Pending /\
    receive_written 3 0 (map (data_frame (StreamId.mk 3)) m) = demo_bytes.
Proof.
  destruct (tcp_file_calls (W := Ports.t) (V := Ports.t) (LogicalTcpStream.new (StreamId.mk 3) 2 2)
    {["in" := demo_bytes]} "in" demo_bytes 4 ltac:(simpl; lia)
    (lookup_singleton_eq _ _) ltac:(simpl; lia)) as (ms & _ & _ & _ & _ & Hw & _).
  exists ms. split; [vm_compute; reflexivity|].
  rewrite <- (app_nil_r (map _ ms)). exact (proj1 (Hw [] eq_refl ltac:(discriminate))).
Defined.
