(* ===== verification/QuicStream.v ===== *)
(** * Streams over QUIC

    foctet-net/src/transport/quic/stream.rs: a stream over QUIC is a pair of
    QUIC streams, each under a length-delimited codec, so that what travels is
    a sequence of messages.  [QuicStream] is the whole stream; [QuicSendStream]
    and [QuicRecvStream] are what [split] makes of it.

    The QUIC streams and the codec are libraries: [MessageSink] and
    [MessageSource] are what the code calls of them, with the behaviour they
    document.  Messages arrive in the order they were sent and are as they were
    sent; messages longer than [MAX_MESSAGE] bytes are refused; a source that is
    asked for more after the peer has finished answers [None]. *)

From S2P Require Import Prelude Ids Frame Tokio Files.

Local Open Scope Z_scope.
Local Open Scope async_scope.

(** The default [max_frame_length] of [LengthDelimitedCodec]: 8 MiB. *)
Definition MAX_MESSAGE : Z := 8388608.

(** [FramedWrite<quinn::SendStream, LengthDelimitedCodec>]; [sent] is what the
    peer will be given. *)
Class MessageSink (T : Type) : Type := {
  sink_send : bytes -> async T unit;
  sink_close : async T unit;
  inner_poll_write : bytes -> async T Z;
  inner_poll_flush : async T unit;
  inner_poll_shutdown : async T unit;
  sent : T -> list bytes
}.

Class MessageSinkLaws (T : Type) `{MessageSink T} : Prop := {
  sink_send_sent : forall m t t',
    sink_send m t = (t', Ready (Ok tt)) -> sent t' = sent t ++ [m];
  sink_send_refused : forall m t,
    MAX_MESSAGE < len m -> exists t' e, sink_send m t = (t', Ready (Err e))
}.

(** [FramedRead<quinn::RecvStream, LengthDelimitedCodec>]; [arriving] is what
    it has still to give, and [None] from [source_next] is the end. *)
Class MessageSource (T : Type) : Type := {
  source_next : async T (option bytes);
  inner_poll_read : async T bytes;
  arriving : T -> list bytes
}.

Class MessageSourceLaws (T : Type) `{MessageSource T} : Prop := {
  source_next_some : forall t t' m,
    source_next t = (t', Ready (Ok (Some m))) -> arriving t = m :: arriving t';
  source_next_none : forall t t',
    source_next t = (t', Ready (Ok None)) -> arriving t = [] /\ arriving t' = []
}.

(** [Result::map_err] on what a poll returns, with [Error::new(ErrorKind::Other, e)]. *)
Definition other_error {S A : Type} (m : async S A) : async S A :=
  fun s =>
    match m s with
    | (s', Ready (Err e)) => (s', Ready (Err (Caused "" e)))
    | r => r
    end.

(** The loops and calls that the halves and the whole stream have in common. *)
Section sending.

Context {T : Type} `{MessageSink T} `{FileRead}.

(** foctet-net/src/transport/quic/stream.rs:280-288, [QuicStream::send]: one
    iteration of the loop, from the number of bytes sent. *)
Definition send_turn (write_buffer_size : Z) (data : bytes) (total_sent : Z) :
    async T (control Z unit) :=
  if total_sent <? len data then
    let chunk_size := Z.min write_buffer_size (len data - total_sent) in
    match slice data total_sent (total_sent + chunk_size) with
    | Ok chunk => sink_send chunk;;; aret (Continue (total_sent + chunk_size))
    | Err e => afail e
    | Panic => apanic
    end
  else aret (Break tt).

(** foctet-net/src/transport/quic/stream.rs:278-290, [QuicStream::send]. *)
Definition quic_send (fuel : nat) (write_buffer_size : Z) (data : bytes) : async T (option unit) :=
  loop (send_turn write_buffer_size data) fuel 0.

(** foctet-net/src/transport/quic/stream.rs:300-303, [QuicStream::send_frame]. *)
Definition quic_send_frame (frame : Frame.t) : async T unit :=
  match Frame.to_bytes frame with
  | Ok bs => sink_send bs
  | Err e => afail e
  | Panic => apanic
  end.

(** foctet-net/src/transport/quic/stream.rs:319-327, [QuicStream::send_file]:
    one iteration of the loop, from what is left of the file. *)
Definition quic_send_file_turn (write_buffer_size : Z) (file : bytes) :
    async T (control bytes unit) :=
  let '(chunk, file') := file_read write_buffer_size file in
  let n := len chunk in
  if n =? 0 then aret (Break tt) else sink_send chunk;;; aret (Continue file').

(** foctet-net/src/transport/quic/stream.rs:315-329, [QuicStream::send_file]. *)
Definition quic_send_file (fuel : nat) (write_buffer_size : Z) (file_path : string) :
    async (T * Fs) (option unit) :=
  await file := open_file file_path in
  on_first (loop (quic_send_file_turn write_buffer_size) fuel file).

End sending.

Section receiving.

Context {T : Type} `{MessageSource T}.

(** foctet-net/src/transport/quic/stream.rs:292-298, [QuicStream::receive]. *)
Definition quic_receive : async T bytes :=
  await next := source_next in
  match next with
  | Some bs => aret bs
  | None => afail (Anyhow "Stream closed")
  end.

(** foctet-net/src/transport/quic/stream.rs:305-313, [QuicStream::receive_frame]. *)
Definition quic_receive_frame : async T Frame.t :=
  await next := source_next in
  match next with
  | Some bs =>
      match Frame.from_bytes bs with
      | Ok frame => aret frame
      | Err e => afail e
      | Panic => apanic
      end
  | None => afail (Anyhow "Stream closed")
  end.

(** foctet-net/src/transport/quic/stream.rs:336-347, [QuicStream::receive_file]:
    one iteration of the loop, from the number of bytes received. *)
Definition quic_receive_file_turn (file_path : string) (len : Z) (total_bytes : Z) :
    async (T * Fs) (control Z Z) :=
  await chunk := on_first source_next in
  match chunk with
  | None => aret (Break total_bytes)
  | Some [] => aret (Break total_bytes)
  | Some data =>
      write_all_file file_path data;;;
      let total_bytes := total_bytes + Prelude.len data in
      if total_bytes =? len then aret (Break total_bytes) else aret (Continue total_bytes)
  end.

(** foctet-net/src/transport/quic/stream.rs:331-350, [QuicStream::receive_file]. *)
Definition quic_receive_file (fuel : nat) (file_path : string) (len : Z) :
    async (T * Fs) (option Z) :=
  let total_bytes := 0 in
  create_file file_path;;;
  loop (quic_receive_file_turn file_path len) fuel total_bytes.

End receiving.

Module QuicSendStream.

(** foctet-net/src/transport/quic/stream.rs:18-23, [QuicSendStream]. *)
Record t (Tx : Type) : Type := mk {
  framed_writer : Tx;
  stream_id : StreamId.t;
  write_buffer_size : Z
}.

Arguments mk {Tx} framed_writer stream_id write_buffer_size.
Arguments framed_writer {Tx} t.
Arguments stream_id {Tx} t.
Arguments write_buffer_size {Tx} t.

(** foctet-net/src/transport/quic/stream.rs:26-36, [QuicSendStream::new]. *)
Definition new {Tx : Type} (stream_id : StreamId.t) (send_stream : Tx) (write_buffer_size : Z) : t Tx :=
  mk send_stream stream_id write_buffer_size.

Section operations.

Context {Tx : Type} `{MessageSink Tx} `{FileRead}.

(** A call on the field [framed_writer]. *)
Definition on_writer {A : Type} (m : async Tx A) : async (t Tx) A :=
  fun self =>
    let '(w, r) := m (framed_writer self) in
    (mk w (stream_id self) (write_buffer_size self), r).

(** foctet-net/src/transport/quic/stream.rs:40-48, [QuicSendStream::poll_write]. *)
Definition poll_write (buf : bytes) : async (t Tx) Z :=
  on_writer (other_error (inner_poll_write buf)).

(** foctet-net/src/transport/quic/stream.rs:50-52, [QuicSendStream::poll_flush]. *)
Definition poll_flush : async (t Tx) unit := on_writer inner_poll_flush.

(** foctet-net/src/transport/quic/stream.rs:54-56, [QuicSendStream::poll_shutdown]. *)
Definition poll_shutdown : async (t Tx) unit := on_writer inner_poll_shutdown.

(** foctet-net/src/transport/quic/stream.rs:64-76, [QuicSendStream::send]. *)
Definition send (fuel : nat) (data : bytes) : async (t Tx) (option unit) :=
  await self := aget in
  on_writer (quic_send fuel (write_buffer_size self) data).

(** foctet-net/src/transport/quic/stream.rs:78-81, [QuicSendStream::send_frame]. *)
Definition send_frame (frame : Frame.t) : async (t Tx) unit := on_writer (quic_send_frame frame).

(** foctet-net/src/transport/quic/stream.rs:83-97, [QuicSendStream::send_file]. *)
Definition send_file (fuel : nat) (file_path : string) : async (t Tx * Fs) (option unit) :=
  fun '(self, fs) =>
    let '((w, fs), r) := quic_send_file fuel (write_buffer_size self) file_path
      (framed_writer self, fs) in
    ((mk w (stream_id self) (write_buffer_size self), fs), r).

(** foctet-net/src/transport/quic/stream.rs:99-102, [QuicSendStream::close]. *)
Definition close : async (t Tx) unit := on_writer sink_close.

End operations.

End QuicSendStream.

Module QuicRecvStream.

(** foctet-net/src/transport/quic/stream.rs:105-110, [QuicRecvStream]. *)
Record t (Rx : Type) : Type := mk {
  framed_reader : Rx;
  stream_id : StreamId.t;
  read_buffer_size : Z
}.

Arguments mk {Rx} framed_reader stream_id read_buffer_size.
Arguments framed_reader {Rx} t.
Arguments stream_id {Rx} t.
Arguments read_buffer_size {Rx} t.

(** foctet-net/src/transport/quic/stream.rs:113-123, [QuicRecvStream::new]. *)
Definition new {Rx : Type} (stream_id : StreamId.t) (recv_stream : Rx) (read_buffer_size : Z) : t Rx :=
  mk recv_stream stream_id read_buffer_size.

Section operations.

Context {Rx : Type} `{MessageSource Rx}.

(** A call on the field [framed_reader]. *)
Definition on_reader {A : Type} (m : async Rx A) : async (t Rx) A :=
  fun self =>
    let '(r, x) := m (framed_reader self) in
    (mk r (stream_id self) (read_buffer_size self), x).

(** foctet-net/src/transport/quic/stream.rs:127-133, [QuicRecvStream::poll_read]. *)
Definition poll_read : async (t Rx) bytes := on_reader inner_poll_read.

(** foctet-net/src/transport/quic/stream.rs:141-147, [QuicRecvStream::receive]. *)
Definition receive : async (t Rx) bytes := on_reader quic_receive.

(** foctet-net/src/transport/quic/stream.rs:149-157, [QuicRecvStream::receive_frame]. *)
Definition receive_frame : async (t Rx) Frame.t := on_reader quic_receive_frame.

(** foctet-net/src/transport/quic/stream.rs:159-178, [QuicRecvStream::receive_file]. *)
Definition receive_file (fuel : nat) (file_path : string) (len : Z) :
    async (t Rx * Fs) (option Z) :=
  fun '(self, fs) =>
    let '((r, fs), x) := quic_receive_file fuel file_path len (framed_reader self, fs) in
    ((mk r (stream_id self) (read_buffer_size self), fs), x).

(** foctet-net/src/transport/quic/stream.rs:180-182, [QuicRecvStream::close]. *)
Definition close : async (t Rx) unit := aret tt.

End operations.

End QuicRecvStream.

Module QuicStream.

(** foctet-net/src/transport/quic/stream.rs:185-192, [QuicStream]. *)
Record t (Tx Rx : Type) : Type := mk {
  framed_writer : Tx;
  framed_reader : Rx;
  stream_id : StreamId.t;
  write_buffer_size : Z;
  read_buffer_size : Z
}.

Arguments mk {Tx Rx} framed_writer framed_reader stream_id write_buffer_size read_buffer_size.
Arguments framed_writer {Tx Rx} t.
Arguments framed_reader {Tx Rx} t.
Arguments stream_id {Tx Rx} t.
Arguments write_buffer_size {Tx Rx} t.
Arguments read_buffer_size {Tx Rx} t.

Section construction.

Context {Tx Rx : Type}.

(** foctet-net/src/transport/quic/stream.rs:195-210, [QuicStream::new]: the two QUIC streams
    under their codecs. *)
Definition new (stream_id : StreamId.t) (send_stream : Tx) (recv_stream : Rx)
    (write_buffer_size read_buffer_size : Z) : t Tx Rx :=
  mk send_stream recv_stream stream_id write_buffer_size read_buffer_size.

(** foctet-net/src/transport/quic/stream.rs:212-215, [QuicStream::set_write_buffer_size]. *)
Definition set_write_buffer_size (self : t Tx Rx) (size : Z) : t Tx Rx :=
  mk (framed_writer self) (framed_reader self) (stream_id self) size (read_buffer_size self).

(** foctet-net/src/transport/quic/stream.rs:217-220, [QuicStream::set_read_buffer_size]. *)
Definition set_read_buffer_size (self : t Tx Rx) (size : Z) : t Tx Rx :=
  mk (framed_writer self) (framed_reader self) (stream_id self) (write_buffer_size self) size.

(** foctet-net/src/transport/quic/stream.rs:222-229, [QuicStream::split]. *)
Definition split (self : t Tx Rx) : QuicSendStream.t Tx * QuicRecvStream.t Rx :=
  (QuicSendStream.new (stream_id self) (framed_writer self) (write_buffer_size self),
   QuicRecvStream.new (stream_id self) (framed_reader self) (read_buffer_size self)).

(** foctet-net/src/transport/quic/stream.rs:231-240, [QuicStream::merge]. *)
Definition merge (send_stream : QuicSendStream.t Tx) (recv_stream : QuicRecvStream.t Rx) : t Tx Rx :=
  mk (QuicSendStream.framed_writer send_stream) (QuicRecvStream.framed_reader recv_stream)
    (QuicSendStream.stream_id send_stream) (QuicSendStream.write_buffer_size send_stream)
    (QuicRecvStream.read_buffer_size recv_stream).

End construction.

Section operations.

Context {Tx Rx : Type} `{MessageSink Tx} `{MessageSource Rx} `{FileRead}.

Definition set_writer (self : t Tx Rx) (w : Tx) : t Tx Rx :=
  mk w (framed_reader self) (stream_id self) (write_buffer_size self) (read_buffer_size self).

Definition set_reader (self : t Tx Rx) (r : Rx) : t Tx Rx :=
  mk (framed_writer self) r (stream_id self) (write_buffer_size self) (read_buffer_size self).

Definition on_writer {A : Type} (m : async Tx A) : async (t Tx Rx) A :=
  fun self => let '(w, x) := m (framed_writer self) in (set_writer self w, x).

Definition on_reader {A : Type} (m : async Rx A) : async (t Tx Rx) A :=
  fun self => let '(r, x) := m (framed_reader self) in (set_reader self r, x).

(** foctet-net/src/transport/quic/stream.rs:244-250, [QuicStream::poll_read]. *)
Definition poll_read : async (t Tx Rx) bytes := on_reader inner_poll_read.

(** foctet-net/src/transport/quic/stream.rs:254-262, [QuicStream::poll_write]. *)
Definition poll_write (buf : bytes) : async (t Tx Rx) Z :=
  on_writer (other_error (inner_poll_write buf)).

(** foctet-net/src/transport/quic/stream.rs:264-266, [QuicStream::poll_flush]. *)
Definition poll_flush : async (t Tx Rx) unit := on_writer inner_poll_flush.

(** foctet-net/src/transport/quic/stream.rs:268-270, [QuicStream::poll_shutdown]. *)
Definition poll_shutdown : async (t Tx Rx) unit := on_writer inner_poll_shutdown.

(** foctet-net/src/transport/quic/stream.rs:278-290, [QuicStream::send]. *)
Definition send (fuel : nat) (data : bytes) : async (t Tx Rx) (option unit) :=
  await self := aget in
  on_writer (quic_send fuel (write_buffer_size self) data).

(** foctet-net/src/transport/quic/stream.rs:292-298, [QuicStream::receive]. *)
Definition receive : async (t Tx Rx) bytes := on_reader quic_receive.

(** foctet-net/src/transport/quic/stream.rs:300-303, [QuicStream::send_frame]. *)
Definition send_frame (frame : Frame.t) : async (t Tx Rx) unit := on_writer (quic_send_frame frame).

(** foctet-net/src/transport/quic/stream.rs:305-313, [QuicStream::receive_frame]. *)
Definition receive_frame : async (t Tx Rx) Frame.t := on_reader quic_receive_frame.

(** foctet-net/src/transport/quic/stream.rs:315-329, [QuicStream::send_file]. *)
Definition send_file (fuel : nat) (file_path : string) : async (t Tx Rx * Fs) (option unit) :=
  fun '(self, fs) =>
    let '((w, fs), x) := quic_send_file fuel (write_buffer_size self) file_path
      (framed_writer self, fs) in
    ((set_writer self w, fs), x).

(** foctet-net/src/transport/quic/stream.rs:331-350, [QuicStream::receive_file]. *)
Definition receive_file (fuel : nat) (file_path : string) (len : Z) :
    async (t Tx Rx * Fs) (option Z) :=
  fun '(self, fs) =>
    let '((r, fs), x) := quic_receive_file fuel file_path len (framed_reader self, fs) in
    ((set_reader self r, fs), x).

(** foctet-net/src/transport/quic/stream.rs:352-355, [QuicStream::close]. *)
Definition close : async (t Tx Rx) unit := on_writer sink_close.

End operations.

End QuicStream.

(** ** Lemmas *)

(** The messages of a list are sent one after the other; the first that waits or fails
    ends it. *)
Fixpoint send_all {T : Type} `{MessageSink T} (ms : list bytes) : async T (option unit) :=
  match ms with
  | [] => aret (Some tt)
  | m :: ms => sink_send m;;; send_all ms
  end.

(** A source gives messages one after the other. *)
Inductive yields {T : Type} `{MessageSource T} : T -> list bytes -> T -> Prop :=
| yields_nil (t : T) : yields t [] t
| yields_cons (t t1 t2 : T) (m : bytes) (ms : list bytes) :
    source_next t = (t1, Ready (Ok (Some m))) -> yields t1 ms t2 -> yields t (m :: ms) t2.

Section sending_lemmas.

Context {T : Type} `{MessageSink T}.

(** One iteration of [send] in front of the others. *)
Lemma loop_sent {X : Type} (body : X -> async T (control X unit)) (fuel : nat) (x x' : X)
    (chunk : bytes) (ms : list bytes) (t : T) :
  body x t = (sink_send chunk;;; aret (Continue x')) t ->
  (forall t, loop body fuel x' t = send_all ms t) ->
  loop body (S fuel) x t = send_all (chunk :: ms) t.
Proof.
  intros Hb Hl. cbn [loop send_all]. unfold abind in *. rewrite Hb.
  destruct (sink_send chunk t) as [t1 [[[]| |]|]]; try done. apply Hl.
Qed.

Lemma send_turn_chunk (size : Z) (data : bytes) (k : nat) :
  0 < size -> (k < length data)%nat ->
  let chunk := take (Z.to_nat size) (drop k data) in
  (0 < length chunk)%nat /\
  send_turn (T := T) size data (Z.of_nat k) =
    (sink_send chunk;;; aret (Continue (Z.of_nat (k + length chunk)))).
Proof.
  intros Hs Hk chunk. unfold send_turn, len. rewrite (proj2 (Z.ltb_lt _ _)) by lia. cbv zeta.
  rewrite slice_ok by (unfold len; lia). rewrite Nat2Z.id.
  replace (Z.to_nat _) with (Z.to_nat size `min` length (drop k data))%nat
    by (rewrite length_drop; lia).
  rewrite take_min_length. fold chunk.
  assert (Hl : length chunk = (Z.to_nat size `min` (length data - k))%nat)
    by (unfold chunk; rewrite length_take, length_drop; done).
  split; [lia|].
  by replace (Z.of_nat k + Z.min size _) with (Z.of_nat (k + length chunk)) by lia.
Qed.

Lemma send_loop (size : Z) (data : bytes) (fuel k : nat) (t : T) :
  0 < size -> (length data - k < fuel)%nat ->
  loop (send_turn size data) fuel (Z.of_nat k) t =
    send_all (chunks fuel (Z.to_nat size) (drop k data)) t.
Proof.
  intros Hs. revert k t. induction fuel as [|fuel IH]; intros k t Hf; [lia|].
  destruct (decide (k < length data)%nat) as [Hk|Hk].
  - destruct (send_turn_chunk size data k Hs Hk) as [Hpos E].
    assert (Hc : chunks (S fuel) (Z.to_nat size) (drop k data) =
      take (Z.to_nat size) (drop k data) ::
      chunks fuel (Z.to_nat size) (drop (k + length (take (Z.to_nat size) (drop k data))) data)).
    { destruct (drop k data) as [|b rest] eqn:Ed.
      { apply (f_equal length) in Ed. rewrite length_drop in Ed. simpl in Ed. lia. }
      cbn [chunks]. f_equal. rewrite <- Ed. f_equal. by rewrite <- drop_drop, drop_length_take. }
    rewrite Hc. eapply loop_sent; [by rewrite E|]. intros t'. apply IH. lia.
  - cbn [loop]. unfold abind, send_turn, len. rewrite (proj2 (Z.ltb_ge _ _)) by lia.
    rewrite drop_ge by lia. done.
Qed.

(** With an empty buffer every iteration sends an empty message and stands where it
    stood. *)
Lemma send_loop_zero (data : bytes) (fuel : nat) (t : T) :
  data <> [] ->
  loop (send_turn 0 data) fuel 0 t = (await _ := send_all (replicate fuel []) in aret None) t.
Proof.
  intros Hd. revert t. induction fuel as [|fuel IH]; intros t; [done|].
  assert (E : send_turn (T := T) 0 data 0 = (sink_send [];;; aret (Continue 0))).
  { unfold send_turn. destruct data as [|b data]; [done|]. pose proof (len_nonneg data).
    rewrite (proj2 (Z.ltb_lt _ _)) by (rewrite len_cons; lia).
    cbv zeta. rewrite Z.min_l by (rewrite len_cons; lia).
    by rewrite slice_ok by (rewrite ?len_cons; lia). }
  cbn [loop replicate send_all]. rewrite E. unfold abind.
  destruct (sink_send [] t) as [t' [[[]| |]|]]; try done. apply IH.
Qed.

Lemma send_file_loop `{FileRead} (size : Z) (fuel : nat) (file : bytes) :
  0 < size -> (length file < fuel)%nat ->
  exists ms, (forall t : T, loop (quic_send_file_turn size) fuel file t = send_all ms t) /\
    concat ms = file /\ Forall (fun m => m <> [] /\ len m <= size) ms.
Proof.
  intros Hs. revert file. induction fuel as [|fuel IH]; intros file Hf; [lia|].
  pose proof (read_len_fits size file) as Hfit. set (n := read_len size file) in *.
  destruct (Z.eqb_spec (len (take n file)) 0) as [E|E].
  - exists []. split; [|split; [|done]].
    { intros t. cbn [loop send_all]. rewrite (abind_ok _ _ t t (Break tt)); [done|].
      unfold quic_send_file_turn, file_read. fold n. by rewrite E. }
    destruct file as [|b file]; [done|]. exfalso.
    assert (Hp : (0 < n)%nat) by (apply read_len_pos; done).
    unfold len in E. rewrite length_take in E. simpl in E. lia.
  - assert (Hl : (0 < length (take n file) <= n)%nat)
      by (unfold len in E; rewrite length_take in *; lia).
    destruct (IH (drop n file)) as (ms & E2 & Hms & Hne).
    { rewrite length_drop. rewrite length_take in Hl. lia. }
    exists (take n file :: ms). split_and!.
    + intros t. eapply loop_sent; [|exact E2]. unfold quic_send_file_turn, file_read. fold n.
      by rewrite (proj2 (Z.eqb_neq _ _) E).
    + simpl. by rewrite Hms, take_drop.
    + constructor; [|done]. split; [intros Hnil; by rewrite Hnil in E|]. unfold len. lia.
Qed.

(** What has been sent when nothing has failed. *)
Lemma send_all_sent `{!MessageSinkLaws T} (ms : list bytes) (t t' : T) r :
  send_all ms t = (t', Ready (Ok r)) ->
  r = Some tt /\ sent t' = sent t ++ ms /\ Forall (fun m => len m <= MAX_MESSAGE) ms.
Proof.
  revert t. induction ms as [|m ms IH]; intros t; cbn [send_all].
  - intros [= <- <-]. by rewrite app_nil_r.
  - unfold abind. destruct (sink_send m t) as [t1 [[[]| |]|]] eqn:E; try done. intros Hs.
    destruct (IH t1 Hs) as (-> & Hsent & Hall). apply sink_send_sent in E as Hm.
    rewrite Hsent, Hm, <- app_assoc. split_and!; [done..|]. constructor; [|done].
    destruct (Z.le_gt_cases (len m) MAX_MESSAGE) as [?|Hlt]; [done|].
    destruct (sink_send_refused m t ltac:(lia)) as (? & ? & ?). congruence.
Qed.

End sending_lemmas.

Section receiving_lemmas.

Context {T : Type} `{MessageSource T}.

(** What the receiver of a file makes of an answer that is no data. *)
Definition receive_end (total : Z) (r : poll (outcome error (option bytes))) :
    option (poll (outcome error (option Z))) :=
  match r with
  | Ready (Ok None) | Ready (Ok (Some [])) => Some (Ready (Ok (Some total)))
  | Ready (Ok (Some _)) => None
  | Ready (Err e) => Some (Ready (Err e))
  | Ready Panic => Some (Ready Panic)
  | Pending => Some Pending
  end.

Lemma receive_turn_data (path : string) (n total : Z) (t t' : T) (fs : Fs) (m : bytes) :
  m <> [] -> source_next t = (t', Ready (Ok (Some m))) ->
  quic_receive_file_turn path n total (t, fs) =
    ((t', alter (fun content => content ++ m) path fs), Ready (Ok
      (if total + len m =? n then Break (total + len m) else Continue (total + len m)))).
Proof.
  intros Hm E. unfold quic_receive_file_turn. rewrite (abind_ok _ _ (t, fs) (t', fs) (Some m)).
  - destruct m; [done|]. cbv [abind write_all_file]. by case_match.
  - unfold on_first. by rewrite E.
Qed.

Lemma receive_turn_end (path : string) (n total : Z) (t t' : T) (fs : Fs) r r' fuel :
  source_next t = (t', r) -> receive_end total r = Some r' ->
  loop (quic_receive_file_turn path n) (S fuel) total (t, fs) = ((t', fs), r').
Proof.
  intros E Hr. cbn [loop]. unfold quic_receive_file_turn, abind, on_first. rewrite E.
  destruct r as [[[[|b m]|]|e|]|]; cbn in Hr; by simplify_eq.
Qed.

Lemma yields_snoc (t t' : T) (ms : list bytes) (m : bytes) :
  yields t (ms ++ [m]) t' -> exists t1, yields t ms t1 /\ source_next t1 = (t', Ready (Ok (Some m))).
Proof.
  revert t. induction ms as [|m' ms IH]; intros t Hy; cbn in Hy; inversion Hy as [|? t1 ? ? ? E Hy']; subst.
  - inversion Hy'; subst. exists t. split; [constructor|done].
  - destruct (IH t1 Hy') as (t2 & ? & ?). exists t2. split; [by econstructor|done].
Qed.

Lemma len_concat_take (k : nat) (ms : list bytes) :
  0 <= len (concat (take k ms)) <= len (concat ms).
Proof.
  rewrite <- (take_drop k ms) at 3. rewrite concat_app, len_app.
  pose proof (len_nonneg (concat (drop k ms))). pose proof (len_nonneg (concat (take k ms))). lia.
Qed.

Lemma len_concat_take_lt (k : nat) (ms : list bytes) :
  Forall (fun m => m <> []) ms -> (k < length ms)%nat ->
  len (concat (take k ms)) < len (concat ms).
Proof.
  intros Hne Hk. rewrite <- (take_drop k ms) at 2. rewrite concat_app, len_app.
  destruct (drop k ms) as [|m rest] eqn:E.
  { apply (f_equal length) in E. rewrite length_drop in E. cbn in E. lia. }
  apply (Forall_drop _ k) in Hne. rewrite E in Hne. apply Forall_cons in Hne as [Hm _].
  cbn. rewrite len_app. pose proof (len_nonneg (concat rest)).
  destruct m as [|b m]; [done|]. rewrite len_cons. pose proof (len_nonneg m). lia.
Qed.

Lemma concat_nil_ms (ms : list bytes) :
  Forall (fun m => m <> []) ms -> concat ms = [] -> ms = [].
Proof. intros Hne Hc. destruct Hne as [|m ms Hm _]; [done|]. by apply app_nil in Hc as [-> _]. Qed.

(** Messages that do not make up the [n] bytes yet are written, and the loop goes on. *)
Lemma receive_file_loop (path : string) (n : Z) (ms : list bytes) (fuel : nat) (total : Z) (t t' : T)
    (fs : Fs) (content : bytes) :
  yields t ms t' -> Forall (fun m => m <> []) ms -> fs !! path = Some content ->
  (forall k, (0 < k <= length ms)%nat -> total + len (concat (take k ms)) <> n) ->
  loop (quic_receive_file_turn path n) (length ms + fuel) total (t, fs) =
  loop (quic_receive_file_turn path n) fuel (total + len (concat ms))
    (t', <[path := content ++ concat ms]> fs).
Proof.
  intros Hy. revert total fs content. induction Hy as [t|t t1 t2 m ms E Hy IH];
    intros total fs content Hne Hfs Hn; cbn [concat length].
  - change (len []) with 0. by rewrite Z.add_0_r, app_nil_r, insert_id.
  - apply Forall_cons in Hne as [Hm Hms]. cbn [plus loop].
    rewrite (abind_ok _ _ _ _ _ (receive_turn_data path n total t t1 fs m Hm E)).
    pose proof (Hn 1%nat ltac:(simpl; lia)) as H1. cbn in H1. rewrite app_nil_r in H1.
    rewrite (proj2 (Z.eqb_neq _ _) H1).
    assert (Hfs1 : alter (fun content => content ++ m) path fs = <[path := content ++ m]> fs).
    { apply map_eq. intros p. destruct (decide (p = path)) as [->|Hp].
      - by rewrite lookup_alter_eq, lookup_insert_eq, Hfs.
      - by rewrite lookup_alter_ne, lookup_insert_ne. }
    rewrite Hfs1, (IH _ _ (content ++ m) Hms (lookup_insert_eq _ _ _)).
    + rewrite insert_insert_eq, <- app_assoc, len_app, Z.add_assoc. done.
    + intros k Hk. specialize (Hn (S k)). cbn in Hn. rewrite len_app in Hn.
      rewrite <- Z.add_assoc. apply Hn. lia.
Qed.

(** The last of the [n] bytes ends the loop. *)
Lemma receive_file_whole (path : string) (ms : list bytes) (fuel : nat) (t t' : T) (fs : Fs) :
  ms <> [] -> yields t ms t' -> Forall (fun m => m <> []) ms -> fs !! path = Some [] ->
  (length ms <= fuel)%nat ->
  loop (quic_receive_file_turn path (len (concat ms))) fuel 0 (t, fs) =
    ((t', <[path := concat ms]> fs), Ready (Ok (Some (len (concat ms))))).
Proof.
  intros Hms Hy Hne Hfs Hf. destruct (exists_last Hms) as (ms0 & m & ->). clear Hms.
  apply yields_snoc in Hy as (t1 & Hy & E). apply Forall_app in Hne as [Hne [Hm _]%Forall_cons].
  rewrite length_app in Hf. cbn in Hf.
  assert (Hc : concat (ms0 ++ [m]) = concat ms0 ++ m) by (rewrite concat_app; cbn; by rewrite app_nil_r).
  rewrite Hc, len_app.
  assert (Hpos : 0 < len m) by (destruct m; [done|]; rewrite len_cons; pose proof (len_nonneg m); lia).
  replace fuel with (length ms0 + S (fuel - length ms0 - 1))%nat by lia.
  rewrite (receive_file_loop path _ ms0 _ 0 t t1 fs [] Hy Hne Hfs).
  2:{ intros k Hk. pose proof (len_concat_take k ms0). lia. }
  cbn [loop]. rewrite (abind_ok _ _ _ _ _ (receive_turn_data path _ _ t1 t' _ m Hm E)).
  rewrite !Z.add_0_l, Z.eqb_refl. unfold aret. do 3 f_equal. cbn [app].
  apply map_eq. intros p. destruct (decide (p = path)) as [->|Hp].
  - by rewrite lookup_alter_eq, !lookup_insert_eq.
  - by rewrite lookup_alter_ne, !lookup_insert_ne.
Qed.

End receiving_lemmas.

(** ** Properties *)

(** C32: What sending bytes over QUIC does, whatever the sink answers.  With a buffer of
    [size > 0] bytes it is to send the pieces of [size] bytes one after the other, which
    together are the data: it ends with the first answer that is not a success, and when
    all have succeeded the peer is given exactly the pieces in order.  A buffer of more than
    the 8 MiB of a message makes longer data fail.  With a buffer of zero bytes, which the
    setters allow, data that is not empty is sent as an empty message in every iteration,
    and no number of iterations is enough. *)
Theorem quic_send_chunks {Tx Rx : Type} `{MessageSinkLaws Tx} (self : QuicStream.t Tx Rx)
    (data : bytes) (fuel : nat) (Hfuel : (length data < fuel)%nat) :
  let size := QuicStream.write_buffer_size self in
  let pieces := chunks_of (Z.to_nat size) data in
  (0 < size ->
    QuicStream.send fuel data self = QuicStream.on_writer (send_all pieces) self /\
    concat pieces = data /\ Forall (fun m => m <> [] /\ len m <= size) pieces /\
    (forall w r, QuicStream.send fuel data self = (QuicStream.set_writer self w, Ready (Ok r)) ->
       r = Some tt /\ sent w = sent (QuicStream.framed_writer self) ++ pieces) /\
    (MAX_MESSAGE < size -> MAX_MESSAGE < len data -> exists self' e,
       QuicStream.send fuel data self = (self', Ready (Err e)))) /\
  (size = 0 -> data <> [] -> forall fuel',
    QuicStream.send fuel' data self =
      QuicStream.on_writer (await _ := send_all (replicate fuel' []) in aret None) self).
Proof.
  intros size pieces. split.
  - intros Hs.
    assert (E : QuicStream.send fuel data self = QuicStream.on_writer (send_all pieces) self).
    { unfold QuicStream.send, abind, aget, QuicStream.on_writer, quic_send. fold size.
      change 0 with (Z.of_nat 0). rewrite (send_loop size data fuel 0 _ Hs), drop_0 by lia.
      by rewrite (chunks_fuel fuel (length data)) by lia. }
    split_and!.
    + exact E.
    + apply chunks_concat; lia.
    + eapply Forall_impl; [apply chunks_sizes; lia|]. unfold len. intros m [? ?]. split; [done|lia].
    + rewrite E. intros w r. unfold QuicStream.on_writer.
      destruct (send_all pieces _) as [w' r'] eqn:Es. intros Heq.
      assert (w' = w) as -> by (by injection Heq). assert (r' = Ready (Ok r)) as -> by (by injection Heq).
      by apply send_all_sent in Es as (? & ? & _).
    + rewrite E. intros Hbig Hlong. unfold pieces, chunks_of. destruct data as [|b data]; [done|].
      cbn [chunks length send_all]. unfold QuicStream.on_writer, abind.
      destruct (sink_send_refused (take (Z.to_nat size) (b :: data)) (QuicStream.framed_writer self))
        as (w & e & ->); [|by do 2 eexists].
      unfold len in *. rewrite length_take. unfold MAX_MESSAGE in *. lia.
  - intros Hs Hd fuel'. unfold QuicStream.send, abind at 1, aget, QuicStream.on_writer, quic_send.
    fold size. rewrite Hs. by rewrite send_loop_zero.
Qed.

(** C12: What sending and receiving a file over QUIC do, whatever the sink and the source
    answer and whatever amounts the file reads return.  With a buffer of [size > 0] bytes,
    [send_file] is to send pieces of at most that size one after the other, which together
    are the file; with a buffer of zero bytes it succeeds and sends nothing.  A receiver
    that is given all the pieces of a file that is not empty writes the file, returns its
    length and takes no further message.  One that is given only some of them, or expects an
    empty file, waits for more; when its stream ends, or gives an empty message, it returns
    success with the shorter file, and an error of the stream is its own error, the pieces
    being written. *)
Theorem quic_file_transfer {Tx Rx : Type} `{MessageSink Tx} `{MessageSource Rx} `{FileRead}
    (self : QuicStream.t Tx Rx) (fs : Fs) (path : string) (file : bytes) (fuel : nat)
    (Hfile : fs !! path = Some file) (Hfuel : (length file < fuel)%nat) :
  let size := QuicStream.write_buffer_size self in
  (size = 0 -> QuicStream.send_file fuel path (self, fs) = ((self, fs), Ready (Ok (Some tt)))) /\
  (0 < size -> exists ms,
    QuicStream.send_file fuel path (self, fs) =
      (let '(self', r) := QuicStream.on_writer (send_all ms) self in ((self', fs), r)) /\
    concat ms = file /\ Forall (fun m => m <> [] /\ len m <= size) ms /\
    forall (peer : QuicStream.t Tx Rx) (fs2 : Fs) (path2 : string) (k fuel2 : nat) (rx : Rx),
      (length ms < fuel2)%nat -> yields (QuicStream.framed_reader peer) (take k ms) rx ->
      (file <> [] -> (length ms <= k)%nat ->
       QuicStream.receive_file fuel2 path2 (len file) (peer, fs2) =
         ((QuicStream.set_reader peer rx, <[path2 := file]> fs2), Ready (Ok (Some (len file))))) /\
      ((k < length ms)%nat \/ file = [] -> forall rx' r r', source_next rx = (rx', r) ->
       receive_end (len (concat (take k ms))) r = Some r' ->
       QuicStream.receive_file fuel2 path2 (len file) (peer, fs2) =
         ((QuicStream.set_reader peer rx', <[path2 := concat (take k ms)]> fs2), r'))).
Proof.
  intros size. split.
  - intros Hs. unfold QuicStream.send_file, quic_send_file, abind, open_file. rewrite Hfile.
    fold size. rewrite Hs. unfold on_first. destruct fuel as [|fuel]; [lia|]. cbn [loop].
    unfold abind, quic_send_file_turn, file_read.
    pose proof (read_len_fits 0 file) as Hfit. replace (read_len 0 file) with 0%nat by lia.
    cbn. by destruct self.
  - intros Hs. destruct (send_file_loop (T := Tx) size fuel file Hs Hfuel) as (ms & E & Hms & Hne).
    exists ms. split_and!; try done.
    + unfold QuicStream.send_file, quic_send_file, abind at 1, open_file, QuicStream.on_writer. rewrite Hfile.
      fold size. unfold on_first. rewrite E. by destruct (send_all ms _).
    + intros peer fs2 path2 k fuel2 rx Hf2 Hy.
      assert (Hn : Forall (fun m => m <> []) ms) by (eapply Forall_impl; [exact Hne|naive_solver]).
      unfold QuicStream.receive_file, quic_receive_file.
      rewrite (abind_ok _ _ (QuicStream.framed_reader peer, fs2)
        (QuicStream.framed_reader peer, <[path2 := []]> fs2) tt) by done.
      rewrite <- Hms. split.
      * intros Hf Hk. rewrite take_ge in Hy by done.
        rewrite (receive_file_whole path2 ms fuel2 (QuicStream.framed_reader peer) rx); try done;
          [by rewrite insert_insert_eq|by intros ->|by rewrite lookup_insert_eq|lia].
      * intros Hk rx' r r' Er Hr.
        replace fuel2 with (length (take k ms) + S (fuel2 - length (take k ms) - 1))%nat
          by (rewrite length_take; lia).
        rewrite (receive_file_loop path2 _ (take k ms) _ 0 (QuicStream.framed_reader peer) rx _ [] Hy);
          [|by apply Forall_take|by rewrite lookup_insert_eq|].
        -- rewrite (receive_turn_end path2 _ _ rx rx' _ r r'); [by rewrite insert_insert_eq|done|done].
        -- intros j Hj. rewrite length_take in Hj. rewrite take_take.
           destruct Hk as [Hk|Hk];
             [|rewrite (concat_nil_ms ms Hn Hk) in Hj; cbn in Hj; lia].
           pose proof (len_concat_take_lt (j `min` k) ms Hn). lia.
Qed.

(** A frame crosses a QUIC stream as one message: once [send_frame] has
    succeeded, a peer whose next message it is receives the frame as it was
    sent, with the length field set to the payload's length.  A frame whose
    payload is more than 8 MiB less the header cannot be sent. *)
Theorem quic_frame_roundtrip {Tx Rx : Type} `{MessageSinkLaws Tx} `{MessageSource Rx}
    (self self' peer : QuicStream.t Tx Rx) (f : Frame.t) (Hf : Frame.wf f = true) :
  (QuicStream.send_frame f self = (self', Ready (Ok tt)) ->
   exists m,
     sent (QuicStream.framed_writer self') = sent (QuicStream.framed_writer self) ++ [m] /\
     forall rx, source_next (QuicStream.framed_reader peer) = (rx, Ready (Ok (Some m))) ->
       QuicStream.receive_frame peer =
         (QuicStream.set_reader peer rx, Ready (Ok (Frame.normal f)))) /\
  (MAX_MESSAGE < 14 + len (Frame.payload f) -> exists self2 e,
     QuicStream.send_frame f self = (self2, Ready (Err e))).
Proof.
  unfold QuicStream.send_frame, QuicStream.on_writer, quic_send_frame. rewrite to_bytes_header.
  set (m := header_bytes _ _ ++ _). split.
  - destruct (sink_send m _) as [w [[[]| |]|]] eqn:E; try done. intros [= <-]. exists m. split.
    + by apply sink_send_sent.
    + intros rx Er. unfold QuicStream.receive_frame, QuicStream.on_reader, quic_receive_frame.
      rewrite (abind_ok _ _ _ _ _ Er). unfold m. by rewrite from_bytes_encoded.
  - intros Hm. destruct (sink_send_refused m (QuicStream.framed_writer self)) as (w & e & E).
    + unfold m. rewrite len_app, len_header_bytes. done.
    + rewrite E. by do 2 eexists.
Qed.

(** ** Witnesses: queues of messages that are always ready. *)

#[local] Existing Instance full_reads.

#[local] Instance queue_sink : MessageSink (list bytes) := {|
  sink_send := fun m q =>
    if MAX_MESSAGE <? len m then (q, Ready (Err (Anyhow "frame size too big")))
    else (q ++ [m], Ready (Ok tt));
  sink_close := aret tt;
  inner_poll_write := fun buf => aret (len buf);
  inner_poll_flush := aret tt;
  inner_poll_shutdown := aret tt;
  sent := fun q => q
|}.

#[local] Instance queue_sink_laws : MessageSinkLaws (list bytes).
Proof.
  split; simpl.
  - intros m t t'. case_match; [done|]. by intros [= <-].
  - intros m t Hm. rewrite (proj2 (Z.ltb_lt _ _)) by done. by do 2 eexists.
Qed.

#[local] Instance queue_source : MessageSource (list bytes) := {|
  source_next := fun q =>
    match q with m :: q' => (q', Ready (Ok (Some m))) | [] => ([], Ready (Ok None)) end;
  inner_poll_read := aret [];
  arriving := fun q => q
|}.

#[local] Instance queue_source_laws : MessageSourceLaws (list bytes).
Proof.
  split; simpl.
  - intros [|m' t] t' m; [done|]. by intros [= -> ->].
  - intros [|m' t] t'; [|done]. by intros [= <-].
Qed.

Definition demo_quic (size : Z) (q : list bytes) : QuicStream.t (list bytes) (list bytes) :=
  QuicStream.new (StreamId.mk 1) [] q size 4096.

Definition demo_data : bytes := map byte_of [1; 2; 3].

Lemma quic_send_chunks_witness :
  (exists w, QuicStream.send 4 demo_data (demo_quic 2 []) =
      (QuicStream.set_writer (demo_quic 2 []) w, Ready (Ok (Some tt))) /\
    sent w = [map byte_of [1; 2]; [byte_of 3]]) /\
  QuicStream.send 5 demo_data (demo_quic 0 []) =
    (QuicStream.set_writer (demo_quic 0 []) (replicate 5 []), Ready (Ok None)).
Proof.
  split.
  - destruct (quic_send_chunks (demo_quic 2 []) demo_data 4 ltac:(simpl; lia)) as [Hpos _].
    destruct (Hpos eq_refl) as (_ & _ & _ & Hsent & _).
    assert (E : QuicStream.send 4 demo_data (demo_quic 2 []) =
      (QuicStream.set_writer (demo_quic 2 []) [map byte_of [1; 2]; [byte_of 3]], Ready (Ok (Some tt))))
      by (vm_compute; reflexivity).
    eexists. split; [exact E|]. exact (proj2 (Hsent _ _ E)).
  - destruct (quic_send_chunks (demo_quic 0 []) demo_data 4 ltac:(simpl; lia)) as [_ Hzero].
    rewrite (Hzero eq_refl ltac:(discriminate)). vm_compute. reflexivity.
Defined.

Definition demo_arriving : list bytes := [map byte_of [1; 2]; [byte_of 3]].

(** The file arrives; and without its last piece the receiver succeeds all the same. *)
Lemma quic_file_transfer_witness :
  QuicStream.receive_file 3 "out" 3 (demo_quic 2 demo_arriving, ∅) =
    ((QuicStream.set_reader (demo_quic 2 demo_arriving) [], <["out" := demo_data]> ∅),
     Ready (Ok (Some 3))) /\
  QuicStream.receive_file 3 "out" 3 (demo_quic 2 [map byte_of [1; 2]], ∅) =
    ((QuicStream.set_reader (demo_quic 2 [map byte_of [1; 2]]) [],
      <["out" := map byte_of [1; 2]]> ∅), Ready (Ok (Some 2))).
Proof.
  destruct (quic_file_transfer (demo_quic 2 []) {[ "in" := demo_data ]} "in" demo_data 4
    (lookup_singleton_eq _ _) ltac:(simpl; lia)) as [_ Hpos].
  destruct (Hpos eq_refl) as (ms & E & _ & _ & Hrecv).
  assert (Hms : ms = demo_arriving).
  { assert (Hs : (QuicStream.on_writer (send_all ms) (demo_quic 2 [])).1 =
      (QuicStream.on_writer (send_all demo_arriving) (demo_quic 2 [])).1 /\
      (QuicStream.on_writer (send_all ms) (demo_quic 2 [])).2 = Ready (Ok (Some tt))).
    { destruct (QuicStream.on_writer (send_all ms) (demo_quic 2 [])) as [x r].
      apply (f_equal (fun y => (y.1.1, y.2))) in E. cbn in E. vm_compute in E.
      injection E as <- <-. split; vm_compute; reflexivity. }
    destruct Hs as [Hs Hr]. unfold QuicStream.on_writer in Hs, Hr.
    destruct (send_all ms (QuicStream.framed_writer (demo_quic 2 []))) as [w r] eqn:Es.
    cbn in Hr. subst r. apply send_all_sent in Es as (_ & Hw & _). cbn in Hw. subst w.
    injection Hs as Hs. exact Hs. }
  subst ms. split.
  - refine (proj1 (Hrecv (demo_quic 2 demo_arriving) ∅ "out" 2%nat 3%nat [] _ _) _ _);
      [cbn; lia| |discriminate|cbn; lia].
    do 2 (eapply yields_cons; [reflexivity|]). constructor.
  - refine (proj2 (Hrecv (demo_quic 2 [map byte_of [1; 2]]) ∅ "out" 1%nat 3%nat [] _ _) _ [] (Ready (Ok None)) _ eq_refl eq_refl);
      [cbn; lia| |left; cbn; lia].
    eapply yields_cons; [reflexivity|]. constructor.
Defined.

Lemma quic_frame_roundtrip_witness :
  QuicStream.receive_frame
      (demo_quic 2 [header_bytes (Frame.header sample_frame) (len (Frame.payload sample_frame))
        ++ Frame.payload sample_frame]) =
    (QuicStream.set_reader (demo_quic 2 [header_bytes (Frame.header sample_frame)
        (len (Frame.payload sample_frame)) ++ Frame.payload sample_frame]) [],
     Ready (Ok (Frame.normal sample_frame))).
Proof.
  destruct (quic_frame_roundtrip (demo_quic 2 [])
    (QuicStream.send_frame sample_frame (demo_quic 2 [])).1 (demo_quic 2 [header_bytes
    (Frame.header sample_frame) (len (Frame.payload sample_frame)) ++ Frame.payload sample_frame])
    sample_frame eq_refl) as [H _].
  destruct (H eq_refl) as (m & Hm & Hrecv). injection Hm as <-. exact (Hrecv [] eq_refl).
Defined.
