(* ===== verification/Connection.v ===== *)
(** * Connections and streams

    foctet-net/src/transport/stream.rs, connection.rs, quic/connection.rs and
    tcp/connection.rs: the two kinds of stream behind [Stream] and the two kinds
    of connection behind [Connection].

    [ConnLib] is what connections are made over: a connection of the [quinn]
    library, or the TLS stream of [tokio_rustls] over TCP.  A TCP connection is a
    session of foctet-mux over such a stream; its operations run in the [World] of
    that session, which its streams share.  An operation of the session that
    waits for the actor has two phases; a future remembers the phase it is in. *)

From S2P Require Import Prelude Text Key Ip Ids X509 Tls Node Frame Tokio Files Config MuxStream MuxSession.
From S2P Require Import TcpStream QuicStream.

Local Open Scope Z_scope.
Local Open Scope async_scope.

(** [AtomicU32::fetch_add], which wraps around: the new value and the old. *)
Definition atomic_fetch_add (counter n : Z) : Z * Z := (as_u32 (counter + n), counter).

Module Stream.

Section stream.

Context {Tx Rx : Type} `{MessageSink Tx} `{MessageSource Rx} {W : Type} `{StreamHost W} `{FileRead}.

(** foctet-net/src/transport/stream.rs:36-39, [Stream]; the halves of the logical
    stream are fields of [LogicalTcpStream]. *)
Inductive t : Type :=
| Quic (stream : QuicStream.t Tx Rx)
| Tcp (stream : LogicalTcpStream.t) (halves : Halves.t).

(** The [match self] of every method: the stream itself changes with the call. *)
Definition dispatch {A : Type} (quic : async (QuicStream.t Tx Rx) A)
    (tcp : LogicalTcpStream.t -> async (Halves.t * W) A) : async (t * W) A :=
  fun '(self, w) =>
    match self with
    | Quic stream => let '(stream, r) := quic stream in ((Quic stream, w), r)
    | Tcp stream h => let '((h, w), r) := tcp stream (h, w) in ((Tcp stream h, w), r)
    end.

Definition dispatch_file {A : Type} (quic : async (QuicStream.t Tx Rx * Fs) A)
    (tcp : LogicalTcpStream.t -> async (Halves.t * W * Fs) A) : async (t * W * Fs) A :=
  fun '(self, w, fs) =>
    match self with
    | Quic stream => let '((stream, fs), r) := quic (stream, fs) in ((Quic stream, w, fs), r)
    | Tcp stream h => let '((h, w, fs), r) := tcp stream (h, w, fs) in ((Tcp stream h, w, fs), r)
    end.

(** foctet-net/src/transport/stream.rs:42-47, [Stream::stream_id]. *)
Definition stream_id (self : t) : StreamId.t :=
  match self with
  | Quic stream => QuicStream.stream_id stream
  | Tcp stream _ => LogicalTcpStream.stream_id stream
  end.

(** foctet-net/src/transport/stream.rs:48-53, [Stream::send]; the QUIC side loops,
    under fuel. *)
Definition send (fuel : nat) (data : bytes) : async (t * W) (option unit) :=
  dispatch (QuicStream.send fuel data)
    (fun _ => await r := LogicalTcpStream.send data in aret (Some r)).

(** foctet-net/src/transport/stream.rs:54-59, [Stream::receive]. *)
Definition receive : async (t * W) bytes :=
  dispatch QuicStream.receive (fun _ => LogicalTcpStream.receive).

(** foctet-net/src/transport/stream.rs:60-65, [Stream::send_frame]. *)
Definition send_frame (frame : Frame.t) : async (t * W) unit :=
  dispatch (QuicStream.send_frame frame) (fun _ => LogicalTcpStream.send_frame frame).

(** foctet-net/src/transport/stream.rs:66-71, [Stream::receive_frame]. *)
Definition receive_frame : async (t * W) Frame.t :=
  dispatch QuicStream.receive_frame (fun _ => LogicalTcpStream.receive_frame).

(** foctet-net/src/transport/stream.rs:72-77, [Stream::send_file]. *)
Definition send_file (fuel : nat) (file_path : string) : async (t * W * Fs) (option unit) :=
  dispatch_file (QuicStream.send_file fuel file_path)
    (fun stream => LogicalTcpStream.send_file stream fuel file_path).

(** foctet-net/src/transport/stream.rs:78-83, [Stream::receive_file]. *)
Definition receive_file (fuel : nat) (file_path : string) (len : Z) :
    async (t * W * Fs) (option Z) :=
  dispatch_file (QuicStream.receive_file fuel file_path len)
    (fun _ => LogicalTcpStream.receive_file fuel file_path len).

(** foctet-net/src/transport/stream.rs:84-89, [Stream::close]. *)
Definition close : async (t * W) unit :=
  dispatch QuicStream.close (fun _ => LogicalTcpStream.close).

End stream.

Arguments t : clear implicits.

End Stream.

(** [quinn::Connection].  [peer_identity] is nothing, something that is not a list
    of certificates, or the certificates of the peer.  [Raw] is a
    [tokio::net::TcpStream]. *)
Class ConnLib : Type := {
  QuinnConn : Type;
  SendStream : Type;
  RecvStream : Type;
  send_stream_sink :: MessageSink SendStream;
  recv_stream_source :: MessageSource RecvStream;
  open_bi : async QuinnConn (SendStream * RecvStream);
  accept_bi : async QuinnConn (SendStream * RecvStream);
  quinn_close : Z -> bytes -> QuinnConn -> QuinnConn;
  remote_address : QuinnConn -> SocketAddr.t;
  peer_identity : QuinnConn -> option (option (list bytes));
  quinn_handshake_of : QuinnConn -> Handshake;
  Raw : Type;
  raw_tls :: TlsLib Raw
}.

(** What the state of a [quinn] connection says of its handshake, which accepting a
    stream does not change. *)
Definition quinn_session `{ConnLib} (q : QuinnConn) : option (option (list bytes)) * Handshake :=
  (peer_identity q, quinn_handshake_of q).

Class ConnLaws `{ConnLib} : Prop := {
  accept_bi_session : forall q q' r, accept_bi q = (q', r) -> quinn_session q' = quinn_session q
}.

(** Where an operation on the session stands: before its command is sent, or
    waiting for the answer. *)
Inductive session_future : Type :=
| Requesting
| Waiting (reply : OneshotId).

Module QuicConnection.

Section quic_connection.

Context `{StackAddrLib} `{ConnLib}.

(** foctet-net/src/transport/quic/connection.rs:9-19, [QuicConnection]. *)
Record t : Type := mk {
  direction : Direction;
  local_addr : StackAddr;
  remote_addr : StackAddr;
  local_node_id : NodeId;
  remote_node_id : NodeId;
  connection : QuinnConn;
  write_buffer_size : Z;
  read_buffer_size : Z;
  next_stream_id : Z
}.

(** foctet-net/src/transport/quic/connection.rs:22-39, [QuicConnection::new]. *)
Definition new (direction : Direction) (local_addr remote_addr : StackAddr) (connection : QuinnConn) :
    t :=
  mk direction local_addr remote_addr PublicKey.zero PublicKey.zero connection
    DEFAULT_WRITE_BUFFER_SIZE DEFAULT_READ_BUFFER_SIZE 1.

(** foctet-net/src/transport/quic/connection.rs:40-43, [QuicConnection::with_direction]. *)
Definition with_direction (self : t) (direction : Direction) : t :=
  mk direction (local_addr self) (remote_addr self) (local_node_id self) (remote_node_id self)
    (connection self) (write_buffer_size self) (read_buffer_size self) (next_stream_id self).

(** foctet-net/src/transport/quic/connection.rs:44-47, [QuicConnection::with_local_addr]. *)
Definition with_local_addr (self : t) (local_addr : StackAddr) : t :=
  mk (direction self) local_addr (remote_addr self) (local_node_id self) (remote_node_id self)
    (connection self) (write_buffer_size self) (read_buffer_size self) (next_stream_id self).

(** foctet-net/src/transport/quic/connection.rs:48-51, [QuicConnection::with_remote_addr]. *)
Definition with_remote_addr (self : t) (remote_addr : StackAddr) : t :=
  mk (direction self) (local_addr self) remote_addr (local_node_id self) (remote_node_id self)
    (connection self) (write_buffer_size self) (read_buffer_size self) (next_stream_id self).

(** foctet-net/src/transport/quic/connection.rs:52-58, [QuicConnection::with_local_node_id]. *)
Definition with_local_node_id (self : t) (local_node_id : NodeId) : t :=
  mk (direction self) (local_addr self) (remote_addr self) local_node_id (remote_node_id self)
    (connection self) (write_buffer_size self) (read_buffer_size self) (next_stream_id self).

(** foctet-net/src/transport/quic/connection.rs:59-65, [QuicConnection::with_remote_node_id]. *)
Definition with_remote_node_id (self : t) (remote_node_id : NodeId) : t :=
  mk (direction self) (local_addr self) (remote_addr self) (local_node_id self) remote_node_id
    (connection self) (write_buffer_size self) (read_buffer_size self) (next_stream_id self).

(** foctet-net/src/transport/quic/connection.rs:66-69, [QuicConnection::with_connection]. *)
Definition with_connection (self : t) (connection : QuinnConn) : t :=
  mk (direction self) (local_addr self) (remote_addr self) (local_node_id self)
    (remote_node_id self) connection (write_buffer_size self) (read_buffer_size self)
    (next_stream_id self).

(** foctet-net/src/transport/quic/connection.rs:70-73, [QuicConnection::with_write_buffer_size]. *)
Definition with_write_buffer_size (self : t) (write_buffer_size : Z) : t :=
  mk (direction self) (local_addr self) (remote_addr self) (local_node_id self)
    (remote_node_id self) (connection self) write_buffer_size (read_buffer_size self)
    (next_stream_id self).

(** foctet-net/src/transport/quic/connection.rs:74-77, [QuicConnection::with_read_buffer_size]. *)
Definition with_read_buffer_size (self : t) (read_buffer_size : Z) : t :=
  mk (direction self) (local_addr self) (remote_addr self) (local_node_id self)
    (remote_node_id self) (connection self) (write_buffer_size self) read_buffer_size
    (next_stream_id self).

(** foctet-net/src/transport/quic/connection.rs:78-81, [QuicConnection::with_initial_stream_id]. *)
Definition with_initial_stream_id (self : t) (ini_stream_id : Z) : t :=
  mk (direction self) (local_addr self) (remote_addr self) (local_node_id self)
    (remote_node_id self) (connection self) (write_buffer_size self) (read_buffer_size self)
    ini_stream_id.

(** A call on the connection of the library. *)
Definition on_connection {A : Type} (m : async QuinnConn A) : async t A :=
  fun self => let '(c, r) := m (connection self) in (with_connection self c, r).

(** [self.next_stream_id.fetch_add(1)]. *)
Definition take_stream_id : async t StreamId.t :=
  fun self =>
    let '(next, old) := atomic_fetch_add (next_stream_id self) 1 in
    (with_initial_stream_id self next, Ready (Ok (StreamId.new old))).

(** foctet-net/src/transport/quic/connection.rs:105-115, [QuicConnection::open_stream]. *)
Definition open_stream : async t (Stream.t SendStream RecvStream) :=
  await streams := on_connection open_bi in
  let '(send_stream, recv_stream) := streams in
  await stream_id := take_stream_id in
  await self := aget in
  aret (Stream.Quic (QuicStream.new stream_id send_stream recv_stream (write_buffer_size self)
    (read_buffer_size self))).

(** foctet-net/src/transport/quic/connection.rs:117-130, [QuicConnection::accept_stream]. *)
Definition accept_stream : async t (Stream.t SendStream RecvStream) :=
  await streams := on_connection accept_bi in
  let '(send_stream, recv_stream) := streams in
  await stream_id := take_stream_id in
  await self := aget in
  aret (Stream.Quic (QuicStream.new stream_id send_stream recv_stream (write_buffer_size self)
    (read_buffer_size self))).

(** foctet-net/src/transport/quic/connection.rs:132-135, [QuicConnection::close]. *)
Definition close : async t unit :=
  amodify (fun self => with_connection self (quinn_close 0 [] (connection self))).

End quic_connection.

End QuicConnection.

Module TcpConnection.

Section tcp_connection.

Context `{StackAddrLib} `{ConnLib}.

(** foctet-net/src/transport/tcp/connection.rs:17-27, [TcpConnection]. *)
Record t : Type := mk {
  direction : Direction;
  local_addr : StackAddr;
  remote_addr : StackAddr;
  local_node_id : NodeId;
  remote_node_id : NodeId;
  connection : Session.t (TlsStream (Raw := Raw));
  write_buffer_size : Z;
  read_buffer_size : Z;
  next_stream_id : Z
}.

(** foctet-net/src/transport/tcp/connection.rs:30-47, [TcpConnection::new]. *)
Definition new (direction : Direction) (local_addr remote_addr : StackAddr)
    (connection : Session.t (TlsStream (Raw := Raw))) : t :=
  mk direction local_addr remote_addr PublicKey.zero PublicKey.zero connection
    DEFAULT_WRITE_BUFFER_SIZE DEFAULT_READ_BUFFER_SIZE 1.

(** foctet-net/src/transport/tcp/connection.rs:48-51, [TcpConnection::with_direction]. *)
Definition with_direction (self : t) (direction : Direction) : t :=
  mk direction (local_addr self) (remote_addr self) (local_node_id self) (remote_node_id self)
    (connection self) (write_buffer_size self) (read_buffer_size self) (next_stream_id self).

(** foctet-net/src/transport/tcp/connection.rs:52-55, [TcpConnection::with_local_addr]. *)
Definition with_local_addr (self : t) (local_addr : StackAddr) : t :=
  mk (direction self) local_addr (remote_addr self) (local_node_id self) (remote_node_id self)
    (connection self) (write_buffer_size self) (read_buffer_size self) (next_stream_id self).

(** foctet-net/src/transport/tcp/connection.rs:56-59, [TcpConnection::with_remote_addr]. *)
Definition with_remote_addr (self : t) (remote_addr : StackAddr) : t :=
  mk (direction self) (local_addr self) remote_addr (local_node_id self) (remote_node_id self)
    (connection self) (write_buffer_size self) (read_buffer_size self) (next_stream_id self).

(** foctet-net/src/transport/tcp/connection.rs:60-66, [TcpConnection::with_local_node_id]. *)
Definition with_local_node_id (self : t) (local_node_id : NodeId) : t :=
  mk (direction self) (local_addr self) (remote_addr self) local_node_id (remote_node_id self)
    (connection self) (write_buffer_size self) (read_buffer_size self) (next_stream_id self).

(** foctet-net/src/transport/tcp/connection.rs:67-73, [TcpConnection::with_remote_node_id]. *)
Definition with_remote_node_id (self : t) (remote_node_id : NodeId) : t :=
  mk (direction self) (local_addr self) (remote_addr self) (local_node_id self) remote_node_id
    (connection self) (write_buffer_size self) (read_buffer_size self) (next_stream_id self).

(** foctet-net/src/transport/tcp/connection.rs:74-77, [TcpConnection::with_connection]. *)
Definition with_connection (self : t) (connection : Session.t (TlsStream (Raw := Raw))) : t :=
  mk (direction self) (local_addr self) (remote_addr self) (local_node_id self)
    (remote_node_id self) connection (write_buffer_size self) (read_buffer_size self)
    (next_stream_id self).

(** foctet-net/src/transport/tcp/connection.rs:78-81, [TcpConnection::with_write_buffer_size]. *)
Definition with_write_buffer_size (self : t) (write_buffer_size : Z) : t :=
  mk (direction self) (local_addr self) (remote_addr self) (local_node_id self)
    (remote_node_id self) (connection self) write_buffer_size (read_buffer_size self)
    (next_stream_id self).

(** foctet-net/src/transport/tcp/connection.rs:82-85, [TcpConnection::with_read_buffer_size]. *)
Definition with_read_buffer_size (self : t) (read_buffer_size : Z) : t :=
  mk (direction self) (local_addr self) (remote_addr self) (local_node_id self)
    (remote_node_id self) (connection self) (write_buffer_size self) read_buffer_size
    (next_stream_id self).

(** foctet-net/src/transport/tcp/connection.rs:86-89, [TcpConnection::with_initial_stream_id]. *)
Definition with_initial_stream_id (self : t) (ini_stream_id : Z) : t :=
  mk (direction self) (local_addr self) (remote_addr self) (local_node_id self)
    (remote_node_id self) (connection self) (write_buffer_size self) (read_buffer_size self)
    ini_stream_id.

(** The stream that the halves of a logical stream make. *)
Definition tcp_stream {Tx Rx : Type} (self : t) (logical_stream : LogicalStream.t) : Stream.t Tx Rx :=
  Stream.Tcp (LogicalTcpStream.new (LogicalStream.stream_id logical_stream)
    (write_buffer_size self) (read_buffer_size self)) (split logical_stream).

(** [self.next_stream_id.fetch_add(1)], of which the result is not used. *)
Definition count_stream (self : t) : t :=
  with_initial_stream_id self (atomic_fetch_add (next_stream_id self) 1).1.

(** [self.connection.open_stream().await]: where the future stands, and the
    session's world. *)
Definition session_open_stream : async (session_future * World.t) LogicalStream.t :=
  fun '(fut, w) =>
    match fut with
    | Requesting =>
        match Session.open_stream_request w with
        | (w, Ready (Ok reply)) =>
            let '(w, r) := Session.open_stream_reply reply w in ((Waiting reply, w), r)
        | (w, Ready (Err e)) => ((fut, w), Ready (Err e))
        | (w, Ready Panic) => ((fut, w), Ready Panic)
        | (w, Pending) => ((fut, w), Pending)
        end
    | Waiting reply =>
        let '(w, r) := Session.open_stream_reply reply w in ((Waiting reply, w), r)
    end.

(** [self.connection.shutdown().await]. *)
Definition session_shutdown : async (session_future * World.t) unit :=
  fun '(fut, w) =>
    match fut with
    | Requesting =>
        match Session.shutdown_request w with
        | (w, Ready (Ok reply)) =>
            let '(w, r) := Session.shutdown_reply reply w in ((Waiting reply, w), r)
        | (w, Ready (Err e)) => ((fut, w), Ready (Err e))
        | (w, Ready Panic) => ((fut, w), Ready Panic)
        | (w, Pending) => ((fut, w), Pending)
        end
    | Waiting reply =>
        let '(w, r) := Session.shutdown_reply reply w in ((Waiting reply, w), r)
    end.

(** foctet-net/src/transport/tcp/connection.rs:113-127, [TcpConnection::open_stream]. *)
Definition open_stream {Tx Rx : Type} : async (session_future * (t * World.t)) (Stream.t Tx Rx) :=
  fun '(fut, (self, w)) =>
    match session_open_stream (fut, w) with
    | ((fut, w), Ready (Ok logical_stream)) =>
        let self := count_stream self in
        ((fut, (self, w)), Ready (Ok (tcp_stream self logical_stream)))
    | ((fut, w), Ready (Err e)) => ((fut, (self, w)), Ready (Err e))
    | ((fut, w), Ready Panic) => ((fut, (self, w)), Ready Panic)
    | ((fut, w), Pending) => ((fut, (self, w)), Pending)
    end.

(** foctet-net/src/transport/tcp/connection.rs:129-147, [TcpConnection::accept_stream]. *)
Definition accept_stream {Tx Rx : Type} : async (t * World.t) (Stream.t Tx Rx) :=
  fun '(self, w) =>
    match Session.accept_stream w with
    | (w, Ready (Ok logical_stream)) =>
        let self := count_stream self in
        ((self, w), Ready (Ok (tcp_stream self logical_stream)))
    | (w, Ready (Err e)) => ((self, w), Ready (Err (Caused "Error accepting stream: " e)))
    | (w, Ready Panic) => ((self, w), Ready Panic)
    | (w, Pending) => ((self, w), Pending)
    end.

(** foctet-net/src/transport/tcp/connection.rs:149-152, [TcpConnection::close]: the
    result of the shutdown is not looked at. *)
Definition close : async (session_future * (t * World.t)) unit :=
  fun '(fut, (self, w)) =>
    match session_shutdown (fut, w) with
    | ((fut, w), Ready Panic) => ((fut, (self, w)), Ready Panic)
    | ((fut, w), Ready _) => ((fut, (self, w)), Ready (Ok tt))
    | ((fut, w), Pending) => ((fut, (self, w)), Pending)
    end.

End tcp_connection.

End TcpConnection.

Module Connection.

Section connection.

Context `{StackAddrLib} `{ConnLib}.

(** foctet-net/src/transport/connection.rs:28-31, [Connection]. *)
Inductive t : Type :=
| Quic (conn : QuicConnection.t)
| Tcp (conn : TcpConnection.t).

(** foctet-net/src/transport/connection.rs:34-39, [Connection::direction]. *)
Definition direction (self : t) : Direction :=
  match self with
  | Quic conn => QuicConnection.direction conn
  | Tcp conn => TcpConnection.direction conn
  end.

(** foctet-net/src/transport/connection.rs:40-45, [Connection::local_addr]. *)
Definition local_addr (self : t) : StackAddr :=
  match self with
  | Quic conn => QuicConnection.local_addr conn
  | Tcp conn => TcpConnection.local_addr conn
  end.

(** foctet-net/src/transport/connection.rs:46-51, [Connection::remote_addr]. *)
Definition remote_addr (self : t) : StackAddr :=
  match self with
  | Quic conn => QuicConnection.remote_addr conn
  | Tcp conn => TcpConnection.remote_addr conn
  end.

(** foctet-net/src/transport/connection.rs:52-57, [Connection::local_node_id]. *)
Definition local_node_id (self : t) : NodeId :=
  match self with
  | Quic conn => QuicConnection.local_node_id conn
  | Tcp conn => TcpConnection.local_node_id conn
  end.

(** foctet-net/src/transport/connection.rs:58-63, [Connection::remote_node_id]. *)
Definition remote_node_id (self : t) : NodeId :=
  match self with
  | Quic conn => QuicConnection.remote_node_id conn
  | Tcp conn => TcpConnection.remote_node_id conn
  end.

(** The [match self] of the methods below. *)
Definition dispatch {F A : Type} (quic : async QuicConnection.t A)
    (tcp : async (F * (TcpConnection.t * World.t)) A) : async (F * (t * World.t)) A :=
  fun '(fut, (self, w)) =>
    match self with
    | Quic conn => let '(conn, r) := quic conn in ((fut, (Quic conn, w)), r)
    | Tcp conn =>
        let '((fut, (conn, w)), r) := tcp (fut, (conn, w)) in ((fut, (Tcp conn, w)), r)
    end.

(** foctet-net/src/transport/connection.rs:64-69, [Connection::open_stream]. *)
Definition open_stream :
    async (session_future * (t * World.t)) (Stream.t SendStream RecvStream) :=
  dispatch QuicConnection.open_stream TcpConnection.open_stream.

(** foctet-net/src/transport/connection.rs:70-75, [Connection::accept_stream]. *)
Definition accept_stream : async (t * World.t) (Stream.t SendStream RecvStream) :=
  fun '(self, w) =>
    match self with
    | Quic conn => let '(conn, r) := QuicConnection.accept_stream conn in ((Quic conn, w), r)
    | Tcp conn => let '((conn, w), r) := TcpConnection.accept_stream (conn, w) in ((Tcp conn, w), r)
    end.

(** foctet-net/src/transport/connection.rs:76-81, [Connection::close]. *)
Definition close : async (session_future * (t * World.t)) unit :=
  dispatch QuicConnection.close TcpConnection.close.

End connection.

End Connection.

(** foctet-net/src/transport/connection.rs:20-26, [ConnectionEvent]; with a TCP
    connection comes the world of its session. *)
Inductive ConnectionEvent `{StackAddrLib} `{ConnLib} : Type :=
| Connected (conn : Connection.t) (world : option World.t)
| Accepted (conn : Connection.t) (world : option World.t).

(** ** The streams of a QUIC connection *)

(** Any use of a connection: streams opened and accepted, with the identifiers
    they get, and attempts that fail or have to wait. *)
Inductive quic_uses `{StackAddrLib} `{ConnLib} :
    QuicConnection.t -> list (Stream.t SendStream RecvStream) -> QuicConnection.t -> Prop :=
| uses_none c : quic_uses c [] c
| uses_open c c1 s ss c2 :
    QuicConnection.open_stream c = (c1, Ready (Ok s)) -> quic_uses c1 ss c2 ->
    quic_uses c (s :: ss) c2
| uses_accept c c1 s ss c2 :
    QuicConnection.accept_stream c = (c1, Ready (Ok s)) -> quic_uses c1 ss c2 ->
    quic_uses c (s :: ss) c2
| uses_open_none c c1 r ss c2 :
    QuicConnection.open_stream c = (c1, r) -> (forall s, r <> Ready (Ok s)) -> quic_uses c1 ss c2 ->
    quic_uses c ss c2
| uses_accept_none c c1 r ss c2 :
    QuicConnection.accept_stream c = (c1, r) -> (forall s, r <> Ready (Ok s)) -> quic_uses c1 ss c2 ->
    quic_uses c ss c2.

(** The identifiers that a counter gives out. *)
Definition counted (next : Z) (n : nat) : list StreamId.t :=
  map (fun k => StreamId.mk (as_u32 (next + Z.of_nat k))) (seq 0 n).

Lemma as_u32_add (a b : Z) : as_u32 (as_u32 a + b) = as_u32 (a + b).
Proof. unfold as_u32. by rewrite Zplus_mod_idemp_l. Qed.

Lemma counted_S (next : Z) (n : nat) :
  counted next (S n) = StreamId.mk (as_u32 next) :: counted (as_u32 (next + 1)) n.
Proof.
  unfold counted. rewrite <- cons_seq, <- seq_shift. cbn [map]. rewrite Z.add_0_r, map_map. f_equal.
  apply map_ext. intros k. rewrite as_u32_add. do 2 f_equal. lia.
Qed.

Lemma counted_NoDup (next : Z) (n : nat) : Z.of_nat n <= 2 ^ 32 -> NoDup (counted next n).
Proof.
  intros Hn. apply NoDup_fmap_2_strong; [|apply NoDup_seq].
  intros j k Hj%elem_of_seq Hk%elem_of_seq [= E]. unfold as_u32 in E.
  assert (Hd : (next + Z.of_nat j - (next + Z.of_nat k)) mod 4294967296 = 0)
    by (rewrite Zminus_mod, E, Z.sub_diag; done).
  apply Z.mod_divide in Hd as [q Hq]; [|done]. nia.
Qed.

Section quic_numbering.

Context `{StackAddrLib} `{ConnLib}.

(** What identifies a connection, and does not change with its use. *)
Definition settings (c : QuicConnection.t) : Z * Z * NodeId * NodeId :=
  (QuicConnection.write_buffer_size c, QuicConnection.read_buffer_size c,
   QuicConnection.local_node_id c, QuicConnection.remote_node_id c).

(** A stream that the connection makes, with the next identifier. *)
Definition numbered (c : QuicConnection.t) (s : Stream.t SendStream RecvStream) : Prop :=
  exists tx rx, s = Stream.Quic (QuicStream.new (StreamId.mk (QuicConnection.next_stream_id c)) tx rx
    (QuicConnection.write_buffer_size c) (QuicConnection.read_buffer_size c)).

(** Both ways of getting a stream number it alike. *)
Lemma stream_taken (m : async QuinnConn (SendStream * RecvStream)) (c c1 : QuicConnection.t)
    (r : poll (outcome error (Stream.t SendStream RecvStream))) :
  abind (fun streams =>
    let '(send_stream, recv_stream) := streams in
    abind (fun stream_id =>
      abind (fun self => aret (Stream.Quic (QuicStream.new stream_id send_stream recv_stream
        (QuicConnection.write_buffer_size self) (QuicConnection.read_buffer_size self)))) aget)
      QuicConnection.take_stream_id) (QuicConnection.on_connection m) c = (c1, r) ->
  settings c1 = settings c /\
  ((exists s, r = Ready (Ok s) /\ numbered c s /\
      QuicConnection.next_stream_id c1 = as_u32 (QuicConnection.next_stream_id c + 1)) \/
   ((forall s, r <> Ready (Ok s)) /\
      QuicConnection.next_stream_id c1 = QuicConnection.next_stream_id c)).
Proof.
  unfold abind at 1, QuicConnection.on_connection.
  destruct (m (QuicConnection.connection c)) as [q [[[tx rx]| |]|]];
    cbn; intros [= <- <-]; (split; [done|]); try by right.
  left. eexists. split; [done|]. split; [by exists tx, rx|done].
Qed.

(** What holds after a use that gives the streams [ss]. *)
Definition counts (c : QuicConnection.t) (ss : list (Stream.t SendStream RecvStream))
    (c' : QuicConnection.t) : Prop :=
  settings c' = settings c /\
  map Stream.stream_id ss = counted (QuicConnection.next_stream_id c) (length ss) /\
  QuicConnection.next_stream_id c' = as_u32 (QuicConnection.next_stream_id c + len ss).

Lemma counts_cons (c c1 c2 : QuicConnection.t) (s : Stream.t SendStream RecvStream)
    (ss : list (Stream.t SendStream RecvStream)) :
  is_u32 (QuicConnection.next_stream_id c) = true -> settings c1 = settings c -> numbered c s ->
  QuicConnection.next_stream_id c1 = as_u32 (QuicConnection.next_stream_id c + 1) ->
  counts c1 ss c2 -> counts c (s :: ss) c2.
Proof.
  intros Hc Hs (tx & rx & ->) Hn (Hs' & Hids & Hn'). rewrite Hn in Hids, Hn'.
  split; [congruence|]. split.
  - cbn [map length]. by rewrite Hids, counted_S, (as_u32_id (QuicConnection.next_stream_id c)).
  - rewrite Hn', as_u32_add. f_equal. unfold len. cbn [length]. lia.
Qed.

Lemma uses_counts (c c' : QuicConnection.t) (ss : list (Stream.t SendStream RecvStream)) :
  quic_uses c ss c' -> is_u32 (QuicConnection.next_stream_id c) = true -> counts c ss c'.
Proof.
  induction 1 as [c|c c1 s ss c2 Ho _ IH|c c1 s ss c2 Ho _ IH|c c1 r ss c2 Ho Hr _ IH
    |c c1 r ss c2 Ho Hr _ IH]; intros Hc;
    try apply stream_taken in Ho as (Hs & [(s' & Hr' & Hnum & Hn)|[Hno Hn]]);
    try (by destruct (Hno s)); try (by destruct (Hr s')).
  - split; [done|]. split; [done|]. unfold len. simpl. by rewrite Z.add_0_r, as_u32_id.
  - injection Hr' as <-. eapply counts_cons; [done..|]. apply IH. rewrite Hn. apply as_u32_range.
  - injection Hr' as <-. eapply counts_cons; [done..|]. apply IH. rewrite Hn. apply as_u32_range.
  - rewrite Hn in IH. destruct (IH Hc) as (Hs' & IH'). split; [congruence|]. by rewrite Hn in IH'.
  - rewrite Hn in IH. destruct (IH Hc) as (Hs' & IH'). split; [congruence|]. by rewrite Hn in IH'.
Qed.

End quic_numbering.

(** ** Properties *)

(** The streams of a QUIC connection are numbered by each side for itself.
    However opens, accepts, failures and waits are interleaved on a new
    connection, its k-th stream has the identifier k, opened or accepted alike,
    until the counter wraps around: the identifiers of up to 2^32 streams are
    distinct, and number 2^32 gets the identifier 0, which is reserved.  The node
    identifiers and buffer sizes of the connection stay as they are. *)
Theorem quic_stream_numbering `{StackAddrLib} `{ConnLib} (d : Direction)
    (local_addr remote_addr : StackAddr) (conn : QuinnConn) (c' : QuicConnection.t)
    (ss : list (Stream.t SendStream RecvStream))
    (Huses : quic_uses (QuicConnection.new d local_addr remote_addr conn) ss c') :
  (forall k s, ss !! k = Some s -> Stream.stream_id s = StreamId.mk (as_u32 (1 + Z.of_nat k))) /\
  (Z.of_nat (length ss) <= 2 ^ 32 -> NoDup (map Stream.stream_id ss)) /\
  (forall s, ss !! Z.to_nat (2 ^ 32 - 1) = Some s -> Stream.stream_id s = RESERVED_STREAM_ID) /\
  settings c' = settings (QuicConnection.new d local_addr remote_addr conn).
Proof.
  destruct (uses_counts _ _ _ Huses eq_refl) as (Hs & Hids & _).
  assert (Hk : forall k s, ss !! k = Some s ->
    Stream.stream_id s = StreamId.mk (as_u32 (1 + Z.of_nat k))).
  { intros k s Hk. apply (f_equal (fun l => l !! k)) in Hids. unfold counted in Hids.
    change (@map) with (@list_fmap) in Hids. 
    rewrite !list_lookup_fmap, Hk in Hids. cbn in Hids.
    rewrite lookup_seq_lt in Hids by (by eapply lookup_lt_Some). by injection Hids. }
  split_and!; [done| |intros s Hin; by rewrite (Hk _ _ Hin), Z2Nat.id|done].
  intros Hlen. rewrite Hids. by apply counted_NoDup.
Qed.

(** ** Witnesses: connections that hold the certificate of the peer, over which
    streams open and no stream comes. *)

#[local] Existing Instance list_stacks.
#[local] Existing Instance two_keys.
#[local] Existing Instance letters_base32.
#[local] Existing Instance demo_certs.

Definition queue_quinn : ConnLib := {|
  QuinnConn := Role * bytes;
  SendStream := list bytes;
  RecvStream := list bytes;
  send_stream_sink := queue_sink;
  recv_stream_source := queue_source;
  open_bi := aret ([], []);
  accept_bi := fun c => (c, Pending);
  quinn_close := fun _ _ c => c;
  remote_address := fun _ => SocketAddr.new (IpAddr.V4 Ipv4Addr.LOCALHOST) 4432;
  peer_identity := fun c => Some (Some [c.2]);
  quinn_handshake_of := fun c => demo_handshake c.1 c.2;
  Raw := bytes;
  raw_tls := demo_tls
|}.

#[local] Existing Instance queue_quinn.

#[local] Instance queue_quinn_laws : ConnLaws.
Proof. split. by intros q q' r [= <- _]. Qed.

Definition demo_conn : @QuinnConn queue_quinn := (Connector, demo_cert).

Lemma quic_stream_numbering_witness :
  exists s1 s2 c, quic_uses (QuicConnection.new Outgoing addr_empty addr_empty demo_conn)
    [s1; s2] c /\
    Stream.stream_id s1 = StreamId.mk 1 /\ Stream.stream_id s2 = StreamId.mk 2 /\
    NoDup [Stream.stream_id s1; Stream.stream_id s2].
Proof.
  assert (Hu : exists s1 s2 c, quic_uses (QuicConnection.new Outgoing addr_empty addr_empty
    demo_conn) [s1; s2] c).
  { do 3 eexists. eapply uses_open; [reflexivity|]. eapply uses_accept_none; [reflexivity|done|].
    eapply uses_open; [reflexivity|]. constructor. }
  destruct Hu as (s1 & s2 & c & Hu). exists s1, s2, c. split; [exact Hu|].
  destruct (quic_stream_numbering Outgoing addr_empty addr_empty demo_conn c [s1; s2] Hu)
    as (Hk & Hd & _).
  split; [exact (Hk 0%nat s1 eq_refl)|]. split; [exact (Hk 1%nat s2 eq_refl)|].
  apply Hd. done.
Defined.
