(* ===== verification/Transport.v ===== *)
(** * Transports

    foctet-net/src/transport/mod.rs, tcp/transport.rs and quic/transport.rs: how
    connections are made and accepted.  [TcpTransport] runs a session over TLS over
    TCP, [QuicTransport] uses the [quinn] library; [Transport] is either.

    Connecting is a task that runs to its end, with what it changes of the outside:
    [NetLib] is the operating system, the clock and the parts of [tokio] and [quinn]
    that reach the network.  A QUIC handshake is a TLS handshake, so the certificates
    of a [quinn] connection are read through [TlsLib] as those of a TLS stream are.

    Listening starts a task that accepts connections for as long as it runs.
    [Listening] is that task and the [ConnectionListener] it sends to, and a turn of
    its loop is one branch of its [select!].  A turn that has to wait for room in the
    channel is not taken yet. *)

From S2P Require Import Prelude Text Key Ip Ids X509 Tls Config Node Dns Device Frame Tokio Files.
From S2P Require Import MuxStream MuxSession TcpStream QuicStream Connection.

Local Open Scope Z_scope.

(** ** Tasks *)

(** What a future does and returns once it has been awaited. *)
Definition task (S A : Type) : Type := S -> S * outcome error A.

Definition tret {S A : Type} (a : A) : task S A := fun s => (s, Ok a).

Definition tlift {S A : Type} (m : outcome error A) : task S A := fun s => (s, m).

Definition tbind {S A B : Type} (k : A -> task S B) (m : task S A) : task S B :=
  fun s =>
    match m s with
    | (s', Ok a) => k a s'
    | (s', Err e) => (s', Err e)
    | (s', Panic) => (s', Panic)
    end.

Declare Scope task_scope.
Delimit Scope task_scope with task.

Notation "'let!' x := m 'in' k" := (tbind (fun x => k) m)
  (at level 10, x pattern, m at level 100, k at level 200,
   format "'[v' 'let!'  x  :=  m  'in' '/' k ']'") : task_scope.

Local Open Scope task_scope.

(** ** The outside *)

(** [net_timeout] is [tokio::time::timeout]: nothing when the time has run out.
    [Connecting] is a QUIC handshake under way in either
    direction; [endpoint_new] is [quinn::Endpoint::new] with the configuration of
    servers, if any. *)
Class NetLib `{ConnLib} : Type := {
  Net : Type;
  net_now : Net -> Z;
  net_timeout : forall {A : Type}, Z -> task Net A -> Net -> Net * option (outcome error A);
  tcp_connect : SocketAddr.t -> task Net Raw;
  raw_local_addr : Raw -> outcome error SocketAddr.t;
  server_name_try_from : string -> outcome error string;
  TcpListener : Type;
  tcp_bind : SocketAddr.t -> task Net TcpListener;
  listener_local_addr : TcpListener -> outcome error SocketAddr.t;
  UdpSocket : Type;
  udp_bind : SocketAddr.t -> task Net UdpSocket;
  QuinnEndpoint : Type;
  endpoint_new : QuinnConfig.t -> bool -> UdpSocket -> task Net QuinnEndpoint;
  endpoint_local_addr : QuinnEndpoint -> outcome error SocketAddr.t;
  Connecting : Type;
  endpoint_connect : QuinnEndpoint -> SocketAddr.t -> string -> outcome error Connecting;
  quinn_handshake : TlsConfig -> Connecting -> outcome error QuinnConn;
  quinn_incoming : TlsConfig -> Connecting -> outcome error QuinnConn
}.

(** A timeout does not change what a future returns. *)
Class NetLaws `{NetLib} : Prop := {
  net_timeout_done : forall A d (m : task Net A) n n' r,
    net_timeout d m n = (n', Some r) -> m n = (n', r)
}.

(** The certificates of the peer of a QUIC connection. *)
#[export] Instance quic_tls `{NetLib} : TlsLib Connecting := {|
  TlsStream := QuinnConn;
  tls_connect := quinn_handshake;
  tls_accept := quinn_incoming;
  peer_certificates := fun connection =>
    match peer_identity connection with Some (Some certs) => Some certs | _ => None end;
  handshake_of := quinn_handshake_of
|}.

(** [timeout(d, m).await], with the error of each case. *)
Definition within `{NetLib} {A : Type} (d : Z) (elapsed : string) (m : task Net A) : task Net A :=
  fun n =>
    match net_timeout d m n with
    | (n, Some r) => (n, r)
    | (n, None) => (n, Err (Anyhow elapsed))
    end.

(** foctet-net/src/transport/mod.rs:61-64, [ConnectionSender::send]. *)
Definition ConnectionSender_send `{StackAddrLib} `{ConnLib} (event : ConnectionEvent) :
    async (Mpsc.t ConnectionEvent) unit :=
  fun sender =>
    match Mpsc.try_send sender event with
    | Mpsc.Sent sender => (sender, Ready (Ok tt))
    | Mpsc.Full => (sender, Pending)
    | Mpsc.Closed => (sender, Ready (Err (Anyhow "channel closed")))
    end.

(** ** Listeners *)

Section listening.

Context `{StackAddrLib} `{ConnLib}.

(** foctet-net/src/transport/mod.rs:18-23, [ConnectionListener], and the task that
    holds its sender: the handshake the task waits for, if any, and whether it
    runs. *)
Record Listening (P : Type) : Type := mk_Listening {
  listener_id : ListenerId.t;
  channel : Mpsc.t ConnectionEvent;
  handshaking : option P;
  cancelled : bool;
  running : bool
}.

Context {P : Type}.

(** foctet-net/src/transport/mod.rs:26-36, [ConnectionListener::new], with the task
    spawned beside it; the channel holds 100 connections. *)
Definition listen (id : ListenerId.t) : Listening P :=
  mk_Listening _ id (Mpsc.channel 100) None false true.

Definition set_channel (self : Listening P) (ch : Mpsc.t ConnectionEvent) : Listening P :=
  mk_Listening _ (listener_id _ self) ch (handshaking _ self) (cancelled _ self) (running _ self).

Definition set_handshaking (self : Listening P) (p : option P) : Listening P :=
  mk_Listening _ (listener_id _ self) (channel _ self) p (cancelled _ self) (running _ self).

(** foctet-net/src/transport/mod.rs:38-40, [ConnectionListener::accept]. *)
Definition listener_accept (self : Listening P) : Listening P * poll (option ConnectionEvent) :=
  match Mpsc.try_recv (channel _ self) with
  | Mpsc.Received e ch => (set_channel self ch, Ready (Some e))
  | Mpsc.Empty => (self, Pending)
  | Mpsc.Disconnected => (self, Ready None)
  end.

(** foctet-net/src/transport/mod.rs:46-48, [ConnectionListener::cancel]. *)
Definition listener_cancel (self : Listening P) : Listening P :=
  mk_Listening _ (listener_id _ self) (channel _ self) (handshaking _ self) true (running _ self).

(** The task ends, and drops its sender. *)
Definition listener_stop (self : Listening P) : Listening P :=
  mk_Listening _ (listener_id _ self) (Mpsc.drop_tx (channel _ self)) None (cancelled _ self) false.

(** foctet-net/src/transport/tcp/transport.rs:138-141, [TcpTransport::listen_on]: the task
    sends a connection, waits while the channel is full, and breaks out of its loop when
    the listener is gone. *)
Definition listener_send (self : Listening P) (event : ConnectionEvent) : option (Listening P) :=
  match Mpsc.try_send (channel _ self) event with
  | Mpsc.Sent ch => Some (set_channel (set_handshaking self None) ch)
  | Mpsc.Full => None
  | Mpsc.Closed => Some (listener_stop self)
  end.

End listening.

Arguments mk_Listening {_ _ P} listener_id channel handshaking cancelled running.
Arguments listener_id {_ _ P} l : rename.
Arguments channel {_ _ P} l : rename.
Arguments handshaking {_ _ P} l : rename.
Arguments cancelled {_ _ P} l : rename.
Arguments running {_ _ P} l : rename.

(** How a listening task goes on: the branches of its [select!], and the end of the
    handshake that the branch of an incoming connection awaits.  Until then the task
    does not come back to the [select!]. *)
Inductive listen_branch (R : Type) : Type :=
| IsCancelled
| Arrives (incoming : R)
| Handshaken.

Arguments IsCancelled {R}.
Arguments Arrives {R} incoming.
Arguments Handshaken {R}.

(** The parts of a turn that the two transports share: [arrive] is the branch of an
    incoming connection up to the handshake, [finish] the rest, with the counter of
    sessions. *)
Definition select_turn `{StackAddrLib} `{ConnLib} {P R : Type} (b : listen_branch R)
    (arrive : R -> option P) (finish : P -> Z -> Listening P -> option (Z * Listening P))
    (st : Z * Listening P) : option (Z * Listening P) :=
  let '(sessions, l) := st in
  if negb (running l) then None
  else
    match b, handshaking l with
    | IsCancelled, None => if cancelled l then Some (sessions, listener_stop l) else None
    | Arrives incoming, None =>
        match arrive incoming with
        | Some p => Some (sessions, set_handshaking l (Some p))
        | None => Some (sessions, listener_stop l)
        end
    | Handshaken, Some p => finish p sessions l
    | _, _ => None
    end.

(** ** TCP *)

Module TcpTransport.

Section tcp_transport.

Context `{Ed25519} `{Base32} `{X509Lib} `{StackAddrLib} `{DnsLib} `{NetLib}.

(** foctet-net/src/transport/tcp/transport.rs:29-38, [TcpTransport]. *)
Record t : Type := mk {
  tls_connector : TlsConfig;
  tls_acceptor : TlsConfig;
  resolver : Resolver.t;
  local_node_id : NodeId;
  connection_timeout : Z;
  write_buffer_size : Z;
  read_buffer_size : Z;
  next_session_id : Z
}.

(** foctet-net/src/transport/tcp/transport.rs:41-61, [TcpTransport::new]. *)
Definition new (config : TransportConfig.t) : outcome error t :=
  outcome_bind (fun resolver =>
    Ok (mk (TransportConfig.client_tls_config config) (TransportConfig.server_tls_config config)
      resolver (Keypair.public (TransportConfig.keypair config))
      (TransportConfig.connection_timeout config) (TransportConfig.write_buffer_size config)
      (TransportConfig.read_buffer_size config) 1))
    (Resolver.from_option (TransportConfig.dns_resolver_option config)).

Definition set_next_session_id (self : t) (next : Z) : t :=
  mk (tls_connector self) (tls_acceptor self) (resolver self) (local_node_id self)
    (connection_timeout self) (write_buffer_size self) (read_buffer_size self) next.

(** What the listening task captures. *)
Record captured : Type := mk_captured {
  acceptor : TlsConfig;
  local_socket_addr : SocketAddr.t;
  local_addr : StackAddr;
  node_id : NodeId;
  write_size : Z;
  read_size : Z
}.

(** foctet-net/src/transport/tcp/transport.rs:66-93, [TcpTransport::listen_on]: up to
    the loop of the task it spawns. *)
Definition listen_on (self : t) (id : ListenerId.t) (addr : StackAddr) :
    task Net (captured * Listening (Raw * SocketAddr.t)) :=
  let! addr := tlift (if addr_resolved addr then Ok addr
                      else Resolver.resolve_addr (resolver self) addr) in
  let! socket_addr := tlift (ok_or (Anyhow "Invalid address") (addr_socket_addr addr)) in
  let! listener := tcp_bind socket_addr in
  let! local_socket_addr := tlift (listener_local_addr listener) in
  let local_addr := tls_stack (SocketAddr.ip local_socket_addr) (SocketAddr.port local_socket_addr) in
  tret (mk_captured (tls_acceptor self) local_socket_addr local_addr (local_node_id self)
    (write_buffer_size self) (read_buffer_size self), listen id).

(** The connection over an accepted stream. *)
Definition incoming_connection (c : captured) (tls_stream : TlsStream (Raw := Raw)) (session_id : Z)
    (addr : SocketAddr.t) (remote_node_id : NodeId) : ConnectionEvent :=
  let '(connection, world) := Session.new_server tls_stream (SessionId.new session_id) in
  let connection := Session.set_local_addr connection (local_socket_addr c) in
  let connection := Session.set_remote_addr connection addr in
  let remote_addr := tls_stack (SocketAddr.ip addr) (SocketAddr.port addr) in
  let tcp_conn := TcpConnection.new Incoming (local_addr c) remote_addr connection in
  let tcp_conn := TcpConnection.with_write_buffer_size tcp_conn (write_size c) in
  let tcp_conn := TcpConnection.with_read_buffer_size tcp_conn (read_size c) in
  let tcp_conn := TcpConnection.with_local_node_id tcp_conn (node_id c) in
  let tcp_conn := TcpConnection.with_remote_node_id tcp_conn remote_node_id in
  Accepted (Connection.Tcp tcp_conn) (Some world).

(** foctet-net/src/transport/tcp/transport.rs:107-148, [TcpTransport::listen_on]: the
    branch of an incoming connection, from the end of its handshake on; [now] is when
    its certificate is read. *)
Definition finish_turn (c : captured) (now : Z) (pending : Raw * SocketAddr.t)
    (next_session_id : Z) (l : Listening (Raw * SocketAddr.t)) :
    option (Z * Listening (Raw * SocketAddr.t)) :=
  let '(stream, addr) := pending in
  match tls_accept (acceptor c) stream with
  | Ok tls_stream =>
      let '(next_session_id, session_id) := atomic_fetch_add next_session_id 1 in
      match extract_server_remote_node_id now tls_stream with
      | Ok remote_node_id =>
          l ← listener_send l (incoming_connection c tls_stream session_id addr remote_node_id);
          Some (next_session_id, l)
      | _ => Some (next_session_id, listener_stop l)
      end
  | Err _ => Some (next_session_id, set_handshaking l None)
  | Panic => Some (next_session_id, listener_stop l)
  end.

(** foctet-net/src/transport/tcp/transport.rs:94-156, [TcpTransport::listen_on]: the
    loop, with the session counter that the task shares with the transport. *)
Definition listen_turn (c : captured) (now : Z)
    (b : listen_branch (outcome error (Raw * SocketAddr.t)))
    (st : Z * Listening (Raw * SocketAddr.t)) : option (Z * Listening (Raw * SocketAddr.t)) :=
  select_turn b (fun incoming => match incoming with Ok p => Some p | _ => None end)
    (finish_turn c now) st.

(** foctet-net/src/transport/tcp/transport.rs:161-226, [TcpTransport::connect]: the
    transport with its session counter moved on, and the connection with the world of
    its session. *)
Definition connect (self : t) (addr : StackAddr) : task Net (t * (Connection.t * World.t)) :=
  let! addr := tlift (if addr_resolved addr then Ok addr
                      else Resolver.resolve_addr (resolver self) addr) in
  let! server_socket_addr := tlift (ok_or (Anyhow "Invalid address") (addr_socket_addr addr)) in
  let! name := tlift (server_name_try_from (default "localhost"%string (addr_name addr))) in
  let! stream := within (connection_timeout self) "TCP Connection timed out"
    (tcp_connect server_socket_addr) in
  let! local_socket_addr := tlift (raw_local_addr stream) in
  let local_addr := tls_stack (SocketAddr.ip local_socket_addr) (SocketAddr.port local_socket_addr) in
  let! tls_stream := within (connection_timeout self) "TLS Connection timed out"
    (tlift (tls_connect (tls_connector self) stream)) in
  let! now := (fun n => (n, Ok (net_now n))) in
  let! remote_node_id := tlift (extract_client_remote_node_id now tls_stream) in
  let '(next, session_id) := atomic_fetch_add (next_session_id self) 1 in
  let '(connection, world) := Session.new_client tls_stream (SessionId.new session_id) in
  let connection := Session.set_local_addr connection local_socket_addr in
  let connection := Session.set_remote_addr connection server_socket_addr in
  let tcp_connection := TcpConnection.new Outgoing local_addr addr connection in
  let tcp_connection := TcpConnection.with_write_buffer_size tcp_connection (write_buffer_size self) in
  let tcp_connection := TcpConnection.with_read_buffer_size tcp_connection (read_buffer_size self) in
  let tcp_connection := TcpConnection.with_local_node_id tcp_connection (local_node_id self) in
  let tcp_connection := TcpConnection.with_remote_node_id tcp_connection remote_node_id in
  tret (set_next_session_id self next, (Connection.Tcp tcp_connection, world)).

End tcp_transport.

End TcpTransport.

(** ** QUIC *)

Module QuicTransport.

Section quic_transport.

Context `{Ed25519} `{Base32} `{X509Lib} `{QuinnLib} `{StackAddrLib} `{DnsLib} `{NetLib}.

(** foctet-net/src/transport/quic/transport.rs:24-32, [QuicTransport]. *)
Record t : Type := mk {
  quinn_config : QuinnConfig.t;
  resolver : Resolver.t;
  local_node_id : NodeId;
  connection_timeout : Z;
  write_buffer_size : Z;
  read_buffer_size : Z
}.

(** foctet-net/src/transport/quic/transport.rs:35-53, [QuicTransport::new]. *)
Definition new (config : TransportConfig.t) : outcome error t :=
  outcome_bind (fun resolver =>
    outcome_bind (fun quic_config =>
      Ok (mk (QuinnConfig.from quic_config) resolver (Keypair.public (TransportConfig.keypair config))
        (TransportConfig.connection_timeout config) (TransportConfig.write_buffer_size config)
        (TransportConfig.read_buffer_size config)))
      (QuicConfig.from config))
    (Resolver.from_option (TransportConfig.dns_resolver_option config)).

(** foctet-net/src/transport/quic/transport.rs:218-230, [extract_remote_node_id]. *)
Definition extract_remote_node_id (now : Z) (connection : QuinnConn) : outcome error NodeId :=
  outcome_bind (fun peer_identity =>
    outcome_bind (fun certs =>
      outcome_bind (fun cert =>
        outcome_bind (fun foctet_cert => Ok (X509.node_id foctet_cert))
          (map_err (fun _ => Anyhow "Invalid certificate") (parse now cert)))
        (ok_or (Anyhow "No certificate found") (head certs)))
      (ok_or (Anyhow "Failed to downcast peer identity") peer_identity))
    (ok_or (Anyhow "No peer identity") (peer_identity connection)).

(** What the listening task captures. *)
Record captured : Type := mk_captured {
  server_tls : TlsConfig;
  local_addr : StackAddr;
  node_id : NodeId;
  write_size : Z;
  read_size : Z
}.

(** foctet-net/src/transport/quic/transport.rs:58-97, [QuicTransport::listen_on]: up to
    the loop of the task it spawns. *)
Definition listen_on (self : t) (id : ListenerId.t) (addr : StackAddr) :
    task Net (captured * Listening Connecting) :=
  let! addr := tlift (if addr_resolved addr then Ok addr
                      else Resolver.resolve_addr (resolver self) addr) in
  let! socket_addr := tlift (ok_or (Anyhow "Invalid address") (addr_socket_addr addr)) in
  let! socket := (fun n =>
    let '(n, r) := udp_bind socket_addr n in (n, map_err (Caused "Failed to bind UDP socket: ") r)) in
  let! endpoint := endpoint_new (quinn_config self) true socket in
  let! local_socket_addr := tlift (endpoint_local_addr endpoint) in
  let local_addr := quic_stack (SocketAddr.ip local_socket_addr) (SocketAddr.port local_socket_addr) in
  tret (mk_captured (QuinnConfig.server_config (quinn_config self)).1 local_addr (local_node_id self)
    (write_buffer_size self) (read_buffer_size self), listen id).

(** The connection that a handshake has made. *)
Definition incoming_connection (c : captured) (connection : QuinnConn) (remote_node_id : NodeId) :
    ConnectionEvent :=
  let remote_socket_addr := remote_address connection in
  let remote_addr :=
    quic_stack (SocketAddr.ip remote_socket_addr) (SocketAddr.port remote_socket_addr) in
  let quic_conn := QuicConnection.new Incoming (local_addr c) remote_addr connection in
  let quic_conn := QuicConnection.with_write_buffer_size quic_conn (write_size c) in
  let quic_conn := QuicConnection.with_read_buffer_size quic_conn (read_size c) in
  let quic_conn := QuicConnection.with_local_node_id quic_conn (node_id c) in
  let quic_conn := QuicConnection.with_remote_node_id quic_conn remote_node_id in
  Accepted (Connection.Quic quic_conn) None.

(** foctet-net/src/transport/quic/transport.rs:111-145, [QuicTransport::listen_on]: the
    branch of an incoming connection, from the end of its handshake on. *)
Definition finish_turn (c : captured) (now : Z) (incoming : Connecting) (sessions : Z)
    (l : Listening Connecting) : option (Z * Listening Connecting) :=
  match quinn_incoming (server_tls c) incoming with
  | Ok connection =>
      match extract_remote_node_id now connection with
      | Ok remote_node_id =>
          l ← listener_send l (incoming_connection c connection remote_node_id);
          Some (sessions, l)
      | _ => Some (sessions, listener_stop l)
      end
  | Err _ => Some (sessions, set_handshaking l None)
  | Panic => Some (sessions, listener_stop l)
  end.

(** foctet-net/src/transport/quic/transport.rs:98-154, [QuicTransport::listen_on]: the
    loop; a closed endpoint has no incoming connection. *)
Definition listen_turn (c : captured) (now : Z) (b : listen_branch (option Connecting))
    (st : Z * Listening Connecting) : option (Z * Listening Connecting) :=
  select_turn b (fun incoming => incoming) (finish_turn c now) st.

(** foctet-net/src/transport/quic/transport.rs:160-215, [QuicTransport::connect]. *)
Definition connect (self : t) (addr : StackAddr) : task Net Connection.t :=
  let! addr := tlift (if addr_resolved addr then Ok addr
                      else Resolver.resolve_addr (resolver self) addr) in
  let! remote_ip := tlift (ok_or (Anyhow "Invalid address") (addr_ip addr)) in
  let bind_addr :=
    match remote_ip with
    | IpAddr.V4 _ => DEFAULT_BIND_V4_ADDR
    | IpAddr.V6 _ => DEFAULT_BIND_V6_ADDR
    end in
  let! socket := udp_bind bind_addr in
  let! endpoint := endpoint_new (quinn_config self) false socket in
  let! local_socket_addr := tlift (endpoint_local_addr endpoint) in
  let local_addr := quic_stack (SocketAddr.ip local_socket_addr) (SocketAddr.port local_socket_addr) in
  let! socket_addr := tlift (ok_or (Anyhow "Invalid address") (addr_socket_addr addr)) in
  let! connecting := tlift (endpoint_connect endpoint socket_addr
    (default "localhost"%string (addr_name addr))) in
  let! connection := within (connection_timeout self) "QUIC Connection timed out"
    (tlift (quinn_handshake (QuinnConfig.client_config (quinn_config self)).1 connecting)) in
  let! now := (fun n => (n, Ok (net_now n))) in
  let! remote_node_id := tlift (extract_remote_node_id now connection) in
  let quic_conn := QuicConnection.new Outgoing local_addr addr connection in
  let quic_conn := QuicConnection.with_write_buffer_size quic_conn (write_buffer_size self) in
  let quic_conn := QuicConnection.with_read_buffer_size quic_conn (read_buffer_size self) in
  let quic_conn := QuicConnection.with_local_node_id quic_conn (local_node_id self) in
  let quic_conn := QuicConnection.with_remote_node_id quic_conn remote_node_id in
  tret (Connection.Quic quic_conn).

End quic_transport.

End QuicTransport.

(** ** Either transport *)

Section transports.

Context `{Ed25519} `{Base32} `{X509Lib} `{QuinnLib} `{StackAddrLib} `{DnsLib} `{NetLib}.

(** A listening task of either kind; that of TCP with its session counter. *)
Inductive ListenTask : Type :=
| QuicTask (c : QuicTransport.captured) (l : Listening Connecting)
| TcpTask (c : TcpTransport.captured) (next_session_id : Z) (l : Listening (Raw * SocketAddr.t)).

(** How a task of either kind goes on. *)
Inductive ListenEvent : Type :=
| QuicEvent (b : listen_branch (option Connecting))
| TcpEvent (b : listen_branch (outcome error (Raw * SocketAddr.t))).

Definition task_turn (now : Z) (e : ListenEvent) (task : ListenTask) : option ListenTask :=
  match task, e with
  | QuicTask c l, QuicEvent b =>
      '(_, l) ← QuicTransport.listen_turn c now b (0, l); Some (QuicTask c l)
  | TcpTask c next l, TcpEvent b =>
      '(next, l) ← TcpTransport.listen_turn c now b (next, l); Some (TcpTask c next l)
  | _, _ => None
  end.

Definition task_accept (task : ListenTask) : ListenTask * poll (option ConnectionEvent) :=
  match task with
  | QuicTask c l => let '(l, r) := listener_accept l in (QuicTask c l, r)
  | TcpTask c next l => let '(l, r) := listener_accept l in (TcpTask c next l, r)
  end.

Definition task_cancel (task : ListenTask) : ListenTask :=
  match task with
  | QuicTask c l => QuicTask c (listener_cancel l)
  | TcpTask c next l => TcpTask c next (listener_cancel l)
  end.

Definition task_channel (task : ListenTask) : Mpsc.t ConnectionEvent :=
  match task with QuicTask _ l => channel l | TcpTask _ _ l => channel l end.

Definition task_running (task : ListenTask) : bool :=
  match task with QuicTask _ l => running l | TcpTask _ _ l => running l end.

Definition task_node_id (task : ListenTask) : NodeId :=
  match task with
  | QuicTask c _ => QuicTransport.node_id c
  | TcpTask c _ _ => TcpTransport.node_id c
  end.

End transports.

Module Transport.

Section transport.

Context `{Ed25519} `{Base32} `{X509Lib} `{QuinnLib} `{StackAddrLib} `{DnsLib} `{NetLib}.

(** foctet-net/src/transport/mod.rs:76-79, [Transport]. *)
Inductive t : Type :=
| Quic (transport : QuicTransport.t)
| Tcp (transport : TcpTransport.t).

(** foctet-net/src/transport/mod.rs:82-91, [Transport::listen_on]. *)
Definition listen_on (self : t) (id : ListenerId.t) (addr : StackAddr) : task Net ListenTask :=
  match self with
  | Quic transport =>
      let! listening := QuicTransport.listen_on transport id addr in
      tret (QuicTask listening.1 listening.2)
  | Tcp transport =>
      let! listening := TcpTransport.listen_on transport id addr in
      tret (TcpTask listening.1 (TcpTransport.next_session_id transport) listening.2)
  end.

(** foctet-net/src/transport/mod.rs:93-98, [Transport::connect]: the transport after
    the call, and the connection. *)
Definition connect (self : t) (addr : StackAddr) : task Net (t * (Connection.t * option World.t)) :=
  match self with
  | Quic transport =>
      let! conn := QuicTransport.connect transport addr in
      tret (Quic transport, (conn, None))
  | Tcp transport =>
      let! made := TcpTransport.connect transport addr in
      tret (Tcp made.1, (made.2.1, Some made.2.2))
  end.

Definition local_node_id (self : t) : NodeId :=
  match self with
  | Quic transport => QuicTransport.local_node_id transport
  | Tcp transport => TcpTransport.local_node_id transport
  end.

Definition kind (self : t) : TransportKind.t :=
  match self with
  | Quic _ => TransportKind.Quic
  | Tcp _ => TransportKind.TlsOverTcp
  end.

End transport.

End Transport.

(** ** Lemmas *)

Lemma tbind_Ok {S A B : Type} (k : A -> task S B) (m : task S A) (s s' : S) (b : B) :
  tbind k m s = (s', Ok b) -> exists a s1, m s = (s1, Ok a) /\ k a s1 = (s', Ok b).
Proof. unfold tbind. destruct (m s) as [s1 [a|e|]]; [|done..]. intros Hk. by exists a, s1. Qed.

Lemma tlift_Ok {S A : Type} (m : outcome error A) (s s' : S) (a : A) :
  tlift m s = (s', Ok a) -> m = Ok a /\ s' = s.
Proof. by intros [= -> ->]. Qed.

(** [task_ok H] splits a successful task into its successful steps. *)
Ltac task_ok H :=
  repeat match type of H with
  | tbind _ _ _ = (_, Ok _) =>
      let a := fresh "a" in let n := fresh "n" in let E := fresh "E" in
      apply tbind_Ok in H as (a & n & E & H);
      try (let E' := fresh in apply tlift_Ok in E as [E E']; subst n)
  end.

(** A TLS handshake in our role with the configuration [cfg] has made the stream [t],
    and the node [id] has authenticated itself in it. *)
Definition shown {R : Type} `{Ed25519} `{Base32} `{X509Lib} `{TlsLib R} (role : Role) (cfg : TlsConfig)
    (t : TlsStream) (id : NodeId) : Prop :=
  exists raw now, tls_handshake role cfg raw = Ok t /\ authenticated role now t id.

Section transport_lemmas.

Context `{Ed25519} `{Base32} `{X509Lib} `{QuinnLib} `{StackAddrLib} `{DnsLib} `{NetLaws}.
Context `{!TlsLaws Raw} `{!TlsLaws Connecting}.

(** The peer of a connection is the node it says: that node has authenticated itself in
    the handshake that made the TLS stream under the session of the connection, or the
    [quinn] connection, which has moved on since. *)
Definition vouched (role : Role) (cfg : TlsConfig) (conn : Connection.t) : Prop :=
  match conn with
  | Connection.Quic c =>
      exists q, quinn_session q = quinn_session (QuicConnection.connection c) /\
        shown (R := Connecting) role cfg q (QuicConnection.remote_node_id c)
  | Connection.Tcp c =>
      shown (R := Raw) role cfg (Session.raw_stream (TcpConnection.connection c))
        (TcpConnection.remote_node_id c)
  end.

Lemma within_Ok {A : Type} (d : Z) (msg : string) (m : task Net A) (n n' : Net) (a : A) :
  within d msg m n = (n', Ok a) -> m n = (n', Ok a).
Proof using All.
  unfold within. destruct (net_timeout d m n) as [n1 [r|]] eqn:E; [|done].
  intros [= -> ->]. by eapply net_timeout_done.
Qed.

(** The two ways of reading the peer of a QUIC connection. *)
Lemma extract_remote_node_id_client (now : Z) (conn : QuinnConn) (id : NodeId) :
  QuicTransport.extract_remote_node_id now conn = Ok id ->
  extract_client_remote_node_id (Raw := Connecting) now conn = Ok id.
Proof.
  unfold QuicTransport.extract_remote_node_id, extract_client_remote_node_id. simpl.
  by destruct (peer_identity conn) as [[certs|]|].
Qed.

Lemma quic_shown (role : Role) (cfg : TlsConfig) (connecting : Connecting) (now : Z)
    (conn : QuinnConn) (id : NodeId) :
  tls_handshake role cfg connecting = Ok (conn : TlsStream) ->
  QuicTransport.extract_remote_node_id now conn = Ok id ->
  shown (R := Connecting) role cfg conn id.
Proof using All.
  intros Hc Hid%extract_remote_node_id_client. exists connecting, now. split; [exact Hc|].
  by eapply (extracted_authentic (Raw := Connecting)).
Qed.

Lemma tcp_shown (role : Role) (cfg : TlsConfig) (raw : Raw) (now : Z) (t : TlsStream (Raw := Raw))
    (id : NodeId) :
  tls_handshake role cfg raw = Ok t ->
  extract_client_remote_node_id now t = Ok id -> shown (R := Raw) role cfg t id.
Proof using All.
  intros Hc Hid. exists raw, now. split; [exact Hc|]. by eapply extracted_authentic.
Qed.

#[local] Ltac within_ok :=
  repeat match goal with
  | E : within _ _ _ _ = (_, Ok _) |- _ => apply within_Ok in E; try apply tlift_Ok in E as [E ?]
  end.

(** What a transport gives to a connection it makes. *)
Record outgoing (self : Transport.t) (addr : StackAddr) (conn : Connection.t)
    (world : option World.t) : Prop := {
  out_direction : Connection.direction conn = Outgoing;
  out_local : Connection.local_node_id conn = Transport.local_node_id self;
  out_remote : exists addr', Connection.remote_addr conn = addr' /\
    (if addr_resolved addr then addr' = addr
     else exists r, Resolver.resolve_addr r addr = Ok addr');
  out_kind : match conn, self with
    | Connection.Quic _, Transport.Quic _ => world = None
    | Connection.Tcp c, Transport.Tcp t => world = Some (Session.new_client
        (Session.raw_stream (TcpConnection.connection c))
        (SessionId.new (TcpTransport.next_session_id t))).2
    | _, _ => False
    end
}.

Lemma resolved_or (r : Resolver.t) (addr addr' : StackAddr) :
  (if addr_resolved addr then Ok addr else Resolver.resolve_addr r addr) = Ok addr' ->
  if addr_resolved addr then addr' = addr
  else exists r, Resolver.resolve_addr r addr = Ok addr'.
Proof. destruct (addr_resolved addr); [by intros [= ->]|]. intros Hr. by exists r. Qed.

(** The TLS configurations of a transport, for connecting and for accepting. *)
Definition acceptor_of (self : Transport.t) : TlsConfig :=
  match self with
  | Transport.Quic t => (QuinnConfig.server_config (QuicTransport.quinn_config t)).1
  | Transport.Tcp t => TcpTransport.tls_acceptor t
  end.

Definition connector (self : Transport.t) : TlsConfig :=
  match self with
  | Transport.Quic t => (QuinnConfig.client_config (QuicTransport.quinn_config t)).1
  | Transport.Tcp t => TcpTransport.tls_connector t
  end.

Lemma connect_ok (self self' : Transport.t) (addr : StackAddr) (n n' : Net) (conn : Connection.t)
    (world : option World.t) :
  Transport.connect self addr n = (n', Ok (self', (conn, world))) ->
  outgoing self addr conn world /\ vouched Connector (connector self) conn.
Proof using All.
  destruct self as [t|t]; simpl; intros Hc; task_ok Hc; unfold tret in *; simplify_eq/=.
  - unfold QuicTransport.connect in E. task_ok E. unfold tret in *. simplify_eq/=.
    within_ok. split.
    + split; try done. eexists. split; [done|]. by eapply resolved_or.
    + eexists. split; [done|]. by eapply (quic_shown Connector).
  - unfold TcpTransport.connect in E. task_ok E. unfold tret in *. simplify_eq/=. within_ok. split.
    + split; try done. eexists. split; [done|]. by eapply resolved_or.
    + by eapply (tcp_shown Connector).
Qed.

End transport_lemmas.

Section listening_lemmas.

Context `{Ed25519} `{Base32} `{X509Lib} `{QuinnLib} `{StackAddrLib} `{DnsLib} `{NetLaws}.

Definition pending_queue {P : Type} (l : Listening P) : list ConnectionEvent :=
  Mpsc.queue (channel l).

Lemma listener_send_queue {P : Type} (l l' : Listening P) (e : ConnectionEvent) :
  listener_send l e = Some l' ->
  pending_queue l' = pending_queue l ++ [e] \/ pending_queue l' = pending_queue l.
Proof.
  unfold listener_send. destruct (Mpsc.try_send (channel l) e) as [ch| |] eqn:E; [|done|].
  - apply try_send_Sent in E as [-> _]. intros [= <-]. by left.
  - intros [= <-]. by right.
Qed.

(** A turn leaves the channel as it is, unless a handshake ends. *)
Lemma select_turn_queue {P R : Type} (b : listen_branch R) (arrive : R -> option P)
    (finish : P -> Z -> Listening P -> option (Z * Listening P)) (z z' : Z) (l l' : Listening P) :
  select_turn b arrive finish (z, l) = Some (z', l') ->
  pending_queue l' = pending_queue l \/
  exists p, handshaking l = Some p /\ finish p z l = Some (z', l').
Proof.
  unfold select_turn. destruct (negb (running l)); [done|].
  destruct b as [|r|], (handshaking l) as [p|]; try done.
  - destruct (cancelled l); [|done]. intros [= _ <-]. by left.
  - destruct (arrive r); intros [= _ <-]; by left.
  - intros Hf. right. by exists p.
Qed.

(** While a handshake is awaited, only its end moves the task. *)
Lemma select_turn_handshaking {P R : Type} (b : listen_branch R) (arrive : R -> option P)
    (finish : P -> Z -> Listening P -> option (Z * Listening P)) (z : Z) (l : Listening P) (p : P) :
  handshaking l = Some p -> b <> Handshaken -> select_turn b arrive finish (z, l) = None.
Proof.
  intros Hp Hb. unfold select_turn. rewrite Hp. destruct (negb (running l)); [done|].
  by destruct b.
Qed.

Definition task_acceptor (task : ListenTask) : TlsConfig :=
  match task with
  | QuicTask c _ => QuicTransport.server_tls c
  | TcpTask c _ _ => TcpTransport.acceptor c
  end.

(** What a task sends: incoming connections of its node, from nodes that have
    authenticated themselves. *)
Definition incoming_ok (id : NodeId) (cfg : TlsConfig) (e : ConnectionEvent) : Prop :=
  exists conn world, e = Accepted conn world /\ Connection.direction conn = Incoming /\
    Connection.local_node_id conn = id /\ vouched Acceptor cfg conn.

Definition task_sound (task : ListenTask) : Prop :=
  Forall (incoming_ok (task_node_id task) (task_acceptor task)) (Mpsc.queue (task_channel task)).

Lemma sound_send {P : Type} (id : NodeId) (cfg : TlsConfig) (l l' : Listening P) (e : ConnectionEvent) :
  incoming_ok id cfg e -> Forall (incoming_ok id cfg) (pending_queue l) ->
  listener_send l e = Some l' -> Forall (incoming_ok id cfg) (pending_queue l').
Proof.
  intros He Hl [->| ->]%listener_send_queue; [|done]. apply Forall_app. by repeat constructor.
Qed.

Context `{!TlsLaws Raw} `{!TlsLaws Connecting}.

Lemma tcp_finish_sound (c : TcpTransport.captured) (now z z' : Z) (p : Raw * SocketAddr.t)
    (l l' : Listening (Raw * SocketAddr.t)) :
  Forall (incoming_ok (TcpTransport.node_id c) (TcpTransport.acceptor c)) (pending_queue l) ->
  TcpTransport.finish_turn c now p z l = Some (z', l') ->
  Forall (incoming_ok (TcpTransport.node_id c) (TcpTransport.acceptor c)) (pending_queue l').
Proof using All.
  intros Hl. destruct p as [raw addr]. cbn [TcpTransport.finish_turn].
  destruct (tls_accept _ raw) as [t| |] eqn:Ha; [|by intros [= _ <-]..].
  cbn [atomic_fetch_add]. destruct (extract_server_remote_node_id now t) as [id| |] eqn:Hid;
    [|by intros [= _ <-]..].
  destruct (listener_send _ _) as [l1|] eqn:Hs; [|done]. intros [= _ <-].
  eapply sound_send; [|exact Hl|exact Hs]. do 2 eexists. split; [done|]. split_and!; try done.
  by eapply (tcp_shown Acceptor).
Qed.

Lemma quic_finish_sound (c : QuicTransport.captured) (now z z' : Z) (p : Connecting)
    (l l' : Listening Connecting) :
  Forall (incoming_ok (QuicTransport.node_id c) (QuicTransport.server_tls c)) (pending_queue l) ->
  QuicTransport.finish_turn c now p z l = Some (z', l') ->
  Forall (incoming_ok (QuicTransport.node_id c) (QuicTransport.server_tls c)) (pending_queue l').
Proof using All.
  intros Hl. unfold QuicTransport.finish_turn.
  destruct (quinn_incoming _ p) as [conn| |] eqn:Ha; [|by intros [= _ <-]..].
  destruct (QuicTransport.extract_remote_node_id now conn) as [id| |] eqn:Hid;
    [|by intros [= _ <-]..].
  destruct (listener_send _ _) as [l1|] eqn:Hs; [|done]. intros [= _ <-].
  eapply sound_send; [|exact Hl|exact Hs]. do 2 eexists. split; [done|]. split_and!; try done.
  eexists. split; [done|]. by eapply (quic_shown Acceptor).
Qed.

Lemma task_turn_sound (now : Z) (e : ListenEvent) (task task' : ListenTask) :
  task_sound task -> task_turn now e task = Some task' ->
  task_sound task' /\ task_node_id task' = task_node_id task /\
  task_acceptor task' = task_acceptor task.
Proof using All.
  intros Hs. destruct task as [c l|c z l], e as [b|b]; try done; cbn [task_turn].
  - destruct (QuicTransport.listen_turn c now b (0, l)) as [[z' l']|] eqn:E; [|done].
    intros [= <-]. split; [|done]. apply select_turn_queue in E as [Hq|(p & _ & Hf)].
    + unfold task_sound. cbn. unfold pending_queue in Hq. by rewrite Hq.
    + by eapply quic_finish_sound.
  - destruct (TcpTransport.listen_turn c now b (z, l)) as [[z' l']|] eqn:E; [|done].
    intros [= <-]. split; [|done]. apply select_turn_queue in E as [Hq|(p & _ & Hf)].
    + unfold task_sound. cbn. unfold pending_queue in Hq. by rewrite Hq.
    + by eapply tcp_finish_sound.
Qed.

Lemma task_accept_sound (task : ListenTask) :
  task_sound task ->
  task_sound (task_accept task).1 /\ task_node_id (task_accept task).1 = task_node_id task /\
  task_acceptor (task_accept task).1 = task_acceptor task /\
  forall e, (task_accept task).2 = Ready (Some e) ->
    incoming_ok (task_node_id task) (task_acceptor task) e.
Proof.
  unfold task_sound, task_accept, listener_accept. intros Hs.
  destruct task as [c l|c z l]; cbn in *;
    (destruct (Mpsc.try_recv (channel l)) as [e ch| |] eqn:E; cbn; [|by split_and!..]);
    apply try_recv_rx in E as [Hq _]; rewrite Hq in Hs; inversion Hs; subst;
    split_and!; try done; by intros e' [= <-].
Qed.

End listening_lemmas.
