(* ===== verification/Endpoints.v ===== *)
(** * Endpoints

    foctet-net/src/endpoint.rs: the builder of an endpoint, the endpoint with which a
    node connects to others, and the actor that listens for it.

    The endpoint's handle, the actor, the listening tasks of the transports and the
    tasks that forward what these accept run concurrently and share channels.
    [System] is all of them; [act] is one move of any of them.  A task that has to
    wait for a channel has not moved yet. *)

From S2P Require Import Prelude Text Key Ip Ids X509 Tls Config Node Dns Device Frame Tokio Files.
From S2P Require Import MuxStream MuxSession TcpStream QuicStream Connection Transport.

Local Open Scope Z_scope.
Local Open Scope outcome_scope.

(** ** Collections of the standard library *)

(** [HashSet::insert]. *)
Definition set_insert {A : Type} `{EqDecision A} (s : list A) (x : A) : list A :=
  if decide (x ∈ s) then s else s ++ [x].

(** A [BTreeMap] is the list of its entries in the order of the keys. *)
Fixpoint btree_insert {V : Type} (m : list (Z * V)) (k : Z) (v : V) : list (Z * V) :=
  match m with
  | [] => [(k, v)]
  | (k', v') :: m' =>
      if k <? k' then (k, v) :: m
      else if k =? k' then (k, v) :: m'
      else (k', v') :: btree_insert m' k v
  end.

(** ** Addresses of an endpoint *)

Section addresses.

Context `{StackAddrLib} `{IpNetLib}.

(** The stack of a kind of transport. *)
Definition stack_of (proto : TransportKind.t) (ip : IpAddr.t) (port : Z) : StackAddr :=
  match proto with
  | TransportKind.Quic => quic_stack ip port
  | TransportKind.TlsOverTcp => tls_stack ip port
  end.

(** foctet-net/src/endpoint.rs:480-520, [get_unspecified_stack_addrs];
    [iface] is what [netdev] answers. *)
Definition get_unspecified_stack_addrs (iface : outcome error Interface.t)
    (protocols : list TransportKind.t) : list StackAddr :=
  let unspecified_addr := get_unspecified_server_addr iface in
  foldl (fun addrs proto =>
    set_insert addrs (stack_of proto (SocketAddr.ip unspecified_addr)
      (SocketAddr.port unspecified_addr))) [] protocols.

(** foctet-net/src/endpoint.rs:522-564, [get_default_stack_addrs]. *)
Definition get_default_stack_addrs (iface : outcome error Interface.t)
    (protocols : list TransportKind.t) (allow_loopback : bool) : list StackAddr :=
  let socket_addrs := get_default_server_addrs iface DEFAULT_SERVER_PORT allow_loopback in
  foldl (fun addrs proto =>
    foldl (fun addrs addr =>
      set_insert addrs (stack_of proto (SocketAddr.ip addr) (SocketAddr.port addr)))
      addrs socket_addrs) [] protocols.

(** [IpAddr::is_ipv4] and [is_ipv6] of one address, as the [match] on the other picks
    between them. *)
Definition same_family (actual ip : IpAddr.t) : bool :=
  match actual, ip with
  | IpAddr.V4 _, IpAddr.V4 _ | IpAddr.V6 _, IpAddr.V6 _ => true
  | _, _ => false
  end.

(** foctet-net/src/endpoint.rs:588-634, [replace_with_actual_addrs]: an unspecified
    address. *)
Definition insert_actual_addrs (actual_addrs : list SocketAddr.t) (protocols : list TransportKind.t)
    (sock_addr : SocketAddr.t) (result : list StackAddr) : list StackAddr :=
  foldl (fun result actual =>
    foldl (fun result proto =>
      if same_family (SocketAddr.ip actual) (SocketAddr.ip sock_addr) then
        set_insert result (stack_of proto (SocketAddr.ip actual) (SocketAddr.port sock_addr))
      else result) result protocols) result actual_addrs.

(** foctet-net/src/endpoint.rs:566-640, [replace_with_actual_addrs]. *)
Definition replace_with_actual_addrs (iface : outcome error Interface.t)
    (input_addrs : list StackAddr) (protocols : list TransportKind.t) (allow_loopback : bool) :
    list StackAddr :=
  let actual_addrs := get_default_server_addrs iface DEFAULT_SERVER_PORT allow_loopback in
  foldl (fun result addr =>
    match addr_socket_addr addr with
    | None => result
    | Some sock_addr =>
        if IpAddr.is_unspecified (SocketAddr.ip sock_addr) then
          insert_actual_addrs actual_addrs protocols sock_addr result
        else set_insert result addr
    end) [] input_addrs.

End addresses.

(** ** The endpoint *)

(** foctet-net/src/endpoint.rs:259-278, [EndpointEvent]. *)
Inductive EndpointEvent `{StackAddrLib} : Type :=
| ConnectionEstablished (node_id : NodeId) (addr : StackAddr)
| ConnectionClosed (node_id : NodeId)
| NewListenAddr (listener_id : ListenerId.t) (addr : StackAddr)
| PeerDiscovered (node_id : NodeId) (addr : StackAddr)
| EndpointError (e : error).

(** foctet-net/src/endpoint.rs:280-284, [EndpointCommand]. *)
Inductive EndpointCommand `{StackAddrLib} : Type :=
| CommandConnect (addr : StackAddr)
| CommandListen (addr : StackAddr)
| CommandShutdown.

Module Endpoint.

Section endpoint.

Context `{Ed25519} `{Base32} `{X509Lib} `{QuinnLib} `{StackAddrLib} `{DnsLib} `{NetLib} `{IpNetLib}.

(** foctet-net/src/endpoint.rs:132-143, [Endpoint]: the fields that are not ends of a
    channel, which are in [System]. *)
Record t : Type := mk {
  config : TransportConfig.t;
  addrs : list StackAddr;
  relay_addrs : option RelayAddr.t;
  priority_map : list (Z * TransportKind.t);
  transports : gmap TransportKind.t Transport.t;
  allow_loopback : bool
}.

Definition set_transport (self : t) (kind : TransportKind.t) (tr : Transport.t) : t :=
  mk (config self) (addrs self) (relay_addrs self) (priority_map self)
    (<[kind := tr]> (transports self)) (allow_loopback self).

(** foctet-net/src/endpoint.rs:158-160, [Endpoint::node_id]. *)
Definition node_id (self : t) : NodeId := Keypair.public (TransportConfig.keypair (config self)).

(** foctet-net/src/endpoint.rs:163-169, [Endpoint::node_addr]. *)
Definition node_addr (self : t) : NodeAddr.t :=
  NodeAddr.mk _ (node_id self) (btree_set (addrs self)) (relay_addrs self).

(** foctet-net/src/endpoint.rs:172-191, [Endpoint::global_node_addr]. *)
Definition global_node_addr (self : t) : NodeAddr.t :=
  let global_addrs := filter (fun addr =>
    match addr_ip addr with Some ip => is_global_ip ip | None => false end = true) (addrs self) in
  NodeAddr.mk _ (node_id self) (btree_set global_addrs) (relay_addrs self).

(** [t.connect(addr).await] with the transport that [get_mut] has found. *)
Definition connect_with (kind : TransportKind.t) (missing : string) (addr : StackAddr) :
    task (Net * t) (Connection.t * option World.t) :=
  fun '(n, self) =>
    match transports self !! kind with
    | None => ((n, self), Err (Anyhow missing))
    | Some tr =>
        match Transport.connect tr addr n with
        | (n, Ok (tr, conn)) => ((n, set_transport self kind tr), Ok conn)
        | (n, Err e) => ((n, self), Err e)
        | (n, Panic) => ((n, self), Panic)
        end
    end.

(** foctet-net/src/endpoint.rs:194-211, [Endpoint::connect]. *)
Definition connect (addr : StackAddr) : task (Net * t) (Connection.t * option World.t) :=
  match addr_transport addr with
  | Some (TransportProtocol.Quic _) | Some (TransportProtocol.Udp _) =>
      connect_with TransportKind.Quic "QUIC transport not found" addr
  | Some (TransportProtocol.TlsOverTcp _) | Some (TransportProtocol.Tcp _) =>
      connect_with TransportKind.TlsOverTcp "TCP transport not found" addr
  | Some _ => tlift (Err (Anyhow "Unsupported transport protocol"))
  | None => tlift (Err (Anyhow "Missing transport protocol in address"))
  end.

(** foctet-net/src/endpoint.rs:221-230, [Endpoint::connect_node]: the addresses of one
    kind of transport. *)
Fixpoint connect_addrs (proto : TransportKind.t) (sorted_addrs : list StackAddr) :
    task (Net * t) (option (Connection.t * option World.t)) :=
  fun s =>
    match sorted_addrs with
    | [] => (s, Ok None)
    | addr :: rest =>
        match connect_with proto "Transport not found" addr s with
        | (s, Ok conn) => (s, Ok (Some conn))
        | (s, Err _) => connect_addrs proto rest s
        | (s, Panic) => (s, Panic)
        end
    end.

(** foctet-net/src/endpoint.rs:217-232, [Endpoint::connect_node]: the kinds of transport
    in the order of their priority. *)
Fixpoint connect_protocols (addr : NodeAddr.t) (iface : Interface.t) (protos : list TransportKind.t) :
    task (Net * t) (Connection.t * option World.t) :=
  fun '(n, self) =>
    match protos with
    | [] => ((n, self), Err (Anyhow "No direct address found for node"))
    | proto :: rest =>
        match transports self !! proto with
        | None => ((n, self), Err (Anyhow "Transport not found"))
        | Some _ =>
            let addrs := NodeAddr.get_direct_addrs addr proto (allow_loopback self) in
            let sorted_addrs := sort_addrs_by_reachability addrs iface in
            match connect_addrs proto sorted_addrs (n, self) with
            | (s, Ok (Some conn)) => (s, Ok conn)
            | (s, Ok None) => connect_protocols addr iface rest s
            | (s, Err e) => (s, Err e)
            | (s, Panic) => (s, Panic)
            end
        end
    end.

(** foctet-net/src/endpoint.rs:214-233, [Endpoint::connect_node]. *)
Definition connect_node (iface : outcome error Interface.t) (addr : NodeAddr.t) :
    task (Net * t) (Connection.t * option World.t) :=
  fun '(n, self) =>
    match map_err (Caused "Failed to get default interface: ") iface with
    | Ok iface => connect_protocols addr iface (map snd (priority_map self)) (n, self)
    | Err e => ((n, self), Err e)
    | Panic => ((n, self), Panic)
    end.

End endpoint.

End Endpoint.

(** ** The system *)

Section system.

Context `{Ed25519} `{Base32} `{X509Lib} `{QuinnLib} `{StackAddrLib} `{DnsLib} `{NetLib}.

(** Where the actor stands: it has addresses left to listen on, and the next listener
    identifier; it handles commands; or it has ended. *)
Inductive ActorState : Type :=
| Starting (addrs : list StackAddr) (listener_id : ListenerId.t)
| Handling
| Ended.

(** foctet-net/src/endpoint.rs:40-48, [EndpointActor], with everything it shares: the
    network, the channels of connections, events and commands, the cancellation token,
    and the listening tasks, each with the task that forwards what it accepts for as
    long as that runs. *)
Record System : Type := mk_System {
  net : Net;
  config : TransportConfig.t;
  conns : Mpsc.t (Connection.t * option World.t);
  events : Mpsc.t EndpointEvent;
  cmds : Mpsc.t EndpointCommand;
  cancel : bool;
  actor : ActorState;
  tasks : list (ListenTask * bool)
}.

Definition set_net (s : System) (x : Net) : System :=
  mk_System x (config s) (conns s) (events s) (cmds s) (cancel s) (actor s) (tasks s).

Definition set_conns (s : System) (x : Mpsc.t (Connection.t * option World.t)) : System :=
  mk_System (net s) (config s) x (events s) (cmds s) (cancel s) (actor s) (tasks s).

Definition set_events (s : System) (x : Mpsc.t EndpointEvent) : System :=
  mk_System (net s) (config s) (conns s) x (cmds s) (cancel s) (actor s) (tasks s).

Definition set_cmds (s : System) (x : Mpsc.t EndpointCommand) : System :=
  mk_System (net s) (config s) (conns s) (events s) x (cancel s) (actor s) (tasks s).

Definition set_cancel (s : System) (x : bool) : System :=
  mk_System (net s) (config s) (conns s) (events s) (cmds s) x (actor s) (tasks s).

Definition set_actor (s : System) (x : ActorState) : System :=
  mk_System (net s) (config s) (conns s) (events s) (cmds s) (cancel s) x (tasks s).

Definition set_tasks (s : System) (x : list (ListenTask * bool)) : System :=
  mk_System (net s) (config s) (conns s) (events s) (cmds s) (cancel s) (actor s) x.

(** The actor and the forwarding tasks hold the senders of connections and events: the
    channels close when the last of them has ended. *)
Definition senders_alive (s : System) : bool :=
  match actor s with Ended => existsb snd (tasks s) | _ => true end.

Definition drop_senders (s : System) : System :=
  if senders_alive s then s
  else set_events (set_conns s (Mpsc.drop_tx (conns s))) (Mpsc.drop_tx (events s)).

(** The actor ends, and drops the receiver of commands. *)
Definition end_actor (s : System) : System :=
  drop_senders (set_actor (set_cmds s (Mpsc.drop_rx (cmds s))) Ended).

(** foctet-net/src/endpoint.rs:57-72, [EndpointActor::run]: the transport for an
    address. *)
Definition transport_for (config : TransportConfig.t) (addr : StackAddr) :
    outcome error Transport.t :=
  match addr_transport addr with
  | Some (TransportProtocol.Quic _) | Some (TransportProtocol.Udp _) =>
      let? t := QuicTransport.new config in Ok (Transport.Quic t)
  | Some (TransportProtocol.TlsOverTcp _) | Some (TransportProtocol.Tcp _) =>
      let? t := TcpTransport.new config in Ok (Transport.Tcp t)
  | Some _ => Err (Anyhow "Unsupported transport protocol")
  | None => Err (Anyhow "Invalid transport protocol")
  end.

(** foctet-net/src/endpoint.rs:53-98, [EndpointActor::run]: one turn of the loop over
    the addresses, or its end.  An error ends the actor. *)
Definition actor_listen (s : System) : option System :=
  match actor s with
  | Starting [] _ => Some (set_actor s Handling)
  | Starting (addr :: rest) listener_id =>
      let '(next_id, id) := ListenerId.fetch_add listener_id 1 in
      match tbind (fun transport => Transport.listen_on transport id addr)
              (tlift (transport_for (config s) addr)) (net s) with
      | (n, Ok task) =>
          Some (set_actor (set_tasks (set_net s n) (tasks s ++ [(task, true)]))
            (Starting rest next_id))
      | (n, _) => Some (end_actor (set_net s n))
      end
  | _ => None
  end.

(** foctet-net/src/endpoint.rs:101-106, [EndpointActor::run]: the loop over commands
    when it is cancelled. *)
Definition actor_cancelled (s : System) : option System :=
  match actor s with
  | Handling => if cancel s then Some (end_actor s) else None
  | _ => None
  end.

(** foctet-net/src/endpoint.rs:107-126, [EndpointActor::run]: a command. *)
Definition actor_command (s : System) : option System :=
  match actor s with
  | Handling =>
      match Mpsc.try_recv (cmds s) with
      | Mpsc.Received cmd ch =>
          let s := set_cmds s ch in
          match cmd with
          | CommandConnect _ => Some s
          | CommandListen _ => Some s
          | CommandShutdown => Some (end_actor s)
          end
      | _ => None
      end
  | _ => None
  end.

(** A listening task goes on, when its peers let it. *)
Definition listening_turn (k : nat) (e : ListenEvent) (s : System) : option System :=
  '(task, forwards) ← tasks s !! k;
  task ← task_turn (net_now (net s)) e task;
  Some (set_tasks s (<[k := (task, forwards)]> (tasks s))).

(** foctet-net/src/endpoint.rs:77-96, [EndpointActor::run]: a turn of the loop that
    forwards the connections of a listener. *)
Definition forward_turn (k : nat) (s : System) : option System :=
  match tasks s !! k with
  | Some (task, true) =>
      let '(task, event) := task_accept task in
      let s := set_tasks s (<[k := (task, true)]> (tasks s)) in
      match event with
      | Ready (Some (Accepted conn world)) =>
          match Mpsc.try_send (conns s) (conn, world) with
          | Mpsc.Sent ch => Some (set_conns s ch)
          | Mpsc.Full => None
          | Mpsc.Closed =>
              match Mpsc.try_send (events s)
                      (EndpointError (Anyhow "Error sending connection event")) with
              | Mpsc.Sent ch => Some (set_events s ch)
              | Mpsc.Full => None
              | Mpsc.Closed => Some s
              end
          end
      | Ready (Some (Connected _ _)) => Some s
      | Ready None => Some (drop_senders (set_tasks s (<[k := (task, false)]> (tasks s))))
      | Pending => None
      end
  | _ => None
  end.

(** foctet-net/src/endpoint.rs:25-27, [ListenerHandle::accept]. *)
Definition endpoint_accept (s : System) : System * poll (option (Connection.t * option World.t)) :=
  match Mpsc.try_recv (conns s) with
  | Mpsc.Received conn ch => (set_conns s ch, Ready (Some conn))
  | Mpsc.Empty => (s, Pending)
  | Mpsc.Disconnected => (s, Ready None)
  end.

(** foctet-net/src/endpoint.rs:249-252, [Endpoint::send_command]. *)
Definition send_command (cmd : EndpointCommand) : async System unit :=
  fun s =>
    match Mpsc.try_send (cmds s) cmd with
    | Mpsc.Sent ch => (set_cmds s ch, Ready (Ok tt))
    | Mpsc.Full => (s, Pending)
    | Mpsc.Closed => (s, Ready (Err (Anyhow "channel closed")))
    end.

(** foctet-net/src/endpoint.rs:243-247, [Endpoint::shutdown]. *)
Definition endpoint_shutdown : async System unit :=
  abind (fun _ => amodify (fun s => set_cancel s true)) (send_command CommandShutdown).

(** foctet-net/src/endpoint.rs:254-256, [Endpoint::next_event]. *)
Definition next_event (s : System) : System * poll (option EndpointEvent) :=
  match Mpsc.try_recv (events s) with
  | Mpsc.Received e ch => (set_events s ch, Ready (Some e))
  | Mpsc.Empty => (s, Pending)
  | Mpsc.Disconnected => (s, Ready None)
  end.

(** A move of the system: of the actor, of a listening or a forwarding task, of the
    program that holds the endpoint, or of the world outside. *)
Inductive action : Type :=
| ActorListens
| ActorCancelled
| ActorCommand
| Listens (k : nat) (e : ListenEvent)
| Forwards (k : nat)
| Accepts
| Commands (cmd : EndpointCommand)
| Shuts
| TakesEvent
| Outside (n : Net).

Definition act (a : action) (s : System) : option System :=
  match a with
  | ActorListens => actor_listen s
  | ActorCancelled => actor_cancelled s
  | ActorCommand => actor_command s
  | Listens k e => listening_turn k e s
  | Forwards k => forward_turn k s
  | Accepts => Some (endpoint_accept s).1
  | Commands cmd => Some (send_command cmd s).1
  | Shuts => Some (endpoint_shutdown s).1
  | TakesEvent => Some (next_event s).1
  | Outside n => Some (set_net s n)
  end.

Fixpoint run (l : list action) (s : System) : option System :=
  match l with
  | [] => Some s
  | a :: l => act a s ≫= run l
  end.

End system.

(** ** The builder *)

Module EndpointBuilder.

Section builder.

Context `{Ed25519} `{Base32} `{X509Lib} `{QuinnLib} `{StackAddrLib} `{DnsLib} `{NetLib} `{IpNetLib}.

(** foctet-net/src/endpoint.rs:286-294, [EndpointBuilder]. *)
Record t : Type := mk {
  config : TransportConfig.t;
  protocols : list TransportKind.t;
  addrs : list StackAddr;
  listen_enabled : bool;
  loopback_allowed : bool
}.

(** foctet-net/src/endpoint.rs:297-321, [EndpointBuilder::default]; the keypair and the
    keys of its certificates are drawn. *)
Definition default_ (keypair : Keypair.t) (client_key server_key : outcome error CertKey) :
    outcome error t :=
  let? config := unwrap (TransportConfig.new keypair client_key server_key) in
  let protocols := [TransportKind.Quic] in
  let addr := with_node_id (quic_stack (IpAddr.V4 Ipv4Addr.UNSPECIFIED) DEFAULT_SERVER_PORT)
    (PublicKey.to_bytes (Keypair.public keypair)) in
  Ok (mk config protocols (set_insert [] addr) true false).

(** foctet-net/src/endpoint.rs:326-336, [EndpointBuilder::new]. *)
Definition new (keypair : Keypair.t) (client_key server_key : outcome error CertKey) :
    outcome error t :=
  let? config := unwrap (TransportConfig.new keypair client_key server_key) in
  Ok (mk config [] [] true false).

Definition set_config (self : t) (config : TransportConfig.t) : t :=
  mk config (protocols self) (addrs self) (listen_enabled self) (loopback_allowed self).

(** foctet-net/src/endpoint.rs:337-340, [EndpointBuilder::with_keypair]. *)
Definition with_keypair (self : t) (keypair : Keypair.t) (client_key server_key : outcome error CertKey) :
    outcome error t :=
  let? config := unwrap (TransportConfig.set_keypair (config self) keypair client_key server_key) in
  Ok (set_config self config).

(** foctet-net/src/endpoint.rs:342-346, [EndpointBuilder::push_protocol]. *)
Definition push_protocol (self : t) (proto : TransportKind.t) : t :=
  if decide (proto ∈ protocols self) then self
  else mk (config self) (protocols self ++ [proto]) (addrs self) (listen_enabled self)
         (loopback_allowed self).

(** foctet-net/src/endpoint.rs:350-353, [EndpointBuilder::with_quic]. *)
Definition with_quic (self : t) : t := push_protocol self TransportKind.Quic.

(** foctet-net/src/endpoint.rs:356-359, [EndpointBuilder::with_tcp]. *)
Definition with_tcp (self : t) : t := push_protocol self TransportKind.TlsOverTcp.

(** foctet-net/src/endpoint.rs:363-368, [EndpointBuilder::with_addr]. *)
Definition with_addr (self : t) (addr : StackAddr) : outcome error t :=
  let? transport := ok_or (Anyhow "Missing transport protocol in address") (addr_transport addr) in
  let? proto := TransportKind.from_protocol transport in
  let self := push_protocol self proto in
  Ok (mk (config self) (protocols self) (set_insert (addrs self) addr) (listen_enabled self)
    (loopback_allowed self)).

(** foctet-net/src/endpoint.rs:372-375, [EndpointBuilder::without_listen]. *)
Definition without_listen (self : t) : t :=
  mk (config self) (protocols self) (addrs self) false (loopback_allowed self).

(** foctet-net/src/endpoint.rs:378-381, [EndpointBuilder::allow_loopback]. *)
Definition allow_loopback (self : t) (allow : bool) : t :=
  mk (config self) (protocols self) (addrs self) (listen_enabled self) allow.

(** foctet-net/src/endpoint.rs:384-387, [EndpointBuilder::with_read_buffer_size]. *)
Definition with_read_buffer_size (self : t) (size : Z) : t :=
  set_config self (TransportConfig.set_read_buffer_size (config self) size).

(** foctet-net/src/endpoint.rs:390-393, [EndpointBuilder::with_write_buffer_size]. *)
Definition with_write_buffer_size (self : t) (size : Z) : t :=
  set_config self (TransportConfig.set_write_buffer_size (config self) size).

(** foctet-net/src/endpoint.rs:396-399, [EndpointBuilder::with_max_read_buffer_size]. *)
Definition with_max_read_buffer_size (self : t) : t :=
  with_read_buffer_size self MAX_READ_BUFFER_SIZE.

(** foctet-net/src/endpoint.rs:402-405, [EndpointBuilder::with_max_write_buffer_size]. *)
Definition with_max_write_buffer_size (self : t) : t :=
  with_write_buffer_size self MAX_WRITE_BUFFER_SIZE.

(** foctet-net/src/endpoint.rs:412-426, [EndpointBuilder::build]: the loop over the
    protocols, from the [i]-th on. *)
Fixpoint build_transports (config : TransportConfig.t) (i : Z) (protocols : list TransportKind.t)
    (priority_map : list (Z * TransportKind.t)) (transports : gmap TransportKind.t Transport.t) :
    outcome error (list (Z * TransportKind.t) * gmap TransportKind.t Transport.t) :=
  match protocols with
  | [] => Ok (priority_map, transports)
  | proto :: rest =>
      let priority := as_u8 (i + 1) in
      let? tr :=
        match proto with
        | TransportKind.Quic => let? t := QuicTransport.new config in Ok (Transport.Quic t)
        | TransportKind.TlsOverTcp => let? t := TcpTransport.new config in Ok (Transport.Tcp t)
        end in
      build_transports config (i + 1) rest (btree_insert priority_map priority proto)
        (<[proto := tr]> transports)
  end.

(** foctet-net/src/endpoint.rs:409-477, [EndpointBuilder::build]: the endpoint, and the
    system with the actor spawned. *)
Definition build (self : t) (iface : outcome error Interface.t) (n : Net) :
    outcome error (Endpoint.t * System) :=
  let? maps := build_transports (config self) 0 (protocols self) [] ∅ in
  let '(priority_map, transports) := maps in
  let listen_addrs :=
    if bool_decide (addrs self = []) then get_unspecified_stack_addrs iface (protocols self)
    else addrs self in
  let system := mk_System n (config self) (Mpsc.channel 100) (Mpsc.channel 100) (Mpsc.channel 100)
    false (if listen_enabled self then Starting listen_addrs (ListenerId.new 1) else Handling) [] in
  let direct_addrs :=
    if bool_decide (addrs self = []) then
      get_default_stack_addrs iface (protocols self) (loopback_allowed self)
    else replace_with_actual_addrs iface (addrs self) (protocols self) (loopback_allowed self) in
  Ok (Endpoint.mk (config self) direct_addrs None priority_map transports (loopback_allowed self),
      system).

End builder.

End EndpointBuilder.

(** ** Lemmas on the system *)

Section system_lemmas.

Context `{Ed25519} `{Base32} `{X509Lib} `{QuinnLib} `{StackAddrLib} `{DnsLib} `{NetLaws}.
Context `{!TlsLaws Raw} `{!TlsLaws Connecting}.

(** A TLS configuration with which an endpoint of configuration [cfg] accepts: that of the
    transport for some address. *)
Definition accepts_with (cfg : TransportConfig.t) (tls : TlsConfig) : Prop :=
  exists addr tr, transport_for cfg addr = Ok tr /\ tls = acceptor_of tr.

(** A connection that an endpoint of configuration [cfg] may be given: it comes in to its
    node, from a node that has authenticated itself to a listener of the endpoint. *)
Definition conn_good (cfg : TransportConfig.t) (c : Connection.t * option World.t) : Prop :=
  Connection.direction c.1 = Incoming /\
  Connection.local_node_id c.1 = Keypair.public (TransportConfig.keypair cfg) /\
  exists tls, accepts_with cfg tls /\ vouched Acceptor tls c.1.

Definition task_good (cfg : TransportConfig.t) (t : ListenTask) : Prop :=
  task_sound t /\ task_node_id t = Keypair.public (TransportConfig.keypair cfg) /\
  accepts_with cfg (task_acceptor t).

Record system_sound (cfg : TransportConfig.t) (s : System) : Prop := {
  ss_config : config s = cfg;
  ss_conns : Forall (conn_good cfg) (Mpsc.queue (conns s));
  ss_tasks : Forall (fun t => task_good cfg t.1) (tasks s)
}.

(** What a move leaves alone: the configuration, and the receiver of connections. *)
Definition kept (s s' : System) : Prop :=
  config s' = config s /\ Mpsc.rx_alive (conns s') = Mpsc.rx_alive (conns s) /\
  Mpsc.capacity (conns s') = Mpsc.capacity (conns s).

(** What a move does to the connections that wait for the program and to the listening
    tasks. *)
Inductive effect (a : action) (s s' : System) : Prop :=
| eff_none :
    Mpsc.queue (conns s') = Mpsc.queue (conns s) -> tasks s' = tasks s -> effect a s s'
| eff_listen tr lid addr n n' t :
    transport_for (config s) addr = Ok tr -> Transport.listen_on tr lid addr n = (n', Ok t) ->
    Mpsc.queue (conns s') = Mpsc.queue (conns s) -> tasks s' = tasks s ++ [(t, true)] ->
    effect a s s'
| eff_turn k fw now e t t' :
    a = Listens k e -> tasks s !! k = Some (t, fw) -> task_turn now e t = Some t' ->
    Mpsc.queue (conns s') = Mpsc.queue (conns s) -> tasks s' = <[k := (t', fw)]> (tasks s) ->
    effect a s s'
| eff_drop k fw t :
    tasks s !! k = Some (t, true) -> Mpsc.queue (conns s') = Mpsc.queue (conns s) ->
    tasks s' = <[k := ((task_accept t).1, fw)]> (tasks s) -> effect a s s'
| eff_forward k t conn world :
    tasks s !! k = Some (t, true) -> (task_accept t).2 = Ready (Some (Accepted conn world)) ->
    Mpsc.queue (conns s') = Mpsc.queue (conns s) ++ [(conn, world)] ->
    tasks s' = <[k := ((task_accept t).1, true)]> (tasks s) -> effect a s s'
| eff_accept c :
    Mpsc.queue (conns s) = c :: Mpsc.queue (conns s') -> tasks s' = tasks s -> effect a s s'.

Lemma drop_senders_same (s : System) :
  kept s (drop_senders s) /\
  Mpsc.queue (conns (drop_senders s)) = Mpsc.queue (conns s) /\
  tasks (drop_senders s) = tasks s /\ cmds (drop_senders s) = cmds s /\
  actor (drop_senders s) = actor s /\ cancel (drop_senders s) = cancel s /\
  net (drop_senders s) = net s.
Proof. unfold drop_senders. by destruct (senders_alive s). Qed.

Lemma end_actor_same (s : System) :
  kept s (end_actor s) /\ Mpsc.queue (conns (end_actor s)) = Mpsc.queue (conns s) /\
  tasks (end_actor s) = tasks s /\ actor (end_actor s) = Ended.
Proof.
  unfold end_actor. set (s1 := set_actor _ _).
  destruct (drop_senders_same s1) as (? & -> & -> & _ & -> & _). done.
Qed.

Lemma actor_listen_effect (s s' : System) :
  actor_listen s = Some s' -> kept s s' /\ effect ActorListens s s'.
Proof.
  unfold actor_listen. destruct (actor s) as [[|addr rest] lid| |] eqn:Ea; try done.
  - intros [= <-]. split; [done|]. by apply eff_none.
  - cbn [ListenerId.fetch_add].
    destruct (tbind _ _ (net s)) as [n [t| |]] eqn:E; intros [= <-];
      [|destruct (end_actor_same (set_net s n)) as (Hk & Hq & Ht & _); split; [exact Hk|];
        by apply eff_none..].
    apply tbind_Ok in E as (tr & n1 & [Htr ->]%tlift_Ok & Hl). split; [done|].
    by eapply eff_listen.
Qed.

Lemma forward_turn_effect (k : nat) (s s' : System) :
  forward_turn k s = Some s' -> kept s s' /\ effect (Forwards k) s s'.
Proof.
  unfold forward_turn. destruct (tasks s !! k) as [[t []]|] eqn:Ek; [|done..].
  rewrite (surjective_pairing (task_accept t)).
  destruct (task_accept t).2 as [[[conn world|conn world]|]|] eqn:Ev; [| | |done].
  - intros [= <-]. split; [done|]. by eapply eff_drop.
  - destruct (Mpsc.try_send (conns _) _) as [ch| |] eqn:E; [|done|].
    + apply try_send_Sent in E as [-> _]. intros [= <-]. split; [done|]. by eapply eff_forward.
    + destruct (Mpsc.try_send (events _) _) as [ch| |]; [|done|]; intros [= <-];
        (split; [done|]); by eapply eff_drop.
  - intros [= <-]. set (s1 := set_tasks (set_tasks s _) _).
    destruct (drop_senders_same s1) as (Hc & Hq & Ht & _). split; [exact Hc|].
    eapply eff_drop; [exact Ek|by rewrite Hq|]. rewrite Ht. simpl.
    by rewrite list_insert_insert_eq.
Qed.

Lemma act_effect (a : action) (s s' : System) :
  act a s = Some s' -> kept s s' /\ effect a s s'.
Proof.
  destruct a; cbn [act].
  - apply actor_listen_effect.
  - unfold actor_cancelled. destruct (actor s); try done. destruct (cancel s); [|done].
    intros [= <-]. destruct (end_actor_same s) as (? & ? & ? & _). split; [done|]. by apply eff_none.
  - unfold actor_command. destruct (actor s); try done.
    destruct (Mpsc.try_recv (cmds s)) as [[] ch| |]; try done; intros [= <-];
      [split; [done|]; by apply eff_none..|].
    destruct (end_actor_same (set_cmds s ch)) as (? & ? & ? & _). split; [done|]. by apply eff_none.
  - unfold listening_turn. destruct (tasks s !! k) as [[t fw]|] eqn:Ek; [|done]. simpl.
    destruct (task_turn _ e t) as [t'|] eqn:E; [|done]. intros [= <-]. split; [done|].
    by eapply eff_turn.
  - apply forward_turn_effect.
  - unfold endpoint_accept. destruct (Mpsc.try_recv (conns s)) as [c ch| |] eqn:E;
      intros [= <-]; [apply try_recv_ends in E as (Eq & Er & Ecap); (split; [done|])
        |(split; [done|]); by apply eff_none..].
    by eapply eff_accept.
  - unfold send_command. intros [= <-].
    destruct (Mpsc.try_send (cmds s) _); (split; [done|]); by apply eff_none.
  - unfold endpoint_shutdown, abind, send_command. intros [= <-].
    destruct (Mpsc.try_send (cmds s) _); (split; [done|]); by apply eff_none.
  - unfold next_event. intros [= <-].
    destruct (Mpsc.try_recv (events s)); (split; [done|]); by apply eff_none.
  - intros [= <-]. split; [done|]. by apply eff_none.
Qed.

(** What every move keeps, every run keeps. *)
Lemma run_ind (Q : System -> Prop) :
  (forall a s s', Q s -> act a s = Some s' -> Q s') ->
  forall l s s', Q s -> run l s = Some s' -> Q s'.
Proof.
  intros HQ l. induction l as [|a l IH]; intros s s' Hs; simpl; [by intros [= <-]|].
  destruct (act a s) as [s1|] eqn:E; [|done]. apply IH. by eapply HQ.
Qed.

(** A property of tasks that listening starts with, and that turns and the taking of a
    connection keep. *)
Lemma effect_tasks (P : ListenTask -> Prop) (a : action) (s s' : System) :
  (forall tr lid addr n n' t, transport_for (config s) addr = Ok tr ->
     Transport.listen_on tr lid addr n = (n', Ok t) -> P t) ->
  (forall now e t t', P t -> task_turn now e t = Some t' -> P t') ->
  (forall t, P t -> P (task_accept t).1) ->
  Forall (fun t => P t.1) (tasks s) -> effect a s s' -> Forall (fun t => P t.1) (tasks s').
Proof.
  intros Hl Ht Ha Hs [? ->|tr lid addr n n' t Htr Hlt ? ->|k fw now e t t' _ Hk Htt ? ->
    |k fw t Hk ? ->|k t conn world Hk ? ? ->|c ? ->]; try done.
  - apply Forall_app. split; [done|]. constructor; [by eapply Hl|constructor].
  - apply Forall_insert; [done|]. eapply Ht; [|exact Htt].
    exact (Forall_lookup_1 _ _ _ _ Hs Hk).
  - apply Forall_insert; [done|]. apply Ha. exact (Forall_lookup_1 _ _ _ _ Hs Hk).
  - apply Forall_insert; [done|]. apply Ha. exact (Forall_lookup_1 _ _ _ _ Hs Hk).
Qed.

(** Listening starts with an empty channel, for the node of the transport. *)
Lemma listen_on_good (tr : Transport.t) (lid : ListenerId.t) (addr : StackAddr) (n n' : Net)
    (t : ListenTask) :
  Transport.listen_on tr lid addr n = (n', Ok t) ->
  task_sound t /\ task_node_id t = Transport.local_node_id tr /\ task_acceptor t = acceptor_of tr /\
  Mpsc.queue (task_channel t) = [] /\ task_running t = true.
Proof.
  destruct tr as [q|q]; cbn [Transport.listen_on]; intros Hl; task_ok Hl;
    unfold tret in Hl; simplify_eq/=.
  - unfold QuicTransport.listen_on in E. task_ok E. unfold tret in E. simplify_eq/=.
    split_and!; try done. constructor.
  - unfold TcpTransport.listen_on in E. task_ok E. unfold tret in E. simplify_eq/=.
    split_and!; try done. constructor.
Qed.

Lemma transport_for_id (cfg : TransportConfig.t) (addr : StackAddr) (tr : Transport.t) :
  transport_for cfg addr = Ok tr ->
  Transport.local_node_id tr = Keypair.public (TransportConfig.keypair cfg).
Proof.
  unfold transport_for, QuicTransport.new, TcpTransport.new.
  destruct (addr_transport addr) as [[]|]; try done; intros Ht; read_ok Ht; injection Ht as <-;
    read_ok E; [injection E as <-; done| |injection E as <-; done|];
    read_ok E; injection E as <-; done.
Qed.

Lemma act_sound (cfg : TransportConfig.t) (a : action) (s s' : System) :
  system_sound cfg s -> act a s = Some s' -> system_sound cfg s'.
Proof using All.
  intros [Hi Hc Ht] [(Hcfg & _) He]%act_effect. split; [by rewrite Hcfg| |].
  - destruct He as [-> ?|? ? ? ? ? ? ? ? -> ?|? ? ? ? ? ? ? ? ? -> ?|? ? ? ? -> ?
      |k t conn world Hk Hev -> ?|c Hq ?]; try done.
    + apply Forall_app. split; [done|]. constructor; [|constructor].
      destruct (Forall_lookup_1 _ _ _ _ Ht Hk) as (Hs & Hid & Hacc).
      destruct (task_accept_sound t Hs) as (_ & _ & _ & Hin).
      destruct (Hin _ Hev) as (? & ? & [= <- <-] & Hd & Hl & Hv).
      split; [done|]. split; [by rewrite <- Hid|]. by eexists.
    + rewrite Hq in Hc. by inversion Hc.
  - apply (effect_tasks (task_good cfg) a s s'); try done.
    + intros tr lid addr n n' t Htr Hl. apply listen_on_good in Hl as (Hs & Hid & Hacc & _).
      rewrite Hi in Htr. split; [done|]. split; [by rewrite Hid, (transport_for_id _ _ _ Htr)|].
      rewrite Hacc. by exists addr, tr.
    + intros now e t t' (Hs & Hid & Hacc) Htt.
      destruct (task_turn_sound _ _ _ _ Hs Htt) as (? & Hid' & Hacc').
      split; [done|]. by rewrite Hid', Hacc'.
    + intros t (Hs & Hid & Hacc). destruct (task_accept_sound t Hs) as (? & Hid' & Hacc' & _).
      split; [done|]. by rewrite Hid', Hacc'.
Qed.

(** A system that has just been built. *)
Lemma build_sound `{IpNetLib} (b : EndpointBuilder.t) (iface : outcome error Interface.t) (n : Net)
    (ep : Endpoint.t) (s : System) :
  EndpointBuilder.build b iface n = Ok (ep, s) -> system_sound (Endpoint.config ep) s.
Proof.
  unfold EndpointBuilder.build. intros Hb. read_ok Hb. destruct a as [pm ts].
  injection Hb as <- <-. by split.
Qed.

End system_lemmas.

(** ** Listening tasks keep the ends of their channel *)

Section open_lemmas.

Context `{Ed25519} `{Base32} `{X509Lib} `{QuinnLib} `{StackAddrLib} `{DnsLib} `{NetLib}.

Definition listener_open {P : Type} (l : Listening P) : Prop :=
  cancelled l = false /\ Mpsc.rx_alive (channel l) = true /\ Mpsc.capacity (channel l) = 100%nat.

(** The task has not been cancelled, and what it sends is received. *)
Definition task_open (t : ListenTask) : Prop :=
  match t with
  | QuicTask _ l => listener_open l
  | TcpTask _ _ l => listener_open l
  end.

Lemma listener_send_open {P : Type} (l l' : Listening P) (e : ConnectionEvent) :
  listener_open l -> listener_send l e = Some l' -> listener_open l'.
Proof.
  intros (? & ? & ?). unfold listener_send.
  destruct (Mpsc.try_send (channel l) e) as [ch| |] eqn:E; [|done|]; intros [= <-]; [|done].
  by apply try_send_Sent in E as [-> _].
Qed.

Lemma select_turn_open {P R : Type} (b : listen_branch R) (arrive : R -> option P)
    (finish : P -> Z -> Listening P -> option (Z * Listening P)) (z z' : Z) (l l' : Listening P) :
  (forall p, finish p z l = Some (z', l') -> listener_open l') ->
  listener_open l -> select_turn b arrive finish (z, l) = Some (z', l') -> listener_open l'.
Proof.
  intros Hf Ho. unfold select_turn. destruct (negb (running l)); [done|].
  destruct b as [|r|], (handshaking l) as [p|]; try done.
  - destruct (cancelled l); [|done]. by intros [= _ <-].
  - destruct (arrive r); by intros [= _ <-].
  - apply Hf.
Qed.

Lemma task_turn_open (now : Z) (e : ListenEvent) (t t' : ListenTask) :
  task_open t -> task_turn now e t = Some t' -> task_open t'.
Proof.
  intros Ho. destruct t as [c l|c z l], e as [b|b]; try done; cbn [task_turn].
  - destruct (QuicTransport.listen_turn c now b (0, l)) as [[z' l']|] eqn:E; [|done].
    intros [= <-]. eapply select_turn_open; [|exact Ho|exact E]. intros p.
    unfold QuicTransport.finish_turn. destruct (quinn_incoming _ p); [|by intros [= _ <-]..].
    destruct (QuicTransport.extract_remote_node_id now _); [|by intros [= _ <-]..].
    destruct (listener_send _ _) eqn:Es; [|done]. intros [= _ <-]. by eapply listener_send_open.
  - destruct (TcpTransport.listen_turn c now b (z, l)) as [[z' l']|] eqn:E; [|done].
    intros [= <-]. eapply select_turn_open; [|exact Ho|exact E]. intros [raw addr].
    unfold TcpTransport.finish_turn. destruct (tls_accept _ raw); [|by intros [= _ <-]..].
    cbn [atomic_fetch_add]. destruct (extract_server_remote_node_id now _); [|by intros [= _ <-]..].
    destruct (listener_send _ _) eqn:Es; [|done]. intros [= _ <-]. by eapply listener_send_open.
Qed.

Lemma task_accept_open (t : ListenTask) : task_open t -> task_open (task_accept t).1.
Proof.
  unfold task_accept, listener_accept. destruct t as [c l|c z l]; cbn; intros (? & ? & ?);
    (destruct (Mpsc.try_recv (channel l)) as [e ch| |] eqn:E; cbn; [|done..]);
    apply try_recv_ends in E as (_ & ? & ?); (split; [done|]); split; cbn; congruence.
Qed.

Lemma listen_on_open (tr : Transport.t) (lid : ListenerId.t) (addr : StackAddr) (n n' : Net)
    (t : ListenTask) :
  Transport.listen_on tr lid addr n = (n', Ok t) -> task_open t.
Proof.
  destruct tr as [q|q]; cbn [Transport.listen_on]; intros Hl; task_ok Hl;
    unfold tret in Hl; simplify_eq/=.
  - unfold QuicTransport.listen_on in E. task_ok E. unfold tret in E. by simplify_eq/=.
  - unfold TcpTransport.listen_on in E. task_ok E. unfold tret in E. by simplify_eq/=.
Qed.

(** In every state of a system, listeners and the program hold their ends. *)
Definition system_open (s : System) : Prop :=
  Forall (fun t => task_open t.1) (tasks s) /\
  Mpsc.rx_alive (conns s) = true /\ Mpsc.capacity (conns s) = 100%nat.

Lemma act_open (a : action) (s s' : System) :
  system_open s -> act a s = Some s' -> system_open s'.
Proof.
  intros (Ht & Hr & Hc) [(_ & Hr' & Hc') He]%act_effect. split; [|by rewrite Hr', Hc'].
  eapply (effect_tasks task_open); [|apply task_turn_open|apply task_accept_open|exact Ht|exact He].
  intros. by eapply listen_on_open.
Qed.

End open_lemmas.

(** ** How a connection reaches the program *)

Arguments TcpTransport.incoming_connection : simpl never.
Arguments QuicTransport.incoming_connection : simpl never.

Section delivery.

Context `{Ed25519} `{Base32} `{X509Lib} `{QuinnLib} `{StackAddrLib} `{DnsLib} `{NetLib}.

Lemma listening_turn_at (k : nat) (e : ListenEvent) (s : System) (t t' : ListenTask) (fw : bool) :
  tasks s !! k = Some (t, fw) -> task_turn (net_now (net s)) e t = Some t' ->
  listening_turn k e s = Some (set_tasks s (<[k := (t', fw)]> (tasks s))).
Proof. intros Hk Ht. unfold listening_turn. by rewrite Hk; simpl; rewrite Ht. Qed.

Lemma forward_turn_at (k : nat) (s : System) (t : ListenTask) (conn : Connection.t)
    (world : option World.t) :
  tasks s !! k = Some (t, true) -> (task_accept t).2 = Ready (Some (Accepted conn world)) ->
  Mpsc.rx_alive (conns s) = true -> (length (Mpsc.queue (conns s)) < Mpsc.capacity (conns s))%nat ->
  forward_turn k s = Some (set_conns (set_tasks s (<[k := ((task_accept t).1, true)]> (tasks s)))
    (Mpsc.push (conns s) (conn, world))).
Proof.
  intros Hk He Hr Hq. unfold forward_turn. rewrite Hk, (surjective_pairing (task_accept t)), He.
  by rewrite try_send_room.
Qed.

(** The listener with nothing to send and no handshake under way. *)
Record idle {P : Type} (l : Listening P) : Prop := {
  idle_open : listener_open l;
  idle_running : running l = true;
  idle_handshaking : handshaking l = None;
  idle_queue : Mpsc.queue (channel l) = []
}.

Lemma idle_send {P : Type} (l : Listening P) (p : P) (e : ConnectionEvent) :
  idle l -> listener_send (set_handshaking l (Some p)) e =
    Some (set_channel l (Mpsc.push (channel l) e)).
Proof.
  intros [(_ & Hr & Hc) _ Hh Hq]. unfold listener_send. rewrite try_send_room; cbn.
  - destruct l. cbn in *. by subst.
  - done.
  - rewrite Hq, Hc. simpl. lia.
Qed.

Lemma idle_accept {P : Type} (l : Listening P) (e : ConnectionEvent) :
  idle l -> (listener_accept (set_channel l (Mpsc.push (channel l) e))).2 = Ready (Some e).
Proof.
  intros [_ _ _ Hq]. unfold listener_accept, Mpsc.try_recv. cbn. by rewrite Hq.
Qed.

(** Between an idle listener and an idle program, a turn for the arrival, one for the
    end of the handshake and one of the forwarding task bring the connection. *)
Lemma delivered (s : System) (k : nat) (t t1 t2 : ListenTask) (e1 e2 : ListenEvent)
    (conn : Connection.t) (world : option World.t) :
  tasks s !! k = Some (t, true) -> system_open s -> Mpsc.queue (conns s) = [] ->
  task_turn (net_now (net s)) e1 t = Some t1 -> task_turn (net_now (net s)) e2 t1 = Some t2 ->
  (task_accept t2).2 = Ready (Some (Accepted conn world)) ->
  exists s', run [Listens k e1; Listens k e2; Forwards k] s = Some s' /\
    (endpoint_accept s').2 = Ready (Some (conn, world)) /\
    actor s' = actor s /\ cancel s' = cancel s.
Proof.
  intros Hk (_ & Hr & Hc) Hq Ht1 Ht2 Ha. pose proof (lookup_lt_Some _ _ _ Hk) as Hlt.
  eexists. cbn [run act]. rewrite (listening_turn_at k e1 s t t1 true) by done. cbn [mbind option_bind].
  rewrite (listening_turn_at k e2 _ t1 t2 true) by (cbn; by rewrite ?list_lookup_insert_eq).
  cbn [mbind option_bind].
  rewrite (forward_turn_at k _ t2 conn world);
    [|cbn; rewrite list_lookup_insert_eq; [done|by rewrite length_insert]|done|done
     |cbn; rewrite Hq, Hc; simpl; lia].
  cbn [mbind option_bind]. split; [done|]. split; [|done].
  unfold endpoint_accept, Mpsc.try_recv. cbn. by rewrite Hq.
Qed.

Lemma tcp_delivered (s : System) (k : nat) (c : TcpTransport.captured) (next : Z)
    (l : Listening (Raw * SocketAddr.t)) (raw : Raw) (addr : SocketAddr.t)
    (t : TlsStream (Raw := Raw)) (id : NodeId) (conn : Connection.t) (world : option World.t) :
  tasks s !! k = Some (TcpTask c next l, true) -> system_open s -> Mpsc.queue (conns s) = [] ->
  idle l -> tls_accept (TcpTransport.acceptor c) raw = Ok t ->
  extract_server_remote_node_id (net_now (net s)) t = Ok id ->
  TcpTransport.incoming_connection c t next addr id = Accepted conn world ->
  exists s', run [Listens k (TcpEvent (Arrives (Ok (raw, addr)))); Listens k (TcpEvent Handshaken);
                  Forwards k] s = Some s' /\
    (endpoint_accept s').2 = Ready (Some (conn, world)) /\ actor s' = actor s /\
    cancel s' = cancel s.
Proof.
  intros Hk Ho Hq Hi Ht Hid He.
  eapply (delivered s k (TcpTask c next l)
    (TcpTask c next (set_handshaking l (Some (raw, addr))))
    (TcpTask c (as_u32 (next + 1)) (set_channel l (Mpsc.push (channel l) (Accepted conn world)))));
    try done.
  - cbn. unfold TcpTransport.listen_turn, select_turn.
    by rewrite (idle_running _ Hi), (idle_handshaking _ Hi).
  - cbn. unfold TcpTransport.listen_turn, select_turn. cbn. rewrite (idle_running _ Hi). cbn.
    rewrite Ht, Hid, He. by rewrite idle_send.
  - cbn. destruct (listener_accept _) as [l' r] eqn:E.
    pose proof (idle_accept l (Accepted conn world) Hi) as Hr. by rewrite E in Hr.
Qed.

Lemma quic_delivered (s : System) (k : nat) (c : QuicTransport.captured)
    (l : Listening Connecting) (p : Connecting) (q : QuinnConn) (id : NodeId) (conn : Connection.t)
    (world : option World.t) :
  tasks s !! k = Some (QuicTask c l, true) -> system_open s -> Mpsc.queue (conns s) = [] ->
  idle l -> quinn_incoming (QuicTransport.server_tls c) p = Ok q ->
  QuicTransport.extract_remote_node_id (net_now (net s)) q = Ok id ->
  QuicTransport.incoming_connection c q id = Accepted conn world ->
  exists s', run [Listens k (QuicEvent (Arrives (Some p))); Listens k (QuicEvent Handshaken);
                  Forwards k] s = Some s' /\
    (endpoint_accept s').2 = Ready (Some (conn, world)) /\ actor s' = actor s /\
    cancel s' = cancel s.
Proof.
  intros Hk Ho Hq Hi Ht Hid He.
  eapply (delivered s k (QuicTask c l) (QuicTask c (set_handshaking l (Some p)))
    (QuicTask c (set_channel l (Mpsc.push (channel l) (Accepted conn world))))); try done.
  - cbn. unfold QuicTransport.listen_turn, select_turn.
    by rewrite (idle_running _ Hi), (idle_handshaking _ Hi).
  - cbn. unfold QuicTransport.listen_turn, select_turn. cbn. rewrite (idle_running _ Hi). cbn.
    unfold QuicTransport.finish_turn. rewrite Ht, Hid, He. by rewrite idle_send.
  - cbn. destruct (listener_accept _) as [l' r] eqn:E.
    pose proof (idle_accept l (Accepted conn world) Hi) as Hr. by rewrite E in Hr.
Qed.

End delivery.

(** ** A handshake that does not end *)

Section stuck_lemmas.

Context `{Ed25519} `{Base32} `{X509Lib} `{QuinnLib} `{StackAddrLib} `{DnsLib} `{NetLib}.

(** The handshake that a task awaits. *)
Definition task_handshake (t : ListenTask) : option (Connecting + Raw * SocketAddr.t) :=
  match t with
  | QuicTask _ l => inl <$> handshaking l
  | TcpTask _ _ l => inr <$> handshaking l
  end.

(** The move that ends the handshake of the [k]-th listener. *)
Definition ends_handshake (k : nat) (a : action) : Prop :=
  a = Listens k (QuicEvent Handshaken) \/ a = Listens k (TcpEvent Handshaken).

(** The [k]-th listener still awaits the handshake [p], and sends nothing: only the
    connections [q] that it had sent before are left in its channel, or fewer. *)
Definition stuck (k : nat) (p : Connecting + Raw * SocketAddr.t) (q : list ConnectionEvent)
    (s : System) : Prop :=
  exists t fw, tasks s !! k = Some (t, fw) /\ task_handshake t = Some p /\
    Mpsc.queue (task_channel t) `suffix_of` q.

Lemma task_turn_stuck (now : Z) (k : nat) (e : ListenEvent) (t : ListenTask)
    (p : Connecting + Raw * SocketAddr.t) :
  task_handshake t = Some p -> ~ ends_handshake k (Listens k e) -> task_turn now e t = None.
Proof.
  intros Hp Hn. destruct t as [c l|c z l], e as [b|b]; try done; cbn [task_turn task_handshake] in *;
    (destruct (handshaking l) as [p'|] eqn:Eh; [|done]).
  - unfold QuicTransport.listen_turn.
    rewrite (select_turn_handshaking b _ _ 0 l p' Eh); [done|]. intros ->. by apply Hn; left.
  - unfold TcpTransport.listen_turn.
    rewrite (select_turn_handshaking b _ _ z l p' Eh); [done|]. intros ->. by apply Hn; right.
Qed.

Lemma task_accept_stuck (t : ListenTask) (q : list ConnectionEvent) :
  Mpsc.queue (task_channel t) `suffix_of` q ->
  Mpsc.queue (task_channel (task_accept t).1) `suffix_of` q /\
  task_handshake (task_accept t).1 = task_handshake t.
Proof.
  intros Hs. unfold task_accept, listener_accept. destruct t as [c l|c z l]; cbn in *;
    (destruct (Mpsc.try_recv (channel l)) as [e ch| |] eqn:E; [|by cbn; rewrite ?E..]);
    apply try_recv_rx in E as [Hq _]; rewrite Hq in Hs; (split; [|done]);
    exact (suffix_cons_l _ _ _ Hs).
Qed.

Lemma act_stuck (k : nat) (p : Connecting + Raw * SocketAddr.t) (q : list ConnectionEvent)
    (a : action) (s s' : System) :
  ~ ends_handshake k a -> stuck k p q s -> act a s = Some s' -> stuck k p q s'.
Proof.
  intros Hn (t & fw & Hk & Hp & Hq) [_ He]%act_effect. pose proof (lookup_lt_Some _ _ _ Hk) as Hlt.
  assert (Htake : forall fw', tasks s' = <[k := ((task_accept t).1, fw')]> (tasks s) ->
    stuck k p q s').
  { intros fw' Ht. destruct (task_accept_stuck t q Hq) as [Hq' Hp'].
    exists (task_accept t).1, fw'. rewrite Ht, list_lookup_insert_eq by done. by rewrite Hp'. }
  destruct He as [_ Ht|tr lid addr n n' t' _ _ _ Ht|k' fw' now e t1 t2 -> Hk' Htt _ Ht
    |k' fw' t1 Hk' _ Ht|k' t1 conn world Hk' _ _ Ht|c _ Ht].
  - exists t, fw. by rewrite Ht.
  - exists t, fw. rewrite Ht. split; [|done]. by apply lookup_app_l_Some.
  - destruct (decide (k' = k)) as [->|Hne].
    + simplify_eq. by rewrite (task_turn_stuck now k e t p) in Htt.
    + exists t, fw. by rewrite Ht, list_lookup_insert_ne.
  - destruct (decide (k' = k)) as [->|Hne]; [simplify_eq; by eapply Htake|].
    exists t, fw. by rewrite Ht, list_lookup_insert_ne.
  - destruct (decide (k' = k)) as [->|Hne]; [simplify_eq; by eapply Htake|].
    exists t, fw. by rewrite Ht, list_lookup_insert_ne.
  - exists t, fw. by rewrite Ht.
Qed.

Lemma run_stuck (k : nat) (p : Connecting + Raw * SocketAddr.t) (q : list ConnectionEvent)
    (l : list action) (s s' : System) :
  Forall (fun a => ~ ends_handshake k a) l -> stuck k p q s -> run l s = Some s' -> stuck k p q s'.
Proof.
  intros Hl. revert s. induction Hl as [|a l Ha Hl IH]; intros s Hs; simpl; [by intros [= <-]|].
  destruct (act a s) as [s1|] eqn:E; [|done]. apply IH. by eapply act_stuck.
Qed.

End stuck_lemmas.

(** ** Connecting to a node *)

Section connect_lemmas.

Context `{Ed25519} `{Base32} `{X509Lib} `{QuinnLib} `{StackAddrLib} `{DnsLib} `{NetLib} `{IpNetLib}.

(** Every kind of transport is its own, of the node of the endpoint, and there is one for
    each priority. *)
Record endpoint_wf (ep : Endpoint.t) : Prop := {
  wf_transports : forall k tr, Endpoint.transports ep !! k = Some tr ->
    Transport.kind tr = k /\ Transport.local_node_id tr = Endpoint.node_id ep;
  wf_equipped : forall k, k ∈ map snd (Endpoint.priority_map ep) ->
    is_Some (Endpoint.transports ep !! k)
}.

(** The addresses to try, in order: by priority, then by reachability. *)
Definition candidates_of (lo : bool) (iface : Interface.t) (addr : NodeAddr.t)
    (protos : list TransportKind.t) : list (TransportKind.t * StackAddr) :=
  flat_map (fun proto => map (pair proto)
    (sort_addrs_by_reachability (NodeAddr.get_direct_addrs addr proto lo) iface)) protos.

Definition candidates (ep : Endpoint.t) (iface : Interface.t) (addr : NodeAddr.t) :
    list (TransportKind.t * StackAddr) :=
  candidates_of (Endpoint.allow_loopback ep) iface addr (map snd (Endpoint.priority_map ep)).

(** The first attempt that succeeds, in the state that the failures before it leave. *)
Fixpoint first_connected (l : list (TransportKind.t * StackAddr)) :
    task (Net * Endpoint.t) (Connection.t * option World.t) :=
  fun s =>
    match l with
    | [] => (s, Err (Anyhow "No direct address found for node"))
    | (k, a) :: l =>
        match Endpoint.connect_with k "Transport not found" a s with
        | (s, Ok conn) => (s, Ok conn)
        | (s, Err _) => first_connected l s
        | (s, Panic) => (s, Panic)
        end
    end.

Lemma connect_same (tr tr' : Transport.t) (a : StackAddr) (n n' : Net)
    (c : Connection.t * option World.t) :
  Transport.connect tr a n = (n', Ok (tr', c)) ->
  Transport.kind tr' = Transport.kind tr /\
  Transport.local_node_id tr' = Transport.local_node_id tr.
Proof.
  destruct tr as [q|q]; simpl; intros Hc; task_ok Hc; unfold tret in Hc; simplify_eq/=; [done|].
  unfold TcpTransport.connect in E. task_ok E. unfold tret in E. by simplify_eq/=.
Qed.

(** An attempt leaves the endpoint as it should be. *)
Lemma connect_with_keeps (k : TransportKind.t) (msg : string) (a : StackAddr) (n n' : Net)
    (ep ep' : Endpoint.t) (r : outcome error (Connection.t * option World.t)) :
  endpoint_wf ep -> Endpoint.connect_with k msg a (n, ep) = ((n', ep'), r) ->
  endpoint_wf ep' /\ Endpoint.priority_map ep' = Endpoint.priority_map ep /\
  Endpoint.allow_loopback ep' = Endpoint.allow_loopback ep /\
  Endpoint.config ep' = Endpoint.config ep /\
  (forall c, r = Ok c -> exists tr tr', Endpoint.transports ep !! k = Some tr /\
     Transport.connect tr a n = (n', Ok (tr', c))).
Proof.
  intros [Hw He]. unfold Endpoint.connect_with.
  destruct (Endpoint.transports ep !! k) as [tr|] eqn:Ek; [|by intros [= <- <- <-]].
  destruct (Transport.connect tr a n) as [n1 [[tr' c]| |]] eqn:Ec; intros [= <- <- <-];
    [|split; done..].
  destruct (Hw _ _ Ek) as [Hk Hid]. destruct (connect_same _ _ _ _ _ _ Ec) as [Hk' Hid'].
  split; [|split_and!; try done; intros c' [= <-]; by exists tr, tr'].
  split; intros k1; cbn; destruct (decide (k1 = k)) as [->|Hne];
    rewrite ?lookup_insert_eq, ?lookup_insert_ne by done; try by eauto.
  intros tr1 [= <-]. rewrite Hk', Hid'. done.
Qed.

Lemma connect_addrs_first (k : TransportKind.t) (l : list StackAddr)
    (rest : list (TransportKind.t * StackAddr)) (s : Net * Endpoint.t) :
  first_connected (map (pair k) l ++ rest) s =
  match Endpoint.connect_addrs k l s with
  | (s, Ok (Some conn)) => (s, Ok conn)
  | (s, Ok None) => first_connected rest s
  | (s, Err e) => (s, Err e)
  | (s, Panic) => (s, Panic)
  end.
Proof.
  revert s. induction l as [|a l IH]; intros s; [done|]. cbn [map app first_connected].
  cbn [Endpoint.connect_addrs].
  by destruct (Endpoint.connect_with k "Transport not found" a s) as [s1 [c|e|]].
Qed.

Lemma connect_addrs_keeps (k : TransportKind.t) (l : list StackAddr) (n n' : Net)
    (ep ep' : Endpoint.t) (r : outcome error (option (Connection.t * option World.t))) :
  endpoint_wf ep -> Endpoint.connect_addrs k l (n, ep) = ((n', ep'), r) ->
  endpoint_wf ep' /\ Endpoint.priority_map ep' = Endpoint.priority_map ep /\
  Endpoint.allow_loopback ep' = Endpoint.allow_loopback ep.
Proof.
  revert n ep. induction l as [|a l IH]; intros n ep Hw; cbn [Endpoint.connect_addrs];
    [by intros [= <- <- _]|].
  destruct (Endpoint.connect_with k _ a (n, ep)) as [[n1 ep1] [c|e|]] eqn:E;
    apply connect_with_keeps in E as (Hw1 & Hp & Hl & _); try done; [by intros [= <- <- _]|
    |by intros [= <- <- _]].
  intros Hc. destruct (IH _ _ Hw1 Hc) as (? & -> & ->). by rewrite Hp, Hl.
Qed.

Lemma connect_protocols_first (addr : NodeAddr.t) (iface : Interface.t)
    (protos : list TransportKind.t) (n : Net) (ep : Endpoint.t) :
  endpoint_wf ep -> (forall k, k ∈ protos -> k ∈ map snd (Endpoint.priority_map ep)) ->
  Endpoint.connect_protocols addr iface protos (n, ep) =
  first_connected (candidates_of (Endpoint.allow_loopback ep) iface addr protos) (n, ep).
Proof.
  revert n ep. induction protos as [|k protos IH]; intros n ep Hw Hin; [done|].
  cbn [Endpoint.connect_protocols candidates_of flat_map].
  destruct (wf_equipped _ Hw k) as [tr ->]; [by apply Hin; left|].
  rewrite connect_addrs_first.
  destruct (Endpoint.connect_addrs _ _ _) as [[n1 ep1] [[c|]| |]] eqn:E; try done.
  apply connect_addrs_keeps in E as (Hw1 & Hp & Hl); [|done].
  rewrite IH; [by rewrite Hl|done|]. intros k' Hk'. rewrite Hp. apply Hin. by right.
Qed.

(** What is tried: each address of the node that one of the transports can use. *)
Lemma elem_of_sorted (l : list StackAddr) (iface : Interface.t) (a : StackAddr) :
  a ∈ sort_addrs_by_reachability l iface <-> a ∈ l /\ is_Some (addr_ip a).
Proof.
  unfold sort_addrs_by_reachability. rewrite (list_elem_of_fmap fst).
  setoid_rewrite sort_by_key_perm. unfold ranked. setoid_rewrite list_elem_of_omap.
  split.
  - intros ([b r] & -> & (x & Hx & Hr)). destruct (addr_ip x) as [ip|] eqn:Ei; simplify_eq/=.
    split; [done|]. by rewrite Ei.
  - intros [Ha [ip Hip]]. exists (a, rank_ip ip iface). split; [done|]. exists a. by rewrite Hip.
Qed.

Lemma elem_of_candidates (ep : Endpoint.t) (iface : Interface.t) (addr : NodeAddr.t)
    (k : TransportKind.t) (a : StackAddr) :
  (k, a) ∈ candidates ep iface addr <->
  k ∈ map snd (Endpoint.priority_map ep) /\ a ∈ NodeAddr.addresses addr /\
  usable k (Endpoint.allow_loopback ep) a = true.
Proof.
  unfold candidates, candidates_of. rewrite list_elem_of_In, in_flat_map. split.
  - intros (k' & Hk' & Hin). apply list_elem_of_In, (list_elem_of_fmap (pair k')) in Hin as (b & [= -> ->] & Hb).
    apply elem_of_sorted in Hb as [Hb _]. rewrite get_direct_addrs_filter in Hb.
    apply list_elem_of_filter in Hb as [Hu Hb]. split; [by apply list_elem_of_In|done].
  - intros (Hk & Ha & Hu). exists k. split; [by apply list_elem_of_In|].
    apply list_elem_of_In, (list_elem_of_fmap (pair k)). exists a. split; [done|].
    apply elem_of_sorted. rewrite get_direct_addrs_filter, list_elem_of_filter. split; [done|].
    unfold usable in Hu. by destruct (addr_ip a).
Qed.

(** A success is the success of one attempt, with a transport of the endpoint's. *)
Lemma first_connected_ok (l : list (TransportKind.t * StackAddr)) (n n' : Net)
    (ep ep' : Endpoint.t) (c : Connection.t * option World.t) :
  endpoint_wf ep -> first_connected l (n, ep) = ((n', ep'), Ok c) ->
  exists k a tr tr' n1 n2, (k, a) ∈ l /\ Transport.kind tr = k /\
    Transport.local_node_id tr = Endpoint.node_id ep /\
    Transport.connect tr a n1 = (n2, Ok (tr', c)).
Proof.
  revert n ep. induction l as [|[k a] l IH]; intros n ep Hw; cbn [first_connected]; [done|].
  destruct (Endpoint.connect_with k _ a (n, ep)) as [[n1 ep1] [c1|e|]] eqn:E; [| |done];
    apply connect_with_keeps in E as (Hw1 & _ & _ & Hcfg & Hok); try done.
  - intros [= <- <- <-]. destruct (Hok _ eq_refl) as (tr & tr' & Hk & Hc).
    destruct (wf_transports _ Hw _ _ Hk) as [? ?]. exists k, a, tr, tr', n, n1.
    split_and!; try done. by left.
  - intros Hf. destruct (IH _ _ Hw1 Hf) as (k' & a' & tr & tr' & n2 & n3 & Hin & Hk & Hid & Hc).
    exists k', a', tr, tr', n2, n3. split_and!; try done; [by right|].
    unfold Endpoint.node_id in *. by rewrite Hid, Hcfg.
Qed.

End connect_lemmas.

(** ** Builders *)

Section builder_lemmas.

Context `{Ed25519Laws} `{Base32} `{X509Laws} `{QuinnLaws} `{StackAddrLaws} `{DnsLib} `{NetLib} `{IpNetLib}.

(** The builders a program can make. *)
Inductive made : EndpointBuilder.t -> Prop :=
| made_new kp k1 k2 b : EndpointBuilder.new kp (Ok k1) (Ok k2) = Ok b -> made b
| made_default kp k1 k2 b : EndpointBuilder.default_ kp (Ok k1) (Ok k2) = Ok b -> made b
| made_keypair b kp k1 k2 b' :
    made b -> EndpointBuilder.with_keypair b kp (Ok k1) (Ok k2) = Ok b' -> made b'
| made_quic b : made b -> made (EndpointBuilder.with_quic b)
| made_tcp b : made b -> made (EndpointBuilder.with_tcp b)
| made_addr b a b' : made b -> EndpointBuilder.with_addr b a = Ok b' -> made b'
| made_silent b : made b -> made (EndpointBuilder.without_listen b)
| made_loopback b lo : made b -> made (EndpointBuilder.allow_loopback b lo)
| made_read b size : made b -> made (EndpointBuilder.with_read_buffer_size b size)
| made_write b size : made b -> made (EndpointBuilder.with_write_buffer_size b size)
| made_max_read b : made b -> made (EndpointBuilder.with_max_read_buffer_size b)
| made_max_write b : made b -> made (EndpointBuilder.with_max_write_buffer_size b).

(** An address for which the endpoint has a transport. *)
Definition served (protos : list TransportKind.t) (a : StackAddr) : Prop :=
  exists p k, addr_transport a = Some p /\ TransportKind.from_protocol p = Ok k /\ k ∈ protos.

(** A configuration with which transports can be made. *)
Definition config_ok (cfg : TransportConfig.t) : Prop :=
  node_tls (TransportConfig.keypair cfg) (TransportConfig.client_tls_config cfg) /\
  node_tls (TransportConfig.keypair cfg) (TransportConfig.server_tls_config cfg) /\
  TransportConfig.dns_resolver_option cfg = DefaultResolver.

Record builder_wf (b : EndpointBuilder.t) : Prop := {
  bw_protocols : NoDup (EndpointBuilder.protocols b);
  bw_addrs : NoDup (EndpointBuilder.addrs b);
  bw_served : forall a, a ∈ EndpointBuilder.addrs b -> served (EndpointBuilder.protocols b) a;
  bw_config : config_ok (EndpointBuilder.config b)
}.

Lemma elem_of_set_insert {A : Type} `{EqDecision A} (l : list A) (x y : A) :
  y ∈ set_insert l x <-> y ∈ l \/ y = x.
Proof.
  unfold set_insert. destruct (decide (x ∈ l)) as [Hx|Hx].
  - split; [by left|]. by intros [?| ->].
  - rewrite elem_of_app, list_elem_of_singleton. done.
Qed.

Lemma set_insert_NoDup {A : Type} `{EqDecision A} (l : list A) (x : A) :
  NoDup l -> NoDup (set_insert l x).
Proof.
  intros Hl. unfold set_insert. destruct (decide (x ∈ l)) as [Hx|Hx]; [done|].
  apply NoDup_app. split; [done|]. split; [|apply NoDup_singleton].
  intros y Hy ->%list_elem_of_singleton. done.
Qed.

Lemma push_protocol_wf (b : EndpointBuilder.t) (k : TransportKind.t) :
  builder_wf b -> builder_wf (EndpointBuilder.push_protocol b k) /\
  k ∈ EndpointBuilder.protocols (EndpointBuilder.push_protocol b k) /\
  EndpointBuilder.addrs (EndpointBuilder.push_protocol b k) = EndpointBuilder.addrs b.
Proof.
  intros [Hp Ha Hs Hc]. unfold EndpointBuilder.push_protocol.
  destruct (decide (k ∈ EndpointBuilder.protocols b)) as [Hk|Hk]; [by split|]. split; [|split; [|done]].
  - split; cbn; try done.
    + apply NoDup_app. split; [done|]. split; [|apply NoDup_singleton].
      intros y Hy ->%list_elem_of_singleton. done.
    + intros a (p & k' & Hap & Hpk & Hin)%Hs. exists p, k'. split_and!; try done.
      apply elem_of_app. by left.
  - cbn. apply elem_of_app. right. by apply list_elem_of_singleton.
Qed.

Lemma config_new_ok (kp : Keypair.t) (k1 k2 : CertKey) (cfg : TransportConfig.t) :
  TransportConfig.new kp (Ok k1) (Ok k2) = Ok cfg -> config_ok cfg.
Proof using All.
  destruct (make_client_config_node kp k1) as (cc & Hcc & Hc).
  destruct (make_server_config_node kp k2) as (sc & Hsc & Hs).
  unfold TransportConfig.new. rewrite Hcc, Hsc. by intros [= <-].
Qed.

Lemma config_set_keypair_ok (old cfg : TransportConfig.t) (kp : Keypair.t) (k1 k2 : CertKey) :
  config_ok old -> TransportConfig.set_keypair old kp (Ok k1) (Ok k2) = Ok cfg -> config_ok cfg.
Proof using All.
  intros (_ & _ & Hd). destruct (make_client_config_node kp k1) as (cc & Hcc & Hc).
  destruct (make_server_config_node kp k2) as (sc & Hsc & Hs).
  unfold TransportConfig.set_keypair. rewrite Hcc, Hsc. by intros [= <-].
Qed.

Lemma unwrap_Ok {A : Type} (m : outcome error A) (a : A) :
  unwrap (F := error) m = Ok a -> m = Ok a.
Proof. by destruct m. Qed.

Lemma made_wf (b : EndpointBuilder.t) : made b -> builder_wf b.
Proof using All.
  induction 1 as [kp k1 k2 b Hb|kp k1 k2 b Hb|b kp k1 k2 b' _ IH Hb|b _ IH|b _ IH|b a b' _ IH Hb
    |b _ IH|b lo _ IH|b size _ IH|b size _ IH|b _ IH|b _ IH].
  - unfold EndpointBuilder.new in Hb. read_ok Hb. injection Hb as <-. apply unwrap_Ok in E.
    split; cbn; [constructor|constructor|by intros a' ?%elem_of_nil|by eapply config_new_ok].
  - unfold EndpointBuilder.default_ in Hb. read_ok Hb. injection Hb as <-. apply unwrap_Ok in E.
    split; cbn; [apply NoDup_singleton|apply NoDup_singleton| |by eapply config_new_ok].
    intros a' ->%list_elem_of_singleton. eexists _, TransportKind.Quic.
    rewrite with_node_id_transport, quic_stack_transport. split_and!; [done..|]. by left.
  - unfold EndpointBuilder.with_keypair in Hb. read_ok Hb. injection Hb as <-. apply unwrap_Ok in E.
    destruct IH as [Hp Ha Hs Hc]. split; try done. by eapply config_set_keypair_ok.
  - by apply push_protocol_wf.
  - by apply push_protocol_wf.
  - unfold EndpointBuilder.with_addr in Hb. read_ok Hb. read_ok Hb. injection Hb as <-.
    destruct (push_protocol_wf b a1 IH) as ([Hp Ha Hs Hc] & Hin & _). split; cbn; try done.
    + by apply set_insert_NoDup.
    + intros a' [Ha'| ->]%elem_of_set_insert; [by apply Hs|]. exists a0, a1. split_and!; done.
  - by destruct IH as [Hp Ha Hs Hc].
  - by destruct IH as [Hp Ha Hs Hc].
  - by destruct IH as [Hp Ha Hs Hc].
  - by destruct IH as [Hp Ha Hs Hc].
  - by destruct IH as [Hp Ha Hs Hc].
  - by destruct IH as [Hp Ha Hs Hc].
Qed.

End builder_lemmas.

Section build_lemmas.

Context `{Ed25519Laws} `{Base32} `{X509Laws} `{QuinnLaws} `{StackAddrLaws} `{DnsLib} `{NetLib} `{IpNetLib}.

(** The transport of a kind, for the configuration. *)
Definition new_transport (cfg : TransportConfig.t) (k : TransportKind.t) : outcome error Transport.t :=
  match k with
  | TransportKind.Quic => let? t := QuicTransport.new cfg in Ok (Transport.Quic t)
  | TransportKind.TlsOverTcp => let? t := TcpTransport.new cfg in Ok (Transport.Tcp t)
  end.

Lemma new_transport_ok (cfg : TransportConfig.t) (k : TransportKind.t) :
  config_ok cfg -> exists tr, new_transport cfg k = Ok tr /\ Transport.kind tr = k /\
    Transport.local_node_id tr = Keypair.public (TransportConfig.keypair cfg).
Proof using All.
  intros (Hc & Hs & Hd). destruct k; cbn; unfold QuicTransport.new, TcpTransport.new; rewrite Hd; cbn.
  - unfold QuicConfig.from. rewrite !quic_tls_initial_suite by (by eapply node_tls_suite). cbn.
    eexists. split; [done|]. by destruct (TransportConfig.mtu_upper_bound cfg).
  - by eexists.
Qed.

Lemma transport_for_served (cfg : TransportConfig.t) (protos : list TransportKind.t) (a : StackAddr) :
  config_ok cfg -> served protos a -> exists tr, transport_for cfg a = Ok tr.
Proof using All.
  intros Hc (p & k & Ha & Hp & _). destruct (new_transport_ok cfg k Hc) as (tr & Htr & _).
  exists tr. unfold transport_for. rewrite Ha. destruct p; simplify_eq/=; exact Htr.
Qed.

Lemma protocols_cases (l : list TransportKind.t) :
  NoDup l -> l = [] \/ (exists k, l = [k]) \/ (exists k k', k <> k' /\ l = [k; k']).
Proof.
  destruct l as [|k1 [|k2 [|k3 l]]]; intros Hn; [by left|right; left; by eexists|right; right|].
  - exists k1, k2. split; [|done]. inversion Hn as [|? ? Hx]. intros ->. apply Hx. by left.
  - exfalso. inversion Hn as [|? ? Hx Hn']. inversion Hn' as [|? ? Hy]. clear Hn Hn'. subst.
    rewrite !not_elem_of_cons in Hx. rewrite not_elem_of_cons in Hy. destruct k1, k2, k3; naive_solver.
Qed.

(** The loop of [build] has one transport for each protocol, with the priorities in
    order. *)
Lemma build_transports_ok (cfg : TransportConfig.t) (protos : list TransportKind.t) :
  config_ok cfg -> NoDup protos ->
  exists pm ts, EndpointBuilder.build_transports cfg 0 protos [] ∅ = Ok (pm, ts) /\
    map snd pm = protos /\ map fst pm = seqZ 1 (len protos) /\
    (forall k tr, ts !! k = Some tr ->
       Transport.kind tr = k /\
       Transport.local_node_id tr = Keypair.public (TransportConfig.keypair cfg)) /\
    (forall k, is_Some (ts !! k) <-> k ∈ protos).
Proof using All.
  intros Hc [->|[(k & ->)|(k & k' & Hk & ->)]]%protocols_cases.
  - eexists _, _. split; [done|]. split_and!; try done.
    intros k. rewrite lookup_empty, elem_of_nil. split; [by intros [? ?]|done].
  - destruct (new_transport_ok cfg k Hc) as (tr & Htr & Hkind). unfold new_transport in Htr.
    eexists _, _. cbn [EndpointBuilder.build_transports]. rewrite Htr. cbn [outcome_bind].
    split; [done|]. split_and!; try done.
    + intros k1 tr1. rewrite lookup_insert_Some, lookup_empty. by intros [[<- <-]|[_ ?]].
    + intros k1. rewrite lookup_insert_is_Some, lookup_empty, list_elem_of_singleton.
      split; [by intros [->|[_ [? ?]]]|]. intros ->. by left.
  - destruct (new_transport_ok cfg k Hc) as (tr & Htr & Hkind).
    destruct (new_transport_ok cfg k' Hc) as (tr' & Htr' & Hkind').
    unfold new_transport in Htr, Htr'.
    eexists _, _. cbn [EndpointBuilder.build_transports]. rewrite Htr. cbn [outcome_bind].
    rewrite Htr'. cbn [outcome_bind]. split; [done|]. split_and!; try done.
    + intros k1 tr1. rewrite !lookup_insert_Some, lookup_empty.
      by intros [[<- <-]|[_ [[<- <-]|[_ ?]]]].
    + intros k1. rewrite !lookup_insert_is_Some, lookup_empty, elem_of_cons, list_elem_of_singleton.
      destruct (decide (k' = k1)); destruct (decide (k = k1)); naive_solver.
Qed.

(** The addresses an actor starts to listen on. *)
Definition listen_addrs (b : EndpointBuilder.t) (iface : outcome error Interface.t) : list StackAddr :=
  if bool_decide (EndpointBuilder.addrs b = []) then
    get_unspecified_stack_addrs iface (EndpointBuilder.protocols b)
  else EndpointBuilder.addrs b.

(** Building folds of insertions. *)
Lemma elem_of_foldl {A B : Type} (f : list A -> B -> list A) (R : B -> A -> Prop) :
  (forall acc b x, x ∈ f acc b <-> x ∈ acc \/ R b x) ->
  forall l acc x, x ∈ foldl f acc l <-> x ∈ acc \/ exists b, b ∈ l /\ R b x.
Proof.
  intros Hf l. induction l as [|b l IH]; intros acc x; simpl.
  - split; [by left|]. intros [?|(b & Hb%elem_of_nil & _)]; done.
  - rewrite IH, Hf. setoid_rewrite elem_of_cons. naive_solver.
Qed.

Lemma stack_of_served (protos : list TransportKind.t) (k : TransportKind.t) (ip : IpAddr.t) (port : Z) :
  k ∈ protos -> served protos (stack_of k ip port).
Proof using All.
  intros Hk. destruct k; cbn.
  - eexists _, _. by rewrite quic_stack_transport.
  - eexists _, _. by rewrite tls_stack_transport.
Qed.

Lemma listen_addrs_served (b : EndpointBuilder.t) (iface : outcome error Interface.t) (a : StackAddr) :
  builder_wf b -> a ∈ listen_addrs b iface -> served (EndpointBuilder.protocols b) a.
Proof using All.
  intros Hb. unfold listen_addrs. case_bool_decide; [|by apply bw_served].
  unfold get_unspecified_stack_addrs.
  rewrite (elem_of_foldl _ (fun k a => a = stack_of k (SocketAddr.ip (get_unspecified_server_addr iface))
    (SocketAddr.port (get_unspecified_server_addr iface)))) by (intros; apply elem_of_set_insert).
  intros [?%elem_of_nil|(k & Hk & ->)]; [done|]. by apply stack_of_served.
Qed.

Lemma build_wf (b : EndpointBuilder.t) (iface : outcome error Interface.t) (n : Net)
    (ep : Endpoint.t) (s : System) :
  builder_wf b -> EndpointBuilder.build b iface n = Ok (ep, s) -> endpoint_wf ep.
Proof using All.
  intros [Hp _ _ Hc]. destruct (build_transports_ok _ _ Hc Hp) as (pm & ts & Hbt & Hsnd & _ & Hts & Hdom).
  unfold EndpointBuilder.build. rewrite Hbt. cbn [outcome_bind]. intros [= <- _].
  split; [exact Hts|]. cbn. rewrite Hsnd. intros k. apply Hdom.
Qed.

End build_lemmas.

(** ** Advertised addresses *)

Section advertised_lemmas.

Context `{StackAddrLib} `{IpNetLib}.

(** An address made from a configured one: itself when it names an IP address, and
    otherwise the addresses of the device, for each protocol of the endpoint. *)
Definition advertises (actual_addrs : list SocketAddr.t) (protos : list TransportKind.t)
    (a b : StackAddr) : Prop :=
  exists sock, addr_socket_addr a = Some sock /\
    if IpAddr.is_unspecified (SocketAddr.ip sock) then
      exists actual k, actual ∈ actual_addrs /\ k ∈ protos /\
        same_family (SocketAddr.ip actual) (SocketAddr.ip sock) = true /\
        b = stack_of k (SocketAddr.ip actual) (SocketAddr.port sock)
    else b = a.

Lemma elem_of_insert_actual (actual_addrs : list SocketAddr.t) (protos : list TransportKind.t)
    (sock : SocketAddr.t) (result : list StackAddr) (b : StackAddr) :
  b ∈ insert_actual_addrs actual_addrs protos sock result <-> b ∈ result \/
  exists actual k, actual ∈ actual_addrs /\ k ∈ protos /\
    same_family (SocketAddr.ip actual) (SocketAddr.ip sock) = true /\
    b = stack_of k (SocketAddr.ip actual) (SocketAddr.port sock).
Proof.
  unfold insert_actual_addrs.
  rewrite (elem_of_foldl _ (fun actual b => exists k, k ∈ protos /\
    same_family (SocketAddr.ip actual) (SocketAddr.ip sock) = true /\
    b = stack_of k (SocketAddr.ip actual) (SocketAddr.port sock))); [naive_solver|].
  intros acc actual x.
  rewrite (elem_of_foldl _ (fun k b => same_family (SocketAddr.ip actual) (SocketAddr.ip sock) = true /\
    b = stack_of k (SocketAddr.ip actual) (SocketAddr.port sock))); [done|].
  intros acc' k y. destruct (same_family _ _); rewrite ?elem_of_set_insert; naive_solver.
Qed.

Lemma elem_of_replace (iface : outcome error Interface.t) (l : list StackAddr)
    (protos : list TransportKind.t) (lo : bool) (b : StackAddr) :
  b ∈ replace_with_actual_addrs iface l protos lo <->
  exists a, a ∈ l /\ advertises (get_default_server_addrs iface DEFAULT_SERVER_PORT lo) protos a b.
Proof.
  unfold replace_with_actual_addrs.
  rewrite (elem_of_foldl _ (advertises (get_default_server_addrs iface DEFAULT_SERVER_PORT lo) protos)).
  - rewrite elem_of_nil. naive_solver.
  - intros acc a x. unfold advertises. destruct (addr_socket_addr a) as [sock|]; [|naive_solver].
    destruct (IpAddr.is_unspecified (SocketAddr.ip sock)) eqn:Eu.
    + rewrite elem_of_insert_actual. split; [intros [?|?]; [by left|]|intros [?|(s & [= <-] & Hs)]].
      * right. exists sock. by rewrite Eu.
      * by left.
      * rewrite Eu in Hs. by right.
    + rewrite elem_of_set_insert. split; [intros [?| ->]; [by left|]|intros [?|(s & [= <-] & Hs)]].
      * right. exists sock. by rewrite Eu.
      * by left.
      * rewrite Eu in Hs. by right.
Qed.

End advertised_lemmas.

(** ** Properties *)


(** C19: An endpoint that listens delivers the connections of its peers, and [shutdown]
    does not change that.  After any run of a built endpoint, with or without a shutdown and
    whether or not its actor has ended, none of its listeners has been cancelled; and when a
    listener that still runs, and the program, have nothing else to do, a peer whose
    handshake succeeds and whose certificate is valid reaches [accept] in three moves, over
    TCP and over QUIC. *)
Theorem incoming_connection_delivered `{Ed25519} `{Base32} `{X509Lib} `{QuinnLib} `{StackAddrLib}
    `{DnsLib} `{NetLib} `{IpNetLib} (b : EndpointBuilder.t) (iface : outcome error Interface.t)
    (n : Net) (ep : Endpoint.t) (s0 s : System) (l : list action)
    (Hbuild : EndpointBuilder.build b iface n = Ok (ep, s0)) (Hrun : run l s0 = Some s) :
  Forall (fun t => task_open t.1) (tasks s) /\
  (Mpsc.queue (conns s) = [] ->
   (forall k c next lst raw addr t id, tasks s !! k = Some (TcpTask c next lst, true) -> idle lst ->
      tls_accept (TcpTransport.acceptor c) raw = Ok t ->
      extract_server_remote_node_id (net_now (net s)) t = Ok id ->
      exists s' conn world,
        run [Listens k (TcpEvent (Arrives (Ok (raw, addr)))); Listens k (TcpEvent Handshaken);
             Forwards k] s = Some s' /\
        (endpoint_accept s').2 = Ready (Some (conn, world)) /\
        Connection.remote_node_id conn = id /\
        Connection.remote_addr conn = tls_stack (SocketAddr.ip addr) (SocketAddr.port addr)) /\
   (forall k c lst p q id, tasks s !! k = Some (QuicTask c lst, true) -> idle lst ->
      quinn_incoming (QuicTransport.server_tls c) p = Ok q ->
      QuicTransport.extract_remote_node_id (net_now (net s)) q = Ok id ->
      exists s' conn world,
        run [Listens k (QuicEvent (Arrives (Some p))); Listens k (QuicEvent Handshaken);
             Forwards k] s = Some s' /\
        (endpoint_accept s').2 = Ready (Some (conn, world)) /\
        Connection.remote_node_id conn = id)).
Proof.
  assert (Ho : system_open s).
  { eapply (run_ind system_open); [apply act_open| |exact Hrun].
    unfold EndpointBuilder.build in Hbuild. read_ok Hbuild. destruct a as [pm ts].
    injection Hbuild as <- <-. by split. }
  split; [apply Ho|]. intros Hq. split.
  - intros k c next lst raw addr t id Hk Hi Ht Hid.
    destruct (tcp_delivered s k c next lst raw addr t id _ _ Hk Ho Hq Hi Ht Hid eq_refl)
      as (s' & Hr & Ha & _). eexists s', _, _.
    split; [exact Hr|]. split; [exact Ha|done].
  - intros k c lst p q id Hk Hi Ht Hid.
    destruct (quic_delivered s k c lst p q id _ _ Hk Ho Hq Hi Ht Hid eq_refl)
      as (s' & Hr & Ha & _). eexists s', _, _.
    split; [exact Hr|]. split; [exact Ha|done].
Qed.

(** C26: A peer that connects and then stays silent keeps a listener from everything
    else.  While the [k]-th listener of an endpoint awaits a handshake, no run in which that
    handshake does not end makes it send another connection, whatever connections arrive:
    it still awaits the same handshake at the end, and its channel holds at most what it
    held before.  Neither a cancellation nor another arrival moves it. *)
Theorem silent_peer_blocks_listener `{Ed25519} `{Base32} `{X509Lib} `{QuinnLib} `{StackAddrLib}
    `{DnsLib} `{NetLib} (s s' : System) (k : nat) (t : ListenTask) (fw : bool)
    (p : Connecting + Raw * SocketAddr.t) (l : list action)
    (Hk : tasks s !! k = Some (t, fw)) (Hp : task_handshake t = Some p)
    (Hl : Forall (fun a => ~ ends_handshake k a) l) (Hrun : run l s = Some s') :
  (exists t' fw', tasks s' !! k = Some (t', fw') /\ task_handshake t' = Some p /\
     Mpsc.queue (task_channel t') `suffix_of` Mpsc.queue (task_channel t)) /\
  (forall now e, ~ ends_handshake k (Listens k e) -> task_turn now e (task_cancel t) = None).
Proof.
  split.
  - eapply (run_stuck k p); [exact Hl| |exact Hrun]. exists t, fw. by split_and!.
  - intros now e He. apply (task_turn_stuck now k e _ p); [|done]. by destruct t.
Qed.


(** C14: Every endpoint that a program can build is well formed.  Whatever the calls that
    have made a builder, [build] succeeds; the endpoint has exactly the protocols that were
    asked for, each once, with priorities from 1 in the order they were asked for, and for
    each a transport of its kind; every transport uses the endpoint's node identifier, and
    the actor can make a transport for each address it is to listen on. *)
Theorem built_endpoint_wf `{Ed25519Laws} `{Base32} `{X509Laws} `{QuinnLaws} `{StackAddrLaws} `{DnsLib}
    `{NetLib} `{IpNetLib} (b : EndpointBuilder.t) (iface : outcome error Interface.t) (n : Net)
    (Hmade : made b) :
  exists ep s, EndpointBuilder.build b iface n = Ok (ep, s) /\ endpoint_wf ep /\
    map snd (Endpoint.priority_map ep) = EndpointBuilder.protocols b /\
    map fst (Endpoint.priority_map ep) = seqZ 1 (len (EndpointBuilder.protocols b)) /\
    NoDup (EndpointBuilder.protocols b) /\
    (forall k, is_Some (Endpoint.transports ep !! k) <-> k ∈ EndpointBuilder.protocols b) /\
    actor s = (if EndpointBuilder.listen_enabled b
               then Starting (listen_addrs b iface) (ListenerId.new 1) else Handling) /\
    (forall a, a ∈ listen_addrs b iface -> exists tr, transport_for (config s) a = Ok tr).
Proof.
  destruct (made_wf b Hmade) as [Hp Ha Hs Hc].
  destruct (build_transports_ok _ _ Hc Hp) as (pm & ts & Hbt & Hsnd & Hfst & Hts & Hdom).
  eexists _, _. unfold EndpointBuilder.build. rewrite Hbt. cbn [outcome_bind].
  split; [done|]. split_and!; try done.
  - split; [exact Hts|]. cbn. rewrite Hsnd. intros k. apply Hdom.
  - intros a Hin. eapply transport_for_served; [exact Hc|].
    apply (listen_addrs_served b iface); [by apply made_wf|done].
Qed.

(** C31: What an endpoint advertises is exactly what its configured addresses stand for:
    an address with an IP address stands for itself, and an unspecified one for each IP
    address of the device of its family, on its port, under every protocol of the endpoint.
    So an endpoint that listens for TLS on one port of all its addresses, and has QUIC too,
    advertises QUIC on that port, whether or not it listens for QUIC there. *)
Theorem advertised_addresses `{Ed25519} `{Base32} `{X509Lib} `{QuinnLib} `{StackAddrLaws} `{DnsLib}
    `{NetLib} `{IpNetLib} (b : EndpointBuilder.t) (iface : outcome error Interface.t) (n : Net)
    (ep : Endpoint.t) (s : System) (Hbuild : EndpointBuilder.build b iface n = Ok (ep, s))
    (Haddrs : EndpointBuilder.addrs b <> []) :
  let actual := get_default_server_addrs iface DEFAULT_SERVER_PORT (EndpointBuilder.loopback_allowed b) in
  (forall a, a ∈ NodeAddr.addresses (Endpoint.node_addr ep) <->
     exists a0, a0 ∈ EndpointBuilder.addrs b /\
       advertises actual (EndpointBuilder.protocols b) a0 a) /\
  (forall ip0 port sa, tls_stack ip0 port ∈ EndpointBuilder.addrs b ->
     IpAddr.is_unspecified ip0 = true -> sa ∈ actual ->
     same_family (SocketAddr.ip sa) ip0 = true -> TransportKind.Quic ∈ EndpointBuilder.protocols b ->
     quic_stack (SocketAddr.ip sa) port ∈ NodeAddr.addresses (Endpoint.node_addr ep)).
Proof.
  intros actual. unfold EndpointBuilder.build in Hbuild. read_ok Hbuild. destruct a as [pm ts].
  rewrite bool_decide_false in Hbuild by done. injection Hbuild as <- _. cbn.
  assert (Hin : forall a, a ∈ replace_with_actual_addrs iface (EndpointBuilder.addrs b)
    (EndpointBuilder.protocols b) (EndpointBuilder.loopback_allowed b) <->
    exists a0, a0 ∈ EndpointBuilder.addrs b /\ advertises actual (EndpointBuilder.protocols b) a0 a)
    by (intros a; apply elem_of_replace).
  setoid_rewrite elem_of_btree_set.
  split; [done|]. intros ip0 port sa Ha Hu Hsa Hf Hq. apply Hin. eexists. split; [exact Ha|].
  exists (SocketAddr.new ip0 port). rewrite tls_stack_socket_addr. split; [done|]. cbn. rewrite Hu.
  by exists sa, TransportKind.Quic.
Qed.

(** ** Witnesses: a network in which every attempt meets the node of the demonstration
    certificate, and a device with one address. *)

#[local] Existing Instance two_keys.
#[local] Existing Instance two_keys_laws.
#[local] Existing Instance letters_base32.
#[local] Existing Instance demo_certs.
#[local] Existing Instance demo_certs_laws.
#[local] Existing Instance demo_quinn.
#[local] Existing Instance demo_quinn_laws.
#[local] Existing Instance list_stacks.
#[local] Existing Instance list_stacks_laws.
#[local] Existing Instance queue_quinn.

#[local] Instance demo_dns : DnsLib := {|
  ResolverConfig := string;
  cloudflare := "cloudflare"%string;
  google := "google"%string;
  quad9 := "quad9"%string;
  custom_config := fun name => name;
  read_system_conf := Ok "system"%string;
  hickory_lookup_ip := fun _ _ => Ok [];
  hickory_ipv4_lookup := fun _ _ => Ok [];
  hickory_ipv6_lookup := fun _ _ => Ok [];
  hickory_txt_lookup := fun _ _ => Ok []
|}.

Definition demo_ip : Ipv4Addr.t := Ipv4Addr.mk 192 168 1 10.

Definition demo_peer : SocketAddr.t := SocketAddr.new (IpAddr.V4 (Ipv4Addr.mk 192 168 1 20)) 4432.

Definition demo_local : SocketAddr.t := SocketAddr.new (IpAddr.V4 demo_ip) 40000.

#[local] Instance demo_net : NetLib := {|
  Net := Z;
  net_now := fun n => n;
  net_timeout := fun A _ m n => let '(n', r) := m n in (n', Some r);
  tcp_connect := fun _ => tret demo_cert;
  raw_local_addr := fun _ => Ok demo_local;
  server_name_try_from := fun name => Ok name;
  TcpListener := SocketAddr.t;
  tcp_bind := tret;
  listener_local_addr := Ok;
  UdpSocket := SocketAddr.t;
  udp_bind := tret;
  QuinnEndpoint := SocketAddr.t;
  endpoint_new := fun _ _ => tret;
  endpoint_local_addr := Ok;
  Connecting := bytes;
  endpoint_connect := fun _ _ _ => Ok demo_cert;
  quinn_handshake := tls_connect (TlsLib := demo_tls);
  quinn_incoming := tls_accept (TlsLib := demo_tls)
|}.

#[local] Instance demo_net_laws : NetLaws.
Proof. split. intros A d m n n' r. simpl. destruct (m n) as [n1 r1]. by intros [= -> ->]. Qed.

#[local] Instance demo_raw_laws : TlsLaws (Raw (ConnLib := queue_quinn)) := demo_tls_laws.

#[local] Instance demo_connecting_laws : TlsLaws (Connecting (NetLib := demo_net)).
Proof. split. exact (tls_handshake_verified (TlsLaws := demo_tls_laws)). Qed.

#[local] Instance demo_nets : IpNetLib := {|
  Ipv4Net := Ipv4Addr.t * Z;
  Ipv6Net := Ipv6Addr.t * Z;
  v4net_new := fun a len => Some (a, len);
  v4net_addr := fst;
  v4net_prefix_len := snd;
  v4net_contains := fun net a => bool_decide (net.1 = a);
  v6net_new := fun a len => Some (a, len);
  v6net_addr := fst;
  v6net_prefix_len := snd;
  v6net_contains := fun net a => bool_decide (net.1 = a)
|}.

Definition demo_iface : @Interface.t demo_nets := Interface.mk _ [(demo_ip, 24)] [].

Definition demo_key : outcome error (@CertKey demo_certs) := Ok tt.

Definition demo_time : @Net queue_quinn demo_net := demo_now.

Definition demo_raw : @Raw queue_quinn := demo_cert.

Definition demo_tls_stream : @TlsStream _ (@raw_tls queue_quinn) := (Acceptor, demo_cert).

Definition demo_listen : StackAddr := tls_stack (IpAddr.V4 Ipv4Addr.UNSPECIFIED) 5000.

Definition from_ok {E A : Type} (d : A) (m : outcome E A) : A :=
  match m with Ok a => a | _ => d end.

Definition demo_new : EndpointBuilder.t :=
  from_ok (EndpointBuilder.mk demo_config [] [] true false)
    (EndpointBuilder.new demo_keypair demo_key demo_key).

(** A node with QUIC that listens for TLS on port 5000. *)
Definition demo_builder : EndpointBuilder.t :=
  from_ok demo_new (EndpointBuilder.with_addr (EndpointBuilder.with_quic demo_new) demo_listen).

Definition demo_built : Endpoint.t * System :=
  from_ok (Endpoint.mk demo_config [] None [] ∅ false,
    mk_System demo_time demo_config (Mpsc.channel 1) (Mpsc.channel 1) (Mpsc.channel 1) false Ended [])
    (EndpointBuilder.build demo_builder (Ok demo_iface) demo_time).

Lemma from_ok_Ok {E A : Type} (d : A) (m : outcome E A) : is_ok m = true -> m = Ok (from_ok d m).
Proof. by destruct m. Qed.

Lemma default_Some {A : Type} (d : A) (m : option A) :
  (if m then true else false) = true -> m = Some (default d m).
Proof. by destruct m. Qed.

Lemma demo_builds :
  EndpointBuilder.build demo_builder (Ok demo_iface) demo_time = Ok (demo_built.1, demo_built.2).
Proof. rewrite <- surjective_pairing. apply from_ok_Ok. vm_compute. reflexivity. Qed.

Lemma demo_made : made demo_builder.
Proof.
  assert (Hnew : made demo_new).
  { apply (made_new demo_keypair (tt : @CertKey demo_certs) (tt : @CertKey demo_certs)).
    apply from_ok_Ok. vm_compute. reflexivity. }
  apply (made_addr (EndpointBuilder.with_quic demo_new) demo_listen); [by constructor|].
  apply from_ok_Ok. vm_compute. reflexivity.
Qed.

(** The actor starts to listen, and then the program shuts the endpoint down. *)
Definition demo_start : list action := [ActorListens; ActorListens; Shuts; ActorCommand].

Definition demo_shut : System := default demo_built.2 (run demo_start demo_built.2).

Lemma demo_shuts : run demo_start demo_built.2 = Some demo_shut.
Proof. apply default_Some. vm_compute. reflexivity. Qed.

Definition arrival : ListenEvent := TcpEvent (Arrives (Ok (demo_raw, demo_peer))).

Definition demo_arrives : list action :=
  [Listens 0 arrival; Listens 0 (TcpEvent Handshaken); Forwards 0].

Definition demo_forwarded : System := default demo_shut (run (demo_start ++ demo_arrives) demo_built.2).

Definition accepted_conn (s : System) : option (Connection.t * option World.t) :=
  match (endpoint_accept s).2 with Ready c => c | _ => None end.

Lemma accepted_conn_Some (s : System) (c : Connection.t * option World.t) :
  accepted_conn s = Some c -> endpoint_accept s = ((endpoint_accept s).1, Ready (Some c)).
Proof.
  unfold accepted_conn. destruct (endpoint_accept s) as [s' [r|]]; simpl; [by intros ->|done].
Qed.

Definition accepted_id (s : System) : option NodeId :=
  Connection.remote_node_id ∘ fst <$> accepted_conn s.

(** Whether the first listener is idle. *)
Definition idle_first (s : System) : bool :=
  match tasks s with
  | (TcpTask _ _ l, true) :: _ =>
      negb (cancelled l) && Mpsc.rx_alive (channel l) && Nat.eqb (Mpsc.capacity (channel l)) 100 &&
      running l && (if handshaking l then false else true) &&
      bool_decide (length (Mpsc.queue (channel l)) = 0%nat)
  | _ => false
  end.

Lemma idle_first_true (s : System) :
  idle_first s = true ->
  exists c next l, tasks s !! 0%nat = Some (TcpTask c next l, true) /\ idle l.
Proof.
  unfold idle_first. destruct (tasks s) as [|[[c l|c next l] []] ts]; try done. intros Hi.
  exists c, next, l. split; [done|]. repeat (apply andb_true_iff in Hi as [Hi ?]).
  apply bool_decide_eq_true in H as H'%nil_length_inv. destruct (handshaking l) eqn:?; [done|].
  split; try done. split; [by destruct (cancelled l)|]. split; [done|]. by apply Nat.eqb_eq.
Qed.


Lemma incoming_connection_delivered_witness :
  match actor demo_shut with Ended => true | _ => false end = true /\
  exists s' conn world, run demo_arrives demo_shut = Some s' /\
    (endpoint_accept s').2 = Ready (Some (conn, world)) /\
    Connection.remote_node_id conn = Keypair.public demo_keypair.
Proof.
  split; [vm_compute; reflexivity|].
  destruct (incoming_connection_delivered demo_builder (Ok demo_iface) demo_time demo_built.1
    demo_built.2 demo_shut demo_start demo_builds demo_shuts) as [_ Hd].
  assert (Hq : Mpsc.queue (conns demo_shut) = []) by (apply nil_length_inv; vm_compute; reflexivity).
  destruct (idle_first_true demo_shut ltac:(vm_compute; reflexivity)) as (c & next & lst & Hk & Hi).
  destruct (proj1 (Hd Hq) 0%nat c next lst demo_raw
    demo_peer demo_tls_stream (Keypair.public demo_keypair) Hk Hi) as (s' & conn & world & Hr & Ha & Hid & _).
  - vm_compute. reflexivity.
  - vm_compute. reflexivity.
  - exists s', conn, world. split; [exact Hr|]. split; [exact Ha|exact Hid].
Defined.

(** The same system, with a peer that has not finished its handshake. *)
Definition demo_waiting : System := default demo_shut (run [Listens 0 arrival] demo_shut).

Definition first_handshake (s : System) : option (Connecting + Raw * SocketAddr.t) :=
  t ← head (tasks s); task_handshake t.1.

Lemma silent_peer_blocks_listener_witness :
  exists t fw s', tasks demo_waiting !! 0%nat = Some (t, fw) /\ run [Accepts; Shuts; TakesEvent] demo_waiting = Some s' /\ task_turn demo_now arrival (task_cancel t) = None /\ exists t' fw', tasks s' !! 0%nat = Some (t', fw') /\ task_handshake t' = task_handshake t.
Proof.
  assert (Hh : match first_handshake demo_waiting with Some _ => true | None => false end = true)
    by (vm_compute; reflexivity).
  unfold first_handshake in Hh. destruct (tasks demo_waiting) as [|[t fw] ts] eqn:Et; [discriminate Hh|].
  simpl in Hh. destruct (task_handshake t) as [p|] eqn:Ep; [|discriminate Hh].
  assert (Hk : tasks demo_waiting !! 0%nat = Some (t, fw)) by (rewrite Et; reflexivity).
  assert (Hr : run [Accepts; Shuts; TakesEvent] demo_waiting =
    Some (default demo_shut (run [Accepts; Shuts; TakesEvent] demo_waiting)))
    by (apply default_Some; vm_compute; reflexivity).
  eexists t, fw, _. split; [reflexivity|]. split; [exact Hr|].
  assert (Hl : Forall (fun a => ~ ends_handshake 0 a) [Accepts; Shuts; TakesEvent])
    by (repeat constructor; intros [E|E]; discriminate E).
  destruct (silent_peer_blocks_listener demo_waiting _ 0 t fw p _ Hk Ep Hl Hr)
    as [(t' & fw' & Hk' & Hp' & _) Hn].
  split; [apply Hn; intros [E|E]; discriminate E|].
  exists t', fw'. split; [exact Hk'|]. rewrite Hp', Ep. reflexivity.
Defined.

Definition demo_target : NodeAddr.t :=
  NodeAddr.mk _ PublicKey.zero [tls_stack (SocketAddr.ip demo_peer) 4432] None.


Lemma built_endpoint_wf_witness :
  exists ep s, EndpointBuilder.build demo_builder (Ok demo_iface) demo_time = Ok (ep, s) /\
    endpoint_wf ep /\ map fst (Endpoint.priority_map ep) = [1; 2].
Proof.
  destruct (built_endpoint_wf demo_builder (Ok demo_iface) demo_time demo_made)
    as (ep & s & Hb & Hwf & _ & Hfst & _).
  exists ep, s. split; [exact Hb|]. split; [exact Hwf|]. rewrite Hfst. vm_compute. reflexivity.
Defined.

(** It advertises QUIC on port 5000, where it listens for TLS only. *)
Lemma advertised_addresses_witness :
  quic_stack (IpAddr.V4 demo_ip) 5000 ∈ NodeAddr.addresses (Endpoint.node_addr demo_built.1) /\
  EndpointBuilder.addrs demo_builder = [tls_stack (IpAddr.V4 Ipv4Addr.UNSPECIFIED) 5000].
Proof.
  assert (Ha : EndpointBuilder.addrs demo_builder = [tls_stack (IpAddr.V4 Ipv4Addr.UNSPECIFIED) 5000])
    by (vm_compute; reflexivity).
  split; [|exact Ha].
  assert (Hne : EndpointBuilder.addrs demo_builder <> []) by (rewrite Ha; discriminate).
  destruct (advertised_addresses demo_builder (Ok demo_iface) demo_time demo_built.1 demo_built.2
    demo_builds Hne) as [_ Hq].
  apply (Hq (IpAddr.V4 Ipv4Addr.UNSPECIFIED) 5000 (SocketAddr.new (IpAddr.V4 demo_ip) 4432)).
  - rewrite Ha. by left.
  - reflexivity.
  - by left.
  - reflexivity.
  - by left.
Defined.
