(* ===== verification/Paths.v ===== *)
(** * Paths and the data directory

    What the sources use of [std::path] on Unix, and the rest of
    foctet-core/src/utils/fs.rs: the compression of a directory and the data
    directory of the user.  The components of a path are in [Metadata].

    A path names a file of [Fs].  The directories and the operations of the
    operating system on them are [Disk], and the archive libraries [tar] and
    [flate2] are [TarGz]. *)

From S2P Require Import Prelude Text Tokio Files Hash Metadata.

Local Open Scope Z_scope.
Local Open Scope outcome_scope.

(** ** [std::path] *)

Definition slash : Ascii.ascii := Ascii.ascii_of_nat 47.

(** [Path::is_absolute]. *)
Definition is_absolute (path : string) : bool :=
  match path with
  | String c _ => Ascii.eqb c slash
  | "" => false
  end.

(** Whether a separator is needed after the path. *)
Fixpoint need_sep (path : string) : bool :=
  match path with
  | "" => false
  | String c "" => negb (Ascii.eqb c slash)
  | String _ path' => need_sep path'
  end.

(** [PathBuf::push]: an absolute path replaces what is there. *)
Definition push (self path : string) : string :=
  if is_absolute path then path
  else if need_sep self then self +:+ "/" +:+ path
  else self +:+ path.

(** ** Directories *)

(** What the operating system answers: [home_dir] of the [home] library,
    [Path::exists], and [fs::create_dir_all], which may change the directories. *)
Class Disk (D : Type) : Type := {
  home_dir : D -> option string;
  path_exists : D -> string -> bool;
  create_dir_all : string -> D -> D * outcome error unit
}.

Section data_directory.

Context {D : Type} `{Disk D}.

(** foctet-core/src/default.rs:70-70, [DEFAULT_CONFIG_DIR]. *)
Definition DEFAULT_CONFIG_DIR : string := ".foctet".

(** foctet-core/src/utils/fs.rs:58-75, [get_user_data_dir_path]. *)
Definition get_user_data_dir_path (disk : D) : D * option string :=
  match home_dir disk with
  | Some path =>
      let path := push path DEFAULT_CONFIG_DIR in
      if negb (path_exists disk path) then
        match create_dir_all path disk with
        | (disk, Ok _) => (disk, Some path)
        | (disk, _) => (disk, None)
        end
      else (disk, Some path)
  | None => (disk, None)
  end.

(** foctet-core/src/utils/fs.rs:81-89, [get_user_data_path]. *)
Definition get_user_data_path (relative_path : string) (disk : D) : D * option string :=
  match get_user_data_dir_path disk with
  | (disk, Some path) => (disk, Some (push path relative_path))
  | (disk, None) => (disk, None)
  end.

End data_directory.

(** ** Archives *)

(** [tar::Builder] over a [GzEncoder] over a file: [append_dir_all] reads the files
    below a directory as they are then and gives what it writes, an error after
    part of it; [tar_trailer] is what [finish] and the end of the encoder add. *)
Class TarGz : Type := {
  append_dir_all : Fs -> string -> bytes * outcome error unit;
  tar_trailer : bytes -> bytes * outcome error unit
}.

(** foctet-core/src/utils/fs.rs:15-28, [compress_directory]; [create] is the answer of
    the operating system to [File::create]. *)
Definition compress_directory `{TarGz} (create : outcome error unit) (dir_path output_file : string)
    (fs : Fs) : Fs * outcome error unit :=
  match create with
  | Ok _ =>
      let fs := <[output_file := []]> fs in
      match append_dir_all fs dir_path with
      | (written, Ok _) =>
          let '(trailer, r) := tar_trailer written in
          (<[output_file := written ++ trailer]> fs, r)
      | (written, r) => (<[output_file := written ++ (tar_trailer written).1]> fs, r)
      end
  | r => (fs, r)
  end.

(** ** Lemmas *)

Fixpoint has_slash (s : string) : bool :=
  match s with
  | "" => false
  | String c s' => Ascii.eqb c slash || has_slash s'
  end.

Lemma app_string_cons (c : Ascii.ascii) (a b : string) : String c a +:+ b = String c (a +:+ b).
Proof. done. Qed.

Lemma app_string_nil (a : string) : a +:+ "" = a.
Proof. induction a as [|c a IH]; [done|]. exact (f_equal (String c) IH). Qed.

Lemma app_string_assoc (a b c : string) : (a +:+ b) +:+ c = a +:+ (b +:+ c).
Proof. induction a as [|x a IH]; [done|]. exact (f_equal (String x) IH). Qed.

Lemma has_slash_app (a b : string) : has_slash (a +:+ b) = has_slash a || has_slash b.
Proof. induction a as [|c a IH]; [done|]. rewrite app_string_cons. cbn. by rewrite IH, orb_assoc. Qed.

Lemma split_slash_app (a b acc : string) :
  split_slash (a +:+ "/" +:+ b) acc = split_slash a acc ++ split_slash b "".
Proof.
  revert acc. induction a as [|c a IH]; intros acc; [done|].
  rewrite app_string_cons. cbn [split_slash]. destruct (Ascii.eqb c _); by rewrite IH.
Qed.

Lemma split_slash_none (a acc : string) :
  has_slash a = false -> split_slash a acc = [acc +:+ a].
Proof.
  revert acc. induction a as [|c a IH]; intros acc; cbn.
  - intros _. by rewrite app_string_nil.
  - intros [Hc Ha]%orb_false_iff. unfold slash in Hc. rewrite Hc, IH by done.
    by rewrite app_string_assoc.
Qed.

Lemma split_slash_clean (a acc x : string) :
  has_slash acc = false -> x ∈ split_slash a acc -> has_slash x = false.
Proof.
  revert acc. induction a as [|c a IH]; intros acc Hacc; cbn.
  - intros ->%list_elem_of_singleton. done.
  - destruct (Ascii.eqb c _) eqn:Hc.
    + intros [->|Hx]%elem_of_cons; [done|]. by apply (IH "").
    + intros Hx. apply (IH (acc +:+ String c "")); [|done].
      rewrite has_slash_app, Hacc. cbn. unfold slash. by rewrite Hc.
Qed.

(** What may stand between slashes. *)
Definition is_component (s : string) : Prop := s <> "" /\ s <> "." /\ has_slash s = false.

Lemma components_single (s : string) : is_component s -> components s = [s].
Proof.
  intros (Hne & Hdot & Hs). unfold components. rewrite split_slash_none by done. cbn.
  by rewrite decide_True.
Qed.

Lemma elem_of_components (path x : string) : x ∈ components path -> is_component x.
Proof.
  unfold components. intros [[Hne Hdot] Hx]%list_elem_of_filter. split_and!; try done.
  by apply (split_slash_clean path "").
Qed.

Lemma components_app (a b : string) :
  components (a +:+ "/" +:+ b) = components a ++ components b.
Proof. unfold components. by rewrite split_slash_app, filter_app. Qed.

(** A path that needs no separator is empty or ends with one. *)
Lemma no_sep_ends (a : string) : need_sep a = false -> a = "" \/ exists a', a = a' +:+ "/".
Proof.
  induction a as [|c a IH]; intros Hn; [by left|]. right. destruct a as [|c' a].
  - cbn in Hn. apply negb_false_iff, Ascii.eqb_eq in Hn as ->. by exists "".
  - destruct (IH Hn) as [|[a' Ha']]; [done|]. exists (String c a'). by rewrite Ha'.
Qed.

(** Pushing a relative path adds its components. *)
Lemma components_push (dir name : string) :
  is_absolute name = false -> components (push dir name) = components dir ++ components name.
Proof.
  intros Habs. unfold push. rewrite Habs. destruct (need_sep dir) eqn:Hsep.
  - apply components_app.
  - destruct (no_sep_ends dir Hsep) as [->|[dir' ->]]; [done|].
    rewrite app_string_assoc, components_app. f_equal.
    pose proof (components_app dir' "") as E. rewrite app_string_nil in E.
    by rewrite E, app_nil_r.
Qed.

(** The name of a file is one component, and not [..]. *)
Lemma file_name_component (path name : string) :
  file_name path = Some name -> is_component name /\ name <> "..".
Proof.
  unfold file_name. destruct (last (components path)) as [x|] eqn:Hl; [|done].
  apply last_Some in Hl as [l Hl].
  assert (Hx : is_component x) by (apply (elem_of_components path); rewrite Hl; set_solver).
  destruct (decide (x = "..")) as [->|Hne]; [done|]. intros E.
  assert (x = name) as -> by (revert E; repeat case_match; congruence). done.
Qed.

Lemma component_relative (name : string) : is_component name -> is_absolute name = false.
Proof.
  intros (Hne & _ & Hs). destruct name as [|c name]; [done|]. cbn in Hs |- *.
  by apply orb_false_iff in Hs as [? _].
Qed.

(** The data directory is where the path of a relative name leads. *)
Lemma user_data_path_inside {D : Type} `{Disk D} (disk disk' : D) (rel path : string) :
  get_user_data_path rel disk = (disk', Some path) -> is_absolute rel = false ->
  exists home, home_dir disk = Some home /\
    components path = components home ++ [DEFAULT_CONFIG_DIR] ++ components rel.
Proof.
  unfold get_user_data_path, get_user_data_dir_path. intros E Hrel.
  destruct (home_dir disk) as [home|]; [|done]. exists home. split; [done|].
  assert (Hp : path = push (push home DEFAULT_CONFIG_DIR) rel).
  { destruct (path_exists _ _); cbn in E; [by injection E|].
    destruct (create_dir_all _ disk) as [d [[]| |]]; by injection E. }
  assert (Hc : is_component DEFAULT_CONFIG_DIR) by by split_and!.
  rewrite Hp, components_push, components_push, (components_single _ Hc) by done.
  by rewrite <- app_assoc.
Qed.

(** Compression changes no file but its output, which is truncated even when the
    directory cannot be read. *)
Lemma compress_directory_frame `{TarGz} (create : outcome error unit) (dir output : string) (fs fs' : Fs)
    (r : outcome error unit) (p : string) :
  compress_directory create dir output fs = (fs', r) -> p <> output -> fs' !! p = fs !! p.
Proof.
  intros E Hp. unfold compress_directory in E. destruct create as [[]|e|]; [|by injection E as <- _..].
  destruct (append_dir_all _ dir) as [written [[]|e|]]; [|by injection E as <- _; rewrite !lookup_insert_ne..].
  destruct (tar_trailer written) as [trailer r']. injection E as <- _. by rewrite !lookup_insert_ne.
Qed.
