(* ===== verification/Handles.v ===== *)
(** * Streams and connections as futures

    The operations of [Stream] and [Connection] that wait more than once, as
    futures that other tasks can interleave with: the loops that send and receive
    files, closing a stream, opening a stream, closing a connection.  Run without
    interruption they are the operations of [Connection]. *)

From S2P Require Import Prelude Key Ids Node Frame Tokio Files MuxStream MuxSession.
From S2P Require Import TcpStream QuicStream Connection Futures.

Local Open Scope Z_scope.
Local Open Scope future_scope.

(** ** Streams *)

Section streams.

Context {Tx Rx : Type} `{MessageSink Tx} `{MessageSource Rx} {W : Type} `{StreamHost W} `{FileRead}.

Abbreviation Stream := (Stream.t Tx Rx).

(** foctet-net/src/transport/stream.rs:72-77, [Stream::send_file]: an iteration of the
    loop of either kind of stream, from what is left of the file. *)
Definition send_file_step (file : bytes) : async (Stream * W) (control bytes unit) :=
  Stream.dispatch
    (fun self => QuicStream.on_writer
      (quic_send_file_turn (QuicStream.write_buffer_size self) file) self)
    (fun stream => send_file_turn (LogicalTcpStream.stream_id stream)
      (LogicalTcpStream.write_buffer_size stream) file).

(** A call on the reader of a QUIC stream, with the files. *)
Definition on_reader_fs {A : Type} (m : async (Rx * Fs) A) : async (QuicStream.t Tx Rx * Fs) A :=
  fun '(self, fs) =>
    let '((r, fs), x) := m (QuicStream.framed_reader self, fs) in
    ((QuicStream.set_reader self r, fs), x).

(** foctet-net/src/transport/stream.rs:78-83, [Stream::receive_file]: an iteration of
    the loop of either kind of stream, from the number of bytes received. *)
Definition receive_file_step (file_path : string) (len total_bytes : Z) :
    async (Stream * W * Fs) (control Z Z) :=
  Stream.dispatch_file (on_reader_fs (quic_receive_file_turn file_path len total_bytes))
    (fun _ => receive_file_turn file_path len total_bytes).

(** foctet-net/src/transport/stream.rs:72-77, [Stream::send_file]. *)
Definition stream_send_file (file_path : string) : future (Stream * W * Fs) unit :=
  let* file := call (open_file file_path) in
  floop (fun file => call (on_first (send_file_step file))) file.

(** foctet-net/src/transport/stream.rs:78-83, [Stream::receive_file]. *)
Definition stream_receive_file (file_path : string) (len : Z) : future (Stream * W * Fs) Z :=
  let* _ := call (create_file file_path) in
  floop (fun total_bytes => call (receive_file_step file_path len total_bytes)) 0.

(** foctet-net/src/transport/tcp/stream.rs:312-315, [LogicalTcpStream::close]: with the
    suspensions of the close of the writer. *)
Definition tcp_close : future (Halves.t * W) unit :=
  let* self := call this in
  match Writer.state self with
  | OpenSent | OpenReceived | Established | Init =>
      let* _ := call (update (fun self => Writer.set_state self LocalClosing)) in
      call Writer.send_close_request
  | RemoteClosing =>
      let* _ := call (update (fun self => Writer.set_state self Closed)) in
      let* _ := call Writer.send_close_request in
      call (Writer.send_event (StreamEvent.Closed (Writer.stream_id self)))
  | Reset | Closed | LocalClosing =>
      let* _ := call (update (fun self => Writer.set_state self Closed)) in
      call (Writer.send_event (StreamEvent.Closed (Writer.stream_id self)))
  end.

(** The [match self] of a method whose futures wait more than once.  A stream keeps
    its kind, so that the calls of one kind never meet a stream of the other. *)
Definition dispatch_future {A : Type} (quic : future (QuicStream.t Tx Rx) A)
    (tcp : future (Halves.t * W) A) : future (Stream * W) A :=
  let* s := call aget in
  match s.1 with
  | Stream.Quic _ => within_state (fun _ m => Stream.dispatch m (fun _ => apanic)) quic
  | Stream.Tcp _ _ => within_state (fun _ m => Stream.dispatch apanic (fun _ => m)) tcp
  end.

(** foctet-net/src/transport/stream.rs:84-89, [Stream::close]. *)
Definition stream_close : future (Stream * W) unit :=
  dispatch_future (call QuicStream.close) tcp_close.

End streams.

(** ** Connections *)

Section connections.

Context `{StackAddrLib} `{ConnLib}.

Abbreviation Conn := (Connection.t * World.t)%type.

(** Calls on the parts of a connection that has the kind they are for. *)
Definition on_quic {A : Type} (m : async QuicConnection.t A) : async Conn A :=
  fun '(self, w) =>
    match self with
    | Connection.Quic conn => let '(conn, r) := m conn in ((Connection.Quic conn, w), r)
    | Connection.Tcp _ => ((self, w), Ready Panic)
    end.

Definition on_tcp {A : Type} (m : async (TcpConnection.t * World.t) A) : async Conn A :=
  fun '(self, w) =>
    match self with
    | Connection.Quic _ => ((self, w), Ready Panic)
    | Connection.Tcp conn =>
        let '((conn, w), r) := m (conn, w) in ((Connection.Tcp conn, w), r)
    end.

Definition on_world {C A : Type} (m : async World.t A) : async (C * World.t) A :=
  fun '(c, w) => let '(w, r) := m w in ((c, w), r).

(** foctet-net/src/transport/connection.rs:64-69, [Connection::open_stream]: the request
    to the session and its answer are two calls. *)
Definition connection_open_stream : future Conn (Stream.t SendStream RecvStream) :=
  let* s := call aget in
  match s.1 with
  | Connection.Quic _ => call (on_quic QuicConnection.open_stream)
  | Connection.Tcp _ =>
      let* reply := call (on_world Session.open_stream_request) in
      let* logical_stream := call (on_world (Session.open_stream_reply reply)) in
      call (on_tcp (fun '(self, w) =>
        let self := TcpConnection.count_stream self in
        ((self, w), Ready (Ok (TcpConnection.tcp_stream self logical_stream)))))
  end.

(** foctet-net/src/transport/connection.rs:76-81, [Connection::close]: the result of the
    shutdown of a session is not looked at. *)
Definition connection_close : future Conn unit :=
  let* s := call aget in
  match s.1 with
  | Connection.Quic _ => call (on_quic QuicConnection.close)
  | Connection.Tcp _ =>
      try* reply := call (on_world Session.shutdown_request) in
      match reply with
      | Ok reply =>
          try* _ := call (on_world (Session.shutdown_reply reply)) in
          fret tt
      | _ => fret tt
      end
  end.

End connections.

(** ** Lemmas *)

Lemma len_zero {A : Type} (l : list A) : len l = 0 -> l = [].
Proof. destruct l; [done|]. unfold len. cbn. lia. Qed.

(** A read with room in the buffer and something to read. *)
Lemma file_read_data `{FileRead} (size : Z) (rest : bytes) :
  0 < size -> rest <> [] ->
  exists c rest', file_read size rest = (c, rest') /\ rest = c ++ rest' /\ c <> [] /\ len c <= size.
Proof.
  intros Hs Hne. pose proof (read_len_pos size rest Hs Hne) as Hp.
  pose proof (read_len_fits size rest) as Hfit.
  exists (take (read_len size rest) rest), (drop (read_len size rest) rest).
  assert (Hl : (0 < length (take (read_len size rest) rest) <= read_len size rest)%nat).
  { rewrite length_take. destruct rest; [done|cbn; lia]. }
  split_and!; [done|by rewrite take_drop| |unfold len; lia].
  intros E. rewrite E in Hl. cbn in Hl. lia.
Qed.

Section stream_lemmas.

Context {Tx Rx : Type} `{MessageSink Tx} `{MessageSource Rx} {W : Type} `{StreamHost W} `{FileRead}.

(** The loop of a stream of either kind is the loop of that kind. *)
Lemma loop_send_step (fuel : nat) (file : bytes) (s : Stream.t Tx Rx) (w : W) (fs : Fs) :
  loop (fun file => on_first (send_file_step file)) fuel file (s, w, fs) =
  match s with
  | Stream.Quic q =>
      let '(tx, r) := loop (quic_send_file_turn (QuicStream.write_buffer_size q)) fuel file
        (QuicStream.framed_writer q) in
      ((Stream.Quic (QuicStream.set_writer q tx), w, fs), r)
  | Stream.Tcp t h =>
      let '((h, w), r) := loop (send_file_turn (LogicalTcpStream.stream_id t)
        (LogicalTcpStream.write_buffer_size t)) fuel file (h, w) in
      ((Stream.Tcp t h, w, fs), r)
  end.
Proof.
  revert file s w. induction fuel as [|fuel IH]; intros file [q|t h] w; cbn [loop].
  - by destruct q.
  - done.
  - unfold abind, on_first, send_file_step, Stream.dispatch, QuicStream.on_writer.
    destruct (quic_send_file_turn _ file (QuicStream.framed_writer q)) as [tx [[[rest|b]| |]|]]; try done. by rewrite IH.
  - unfold abind, on_first, send_file_step, Stream.dispatch.
    destruct (send_file_turn _ _ _ _) as [[h' w'] [[[rest|b]| |]|]]; try done. by rewrite IH.
Qed.

Lemma loop_receive_step (path : string) (n : Z) (fuel : nat) (total : Z) (s : Stream.t Tx Rx)
    (w : W) (fs : Fs) :
  loop (fun total => receive_file_step path n total) fuel total (s, w, fs) =
  match s with
  | Stream.Quic q =>
      let '((rx, fs), r) := loop (quic_receive_file_turn path n) fuel total
        (QuicStream.framed_reader q, fs) in
      ((Stream.Quic (QuicStream.set_reader q rx), w, fs), r)
  | Stream.Tcp t h =>
      let '((h, w, fs), r) := loop (receive_file_turn path n) fuel total (h, w, fs) in
      ((Stream.Tcp t h, w, fs), r)
  end.
Proof.
  revert total s w fs. induction fuel as [|fuel IH]; intros total [q|t h] w fs; cbn [loop].
  - by destruct q.
  - done.
  - unfold abind, receive_file_step, Stream.dispatch_file, on_reader_fs.
    destruct (quic_receive_file_turn _ _ _ _) as [[rx fs'] [[[rest|b]| |]|]]; try done.
    by rewrite IH.
  - unfold abind, receive_file_step, Stream.dispatch_file.
    destruct (receive_file_turn _ _ _ _) as [[[h' w'] fs'] [[[rest|b]| |]|]]; try done.
    by rewrite IH.
Qed.

(** A call and what follows it, run alone. *)
Lemma run_call {S A X : Type} (n : nat) (m : async S X) (k : X -> future S A) (s s' : S) (x : X) r :
  m s = (s', Ready (Ok x)) -> run_future n (k x) s' = Some r ->
  run_future (1 + n) (let* x := call m in k x) s = Some r.
Proof. intros E Hr. cbn [run_future fbind fthen call plus]. by rewrite resume_await, E. Qed.

(** Left alone, the futures do what the operations do. *)
Lemma run_send_file (fuel : nat) (path : string) (s s' : Stream.t Tx Rx * W * Fs) :
  Stream.send_file fuel path s = (s', Ready (Ok (Some tt))) ->
  run_future (1 + 2 * fuel) (stream_send_file path) s = Some (Ok tt, s').
Proof.
  destruct s as [[s w] fs]. intros E. unfold stream_send_file.
  assert (Hl : exists file, fs !! path = Some file /\
    loop (fun file => on_first (send_file_step file)) fuel file (s, w, fs) =
      (s', Ready (Ok (Some tt)))).
  { destruct (fs !! path) as [file|] eqn:Ef.
    - exists file. split; [done|]. rewrite loop_send_step. rewrite <- E. clear E.
      destruct s as [q|t h]; cbn [Stream.send_file Stream.dispatch_file QuicStream.send_file];
        unfold quic_send_file, LogicalTcpStream.send_file, abind, open_file; rewrite Ef.
      + unfold on_first. by destruct (loop _ _ _ _).
      + unfold on_first. by destruct (loop _ _ _ _) as [[??]?].
    - exfalso. revert E. unfold Stream.send_file, Stream.dispatch_file, QuicStream.send_file,
        quic_send_file, LogicalTcpStream.send_file, abind, open_file. rewrite Ef. by destruct s. }
  destruct Hl as (file & Hf & Hl). eapply run_call.
  - unfold open_file. by rewrite Hf.
  - by apply run_floop.
Qed.

Lemma run_receive_file (fuel : nat) (path : string) (n m : Z) (s s' : Stream.t Tx Rx * W * Fs) :
  Stream.receive_file fuel path n s = (s', Ready (Ok (Some m))) ->
  run_future (1 + 2 * fuel) (stream_receive_file path n) s = Some (Ok m, s').
Proof.
  destruct s as [[s w] fs]. intros E. unfold stream_receive_file. eapply run_call; [done|].
  apply (run_floop (fun total => receive_file_step path n total)). rewrite loop_receive_step.
  rewrite <- E. clear E. unfold Stream.receive_file, Stream.dispatch_file.
  destruct s as [q|t h].
  - unfold QuicStream.receive_file, quic_receive_file, abind, create_file.
    by destruct (loop _ _ _ _) as [[??]?].
  - unfold LogicalTcpStream.receive_file, abind, create_file.
    by destruct (loop _ _ _ _) as [[[??]?]?].
Qed.

Lemma run_close (s s' : Stream.t Tx Rx * W) :
  Stream.close s = (s', Ready (Ok tt)) -> run_future 6 stream_close s = Some (Ok tt, s').
Proof.
  destruct s as [[q|t h] w]; unfold Stream.close, Stream.dispatch.
  - destruct (QuicStream.close q) as [q' r] eqn:E. intros [= <- ->].
    eapply run_call; [done|]. cbn [fst]. unfold call, within_state. cbn [run_future].
    rewrite resume_await. cbn. by rewrite E.
  - unfold LogicalTcpStream.close, Writer.close, abind, this. cbn [fst].
    change (match Mutex.lock (Halves.state h) with Some g => g | None => Closed end)
      with (Writer.state h).
    intros E. eapply run_call; [done|]. cbn [fst]. unfold tcp_close.
    unfold call. cbn [fbind fthen within_state run_future]. rewrite resume_await. cbn.
    destruct (Writer.state h); cbn; revert E;
      unfold update, Writer.send_close_request, Writer.send_event, abind, this; cbn;
      repeat (destruct (send_or _ _ _ _) as [[??] [[[]| |]|]]; try done; cbn); by intros [= <-].
Qed.

End stream_lemmas.
