(* ===== verification/Traits.v ===== *)
(** * The traits of streams

    The traits of foctet-net/src/transport/stream.rs as classes, with the types that
    implement them as instances: the two kinds of stream and of halves, and the enum
    [Stream].  [Split] is what the two [split] functions promise: the halves do what
    the whole stream does, each on its part.  [Variant] is what the enum promises: it
    does what the stream inside does. *)

From S2P Require Import Prelude Ids Frame Tokio Files MuxStream MuxSession TcpStream QuicStream Connection.

Local Open Scope Z_scope.
Local Open Scope async_scope.

(** foctet-net/src/transport/stream.rs:9-15, [SendStreamHandle]; [send] and [send_file]
    loop, under fuel. *)
Class SendStreamHandle (T : Type) : Type := {
  send_id : T -> StreamId.t;
  half_send : nat -> bytes -> async T (option unit);
  half_send_frame : Frame.t -> async T unit;
  half_send_file : nat -> string -> async (T * Fs) (option unit);
  send_close : async T unit
}.

(** foctet-net/src/transport/stream.rs:17-23, [RecvStreamHandle]. *)
Class RecvStreamHandle (T : Type) : Type := {
  recv_id : T -> StreamId.t;
  half_receive : async T bytes;
  half_receive_frame : async T Frame.t;
  half_receive_file : nat -> string -> Z -> async (T * Fs) (option Z);
  recv_close : async T unit
}.

(** foctet-net/src/transport/stream.rs:25-34, [StreamHandle]. *)
Class StreamHandle (T : Type) : Type := {
  stream_id : T -> StreamId.t;
  send : nat -> bytes -> async T (option unit);
  receive : async T bytes;
  send_frame : Frame.t -> async T unit;
  receive_frame : async T Frame.t;
  send_file : nat -> string -> async (T * Fs) (option unit);
  receive_file : nat -> string -> Z -> async (T * Fs) (option Z);
  close : async T unit
}.

(** A call on the second part of a state, and with the files. *)
Definition on_second {S T A : Type} (m : async T A) : async (S * T) A :=
  fun '(s, t) => let '(t, r) := m t in ((s, t), r).

Definition on_second_file {S T A : Type} (m : async (T * Fs) A) : async (S * T * Fs) A :=
  fun '(s, t, fs) => let '((t, fs), r) := m (t, fs) in ((s, t, fs), r).

Definition on_first_file {S T A : Type} (m : async (S * Fs) A) : async (S * T * Fs) A :=
  fun '(s, t, fs) => let '((s, fs), r) := m (s, fs) in ((s, t, fs), r).

Section instances.

Context {Tx Rx : Type} `{MessageSink Tx} `{MessageSource Rx} {W : Type} `{StreamHost W} `{FileRead}.

(** foctet-net/src/transport/quic/stream.rs:59-103, [QuicSendStream]. *)
#[export] Instance quic_send_handle : SendStreamHandle (QuicSendStream.t Tx) := {|
  send_id := QuicSendStream.stream_id;
  half_send := QuicSendStream.send;
  half_send_frame := QuicSendStream.send_frame;
  half_send_file := QuicSendStream.send_file;
  send_close := QuicSendStream.close
|}.

(** foctet-net/src/transport/quic/stream.rs:136-183, [QuicRecvStream]. *)
#[export] Instance quic_recv_handle : RecvStreamHandle (QuicRecvStream.t Rx) := {|
  recv_id := QuicRecvStream.stream_id;
  half_receive := QuicRecvStream.receive;
  half_receive_frame := QuicRecvStream.receive_frame;
  half_receive_file := QuicRecvStream.receive_file;
  recv_close := QuicRecvStream.close
|}.

(** foctet-net/src/transport/quic/stream.rs:273-356, [QuicStream]. *)
#[export] Instance quic_handle : StreamHandle (QuicStream.t Tx Rx) := {|
  stream_id := QuicStream.stream_id;
  send := QuicStream.send;
  receive := QuicStream.receive;
  send_frame := QuicStream.send_frame;
  receive_frame := QuicStream.receive_frame;
  send_file := QuicStream.send_file;
  receive_file := QuicStream.receive_file;
  close := QuicStream.close
|}.

(** foctet-net/src/transport/tcp/stream.rs:52-88, [LogicalTcpSendStream]: with the halves
    of the logical stream, which are shared, and the session. *)
#[export] Instance tcp_send_handle : SendStreamHandle (LogicalTcpSendStream.t * (Halves.t * W)) := {|
  send_id := fun s => LogicalTcpSendStream.stream_id s.1;
  half_send := fun _ data => on_second (await r := LogicalTcpSendStream.send data in aret (Some r));
  half_send_frame := fun frame => on_second (LogicalTcpSendStream.send_frame frame);
  half_send_file := fun fuel path s =>
    on_second_file (LogicalTcpSendStream.send_file s.1.1 fuel path) s;
  send_close := on_second LogicalTcpSendStream.close
|}.

(** foctet-net/src/transport/tcp/stream.rs:121-158, [LogicalTcpRecvStream]. *)
#[export] Instance tcp_recv_handle : RecvStreamHandle (LogicalTcpRecvStream.t * (Halves.t * W)) := {|
  recv_id := fun s => LogicalTcpRecvStream.stream_id s.1;
  half_receive := on_second LogicalTcpRecvStream.receive;
  half_receive_frame := on_second LogicalTcpRecvStream.receive_frame;
  half_receive_file := fun fuel path len =>
    on_second_file (LogicalTcpRecvStream.receive_file fuel path len);
  recv_close := on_second LogicalTcpRecvStream.close
|}.

(** foctet-net/src/transport/tcp/stream.rs:246-316, [LogicalTcpStream]. *)
#[export] Instance tcp_handle : StreamHandle (LogicalTcpStream.t * (Halves.t * W)) := {|
  stream_id := fun s => LogicalTcpStream.stream_id s.1;
  send := fun _ data => on_second (await r := LogicalTcpStream.send data in aret (Some r));
  receive := on_second LogicalTcpStream.receive;
  send_frame := fun frame => on_second (LogicalTcpStream.send_frame frame);
  receive_frame := on_second LogicalTcpStream.receive_frame;
  send_file := fun fuel path s => on_second_file (LogicalTcpStream.send_file s.1.1 fuel path) s;
  receive_file := fun fuel path len => on_second_file (LogicalTcpStream.receive_file fuel path len);
  close := on_second LogicalTcpStream.close
|}.

(** foctet-net/src/transport/stream.rs:41-90, [Stream]. *)
#[export] Instance enum_handle : StreamHandle (Stream.t Tx Rx * W) := {|
  stream_id := fun s => Stream.stream_id s.1;
  send := Stream.send;
  receive := Stream.receive;
  send_frame := Stream.send_frame;
  receive_frame := Stream.receive_frame;
  send_file := Stream.send_file;
  receive_file := Stream.receive_file;
  close := Stream.close
|}.

(** A QUIC stream next to a session that it does not use. *)
#[export] Instance quic_session_handle : StreamHandle (QuicStream.t Tx Rx * W) := {|
  stream_id := fun s => QuicStream.stream_id s.1;
  send := fun fuel data => on_first (QuicStream.send fuel data);
  receive := on_first QuicStream.receive;
  send_frame := fun frame => on_first (QuicStream.send_frame frame);
  receive_frame := on_first QuicStream.receive_frame;
  send_file := fun fuel path => on_first_file (QuicStream.send_file fuel path);
  receive_file := fun fuel path len => on_first_file (QuicStream.receive_file fuel path len);
  close := on_first QuicStream.close
|}.

End instances.

(** ** Laws *)

(** The result of a call, its state seen through [f]. *)
Definition seen {S T A : Type} (f : S -> T) (r : S * poll (outcome error A)) :
    T * poll (outcome error A) := (f r.1, r.2).

(** The same with files. *)
Definition with_files {S T : Type} (f : S -> T) (s : S * Fs) : T * Fs := (f s.1, s.2).

(** A stream [T] splits into a sending part and a receiving part: what a half does is
    what the whole stream does, seen at that half.  Closing the receiving half does
    nothing. *)
Class Split (T S R : Type) `{StreamHandle T} `{SendStreamHandle S} `{RecvStreamHandle R}
    (to_send : T -> S) (to_recv : T -> R) : Prop := {
  split_send_id : forall t, send_id (to_send t) = stream_id t;
  split_recv_id : forall t, recv_id (to_recv t) = stream_id t;
  split_send : forall fuel data t,
    half_send fuel data (to_send t) = seen to_send (send fuel data t);
  split_send_frame : forall f t, half_send_frame f (to_send t) = seen to_send (send_frame f t);
  split_send_file : forall fuel path t fs,
    half_send_file fuel path (to_send t, fs) = seen (with_files to_send) (send_file fuel path (t, fs));
  split_send_close : forall t, send_close (to_send t) = seen to_send (close t);
  split_receive : forall t, half_receive (to_recv t) = seen to_recv (receive t);
  split_receive_frame : forall t, half_receive_frame (to_recv t) = seen to_recv (receive_frame t);
  split_receive_file : forall fuel path n t fs,
    half_receive_file fuel path n (to_recv t, fs) =
    seen (with_files to_recv) (receive_file fuel path n (t, fs));
  split_recv_close : forall t, recv_close (to_recv t) = (to_recv t, Ready (Ok tt))
}.

(** A stream [T] that [inj] makes a variant of [T']. *)
Class Variant (T T' : Type) `{StreamHandle T} `{StreamHandle T'} (inj : T -> T') : Prop := {
  variant_id : forall t, stream_id (inj t) = stream_id t;
  variant_send : forall fuel data t, send fuel data (inj t) = seen inj (send fuel data t);
  variant_receive : forall t, receive (inj t) = seen inj (receive t);
  variant_send_frame : forall f t, send_frame f (inj t) = seen inj (send_frame f t);
  variant_receive_frame : forall t, receive_frame (inj t) = seen inj (receive_frame t);
  variant_send_file : forall fuel path t fs,
    send_file fuel path (inj t, fs) = seen (with_files inj) (send_file fuel path (t, fs));
  variant_receive_file : forall fuel path n t fs,
    receive_file fuel path n (inj t, fs) = seen (with_files inj) (receive_file fuel path n (t, fs));
  variant_close : forall t, close (inj t) = seen inj (close t)
}.

Section laws.

Context {Tx Rx : Type} `{MessageSink Tx} `{MessageSource Rx} {W : Type} `{StreamHost W} `{FileRead}.

(** The halves of a QUIC stream. *)
Definition quic_to_send (q : QuicStream.t Tx Rx) : QuicSendStream.t Tx := (QuicStream.split q).1.

Definition quic_to_recv (q : QuicStream.t Tx Rx) : QuicRecvStream.t Rx := (QuicStream.split q).2.

(** The halves of a TCP stream. *)
Definition tcp_to_send (s : LogicalTcpStream.t * (Halves.t * W)) :
    LogicalTcpSendStream.t * (Halves.t * W) :=
  ((LogicalTcpStream.split s.1).1, s.2).

Definition tcp_to_recv (s : LogicalTcpStream.t * (Halves.t * W)) :
    LogicalTcpRecvStream.t * (Halves.t * W) :=
  ((LogicalTcpStream.split s.1).2, s.2).

(** The variants of the enum, next to a session. *)
Definition as_quic (s : QuicStream.t Tx Rx * W) : Stream.t Tx Rx * W := (Stream.Quic s.1, s.2).

Definition as_tcp (s : LogicalTcpStream.t * (Halves.t * W)) : Stream.t Tx Rx * W :=
  (Stream.Tcp s.1 s.2.1, s.2.2).

(** A call on a field of the half is the call on that field of the stream. *)
Lemma quic_send_part {A : Type} (m : async Tx A) (q : QuicStream.t Tx Rx) :
  QuicSendStream.on_writer m (quic_to_send q) = seen quic_to_send (QuicStream.on_writer m q).
Proof.
  unfold QuicSendStream.on_writer, QuicStream.on_writer. cbn [quic_to_send QuicStream.split fst
    QuicSendStream.new QuicSendStream.framed_writer]. by destruct (m _).
Qed.

Lemma quic_recv_part {A : Type} (m : async Rx A) (q : QuicStream.t Tx Rx) :
  QuicRecvStream.on_reader m (quic_to_recv q) = seen quic_to_recv (QuicStream.on_reader m q).
Proof.
  unfold QuicRecvStream.on_reader, QuicStream.on_reader. cbn [quic_to_recv QuicStream.split snd
    QuicRecvStream.new QuicRecvStream.framed_reader]. by destruct (m _).
Qed.

Lemma tcp_send_part {A : Type} (m : async (Halves.t * W) A) (s : LogicalTcpStream.t * (Halves.t * W)) :
  on_second m (tcp_to_send s) = seen tcp_to_send (on_second m s).
Proof. destruct s as [t s]. unfold on_second. cbn [tcp_to_send fst snd]. by destruct (m s). Qed.

Lemma tcp_recv_part {A : Type} (m : async (Halves.t * W) A) (s : LogicalTcpStream.t * (Halves.t * W)) :
  on_second m (tcp_to_recv s) = seen tcp_to_recv (on_second m s).
Proof. destruct s as [t s]. unfold on_second. cbn [tcp_to_recv fst snd]. by destruct (m s). Qed.

Lemma as_tcp_part {A : Type} (m : async (Halves.t * W) A) (quic : async (QuicStream.t Tx Rx) A)
    (s : LogicalTcpStream.t * (Halves.t * W)) :
  Stream.dispatch quic (fun _ => m) (as_tcp s) = seen as_tcp (on_second m s).
Proof.
  destruct s as [t [h w]]. unfold Stream.dispatch, on_second. cbn [as_tcp fst snd].
  by destruct (m (h, w)) as [[??]?].
Qed.

Lemma as_quic_part {A : Type} (m : async (QuicStream.t Tx Rx) A)
    (tcp : LogicalTcpStream.t -> async (Halves.t * W) A) (s : QuicStream.t Tx Rx * W) :
  Stream.dispatch m tcp (as_quic s) = seen as_quic (on_first m s).
Proof.
  destruct s as [q w]. unfold Stream.dispatch, on_first. cbn [as_quic fst snd]. by destruct (m q).
Qed.

#[export] Instance quic_split_laws :
  Split (QuicStream.t Tx Rx) (QuicSendStream.t Tx) (QuicRecvStream.t Rx) quic_to_send quic_to_recv.
Proof.
  split; try done.
  - intros fuel data q. apply (quic_send_part (quic_send fuel (QuicStream.write_buffer_size q) data)).
  - intros f q. apply quic_send_part.
  - intros fuel path q fs. cbn [half_send_file send_file quic_send_handle quic_handle].
    unfold QuicSendStream.send_file, QuicStream.send_file.
    cbn [quic_to_send QuicStream.split fst QuicSendStream.new QuicSendStream.framed_writer
      QuicSendStream.write_buffer_size]. by destruct (quic_send_file _ _ _ _) as [[??]?].
  - intros q. apply quic_send_part.
  - intros q. apply quic_recv_part.
  - intros q. apply quic_recv_part.
  - intros fuel path n q fs. cbn [half_receive_file receive_file quic_recv_handle quic_handle].
    unfold QuicRecvStream.receive_file, QuicStream.receive_file.
    cbn [quic_to_recv QuicStream.split snd QuicRecvStream.new QuicRecvStream.framed_reader].
    by destruct (quic_receive_file _ _ _ _) as [[??]?].
Qed.

#[export] Instance tcp_split_laws :
  Split (LogicalTcpStream.t * (Halves.t * W)) (LogicalTcpSendStream.t * (Halves.t * W))
    (LogicalTcpRecvStream.t * (Halves.t * W)) tcp_to_send tcp_to_recv.
Proof.
  split; try done.
  - intros fuel data s. apply tcp_send_part.
  - intros f s. apply tcp_send_part.
  - intros fuel path [t s] fs. cbn [half_send_file send_file tcp_send_handle tcp_handle].
    unfold on_second_file, LogicalTcpSendStream.send_file, LogicalTcpStream.send_file.
    cbn [tcp_to_send fst snd LogicalTcpStream.split LogicalTcpSendStream.new
      LogicalTcpSendStream.stream_id LogicalTcpSendStream.write_buffer_size].
    by destruct (abind _ _ _) as [[??]?].
  - intros s. apply tcp_send_part.
  - intros s. apply tcp_recv_part.
  - intros s. apply tcp_recv_part.
  - intros fuel path n [t s] fs. cbn [half_receive_file receive_file tcp_recv_handle tcp_handle].
    unfold on_second_file, LogicalTcpRecvStream.receive_file, LogicalTcpStream.receive_file.
    cbn [tcp_to_recv fst snd]. by destruct (abind _ _ _) as [[??]?].
Qed.

#[export] Instance tcp_variant :
  Variant (LogicalTcpStream.t * (Halves.t * W)) (Stream.t Tx Rx * W) as_tcp.
Proof.
  split; try done.
  - intros fuel data s. apply as_tcp_part.
  - intros s. apply as_tcp_part.
  - intros f s. apply as_tcp_part.
  - intros s. apply as_tcp_part.
  - intros fuel path [t [h w]] fs. cbn [send_file enum_handle tcp_handle].
    unfold Stream.send_file, Stream.dispatch_file, on_second_file. cbn [as_tcp fst snd].
    by destruct (LogicalTcpStream.send_file _ _ _ _) as [[[??]?]?].
  - intros fuel path n [t [h w]] fs. cbn [receive_file enum_handle tcp_handle].
    unfold Stream.receive_file, Stream.dispatch_file, on_second_file. cbn [as_tcp fst snd].
    by destruct (LogicalTcpStream.receive_file _ _ _ _) as [[[??]?]?].
  - intros s. apply as_tcp_part.
Qed.

#[export] Instance quic_variant : Variant (QuicStream.t Tx Rx * W) (Stream.t Tx Rx * W) as_quic.
Proof.
  split; try done.
  - intros fuel data s. apply as_quic_part.
  - intros s. apply as_quic_part.
  - intros f s. apply as_quic_part.
  - intros s. apply as_quic_part.
  - intros fuel path [q w] fs. cbn [send_file enum_handle quic_session_handle].
    unfold Stream.send_file, Stream.dispatch_file, on_first_file. cbn [as_quic fst snd].
    by destruct (QuicStream.send_file _ _ _) as [[??]?].
  - intros fuel path n [q w] fs. cbn [receive_file enum_handle quic_session_handle].
    unfold Stream.receive_file, Stream.dispatch_file, on_first_file. cbn [as_quic fst snd].
    by destruct (QuicStream.receive_file _ _ _ _) as [[??]?].
  - intros s. apply as_quic_part.
Qed.

End laws.
