(* ===== verification/Links.v ===== *)
(** * What two linked streams promise to a program

    The two ends of a stream, at a client that has opened it and at a server that
    has accepted it, with all that lies between them.  [StreamLink] is how a
    program sees such a pair: each side has a list of items, frames or chunks of a
    file, that it has sent and that the other side has not received yet.
    [LinkLaws] is what the calls of [Stream] do to these lists.  [SessionLink] and
    [QuicLink] have the two implementations. *)

From S2P Require Import Prelude Ids Frame Tokio Files MuxStream MuxSession MuxInvariant.
From S2P Require Import TcpStream QuicStream Connection Futures Handles.

Local Open Scope Z_scope.

(** The other side of a link. *)
Definition opposite (d : SessionSide) : SessionSide :=
  match d with
  | Client => Server
  | Server => Client
  end.

Lemma opposite_twice (d : SessionSide) : opposite (opposite d) = d.
Proof. by destruct d. Qed.

Section interface.

Context (Tx Rx W J : Type) `{MessageSink Tx} `{MessageSource Rx} `{StreamHost W} `{FileRead}.

(** [flow d] is what the side [d] has sent and the other has not received;
    [arrived d] tells whether the first of what was sent to [d] is there.  A move
    is one of the tasks and networks between the two streams, and makes the
    [effort] that is left smaller; an item that is sent adds at most [hops] to
    it. *)
Class StreamLink : Type := {
  end_of : SessionSide -> J -> Stream.t Tx Rx * W;
  set_end : SessionSide -> J -> Stream.t Tx Rx * W -> J;
  Item : Type;
  frame_item : Frame.t -> Item;
  chunk_item : StreamId.t -> bytes -> Item;
  flow : SessionSide -> J -> list Item;
  arrived : SessionSide -> J -> bool;
  usable : J -> Prop;
  Move : Type;
  move : Move -> J -> option J;
  effort : J -> nat;
  hops : nat
}.

Context `{StreamLink}.

(** The identifier that a side knows the stream by. *)
Definition ident (d : SessionSide) (j : J) : StreamId.t := Stream.stream_id (end_of d j).1.

(** Frames that may be sent: for this stream, and not too large. *)
Record sendable (d : SessionSide) (j : J) (f : Frame.t) : Prop := {
  se_wf : Frame.wf f = true;
  se_stream : frame_stream f = ident d j;
  se_size : 14 + len (Frame.payload f) <= MAX_MESSAGE
}.

(** Some task between the streams can move. *)
Definition movable (j : J) : Prop := exists m j', move m j = Some j'.

(** From [j] to [j'] the side [d] has sent [i], or has received what came first. *)
Record appended (d : SessionSide) (i : Item) (j j' : J) : Prop := {
  ap_usable : usable j';
  ap_flow : flow d j' = flow d j ++ [i];
  ap_other : flow (opposite d) j' = flow (opposite d) j;
  ap_ident : forall d', ident d' j' = ident d' j;
  ap_effort : (effort j' <= hops + effort j)%nat
}.

Record took (d : SessionSide) (rest : list Item) (j j' : J) : Prop := {
  tk_usable : usable j';
  tk_flow : flow (opposite d) j' = rest;
  tk_other : flow d j' = flow d j;
  tk_ident : forall d', ident d' j' = ident d' j;
  tk_effort : (effort j' <= effort j)%nat
}.

Class LinkLaws : Prop := {
  end_set_end : forall d j s, end_of d (set_end d j s) = s;
  set_end_id : forall d j, set_end d j (end_of d j) = j;
  link_send : forall d j f, usable j -> sendable d j f ->
    match Stream.send_frame f (end_of d j) with
    | (s, Ready o) => o = Ok tt /\ appended d (frame_item f) j (set_end d j s)
    | (_, Pending) => flow d j <> [] \/ movable j
    end;
  link_send_chunk : forall d j rest, usable j -> rest <> [] ->
    match send_file_step rest (end_of d j) with
    | (s, Ready o) => exists c rest', rest = c ++ rest' /\ c <> [] /\ o = Ok (Continue rest') /\
        appended d (chunk_item (ident d j) c) j (set_end d j s)
    | (_, Pending) => flow d j <> [] \/ movable j
    end;
  link_send_end : forall d j, usable j ->
    send_file_step [] (end_of d j) = (end_of d j, Ready (Ok (Break tt)));
  link_wait : forall d j, usable j -> arrived d j = false ->
    (Stream.receive_frame (end_of d j)).2 = Pending /\
    forall path n total fs, (receive_file_step path n total (end_of d j, fs)).2 = Pending;
  link_receive : forall d j f rest, usable j -> arrived d j = true ->
    flow (opposite d) j = frame_item f :: rest -> Frame.wf f = true ->
    exists s, Stream.receive_frame (end_of d j) = (s, Ready (Ok (Frame.normal f))) /\
      took d rest j (set_end d j s);
  link_receive_chunk : forall d j id c rest path n total fs, usable j -> arrived d j = true ->
    flow (opposite d) j = chunk_item id c :: rest -> c <> [] ->
    exists s, receive_file_step path n total (end_of d j, fs) =
        ((s, alter (fun content => content ++ c) path fs),
         Ready (Ok (if total + len c =? n then Break (total + len c)
                    else Continue (total + len c)))) /\
      took d rest j (set_end d j s);
  link_arrived : forall d j, usable j -> arrived d j = true -> flow (opposite d) j <> [];
  link_progress : forall d j, usable j -> flow d j <> [] ->
    arrived (opposite d) j = true \/ movable j;
  link_move : forall m j j', usable j -> move m j = Some j' ->
    usable j' /\ (forall d, flow d j' = flow d j) /\ (forall d, ident d j' = ident d j) /\
    (effort j' < effort j)%nat
}.

End interface.

Arguments end_of {Tx Rx W J _} d j.
Arguments set_end {Tx Rx W J _} d j s.
Arguments Item {Tx Rx W J _}.
Arguments frame_item {Tx Rx W J _} f.
Arguments chunk_item {Tx Rx W J _} id c.
Arguments flow {Tx Rx W J _} d j.
Arguments arrived {Tx Rx W J _} d j.
Arguments usable {Tx Rx W J _} j.
Arguments Move {Tx Rx W J _}.
Arguments move {Tx Rx W J _} m j.
Arguments effort {Tx Rx W J _} j.
Arguments hops {Tx Rx W J _}.
Arguments ident {Tx Rx W J _} d j.
Arguments sendable {Tx Rx W J _} d j f.
Arguments movable {Tx Rx W J _} j.
Arguments appended {Tx Rx W J _} d i j j'.
Arguments took {Tx Rx W J _} d rest j j'.
Arguments end_set_end {Tx Rx W J _ _ _ _ _ _}.
Arguments set_end_id {Tx Rx W J _ _ _ _ _ _}.
Arguments link_send {Tx Rx W J _ _ _ _ _ _}.
Arguments link_send_chunk {Tx Rx W J _ _ _ _ _ _}.
Arguments link_send_end {Tx Rx W J _ _ _ _ _ _}.
Arguments link_wait {Tx Rx W J _ _ _ _ _ _}.
Arguments link_receive {Tx Rx W J _ _ _ _ _ _}.
Arguments link_receive_chunk {Tx Rx W J _ _ _ _ _ _}.
Arguments link_arrived {Tx Rx W J _ _ _ _ _ _}.
Arguments link_progress {Tx Rx W J _ _ _ _ _ _}.
Arguments link_move {Tx Rx W J _ _ _ _ _ _}.
