(* ===== verification/SessionLink.v ===== *)
(** * Streams of two sessions, linked

    Two sessions of foctet-mux that a framed link joins, with one stream open
    between them: what is sent waits among the events of its session, then is
    written to the raw stream, crosses it, and is distributed to the channel of
    the stream on the other side.  The turns of the two actors and the network
    make it an implementation of [StreamLink]. *)

From S2P Require Import Prelude Ids Frame Codec Tokio Files MuxStream MuxSession MuxInvariant MuxProtocol.
From S2P Require Import TcpStream QuicStream Connection Futures Handles Links.
Import MuxSession.World.

Local Open Scope Z_scope.

(** One side: the stream, the session's world, and how many of the frames that the
    session has written have crossed. *)
Record half (Tx Rx : Type) : Type := mk_half {
  h_stream : Stream.t Tx Rx;
  h_world : World.t;
  h_carried : nat
}.

Arguments mk_half {Tx Rx} h_stream h_world h_carried.
Arguments h_stream {Tx Rx} h.
Arguments h_world {Tx Rx} h.
Arguments h_carried {Tx Rx} h.

Definition half_of {Tx Rx : Type} (d : SessionSide) (j : half Tx Rx * half Tx Rx) : half Tx Rx :=
  match d with Client => j.1 | Server => j.2 end.

Definition set_half {Tx Rx : Type} (d : SessionSide) (j : half Tx Rx * half Tx Rx)
    (a : half Tx Rx) : half Tx Rx * half Tx Rx :=
  match d with Client => (a, j.2) | Server => (j.1, a) end.

(** The channel that the stream of a side receives from. *)
Definition chan_of {Tx Rx : Type} (a : half Tx Rx) : Mpsc.t Frame.t :=
  match h_stream a with
  | Stream.Tcp _ h => frames (h_world a) (Reader.receiver h)
  | Stream.Quic _ => dead
  end.

(** Frames in what the session has read and in its events. *)
Definition frame_of_result (x : outcome error Frame.t) : option Frame.t :=
  match x with Ok f => Some f | _ => None end.

Definition frame_of_event (e : StreamEvent.t) : option Frame.t :=
  match e with StreamEvent.Frame f => Some f | _ => None end.

Definition wire_of {Tx Rx : Type} (a : half Tx Rx) : list Frame.t :=
  drop (h_carried a) (FramedWriter.written (framed_writer (h_world a))).

(** What a side has not received yet of what has reached its session, what its
    session has not got across, and so what is under way from one side to the
    other, the oldest first. *)
Definition inbound {Tx Rx : Type} (a : half Tx Rx) : list Frame.t :=
  Mpsc.queue (chan_of a) ++ omap frame_of_result (incoming (h_world a)).

Definition outbound {Tx Rx : Type} (a : half Tx Rx) : list Frame.t :=
  wire_of a ++ omap frame_of_event (Mpsc.queue (events (h_world a))).

Definition under_way {Tx Rx : Type} (a b : half Tx Rx) : list Frame.t := inbound b ++ outbound a.

(** The moves: a session takes an event or a frame, and a frame crosses. *)
Inductive session_move : Type :=
| TakesEvent (d : SessionSide)
| TakesFrame (d : SessionSide)
| Crosses (d : SessionSide).

Definition half_turn {Tx Rx : Type} (b : branch) (a : half Tx Rx) : option (half Tx Rx) :=
  w ← turn b (h_world a);
  Some (mk_half (h_stream a) w (h_carried a)).

Section link.

Context {Tx Rx L : Type} `{MessageSink Tx} `{MessageSource Rx} `{FileRead} `{FramedLink L} (l : L).

Abbreviation half := (half Tx Rx).

Definition cross (a b : half) : option (half * half) :=
  f ← FramedWriter.written (framed_writer (h_world a)) !! h_carried a;
  fs ← transmit l [f];
  Some (mk_half (h_stream a) (h_world a) (S (h_carried a)),
        mk_half (h_stream b) (set_incoming (h_world b) (incoming (h_world b) ++ map Ok fs))
          (h_carried b)).

Definition session_step (m : session_move) (j : half * half) : option (half * half) :=
  match m with
  | TakesEvent d => a ← half_turn NextEvent (half_of d j); Some (set_half d j a)
  | TakesFrame d => a ← half_turn NextFrame (half_of d j); Some (set_half d j a)
  | Crosses Client => cross j.1 j.2
  | Crosses Server => '(b, a) ← cross j.2 j.1; Some (a, b)
  end.

(** Frames of the stream [id] that can cross. *)
Definition good_frame (id : StreamId.t) (f : Frame.t) : Prop :=
  Frame.wf f = true /\ frame_stream f = id.

(** Frames that have crossed have their length field set. *)
Definition crossed (f : Frame.t) : Prop := Frame.normal f = f.

(** The stream is open at this side, and nothing but its frames is on the way. *)
Record half_ok (id : StreamId.t) (a : half) : Prop := {
  ho_stream : exists t h ch, h_stream a = Stream.Tcp t h /\
    LogicalTcpStream.stream_id t = id /\
    0 < LogicalTcpStream.write_buffer_size t <= u32_max /\
    streams (h_world a) !! id = Some (Reader.receiver h) /\
    chans (h_world a) !! Reader.receiver h = Some ch /\
    Mpsc.tx_alive ch = true /\ Mpsc.rx_alive ch = true /\ (0 < Mpsc.capacity ch)%nat;
  ho_running : running (h_world a) = true;
  ho_open : FramedWriter.state (framed_writer (h_world a)) = FramedWriter.Open;
  ho_events_rx : Mpsc.rx_alive (events (h_world a)) = true;
  ho_events_cap : (0 < Mpsc.capacity (events (h_world a)))%nat;
  ho_events : Forall (fun e => exists f, e = StreamEvent.Frame f /\ good_frame id f)
    (Mpsc.queue (events (h_world a)));
  ho_carried : (h_carried a <= length (FramedWriter.written (framed_writer (h_world a))))%nat;
  ho_wire : Forall (good_frame id) (wire_of a);
  ho_incoming : Forall (fun x => exists f, x = Ok f /\ frame_stream f = id /\ crossed f)
    (incoming (h_world a));
  ho_chan : Forall crossed (Mpsc.queue (chan_of a))
}.

Definition half_effort (a : half) : nat :=
  3 * length (Mpsc.queue (events (h_world a))) + 2 * length (wire_of a) +
  length (incoming (h_world a)).

#[export] Instance session_link : StreamLink Tx Rx World.t (half * half) := {|
  end_of := fun d j => (h_stream (half_of d j), h_world (half_of d j));
  set_end := fun d j s => set_half d j (mk_half s.1 s.2 (h_carried (half_of d j)));
  Item := Frame.t;
  frame_item := Frame.normal;
  chunk_item := fun id c => Frame.normal (data_frame id c);
  flow := fun d j => map Frame.normal (under_way (half_of d j) (half_of (opposite d) j));
  arrived := fun d j => bool_decide (Mpsc.queue (chan_of (half_of d j)) <> []);
  usable := fun j => exists id, StreamId.wf id = true /\ forall d, half_ok id (half_of d j);
  Move := session_move;
  move := session_step;
  effort := fun j => (half_effort j.1 + half_effort j.2)%nat;
  hops := 3
|}.

(** ** Lemmas *)

Lemma half_set (d : SessionSide) (j : half * half) (a : half) : half_of d (set_half d j a) = a.
Proof. by destruct d. Qed.

Lemma half_set_opposite (d : SessionSide) (j : half * half) (a : half) :
  half_of (opposite d) (set_half d j a) = half_of (opposite d) j.
Proof. by destruct d. Qed.

(** What one step of a side does to its lists. *)
Record half_step (id : StreamId.t) (a a' : half) (got sent : list Frame.t) (gain : nat) : Prop := {
  hs_ok : half_ok id a';
  hs_ident : Stream.stream_id (h_stream a') = Stream.stream_id (h_stream a);
  hs_inbound : inbound a = got ++ inbound a';
  hs_outbound : outbound a' = outbound a ++ sent;
  hs_effort : (half_effort a' <= gain + half_effort a)%nat
}.

Lemma half_ident (id : StreamId.t) (a : half) : half_ok id a -> Stream.stream_id (h_stream a) = id.
Proof. intros Ha. by destruct (ho_stream _ _ Ha) as (t & h & ch & -> & ? & _). Qed.

Section one_half.

Context (id : StreamId.t) (a : half) (Ha : half_ok id a).

(** A frame is queued for the session. *)
Definition with_event (f : Frame.t) : half :=
  mk_half (h_stream a) (set_events (h_world a)
    (push_all (events (h_world a)) [StreamEvent.Frame f])) (h_carried a).

Lemma with_event_step (f : Frame.t) : good_frame id f -> half_step id a (with_event f) [] [f] 3.
Proof using Ha.
  intros Hf. destruct Ha as [Hs Hr Ho Her Hec Hev Hca Hw Hi Hcr]. unfold with_event. split; try done.
  - split; try done. cbn. apply Forall_app. split; [done|]. constructor; [by exists f|done].
  - unfold outbound, wire_of. cbn. by rewrite omap_app, app_assoc.
  - unfold half_effort, wire_of. cbn. rewrite length_app. cbn. lia.
Qed.

(** Sending on the event channel. *)
Lemma send_event_case (t : LogicalTcpStream.t) (h : Halves.t) (f : Frame.t) :
  Writer.send_frame f (h, h_world a) =
    ((h, h_world (with_event f)), Ready (Ok tt)) \/
  (Writer.send_frame f (h, h_world a) = ((h, h_world a), Pending) /\ outbound a <> []).
Proof using Ha.
  unfold Writer.send_frame, send_or. cbn. rewrite try_send_room_case.
  destruct (room (events (h_world a))) as [|n] eqn:Er; [|by left].
  rewrite (ho_events_rx _ _ Ha). right. split; [done|]. unfold room in Er.
  rewrite (ho_events_rx _ _ Ha) in Er. pose proof (ho_events_cap _ _ Ha) as Hcap.
  pose proof (ho_events _ _ Ha) as Hev. unfold outbound.
  destruct Hev as [|e q (f' & -> & _) _]; [cbn in Er; lia|].
  by intros [_ ?]%app_nil.
Qed.

(** The oldest frame is received. *)
Definition without_frame (h' : Halves.t) (q : list Frame.t) : half :=
  match h_stream a with
  | Stream.Tcp t h =>
      mk_half (Stream.Tcp t h') (set_chans (h_world a)
        (alter (fun ch => Mpsc.mk q (Mpsc.capacity ch) (Mpsc.tx_alive ch) (Mpsc.rx_alive ch))
          (Reader.receiver h) (chans (h_world a)))) (h_carried a)
  | _ => a
  end.

Lemma chan_of_tcp (t : LogicalTcpStream.t) (h : Halves.t) (ch : Mpsc.t Frame.t) :
  h_stream a = Stream.Tcp t h -> chans (h_world a) !! Reader.receiver h = Some ch -> chan_of a = ch.
Proof using Type. intros Hs Hc. unfold chan_of. rewrite Hs. cbn. by rewrite Hc. Qed.

Lemma without_frame_step (h : Halves.t) (t : LogicalTcpStream.t) (h' : Halves.t) (f : Frame.t) q :
  h_stream a = Stream.Tcp t h -> Reader.receiver h' = Reader.receiver h ->
  Mpsc.queue (chan_of a) = f :: q -> half_step id a (without_frame h' q) [f] [] 0.
Proof using Ha.
  intros Hst Hrh Hq. destruct Ha as [Hs Hr Ho Her Hec Hev Hca Hw Hi Hcr].
  destruct Hs as (t0 & h0 & ch & Hs & Hid & Hbuf & Hreg & Hch & Htx & Hrx & Hcap).
  rewrite Hst in Hs. injection Hs as <- <-.
  pose proof (chan_of_tcp t h ch Hst Hch) as Hco.
  assert (Hco' : Mpsc.queue (chan_of (without_frame h' q)) = q).
  { unfold without_frame, chan_of. rewrite Hst. cbn. by rewrite Hrh, lookup_alter_eq, Hch. }
  split.
  - unfold without_frame in *. rewrite Hst in *. split; try done.
    + exists t, h', (Mpsc.mk q (Mpsc.capacity ch) (Mpsc.tx_alive ch) (Mpsc.rx_alive ch)).
      cbn. rewrite Hrh, lookup_alter_eq, Hch. split_and!; try done; lia.
    + rewrite Hco'. rewrite Hq in Hcr. by inversion Hcr.
  - unfold without_frame. by rewrite Hst.
  - unfold inbound. rewrite Hco', Hq. cbn. unfold without_frame. by rewrite Hst.
  - unfold outbound, wire_of, without_frame. rewrite Hst. by rewrite app_nil_r.
  - unfold half_effort, wire_of, without_frame. by rewrite Hst.
Qed.

Lemma recv_frame_case (t : LogicalTcpStream.t) (h : Halves.t) :
  h_stream a = Stream.Tcp t h ->
  match Mpsc.queue (chan_of a) with
  | [] => Reader.recv_frame (h, h_world a) = ((h, h_world a), Pending)
  | f :: q => exists h', Reader.receiver h' = Reader.receiver h /\
      Reader.recv_frame (h, h_world a) = ((h', h_world (without_frame h' q)), Ready (Ok f))
  end.
Proof using Ha.
  intros Hst. destruct (ho_stream _ _ Ha) as (t0 & h0 & ch & Hs & _ & _ & _ & Hch & Htx & Hrx & _).
  rewrite Hst in Hs. injection Hs as <- <-. rewrite (chan_of_tcp t h ch Hst Hch).
  unfold Reader.recv_frame, abind, this, recv_on, Mpsc.try_recv. cbn [fst frames World.host].
  rewrite Hch. change (default dead (Some ch)) with ch.
  destruct (Mpsc.queue ch) as [|f q]; [by rewrite Htx|]. eexists. split.
  2:{ unfold update, aret. cbn. unfold without_frame. rewrite Hst. do 3 f_equal. cbn. f_equal.
      by rewrite (alter_alt_Some _ _ _ ch) by done. }
  unfold Reader.receiver. by rewrite set_state_from_flags_receiver.
Qed.

(** The session writes an event's frame. *)
Definition after_event (f : Frame.t) (q : list StreamEvent.t) : half :=
  mk_half (h_stream a)
    (set_framed_writer
      (set_events (h_world a) (Mpsc.mk q (Mpsc.capacity (events (h_world a)))
        (Mpsc.tx_alive (events (h_world a))) (Mpsc.rx_alive (events (h_world a)))))
      (FramedWriter.mk (FramedWriter.written (framed_writer (h_world a)) ++ [f]) FramedWriter.Open
        (FramedWriter.closed (framed_writer (h_world a)))))
    (h_carried a).

Lemma event_turn (e : StreamEvent.t) q :
  Mpsc.queue (events (h_world a)) = e :: q ->
  exists a', half_turn NextEvent a = Some a' /\ half_step id a a' [] [] 0 /\
    (half_effort a' < half_effort a)%nat.
Proof using Ha.
  intros Hq. destruct Ha as [Hs Hr Ho Her Hec Hev Hca Hw Hi Hcr]. rewrite Hq in Hev.
  apply Forall_cons in Hev as [(f & -> & Hf) Hev].
  assert (Ht : half_turn NextEvent a = Some (after_event f q)).
  { unfold half_turn, turn, Mpsc.try_recv. rewrite Hr, Hq. cbn.
    unfold handle_stream_event, abind, writer_send, FramedWriter.send. cbn. by rewrite Ho. }
  exists (after_event f q). split; [done|].
  assert (Hwire : wire_of (after_event f q) = wire_of a ++ [f])
    by (unfold wire_of; cbn; by rewrite drop_app_le).
  assert (He : (half_effort (after_event f q) < half_effort a)%nat)
    by (unfold half_effort; rewrite Hwire, Hq, length_app; cbn; lia).
  split; [split|done]; [|done|done| |lia].
  - split; try done.
    + cbn. rewrite length_app. cbn. lia.
    + rewrite Hwire. apply Forall_app. split; [done|]. by constructor.
  - unfold outbound. rewrite Hwire, Hq. cbn. by rewrite !app_nil_r, <- app_assoc.
Qed.

(** The session hands a frame to the stream, unless its channel is full. *)
Lemma frame_turn (x : outcome error Frame.t) rest :
  incoming (h_world a) = x :: rest ->
  (half_turn NextFrame a = None /\ Mpsc.queue (chan_of a) <> []) \/
  exists a', half_turn NextFrame a = Some a' /\ half_step id a a' [] [] 0 /\
    (half_effort a' < half_effort a)%nat.
Proof using Ha.
  intros Hin. destruct Ha as [Hs Hr Ho Her Hec Hev Hca Hw Hi Hcr]. rewrite Hin in Hi.
  apply Forall_cons in Hi as [(f & -> & Hf & Hfc) Hi].
  destruct Hs as (t & h & ch & Hst & Hid & Hbuf & Hreg & Hch & Htx & Hrx & Hcap).
  pose proof (chan_of_tcp t h ch Hst Hch) as Hco. unfold half_turn. rewrite Hco.
  destruct (room ch) as [|k] eqn:Er.
  - left. unfold room in Er. rewrite Hrx in Er. split.
    + rewrite (full_turn_waits (h_world a) f rest (Reader.receiver h) ch Hin);
        [done|by rewrite Hf|done..|lia].
    + intros Hnil. rewrite Hnil in Er. cbn in Er. lia.
  - right. rewrite (known_turn (h_world a) f rest (Reader.receiver h) ch);
      [|done|done|by rewrite Hf|done|lia].
    cbn [mbind option_bind]. match goal with |- context [Some (mk_half ?x ?y ?z)] =>
      set (a' := mk_half x y z) end. exists a'. split; [done|].
    assert (Hco' : chan_of a' = push_all ch [f]).
    { unfold chan_of, a'. cbn. rewrite Hst. cbn. by rewrite lookup_insert_eq. }
    assert (He : (half_effort a' < half_effort a)%nat).
    { unfold half_effort, wire_of. cbn. rewrite Hin. cbn. lia. }
    split; [split|done]; [|done| | |lia].
    + split; try done.
      * exists t, h, (push_all ch [f]). cbn. rewrite lookup_insert_eq. split_and!; try done; lia.
      * rewrite Hco'. rewrite Hco in Hcr. cbn. apply Forall_app. split; [done|]. by constructor.
    + unfold inbound. rewrite Hco, Hco', Hin. cbn. by rewrite <- app_assoc.
    + unfold outbound, wire_of. cbn. by rewrite app_nil_r.
Qed.

End one_half.

(** A frame crosses from [a] to [b]. *)
Lemma cross_wire (a b : half) (f : Frame.t) rest (id : StreamId.t) :
  half_ok id a -> wire_of a = f :: rest ->
  cross a b = Some (mk_half (h_stream a) (h_world a) (S (h_carried a)),
    mk_half (h_stream b) (set_incoming (h_world b) (incoming (h_world b) ++ [Ok (Frame.normal f)]))
      (h_carried b)) /\
  wire_of (mk_half (h_stream a) (h_world a) (S (h_carried a))) = rest.
Proof.
  intros Ha Hw. unfold wire_of in Hw. cbn.
  assert (Hf : FramedWriter.written (framed_writer (h_world a)) !! h_carried a = Some f).
  { pose proof (lookup_drop (FramedWriter.written (framed_writer (h_world a))) (h_carried a) 0) as E.
    rewrite Hw, Nat.add_0_r in E. by rewrite <- E. }
  pose proof (ho_wire _ _ Ha) as Hwf. unfold wire_of in Hwf. rewrite Hw in Hwf.
  apply Forall_cons in Hwf as [[Hwf _] _]. split.
  - unfold cross. rewrite Hf. cbn [mbind option_bind]. rewrite transmit_frames; [done|].
    by constructor.
  - unfold wire_of. cbn. rewrite (drop_S _ _ _ Hf) in Hw. by injection Hw.
Qed.

Lemma normal_stream (f : Frame.t) : frame_stream (Frame.normal f) = frame_stream f.
Proof. done. Qed.

Lemma cross_step (a b a' b' : half) (id : StreamId.t) :
  half_ok id a -> half_ok id b -> cross a b = Some (a', b') ->
  half_ok id a' /\ half_ok id b' /\ h_stream a' = h_stream a /\ h_stream b' = h_stream b /\
  map Frame.normal (under_way a' b') = map Frame.normal (under_way a b) /\
  under_way b' a' = under_way b a /\
  (half_effort a' + half_effort b' < half_effort a + half_effort b)%nat.
Proof.
  intros Ha Hb Hc. destruct (wire_of a) as [|f rest] eqn:Hw.
  { exfalso. unfold cross in Hc. rewrite lookup_ge_None_2 in Hc; [done|].
    apply (f_equal length) in Hw. unfold wire_of in Hw. rewrite length_drop in Hw. cbn in Hw. lia. }
  destruct (cross_wire a b f rest id Ha Hw) as [E Hw']. rewrite E in Hc. injection Hc as <- <-.
  pose proof (ho_wire _ _ Ha) as Hwf. rewrite Hw in Hwf. apply Forall_cons in Hwf as [[_ Hid] Hwf].
  split_and!; [..|done|done| |done|].
  - destruct Ha as [Hs Hr Ho Her Hec Hev Hca Hwi Hi Hcr]. split; try done.
    + apply (f_equal length) in Hw. unfold wire_of in Hw. rewrite length_drop in Hw.
      cbn in Hw |- *. lia.
    + by rewrite Hw'.
  - destruct Hb as [Hs Hr Ho Her Hec Hev Hca Hwi Hi Hcr]. split; try done; cbn.
    apply Forall_app. split; [done|]. constructor; [|done]. by exists (Frame.normal f).
  - unfold under_way, inbound, outbound. rewrite Hw, Hw'. cbn. rewrite omap_app. cbn. rewrite !map_app. cbn.
    by rewrite <- !app_assoc, map_app.
  - unfold half_effort. rewrite Hw, Hw'. cbn. unfold wire_of. cbn. rewrite length_app. cbn. lia.
Qed.

(** ** The laws *)

Lemma usable_ident (id : StreamId.t) (d : SessionSide) (j : half * half) :
  (forall d, half_ok id (half_of d j)) -> ident d j = id.
Proof. intros Hj. apply half_ident, Hj. Qed.

Lemma half_step_link (id : StreamId.t) (d : SessionSide) (j : half * half) (a : half) got sent gain :
  StreamId.wf id = true -> (forall d, half_ok id (half_of d j)) ->
  half_step id (half_of d j) a got sent gain ->
  usable (set_half d j a) /\
  flow d (set_half d j a) = flow d j ++ map Frame.normal sent /\
  flow (opposite d) j = map Frame.normal got ++ flow (opposite d) (set_half d j a) /\
  (forall d', ident d' (set_half d j a) = ident d' j) /\
  (effort (set_half d j a) <= gain + effort j)%nat.
Proof.
  intros Hid Hj [Hok Hident Hin Hout Heff].
  assert (Hj' : forall d', half_ok id (half_of d' (set_half d j a))).
  { intros d'. destruct d, d'; try done; [apply (Hj Server)|apply (Hj Client)]. }
  split_and!.
  - by exists id.
  - cbn. rewrite half_set, half_set_opposite. unfold under_way. rewrite Hout, app_assoc.
    by rewrite map_app.
  - cbn. rewrite opposite_twice, half_set, half_set_opposite. unfold under_way. rewrite Hin.
    by rewrite !map_app, app_assoc.
  - intros d'. by rewrite !(usable_ident id).
  - cbn. destruct d; cbn in *; lia.
Qed.

Lemma sent_link (id : StreamId.t) (d : SessionSide) (j : half * half) (f : Frame.t) :
  StreamId.wf id = true -> (forall d, half_ok id (half_of d j)) -> good_frame id f ->
  appended d (Frame.normal f) j (set_half d j (with_event (half_of d j) f)).
Proof.
  intros Hid Hj Hf.
  destruct (half_step_link id d j _ _ _ _ Hid Hj (with_event_step id _ (Hj d) f Hf))
    as (Hu & Hfl & Hot & Hids & He).
  by split.
Qed.

Lemma received_link (id : StreamId.t) (d : SessionSide) (j : half * half) t h h' f q rest :
  StreamId.wf id = true -> (forall d, half_ok id (half_of d j)) ->
  h_stream (half_of d j) = Stream.Tcp t h -> Reader.receiver h' = Reader.receiver h ->
  Mpsc.queue (chan_of (half_of d j)) = f :: q -> flow (opposite d) j = Frame.normal f :: rest ->
  took d rest j (set_half d j (without_frame (half_of d j) h' q)).
Proof.
  intros Hid Hj Hst Hrh Hq Hflow.
  destruct (half_step_link id d j _ _ _ _ Hid Hj
    (without_frame_step id _ (Hj d) h t h' f q Hst Hrh Hq)) as (Hu & Hfl & Hot & Hids & He).
  rewrite Hflow in Hot. apply (f_equal tail) in Hot. cbn [map app tail] in Hot. split; try done. by rewrite Hfl, app_nil_r.
Qed.

(** The head of the flow is what has arrived. *)
Lemma flow_arrived (id : StreamId.t) (d : SessionSide) (j : half * half) (f g : Frame.t) q rest :
  half_ok id (half_of d j) -> Mpsc.queue (chan_of (half_of d j)) = g :: q ->
  flow (opposite d) j = Frame.normal f :: rest -> g = Frame.normal f.
Proof.
  intros Ha Hq Hflow. cbn in Hflow. rewrite opposite_twice in Hflow. unfold under_way, inbound in Hflow.
  pose proof (ho_chan _ _ Ha) as Hcr. rewrite Hq in Hflow, Hcr. apply Forall_cons in Hcr as [Hg _].
  apply (f_equal head) in Hflow. apply Some_inj in Hflow. by rewrite <- Hflow.
Qed.

Lemma send_file_turn_data (id : StreamId.t) (size : Z) (rest : bytes) (s : Halves.t * World.t) :
  0 < size -> rest <> [] ->
  exists c rest', rest = c ++ rest' /\ c <> [] /\ len c <= size /\
    send_file_turn id size rest s =
    abind (fun _ => aret (Continue rest')) (Writer.send_frame (data_frame id c)) s.
Proof.
  intros Hs Hne. destruct (file_read_data size rest Hs Hne) as (c & rest' & Hr & -> & Hc & Hlen).
  exists c, rest'. split_and!; try done. unfold send_file_turn. rewrite Hr.
  destruct (Z.eqb_spec (len c) 0) as [E|]; [|done]. by apply len_zero in E.
Qed.

Lemma end_tcp (id : StreamId.t) (d : SessionSide) (j : half * half) :
  half_ok id (half_of d j) ->
  exists t h, h_stream (half_of d j) = Stream.Tcp t h /\
    end_of d j = (Stream.Tcp t h, h_world (half_of d j)) /\
    LogicalTcpStream.stream_id t = id /\ 0 < LogicalTcpStream.write_buffer_size t <= u32_max.
Proof.
  intros Ha. destruct (ho_stream _ _ Ha) as (t & h & ch & Hst & Hid & Hbuf & _).
  exists t, h. cbn. by rewrite Hst.
Qed.

Lemma session_send (d : SessionSide) (j : half * half) (f : Frame.t) :
  usable j -> sendable d j f ->
  match Stream.send_frame f (end_of d j) with
  | (s, Ready o) => o = Ok tt /\ appended d (frame_item f) j (set_end d j s)
  | (_, Pending) => flow d j <> [] \/ movable j
  end.
Proof.
  intros (id & Hid & Hj) [Hwf Hst _]. rewrite (usable_ident id d j Hj) in Hst.
  destruct (end_tcp id d j (Hj d)) as (t & h & Hs & -> & _).
  cbn [Stream.send_frame Stream.dispatch]. unfold LogicalTcpStream.send_frame.
  destruct (send_event_case id _ (Hj d) t h f) as [->|[-> Hne]].
  - split; [done|]. pose proof (sent_link id d j f Hid Hj (conj Hwf Hst)) as Hap.
    cbn. unfold with_event in Hap |- *. by rewrite Hs in Hap.
  - left. cbn. unfold under_way. intros E%map_eq_nil. by apply app_nil in E as [_ ?].
Qed.

Lemma session_send_chunk (d : SessionSide) (j : half * half) (rest : bytes) :
  usable j -> rest <> [] ->
  match send_file_step rest (end_of d j) with
  | (s, Ready o) => exists c rest', rest = c ++ rest' /\ c <> [] /\ o = Ok (Continue rest') /\
      appended d (chunk_item (ident d j) c) j (set_end d j s)
  | (_, Pending) => flow d j <> [] \/ movable j
  end.
Proof.
  intros (id & Hid & Hj) Hne. rewrite (usable_ident id d j Hj).
  destruct (end_tcp id d j (Hj d)) as (t & h & Hs & -> & Ht & Hsize).
  unfold send_file_step, Stream.dispatch. rewrite Ht.
  destruct (send_file_turn_data id (LogicalTcpStream.write_buffer_size t) rest
    (h, h_world (half_of d j))) as (c & rest' & -> & Hc & Hlen & ->); [lia|done|].
  unfold abind. destruct (send_event_case id _ (Hj d) t h (data_frame id c)) as [->|[-> Hout]].
  - exists c, rest'. split_and!; try done.
    assert (Hf : good_frame id (data_frame id c)).
    { split; [|done]. apply data_frame_wf; [done|]. apply is_u32_spec.
      pose proof (len_nonneg c). unfold u32_max in *. lia. }
    pose proof (sent_link id d j _ Hid Hj Hf) as Hap. cbn. unfold with_event in Hap |- *.
    by rewrite Hs in Hap.
  - left. cbn. unfold under_way. intros E%map_eq_nil. by apply app_nil in E as [_ ?].
Qed.

Lemma session_send_end (d : SessionSide) (j : half * half) :
  usable j -> send_file_step [] (end_of d j) = (end_of d j, Ready (Ok (Break tt))).
Proof.
  intros (id & Hid & Hj). destruct (end_tcp id d j (Hj d)) as (t & h & Hs & -> & _).
  unfold send_file_step, Stream.dispatch. by rewrite send_turn_eof.
Qed.

Lemma session_wait (d : SessionSide) (j : half * half) :
  usable j -> arrived d j = false ->
  (Stream.receive_frame (end_of d j)).2 = Pending /\
  forall path n total fs, (receive_file_step path n total (end_of d j, fs)).2 = Pending.
Proof.
  intros (id & Hid & Hj) Hno. destruct (end_tcp id d j (Hj d)) as (t & h & Hs & -> & _).
  apply bool_decide_eq_false, dec_stable in Hno.
  pose proof (recv_frame_case id _ (Hj d) t h Hs) as Hr. rewrite Hno in Hr.
  split; [|intros path n total fs]; cbn [Stream.receive_frame Stream.dispatch].
  - unfold LogicalTcpStream.receive_frame. by rewrite Hr.
  - unfold receive_file_step, Stream.dispatch_file, receive_file_turn, abind, on_first.
    by rewrite Hr.
Qed.

Lemma session_received (d : SessionSide) (j : half * half) (f : Frame.t) rest :
  usable j -> arrived d j = true -> flow (opposite d) j = Frame.normal f :: rest ->
  exists t h h' w', end_of d j = (Stream.Tcp t h, h_world (half_of d j)) /\
    Reader.recv_frame (h, h_world (half_of d j)) = ((h', w'), Ready (Ok (Frame.normal f))) /\
    took d rest j (set_end d j (Stream.Tcp t h', w')).
Proof.
  intros (id & Hid & Hj) Hyes Hflow. destruct (end_tcp id d j (Hj d)) as (t & h & Hs & -> & _).
  apply bool_decide_eq_true in Hyes.
  pose proof (recv_frame_case id _ (Hj d) t h Hs) as Hr.
  destruct (Mpsc.queue (chan_of (half_of d j))) as [|g q] eqn:Hq; [done|].
  destruct Hr as (h' & Hrh & Hr). pose proof (flow_arrived id d j f g q rest (Hj d) Hq Hflow) as ->.
  exists t, h, h', (h_world (without_frame (half_of d j) h' q)). split_and!; [done|done|].
  pose proof (received_link id d j t h h' _ q rest Hid Hj Hs Hrh Hq Hflow) as Htk.
  unfold without_frame in Htk |- *. rewrite Hs in Htk |- *. exact Htk.
Qed.

Lemma session_receive (d : SessionSide) (j : half * half) (f : Frame.t) rest :
  usable j -> arrived d j = true -> flow (opposite d) j = frame_item f :: rest ->
  Frame.wf f = true ->
  exists s, Stream.receive_frame (end_of d j) = (s, Ready (Ok (Frame.normal f))) /\
    took d rest j (set_end d j s).
Proof.
  intros Hu Hyes Hflow _. destruct (session_received d j f rest Hu Hyes Hflow)
    as (t & h & h' & w' & -> & Hr & Htk).
  exists (Stream.Tcp t h', w'). split; [|done]. cbn [Stream.receive_frame Stream.dispatch].
  unfold LogicalTcpStream.receive_frame. by rewrite Hr.
Qed.

Lemma session_receive_chunk (d : SessionSide) (j : half * half) id c rest path n total fs :
  usable j -> arrived d j = true -> flow (opposite d) j = chunk_item id c :: rest -> c <> [] ->
  exists s, receive_file_step path n total (end_of d j, fs) =
      ((s, alter (fun content => content ++ c) path fs),
       Ready (Ok (if total + len c =? n then Break (total + len c)
                  else Continue (total + len c)))) /\
    took d rest j (set_end d j s).
Proof.
  intros Hu Hyes Hflow _. destruct (session_received d j (data_frame id c) rest Hu Hyes Hflow)
    as (t & h & h' & w' & -> & Hr & Htk).
  exists (Stream.Tcp t h', w'). split; [|done].
  unfold receive_file_step, Stream.dispatch_file, receive_file_turn, abind, on_first.
  rewrite Hr. cbn. by destruct (_ =? n).
Qed.

Lemma session_arrived (d : SessionSide) (j : half * half) :
  usable j -> arrived d j = true -> flow (opposite d) j <> [].
Proof.
  intros _ Hyes. apply bool_decide_eq_true in Hyes. cbn. rewrite opposite_twice.
  intros E%map_eq_nil. unfold under_way, inbound in E.
  apply app_nil in E as [E _]. by apply app_nil in E as [? _].
Qed.

(** What is under way can go on, up to the channel of the stream. *)
Lemma session_progress (d : SessionSide) (j : half * half) :
  usable j -> flow d j <> [] -> arrived (opposite d) j = true \/ movable j.
Proof.
  intros (id & Hid & Hj) Hflow. set (a := half_of d j) in *. set (b := half_of (opposite d) j) in *.
  assert (Ha : half_ok id a) by apply Hj. assert (Hb : half_ok id b) by apply Hj.
  destruct (Mpsc.queue (chan_of b)) as [|f q] eqn:Hq.
  2:{ left. cbn. fold b. by rewrite Hq, bool_decide_true. }
  right. destruct (incoming (h_world b)) as [|x rest] eqn:Hin.
  2:{ destruct (frame_turn id b Hb x rest Hin) as [[_ Hne]|(b' & Ht & _)]; [by rewrite Hq in Hne|].
      exists (TakesFrame (opposite d)). eexists. cbn. fold b. by rewrite Ht. }
  destruct (wire_of a) as [|f rest] eqn:Hw.
  2:{ destruct (cross_wire a b f rest id Ha Hw) as [Hc _]. exists (Crosses d).
      destruct d; cbn in a, b |- *; fold a b; rewrite Hc; by eexists. }
  destruct (Mpsc.queue (events (h_world a))) as [|e q] eqn:He.
  2:{ destruct (event_turn id a Ha e q He) as (a' & Ht & _).
      exists (TakesEvent d). eexists. cbn. fold a. by rewrite Ht. }
  exfalso. apply Hflow. cbn. fold a b. unfold under_way, inbound, outbound.
  by rewrite Hq, Hin, Hw, He.
Qed.

(** A move leaves the flows alone. *)
Definition moved (j j' : half * half) : Prop :=
  usable j' /\ (forall d, flow d j' = flow d j) /\ (forall d, ident d j' = ident d j) /\
  (effort j' < effort j)%nat.

Lemma half_moved (id : StreamId.t) (d : SessionSide) (j : half * half) (a : half) :
  StreamId.wf id = true -> (forall d, half_ok id (half_of d j)) ->
  half_step id (half_of d j) a [] [] 0 -> (half_effort a < half_effort (half_of d j))%nat ->
  moved j (set_half d j a).
Proof.
  intros Hid Hj Hst Hlt. destruct (half_step_link id d j a _ _ _ Hid Hj Hst)
    as (Hu & Hfl & Hot & Hids & He).
  split_and!; [done| |done|destruct d; cbn in *; lia].
  rewrite app_nil_r in Hfl. cbn [map app] in Hot. intros d'.
  destruct d, d'; done.
Qed.

Lemma session_moved (m : session_move) (j j' : half * half) :
  usable j -> move m j = Some j' -> moved j j'.
Proof.
  intros (id & Hid & Hj) Hm. destruct m as [d|d|d]; cbn in Hm.
  - destruct (Mpsc.queue (events (h_world (half_of d j)))) as [|e q] eqn:He.
    { unfold half_turn, turn, Mpsc.try_recv in Hm. rewrite He in Hm.
      destruct (running _), (Mpsc.tx_alive _); done. }
    destruct (event_turn id _ (Hj d) e q He) as (a & Ht & Hst & Hlt). rewrite Ht in Hm.
    injection Hm as <-. by eapply half_moved.
  - destruct (incoming (h_world (half_of d j))) as [|x rest] eqn:Hin.
    { unfold half_turn, turn in Hm. rewrite Hin in Hm. by destruct (running _). }
    destruct (frame_turn id _ (Hj d) x rest Hin) as [[Ht _]|(a & Ht & Hst & Hlt)];
      rewrite Ht in Hm; [done|]. injection Hm as <-. by eapply half_moved.
  - assert (Hc : exists a b, cross (half_of d j) (half_of (opposite d) j) = Some (a, b) /\
      j' = set_half d (set_half (opposite d) j b) a).
    { destruct d; cbn in Hm |- *; [exists j'.1, j'.2; by destruct j'|].
      destruct (cross j.2 j.1) as [[b a]|]; [|done]. injection Hm as <-. by exists b, a. }
    destruct Hc as (a & b & Hc & ->).
    destruct (cross_step _ _ _ _ id (Hj d) (Hj (opposite d)) Hc)
      as (Ha & Hb & Hsa & Hsb & Hf1 & Hf2 & He).
    assert (Hj' : forall d', half_ok id (half_of d' (set_half d (set_half (opposite d) j b) a))).
    { intros d'. by destruct d, d'. }
    split_and!; [by exists id| |intros d'; by rewrite !(usable_ident id)|].
    + intros d'. cbn. destruct d, d'; cbn in *; by rewrite ?Hf1, ?Hf2.
    + destruct d; cbn in *; lia.
Qed.

#[export] Instance session_link_laws : LinkLaws Tx Rx World.t (half * half).
Proof.
  split.
  - intros [] j [s w]; done.
  - intros [] [[] []]; done.
  - apply session_send.
  - apply session_send_chunk.
  - apply session_send_end.
  - apply session_wait.
  - apply session_receive.
  - apply session_receive_chunk.
  - apply session_arrived.
  - apply session_progress.
  - apply session_moved.
Qed.

End link.
