(* ===== verification/QuicLink.v ===== *)
(** * Streams over QUIC, linked

    The two ends of a QUIC stream, each a pair of a message sink and a message
    source.  [QuicPipe] is what [quinn] and the length-delimited codec do between
    a sink and the source at the other side of a connection that holds: messages
    arrive one after the other in the order they were sent, and a sender may be
    held up while the receiver has messages to read. *)

From S2P Require Import Prelude Ids Frame Tokio Files MuxStream MuxSession MuxInvariant.
From S2P Require Import TcpStream QuicStream Connection Futures Handles Links.

Local Open Scope Z_scope.

(** [unread] counts the messages that the sink has sent and does not know to be
    read; [notice] is what it does when it hears that one is; [arrive] is what the
    source does when a message is complete.  [tx_open] and [rx_open] are the states
    of a stream that is neither finished nor reset, nor its connection lost. *)
Class QuicPipe (Tx Rx : Type) `{MessageSink Tx} `{MessageSource Rx} : Type := {
  tx_open : Tx -> Prop;
  rx_open : Rx -> Prop;
  unread : Tx -> nat;
  notice : Tx -> Tx;
  arrive : bytes -> Rx -> Rx
}.

Class QuicPipeLaws (Tx Rx : Type) `{QuicPipe Tx Rx} : Prop := {
  pipe_sink :: MessageSinkLaws Tx;
  pipe_source :: MessageSourceLaws Rx;
  pipe_send : forall m t, tx_open t -> len m <= MAX_MESSAGE ->
    (exists t', sink_send m t = (t', Ready (Ok tt)) /\ tx_open t' /\ unread t' = S (unread t)) \/
    (sink_send m t = (t, Pending) /\ (0 < unread t)%nat);
  pipe_notice : forall t, tx_open t -> tx_open (notice t) /\ sent (notice t) = sent t /\
    unread (notice t) = pred (unread t);
  pipe_next : forall r m ms, rx_open r -> arriving r = m :: ms ->
    exists r', source_next r = (r', Ready (Ok (Some m))) /\ rx_open r';
  pipe_wait : forall r, rx_open r -> arriving r = [] -> source_next r = (r, Pending);
  pipe_arrive : forall m r, rx_open r -> rx_open (arrive m r) /\ arriving (arrive m r) = arriving r ++ [m]
}.

(** One side: the stream, and how many of the messages it has sent have arrived. *)
Record qhalf (Tx Rx W : Type) : Type := mk_qhalf {
  q_stream : Stream.t Tx Rx;
  q_world : W;
  q_carried : nat
}.

Arguments mk_qhalf {Tx Rx W} q_stream q_world q_carried.
Arguments q_stream {Tx Rx W} q.
Arguments q_world {Tx Rx W} q.
Arguments q_carried {Tx Rx W} q.

Inductive quic_move : Type :=
| Arrives (d : SessionSide)
| Notices (d : SessionSide).

Section link.

Context {Tx Rx W : Type} `{QuicPipe Tx Rx} `{StreamHost W} `{FileRead}.

Abbreviation qhalf := (qhalf Tx Rx W).

Definition qhalf_of (d : SessionSide) (j : qhalf * qhalf) : qhalf :=
  match d with Client => j.1 | Server => j.2 end.

Definition set_qhalf (d : SessionSide) (j : qhalf * qhalf) (a : qhalf) : qhalf * qhalf :=
  match d with Client => (a, j.2) | Server => (j.1, a) end.

(** The messages that have arrived at a side and those that have not left it. *)
Definition q_inbound (a : qhalf) : list bytes :=
  match q_stream a with
  | Stream.Quic q => arriving (QuicStream.framed_reader q)
  | Stream.Tcp _ _ => []
  end.

Definition q_outbound (a : qhalf) : list bytes :=
  match q_stream a with
  | Stream.Quic q => drop (q_carried a) (sent (QuicStream.framed_writer q))
  | Stream.Tcp _ _ => []
  end.

Definition q_unread (a : qhalf) : nat :=
  match q_stream a with
  | Stream.Quic q => unread (QuicStream.framed_writer q)
  | Stream.Tcp _ _ => 0
  end.

(** The first message on the way arrives. *)
Definition q_arrive (a b : qhalf) : option (qhalf * qhalf) :=
  match q_outbound a, q_stream b with
  | m :: _, Stream.Quic q =>
      Some (mk_qhalf (q_stream a) (q_world a) (S (q_carried a)),
        mk_qhalf (Stream.Quic (QuicStream.set_reader q (arrive m (QuicStream.framed_reader q))))
          (q_world b) (q_carried b))
  | _, _ => None
  end.

(** The sink at [a] hears of a message that has been read at [b]. *)
Definition q_notice (a b : qhalf) : option qhalf :=
  match q_stream a with
  | Stream.Quic q =>
      if Nat.ltb (length (q_inbound b ++ q_outbound a)) (q_unread a)
      then Some (mk_qhalf (Stream.Quic (QuicStream.set_writer q (notice (QuicStream.framed_writer q))))
             (q_world a) (q_carried a))
      else None
  | Stream.Tcp _ _ => None
  end.

Definition quic_step (m : quic_move) (j : qhalf * qhalf) : option (qhalf * qhalf) :=
  match m with
  | Arrives Client => q_arrive j.1 j.2
  | Arrives Server => '(b, a) ← q_arrive j.2 j.1; Some (a, b)
  | Notices d => a ← q_notice (qhalf_of d j) (qhalf_of (opposite d) j); Some (set_qhalf d j a)
  end.

(** The stream is open at this side, with a buffer that messages can hold. *)
Record qhalf_ok (a : qhalf) : Prop := {
  qo_stream : exists q, q_stream a = Stream.Quic q /\
    0 < QuicStream.write_buffer_size q <= MAX_MESSAGE /\
    tx_open (QuicStream.framed_writer q) /\ rx_open (QuicStream.framed_reader q) /\
    (q_carried a <= length (sent (QuicStream.framed_writer q)))%nat
}.

Definition qhalf_effort (a : qhalf) : nat := length (q_outbound a) + q_unread a.

#[export] Instance quic_link : StreamLink Tx Rx W (qhalf * qhalf) := {|
  end_of := fun d j => (q_stream (qhalf_of d j), q_world (qhalf_of d j));
  set_end := fun d j s => set_qhalf d j (mk_qhalf s.1 s.2 (q_carried (qhalf_of d j)));
  Item := bytes;
  frame_item := fun f => header_bytes (Frame.header f) (len (Frame.payload f)) ++ Frame.payload f;
  chunk_item := fun _ c => c;
  flow := fun d j => q_inbound (qhalf_of (opposite d) j) ++ q_outbound (qhalf_of d j);
  arrived := fun d j => bool_decide (q_inbound (qhalf_of d j) <> []);
  usable := fun j => forall d, qhalf_ok (qhalf_of d j);
  Move := quic_move;
  move := quic_step;
  effort := fun j => (qhalf_effort j.1 + qhalf_effort j.2)%nat;
  hops := 2
|}.

End link.

(** ** Lemmas *)

Section laws.

Context {Tx Rx W : Type} `{QuicPipeLaws Tx Rx} `{StreamHost W} `{FileRead}.

Abbreviation qhalf := (qhalf Tx Rx W).

Lemma qhalf_set (d : SessionSide) (j : qhalf * qhalf) (a : qhalf) : qhalf_of d (set_qhalf d j a) = a.
Proof using Type. by destruct d. Qed.

Lemma qhalf_set_opposite (d : SessionSide) (j : qhalf * qhalf) (a : qhalf) :
  qhalf_of (opposite d) (set_qhalf d j a) = qhalf_of (opposite d) j.
Proof using Type. by destruct d. Qed.

(** What one step of a side does to its lists. *)
Record qhalf_step (a a' : qhalf) (got sent : list bytes) (gain : nat) : Prop := {
  qs_ok : qhalf_ok a';
  qs_ident : Stream.stream_id (q_stream a') = Stream.stream_id (q_stream a);
  qs_inbound : q_inbound a = got ++ q_inbound a';
  qs_outbound : q_outbound a' = q_outbound a ++ sent;
  qs_effort : (qhalf_effort a' <= gain + qhalf_effort a)%nat
}.

Lemma qhalf_step_link (d : SessionSide) (j : qhalf * qhalf) (a : qhalf) got sent gain :
  usable j -> qhalf_step (qhalf_of d j) a got sent gain ->
  usable (set_qhalf d j a) /\
  flow d (set_qhalf d j a) = flow d j ++ sent /\
  flow (opposite d) j = got ++ flow (opposite d) (set_qhalf d j a) /\
  (forall d', ident d' (set_qhalf d j a) = ident d' j) /\
  (effort (set_qhalf d j a) <= gain + effort j)%nat.
Proof using Type.
  intros Hj [Hok Hident Hin Hout Heff]. split_and!.
  - intros d'. pose proof (Hj d'). by destruct d, d'.
  - cbn. rewrite qhalf_set, qhalf_set_opposite, Hout. by rewrite app_assoc.
  - cbn. rewrite opposite_twice, qhalf_set, qhalf_set_opposite, Hin. by rewrite app_assoc.
  - intros d'. by destruct d, d'.
  - cbn. destruct d; cbn in *; lia.
Qed.

Lemma q_end (d : SessionSide) (j : qhalf * qhalf) :
  usable j -> exists q, q_stream (qhalf_of d j) = Stream.Quic q /\
    end_of d j = (Stream.Quic q, q_world (qhalf_of d j)) /\
    0 < QuicStream.write_buffer_size q <= MAX_MESSAGE /\
    tx_open (QuicStream.framed_writer q) /\ rx_open (QuicStream.framed_reader q) /\
    (q_carried (qhalf_of d j) <= length (sent (QuicStream.framed_writer q)))%nat.
Proof using Type.
  intros Hj. destruct (qo_stream _ (Hj d)) as (q & Hq & Hrest). exists q. cbn. by rewrite Hq.
Qed.

(** A message that the sink takes. *)
Lemma q_sent (d : SessionSide) (j : qhalf * qhalf) (m : bytes) (q : QuicStream.t Tx Rx) :
  usable j -> q_stream (qhalf_of d j) = Stream.Quic q -> len m <= MAX_MESSAGE ->
  (exists t, sink_send m (QuicStream.framed_writer q) = (t, Ready (Ok tt)) /\
     appended d m j (set_end d j (Stream.Quic (QuicStream.set_writer q t), q_world (qhalf_of d j)))) \/
  (sink_send m (QuicStream.framed_writer q) = (QuicStream.framed_writer q, Pending) /\
   (flow d j <> [] \/ movable j)).
Proof using All.
  intros Hu Hq Hm. destruct (q_end d j Hu) as (q' & Hq' & _ & Hsize & Htx & Hrx & Hca).
  rewrite Hq in Hq'. injection Hq' as <-.
  destruct (pipe_send m _ Htx Hm) as [(t & Hs & Ht & Hun)|[Hs Hun]].
  - left. exists t. split; [done|]. pose proof (sink_send_sent _ _ _ Hs) as Hsent.
    assert (Hst : qhalf_step (qhalf_of d j) (mk_qhalf (Stream.Quic (QuicStream.set_writer q t))
      (q_world (qhalf_of d j)) (q_carried (qhalf_of d j))) [] [m] 2).
    { split.
      - split. eexists. split; [done|]. cbn. rewrite Hsent, length_app. split_and!; try done; lia.
      - by rewrite Hq.
      - unfold q_inbound. by rewrite Hq.
      - unfold q_outbound. rewrite Hq. cbn. by rewrite Hsent, drop_app_le.
      - unfold qhalf_effort, q_outbound, q_unread. rewrite Hq. cbn.
        rewrite Hsent, drop_app_le, length_app, Hun by done. cbn. lia. }
    destruct (qhalf_step_link d j _ _ _ _ Hu Hst) as (Hu' & Hfl & Hot & Hids & He). by split.
  - right. split; [done|]. destruct (decide (flow d j = [])) as [Hnil|]; [right|by left].
    exists (Notices d). cbn in Hnil |- *. unfold q_notice. rewrite Hq, Hnil.
    unfold q_unread. rewrite Hq. rewrite (proj2 (Nat.ltb_lt _ _)) by done. by eexists.
Qed.

(** The message that comes first at the source. *)
Lemma q_received (d : SessionSide) (j : qhalf * qhalf) (m : bytes) (rest : list bytes)
    (q : QuicStream.t Tx Rx) :
  usable j -> q_stream (qhalf_of d j) = Stream.Quic q -> arrived d j = true ->
  flow (opposite d) j = m :: rest ->
  exists r, source_next (QuicStream.framed_reader q) = (r, Ready (Ok (Some m))) /\
    took d rest j (set_end d j (Stream.Quic (QuicStream.set_reader q r), q_world (qhalf_of d j))).
Proof using All.
  intros Hu Hq Hyes Hflow. destruct (q_end d j Hu) as (q' & Hq' & _ & Hsize & Htx & Hrx & Hca).
  rewrite Hq in Hq'. injection Hq' as <-. apply bool_decide_eq_true in Hyes.
  cbn in Hflow. rewrite opposite_twice in Hflow. unfold q_inbound in Hyes, Hflow.
  rewrite Hq in Hyes, Hflow. destruct (arriving (QuicStream.framed_reader q)) as [|m' ms] eqn:Ha; [done|].
  cbn in Hflow. injection Hflow as -> Hrest.
  destruct (pipe_next _ _ _ Hrx Ha) as (r & Hr & Hro). exists r. split; [done|].
  pose proof (source_next_some _ _ _ Hr) as Hms. rewrite Ha in Hms. injection Hms as Hms.
  assert (Hst : qhalf_step (qhalf_of d j) (mk_qhalf (Stream.Quic (QuicStream.set_reader q r))
    (q_world (qhalf_of d j)) (q_carried (qhalf_of d j))) [m] [] 0).
  { split.
    - split. by eexists.
    - by rewrite Hq.
    - unfold q_inbound. rewrite Hq, Ha. cbn. by rewrite Hms.
    - unfold q_outbound. rewrite Hq. by rewrite app_nil_r.
    - unfold qhalf_effort, q_outbound, q_unread. by rewrite Hq. }
  destruct (qhalf_step_link d j _ _ _ _ Hu Hst) as (Hu' & Hfl & Hot & Hids & He).
  rewrite app_nil_r in Hfl. split; [exact Hu'| |exact Hfl|exact Hids|exact He].
  cbn in Hot. rewrite opposite_twice in Hot. unfold q_inbound in Hot at 1. rewrite Hq, Ha in Hot.
  cbn. rewrite opposite_twice. cbn in Hot. injection Hot as Hot. rewrite <- Hrest. exact (eq_sym Hot).
Qed.

Lemma quic_send_ok (d : SessionSide) (j : qhalf * qhalf) (f : Frame.t) :
  usable j -> sendable d j f ->
  match Stream.send_frame f (end_of d j) with
  | (s, Ready o) => o = Ok tt /\ appended d (frame_item f) j (set_end d j s)
  | (_, Pending) => flow d j <> [] \/ movable j
  end.
Proof using All.
  intros Hu [_ _ Hsize]. destruct (q_end d j Hu) as (q & Hq & -> & _).
  cbn [Stream.send_frame Stream.dispatch]. unfold QuicStream.send_frame, QuicStream.on_writer, quic_send_frame.
  rewrite to_bytes_header.
  destruct (q_sent d j (header_bytes (Frame.header f) (len (Frame.payload f)) ++ Frame.payload f) q
    Hu Hq) as [(t & -> & Hap)|[-> Hfl]]; [by rewrite len_app, len_header_bytes|done|done].
Qed.

Lemma quic_file_chunk (size : Z) (rest : bytes) (t : Tx) :
  0 < size -> rest <> [] ->
  exists c rest', rest = c ++ rest' /\ c <> [] /\ len c <= size /\
    quic_send_file_turn size rest t = abind (fun _ => aret (Continue rest')) (sink_send c) t.
Proof using Type.
  intros Hs Hne. destruct (file_read_data size rest Hs Hne) as (c & rest' & Hr & -> & Hc & Hlen).
  exists c, rest'. split_and!; try done. unfold quic_send_file_turn. rewrite Hr.
  destruct (Z.eqb_spec (len c) 0) as [E|]; [|done]. by apply len_zero in E.
Qed.

Lemma quic_send_chunk (d : SessionSide) (j : qhalf * qhalf) (rest : bytes) :
  usable j -> rest <> [] ->
  match send_file_step rest (end_of d j) with
  | (s, Ready o) => exists c rest', rest = c ++ rest' /\ c <> [] /\ o = Ok (Continue rest') /\
      appended d (chunk_item (ident d j) c) j (set_end d j s)
  | (_, Pending) => flow d j <> [] \/ movable j
  end.
Proof using All.
  intros Hu Hne. destruct (q_end d j Hu) as (q & Hq & -> & Hsize & _).
  unfold send_file_step, Stream.dispatch, QuicStream.on_writer.
  destruct (quic_file_chunk (QuicStream.write_buffer_size q) rest (QuicStream.framed_writer q))
    as (c & rest' & -> & Hc & Hlen & ->); [lia|done|]. unfold abind.
  destruct (q_sent d j c q Hu Hq) as [(t & -> & Hap)|[-> Hfl]]; [lia| |done].
  exists c, rest'. done.
Qed.

Lemma quic_send_end (d : SessionSide) (j : qhalf * qhalf) :
  usable j -> send_file_step [] (end_of d j) = (end_of d j, Ready (Ok (Break tt))).
Proof using Type.
  intros Hu. destruct (q_end d j Hu) as (q & Hq & -> & _).
  unfold send_file_step, Stream.dispatch, QuicStream.on_writer, quic_send_file_turn, file_read.
  rewrite take_nil. by destruct q.
Qed.

Lemma quic_wait (d : SessionSide) (j : qhalf * qhalf) :
  usable j -> arrived d j = false ->
  (Stream.receive_frame (end_of d j)).2 = Pending /\
  forall path n total fs, (receive_file_step path n total (end_of d j, fs)).2 = Pending.
Proof using All.
  intros Hu Hno. destruct (q_end d j Hu) as (q & Hq & -> & _ & _ & Hrx & _).
  apply bool_decide_eq_false, dec_stable in Hno. unfold q_inbound in Hno. rewrite Hq in Hno.
  pose proof (pipe_wait _ Hrx Hno) as Hw. split; [|intros path n total fs].
  - cbn [Stream.receive_frame Stream.dispatch].
    unfold QuicStream.receive_frame, QuicStream.on_reader, quic_receive_frame, abind. by rewrite Hw.
  - unfold receive_file_step, Stream.dispatch_file, on_reader_fs, quic_receive_file_turn, abind,
      on_first. by rewrite Hw.
Qed.

Lemma quic_receive_ok (d : SessionSide) (j : qhalf * qhalf) (f : Frame.t) rest :
  usable j -> arrived d j = true -> flow (opposite d) j = frame_item f :: rest ->
  Frame.wf f = true ->
  exists s, Stream.receive_frame (end_of d j) = (s, Ready (Ok (Frame.normal f))) /\
    took d rest j (set_end d j s).
Proof using All.
  intros Hu Hyes Hflow Hf. destruct (q_end d j Hu) as (q & Hq & -> & _).
  destruct (q_received d j _ rest q Hu Hq Hyes Hflow) as (r & Hr & Htk).
  eexists. split; [|exact Htk]. cbn [Stream.receive_frame Stream.dispatch].
  unfold QuicStream.receive_frame, QuicStream.on_reader, quic_receive_frame, abind. rewrite Hr.
  cbn [frame_item quic_link]. by rewrite from_bytes_encoded.
Qed.

Lemma quic_receive_chunk (d : SessionSide) (j : qhalf * qhalf) id c rest path n total fs :
  usable j -> arrived d j = true -> flow (opposite d) j = chunk_item id c :: rest -> c <> [] ->
  exists s, receive_file_step path n total (end_of d j, fs) =
      ((s, alter (fun content => content ++ c) path fs),
       Ready (Ok (if total + len c =? n then Break (total + len c)
                  else Continue (total + len c)))) /\
    took d rest j (set_end d j s).
Proof using All.
  intros Hu Hyes Hflow Hc. destruct (q_end d j Hu) as (q & Hq & -> & _).
  destruct (q_received d j _ rest q Hu Hq Hyes Hflow) as (r & Hr & Htk).
  eexists. split; [|exact Htk].
  unfold receive_file_step, Stream.dispatch_file, on_reader_fs, quic_receive_file_turn, abind, on_first.
  rewrite Hr. cbn [chunk_item quic_link]. destruct c as [|b c]; [done|]. cbn -[Z.eqb len].
  by destruct (_ =? n).
Qed.

Lemma quic_progress (d : SessionSide) (j : qhalf * qhalf) :
  usable j -> flow d j <> [] -> arrived (opposite d) j = true \/ movable j.
Proof using All.
  intros Hu Hflow. cbn. destruct (q_inbound (qhalf_of (opposite d) j)) as [|m ms] eqn:Hin;
    [right|left; by rewrite bool_decide_true].
  cbn in Hflow. rewrite Hin in Hflow. cbn in Hflow.
  destruct (q_outbound (qhalf_of d j)) as [|m ms] eqn:Hout; [done|].
  destruct (q_end (opposite d) j Hu) as (q & Hq & _).
  exists (Arrives d). destruct d; cbn in *; unfold q_arrive; rewrite Hout, Hq; by eexists.
Qed.

Lemma quic_arrive_moved (a b a' b' : qhalf) :
  qhalf_ok a -> qhalf_ok b -> q_arrive a b = Some (a', b') ->
  qhalf_ok a' /\ qhalf_ok b' /\
  Stream.stream_id (q_stream a') = Stream.stream_id (q_stream a) /\
  Stream.stream_id (q_stream b') = Stream.stream_id (q_stream b) /\
  q_inbound b' ++ q_outbound a' = q_inbound b ++ q_outbound a /\
  q_inbound a' ++ q_outbound b' = q_inbound a ++ q_outbound b /\
  (qhalf_effort a' + qhalf_effort b' < qhalf_effort a + qhalf_effort b)%nat.
Proof using All.
  intros Ha Hb Hm. destruct (qo_stream _ Ha) as (qa & Hqa & Hsa & Hta & Hra & Hca).
  destruct (qo_stream _ Hb) as (qb & Hqb & Hsb & Htb & Hrb & Hcb).
  unfold q_arrive in Hm. rewrite Hqb in Hm.
  destruct (q_outbound a) as [|m rest] eqn:Hout; [done|]. injection Hm as <- <-.
  destruct (pipe_arrive m _ Hrb) as [Hrb' Harr].
  assert (Hrest : q_outbound (mk_qhalf (q_stream a) (q_world a) (S (q_carried a))) = rest).
  { unfold q_outbound in Hout |- *. cbn. rewrite Hqa in Hout |- *.
    rewrite <- (Nat.add_1_r (q_carried a)), <- drop_drop, Hout. done. }
  assert (Hlt : (q_carried a < length (sent (QuicStream.framed_writer qa)))%nat).
  { apply (f_equal length) in Hout. unfold q_outbound in Hout. rewrite Hqa, length_drop in Hout.
    cbn in Hout. lia. }
  split_and!.
  - split. exists qa. cbn. split_and!; try done; lia.
  - split. by eexists.
  - done.
  - by rewrite Hqb.
  - rewrite Hrest. unfold q_inbound. cbn. rewrite Hqb, Harr. by rewrite <- app_assoc.
  - unfold q_inbound, q_outbound. cbn. by rewrite Hqb.
  - unfold qhalf_effort. rewrite Hrest, Hout. unfold q_outbound, q_unread. cbn. rewrite Hqb. cbn. lia.
Qed.

Lemma quic_moved (m : quic_move) (j j' : qhalf * qhalf) :
  usable j -> move m j = Some j' ->
  usable j' /\ (forall d, flow d j' = flow d j) /\ (forall d, ident d j' = ident d j) /\
  (effort j' < effort j)%nat.
Proof using All.
  intros Hu Hm. destruct m as [d|d].
  - assert (Hc : exists a b, q_arrive (qhalf_of d j) (qhalf_of (opposite d) j) = Some (a, b) /\
      j' = set_qhalf d (set_qhalf (opposite d) j b) a).
    { destruct d; cbn in Hm |- *; [exists j'.1, j'.2; by destruct j'|].
      destruct (q_arrive j.2 j.1) as [[b a]|]; [|done]. injection Hm as <-. by exists b, a. }
    destruct Hc as (a & b & Hc & ->).
    destruct (quic_arrive_moved _ _ _ _ (Hu d) (Hu (opposite d)) Hc)
      as (Ha & Hb & Hsa & Hsb & Hf1 & Hf2 & He).
    split_and!; [| | |destruct d; cbn in *; lia]; intros d'; destruct d, d'; done.
  - cbn in Hm. destruct (q_end d j Hu) as (q & Hq & _ & Hsize & Htx & Hrx & Hca).
    destruct (pipe_notice _ Htx) as (Htx' & Hsent & Hun).
    unfold q_notice in Hm. rewrite Hq in Hm. destruct (Nat.ltb_spec
      (length (q_inbound (qhalf_of (opposite d) j) ++ q_outbound (qhalf_of d j)))
      (q_unread (qhalf_of d j))) as [Hlt|]; [|done]. injection Hm as <-.
    set (a := mk_qhalf _ _ _).
    assert (Hst : qhalf_step (qhalf_of d j) a [] [] 0 /\
      (qhalf_effort a < qhalf_effort (qhalf_of d j))%nat).
    { assert (He : (qhalf_effort a < qhalf_effort (qhalf_of d j))%nat).
      { unfold qhalf_effort, q_outbound, q_unread in *. cbn. rewrite Hq in *. cbn.
        rewrite Hsent, Hun. lia. }
      split; [split|done].
      - split. eexists. split; [done|]. cbn. by rewrite Hsent.
      - by rewrite Hq.
      - unfold q_inbound. by rewrite Hq.
      - unfold q_outbound. rewrite Hq. cbn. by rewrite Hsent, app_nil_r.
      - lia. }
    destruct Hst as [Hst He].
    destruct (qhalf_step_link d j a _ _ _ Hu Hst) as (Hu' & Hfl & Hot & Hids & _).
    rewrite app_nil_r in Hfl. split_and!; [done| |done|destruct d; cbn in *; lia].
    intros d'. destruct d, d'; done.
Qed.

#[export] Instance quic_link_laws : LinkLaws Tx Rx W (qhalf * qhalf).
Proof using All.
  split.
  - intros [] j [s w]; done.
  - intros [] [[] []]; done.
  - apply quic_send_ok.
  - apply quic_send_chunk.
  - apply quic_send_end.
  - apply quic_wait.
  - apply quic_receive_ok.
  - apply quic_receive_chunk.
  - intros d j _ Hyes. apply bool_decide_eq_true in Hyes. cbn. rewrite opposite_twice.
    by intros [? _]%app_nil.
  - apply quic_progress.
  - apply quic_moved.
Qed.

End laws.
