(* ===== verification/Transfer.v ===== *)
(** * Sending and receiving a file

    The two programs that move a file between nodes,
    foctet-net/examples/send_file.rs and receive_file.rs, and the exchange of the
    two over one stream.  Both are futures over the calls of [Stream]; what lies
    between the two ends is a [StreamLink], so that the theorems are those of the
    multiplexed sessions of TCP ([SessionLink]) and of QUIC ([QuicLink]) at
    once. *)

From S2P Require Import Prelude Text Key X509 Tls Config Ids Ip Node Dns Device Frame Tokio Files.
From S2P Require Import Hash Metadata MuxStream MuxSession MuxInvariant TcpStream QuicStream.
From S2P Require Import Connection Transport Endpoints Paths Futures Handles Links.

Local Open Scope Z_scope.
Local Open Scope future_scope.

#[local] Instance uuid_eq_dec : EqDecision UuidV4.t.
Proof. solve_decision. Defined.

#[local] Program Instance byte_countable : Countable byte :=
  inj_countable Byte.to_N Byte.of_N _.
Next Obligation. apply Byte.of_to_N. Qed.

#[export] Program Instance uuid_countable : Countable UuidV4.t :=
  inj_countable' UuidV4.val UuidV4.mk _.
Next Obligation. by intros []. Qed.

(** ** The sender *)

Module SendFile.

(** foctet-net/examples/send_file.rs:15-69, [Args]. *)
Record Args : Type := mk_Args {
  server_stack_addr : string;
  server_name : string;
  allow_loopback : bool;
  cert_path : option string;
  key_path : option string;
  file_path : string
}.

(** foctet-net/examples/send_file.rs:11-13, [METADATA_STORE] and [LOCALPATH_STORE]: no
    map before the first use. *)
Record Stores : Type := mk_Stores {
  METADATA_STORE : option (gmap ContentId FileMetadata.t);
  LOCALPATH_STORE : option (gmap ContentId string)
}.

Definition no_stores : Stores := mk_Stores None None.

(** [OnceLock::get_or_init] with an empty map. *)
Definition get_or_init {A : Type} (store : option (gmap ContentId A)) : gmap ContentId A :=
  match store with
  | Some m => m
  | None => ∅
  end.

(** foctet-net/examples/send_file.rs:105-117, [main]: the two insertions. *)
Definition register (content_id : ContentId) (file_metadata : FileMetadata.t) (file_path : string)
    (st : Stores) : Stores :=
  mk_Stores (Some (<[content_id := file_metadata]> (get_or_init (METADATA_STORE st))))
    (Some (<[content_id := file_path]> (get_or_init (LOCALPATH_STORE st)))).

Section setup.

Context `{Ed25519} `{Base32} `{X509Lib} `{QuinnLib} `{StackAddrLib} `{DnsLib} `{NetLib} `{IpNetLib}.
Context `{Blake3} `{!Bincode TransferTicket.t}.

(** [StackAddr::from_str]. *)
Variable parse_addr : string -> outcome error StackAddr.

Local Open Scope outcome_scope.

(** foctet-net/examples/send_file.rs:92-97, [main]: the calls of the builder.  The first
    three keys are those that [EndpointBuilder::new] draws, the others are for the
    keypair of the program. *)
Definition endpoint_builder (args : Args) (keypair0 : Keypair.t) (keys0 : outcome error CertKey * outcome error CertKey)
    (keypair : Keypair.t) (keys : outcome error CertKey * outcome error CertKey) : outcome error EndpointBuilder.t :=
  let? server_addr := parse_addr (server_stack_addr args) in
  let? b := EndpointBuilder.new keypair0 keys0.1 keys0.2 in
  let? b := EndpointBuilder.with_keypair b keypair keys.1 keys.2 in
  let? b := EndpointBuilder.with_addr b server_addr in
  let b := EndpointBuilder.allow_loopback b (allow_loopback args) in
  Ok (EndpointBuilder.with_max_write_buffer_size b).

(** foctet-net/examples/send_file.rs:84-121, [main]: up to the ticket; [unique_id] is
    what [ContentId::new] draws. *)
Definition setup (args : Args) (keypair0 : Keypair.t) (keys0 : outcome error CertKey * outcome error CertKey)
    (keypair : Keypair.t) (keys : outcome error CertKey * outcome error CertKey) (iface : outcome error Interface.t) (n : Net)
    (parallelism : outcome error Z) (unique_id : bytes) (fs : Fs) :
    outcome error (Endpoint.t * System * Stores * string) :=
  let? b := endpoint_builder args keypair0 keys0 keypair keys in
  let? built := EndpointBuilder.build b iface n in
  let '(endpoint, system) := built in
  let? file_metadata := get_file_metadata parallelism fs (file_path args) in
  let? content_id := UuidV4.new unique_id in
  let stores := register content_id file_metadata (file_path args) no_stores in
  let ticket := TransferTicket.new (Endpoint.node_addr endpoint) content_id in
  let? ticket_base32 := TransferTicket.to_base32 ticket in
  Ok (endpoint, system, stores, ticket_base32).

End setup.

Section handler.

Context {Tx Rx : Type} `{MessageSink Tx} `{MessageSource Rx} {W : Type} `{StreamHost W} `{FileRead}.
Context `{!Bincode FileMetadata.t}.

(** What the task of a stream uses: the stream, the files, the two stores. *)
Abbreviation State := (Stream.t Tx Rx * W * (Fs * Stores))%type.

Definition on_files {S A : Type} (m : async (S * Fs) A) : async (S * (Fs * Stores)) A :=
  fun '(s, (fs, st)) => let '((s, fs), r) := m (s, fs) in ((s, (fs, st)), r).

Definition find_metadata (cid : ContentId) : async State (option FileMetadata.t) :=
  fun '(s, (fs, st)) =>
    let m := get_or_init (METADATA_STORE st) in
    ((s, (fs, mk_Stores (Some m) (LOCALPATH_STORE st))), Ready (Ok (m !! cid))).

Definition find_localpath (cid : ContentId) : async State (option string) :=
  fun '(s, (fs, st)) =>
    let m := get_or_init (LOCALPATH_STORE st) in
    ((s, (fs, mk_Stores (METADATA_STORE st) (Some m))), Ready (Ok (m !! cid))).

(** foctet-net/examples/send_file.rs:181-187, [handle_stream]: [metadata_frame]. *)
Definition metadata_frame (stream_id : StreamId.t) (payload : bytes) : Frame.t :=
  FrameBuilder.build (FrameBuilder.with_fin (FrameBuilder.with_payload
    (FrameBuilder.with_frame_type (FrameBuilder.as_response
      (FrameBuilder.with_stream_id builder stream_id)) FrameType.FileMeta) payload) true).

(** foctet-net/examples/send_file.rs:210-229, [handle_stream]: the end of an iteration,
    after the file. *)
Definition after_file (r : outcome error unit) : future State (control unit unit) :=
  match r with
  | Ok _ => fret (Continue tt)
  | _ => fret (Break tt)
  end.

(** foctet-net/examples/send_file.rs:194-229, [handle_stream]: the file in chunks. *)
Definition send_content (cid : ContentId) : future State (control unit unit) :=
  let* path := call (find_localpath cid) in
  match path with
  | Some file_path =>
      try* r := within_state (fun _ m => on_files m) (stream_send_file file_path) in
      after_file r
  | None => fret (Break tt)
  end.

(** foctet-net/examples/send_file.rs:177-193, [handle_stream]: the metadata. *)
Definition send_metadata (cid : ContentId) (metadata : FileMetadata.t) :
    future State (control unit unit) :=
  let* payload := Done (unwrap (FileMetadata.to_bytes metadata)) in
  try* r := call (fun s =>
    on_first (Stream.send_frame (metadata_frame (Stream.stream_id s.1.1) payload)) s) in
  match r with
  | Ok _ => send_content cid
  | _ => fret (Break tt)
  end.

(** foctet-net/examples/send_file.rs:153-230, [handle_stream]: a request for content. *)
Definition handle_request (frame : Frame.t) : future State (control unit unit) :=
  match UuidV4.from_bytes (Frame.payload frame) with
  | Ok cid =>
      let* metadata := call (find_metadata cid) in
      match metadata with
      | Some metadata => send_metadata cid metadata
      | None => fret (Break tt)
      end
  | Err _ => fret (Break tt)
  | Panic => Done Panic
  end.

(** foctet-net/examples/send_file.rs:149-241, [handle_stream]: an iteration. *)
Definition handle_turn (_ : unit) : future State (control unit unit) :=
  try* r := call (on_first Stream.receive_frame) in
  match r with
  | Ok frame =>
      match FrameHeader.frame_type (Frame.header frame) with
      | FrameType.ContentRequest => handle_request frame
      | _ => fret (Continue tt)
      end
  | _ => fret (Break tt)
  end.

(** foctet-net/examples/send_file.rs:147-242, [handle_stream]. *)
Definition handle_stream : future State unit := floop handle_turn tt.

End handler.

End SendFile.

(** ** The receiver *)

Module ReceiveFile.

(** foctet-net/examples/receive_file.rs:9-35, [Args]. *)
Record Args : Type := mk_Args {
  ticket : string;
  allow_loopback : bool;
  save_path : string
}.

Section connect.

Context `{Ed25519} `{Base32} `{X509Lib} `{QuinnLib} `{StackAddrLib} `{DnsLib} `{NetLib} `{IpNetLib}.
Context `{!Bincode TransferTicket.t}.

Local Open Scope outcome_scope.

(** foctet-net/examples/receive_file.rs:59-66, [main]: the calls of the builder. *)
Definition endpoint_builder (args : Args) (keypair0 : Keypair.t) (keys0 : outcome error CertKey * outcome error CertKey)
    (keypair : Keypair.t) (keys : outcome error CertKey * outcome error CertKey) : outcome error EndpointBuilder.t :=
  let? b := EndpointBuilder.new keypair0 keys0.1 keys0.2 in
  let? b := EndpointBuilder.with_keypair b keypair keys.1 keys.2 in
  let b := EndpointBuilder.with_quic b in
  let b := EndpointBuilder.with_tcp b in
  let b := EndpointBuilder.without_listen b in
  let b := EndpointBuilder.allow_loopback b (allow_loopback args) in
  Ok (EndpointBuilder.with_max_read_buffer_size b).

Local Open Scope task_scope.

(** foctet-net/examples/receive_file.rs:52-68, [main]: up to the connection; the content
    identifier of the ticket is for later. *)
Definition connect (args : Args) (keypair0 : Keypair.t) (keys0 : outcome error CertKey * outcome error CertKey)
    (keypair : Keypair.t) (keys : outcome error CertKey * outcome error CertKey) (iface : outcome error Interface.t) :
    task Net (ContentId * (Connection.t * option World.t)) :=
  let! ticket := tlift (TransferTicket.from_base32 (ticket args)) in
  let! b := tlift (endpoint_builder args keypair0 keys0 keypair keys) in
  fun n =>
    match EndpointBuilder.build b iface n with
    | Ok (endpoint, system) =>
        let '((n, _), r) :=
          Endpoint.connect_node iface (TransferTicket.node_addr ticket) (net system, endpoint) in
        (n, (let? conn := r in Ok (TransferTicket.content_id ticket, conn))%outcome)
    | Err e => (n, Err e)
    | Panic => (n, Panic)
    end.

End connect.

Section exchange.

Context {Tx Rx : Type} `{MessageSink Tx} `{MessageSource Rx} {W : Type} `{StreamHost W} `{FileRead}.
Context `{!Bincode FileMetadata.t}.

(** What the program uses once it has a stream; [is_dir] is the answer of the
    operating system to [Path::is_dir]. *)
Abbreviation State := (Stream.t Tx Rx * W * Fs)%type.

Variable is_dir : string -> bool.

(** foctet-net/examples/receive_file.rs:77-82, [main]: [content_request_frame]. *)
Definition content_request_frame (stream_id : StreamId.t) (content_id : ContentId) : Frame.t :=
  FrameBuilder.build (FrameBuilder.with_payload (FrameBuilder.with_frame_type
    (FrameBuilder.with_fin (FrameBuilder.with_stream_id builder stream_id) true)
    FrameType.ContentRequest) (UuidV4.to_bytes content_id)).

(** foctet-net/examples/receive_file.rs:99-105, [main]: where the file is saved. *)
Definition saved_at (args_save_path name : string) : string :=
  if is_dir args_save_path then push args_save_path name else args_save_path.

(** foctet-net/examples/receive_file.rs:98-123, [main]: the content, with its length and
    the path for the log. *)
Definition receive_content (args_save_path : string) (file_metadata : FileMetadata.t) :
    future State (Z * string) :=
  let save_path := saved_at args_save_path (FileMetadata.name file_metadata) in
  let* len := stream_receive_file save_path (FileMetadata.size file_metadata) in
  fret (len, save_path).

(** foctet-net/examples/receive_file.rs:88-123, [main]: the answer and what follows. *)
Definition receive_answer (args_save_path : string) : future State (Z * string) :=
  let* frame := call (on_first Stream.receive_frame) in
  let* file_metadata := Done
    match FrameHeader.frame_type (Frame.header frame) with
    | FrameType.FileMeta => FileMetadata.from_bytes (Frame.payload frame)
    | _ => Err (Anyhow "Invalid frame payload")
    end in
  receive_content args_save_path file_metadata.

(** foctet-net/examples/receive_file.rs:76-123, [main]: the exchange on the stream. *)
Definition exchange (content_id : ContentId) (args_save_path : string) :
    future State (Z * string) :=
  let* _ := call (fun s =>
    on_first (Stream.send_frame (content_request_frame (Stream.stream_id s.1.1) content_id)) s) in
  receive_answer args_save_path.

End exchange.

Section transfer.

Context `{StackAddrLib} `{ConnLib} `{FileRead} `{!Bincode FileMetadata.t}.

(** The connection, the stream once it is open, and the files. *)
Abbreviation Local := (Connection.t * World.t * option (Stream.t SendStream RecvStream) * Fs)%type.

Definition on_conn {A : Type} (m : async (Connection.t * World.t) A) : async Local A :=
  on_first (on_first m).

Definition on_stream {A : Type} (m : async (Stream.t SendStream RecvStream * World.t * Fs) A) :
    async Local A :=
  fun '(c, w, o, fs) =>
    match o with
    | Some s => let '((s, w, fs), r) := m (s, w, fs) in ((c, w, Some s, fs), r)
    | None => ((c, w, o, fs), Ready Panic)
    end.

Definition set_stream (s : Stream.t SendStream RecvStream) : async Local unit :=
  fun '(c, w, _, fs) => ((c, w, Some s, fs), Ready (Ok tt)).

(** foctet-net/examples/receive_file.rs:72-130, [main]: from the connection on. *)
Definition transfer (is_dir : string -> bool) (content_id : ContentId) (args_save_path : string) :
    future Local unit :=
  let* stream := within_state (fun _ m => on_conn m) connection_open_stream in
  let* _ := call (set_stream stream) in
  let* _ := within_state (fun _ m => on_stream m) (exchange is_dir content_id args_save_path) in
  let* _ := within_state (fun _ m => on_stream (on_first m)) stream_close in
  within_state (fun _ m => on_conn m) connection_close.

End transfer.

End ReceiveFile.
