(* ===== verification/Peers.v ===== *)
(** * Two programs at the ends of a link

    A program at the client's end of a stream and one at the server's, each a
    future over its end of the stream and data of its own.  Each turn of either
    program and each move of what lies between them is an action; the actions
    may come in any order. *)

From S2P Require Import Prelude Tokio Files MuxSession Connection Futures Links.

Section peers.

Context {Tx Rx W J C S A B : Type} `{!StreamLink Tx Rx W J}.

Record Peers : Type := mk_Peers {
  link : J;
  client_data : C;
  server_data : S;
  client : future (Stream.t Tx Rx * W * C) A;
  server : future (Stream.t Tx Rx * W * S) B
}.

(** A turn of a program is its next call that completes. *)
Inductive action : Type :=
| ClientTurn
| ServerTurn
| Between (m : Move).

Definition act (a : action) (x : Peers) : option Peers :=
  match a with
  | ClientTurn =>
      match resume (client x) (end_of Client (link x), client_data x) with
      | Some (p, (s, c)) =>
          Some (mk_Peers (set_end Client (link x) s) c (server_data x) p (server x))
      | None => None
      end
  | ServerTurn =>
      match resume (server x) (end_of Server (link x), server_data x) with
      | Some (p, (s, d)) =>
          Some (mk_Peers (set_end Server (link x) s) (client_data x) d (client x) p)
      | None => None
      end
  | Between m =>
      match move m (link x) with
      | Some j => Some (mk_Peers j (client_data x) (server_data x) (client x) (server x))
      | None => None
      end
  end.

Fixpoint run (l : list action) (x : Peers) : option Peers :=
  match l with
  | [] => Some x
  | a :: l' =>
      match act a x with
      | Some x' => run l' x'
      | None => None
      end
  end.

(** Something can happen. *)
Definition enabled (x : Peers) : Prop := exists a x', act a x = Some x'.

Lemma movable_enabled (x : Peers) : movable (link x) -> enabled x.
Proof. intros (m & j & Hm). exists (Between m). cbn. rewrite Hm. by eexists. Qed.

Lemma client_enabled (x : Peers) :
  resume (client x) (end_of Client (link x), client_data x) <> None -> enabled x.
Proof.
  intros Hr. exists ClientTurn. unfold act. destruct (resume _ _) as [[p [e c]]|]; [by eexists|done].
Qed.

Lemma server_enabled (x : Peers) :
  resume (server x) (end_of Server (link x), server_data x) <> None -> enabled x.
Proof.
  intros Hr. exists ServerTurn. unfold act. destruct (resume _ _) as [[p [e d]]|]; [by eexists|done].
Qed.

(** A measure that every action makes smaller bounds the length of a run; what the
    actions keep holds at its end. *)
Lemma run_measured (P : Peers -> nat -> Prop) :
  (forall a x x' n, P x n -> act a x = Some x' -> exists n', P x' n' /\ (n' < n)%nat) ->
  forall l x x' n, P x n -> run l x = Some x' -> exists n', P x' n' /\ (length l + n' <= n)%nat.
Proof.
  intros Hstep l. induction l as [|a l IH]; intros x x' n Hx Hr; cbn in Hr.
  - injection Hr as <-. exists n. split; [done|]. cbn. lia.
  - destruct (act a x) as [x1|] eqn:Ha; [|done].
    destruct (Hstep _ _ _ _ Hx Ha) as (n1 & Hx1 & Hn1).
    destruct (IH _ _ _ Hx1 Hr) as (n' & Hx' & Hn'). exists n'. split; [done|]. cbn. lia.
Qed.

(** Runs that always take the first action that is possible, with fuel. *)
Fixpoint first_action (choices : list action) (x : Peers) : option (action * Peers) :=
  match choices with
  | [] => None
  | a :: choices' =>
      match act a x with
      | Some x' => Some (a, x')
      | None => first_action choices' x
      end
  end.

Fixpoint drive (fuel : nat) (choices : list action) (x : Peers) : list action * Peers :=
  match fuel with
  | O => ([], x)
  | Datatypes.S fuel' =>
      match first_action choices x with
      | Some (a, x') => let '(l, y) := drive fuel' choices x' in (a :: l, y)
      | None => ([], x)
      end
  end.

Lemma first_action_act choices x a x' : first_action choices x = Some (a, x') -> act a x = Some x'.
Proof.
  induction choices as [|b choices IH]; [done|]. cbn. destruct (act b x) eqn:E; [|done].
  by intros [= <- <-].
Qed.

Lemma drive_run fuel choices x : run (drive fuel choices x).1 x = Some (drive fuel choices x).2.
Proof.
  revert x. induction fuel as [|fuel IH]; intros x; [done|]. cbn [drive].
  destruct (first_action choices x) as [[a x']|] eqn:E; [|done].
  specialize (IH x'). destruct (drive fuel choices x') as [l y]. cbn.
  by rewrite (first_action_act _ _ _ _ E).
Qed.

(** A link where nothing has been sent yet, with streams that have 32-bit numbers. *)
Definition fresh_link (j : J) : Prop :=
  usable j /\ forall d, flow d j = [] /\ Ids.StreamId.wf (ident d j) = true.

End peers.

Arguments Peers Tx Rx W J C S A B : clear implicits.
Arguments action Tx Rx W J {_}.
