(* ===== verification/Exchange.v ===== *)
(** * A file crosses a link

    The receiver of a file and the task of the sender that serves it, at the two
    ends of a link, with everything that may happen between them: each turn of
    either program and each move of the link is an action of its own, in any
    order.  The file arrives as it was, in a bounded number of actions, unless it
    is empty. *)

From S2P Require Import Prelude Text Ids Node Frame Tokio Files Hash Metadata.
From S2P Require Import MuxStream MuxSession MuxInvariant TcpStream QuicStream Connection.
From S2P Require Import Paths Futures Handles Links Transfer Peers.

Local Open Scope Z_scope.
Local Open Scope future_scope.

(** ** The system *)

Section system.

Context {Tx Rx W J : Type} `{MessageSink Tx} `{MessageSource Rx} `{StreamHost W} `{FileRead}.
Context `{!StreamLink Tx Rx W J} `{!Bincode FileMetadata.t}.

(** The receiver has its files, the sender its files and its two stores. *)
Abbreviation Exchange := (Peers Tx Rx W J Fs (Fs * SendFile.Stores) (Z * string) unit).

(** The receiver asks for [cid]; the sender has taken up the stream. *)
Definition start (is_dir : string -> bool) (cid : ContentId) (save_path : string) (j : J)
    (client_fs server_fs : Fs) (stores : SendFile.Stores) : Exchange :=
  mk_Peers j client_fs (server_fs, stores) (ReceiveFile.exchange is_dir cid save_path)
    SendFile.handle_stream.

(** The content that [cid] stands for at a sender. *)
Definition offered (cid : ContentId) (st : SendFile.Stores) (fs : Fs) (md : FileMetadata.t)
    (file : bytes) : Prop :=
  SendFile.get_or_init (SendFile.METADATA_STORE st) !! cid = Some md /\
  FileMetadata.size md = len file /\
  exists path, SendFile.get_or_init (SendFile.LOCALPATH_STORE st) !! cid = Some path /\
    fs !! path = Some file.

End system.

(** ** The positions of the two programs *)

Section positions.

Context {Tx Rx W J : Type} `{MessageSink Tx} `{MessageSource Rx} `{StreamHost W} `{FileRead}.
Context `{!StreamLink Tx Rx W J} `{!LinkLaws Tx Rx W J} `{!Bincode FileMetadata.t}.
Context (is_dir : string -> bool) (cid : ContentId) (md : FileMetadata.t) (args_path path : string).
Context (file payload : bytes) (fs0 : Fs) (j0 : J).

Abbreviation Exchange := (Peers Tx Rx W J Fs (Fs * SendFile.Stores) (Z * string) unit).

Definition save : string := ReceiveFile.saved_at is_dir args_path (FileMetadata.name md).

Inductive client_at : Type :=
| Asking
| Asked
| Creating
| Receiving (got : bytes)
| Finished.

Inductive server_at : Type :=
| Fresh
| Looking
| Answering
| Locating
| Opening
| Sending (rest : bytes)
| Waiting.

Definition client_future (c : client_at) : future (Stream.t Tx Rx * W * Fs) (Z * string) :=
  match c with
  | Asking => ReceiveFile.exchange is_dir cid args_path
  | Asked => ReceiveFile.receive_answer is_dir args_path
  | Creating => ReceiveFile.receive_content is_dir args_path md
  | Receiving got =>
      let* n := floop (fun total => call (receive_file_step save (FileMetadata.size md) total))
        (len got) in
      fret (n, save)
  | Finished => fret (len file, save)
  end.

Definition in_loop (p : future (Stream.t Tx Rx * W * (Fs * SendFile.Stores)) (control unit unit)) :
    future (Stream.t Tx Rx * W * (Fs * SendFile.Stores)) unit :=
  fthen (again SendFile.handle_turn Done) p.

Definition server_future (s : server_at) :
    future (Stream.t Tx Rx * W * (Fs * SendFile.Stores)) unit :=
  match s with
  | Fresh | Waiting => SendFile.handle_stream
  | Looking => in_loop
      (let* metadata := call (SendFile.find_metadata cid) in
       match metadata with
       | Some metadata => SendFile.send_metadata cid metadata
       | None => fret (Break tt)
       end)
  | Answering => in_loop (SendFile.send_metadata cid md)
  | Locating => in_loop (SendFile.send_content cid)
  | Opening => in_loop
      (try* r := within_state (fun _ m => SendFile.on_files m) (stream_send_file path) in
       SendFile.after_file r)
  | Sending rest => in_loop
      (try* r := within_state (fun _ m => SendFile.on_files m)
         (floop (fun file => call (on_first (send_file_step file))) rest) in
       SendFile.after_file r)
  end.

(** What the sender still has to send, and what the receiver has written. *)
Definition unsent (s : server_at) : bytes :=
  match s with
  | Sending rest => rest
  | Waiting => []
  | _ => file
  end.

Definition received (c : client_at) : bytes :=
  match c with
  | Receiving got => got
  | Finished => file
  | _ => []
  end.

Definition past_answer (s : server_at) : bool :=
  match s with
  | Fresh | Looking | Answering => false
  | _ => true
  end.

Definition request_frame : Frame.t := ReceiveFile.content_request_frame (ident Client j0) cid.

Definition answer_frame : Frame.t := SendFile.metadata_frame (ident Server j0) payload.

Definition requests (c : client_at) (s : server_at) : list Item :=
  match c, s with
  | Asked, Fresh => [frame_item request_frame]
  | _, _ => []
  end.

Definition answers (c : client_at) (s : server_at) : list Item :=
  match c with
  | Asked => if past_answer s then [frame_item answer_frame] else []
  | _ => []
  end.

(** The two programs stand at [c] and [s], and the chunks [cs] are between them. *)
Record stands (x : Exchange) (c : client_at) (s : server_at) (cs : list bytes) : Prop := {
  st_usable : usable (link x);
  st_ident : forall d, ident d (link x) = ident d j0;
  st_client : client x = client_future c;
  st_server : server x = server_future s;
  st_metadata : SendFile.get_or_init (SendFile.METADATA_STORE (server_data x).2) !! cid = Some md;
  st_path : SendFile.get_or_init (SendFile.LOCALPATH_STORE (server_data x).2) !! cid = Some path;
  st_file : (server_data x).1 !! path = Some file;
  st_requests : flow Client (link x) = requests c s;
  st_answers : flow Server (link x) =
    answers c s ++ map (chunk_item (ident Server j0)) cs;
  st_agree : match c with
             | Asking => s = Fresh
             | Asked => True
             | _ => past_answer s = true
             end;
  st_chunks : Forall (fun chunk => chunk <> []) cs;
  st_content : received c ++ concat cs ++ unsent s = file;
  st_partial : match c with
               | Receiving got => got = file -> file = []
               | Finished => file <> []
               | _ => True
               end;
  st_saved : match c with
             | Receiving _ | Finished => client_data x !! save = Some (received c)
             | _ => client_data x = fs0
             end;
  st_others : forall p, p <> save -> client_data x !! p = fs0 !! p
}.

(** How many actions there may be: calls of the programs, and moves after each. *)
Definition client_calls (c : client_at) : nat :=
  match c with
  | Asking => 3 + length file
  | Asked => 2 + length file
  | Creating => 1 + length file
  | Receiving got => length file - length got
  | Finished => 0
  end.

Definition server_calls (s : server_at) : nat :=
  match s with
  | Fresh => 6 + length file
  | Looking => 5 + length file
  | Answering => 4 + length file
  | Locating => 3 + length file
  | Opening => 2 + length file
  | Sending rest => 1 + length rest
  | Waiting => 0
  end.

Definition weight (j : J) (c : client_at) (s : server_at) : nat :=
  (hops + 1) * (client_calls c + server_calls s) + effort j.

(** ** Steps *)

Hypothesis Hcid : UuidV4.wf cid = true.
Hypothesis Hids : forall d, StreamId.wf (ident d j0) = true.
Hypothesis Hpayload : FileMetadata.to_bytes md = Ok payload.
Hypothesis Hfits : 14 + len payload <= MAX_MESSAGE.
Hypothesis Hsize : FileMetadata.size md = len file.

Lemma cid_read : UuidV4.from_bytes (UuidV4.to_bytes cid) = Ok cid.
Proof using Hcid.
  unfold UuidV4.from_bytes, UuidV4.to_bytes, copy_from_slice. unfold UuidV4.wf in Hcid.
  rewrite Hcid. cbn. by destruct cid.
Qed.

Lemma request_sendable (j : J) :
  (forall d, ident d j = ident d j0) -> sendable Client j request_frame.
Proof using Hcid Hids.
  intros Hj. unfold UuidV4.wf in Hcid. apply Z.eqb_eq in Hcid.
  split; [|by cbn; rewrite Hj|].
  2: { cbn [request_frame Frame.payload]. change (Frame.payload request_frame) with (UuidV4.val cid). by rewrite Hcid. }
  unfold Frame.wf, FrameHeader.wf. cbn. rewrite Hids. unfold UuidV4.to_bytes. by rewrite Hcid.
Qed.

Lemma answer_sendable (j : J) :
  (forall d, ident d j = ident d j0) -> sendable Server j answer_frame.
Proof using Hids Hfits.
  intros Hj. split; [|by cbn; rewrite Hj|done].
  unfold Frame.wf, FrameHeader.wf. cbn. rewrite Hids. cbn. apply is_u32_spec.
  pose proof (len_nonneg payload). unfold MAX_MESSAGE, u32_max in *. lia.
Qed.

Lemma answer_read : FileMetadata.from_bytes payload = Ok md.
Proof using Hpayload.
  unfold FileMetadata.to_bytes in Hpayload. destruct (encode_to_vec md) eqn:E; try done.
  injection Hpayload as ->. unfold FileMetadata.from_bytes.
  rewrite <- (app_nil_r payload), (bincode_decode_encode _ _ [] E). done.
Qed.

(** The calls of the receiver. *)
Lemma resume_asking st fs :
  resume (client_future Asking) (st, fs) =
  match Stream.send_frame (ReceiveFile.content_request_frame (Stream.stream_id st.1) cid) st with
  | (st', Ready (Ok _)) => Some (client_future Asked, (st', fs))
  | (st', Ready (Err e)) => Some (Done (Err e), (st', fs))
  | (st', Ready Panic) => Some (Done Panic, (st', fs))
  | (_, Pending) => None
  end.
Proof using Type.
  unfold client_future, ReceiveFile.exchange, fbind, call, fthen. rewrite resume_await.
  unfold on_first. cbn [fst]. by destruct (Stream.send_frame _ st) as [? [[[]| |]|]].
Qed.

Lemma resume_asked st fs :
  match resume (client_future Asked) (st, fs) with
  | Some (p, (st', fs')) => fs' = fs /\ exists o, Stream.receive_frame st = (st', Ready o) /\
      (o = Ok (Frame.normal answer_frame) -> p = client_future Creating)
  | None => (Stream.receive_frame st).2 = Pending
  end.
Proof using Hpayload.
  unfold client_future, ReceiveFile.receive_answer, fbind, call, fthen. rewrite resume_await.
  unfold on_first. destruct (Stream.receive_frame st) as [st' [o|]]; [|done]. split; [done|]. exists o.
  split; [done|]. intros ->. cbn. by rewrite answer_read.
Qed.

Lemma resume_receiving got st fs :
  resume (client_future (Receiving got)) (st, fs) =
  match receive_file_step save (FileMetadata.size md) (len got) (st, fs) with
  | (s', Ready (Ok (Continue n))) =>
      Some (let* n := floop (fun total => call (receive_file_step save (FileMetadata.size md) total)) n in
            fret (n, save), s')
  | (s', Ready (Ok (Break n))) => Some (fret (n, save), s')
  | (s', Ready (Err e)) => Some (Done (Err e), s')
  | (s', Ready Panic) => Some (Done Panic, s')
  | (_, Pending) => None
  end.
Proof using Type.
  cbn [client_future]. unfold fbind, floop at 1, fthen.
  rewrite (resume_loop_call _ _ _ (receive_file_step save (FileMetadata.size md) (len got)) Done) by done.
  by destruct (receive_file_step (Tx := Tx) (Rx := Rx) _ _ _ _) as [s' [[[]| |]|]].
Qed.

Lemma weight_drop (j j' : J) c s c' s' :
  (client_calls c' + server_calls s' < client_calls c + server_calls s)%nat ->
  (effort j' <= hops + effort j)%nat -> (weight j' c' s' < weight j c s)%nat.
Proof using Type. unfold weight. intros Hc He. nia. Qed.

(** Chunks are not empty. *)
Lemma no_chunks (cs : list bytes) :
  Forall (fun chunk => chunk <> []) cs -> concat cs = [] -> cs = [].
Proof using Type. intros [|c cs' Hc _]; [done|]. intros [E _]%app_nil. done. Qed.

Lemma no_chunks_before (x : Exchange) c s cs :
  stands x c s cs -> past_answer s = false -> cs = [].
Proof using Type.
  intros Hx Hs. apply no_chunks; [apply Hx|]. pose proof (st_content _ _ _ _ Hx) as E.
  replace (unsent s) with file in E by by destruct s.
  apply (f_equal length) in E. rewrite !length_app in E. apply length_zero_iff_nil. lia.
Qed.

Lemma client_asks (x x' : Exchange) s cs :
  stands x Asking s cs -> act ClientTurn x = Some x' ->
  stands x' Asked s cs /\ (weight (link x') Asked s < weight (link x) Asking s)%nat.
Proof using All.
  intros Hx Ha. destruct Hx. subst s. unfold act in Ha. rewrite st_client0, resume_asking in Ha.
  change (Stream.stream_id _) with (ident Client (link x)) in Ha. rewrite st_ident0 in Ha.
  pose proof (link_send Client _ _ st_usable0 (request_sendable _ st_ident0)) as Hs.
  fold request_frame in Ha. destruct (Stream.send_frame request_frame _) as [e [o|]]; [|done].
  destruct Hs as [-> []]. injection Ha as <-. split; [|apply weight_drop; [cbn; lia|done]].
  split; try done; cbn [link].
  - intros d. by rewrite ap_ident.
  - by rewrite ap_flow, st_requests0.
  - exact (eq_trans ap_other st_answers0).
Qed.

Lemma client_answered (x x' : Exchange) s cs :
  stands x Asked s cs -> act ClientTurn x = Some x' ->
  stands x' Creating s cs /\ (weight (link x') Creating s < weight (link x) Asked s)%nat.
Proof using All.
  intros Hx Ha. pose proof (no_chunks_before _ _ _ _ Hx) as Hno. destruct Hx.
  unfold act in Ha. rewrite st_client0 in Ha.
  pose proof (resume_asked (end_of Client (link x)) (client_data x)) as Hr.
  destruct (resume _ _) as [[p [e fs]]|]; [|done]. injection Ha as <-.
  destruct Hr as (-> & o & Hr & Hp).
  destruct (arrived Client (link x)) eqn:Harr.
  2: { destruct (link_wait Client _ st_usable0 Harr) as [Hw _]. by rewrite Hr in Hw. }
  destruct (past_answer s) eqn:Hpast; cbn [answers] in st_answers0; rewrite Hpast in st_answers0.
  2: { rewrite Hno in st_answers0 by done. by destruct (link_arrived Client _ st_usable0 Harr). }
  destruct (link_receive Client _ _ _ st_usable0 Harr st_answers0) as (e' & He & []).
  { apply (answer_sendable _ st_ident0). }
  rewrite He in Hr. injection Hr as <- <-. rewrite Hp by done.
  split; [|apply weight_drop; [cbn; lia|cbn [link]; lia]]. split; try done; cbn [link].
  - intros d. by rewrite tk_ident.
  - rewrite tk_other, st_requests0. by destruct s.
Qed.

Lemma client_creates (x x' : Exchange) s cs :
  stands x Creating s cs -> act ClientTurn x = Some x' ->
  stands x' (Receiving []) s cs /\ (weight (link x') (Receiving []) s < weight (link x) Creating s)%nat.
Proof using All.
  intros Hx Ha. destruct Hx. unfold act in Ha. rewrite st_client0 in Ha. cbn in Ha.
  rewrite set_end_id in Ha. injection Ha as <-. split; [|apply weight_drop; cbn; lia].
  split; try done; cbn.
  - apply lookup_insert_eq.
  - intros p Hp. rewrite lookup_insert_ne by done. by apply st_others0.
Qed.

(** Where the receiver is after a chunk. *)
Definition after_chunk (got c : bytes) : client_at :=
  if len got + len c =? FileMetadata.size md then Finished else Receiving (got ++ c).

Lemma after_chunk_full (got c rest : bytes) :
  got ++ c ++ rest = file -> len got + len c = FileMetadata.size md -> got ++ c = file /\ rest = [].
Proof using Hsize.
  rewrite Hsize. intros <-. unfold len. rewrite !length_app. intros Hl.
  assert (rest = []) as -> by (apply length_zero_iff_nil; lia). by rewrite app_nil_r.
Qed.

Lemma client_receives (x x' : Exchange) got s cs :
  stands x (Receiving got) s cs -> act ClientTurn x = Some x' ->
  exists c cs', cs = c :: cs' /\ stands x' (after_chunk got c) s cs' /\
    (weight (link x') (after_chunk got c) s < weight (link x) (Receiving got) s)%nat.
Proof using All.
  intros Hx Ha. destruct Hx. unfold act in Ha. rewrite st_client0, resume_receiving in Ha.
  destruct (arrived Client (link x)) eqn:Harr.
  2: { destruct (link_wait Client _ st_usable0 Harr) as [_ Hw].
       specialize (Hw save (FileMetadata.size md) (len got) (client_data x)).
       by destruct (receive_file_step _ _ _ _) as [? [?|]]. }
  destruct cs as [|c cs]; [by destruct (link_arrived Client _ st_usable0 Harr)|].
  exists c, cs. split; [done|]. inversion st_chunks0 as [|? ? Hc Hcs]; subst.
  destruct (link_receive_chunk Client _ _ _ _ save (FileMetadata.size md) (len got) (client_data x)
    st_usable0 Harr st_answers0 Hc) as (e & He & []). rewrite He in Ha.
  assert (Hfs : alter (fun content => content ++ c) save (client_data x) !! save = Some (got ++ c))
    by by rewrite lookup_alter_eq, st_saved0.
  assert (Hoth : forall p, p <> save ->
    alter (fun content => content ++ c) save (client_data x) !! p = fs0 !! p)
    by (intros p Hp; rewrite lookup_alter_ne by done; by apply st_others0).
  assert (Hne : (0 < length c)%nat) by (destruct c; [done|cbn; lia]).
  assert (Hgot : got ++ c ++ (concat cs ++ unsent s) = file) by by rewrite <- st_content0; cbn; rewrite !app_assoc.
  assert (Hln : (length got + length c <= length file)%nat)
    by (rewrite <- Hgot, !length_app; lia).
  unfold after_chunk. pose proof (after_chunk_full got c _ Hgot) as Hfull.
  destruct (Z.eqb_spec (len got + len c) (FileMetadata.size md)) as [Hn|Hn]; injection Ha as <-.
  - destruct (Hfull Hn) as [Hf Hrest]. split; [|apply weight_drop; cbn [link client_calls]; lia].
    split; try done; cbn [link client received client_future client_data].
    + intros d. by rewrite tk_ident.
    + by rewrite Hn, Hsize.
    + exact (eq_trans tk_other st_requests0).
    + by rewrite Hrest, app_nil_r.
    + intros E. rewrite E in Hln. cbn in Hln. lia.
    + by rewrite Hfs, Hf.
  - split; [|apply weight_drop; cbn [link client_calls]; rewrite ?length_app; lia].
    split; try done; cbn [link client received client_future client_data].
    + intros d. by rewrite tk_ident.
    + unfold len. by rewrite length_app, Nat2Z.inj_add.
    + exact (eq_trans tk_other st_requests0).
    + by rewrite <- app_assoc.
    + intros E. exfalso. apply Hn. rewrite Hsize, <- E. unfold len. rewrite length_app. lia.
Qed.

(** A turn of the receiver. *)
Lemma client_step (x x' : Exchange) c s cs :
  stands x c s cs -> act ClientTurn x = Some x' ->
  exists c' cs', stands x' c' s cs' /\ (weight (link x') c' s < weight (link x) c s)%nat.
Proof using All.
  intros Hx Ha. destruct c as [| | |got|].
  - eexists _, _. by eapply client_asks.
  - eexists _, _. by eapply client_answered.
  - eexists _, _. by eapply client_creates.
  - destruct (client_receives _ _ _ _ _ Hx Ha) as (c & cs' & _ & Hstep). by eexists _, _.
  - unfold act in Ha. by rewrite (st_client _ _ _ _ Hx) in Ha.
Qed.

(** The calls of the sender. *)
Lemma resume_fresh st t :
  match resume SendFile.handle_stream (st, t) with
  | Some (p, (st', t')) => t' = t /\ exists o, Stream.receive_frame st = (st', Ready o) /\
      (o = Ok (Frame.normal request_frame) -> p = server_future Looking)
  | None => (Stream.receive_frame st).2 = Pending
  end.
Proof using Hcid.
  unfold SendFile.handle_stream, floop.
  erewrite (resume_loop_call _ _ _ (on_first Stream.receive_frame)) by reflexivity.
  unfold on_first. destruct (Stream.receive_frame st) as [st' [o|]]; [|done]. split; [done|].
  exists o. split; [done|]. intros ->. cbn [fthen].
  change (in_loop (SendFile.handle_request (Frame.normal request_frame)) = server_future Looking).
  unfold SendFile.handle_request. change (Frame.payload _) with (UuidV4.to_bytes cid).
  by rewrite cid_read.
Qed.

Lemma resume_looking st t :
  SendFile.get_or_init (SendFile.METADATA_STORE t.2) !! cid = Some md ->
  resume (server_future Looking) (st, t) =
  Some (server_future Answering, (st, (t.1,
    SendFile.mk_Stores (Some (SendFile.get_or_init (SendFile.METADATA_STORE t.2)))
      (SendFile.LOCALPATH_STORE t.2)))).
Proof using Type.
  destruct t as [fs t]. cbn [fst snd]. intros Hmd. unfold server_future, in_loop, fbind, call. cbn [fthen]. rewrite resume_await.
  unfold SendFile.find_metadata. by rewrite Hmd.
Qed.

Lemma resume_answering st t :
  resume (server_future Answering) (st, t) =
  match Stream.send_frame (SendFile.metadata_frame (Stream.stream_id st.1) payload) st with
  | (st', Ready (Ok _)) => Some (server_future Locating, (st', t))
  | (st', Ready (Err _)) => Some (Done (Ok tt), (st', t))
  | (st', Ready Panic) => Some (Done Panic, (st', t))
  | (_, Pending) => None
  end.
Proof using Hpayload.
  unfold server_future, in_loop, SendFile.send_metadata. rewrite Hpayload. unfold fbind, attempt, call.
  cbn [fthen unwrap]. rewrite resume_await. unfold on_first. cbn [fst].
  by destruct (Stream.send_frame _ st) as [st' [[[]| |]|]].
Qed.

Lemma resume_locating st t :
  SendFile.get_or_init (SendFile.LOCALPATH_STORE t.2) !! cid = Some path ->
  resume (server_future Locating) (st, t) =
  Some (server_future Opening, (st, (t.1,
    SendFile.mk_Stores (SendFile.METADATA_STORE t.2)
      (Some (SendFile.get_or_init (SendFile.LOCALPATH_STORE t.2)))))).
Proof using Type.
  destruct t as [fs t]. cbn [fst snd]. intros Hp. unfold server_future, in_loop, SendFile.send_content, fbind, call. cbn [fthen].
  rewrite resume_await. unfold SendFile.find_localpath. by rewrite Hp.
Qed.

Lemma resume_opening st t :
  t.1 !! path = Some file ->
  resume (server_future Opening) (st, t) = Some (server_future (Sending file), (st, t)).
Proof using Type.
  destruct t as [fs t]. cbn [fst]. intros Hf. unfold server_future, in_loop, stream_send_file, fbind, attempt, call. cbn [fthen within_state].
  rewrite resume_await. unfold SendFile.on_files, open_file. by rewrite Hf.
Qed.

Lemma resume_sending rest st t :
  match resume (server_future (Sending rest)) (st, t) with
  | Some (p, (st', t')) => t' = t /\ exists o, send_file_step rest st = (st', Ready o) /\
      (forall rest', o = Ok (Continue rest') -> p = server_future (Sending rest')) /\
      (o = Ok (Break tt) -> p = server_future Waiting)
  | None => (send_file_step rest st).2 = Pending
  end.
Proof using Type.
  unfold server_future at 1, in_loop, floop, attempt. cbn [fthen within_state].
  erewrite (resume_loop_call _ _ _ (SendFile.on_files (on_first (send_file_step rest)))) by reflexivity.
  destruct t as [fs t]. unfold SendFile.on_files, on_first.
  destruct (send_file_step rest st) as [st' [o|]]; [|done]. split; [done|]. exists o.
  split; [done|]. by split; [intros rest'|]; intros ->.
Qed.

(** The sender takes up the request, and otherwise waits for one. *)
Lemma server_asked (x x' : Exchange) c s cs :
  s = Fresh \/ s = Waiting -> stands x c s cs -> act ServerTurn x = Some x' ->
  s = Fresh /\ c = Asked /\ stands x' Asked Looking cs /\
  (weight (link x') Asked Looking < weight (link x) Asked Fresh)%nat.
Proof using All.
  intros Hs Hx Ha. destruct Hx. unfold act in Ha. rewrite st_server0 in Ha.
  replace (server_future s) with (SendFile.handle_stream (Tx := Tx) (Rx := Rx) (W := W)) in Ha
    by by destruct Hs; subst s.
  pose proof (resume_fresh (end_of Server (link x)) (server_data x)) as Hr.
  destruct (resume _ _) as [[p [e t]]|]; [|done]. injection Ha as <-.
  destruct Hr as (-> & o & Hr & Hp).
  destruct (arrived Server (link x)) eqn:Harr.
  2: { destruct (link_wait Server _ st_usable0 Harr) as [Hw _]. by rewrite Hr in Hw. }
  pose proof (link_arrived Server _ st_usable0 Harr) as Hne. cbn [opposite] in Hne.
  rewrite st_requests0 in Hne. destruct c, s; try done; try (by destruct Hs).
  destruct (link_receive Server _ _ _ st_usable0 Harr st_requests0) as (e' & He & []).
  { apply (request_sendable _ st_ident0). }
  rewrite He in Hr. injection Hr as <- <-. rewrite Hp by done.
  do 2 (split; [done|]). split; [|apply weight_drop; cbn [link client_calls server_calls]; lia].
  split; try done; cbn [link].
  - intros d. by rewrite tk_ident.
  - exact (eq_trans tk_other st_answers0).
Qed.

Lemma server_looks (x x' : Exchange) c cs :
  stands x c Looking cs -> act ServerTurn x = Some x' ->
  stands x' c Answering cs /\ (weight (link x') c Answering < weight (link x) c Looking)%nat.
Proof using All.
  intros Hx Ha. destruct Hx. unfold act in Ha. rewrite st_server0, resume_looking, set_end_id in Ha by done.
  injection Ha as <-. split; [|apply weight_drop; cbn; lia]. split; try done. by destruct c.
Qed.

Lemma server_locates (x x' : Exchange) c cs :
  stands x c Locating cs -> act ServerTurn x = Some x' ->
  stands x' c Opening cs /\ (weight (link x') c Opening < weight (link x) c Locating)%nat.
Proof using All.
  intros Hx Ha. destruct Hx. unfold act in Ha. rewrite st_server0, resume_locating, set_end_id in Ha by done.
  injection Ha as <-. split; [|apply weight_drop; cbn; lia]. split; try done; by destruct c.
Qed.

Lemma server_opens (x x' : Exchange) c cs :
  stands x c Opening cs -> act ServerTurn x = Some x' ->
  stands x' c (Sending file) cs /\
  (weight (link x') c (Sending file) < weight (link x) c Opening)%nat.
Proof using All.
  intros Hx Ha. destruct Hx. unfold act in Ha. rewrite st_server0, resume_opening, set_end_id in Ha by done.
  injection Ha as <-. split; [|apply weight_drop; cbn; lia]. split; try done; by destruct c.
Qed.

Lemma server_answers (x x' : Exchange) c cs :
  stands x c Answering cs -> act ServerTurn x = Some x' ->
  stands x' c Locating cs /\ (weight (link x') c Locating < weight (link x) c Answering)%nat.
Proof using All.
  intros Hx Ha. pose proof (no_chunks_before _ _ _ _ Hx eq_refl) as ->. destruct Hx.
  unfold act in Ha. rewrite st_server0, resume_answering in Ha.
  change (Stream.stream_id _) with (ident Server (link x)) in Ha. rewrite st_ident0 in Ha.
  pose proof (link_send Server _ _ st_usable0 (answer_sendable _ st_ident0)) as Hs.
  fold answer_frame in Ha. destruct (Stream.send_frame answer_frame _) as [e [o|]]; [|done].
  destruct Hs as [-> []]. injection Ha as <-. split; [|apply weight_drop; [cbn; lia|done]].
  destruct c; try done. split; try done; cbn [link].
  - intros d. by rewrite ap_ident.
  - exact (eq_trans ap_other st_requests0).
  - by rewrite ap_flow, st_answers0.
Qed.

Lemma server_sends (x x' : Exchange) c rest cs :
  stands x c (Sending rest) cs -> act ServerTurn x = Some x' ->
  exists s' cs', stands x' c s' cs' /\
    (weight (link x') c s' < weight (link x) c (Sending rest))%nat.
Proof using All.
  intros Hx Ha. destruct Hx. unfold act in Ha. rewrite st_server0 in Ha.
  pose proof (resume_sending rest (end_of Server (link x)) (server_data x)) as Hr.
  destruct (resume _ _) as [[p [e t]]|]; [|done]. injection Ha as <-.
  destruct Hr as (-> & o & Hr & Hgo & Hend). destruct rest as [|b rest].
  - rewrite link_send_end in Hr by done. injection Hr as <- <-. rewrite Hend, set_end_id by done.
    exists Waiting, cs. split; [|apply weight_drop; cbn; lia]. split; try done; by destruct c.
  - pose proof (link_send_chunk Server _ (b :: rest) st_usable0 ltac:(done)) as Hs.
    rewrite Hr in Hs. destruct Hs as (chunk & rest' & Hrest & Hne & -> & []).
    rewrite (Hgo rest') by done. exists (Sending rest'), (cs ++ [chunk]).
    assert ((0 < length chunk)%nat) by (destruct chunk; [done|cbn; lia]).
    split; [|apply weight_drop; cbn [link client_calls server_calls]; [rewrite Hrest, length_app|]; lia].
    split; try done; cbn [link].
    + intros d. by rewrite ap_ident.
    + refine (eq_trans (eq_trans ap_other st_requests0) _). by destruct c.
    + rewrite ap_flow, st_answers0, map_app, st_ident0, app_assoc. by destruct c.
    + by destruct c.
    + apply Forall_app. split; [done|]. by constructor.
    + rewrite concat_app, <- app_assoc. cbn [concat unsent]. rewrite app_nil_r, <- Hrest.
      exact st_content0.
Qed.

(** A turn of the sender. *)
Lemma server_step (x x' : Exchange) c s cs :
  stands x c s cs -> act ServerTurn x = Some x' ->
  exists s' cs', stands x' c s' cs' /\ (weight (link x') c s' < weight (link x) c s)%nat.
Proof using All.
  intros Hx Ha. destruct s as [| | | | |rest|].
  - destruct (server_asked _ _ _ _ _ (or_introl eq_refl) Hx Ha) as (_ & -> & Hstep). by eexists _, _.
  - eexists _, _. by eapply server_looks.
  - eexists _, _. by eapply server_answers.
  - eexists _, _. by eapply server_locates.
  - eexists _, _. by eapply server_opens.
  - by eapply server_sends.
  - by destruct (server_asked _ _ _ _ _ (or_intror eq_refl) Hx Ha) as (? & _).
Qed.

(** Every action keeps the programs where they can be, and uses up some weight. *)
Lemma exchange_step (a : action Tx Rx W J) (x x' : Exchange) c s cs :
  stands x c s cs -> act a x = Some x' ->
  exists c' s' cs', stands x' c' s' cs' /\ (weight (link x') c' s' < weight (link x) c s)%nat.
Proof using All.
  intros Hx Ha. destruct a as [| |m].
  - destruct (client_step _ _ _ _ _ Hx Ha) as (c' & cs' & Hstep). by eexists _, _, _.
  - destruct (server_step _ _ _ _ _ Hx Ha) as (s' & cs' & Hstep). by eexists _, _, _.
  - cbn in Ha. destruct (move m (link x)) as [j|] eqn:Hm; [|done]. injection Ha as <-.
    destruct Hx. destruct (link_move _ _ _ st_usable0 Hm) as (Hu & Hf & Hi & He).
    exists c, s, cs. split; [|unfold weight; cbn [link]; lia]. split; try done; cbn [link].
    + intros d. by rewrite Hi.
    + by rewrite Hf.
    + by rewrite Hf.
Qed.

Lemma run_step (l : list (action Tx Rx W J)) (x x' : Exchange) c s cs :
  stands x c s cs -> run l x = Some x' ->
  exists c' s' cs', stands x' c' s' cs' /\
    (length l + weight (link x') c' s' <= weight (link x) c s)%nat.
Proof using All.
  intros Hx Hr.
  destruct (run_measured (fun x n => exists c s cs, stands x c s cs /\ n = weight (link x) c s))
    with (l := l) (x := x) (x' := x') (n := weight (link x) c s) as (n & (c' & s' & cs' & Hx' & ->) & Hn).
  - intros a y y' n (c' & s' & cs' & Hy & ->) Ha.
    destruct (exchange_step _ _ _ _ _ _ Hy Ha) as (c1 & s1 & cs1 & Hy' & Hw).
    exists (weight (link y') c1 s1). split; [by exists c1, s1, cs1|done].
  - by exists c, s, cs.
  - done.
  - by exists c', s', cs'.
Qed.

(** ** Progress *)

(** What the sender has sent reaches the receiver. *)
Lemma answer_enabled (x : Exchange) c s cs :
  stands x c s cs -> flow Server (link x) <> [] -> enabled x.
Proof using All.
  intros Hx Hne. pose proof (no_chunks_before _ _ _ _ Hx) as Hno. destruct Hx.
  destruct (link_progress Server _ st_usable0 Hne) as [Harr|?]; [|by apply movable_enabled].
  cbn [opposite] in Harr. apply client_enabled. rewrite st_client0. destruct c as [| | |got|].
  - subst s. by rewrite st_answers0, Hno in Hne.
  - destruct (past_answer s) eqn:Hp; cbn [answers] in st_answers0; rewrite Hp in st_answers0;
      [|by rewrite st_answers0, Hno in Hne].
    destruct (link_receive Client _ _ _ st_usable0 Harr st_answers0) as (e & He & _);
      [apply (answer_sendable _ st_ident0)|].
    pose proof (resume_asked (end_of Client (link x)) (client_data x)) as Hr.
    destruct (resume _ _); [done|]. by rewrite He in Hr.
  - done.
  - destruct cs as [|chunk cs]; [done|]. inversion st_chunks0 as [|? ? Hc _]; subst.
    destruct (link_receive_chunk Client _ _ _ _ save (FileMetadata.size md) (len got) (client_data x)
      st_usable0 Harr st_answers0 Hc) as (e & He & _).
    rewrite resume_receiving, He. by destruct (_ =? _).
  - rewrite st_answers0 in Hne. destruct cs as [|chunk cs]; [done|].
    inversion st_chunks0 as [|? ? Hc _]; subst. exfalso. apply (f_equal length) in st_content0.
    cbn in st_content0. rewrite !length_app in st_content0. destruct chunk; [done|cbn in *; lia].
Qed.

(** When the link is empty the sender can go on, if it has something to send. *)
Lemma sender_enabled (x : Exchange) c s cs :
  stands x c s cs -> flow Server (link x) = [] -> s <> Fresh -> s <> Waiting -> enabled x.
Proof using All.
  intros Hx Hflow Hf Hw. destruct Hx.
  assert (Hblocked : flow Server (link x) <> [] \/ movable (link x) -> enabled x)
    by (intros [|?]; [done|by apply movable_enabled]).
  destruct s as [| | | | |rest|]; try done.
  - apply server_enabled. by rewrite st_server0, resume_looking.
  - pose proof (link_send Server _ _ st_usable0 (answer_sendable _ st_ident0)) as Hs.
    destruct (Stream.send_frame answer_frame _) as [e [o|]] eqn:He; [|by apply Hblocked].
    destruct Hs as [-> _]. apply server_enabled. rewrite st_server0, resume_answering.
    change (Stream.stream_id _) with (ident Server (link x)). rewrite st_ident0. fold answer_frame.
    by rewrite He.
  - apply server_enabled. by rewrite st_server0, resume_locating.
  - apply server_enabled. by rewrite st_server0, resume_opening.
  - pose proof (resume_sending rest (end_of Server (link x)) (server_data x)) as Hr.
    destruct (resume _ _) eqn:E; [apply server_enabled; by rewrite st_server0, E|].
    destruct rest as [|b rest]; [by rewrite link_send_end in Hr|].
    pose proof (link_send_chunk Server _ (b :: rest) st_usable0 ltac:(done)) as Hs.
    destruct (send_file_step _ _) as [e [o|]]; [done|]. by apply Hblocked.
Qed.

(** The request can be made, and reaches the sender. *)
Lemma request_enabled (x : Exchange) c cs :
  stands x c Fresh cs -> enabled x.
Proof using All.
  intros Hx. destruct Hx. destruct c as [| | | |]; try done.
  - pose proof (link_send Client _ _ st_usable0 (request_sendable _ st_ident0)) as Hs.
    destruct (Stream.send_frame request_frame _) as [e [o|]] eqn:He.
    + destruct Hs as [-> _]. apply client_enabled. rewrite st_client0, resume_asking.
      change (Stream.stream_id _) with (ident Client (link x)). rewrite st_ident0. fold request_frame.
      by rewrite He.
    + destruct Hs as [Hne|?]; [by rewrite st_requests0 in Hne|by apply movable_enabled].
  - assert (Hne : flow Client (link x) <> []) by by rewrite st_requests0.
    destruct (link_progress Client _ st_usable0 Hne) as [Harr|?]; [|by apply movable_enabled].
    destruct (link_receive Server _ _ _ st_usable0 Harr st_requests0) as (e & He & _);
      [apply (request_sendable _ st_ident0)|].
    pose proof (resume_fresh (end_of Server (link x)) (server_data x)) as Hr.
    apply server_enabled. rewrite st_server0. unfold server_future.
    destruct (resume _ _); [done|]. by rewrite He in Hr.
Qed.

(** As long as the receiver is not done there is something that can happen. *)
Lemma exchange_progress (x : Exchange) c s cs :
  stands x c s cs -> file <> [] -> c <> Finished -> enabled x.
Proof using All.
  intros Hx Hfile Hc.
  destruct (decide (length (flow Server (link x)) = 0%nat)) as [Hl%length_zero_iff_nil|Hl];
    [|apply (answer_enabled x c s cs Hx); by destruct (flow Server (link x))].
  destruct s as [| | | | |rest|]; try by eapply sender_enabled.
  - by eapply request_enabled.
  - destruct Hx. rewrite st_answers0 in Hl. destruct c as [| | |got|]; try done.
    + apply client_enabled. by rewrite st_client0.
    + destruct cs; [|done]. cbn in st_content0. rewrite app_nil_r in st_content0.
      by apply st_partial0 in st_content0.
Qed.

End positions.

Arguments st_client {Tx Rx W J _ _ _ _ _ _ is_dir cid md args_path path file payload fs0 j0 x c s cs}.
Arguments st_partial {Tx Rx W J _ _ _ _ _ _ is_dir cid md args_path path file payload fs0 j0 x c s cs}.
Arguments st_saved {Tx Rx W J _ _ _ _ _ _ is_dir cid md args_path path file payload fs0 j0 x c s cs}.

(** ** The outcome *)

Section transfers.

Context {Tx Rx W J : Type} `{MessageSink Tx} `{MessageSource Rx} `{StreamHost W} `{FileRead}.
Context `{!StreamLink Tx Rx W J} `{!LinkLaws Tx Rx W J} `{!Bincode FileMetadata.t}.

Abbreviation Exchange := (Peers Tx Rx W J Fs (Fs * SendFile.Stores) (Z * string) unit).

(** The programs stand at their beginnings. *)
Lemma start_stands (is_dir : string -> bool) (cid : ContentId) (md : FileMetadata.t)
    (args_path path : string) (file payload : bytes) (j : J) (cfs sfs : Fs) (st : SendFile.Stores) :
  fresh_link j -> SendFile.get_or_init (SendFile.METADATA_STORE st) !! cid = Some md ->
  SendFile.get_or_init (SendFile.LOCALPATH_STORE st) !! cid = Some path -> sfs !! path = Some file ->
  stands is_dir cid md args_path path file payload cfs j
    (start is_dir cid args_path j cfs sfs st) Asking Fresh [].
Proof using Type.
  intros [Hu Hj] Hmd Hp Hf. split; try done; apply Hj.
Qed.

Lemma done_finished (is_dir : string -> bool) (cid : ContentId) (md : FileMetadata.t)
    (args_path : string) (file : bytes) (c : client_at) (o : outcome error (Z * string)) :
  is_done (client_future (Tx := Tx) (Rx := Rx) (W := W) is_dir cid md args_path file c) = Some o ->
  c = Finished /\ o = Ok (len file, save is_dir md args_path).
Proof using Type. destruct c; try done. by intros [= <-]. Qed.

(** What every run of the exchange leads to.  The number of actions is bounded; when
    the file is not empty there is a next one until the receiver is done; when it is
    done the file is not empty, and it has arrived. *)
Definition outcome_of (is_dir : string -> bool) (args_path name : string) (file : bytes)
    (cfs : Fs) (bound : nat) (l : list (action Tx Rx W J)) (x : Exchange) : Prop :=
  let path := ReceiveFile.saved_at is_dir args_path name in
  (length l <= bound)%nat /\
  (file <> [] -> is_done (client x) = None -> exists a x', act a x = Some x') /\
  (forall o, is_done (client x) = Some o ->
     file <> [] /\ o = Ok (len file, path) /\ client_data x !! path = Some file) /\
  (forall p, p <> path -> client_data x !! p = cfs !! p).

Lemma exchange_outcome (is_dir : string -> bool) (cid : ContentId) (md : FileMetadata.t)
    (args_path : string) (file payload : bytes) (j : J) (cfs sfs : Fs) (st : SendFile.Stores)
    (l : list (action Tx Rx W J)) (x : Exchange) :
  UuidV4.wf cid = true -> fresh_link j -> offered cid st sfs md file ->
  FileMetadata.to_bytes md = Ok payload -> 14 + len payload <= MAX_MESSAGE ->
  run l (start is_dir cid args_path j cfs sfs st) = Some x ->
  outcome_of is_dir args_path (FileMetadata.name md) file cfs
    ((hops + 1) * (9 + 2 * length file) + effort j) l x.
Proof using All.
  intros Hcid Hfresh (Hmd & Hsize & sp & Hsp & Hf) Hpayload Hfits Hrun.
  pose proof (start_stands is_dir cid md args_path sp file payload j cfs sfs st Hfresh Hmd Hsp Hf) as Hx.
  destruct (run_step is_dir cid md args_path sp file payload cfs j Hcid (fun d => proj2 (proj2 Hfresh d))
    Hpayload Hfits Hsize l _ _ _ _ _ Hx Hrun) as (c & s & cs & Hx' & Hw). unfold outcome_of.
  split_and!; [unfold weight in Hw; cbn [start link client_calls server_calls] in Hw; lia| | |apply Hx'].
  - intros Hfile Hd. eapply exchange_progress; [exact Hcid|apply Hfresh|exact Hpayload|exact Hfits
      |exact Hsize|exact Hx'|exact Hfile|]. intros ->. by rewrite (st_client Hx') in Hd.
  - intros o Ho. rewrite (st_client Hx') in Ho. apply done_finished in Ho as [-> ->].
    split; [apply (st_partial Hx')|]. split; [done|]. apply (st_saved Hx').
Qed.

End transfers.
