(* ===== verification/FileTransfer.v ===== *)
(** * File transfers over TCP and over QUIC

    The exchange of [Exchange] on the two kinds of link: over TCP from two idle
    sessions on, with the handshake that opens the stream, and over QUIC.  Also
    what the sender announces, and where the receiver writes. *)

From S2P Require Import Prelude Text Key X509 Tls Config Ids Ip Node Dns Device Frame Codec Tokio Files.
From S2P Require Import Hash Metadata MuxStream MuxSession MuxInvariant MuxProtocol TcpStream QuicStream.
From S2P Require Import Connection Transport Endpoints Paths Futures Handles Links SessionLink QuicLink.
From S2P Require Import Transfer Peers Exchange.
Import MuxSession.World.

Local Open Scope Z_scope.

(** ** A stream that has just been opened *)

(** What the handshake leaves alone. *)
Definition same_io (w w' : World.t) : Prop :=
  running w' = running w /\ incoming w' = incoming w /\ World.events w' = World.events w /\
  FramedWriter.state (framed_writer w') = FramedWriter.state (framed_writer w).

Lemma forward_io (w w1 w2 : World.t) (k : nat) (resp reply : OneshotId) (ls : LogicalStream.t) m r :
  tasks w !! k = Some (resp, reply) ->
  responses w !! resp = Some (Oneshot.mk (Some (Ok ls)) false true) ->
  replies w = <[reply := Oneshot.channel]> m ->
  run_task k w = Some w1 -> Session.open_stream_reply reply w1 = (w2, r) -> same_io w w2.
Proof.
  intros Hk Hr Hm. unfold run_task, forward. rewrite Hk, Hr. simpl.
  unfold reply_send, answer. simpl. rewrite Hm, lookup_insert_eq. simpl. intros [= <-].
  unfold Session.open_stream_reply, abind, Session.await_reply. simpl.
  rewrite lookup_insert_eq. simpl. by intros [= <- _].
Qed.

Lemma handshake_io {L : Type} `{FramedLink L} (l : L) (w v w' v' : World.t) (ours theirs : LogicalStream.t) :
  can_open w v -> open_handshake l w v = Some (w', v', ours, theirs) ->
  same_io w w' /\ same_io v v'.
Proof.
  intros Hcan. pose proof (co_ask _ _ Hcan) as Hask. destruct (request_turn w Hask) as (w1 & E1 & E2).
  destruct (answered_fields w Hask (co_mine _ _ Hcan)) as (Et & Er & Ep & _).
  unfold open_handshake. rewrite E1, E2, bind_Some_l.
  rewrite (request_carried l w v Hask (co_incoming _ _ Hcan)), bind_Some_l.
  rewrite (accept_turn w v Hcan), bind_Some_l.
  rewrite (response_carried l w v _ Hask (ca_id _ Hask)), bind_Some_l.
  rewrite (response_turn w Hask (co_mine _ _ Hcan)), bind_Some_l.
  destruct (run_task _ _) as [w5|] eqn:E5; [|done]. rewrite bind_Some_l.
  destruct (Session.accept_stream _) as [v3 [[?| |]|]] eqn:E3; try done.
  destruct (Session.open_stream_reply _ _) as [w6 [[?| |]|]] eqn:E6; try done. intros [= <- <- _ _].
  unfold same_io. split.
  - destruct (forward_io (answered w) w5 w6 _ _ _ _ _ _ ltac:(rewrite Et; by apply list_lookup_middle)
      Er Ep E5 E6) as (-> & -> & -> & ->).
    unfold answered. rewrite register_new by apply Hcan.
    rewrite (response_send_waiting _ _ _ Oneshot.channel) by (done || apply lookup_insert_eq).
    split_and!; [reflexivity..|]. symmetry. exact (ca_writer _ Hask).
  - revert E3. unfold Session.accept_stream, accepted. rewrite register_new by apply Hcan.
    destruct (Mpsc.try_recv _) as [? ch| |]; [|discriminate..]. intros E3.
    apply (f_equal fst) in E3. cbn [fst] in E3. subst v3.
    split_and!; [reflexivity..|]. symmetry. exact (co_writer _ _ Hcan).
Qed.

(** The events of an idle session. *)
Definition no_events (w : World.t) : Prop :=
  Mpsc.queue (World.events w) = [] /\ Mpsc.rx_alive (World.events w) = true /\
  (0 < Mpsc.capacity (World.events w))%nat.

Section opened.

Context {Tx Rx L : Type} `{MessageSink Tx} `{MessageSource Rx} `{FileRead} `{FramedLink L} (l : L).
Context `{StackAddrLib} `{ConnLib}.

(** The stream that [open_stream] or [accept_stream] of a TCP connection gives, in its
    session: nothing that the session has written is still to cross. *)
Definition opened_half (conn : TcpConnection.t) (ls : LogicalStream.t) (w : World.t) : half Tx Rx :=
  mk_half (TcpConnection.tcp_stream conn ls) w (written_count w).

(** Buffers whose chunks fit a frame. *)
Definition buffer_fits (conn : TcpConnection.t) : Prop :=
  0 < TcpConnection.write_buffer_size conn <= u32_max.

Lemma opened_half_ok (conn : TcpConnection.t) (w : World.t) (sid : SessionId.t) (id : StreamId.t)
    (c : ChanId) :
  buffer_fits conn -> running w = true -> FramedWriter.state (framed_writer w) = FramedWriter.Open ->
  incoming w = [] -> no_events w -> streams w !! id = Some c ->
  World.chans w !! c = Some (Mpsc.channel 32) ->
  let a := opened_half conn (LogicalStream.new sid id Established c) w in
  half_ok id a /\ inbound a = [] /\ outbound a = [] /\ half_effort a = 0%nat.
Proof using Type.
  intros Hb Hrun Hopen Hin (Hq & Hrx & Hcap) Hs Hc a.
  assert (Hw : wire_of a = []) by (unfold wire_of; cbn; apply drop_ge; done).
  assert (Hch : chan_of a = Mpsc.channel 32).
  { unfold chan_of. cbn. change (frames w c = Mpsc.channel 32). unfold frames. cbn. by rewrite Hc. }
  split_and!.
  - split; try done.
    + eexists _, _, _. split; [done|]. split_and!; try done; try apply Hb. cbn. lia.
    + cbn. by rewrite Hq.
    + by rewrite Hw.
    + cbn. by rewrite Hin.
    + by rewrite Hch.
  - unfold inbound. rewrite Hch. cbn. by rewrite Hin.
  - unfold outbound. rewrite Hw. cbn. by rewrite Hq.
  - unfold half_effort. rewrite Hw. cbn. by rewrite Hq, Hin.
Qed.

Lemma opened_link_fresh (cconn sconn : TcpConnection.t) (w v w' v' : World.t)
    (ours theirs : LogicalStream.t) :
  can_open w v -> no_events w -> no_events v -> buffer_fits cconn -> buffer_fits sconn ->
  open_handshake l w v = Some (w', v', ours, theirs) ->
  let j := (opened_half cconn ours w', opened_half sconn theirs v') in
  fresh_link (StreamLink0 := session_link l) j /\ effort (StreamLink := session_link l) j = 0%nat.
Proof using Type.
  intros Hcan Hw Hv Hc Hs Hhs j. pose proof (co_ask _ _ Hcan) as Hask.
  destruct (handshake_io l _ _ _ _ _ _ Hcan Hhs) as [(Rw & Iw & Ew & Fw) (Rv & Iv & Ev & Fv)].
  destruct (open_handshake_establishes l w v Hcan) as (w2 & v2 & c & c' & E & Sw & Sv & Cw & Cv & _).
  rewrite Hhs in E. injection E as <- <- -> ->.
  set (id := SessionActor.next_stream_id (actor w)) in *.
  destruct (opened_half_ok cconn w' (SessionActor.session_id (actor w)) id c Hc)
    as (Ow & Nw & Uw & Gw);
    [by rewrite Rw; apply Hask|by rewrite Fw; apply Hask|by rewrite Iw; apply Hask
    |by unfold no_events; rewrite Ew|by rewrite Sw; apply lookup_insert_eq|done|].
  destruct (opened_half_ok sconn v' (SessionActor.session_id (actor v)) id c' Hs)
    as (Ov & Nv & Uv & Gv);
    [by rewrite Rv; apply Hcan|by rewrite Fv; apply Hcan|by rewrite Iv; apply Hcan
    |by unfold no_events; rewrite Ev|by rewrite Sv; apply lookup_insert_eq|done|].
  split; [split|].
  - exists id. split; [apply Hask|]. by intros [].
  - intros d. split.
    + change (map Frame.normal (inbound (half_of (opposite d) j) ++ outbound (half_of d j)) = []).
      destruct d; cbn [half_of opposite fst snd j]; [by rewrite Nv, Uw|by rewrite Nw, Uv].
    + destruct d; apply Hask.
  - change (half_effort j.1 + half_effort j.2 = 0)%nat. cbn [fst snd j]. by rewrite Gw, Gv.
Qed.

End opened.

(** ** Properties *)

(** C1: A file crosses TCP, whatever happens in between.  From two idle sessions that open a
    stream, over any link that carries bytes faithfully, with the receiver, the task of
    the sender, the two session actors and the network moving in any order: the number of
    moves is bounded by the size of the file; as long as the receiver is not done there is a
    next one, unless the file is empty; and a receiver that is done has succeeded, with
    exactly the bytes of the file at the path it reports, and no other file changed.  So an
    empty file is never received: the receiver waits for a chunk that is not sent. *)
Theorem tcp_file_transfer {Tx Rx L : Type} `{MessageSink Tx} `{MessageSource Rx} `{FileRead}
    `{FramedLink L} `{StackAddrLib} `{ConnLib} `{!Bincode FileMetadata.t} (l : L)
    (cconn sconn : TcpConnection.t) (w v w' v' : World.t) (ours theirs : LogicalStream.t)
    (is_dir : string -> bool) (cid : ContentId) (md : FileMetadata.t) (args_path : string)
    (file payload : bytes) (cfs sfs : Fs) (st : SendFile.Stores) (acts : list (action Tx Rx _ _))
    (x : Peers Tx Rx World.t _ Fs (Fs * SendFile.Stores) (Z * string) unit) (Hopen : can_open w v) (Hw : no_events w) (Hv : no_events v)
    (Hc : buffer_fits cconn) (Hs : buffer_fits sconn)
    (Hhs : open_handshake l w v = Some (w', v', ours, theirs)) (Hcid : UuidV4.wf cid = true)
    (Hoffer : offered cid st sfs md file) (Hpayload : FileMetadata.to_bytes md = Ok payload)
    (Hfits : 14 + len payload <= MAX_MESSAGE)
    (Hrun : Peers.run (StreamLink0 := session_link l) acts
       (start is_dir cid args_path (opened_half cconn ours w', opened_half sconn theirs v') cfs sfs st) =
     Some x) :
  outcome_of is_dir args_path (FileMetadata.name md) file cfs (4 * (9 + 2 * length file)) acts x.
Proof.
  destruct (opened_link_fresh (Tx := Tx) (Rx := Rx) l cconn sconn w v w' v' ours theirs) as [Hf He]; try done.
  pose proof (exchange_outcome is_dir cid md args_path file payload _ cfs sfs st acts x Hcid Hf
    Hoffer Hpayload Hfits Hrun) as Ho.
  by rewrite He, Nat.add_0_r in Ho.
Qed.

(** C6: A file crosses QUIC, whatever happens in between.  As over TCP, with the receiver and
    the task of the sender at the two ends of an open QUIC stream on which nothing has
    been sent, while messages arrive and acknowledgements come back in any order: every run is
    bounded, goes on until the receiver is done unless the file is empty, and ends with the
    file at the path that the receiver reports.  The metadata has the size of
    the file, but its hash may be any: the receiver does not compare. *)
Theorem quic_file_transfer_end_to_end {Tx Rx W : Type} `{QuicPipeLaws Tx Rx} `{StreamHost W} `{FileRead}
    `{!Bincode FileMetadata.t} (c s : qhalf Tx Rx W)
    (is_dir : string -> bool) (cid : ContentId) (md : FileMetadata.t) (args_path : string)
    (file payload : bytes) (cfs sfs : Fs) (st : SendFile.Stores) (acts : list (action Tx Rx _ _))
    (x : Peers Tx Rx W _ Fs (Fs * SendFile.Stores) (Z * string) unit) (Hfresh : fresh_link (c, s))
    (Hcid : UuidV4.wf cid = true) (Hoffer : offered cid st sfs md file)
    (Hpayload : FileMetadata.to_bytes md = Ok payload) (Hfits : 14 + len payload <= MAX_MESSAGE)
    (Hrun : Peers.run acts (start is_dir cid args_path (c, s) cfs sfs st) = Some x) :
  outcome_of is_dir args_path (FileMetadata.name md) file cfs
    (3 * (9 + 2 * length file) + effort (c, s)) acts x.
Proof.
  exact (exchange_outcome is_dir cid md args_path file payload (c, s) cfs sfs st acts x Hcid Hfresh
    Hoffer Hpayload Hfits Hrun).
Qed.

(** The hash of a file is that of its content, however it is computed. *)
Lemma file_hash_content `{Blake3} (self : Blake3Hasher.t) (parallelism : outcome error Z) (fs : Fs)
    (path : string) (content : bytes) (h : Blake3Hash.t) :
  fs !! path = Some content -> Blake3Hasher.calculate_file_hash self parallelism fs path = Ok h ->
  h = Blake3Hash.mk (finalize (Hash.update Hasher_new content)).
Proof.
  intros Hf. unfold Blake3Hasher.calculate_file_hash, Blake3Hasher.calc_file_hash_mmap_multithread,
    Blake3Hasher.calc_file_hash_mmap, Blake3Hasher.calc_file_hash, Blake3Hasher.file_content.
  rewrite Hf. cbn [ok_or outcome_bind].
  rewrite update_reader_spec, update_mmap_spec, update_mmap_rayon_spec.
  destruct (_ <? _); [|by intros [= <-]]. destruct parallelism as [p| |]; [|done..]. cbn [outcome_bind].
  destruct (1 <? p); by intros [= <-].
Qed.

Lemma file_metadata_content `{Blake3} (parallelism : outcome error Z) (fs : Fs) (path : string)
    (md : FileMetadata.t) :
  get_file_metadata parallelism fs path = Ok md ->
  exists content, fs !! path = Some content /\
    md = FileMetadata.mk (default "" (file_name path)) (len content)
           (Blake3Hash.mk (finalize (Hash.update Hasher_new content))).
Proof.
  unfold get_file_metadata. destruct (fs !! path) as [content|] eqn:Hf; [|done].
  intros E. read_ok E. exists content. split; [done|].
  by rewrite (file_hash_content _ _ _ _ _ _ Hf E0) in E; injection E as <-.
Qed.

(** C16: The ticket leads to the file.  When the sender has started, the ticket it prints
    decodes to the address of its endpoint and a content identifier of 16 bytes, under which
    it offers the file that it was started with, with its name, its length and its BLAKE3
    hash; so a receiver that is given the ticket and gets a connection, to whichever
    address, asks for that file. *)
Theorem ticket_leads_to_file `{Ed25519} `{Base32} `{X509Lib} `{QuinnLib} `{StackAddrLib} `{DnsLib}
    `{NetLib} `{IpNetLib} `{Blake3} `{!Bincode TransferTicket.t}
    (parse_addr : string -> outcome error StackAddr) (args : SendFile.Args)
    (keypair0 keypair : Keypair.t) (keys0 keys : outcome error CertKey * outcome error CertKey)
    (iface : outcome error Interface.t) (n : Net) (parallelism : outcome error Z) (unique_id : bytes)
    (fs : Fs) (ep : Endpoint.t) (system : System) (stores : SendFile.Stores) (ticket : string)
    (Hsetup : SendFile.setup parse_addr args keypair0 keys0 keypair keys iface n parallelism unique_id fs =
       Ok (ep, system, stores, ticket)) :
  exists cid md file,
    TransferTicket.from_base32 ticket = Ok (TransferTicket.new (Endpoint.node_addr ep) cid) /\
    UuidV4.wf cid = true /\ fs !! SendFile.file_path args = Some file /\
    offered cid stores fs md file /\
    md = FileMetadata.mk (default "" (file_name (SendFile.file_path args))) (len file)
           (Blake3Hash.mk (finalize (Hash.update Hasher_new file))) /\
    (forall save lo kp0 ks0 kp ks iface' n0 n' cid' conn,
       ReceiveFile.connect (ReceiveFile.mk_Args ticket lo save) kp0 ks0 kp ks iface' n0 =
         (n', Ok (cid', conn)) -> cid' = cid).
Proof.
  unfold SendFile.setup in Hsetup. read_ok Hsetup. read_ok Hsetup. destruct a0 as [ep' sys'].
  read_ok Hsetup. read_ok Hsetup. read_ok Hsetup. injection Hsetup as -> _ <- ->.
  destruct (file_metadata_content _ _ _ _ E1) as (file & Hf & ->).
  assert (Hid : UuidV4.wf a1 = true).
  { unfold UuidV4.new, copy_from_slice in E2. unfold UuidV4.wf.
    destruct (len unique_id =? _) eqn:El; [|done]. by injection E2 as <-. }
  pose proof (of_base32_of _ _ E3) as Hticket. eexists a1, _, file.
  split; [exact Hticket|]. split; [done|]. split; [done|]. split; [|split; [done|]].
  - split; [apply lookup_insert_eq|]. split; [done|]. eexists. split; [apply lookup_insert_eq|done].
  - intros save lo kp0 ks0 kp ks iface' n0 n' cid' conn. unfold ReceiveFile.connect, tbind, tlift.
    cbn [ReceiveFile.ticket]. unfold TransferTicket.from_base32. rewrite Hticket. intros Hc.
    destruct (ReceiveFile.endpoint_builder _ _ _ _ _) as [b| |]; [|discriminate..].
    destruct (EndpointBuilder.build b iface' n0) as [[e s]| |]; [|discriminate..].
    destruct (Endpoint.connect_node _ _ _) as [[? ?] [c| |]]; [|discriminate..].
    by injection Hc.
Qed.

(** C17: The sender has a say in where the file is written.  A receiver that was told to save
    into a directory and is done has the file directly in that directory when the name in
    the metadata is the name of a file, as [get_file_metadata] fills it in; but when the name
    is an absolute path, the file is at that path, wherever that is. *)
Theorem receiver_trusts_the_name {Tx Rx W J : Type} `{MessageSink Tx} `{MessageSource Rx} `{StreamHost W}
    `{FileRead} `{!StreamLink Tx Rx W J} `{!LinkLaws Tx Rx W J} `{!Bincode FileMetadata.t}
    (is_dir : string -> bool) (cid : ContentId) (md : FileMetadata.t) (args_path : string)
    (file payload : bytes) (j : J) (cfs sfs : Fs) (st : SendFile.Stores) (acts : list (action Tx Rx _ _))
    (x : Peers Tx Rx W _ Fs (Fs * SendFile.Stores) (Z * string) unit) (o : outcome error (Z * string))
    (Hcid : UuidV4.wf cid = true) (Hfresh : fresh_link j) (Hoffer : offered cid st sfs md file)
    (Hpayload : FileMetadata.to_bytes md = Ok payload) (Hfits : 14 + len payload <= MAX_MESSAGE)
    (Hrun : Peers.run acts (start is_dir cid args_path j cfs sfs st) = Some x)
    (Hdone : is_done (client x) = Some o) (Hdir : is_dir args_path = true) :
  exists path, o = Ok (len file, path) /\ client_data x !! path = Some file /\
    (forall p, file_name p = Some (FileMetadata.name md) ->
       components path = components args_path ++ [FileMetadata.name md]) /\
    (is_absolute (FileMetadata.name md) = true -> path = FileMetadata.name md).
Proof.
  destruct (exchange_outcome is_dir cid md args_path file payload j cfs sfs st acts x Hcid Hfresh
    Hoffer Hpayload Hfits Hrun) as (_ & _ & Hd & _).
  destruct (Hd o Hdone) as (_ & -> & Hfs). eexists. split; [done|]. split; [exact Hfs|].
  unfold ReceiveFile.saved_at. rewrite Hdir. split.
  - intros p Hp. destruct (file_name_component _ _ Hp) as [Hc _].
    rewrite components_push by by apply component_relative. by rewrite (components_single _ Hc).
  - intros Habs. unfold push. by rewrite Habs.
Qed.

(** ** Witnesses: a sender with one file, over TCP and over QUIC *)

(** A codec that knows a single value. *)
Section one_value.

Context {A : Type} `{EqDecision A} (x0 : A).

Definition encode_one (x : A) : outcome error bytes :=
  if decide (x = x0) then Ok [byte_of 1] else Err (Anyhow "unknown value").

Definition decode_one (bs : bytes) : outcome error (A * Z) :=
  match bs with
  | [] => Err (Anyhow "unexpected end")
  | _ => Ok (x0, 1)
  end.

Lemma decode_encode_one (x : A) (bs rest : bytes) :
  encode_one x = Ok bs -> decode_one (bs ++ rest) = Ok (x, len bs).
Proof. unfold encode_one. case_decide; [|done]. subst x. by intros [= <-]. Qed.

Definition one_value : Bincode A := {|
  encode_to_vec := encode_one;
  decode_from_slice := decode_one;
  bincode_decode_encode := decode_encode_one
|}.

End one_value.

#[local] Instance file_metadata_eq_dec : EqDecision FileMetadata.t.
Proof. solve_decision. Defined.

Definition demo_file : bytes := map byte_of [1; 2; 3].

Definition demo_md (name : string) (size : Z) : FileMetadata.t := FileMetadata.mk name size Blake3Hash.zero.

Definition demo_cid : ContentId := UuidV4.zero.

Definition demo_stores (md : FileMetadata.t) : SendFile.Stores :=
  SendFile.register demo_cid md "/srv/f.bin" SendFile.no_stores.

Definition demo_fs (file : bytes) : Fs := {[ "/srv/f.bin" := file ]}.

Definition in_is_dir (path : string) : bool := bool_decide (path = "in").

Lemma demo_offered (name : string) (file : bytes) :
  offered demo_cid (demo_stores (demo_md name (len file))) (demo_fs file) (demo_md name (len file)) file.
Proof.
  split; [apply lookup_insert_eq|]. split; [done|]. exists "/srv/f.bin".
  split; [apply lookup_insert_eq|apply lookup_singleton_eq].
Qed.

Lemma demo_payload (md : FileMetadata.t) :
  FileMetadata.to_bytes (H := one_value md) md = Ok [byte_of 1].
Proof. unfold FileMetadata.to_bytes. cbn. unfold encode_one. by rewrite decide_True. Qed.

#[local] Existing Instance full_reads.
#[local] Existing Instance list_stacks.
#[local] Existing Instance queue_sink.
#[local] Existing Instance queue_source.
#[local] Existing Instance queue_quinn.

Definition demo_tcp (d : Direction) : TcpConnection.t :=
  TcpConnection.new d addr_empty addr_empty (Session.new_client demo_tls_stream (SessionId.mk 1)).1.

Definition demo_tcp_link : half (list bytes) (list bytes) * half (list bytes) (list bytes) :=
  (opened_half (demo_tcp Outgoing) ours1 client1, opened_half (demo_tcp Incoming) theirs1 server1).

Definition demo_session_link :
    StreamLink (list bytes) (list bytes) World.t (half (list bytes) (list bytes) * half (list bytes) (list bytes)) :=
  session_link bytewise.

Definition tcp_choices : list (action _ _ _ _ (StreamLink0 := demo_session_link)) :=
  [ClientTurn; ServerTurn] ++ map (Between (StreamLink0 := demo_session_link))
    [TakesEvent Client; TakesEvent Server; Crosses Client; Crosses Server; TakesFrame Client;
     TakesFrame Server].

(** The receiver saves into the directory [in], whatever the metadata [md] say. *)
Definition demo_tcp_run (md : FileMetadata.t) (file : bytes) :=
  drive (StreamLink0 := demo_session_link) 60 tcp_choices
    (start (Bincode0 := one_value md) in_is_dir demo_cid "in"
      demo_tcp_link ∅ (demo_fs file) (demo_stores md)).

Lemma demo_opened : open_handshake bytewise client0 server0 = Some (client1, server1, ours1, theirs1).
Proof.
  assert (E : open_handshake bytewise client0 server0 = Some (opened client0 server0))
    by (apply default_Some; vm_compute; reflexivity).
  rewrite E. unfold client1, server1, ours1, theirs1. by destruct (opened client0 server0) as [[[w v] a] b].
Qed.

Lemma demo_can_open : can_open client0 server0.
Proof. split; [apply can_ask_client0|..]; vm_compute; first [reflexivity | lia]. Qed.

Lemma demo_no_events : no_events client0 /\ no_events server0.
Proof. split; split_and!; vm_compute; first [reflexivity | lia]. Qed.

Lemma demo_buffer (d : Direction) : buffer_fits (demo_tcp d).
Proof. by unfold buffer_fits. Qed.

Lemma tcp_file_transfer_witness :
  is_done (client (demo_tcp_run (demo_md "f.bin" 3) demo_file).2) = Some (Ok (3, "in/f.bin")) /\
  client_data (demo_tcp_run (demo_md "f.bin" 3) demo_file).2 !! "in/f.bin" = Some demo_file /\
  is_done (client (demo_tcp_run (demo_md "f.bin" 0) []).2) = None.
Proof.
  assert (Hd : is_done (client (demo_tcp_run (demo_md "f.bin" 3) demo_file).2) = Some (Ok (3, "in/f.bin")))
    by (vm_compute; reflexivity).
  assert (Ht : forall file, outcome_of in_is_dir "in" "f.bin" file ∅ (4 * (9 + 2 * length file))
    (demo_tcp_run (demo_md "f.bin" (len file)) file).1 (demo_tcp_run (demo_md "f.bin" (len file)) file).2
    (StreamLink0 := demo_session_link)).
  { intros file.
    exact (tcp_file_transfer (Bincode0 := one_value (demo_md "f.bin" (len file))) bytewise
      (demo_tcp Outgoing) (demo_tcp Incoming) client0 server0 client1 server1 ours1 theirs1
      in_is_dir demo_cid (demo_md "f.bin" (len file)) "in" file [byte_of 1] ∅ (demo_fs file)
      (demo_stores (demo_md "f.bin" (len file))) (demo_tcp_run (demo_md "f.bin" (len file)) file).1
      (demo_tcp_run (demo_md "f.bin" (len file)) file).2 demo_can_open (proj1 demo_no_events)
      (proj2 demo_no_events) (demo_buffer _) (demo_buffer _) demo_opened eq_refl
      (demo_offered "f.bin" file) (demo_payload _) ltac:(done) (drive_run _ _ _)). }
  split; [exact Hd|]. destruct (Ht demo_file) as (_ & _ & Hf & _).
  split; [by destruct (Hf _ Hd) as (_ & _ & ?)|].
  destruct (Ht []) as (_ & _ & He & _).
  destruct (is_done (client (demo_tcp_run (demo_md "f.bin" 0) []).2)) as [o|] eqn:E; [|done].
  by destruct (He o E) as [? _].
Defined.

(** A QUIC connection that lets two messages be unread at a time. *)
Record window : Type := mk_window {
  w_sent : list bytes;
  w_unread : nat
}.

#[local] Instance window_sink : MessageSink window := {|
  sink_send := fun m t =>
    if MAX_MESSAGE <? len m then (t, Ready (Err (Anyhow "frame size too big")))
    else if Nat.ltb (w_unread t) 2 then (mk_window (w_sent t ++ [m]) (S (w_unread t)), Ready (Ok tt))
    else (t, Pending);
  sink_close := aret tt;
  inner_poll_write := fun buf => aret (len buf);
  inner_poll_flush := aret tt;
  inner_poll_shutdown := aret tt;
  sent := w_sent
|}.

Record inbox : Type := mk_inbox { i_messages : list bytes }.

#[local] Instance inbox_source : MessageSource inbox := {|
  source_next := fun r =>
    match i_messages r with
    | m :: ms => (mk_inbox ms, Ready (Ok (Some m)))
    | [] => (r, Pending)
    end;
  inner_poll_read := aret [];
  arriving := i_messages
|}.

#[local] Instance window_pipe : QuicPipe window inbox := {|
  tx_open := fun _ => True;
  rx_open := fun _ => True;
  unread := w_unread;
  notice := fun t => mk_window (w_sent t) (pred (w_unread t));
  arrive := fun m r => mk_inbox (i_messages r ++ [m])
|}.

#[local] Instance window_pipe_laws : QuicPipeLaws window inbox.
Proof.
  split.
  - split; cbn.
    + intros m t t'. case_match; [done|]. case_match; [|done]. by intros [= <-].
    + intros m t Hm. rewrite (proj2 (Z.ltb_lt _ _)) by done. by do 2 eexists.
  - split; cbn; intros [[|m' ms]] t'; try done. by intros m [= <- <-].
  - intros m t _ Hm. cbn [sink_send window_sink]. rewrite (proj2 (Z.ltb_ge _ _)) by done.
    destruct (Nat.ltb_spec (w_unread t) 2); [left; by eexists|right; split; [done|cbn; lia]].
  - done.
  - intros [l] m ms _ Hm. cbn in *. subst l. by eexists.
  - intros [l] _ Hm. cbn in *. by subst l.
  - done.
Qed.

Definition demo_qhalf : qhalf window inbox World.t :=
  mk_qhalf (Stream.Quic (QuicStream.new (StreamId.mk 1) (mk_window [] 0) (mk_inbox []) 2 4096)) client0 0.

Lemma demo_quic_fresh : fresh_link (demo_qhalf, demo_qhalf).
Proof.
  split.
  - intros d. split. eexists. by destruct d.
  - by intros [].
Qed.

Definition demo_quic_link : StreamLink window inbox World.t _ := quic_link.

Definition quic_choices : list (action _ _ _ _ (StreamLink0 := demo_quic_link)) :=
  [ClientTurn; ServerTurn] ++ map (Between (StreamLink0 := demo_quic_link))
    [Arrives Client; Arrives Server; Notices Client; Notices Server].

Definition demo_quic_run (md : FileMetadata.t) (file : bytes) :=
  drive (StreamLink0 := demo_quic_link) 60 quic_choices
    (start (Bincode0 := one_value md) in_is_dir demo_cid "in" (demo_qhalf, demo_qhalf) ∅ (demo_fs file)
      (demo_stores md)).

Lemma quic_file_transfer_end_to_end_witness :
  is_done (client (demo_quic_run (demo_md "f.bin" 3) demo_file).2) = Some (Ok (3, "in/f.bin")) /\
  client_data (demo_quic_run (demo_md "f.bin" 3) demo_file).2 !! "in/f.bin" = Some demo_file.
Proof.
  assert (Hd : is_done (client (demo_quic_run (demo_md "f.bin" 3) demo_file).2) = Some (Ok (3, "in/f.bin")))
    by (vm_compute; reflexivity).
  split; [exact Hd|].
  destruct (quic_file_transfer_end_to_end (Bincode0 := one_value (demo_md "f.bin" 3)) demo_qhalf demo_qhalf
      in_is_dir demo_cid (demo_md "f.bin" 3) "in" demo_file [byte_of 1] ∅ (demo_fs demo_file)
      (demo_stores (demo_md "f.bin" 3)) (demo_quic_run (demo_md "f.bin" 3) demo_file).1
      (demo_quic_run (demo_md "f.bin" 3) demo_file).2 demo_quic_fresh eq_refl
      (demo_offered "f.bin" demo_file) (demo_payload _) ltac:(done) (drive_run _ _ _))
    as (_ & _ & Hf & _).
  by destruct (Hf _ Hd) as (_ & _ & ?).
Defined.

(** The file is saved where the name says. *)
Lemma receiver_trusts_the_name_witness :
  client_data (demo_quic_run (demo_md "/etc/passwd" 3) demo_file).2 !! "/etc/passwd" = Some demo_file /\
  in_is_dir "in" = true.
Proof.
  assert (Hd : is_done (client (demo_quic_run (demo_md "/etc/passwd" 3) demo_file).2) =
    Some (Ok (3, "/etc/passwd"))) by (vm_compute; reflexivity).
  split; [|done].
  destruct (receiver_trusts_the_name (Bincode0 := one_value (demo_md "/etc/passwd" 3))
      in_is_dir demo_cid (demo_md "/etc/passwd" 3) "in" demo_file [byte_of 1] (demo_qhalf, demo_qhalf) ∅
      (demo_fs demo_file) (demo_stores (demo_md "/etc/passwd" 3))
      (demo_quic_run (demo_md "/etc/passwd" 3) demo_file).1
      (demo_quic_run (demo_md "/etc/passwd" 3) demo_file).2 _ eq_refl demo_quic_fresh
      (demo_offered "/etc/passwd" demo_file) (demo_payload _) ltac:(done) (drive_run _ _ _) Hd eq_refl)
    as (path & _ & Hfs & _ & Habs).
  by rewrite (Habs eq_refl) in Hfs.
Defined.

(** A sender that listens for TLS on port 5000. *)

#[local] Existing Instance two_keys.
#[local] Existing Instance letters_base32.
#[local] Existing Instance demo_certs.
#[local] Existing Instance demo_quinn.
#[local] Existing Instance demo_dns.
#[local] Existing Instance demo_net.
#[local] Existing Instance demo_nets.
#[local] Existing Instance plain_hasher.
#[local] Existing Instance uuid_eq_dec.

#[local] Instance relay_addr_eq_dec : EqDecision RelayAddr.t.
Proof. solve_decision. Defined.

#[local] Instance node_addr_eq_dec : EqDecision NodeAddr.t.
Proof. solve_decision. Defined.

#[local] Instance ticket_eq_dec : EqDecision TransferTicket.t.
Proof. solve_decision. Defined.

Definition demo_args : SendFile.Args :=
  SendFile.mk_Args "/ip4/0.0.0.0/tcp/5000/tls" "localhost" true None None "/srv/f.bin".

Definition demo_parse (s : string) : outcome error StackAddr := Ok demo_listen.

Definition demo_sender : EndpointBuilder.t :=
  from_ok demo_new (SendFile.endpoint_builder demo_parse demo_args demo_keypair (demo_key, demo_key)
    demo_keypair (demo_key, demo_key)).

Definition demo_ticket : TransferTicket.t :=
  TransferTicket.new (Endpoint.node_addr
    (from_ok demo_built (EndpointBuilder.build demo_sender (Ok demo_iface) demo_time)).1) demo_cid.

Definition demo_setup : outcome error (Endpoint.t * System * SendFile.Stores * string) :=
  SendFile.setup (Bincode0 := one_value demo_ticket) demo_parse demo_args demo_keypair
    (demo_key, demo_key) demo_keypair (demo_key, demo_key) (Ok demo_iface) demo_time (Ok 4)
    (UuidV4.val demo_cid) (demo_fs demo_file).

Definition demo_sent : Endpoint.t * System * SendFile.Stores * string :=
  from_ok (demo_built.1, demo_built.2, SendFile.no_stores, "") demo_setup.

Lemma ticket_leads_to_file_witness :
  exists cid md, offered cid demo_sent.1.2 (demo_fs demo_file) md demo_file /\
    FileMetadata.name md = "f.bin".
Proof.
  assert (Hs : demo_setup = Ok (demo_sent.1.1.1, demo_sent.1.1.2, demo_sent.1.2, demo_sent.2)).
  { rewrite <- !surjective_pairing. apply from_ok_Ok. vm_compute. reflexivity. }
  destruct (ticket_leads_to_file (Bincode0 := one_value demo_ticket) demo_parse demo_args demo_keypair
    demo_keypair (demo_key, demo_key) (demo_key, demo_key) (Ok demo_iface) demo_time (Ok 4)
    (UuidV4.val demo_cid) (demo_fs demo_file) _ _ _ _ Hs) as (cid & md & file & _ & _ & Hf & Ho & Hmd & _).
  assert (file = demo_file) as -> by (vm_compute in Hf; injection Hf as <-; reflexivity).
  exists cid, md. split; [exact Ho|]. by rewrite Hmd.
Defined.
