(* ===== verification/Hello.v ===== *)
(** * A greeting and its answer

    The two smallest programs, foctet-net/examples/listen.rs and connect.rs: one
    sends a greeting on a stream and waits for a frame, the other answers every
    frame it receives. *)

From S2P Require Import Prelude Text Key X509 Tls Config Ids Ip Node Dns Device Frame Codec Tokio Files.
From S2P Require Import MuxStream MuxSession MuxInvariant MuxProtocol TcpStream QuicStream Connection.
From S2P Require Import Transport Endpoints Futures Handles Links SessionLink Peers FileTransfer.

Local Open Scope Z_scope.
Local Open Scope future_scope.

(** ** The listener *)

Module Listen.

(** foctet-net/examples/listen.rs:11-56, [Args]. *)
Record Args : Type := mk_Args {
  server_stack_addr : string;
  server_name : string;
  allow_loopback : bool;
  cert_path : option string;
  key_path : option string
}.

Section setup.

Context `{Ed25519} `{Base32} `{X509Lib} `{QuinnLib} `{StackAddrLib} `{DnsLib} `{NetLib} `{IpNetLib}.

(** [StackAddr::from_str]. *)
Variable parse_addr : string -> outcome error StackAddr.

Local Open Scope outcome_scope.

(** foctet-net/examples/listen.rs:73-83, [main]: up to the endpoint; the names of
    certificate and key files are not used. *)
Definition setup (args : Args) (keypair0 : Keypair.t) (keys0 : outcome error CertKey * outcome error CertKey)
    (keypair : Keypair.t) (keys : outcome error CertKey * outcome error CertKey)
    (iface : outcome error Interface.t) (n : Net) : outcome error (Endpoint.t * System) :=
  let? server_addr := parse_addr (server_stack_addr args) in
  let? b := EndpointBuilder.new keypair0 keys0.1 keys0.2 in
  let? b := EndpointBuilder.with_keypair b keypair keys.1 keys.2 in
  let? b := EndpointBuilder.with_addr b server_addr in
  let b := EndpointBuilder.allow_loopback b (allow_loopback args) in
  EndpointBuilder.build b iface n.

End setup.

Section handler.

Context {Tx Rx : Type} `{MessageSink Tx} `{MessageSource Rx} {W : Type} `{StreamHost W} {S : Type}.

Abbreviation State := (Stream.t Tx Rx * W * S)%type.

(** foctet-net/examples/listen.rs:118-123, [handle_stream]: [response_frame]. *)
Definition response_frame (stream_id : StreamId.t) : Frame.t :=
  FrameBuilder.build (FrameBuilder.with_payload (FrameBuilder.as_response
    (FrameBuilder.with_stream_id builder stream_id)) (String.list_byte_of_string "Hello, client!")).

(** foctet-net/examples/listen.rs:117-128, [handle_stream]: the answer to a frame. *)
Definition respond : future State (control unit unit) :=
  try* r := call (fun s =>
    on_first (Stream.send_frame (response_frame (Stream.stream_id s.1.1))) s) in
  match r with
  | Ok _ => fret (Continue tt)
  | _ => fret (Break tt)
  end.

(** foctet-net/examples/listen.rs:113-135, [handle_stream]: an iteration. *)
Definition handle_turn (_ : unit) : future State (control unit unit) :=
  try* r := call (on_first Stream.receive_frame) in
  match r with
  | Ok _ => respond
  | _ => fret (Break tt)
  end.

(** foctet-net/examples/listen.rs:111-136, [handle_stream]. *)
Definition handle_stream : future State unit := floop handle_turn tt.

End handler.

End Listen.

(** ** The caller *)

Module Connect.

(** foctet-net/examples/connect.rs:10-27, [Args]. *)
Record Args : Type := mk_Args {
  server_stack_addr : string;
  allow_loopback : bool
}.

Section setup.

Context `{Ed25519} `{Base32} `{X509Lib} `{QuinnLib} `{StackAddrLib} `{DnsLib} `{NetLib} `{IpNetLib}.

Variable parse_addr : string -> outcome error StackAddr.

Local Open Scope outcome_scope.

(** foctet-net/examples/connect.rs:50-56, [main]: the calls of the builder. *)
Definition endpoint_builder (args : Args) (keypair0 : Keypair.t)
    (keys0 : outcome error CertKey * outcome error CertKey)
    (keypair : Keypair.t) (keys : outcome error CertKey * outcome error CertKey) :
    outcome error EndpointBuilder.t :=
  let? b := EndpointBuilder.new keypair0 keys0.1 keys0.2 in
  let? b := EndpointBuilder.with_keypair b keypair keys.1 keys.2 in
  let b := EndpointBuilder.with_quic b in
  let b := EndpointBuilder.with_tcp b in
  let b := EndpointBuilder.without_listen b in
  Ok (EndpointBuilder.allow_loopback b (allow_loopback args)).

Local Open Scope task_scope.

(** foctet-net/examples/connect.rs:44-58, [main]: up to the connection. *)
Definition connect (args : Args) (keypair0 : Keypair.t)
    (keys0 : outcome error CertKey * outcome error CertKey)
    (keypair : Keypair.t) (keys : outcome error CertKey * outcome error CertKey)
    (iface : outcome error Interface.t) : task Net (Connection.t * option World.t) :=
  let! server_addr := tlift (parse_addr (server_stack_addr args)) in
  let! b := tlift (endpoint_builder args keypair0 keys0 keypair keys) in
  fun n =>
    match EndpointBuilder.build b iface n with
    | Ok (endpoint, system) =>
        let '((n, _), r) := Endpoint.connect server_addr (net system, endpoint) in (n, r)
    | Err e => (n, Err e)
    | Panic => (n, Panic)
    end.

End setup.

Section talk.

Context {Tx Rx : Type} `{MessageSink Tx} `{MessageSource Rx} {W : Type} `{StreamHost W} {S : Type}.

Abbreviation State := (Stream.t Tx Rx * W * S)%type.

(** foctet-net/examples/connect.rs:66-72, [main]: [frame]. *)
Definition greeting_frame (stream_id : StreamId.t) : Frame.t :=
  FrameBuilder.build (FrameBuilder.with_payload (FrameBuilder.as_request
    (FrameBuilder.with_stream_id builder stream_id)) (String.list_byte_of_string "Hello, server!")).

(** foctet-net/examples/connect.rs:66-79, [main]: the greeting, and the frame that comes
    back. *)
Definition talk : future State Frame.t :=
  let* _ := call (fun s =>
    on_first (Stream.send_frame (greeting_frame (Stream.stream_id s.1.1))) s) in
  call (on_first Stream.receive_frame).

End talk.

Section session.

Context `{StackAddrLib} `{ConnLib}.

(** The connection, and the stream once it is open. *)
Abbreviation Local := (Connection.t * World.t * option (Stream.t SendStream RecvStream))%type.

Definition on_stream {A : Type} (m : async (Stream.t SendStream RecvStream * World.t) A) :
    async Local A :=
  fun '(c, w, o) =>
    match o with
    | Some s => let '((s, w), r) := m (s, w) in ((c, w, Some s), r)
    | None => ((c, w, o), Ready Panic)
    end.

Definition without_data {S A : Type} (m : async (S * unit) A) : async S A :=
  fun s => let '((s, _), r) := m (s, tt) in (s, r).

Definition set_stream (s : Stream.t SendStream RecvStream) : async Local unit :=
  fun '(c, w, _) => ((c, w, Some s), Ready (Ok tt)).

(** foctet-net/examples/connect.rs:62-86, [main]: from the connection on. *)
Definition session : future Local unit :=
  let* stream := within_state (fun _ m => on_first m) connection_open_stream in
  let* _ := call (set_stream stream) in
  let* _ := within_state (fun _ m => on_stream (without_data m)) talk in
  let* _ := within_state (fun _ m => on_stream m) stream_close in
  within_state (fun _ m => on_first m) connection_close.

End session.

End Connect.

(** ** The exchange *)

Section exchange.

Context {Tx Rx W J : Type} `{MessageSink Tx} `{MessageSource Rx} `{StreamHost W} `{FileRead}.
Context `{!StreamLink Tx Rx W J} `{!LinkLaws Tx Rx W J} (j0 : J).
Context (Hids : forall d, StreamId.wf (ident d j0) = true).

Abbreviation Talk := (Peers Tx Rx W J unit unit Frame.t unit).

Definition greeting : Frame.t := Connect.greeting_frame (ident Client j0).

Definition response : Frame.t := Listen.response_frame (ident Server j0).

Definition replying : future (Stream.t Tx Rx * W * unit) unit :=
  fthen (again Listen.handle_turn Done) Listen.respond.

(** The five states of the exchange: nothing sent, greeting sent, greeting received,
    answer sent, answer received. *)
Inductive stage : Type :=
| Silent
| Greeted
| Heard
| Answered
| Over.

Definition client_at (k : stage) : future (Stream.t Tx Rx * W * unit) Frame.t :=
  match k with
  | Silent => Connect.talk
  | Over => fret (Frame.normal response)
  | _ => call (on_first Stream.receive_frame)
  end.

Definition server_at (k : stage) : future (Stream.t Tx Rx * W * unit) unit :=
  match k with
  | Heard => replying
  | _ => Listen.handle_stream
  end.

Definition greetings (k : stage) : list Item :=
  match k with Greeted => [frame_item greeting] | _ => [] end.

Definition responses (k : stage) : list Item :=
  match k with Answered => [frame_item response] | _ => [] end.

Definition calls (k : stage) : nat :=
  match k with Silent => 4 | Greeted => 3 | Heard => 2 | Answered => 1 | Over => 0 end.

Record stands (x : Talk) (k : stage) : Prop := {
  st_usable : usable (link x);
  st_ident : forall d, ident d (link x) = ident d j0;
  st_client : client x = client_at k;
  st_server : server x = server_at k;
  st_greetings : flow Client (link x) = greetings k;
  st_responses : flow Server (link x) = responses k
}.

Definition weight (j : J) (k : stage) : nat := (hops + 1) * calls k + effort j.

Lemma greeting_sendable (j : J) : (forall d, ident d j = ident d j0) -> sendable Client j greeting.
Proof using Hids.
  intros Hj. split; [|by cbn; rewrite Hj|done]. unfold Frame.wf, FrameHeader.wf. cbn. by rewrite Hids.
Qed.

Lemma response_sendable (j : J) : (forall d, ident d j = ident d j0) -> sendable Server j response.
Proof using Hids.
  intros Hj. split; [|by cbn; rewrite Hj|done]. unfold Frame.wf, FrameHeader.wf. cbn. by rewrite Hids.
Qed.

(** The calls of the two programs. *)
Lemma resume_silent st t :
  resume (client_at Silent) (st, t) =
  match Stream.send_frame (Connect.greeting_frame (Stream.stream_id st.1)) st with
  | (st', Ready (Ok _)) => Some (client_at Greeted, (st', t))
  | (st', Ready (Err e)) => Some (Done (Err e), (st', t))
  | (st', Ready Panic) => Some (Done Panic, (st', t))
  | (_, Pending) => None
  end.
Proof using Type.
  unfold client_at, Connect.talk, fbind, call. cbn [fthen]. rewrite resume_await. unfold on_first. cbn [fst].
  by destruct (Stream.send_frame _ st) as [? [[[]| |]|]].
Qed.

Lemma resume_talk_receiving st t :
  resume (call (on_first Stream.receive_frame)) (st, t) =
  match Stream.receive_frame st with
  | (st', Ready o) => Some (Done o : future (Stream.t Tx Rx * W * unit) Frame.t, (st', t))
  | (_, Pending) => None
  end.
Proof using Type.
  unfold call. rewrite resume_await. unfold on_first. by destruct (Stream.receive_frame st) as [? [?|]].
Qed.

Lemma resume_handle st t :
  resume Listen.handle_stream (st, t) =
  match Stream.receive_frame st with
  | (st', Ready (Ok _)) => Some (replying, (st', t))
  | (st', Ready (Err _)) => Some (Done (Ok tt), (st', t))
  | (st', Ready Panic) => Some (Done Panic, (st', t))
  | (_, Pending) => None
  end.
Proof using Type.
  unfold Listen.handle_stream, floop.
  erewrite (resume_loop_call _ _ _ (on_first Stream.receive_frame)) by reflexivity.
  unfold on_first. by destruct (Stream.receive_frame st) as [st' [[?| |]|]].
Qed.

Lemma resume_replying st t :
  resume replying (st, t) =
  match Stream.send_frame (Listen.response_frame (Stream.stream_id st.1)) st with
  | (st', Ready (Ok _)) => Some (Listen.handle_stream, (st', t))
  | (st', Ready (Err _)) => Some (Done (Ok tt), (st', t))
  | (st', Ready Panic) => Some (Done Panic, (st', t))
  | (_, Pending) => None
  end.
Proof using Type.
  unfold replying, Listen.respond, attempt, call. cbn [fthen]. rewrite resume_await.
  unfold on_first. cbn [fst]. by destruct (Stream.send_frame _ st) as [st' [[[]| |]|]].
Qed.

Lemma talk_weight_drop (j j' : J) (k k' : stage) :
  (calls k' < calls k)%nat -> (effort j' <= hops + effort j)%nat -> (weight j' k' < weight j k)%nat.
Proof using Type. unfold weight. intros Hc He. nia. Qed.

(** With nothing on the way a side waits. *)
Lemma nothing_waits (d : SessionSide) (j : J) :
  usable j -> flow (opposite d) j = [] -> (Stream.receive_frame (end_of d j)).2 = Pending.
Proof using LinkLaws0.
  intros Hu Hf. destruct (arrived d j) eqn:Ha; [|by apply link_wait].
  by destruct (link_arrived d j Hu Ha).
Qed.

Lemma talk_client_step (x x' : Talk) (k : stage) :
  stands x k -> act ClientTurn x = Some x' ->
  exists k', stands x' k' /\ (weight (link x') k' < weight (link x) k)%nat.
Proof using All.
  intros Hx Ha. destruct Hx. unfold act in Ha. rewrite st_client0 in Ha.
  destruct k; cbn [client_at] in Ha; rewrite ?resume_talk_receiving in Ha.
  - fold (client_at Silent) in Ha. rewrite resume_silent in Ha.
    change (Stream.stream_id _) with (ident Client (link x)) in Ha. rewrite st_ident0 in Ha. fold greeting in Ha.
    pose proof (link_send Client _ _ st_usable0 (greeting_sendable _ st_ident0)) as Hs.
    destruct (Stream.send_frame greeting _) as [e [o|]]; [|done].
    destruct Hs as [-> []]. injection Ha as <-. exists Greeted. split; [|by apply talk_weight_drop; [cbn; lia|]].
    split; try done; cbn [link].
    + intros d. by rewrite ap_ident.
    + by rewrite ap_flow, st_greetings0.
    + exact (eq_trans ap_other st_responses0).
  - pose proof (nothing_waits Client _ st_usable0 st_responses0). by destruct (Stream.receive_frame _) as [? []].
  - pose proof (nothing_waits Client _ st_usable0 st_responses0). by destruct (Stream.receive_frame _) as [? []].
  - destruct (arrived Client (link x)) eqn:Harr.
    2: { destruct (link_wait Client _ st_usable0 Harr) as [Hw _]. by destruct (Stream.receive_frame _) as [? []]. }
    destruct (link_receive Client _ _ _ st_usable0 Harr st_responses0) as (e & He & []).
    { apply (response_sendable _ st_ident0). }
    rewrite He in Ha. injection Ha as <-. exists Over.
    split; [|by apply talk_weight_drop; [cbn; lia|cbn [link]; lia]]. split; try done; cbn [link].
    + intros d. by rewrite tk_ident.
    + exact (eq_trans tk_other st_greetings0).
  - done.
Qed.

Lemma talk_server_step (x x' : Talk) (k : stage) :
  stands x k -> act ServerTurn x = Some x' ->
  exists k', stands x' k' /\ (weight (link x') k' < weight (link x) k)%nat.
Proof using All.
  intros Hx Ha. destruct Hx. unfold act in Ha. rewrite st_server0 in Ha.
  assert (Hidle : flow Client (link x) = [] -> server_at k = Listen.handle_stream -> False).
  { intros Hno Hk. rewrite Hk, resume_handle in Ha.
    pose proof (nothing_waits Server _ st_usable0 Hno). by destruct (Stream.receive_frame _) as [? []]. }
  destruct k; try by destruct Hidle.
  - cbn [server_at] in Ha. rewrite resume_handle in Ha.
    destruct (arrived Server (link x)) eqn:Harr.
    2: { destruct (link_wait Server _ st_usable0 Harr) as [Hw _]. by destruct (Stream.receive_frame _) as [? []]. }
    destruct (link_receive Server _ _ _ st_usable0 Harr st_greetings0) as (e & He & []).
    { apply (greeting_sendable _ st_ident0). }
    rewrite He in Ha. injection Ha as <-. exists Heard.
    split; [|by apply talk_weight_drop; [cbn; lia|cbn [link]; lia]]. split; try done; cbn [link].
    + intros d. by rewrite tk_ident.
    + exact (eq_trans tk_other st_responses0).
  - cbn [server_at] in Ha. rewrite resume_replying in Ha.
    change (Stream.stream_id _) with (ident Server (link x)) in Ha. rewrite st_ident0 in Ha. fold response in Ha.
    pose proof (link_send Server _ _ st_usable0 (response_sendable _ st_ident0)) as Hs.
    destruct (Stream.send_frame response _) as [e [o|]]; [|done].
    destruct Hs as [-> []]. injection Ha as <-. exists Answered. split; [|by apply talk_weight_drop; [cbn; lia|]].
    split; try done; cbn [link].
    + intros d. by rewrite ap_ident.
    + exact (eq_trans ap_other st_greetings0).
    + by rewrite ap_flow, st_responses0.
Qed.

Lemma talk_step (a : action Tx Rx W J) (x x' : Talk) (k : stage) :
  stands x k -> act a x = Some x' ->
  exists k', stands x' k' /\ (weight (link x') k' < weight (link x) k)%nat.
Proof using All.
  intros Hx Ha. destruct a as [| |m]; [by eapply talk_client_step|by eapply talk_server_step|].
  cbn in Ha. destruct (move m (link x)) as [j|] eqn:Hm; [|done]. injection Ha as <-. destruct Hx.
  destruct (link_move _ _ _ st_usable0 Hm) as (Hu & Hf & Hi & He).
  exists k. split; [|unfold weight; cbn [link]; lia]. split; try done; cbn [link].
  - intros d. by rewrite Hi.
  - by rewrite Hf.
  - by rewrite Hf.
Qed.

Lemma talk_progress (x : Talk) (k : stage) : stands x k -> k <> Over -> enabled x.
Proof using All.
  intros Hx Hk. destruct Hx. destruct k; try done.
  - pose proof (link_send Client _ _ st_usable0 (greeting_sendable _ st_ident0)) as Hs.
    destruct (Stream.send_frame greeting _) as [e [o|]] eqn:He.
    + destruct Hs as [-> _]. apply client_enabled. rewrite st_client0, resume_silent.
      change (Stream.stream_id _) with (ident Client (link x)). rewrite st_ident0. fold greeting. by rewrite He.
    + destruct Hs as [Hne|?]; [by rewrite st_greetings0 in Hne|by apply movable_enabled].
  - destruct (link_progress Client _ st_usable0) as [Harr|?]; [by rewrite st_greetings0| |by apply movable_enabled].
    destruct (link_receive Server _ _ _ st_usable0 Harr st_greetings0) as (e & He & _);
      [apply (greeting_sendable _ st_ident0)|].
    apply server_enabled. rewrite st_server0. cbn [server_at]. by rewrite resume_handle, He.
  - pose proof (link_send Server _ _ st_usable0 (response_sendable _ st_ident0)) as Hs.
    destruct (Stream.send_frame response _) as [e [o|]] eqn:He.
    + destruct Hs as [-> _]. apply server_enabled. rewrite st_server0. cbn [server_at]. rewrite resume_replying.
      change (Stream.stream_id _) with (ident Server (link x)). rewrite st_ident0. fold response. by rewrite He.
    + destruct Hs as [Hne|?]; [by rewrite st_responses0 in Hne|by apply movable_enabled].
  - destruct (link_progress Server _ st_usable0) as [Harr|?]; [by rewrite st_responses0| |by apply movable_enabled].
    destruct (link_receive Client _ _ _ st_usable0 Harr st_responses0) as (e & He & _);
      [apply (response_sendable _ st_ident0)|].
    apply client_enabled. rewrite st_client0. cbn [client_at]. by rewrite resume_talk_receiving, He.
Qed.

(** Whatever the frame, also a request to close the stream, the listener answers. *)
Lemma every_frame_answered (j : J) (f : Frame.t) (rest : list Item) :
  usable j -> arrived Server j = true -> flow Client j = frame_item f :: rest -> Frame.wf f = true ->
  exists e, resume Listen.handle_stream (end_of Server j, tt) = Some (replying, (e, tt)) /\
    took Server rest j (set_end Server j e).
Proof using LinkLaws0.
  intros Hu Ha Hf Hwf. destruct (link_receive Server j f rest Hu Ha Hf Hwf) as (e & He & Ht).
  exists e. split; [|done]. by rewrite resume_handle, He.
Qed.

End exchange.

(** ** Properties *)

(** C30: A greeting is answered.  Over any link, in whatever order the two programs and what
    lies between them move: the number of moves is bounded, there is always a next one
    until the caller is done, and when it is done it has received the response of the
    listener, as that sent it. *)
Theorem greeting_answered {Tx Rx W J : Type} `{MessageSink Tx} `{MessageSource Rx} `{StreamHost W}
    `{FileRead} `{!StreamLink Tx Rx W J} `{!LinkLaws Tx Rx W J} (j : J) (l : list (action Tx Rx W J))
    (x : Peers Tx Rx W J unit unit Frame.t unit) (Hfresh : fresh_link j)
    (Hrun : Peers.run l (mk_Peers j tt tt Connect.talk Listen.handle_stream) = Some x) :
  (length l <= (hops + 1) * 4 + effort j)%nat /\
  (is_done (client x) = None -> enabled x) /\
  (forall o, is_done (client x) = Some o ->
     o = Ok (Frame.normal (Listen.response_frame (ident Server j)))).
Proof.
  assert (Hids : forall d, StreamId.wf (ident d j) = true) by (intros d; apply Hfresh).
  destruct (run_measured (fun x n => exists k, stands j x k /\ n = weight (link x) k))
    with (l := l) (x := mk_Peers j tt tt (Connect.talk (Tx := Tx) (Rx := Rx) (W := W))
      (Listen.handle_stream (Tx := Tx) (Rx := Rx) (W := W))) (x' := x)
      (n := weight j Silent) as (n & (k & Hx & ->) & Hn).
  - intros a y y' n (k & Hy & ->) Ha. destruct (talk_step j Hids _ _ _ _ Hy Ha) as (k' & Hy' & Hw). eauto.
  - exists Silent. split; [|done]. split; try done; apply Hfresh.
  - done.
  - unfold weight in Hn. cbn [calls] in Hn. split; [lia|]. split.
    + intros Hd. apply (talk_progress j Hids x k Hx). intros ->. by rewrite (st_client _ _ _ Hx) in Hd.
    + intros o Ho. rewrite (st_client _ _ _ Hx) in Ho. destruct k; try done. by injection Ho as <-.
Qed.

(** ** Witness: over the sessions of a client and a server *)

#[local] Existing Instance full_reads.
#[local] Existing Instance list_stacks.
#[local] Existing Instance queue_sink.
#[local] Existing Instance queue_source.

Definition demo_talk := drive (StreamLink0 := demo_session_link) 40 tcp_choices
  (mk_Peers demo_tcp_link tt tt Connect.talk Listen.handle_stream).

Lemma greeting_answered_witness :
  is_done (client demo_talk.2) = Some (Ok (Frame.normal (Listen.response_frame (StreamId.mk 1)))).
Proof.
  destruct (opened_link_fresh (Tx := list bytes) (Rx := list bytes) bytewise (demo_tcp Outgoing)
    (demo_tcp Incoming) client0 server0 client1 server1 ours1 theirs1 demo_can_open
    (proj1 demo_no_events) (proj2 demo_no_events) (demo_buffer _) (demo_buffer _) demo_opened) as [Hf _].
  destruct (greeting_answered (StreamLink0 := demo_session_link) demo_tcp_link demo_talk.1 demo_talk.2
    Hf (drive_run _ _ _)) as (_ & _ & Hd).
  destruct (is_done (client demo_talk.2)) as [o|] eqn:E; [by rewrite (Hd o eq_refl)|].
  vm_compute in E. discriminate.
Defined.
