(* ===== verification/Servers.v ===== *)
(** * The loops of a server

    The [main] of foctet-net/examples/listen.rs and of send_file.rs after the
    setup: a loop that accepts connections, for each connection a task that
    accepts streams, and for each stream a task that handles it.  All of them,
    the tasks of the endpoint and the outside move in any order. *)

From S2P Require Import Prelude Text Key X509 Tls Config Ids Ip Node Dns Device Frame Tokio Files.
From S2P Require Import Hash Metadata MuxStream MuxSession TcpStream QuicStream Connection Transport.
From S2P Require Import Endpoints Paths Futures Handles Transfer FileTransfer Hello.

Local Open Scope Z_scope.

Section server.

Context `{Ed25519} `{Base32} `{X509Lib} `{QuinnLib} `{StackAddrLib} `{DnsLib} `{NetLib}.
Context {P : Type}.

Abbreviation Stream := (Stream.t SendStream RecvStream).

(** What is done with a stream, over the stream, its session and the data that the
    tasks of the program share. *)
Variable handler : future (Stream * World.t * P) unit.

(** A connection whose streams are accepted as long as [accepting], with the tasks of
    its streams.  Only a TCP connection has a session; that of a QUIC connection is
    never looked at. *)
Record ConnTask : Type := mk_ConnTask {
  conn : Connection.t;
  world : World.t;
  accepting : bool;
  handlers : list (Stream * future (Stream * World.t * P) unit)
}.

Record Server : Type := mk_Server {
  system : System;
  serving : bool;
  served : list ConnTask;
  shared : P
}.

Definition no_session : World.t := (Session.new_client tt (SessionId.mk 0)).2.

(** foctet-net/examples/send_file.rs:123-126, [main]: a turn of the loop over
    connections, which ends when no more can come. *)
Definition main_turn (s : Server) : option Server :=
  if serving s then
    match endpoint_accept (system s) with
    | (sys, Ready (Some (conn, world))) =>
        Some (mk_Server sys true
          (served s ++ [mk_ConnTask conn (default no_session world) true []]) (shared s))
    | (sys, Ready None) => Some (mk_Server sys false (served s) (shared s))
    | (_, Pending) => None
    end
  else None.

(** foctet-net/examples/send_file.rs:127-141, [main]: a turn of the loop over the
    streams of a connection; an error ends it. *)
Definition accept_turn (t : ConnTask) : option ConnTask :=
  if accepting t then
    match Connection.accept_stream (conn t, world t) with
    | ((c, w), Ready (Ok stream)) =>
        Some (mk_ConnTask c w true (handlers t ++ [(stream, handler)]))
    | ((c, w), Ready _) => Some (mk_ConnTask c w false (handlers t))
    | (_, Pending) => None
    end
  else None.

(** foctet-net/examples/send_file.rs:132-134, [main]: a turn of the task of the [k]-th
    stream of a connection. *)
Definition handler_turn (k : nat) (t : ConnTask) (data : P) : option (ConnTask * P) :=
  '(stream, p) ← handlers t !! k;
  '(p, (stream, w, data)) ← resume p (stream, world t, data);
  Some (mk_ConnTask (conn t) w (accepting t) (<[k := (stream, p)]> (handlers t)), data).

(** The moves: of the endpoint's own tasks, of the loops and tasks of the program, of a
    session with its peer, and of a QUIC connection and its streams.  A QUIC connection
    does not change its peer. *)
Inductive server_action : Type :=
| Background (a : action)
| MainAccepts
| TaskAccepts (i : nat)
| Handles (i k : nat)
| SessionMoves (i : nat) (w : World.t)
| QuinnMoves (i : nat) (q : QuinnConn)
| StreamMoves (i k : nat) (tx : SendStream) (rx : RecvStream).

(** Of the calls on an endpoint the program makes [accept] only. *)
Definition background (a : action) : bool :=
  match a with
  | Accepts | Commands _ | Shuts | TakesEvent => false
  | _ => true
  end.

Definition set_served (s : Server) (i : nat) (t : ConnTask) : Server :=
  mk_Server (system s) (serving s) (<[i := t]> (served s)) (shared s).

Definition quinn_moves (q : QuinnConn) (c : Connection.t) : Connection.t :=
  match c with
  | Connection.Quic c =>
      if bool_decide (quinn_session q = quinn_session (QuicConnection.connection c)) then
        Connection.Quic (QuicConnection.with_connection c q)
      else Connection.Quic c
  | Connection.Tcp c => Connection.Tcp c
  end.

Definition stream_moves (tx : SendStream) (rx : RecvStream) (s : Stream) : Stream :=
  match s with
  | Stream.Quic q => Stream.Quic (QuicStream.set_reader (QuicStream.set_writer q tx) rx)
  | Stream.Tcp t h => Stream.Tcp t h
  end.

Definition server_act (a : server_action) (s : Server) : option Server :=
  match a with
  | Background a =>
      if background a then
        sys ← act a (system s);
        Some (mk_Server sys (serving s) (served s) (shared s))
      else None
  | MainAccepts => main_turn s
  | TaskAccepts i =>
      t ← served s !! i;
      t ← accept_turn t;
      Some (set_served s i t)
  | Handles i k =>
      t ← served s !! i;
      '(t, data) ← handler_turn k t (shared s);
      Some (mk_Server (system s) (serving s) (<[i := t]> (served s)) data)
  | SessionMoves i w =>
      t ← served s !! i;
      Some (set_served s i (mk_ConnTask (conn t) w (accepting t) (handlers t)))
  | QuinnMoves i q =>
      t ← served s !! i;
      Some (set_served s i (mk_ConnTask (quinn_moves q (conn t)) (world t) (accepting t) (handlers t)))
  | StreamMoves i k tx rx =>
      t ← served s !! i;
      Some (set_served s i (mk_ConnTask (conn t) (world t) (accepting t)
        (alter (fun h => (stream_moves tx rx h.1, h.2)) k (handlers t))))
  end.

Fixpoint server_run (l : list server_action) (s : Server) : option Server :=
  match l with
  | [] => Some s
  | a :: l => server_act a s ≫= server_run l
  end.

End server.

(** The server of listen.rs, and that of send_file.rs with its files and stores. *)
Section programs.

Context `{Ed25519} `{Base32} `{X509Lib} `{QuinnLib} `{StackAddrLib} `{DnsLib} `{NetLib}.
Context `{FileRead} `{!Bincode FileMetadata.t}.

(** foctet-net/examples/listen.rs:87-109, [main]. *)
Definition listen_server : server_action -> Server -> option Server :=
  server_act (P := unit) Listen.handle_stream.

(** foctet-net/examples/send_file.rs:123-145, [main]. *)
Definition send_file_server : server_action -> Server -> option Server :=
  server_act (P := Fs * SendFile.Stores) SendFile.handle_stream.

End programs.

(** ** Lemmas *)

Section lemmas.

Context `{Ed25519} `{Base32} `{X509Lib} `{QuinnLib} `{StackAddrLib} `{DnsLib} `{NetLaws}.
Context `{!ConnLaws} `{!TlsLaws Raw} `{!TlsLaws Connecting} {P : Type}.
Context (handler : future (Stream.t SendStream RecvStream * World.t * P) unit).

(** Two states of one connection. *)
Definition same_peer (c c' : Connection.t) : Prop :=
  Connection.direction c = Connection.direction c' /\
  Connection.local_node_id c = Connection.local_node_id c' /\
  Connection.remote_node_id c = Connection.remote_node_id c' /\
  match c, c' with
  | Connection.Quic q, Connection.Quic q' =>
      quinn_session (QuicConnection.connection q) = quinn_session (QuicConnection.connection q')
  | Connection.Tcp t, Connection.Tcp t' =>
      Session.raw_stream (TcpConnection.connection t) = Session.raw_stream (TcpConnection.connection t')
  | _, _ => False
  end.

Lemma same_peer_refl (c : Connection.t) : same_peer c c.
Proof using Type. by destruct c. Qed.

Lemma same_peer_good (cfg : TransportConfig.t) (c c' : Connection.t) (w w' : option World.t) :
  same_peer c' c -> conn_good cfg (c, w) -> conn_good cfg (c', w').
Proof using Type.
  intros (Ed & El & Er & Es) (Hd & Hl & tls & Htls & Hv).
  cbn [fst] in *. unfold conn_good. cbn [fst]. rewrite Ed, El. split_and!; [done..|].
  exists tls. split; [done|].
  destruct c as [q|t], c' as [q'|t']; try done; cbn in *.
  - destruct Hv as (q0 & Hq & Hs). exists q0. by rewrite Es, Er.
  - by rewrite Es, Er.
Qed.

Lemma accept_stream_peer (c c' : Connection.t) (w w' : World.t) r :
  Connection.accept_stream (c, w) = ((c', w'), r) -> same_peer c' c.
Proof using All.
  destruct c as [q|t]; unfold Connection.accept_stream.
  - destruct (QuicConnection.accept_stream q) as [q' r'] eqn:E. intros [= <- _ _].
    unfold QuicConnection.accept_stream, abind, QuicConnection.on_connection in E.
    destruct (accept_bi (QuicConnection.connection q)) as [x r0] eqn:Ea.
    apply accept_bi_session in Ea. by destruct r0 as [[[tx rx]| |]|]; injection E as <- _.
  - destruct (TcpConnection.accept_stream (t, w)) as [[t' w1] r'] eqn:E. intros [= <- _ _].
    unfold TcpConnection.accept_stream in E.
    destruct (Session.accept_stream w) as [w2 [[?| |]|]]; by injection E as <- _ _.
Qed.

(** The connections of the endpoint and of all tasks. *)
Definition server_sound (cfg : TransportConfig.t) (s : Server (P := P)) : Prop :=
  system_sound cfg (system s) /\ Forall (fun t => conn_good cfg (conn t, None)) (served s).

Lemma set_served_sound (cfg : TransportConfig.t) (s : Server) (i : nat) (t t' : ConnTask) data :
  server_sound cfg s -> served s !! i = Some t -> same_peer (conn t') (conn t) ->
  server_sound cfg (mk_Server (system s) (serving s) (<[i := t']> (served s)) data).
Proof using Type.
  intros [Hs Hc] Hi Hp. split; [done|]. apply Forall_insert; [done|].
  eapply same_peer_good; [done|]. exact (Forall_lookup_1 _ _ _ _ Hc Hi).
Qed.

Lemma main_turn_sound (cfg : TransportConfig.t) (s s' : Server) :
  server_sound cfg s -> main_turn s = Some s' -> server_sound cfg s'.
Proof using All.
  intros [Hs Hc] Hm. unfold main_turn in Hm. destruct (serving s); [|done].
  destruct (endpoint_accept (system s)) as [sys [o|]] eqn:E; [|done].
  assert (Hs' : system_sound cfg sys).
  { apply (act_sound cfg Accepts (system s) sys Hs). cbn. by rewrite E. }
  destruct o as [[c w]|]; injection Hm as <-; [|done].
  split; [done|]. apply Forall_app. split; [done|]. constructor; [|done].
  apply (same_peer_good cfg c c w); [apply same_peer_refl|]. unfold endpoint_accept in E.
  destruct (Mpsc.try_recv (conns (system s))) as [c' ch| |] eqn:Er; simplify_eq.
  apply try_recv_rx in Er as [Hq _]. pose proof (ss_conns _ _ Hs) as Hg. rewrite Hq in Hg.
  by inversion Hg.
Qed.

Lemma quinn_moves_peer (q : QuinnConn) (c : Connection.t) : same_peer (quinn_moves q c) c.
Proof using Type. destruct c; cbn; [|done]. by case_bool_decide. Qed.

Lemma server_act_sound (cfg : TransportConfig.t) (a : server_action) (s s' : Server) :
  server_sound cfg s -> server_act handler a s = Some s' -> server_sound cfg s'.
Proof using All.
  intros Hs Ha. destruct a as [a| |i|i k|i w|i q|i k tx rx]; cbn in Ha.
  - destruct (background a); [|done]. apply bind_Some in Ha as (sys & Ha & [= <-]).
    destruct Hs as [Hs Hc]. split; [by eapply act_sound|done].
  - by eapply main_turn_sound.
  - apply bind_Some in Ha as (t & Hi & Ha). apply bind_Some in Ha as (t' & Ht & [= <-]).
    apply (set_served_sound cfg s i t); [done|done|]. unfold accept_turn in Ht.
    destruct (accepting t); [|done].
    destruct (Connection.accept_stream _) as [[c w] [[?|?|]|]] eqn:E; simplify_eq; by eapply accept_stream_peer.
  - apply bind_Some in Ha as (t & Hi & Ha). apply bind_Some in Ha as ([t' data] & Ht & [= <-]).
    apply (set_served_sound cfg s i t); [done|done|]. unfold handler_turn in Ht.
    apply bind_Some in Ht as ([st p] & _ & Ht). apply bind_Some in Ht as ([p' [[st' w] d]] & _ & [= <- _]).
    apply same_peer_refl.
  - apply bind_Some in Ha as (t & Hi & [= <-]). apply (set_served_sound cfg s i t); try done.
    apply same_peer_refl.
  - apply bind_Some in Ha as (t & Hi & [= <-]). apply (set_served_sound cfg s i t); try done.
    apply quinn_moves_peer.
  - apply bind_Some in Ha as (t & Hi & [= <-]). apply (set_served_sound cfg s i t); try done.
    apply same_peer_refl.
Qed.

End lemmas.

(** ** Properties *)


(** ** Witness: the listener, with one peer *)

#[local] Existing Instance two_keys.
#[local] Existing Instance letters_base32.
#[local] Existing Instance demo_certs.
#[local] Existing Instance demo_quinn.
#[local] Existing Instance list_stacks.
#[local] Existing Instance queue_quinn.
#[local] Existing Instance demo_dns.
#[local] Existing Instance demo_net.
#[local] Existing Instance demo_net_laws.
#[local] Existing Instance demo_raw_laws.
#[local] Existing Instance demo_connecting_laws.
#[local] Existing Instance demo_nets.
#[local] Existing Instance queue_quinn_laws.

Definition demo_server : Server := mk_Server demo_built.2 true [] tt.

(** The session of the peer after the peer has opened a stream and sent a frame on it. *)
Definition demo_session : World.t :=
  let open_frame := FrameBuilder.build (FrameBuilder.with_flags
    (FrameBuilder.with_stream_id builder (StreamId.mk 1)) FrameFlags.open_request) in
  let w := (Session.new_server tt (SessionId.mk 1)).2 in
  let w := World.set_incoming w [Ok open_frame; Ok (data_frame (StreamId.mk 1) [byte_of 7])] in
  default w (turn NextFrame w ≫= turn NextFrame).

Definition demo_serves : list server_action :=
  map Background [ActorListens; ActorListens; Listens 0 arrival; Listens 0 (TcpEvent Handshaken); Forwards 0] ++
  [MainAccepts; SessionMoves 0 demo_session; TaskAccepts 0; Handles 0 0].

Definition demo_served : Server :=
  default demo_server (server_run Listen.handle_stream demo_serves demo_server).

(** Whom the tasks serve, and whether they have streams. *)
Definition peers_of {P : Type} (ts : list (ConnTask (P := P))) : list (NodeId * bool) :=
  map (fun t => (Connection.remote_node_id (conn t), match handlers t with [] => false | _ => true end))
    ts.

Lemma only_peer {P : Type} (ts : list (ConnTask (P := P))) (id : NodeId) (Q : ConnTask -> Prop) :
  peers_of ts = [(id, true)] -> Forall Q ts ->
  exists t, ts = [t] /\ handlers t <> [] /\ Connection.remote_node_id (conn t) = id /\ Q t.
Proof.
  destruct ts as [|t [|]]; try done. cbn. intros Hp Hq. exists t. split; [done|].
  destruct (handlers t); [done|]. injection Hp as Hp. split; [done|]. split; [done|].
  by inversion Hq.
Qed.

