(* ===== verification/Sizes.v ===== *)
(** * Sizes for people

    foctet-core/src/utils/bytes.rs: a number of bytes as a text with two decimals
    and a unit.  The conversion to [f64] and the printing with [{:.2}] round to the
    nearest, ties to even. *)

From S2P Require Import Prelude.

Local Open Scope Z_scope.

(** The units of [format_bytes]. *)
Definition KB : Z := 1024.

Definition MB : Z := KB * 1024.

Definition GB : Z := MB * 1024.

(** The integer nearest to [num / den], the even one of two. *)
Definition round_half_even (num den : Z) : Z :=
  let q := num / den in
  let r := num mod den in
  if 2 * r <? den then q
  else if den <? 2 * r then q + 1
  else if Z.even q then q else q + 1.

(** [n as f64]: 53 significant bits. *)
Definition f64_of_usize (n : Z) : Z :=
  if n <? 2 ^ 53 then n
  else let ulp := 2 ^ (Z.log2 n - 52) in round_half_even n ulp * ulp.

(** Division by a power of two is exact; what [{:.2}] prints, in hundredths. *)
Definition hundredths (bytes unit : Z) : Z := round_half_even (100 * f64_of_usize bytes) unit.

Definition fixed2 (h : Z) : string :=
  pretty (h / 100) +:+ "." +:+ pretty (h mod 100 / 10) +:+ pretty (h mod 10).

(** foctet-core/src/utils/bytes.rs:1-15, [format_bytes], with the units before it. *)
Definition format_bytes (bytes : Z) : string :=
  if GB <=? bytes then fixed2 (hundredths bytes GB) +:+ " GB"
  else if MB <=? bytes then fixed2 (hundredths bytes MB) +:+ " MB"
  else if KB <=? bytes then fixed2 (hundredths bytes KB) +:+ " KB"
  else pretty bytes +:+ " B".

(** ** Lemmas *)

Lemma round_half_even_near (num den : Z) :
  0 < den -> 2 * Z.abs (num - round_half_even num den * den) <= den.
Proof.
  intros Hd. unfold round_half_even. pose proof (Z.div_mod num den ltac:(lia)) as Hdm.
  pose proof (Z.mod_pos_bound num den Hd) as Hm.
  set (q := num / den) in *. set (r := num mod den) in *. clearbody q r.
  destruct (Z.ltb_spec (2 * r) den); [lia|]. destruct (Z.ltb_spec den (2 * r)); [lia|].
  destruct (Z.even q); lia.
Qed.

Lemma f64_of_usize_near (n : Z) :
  0 <= n < 2 ^ 64 -> Z.abs (n - f64_of_usize n) <= 1024 /\ (n < 2 ^ 53 -> f64_of_usize n = n).
Proof.
  intros Hn. unfold f64_of_usize. destruct (Z.ltb_spec n (2 ^ 53)) as [Hlt|Hge]; [split; [lia|done]|].
  split; [|lia].
  assert (Hl : 53 <= Z.log2 n <= 63).
  { split; [apply Z.log2_le_pow2; lia|]. assert (Z.log2 n < 64) by (apply Z.log2_lt_pow2; lia). lia. }
  assert (Hp : 0 < 2 ^ (Z.log2 n - 52) <= 2 ^ 11) by (split; [|apply Z.pow_le_mono_r]; lia).
  pose proof (round_half_even_near n _ (proj1 Hp)). lia.
Qed.

(** What is printed is the nearest number of hundredths; but for sizes from [2 ^ 53]
    bytes on the conversion to [f64] may lose up to 1024 bytes before. *)
Theorem format_bytes_near (n unit : Z) :
  0 <= n < 2 ^ 64 -> 0 < unit ->
  2 * Z.abs (100 * n - hundredths n unit * unit) <= unit + (if n <? 2 ^ 53 then 0 else 204800).
Proof.
  intros Hn Hu. destruct (f64_of_usize_near n Hn) as [Hf He]. unfold hundredths.
  pose proof (round_half_even_near (100 * f64_of_usize n) unit Hu) as Hr.
  destruct (Z.ltb_spec n (2 ^ 53)); [rewrite (He ltac:(lia)) in *|]; lia.
Qed.

(** Just below a unit the value is shown as 1024.00 of the smaller unit. *)
Lemma format_bytes_edge (n : Z) : MB - 5 <= n < MB -> format_bytes n = "1024.00 KB".
Proof.
  unfold MB, KB. intros Hn.
  assert (n = 1048571 \/ n = 1048572 \/ n = 1048573 \/ n = 1048574 \/ n = 1048575) as Hc by lia.
  by destruct Hc as [->|[->|[->|[->| ->]]]].
Qed.
